(* ===== verification/_CoqProject ===== *)
-Q . S2P
Prelude.v
GoLang.v
Wire.v
WireRef.v
Ring.v
TcpData.v
EarlyArrivals.v
Congestion.v
Rto.v
Retransmit.v
TcpReceive.v
TcpHandler.v
TcpApi.v
TcpStream.v
TcpStates.v
Handshake.v
TcpSend.v
Delivery.v
Progress.v
Teardown.v
RoutingTable.v
Rip.v
IpWire.v
Host.v
Forwarding.v
Icmp.v
GoStrings.v
Node.v
NodeInit.v
RipNet.v
NodeSockets.v
NodeWf.v
NodeSafe.v
FileTransfer.v
