(* ===== verification/Prelude.v ===== *)
(** * A verification library for the tcp-ip node

    The repository is a user-space TCP/IP node in Go: an IP host with RIP routing and
    traceroute over UDP links ([src/pkg/ip]), a TCP stack with a socket API
    ([src/pkg/tcp]), and a command line around them ([src/cmd/node]).  The library models
    the code of all three, and proves the properties that make them work.

    ** The program and how its parts interact

    A UDP datagram is read by [ListenOnPort] of [host.go], which gives the packet to
    [ReadFromLinkLayer]; that one checks it and starts the handler of its protocol, or
    forwards it ([SendToLinkLayer]).  The RIP handler and the traceroute handler answer
    through channels to the host.  The TCP handler finds the connection (TCB) of a segment
    and runs the handler of its state ([tcp_segment_receive.go]), which stores data,
    acknowledges ([Receive]), and signals the goroutines that wait.  Every connection has a
    goroutine that sends ([Send]) and one for the retransmission timer ([waitTimeout]);
    the application calls [Connect], [Listen], [Accept], [Read], [Write] and [Close]
    through the socket API.  Messages of TCP and RIP go to the host through channels that
    [ReadFromHandler] reads.  The node reads its configuration, and then command lines
    ([REPL]): its commands work on a table of sockets, on the host, and on files that [sf]
    and [rf] send and receive over a connection.

    ** Conventions

    - A [uint32] or [uint16] is a [Z], and every operation of the code that can wrap
      around is followed by the wrap-around of its type ([x ⊞ y] and [x ⊟ y] for
      [uint32]); Go's [int] is a [Z].
    - The body of a handler is a value of the monad [GoM] of [GoLang.v]: it reads and
      writes its state, panics ([Panic]), blocks or spins for ever ([Hang]), and emits its
      effects in program order: locks, signals, channel sends, messages, goroutines
      started.  A function that blocks is cut at the points where its goroutine can be
      suspended, and one turn of a loop around a [select] is one definition per arm.  So
      the goroutines of the program are sequences of steps that a theorem can interleave
      (as [Delivery.step] does), at the granularity of the code between two such points.
    - Sends on channels are effects and are taken to be received, except a send on a
      channel that does not exist, which blocks.
    - Times and random numbers are arguments.  The order of an iteration over a map is an
      argument, a permutation of the map.
    - Packages outside of the repository are parameters: the TCP header package
      ([Wire.Netstack], laws [Wire.NetstackLaws], instance in [WireRef.v]) and the IP
      header package ([IpWire.IPv4], [IpWire.IPv4Laws], with its instance).  The laws say
      that an encoded header has 20 bytes and is decoded to the same fields, and that the
      checksum is a 16-bit sum whose words can be added in any order.  Of the standard
      library, the parser of IPv6 addresses ([GoStrings.NetIP]) and the resolution of UDP
      addresses ([NodeInit.NetUDP]) are parameters without laws.
    - Objects that are shared by pointer are in a store: the TCBs of the handler, and the
      connections and listeners behind the sockets of the node.

    ** The files

    - [Prelude], [GoLang]: integers, lists indexed by integers, tactics; slices,
      [encoding/binary], the monad, a logic of two-state properties ([always]) and one of
      runs that do not panic ([wp]).
    - [Wire], [WireRef]: [tcp_handler_utils.go].  [Ring]: circular buffers as stretches of
      a byte stream.  [TcpData]: the structs of [tcp_handler.go] and [socket.go].
    - [EarlyArrivals] ([tcp_early_arrivals.go]), [Congestion] ([tcp_handler_cc.go]),
      [Rto] and [Retransmit] ([tcp_timeout.go]).
    - [TcpReceive] ([Receive], [ReceiveFin]), [TcpHandler] ([tcp_handler.go],
      [tcp_segment_receive.go]), [TcpApi] (the socket calls of [tcp_handler_core.go],
      [tcp_close.go], [vtcp_conn.go], [vtcp_listener.go]), [TcpSend] ([Send]).
    - [TcpStream], [TcpStates], [Handshake], [Delivery], [Progress], [Teardown]: theorems
      about them.
    - [RoutingTable] ([routing_table.go]), [Rip] ([rip_handler.go], [rip_protocol.go]).
    - [IpWire], [Host] ([host.go], [link_interface.go], [traceroute_handler.go]),
      [Forwarding], [Icmp]: the host and theorems about packets, traceroute and interfaces.
    - [GoStrings]: the string functions of the standard library that the commands use.
      [Node]: [node.go] and the files of its commands, and [test_handler.go].  [NodeInit]:
      [node_init.go], from the text of a configuration.
    - [RipNet]: a network of RIP routers.  [NodeSockets]: the table of sockets.  [NodeWf],
      [NodeSafe]: well-formed nodes and the running node.  [FileTransfer]: the commands [sf]
      and [rf] over the network of [Delivery].

    ** What the theorems show

    - The data of a connection: [Receive] keeps the receive buffer in agreement with the
      stream of the peer, [Read] returns the next bytes of it, [Write] appends to the
      stream of the send buffer, [Send] sends what the windows admit, a timeout sends the
      oldest segment again, and acknowledgements remove exactly what they cover.  Together
      ([Delivery]): over a network that loses, repeats and reorders messages, the reader
      gets a prefix of what was written, and no message makes the receiver panic or block.
      Retransmission makes up for messages that are lost for good, and the probe of a closed
      window carries the connection on ([Progress]); the file that [rf] writes is a prefix of
      the file that [sf] reads ([FileTransfer]).
    - The life of a connection: the three-way handshake, the transitions a packet can
      cause, which follow the state diagram but for a FIN that came early, and what it cannot
      touch, the orderly release.
    - Estimators: bounds of the congestion window and of the timeout, the rules of Tahoe.
    - The network: a TCP message reaches the handler of the destination over any path of
      less than 16 routers, with its bytes; a host drops, delivers, reports and forwards
      packets exactly on the stated conditions; forwarding ends; RIP takes the Bellman-Ford
      step and its periodic updates poison the reverse route; traceroute returns the path;
      interfaces go down and up.  In a network of routers ([RipNet]) every route of finite
      cost leads to its destination without a loop, whatever updates are lost, and periodic
      updates converge to the shortest paths.
    - The node: the text of a configuration makes a node that is ready; printed addresses are
      parsed back; descriptors are allocated lowest first; from its configuration on, under
      commands, goroutines, file transfers and packets, the node stays well formed and no
      command line panics, but for those that [NodeSafe.line_ok] rules out.
    - What goes wrong: a segment that overruns the window makes the receiver spin, a
      write on a closing connection keeps the lock, a connection whose peer's FIN overtakes
      its data never closes, a repeated FIN after a simultaneous close blocks, a FIN is read
      as a byte of data, triggered updates are empty, a packet with time to live zero is
      forwarded, a failed accept breaks the listing of the sockets, a late deletion takes the
      descriptor of a new connection, the end of a file transfer takes the socket of another
      listener.

    ** Bounds and fuel

    The copy loop of [Receive] has fuel 3: two turns and the final test are enough for
    every loop that ends ([TcpReceive.copy_loop_fits]), and a loop that needs more does not
    end ([copy_loop_spins]).  [Send_burst] takes fuel as an argument, and
    [Send_transmits_window] shows that 49 turns send a full window.  The loop of traceroute
    has the 16 turns of the code.  All other recursion is structural.  Theorems about
    streams hold while sequence numbers do not wrap around ([snd_inv], [rcv_inv]), because
    the buffer index of the code is not continuous there.

    ** What is not modelled

    The field [ConnectionType] (only ever 0), segments shorter than a header (left to the
    header package), logging, the layout of printed tables and the text of the help, the
    UDP sockets and the files themselves, [main], [StartNode] and [StartHost], which only
    start what is modelled.  [Delivery] and [FileTransfer] leave out the zero-window probe
    (which [Progress] follows by itself) and the release, and [RipNet] the timers of the
    routes and the interleaving of the goroutines that handle messages.  In [NodeSafe] timers
    and calls that go on after they were blocked are any change of TCP that leaves no dangling
    pointer and keeps the send buffers; it says nothing of panics of the goroutines.

    ** Plan

    The end of a file transfer (the FIN after the last byte, the whole file is copied); the
    zero-window probe as a step of [Delivery]; progress of bytes that are written and not yet sent;
    expired routes and withdrawn interfaces in [RipNet]; listeners with several pending
    connections; the timers of TCP as steps of the running node. *)

From stdpp Require Export base numbers list gmap fin_maps strings sorting.
From Stdlib Require Export ZArith Lia Strings.Byte.


#[export] Set Default Goal Selector "!".

Declare Scope go_scope.
Delimit Scope go_scope with go.

(** ** Machine integers

    A Go [uint8], [uint16] or [uint32] is a [Z] in the range of its width; every
    arithmetic operation of the code is followed by the wrap-around of its type. *)

Definition W8 : Z := 256.
Definition W16 : Z := 65536.
Definition W32 : Z := 4294967296.

Definition u8 (z : Z) : Z := z mod 256.
Definition u16 (z : Z) : Z := z mod 65536.
Definition u32 (z : Z) : Z := z mod 4294967296.

(** The range predicate of a [uint32]. *)
Definition is_u32 (z : Z) : Prop := (0 ≤ z < 4294967296)%Z.
Definition is_u16 (z : Z) : Prop := (0 ≤ z < 65536)%Z.

Notation "x ⊞ y" := (u32 (x + y)) (at level 50, left associativity) : go_scope.
Notation "x ⊟ y" := (u32 (x - y)) (at level 50, left associativity) : go_scope.

(** The comparisons the code makes on unsigned values. *)
Notation "x <? y" := (Z.ltb x y) : go_scope.
Notation "x <=? y" := (Z.leb x y) : go_scope.
Notation "x =? y" := (Z.eqb x y) : go_scope.

Open Scope Z_scope.
Open Scope go_scope.

Lemma u32_small z : 0 ≤ z < 4294967296 → u32 z = z.
Proof. apply Z.mod_small. Qed.

Lemma u16_small z : 0 ≤ z < 65536 → u16 z = z.
Proof. apply Z.mod_small. Qed.

Lemma u32_range z : 0 ≤ u32 z < 4294967296.
Proof. by apply Z.mod_pos_bound. Qed.

Lemma u16_range z : 0 ≤ u16 z < 65536.
Proof. by apply Z.mod_pos_bound. Qed.

Lemma u32_is_u32 z : is_u32 (u32 z).
Proof. apply u32_range. Qed.

Create HintDb go discriminated.
#[export] Hint Resolve u32_range u16_range u32_is_u32 : go.

(** [u32_norm] removes every wrap-around whose argument is provably in range. *)
Ltac u32_norm :=
  repeat match goal with
  | |- context [u32 ?z] => rewrite (u32_small z) by lia
  | H : context [u32 ?z] |- _ => rewrite (u32_small z) in H by lia
  end.

(** [bool_hyps] turns the boolean tests of the code into propositions. *)
Ltac bool_hyps :=
  repeat match goal with
  | H : context [Z.ltb ?a ?b] |- _ => destruct (Z.ltb_spec a b)
  | H : context [Z.leb ?a ?b] |- _ => destruct (Z.leb_spec a b)
  | H : context [Z.eqb ?a ?b] |- _ => destruct (Z.eqb_spec a b)
  | |- context [Z.ltb ?a ?b] => destruct (Z.ltb_spec a b)
  | |- context [Z.leb ?a ?b] => destruct (Z.leb_spec a b)
  | |- context [Z.eqb ?a ?b] => destruct (Z.eqb_spec a b)
  end.

(** ** Lists indexed by Go integers *)

Section zlist.
Context {A : Type}.
Implicit Types l k : list A.

Definition zlen l : Z := Z.of_nat (length l).
Definition ztake (n : Z) l : list A := take (Z.to_nat n) l.
Definition zdrop (n : Z) l : list A := drop (Z.to_nat n) l.
Definition zlookup l (i : Z) : option A :=
  if (0 <=? i) then l !! Z.to_nat i else None.

Lemma zlen_nonneg l : 0 ≤ zlen l.
Proof. unfold zlen. lia. Qed.

Lemma zlen_nil : zlen [] = 0.
Proof. done. Qed.

Lemma zlen_cons x l : zlen (x :: l) = 1 + zlen l.
Proof. unfold zlen. rewrite length_cons. lia. Qed.

Lemma zlen_app l k : zlen (l ++ k) = zlen l + zlen k.
Proof. unfold zlen. rewrite length_app. lia. Qed.

Lemma zlen_ztake n l : 0 ≤ n ≤ zlen l → zlen (ztake n l) = n.
Proof. unfold zlen, ztake. intros. rewrite length_take. lia. Qed.

Lemma zlen_zdrop n l : 0 ≤ n ≤ zlen l → zlen (zdrop n l) = zlen l - n.
Proof. unfold zlen, zdrop. intros. rewrite length_drop. lia. Qed.

Lemma ztake_all n l : zlen l ≤ n → ztake n l = l.
Proof. unfold zlen, ztake. intros. apply take_ge. lia. Qed.

Lemma ztake_zdrop n l : ztake n l ++ zdrop n l = l.
Proof. apply take_drop. Qed.

Lemma zlookup_neg l i : i < 0 → zlookup l i = None.
Proof. unfold zlookup. intros. bool_hyps; [lia|done]. Qed.

Lemma zlookup_ge l i : zlen l ≤ i → zlookup l i = None.
Proof.
  unfold zlookup, zlen. intros. bool_hyps; [|done].
  apply lookup_ge_None. lia.
Qed.

Lemma zlookup_app l k i :
  zlookup (l ++ k) i = if i <? zlen l then zlookup l i else zlookup k (i - zlen l).
Proof.
  unfold zlookup, zlen. bool_hyps; try done; try lia.
  - apply lookup_app_l. lia.
  - rewrite lookup_app_r by lia. f_equal. lia.
Qed.

Lemma zlookup_ztake l n i :
  zlookup (ztake n l) i = if i <? n then zlookup l i else None.
Proof.
  unfold zlookup, ztake. bool_hyps; try done.
  - apply lookup_take_lt. lia.
  - apply lookup_take_ge. lia.
Qed.

Lemma zlookup_zdrop l n i :
  0 ≤ n → 0 ≤ i → zlookup (zdrop n l) i = zlookup l (n + i).
Proof.
  unfold zlookup, zdrop. intros. bool_hyps; try lia.
  rewrite lookup_drop. f_equal. lia.
Qed.

Lemma zlookup_is_Some l i : 0 ≤ i < zlen l → is_Some (zlookup l i).
Proof.
  unfold zlookup, zlen. intros. bool_hyps; [|lia].
  apply lookup_lt_is_Some_2. lia.
Qed.

(** Two lists of the same length that agree at every index are equal. *)
Lemma zlist_eq l k :
  zlen l = zlen k → (∀ i, 0 ≤ i < zlen l → zlookup l i = zlookup k i) → l = k.
Proof.
  intros Hlen H. apply list_eq_same_length with (length k); [done|..].
  - unfold zlen in *. lia.
  - intros i x y Hi Hx Hy. specialize (H (Z.of_nat i)).
    unfold zlookup, zlen in *. rewrite Nat2Z.id in H.
    destruct (0 <=? Z.of_nat i) eqn:E; [|lia].
    rewrite H in Hx by lia. congruence.
Qed.
End zlist.

Create Rewrite HintDb zlist.
#[export] Hint Rewrite @zlen_app @zlen_nil @zlen_cons : zlist.
#[export] Hint Resolve zlen_nonneg : go.

Lemma filter_all {A} (P : A → Prop) `{∀ x, Decision (P x)} (l : list A) :
  Forall P l → filter P l = l.
Proof.
  induction 1; [done|]. rewrite filter_cons_True by done. by f_equal.
Qed.
