(* ===== verification/GoLang.v ===== *)
(** * The Go runtime used by the node

    What the source uses of the language and its standard library:
    - slice expressions [s[lo:hi]] and the built-in [copy], with the run-time
      panic of an index out of range as [None];
    - [encoding/binary]: big-endian [uint16] and [uint32], [binary.Read] from a
      [bytes.Reader] and [binary.Write] to a [bytes.Buffer];
    - a state, effect and error monad [GoM] for the bodies of the handlers: the
      result is a value, a panic, or a goroutine that blocks or spins for ever,
      and the effects (channel sends, locks, signals, goroutines started) are
      collected in program order. *)

From S2P Require Import Prelude.

#[global] Instance byte_eq_dec : EqDecision byte := Byte.byte_eq_dec.
#[global] Instance byte_inhabited : Inhabited byte := populate x00.

(** ** Slices *)

Section slices.
Context {A : Type}.
Implicit Types buf src : list A.

(** [s[lo:hi]] of a slice whose capacity is its length. *)
Definition slice buf (lo hi : Z) : option (list A) :=
  if (0 <=? lo) && (lo <=? hi) && (hi <=? zlen buf)
  then Some (ztake (hi - lo) (zdrop lo buf)) else None.

(** [copy(buf[lo:hi], src)]: the array after the copy. *)
Definition copy_into buf (lo hi : Z) src : option (list A) :=
  if (0 <=? lo) && (lo <=? hi) && (hi <=? zlen buf)
  then let n := Z.min (hi - lo) (zlen src) in
       Some (ztake lo buf ++ ztake n src ++ zdrop (lo + n) buf)
  else None.

Lemma slice_in buf lo hi :
  0 ≤ lo ≤ hi → hi ≤ zlen buf →
  slice buf lo hi = Some (ztake (hi - lo) (zdrop lo buf)).
Proof.
  intros. unfold slice. bool_hyps; simpl; try lia. done.
Qed.

Lemma slice_out buf lo hi :
  hi < lo ∨ zlen buf < hi → slice buf lo hi = None.
Proof. intros. unfold slice. bool_hyps; simpl; try lia; done. Qed.

Lemma copy_into_in buf lo hi src :
  0 ≤ lo ≤ hi → hi ≤ zlen buf →
  ∃ buf', copy_into buf lo hi src = Some buf' ∧ zlen buf' = zlen buf ∧
    ∀ i, 0 ≤ i < zlen buf →
      zlookup buf' i =
        if (lo <=? i) && (i <? lo + Z.min (hi - lo) (zlen src))
        then zlookup src (i - lo) else zlookup buf i.
Proof.
  intros Hlo Hhi. unfold copy_into.
  set (n := Z.min (hi - lo) (zlen src)).
  assert (Hn : 0 ≤ n ∧ n ≤ hi - lo ∧ n ≤ zlen src).
  { pose proof (zlen_nonneg src). lia. }
  eexists; split; [bool_hyps; simpl; try lia; done|]. split.
  { rewrite !zlen_app, !zlen_ztake, zlen_zdrop by lia. lia. }
  intros i Hi. rewrite !zlookup_app, !zlookup_ztake, !zlen_ztake by lia.
  bool_hyps; simpl; try lia; try done.
  rewrite zlookup_zdrop by lia. f_equal. lia.
Qed.
End slices.

(** ** Big-endian integers ([encoding/binary], [binary.BigEndian]) *)

Definition byte_of_Z (z : Z) : byte :=
  default x00 (Byte.of_N (Z.to_N (u8 z))).
Definition byte_to_Z (b : byte) : Z := Z.of_N (Byte.to_N b).

Lemma byte_to_Z_range b : 0 ≤ byte_to_Z b < 256.
Proof.
  unfold byte_to_Z. pose proof (Byte.to_N_bounded b). lia.
Qed.

Lemma byte_to_of_Z z : byte_to_Z (byte_of_Z z) = u8 z.
Proof.
  unfold byte_to_Z, byte_of_Z, u8.
  assert (0 ≤ z mod 256 < 256) by (apply Z.mod_pos_bound; lia).
  destruct (Byte.of_N _) as [b|] eqn:E; simpl.
  - apply Byte.to_of_N in E. rewrite E. lia.
  - apply Byte.of_N_None_iff in E. lia.
Qed.

Lemma byte_of_to_Z b : byte_of_Z (byte_to_Z b) = b.
Proof.
  unfold byte_of_Z, byte_to_Z, u8. pose proof (byte_to_Z_range b).
  unfold byte_to_Z in *. rewrite Z.mod_small by lia.
  rewrite N2Z.id, Byte.of_to_N. done.
Qed.

(** [binary.BigEndian.PutUint16], [PutUint32] and the matching readers. *)
Definition put_u16 (v : Z) : list byte :=
  [byte_of_Z (Z.shiftr v 8); byte_of_Z v].
Definition put_u32 (v : Z) : list byte :=
  [byte_of_Z (Z.shiftr v 24); byte_of_Z (Z.shiftr v 16);
   byte_of_Z (Z.shiftr v 8); byte_of_Z v].

Definition get_u16 (b0 b1 : byte) : Z := byte_to_Z b0 * 256 + byte_to_Z b1.
Definition get_u32 (b0 b1 b2 b3 : byte) : Z :=
  byte_to_Z b0 * 16777216 + byte_to_Z b1 * 65536 + byte_to_Z b2 * 256 + byte_to_Z b3.

(** [binary.BigEndian.Uint32(b)]: panics on fewer than four bytes. *)
Definition be_uint32 (b : list byte) : option Z :=
  match b with
  | b0 :: b1 :: b2 :: b3 :: _ => Some (get_u32 b0 b1 b2 b3)
  | _ => None
  end.

(** [binary.Read] of a [uint16] or [uint32] into a zero variable: a short read
    consumes what is left, and its error, which the code ignores, leaves the
    variable at zero. *)
Definition read_u16 (r : list byte) : Z * list byte :=
  match r with
  | b0 :: b1 :: r' => (get_u16 b0 b1, r')
  | _ => (0, [])
  end.
Definition read_u32 (r : list byte) : Z * list byte :=
  match r with
  | b0 :: b1 :: b2 :: b3 :: r' => (get_u32 b0 b1 b2 b3, r')
  | _ => (0, [])
  end.

Lemma get_u16_range b0 b1 : is_u16 (get_u16 b0 b1).
Proof.
  unfold is_u16, get_u16. pose proof (byte_to_Z_range b0).
  pose proof (byte_to_Z_range b1). lia.
Qed.

Lemma get_u32_range b0 b1 b2 b3 : is_u32 (get_u32 b0 b1 b2 b3).
Proof.
  unfold is_u32, get_u32. pose proof (byte_to_Z_range b0).
  pose proof (byte_to_Z_range b1). pose proof (byte_to_Z_range b2).
  pose proof (byte_to_Z_range b3). lia.
Qed.

Lemma get_put_u16 v :
  is_u16 v → get_u16 (byte_of_Z (Z.shiftr v 8)) (byte_of_Z v) = v.
Proof.
  unfold is_u16, get_u16, u8. intros. rewrite !byte_to_of_Z. unfold u8.
  rewrite Z.shiftr_div_pow2 by lia. change (2 ^ 8) with 256.
  rewrite (Z.mod_small (v / 256)) by (split; [apply Z.div_pos; lia|apply Z.div_lt_upper_bound; lia]).
  pose proof (Z.div_mod v 256). lia.
Qed.

Lemma get_put_u32 v :
  is_u32 v →
  get_u32 (byte_of_Z (Z.shiftr v 24)) (byte_of_Z (Z.shiftr v 16))
    (byte_of_Z (Z.shiftr v 8)) (byte_of_Z v) = v.
Proof.
  unfold is_u32, get_u32. intros. rewrite !byte_to_of_Z. unfold u8.
  rewrite !Z.shiftr_div_pow2 by lia.
  change (2 ^ 24) with 16777216. change (2 ^ 16) with 65536. change (2 ^ 8) with 256.
  Z.div_mod_to_equations. lia.
Qed.

Lemma read_put_u16 v r : is_u16 v → read_u16 (put_u16 v ++ r) = (v, r).
Proof. intros. simpl. by rewrite get_put_u16. Qed.

Lemma read_put_u32 v r : is_u32 v → read_u32 (put_u32 v ++ r) = (v, r).
Proof. intros. simpl. by rewrite get_put_u32. Qed.

Lemma be_put_u32 v r : is_u32 v → be_uint32 (put_u32 v ++ r) = Some v.
Proof. intros. simpl. by rewrite get_put_u32. Qed.

Lemma be_put_u32_nil v : is_u32 v → be_uint32 (put_u32 v) = Some v.
Proof. intros. simpl. by rewrite get_put_u32. Qed.

#[export] Hint Resolve get_u16_range get_u32_range byte_to_Z_range : go.

(** ** Handler bodies: state, effects and abnormal termination *)

(** [Panic]: the process dies with a run-time error. [Hang]: the goroutine blocks
    for ever on a channel, or loops for ever, in the state it has reached. *)
Inductive res (A : Type) : Type :=
  | Ok (a : A)
  | Panic
  | Hang.
Arguments Ok {A} _.
Arguments Panic {A}.
Arguments Hang {A}.

Definition GoM (S E A : Type) : Type := S → res A * S * list E.

Section monad.
Context {S E : Type}.

#[global] Instance go_ret : MRet (GoM S E) := λ A a s, (Ok a, s, []).

#[global] Instance go_bind : MBind (GoM S E) := λ A B k m s,
  match m s with
  | (Ok a, s', t) =>
      match k a s' with (r, s'', t') => (r, s'', t ++ t') end
  | (Panic, s', t) => (Panic, s', t)
  | (Hang, s', t) => (Hang, s', t)
  end.

(** Read and write the state, emit an effect, stop abnormally. *)
Definition get : GoM S E S := λ s, (Ok s, s, []).
Definition gets {A} (f : S → A) : GoM S E A := λ s, (Ok (f s), s, []).
Definition put (s' : S) : GoM S E unit := λ _, (Ok tt, s', []).
Definition modify (f : S → S) : GoM S E unit := λ s, (Ok tt, f s, []).
Definition emit (e : E) : GoM S E unit := λ s, (Ok tt, s, [e]).
Definition panic {A} : GoM S E A := λ s, (Panic, s, []).
Definition hang {A} : GoM S E A := λ s, (Hang, s, []).
Definition when (b : bool) (m : GoM S E unit) : GoM S E unit :=
  if b then m else mret tt.

(** A partial operation of the language ([None] is a run-time panic). *)
Definition try {A} (o : option A) : GoM S E A :=
  match o with Some a => mret a | None => panic end.
End monad.

(** The projections of a run. *)
Definition run_res {S E A} (m : GoM S E A) (s : S) : res A := (m s).1.1.
Definition run_state {S E A} (m : GoM S E A) (s : S) : S := (m s).1.2.
Definition run_trace {S E A} (m : GoM S E A) (s : S) : list E := (m s).2.

(** Executing a handler symbolically. *)
Ltac go_unfold :=
  unfold mbind, go_bind, mret, go_ret, get, gets, put, modify, emit, panic, hang,
    when, try in *.

(** The run that a goal asks for is the one the handler computes. *)
Ltac go_exists := eexists; split; [reflexivity|]; simpl.

Lemma run_eq {S E A} (m : GoM S E A) (s : S) (a : A) :
  run_res m s = Ok a → m s = (Ok a, run_state m s, run_trace m s).
Proof. unfold run_res, run_state, run_trace. destruct (m s) as [[r s'] t]. simpl. by intros ->. Qed.

Lemma go_bind_inv {S E A B} (m : GoM S E A) (k : A → GoM S E B) s b s2 t :
  (m ≫= k) s = (Ok b, s2, t) →
  ∃ a s1 t1 t2, m s = (Ok a, s1, t1) ∧ k a s1 = (Ok b, s2, t2) ∧ t = t1 ++ t2.
Proof.
  unfold mbind, go_bind. destruct (m s) as [[[a| |] s1] t1] eqn:Em; [|done..].
  destruct (k a s1) as [[r s3] t2] eqn:Ek. intros [= -> -> <-]. by exists a, s1, t1, t2.
Qed.

Lemma go_bind_ok {S E A B} (m : GoM S E A) (k : A → GoM S E B) s a s' t :
  m s = (Ok a, s', t) →
  (m ≫= k) s = ((k a s').1, t ++ (k a s').2).
Proof.
  intros Hm. unfold mbind, go_bind. rewrite Hm.
  by destruct (k a s') as [[r s''] t'].
Qed.

(** ** Two-state properties of every run, also of one that panics or blocks *)

Definition always {S E A} (R : S → S → Prop) (m : GoM S E A) : Prop :=
  ∀ s, R s (run_state m s).

Section always.
Context {S E : Type} (R : S → S → Prop) `{!PreOrder R}.

Lemma always_ret {A} (a : A) : always R (mret a : GoM S E A).
Proof. intros s. unfold run_state. simpl. reflexivity. Qed.

Lemma always_bind {A B} (m : GoM S E A) (k : A → GoM S E B) :
  always R m → (∀ a, always R (k a)) → always R (m ≫= k).
Proof.
  intros Hm Hk s. specialize (Hm s). unfold run_state in *. unfold mbind, go_bind.
  destruct (m s) as [[[a| |] s'] t]; simpl in *; [|done..].
  specialize (Hk a s'). unfold run_state in Hk.
  destruct (k a s') as [[r s''] t']. simpl in *. by transitivity s'.
Qed.

Lemma always_get : always R (get : GoM S E S).
Proof. intros s. unfold run_state. simpl. reflexivity. Qed.
Lemma always_gets {A} (f : S → A) : always R (gets f : GoM S E A).
Proof. intros s. unfold run_state. simpl. reflexivity. Qed.
Lemma always_emit (e : E) : always R (emit e : GoM S E unit).
Proof. intros s. unfold run_state. simpl. reflexivity. Qed.
Lemma always_panic {A} : always R (panic : GoM S E A).
Proof. intros s. unfold run_state. simpl. reflexivity. Qed.
Lemma always_hang {A} : always R (hang : GoM S E A).
Proof. intros s. unfold run_state. simpl. reflexivity. Qed.
Lemma always_try {A} (o : option A) : always R (try o : GoM S E A).
Proof. destruct o; [apply always_ret|apply always_panic]. Qed.
Lemma always_when b (m : GoM S E unit) : always R m → always R (when b m).
Proof. destruct b; [done|intros _; apply always_ret]. Qed.
Lemma always_modify (f : S → S) : (∀ s, R s (f s)) → always R (modify f : GoM S E unit).
Proof. intros Hf s. apply Hf. Qed.
Lemma always_if {A} (b : bool) (m n : GoM S E A) :
  always R m → always R n → always R (if b then m else n).
Proof. by destruct b. Qed.
Lemma always_decide {A} P `{Decision P} (m n : GoM S E A) :
  always R m → always R n → always R (if decide P then m else n).
Proof. by destruct (decide P). Qed.
End always.

Lemma always_get_then {S E A} (R : S → S → Prop) (k : S → GoM S E A) :
  (∀ s, R s (run_state (k s) s)) → always R (get ≫= k).
Proof.
  intros Hk s. specialize (Hk s). unfold run_state, mbind, go_bind, get in *. simpl in *.
  by destruct (k s s) as [[r s'] t].
Qed.

(** Two parts of a handler with different properties. *)
Lemma always_seq {S E A B} (R1 R2 R : S → S → Prop) (m : GoM S E A) (k : A → GoM S E B) :
  (∀ s s', R1 s s' → R s s') → (∀ s1 s2 s3, R1 s1 s2 → R2 s2 s3 → R s1 s3) →
  always R1 m → (∀ a, always R2 (k a)) → always R (m ≫= k).
Proof.
  intros Hsub Htrans Hm Hk s. specialize (Hm s). unfold run_state in *. unfold mbind, go_bind.
  destruct (m s) as [[[a| |] s'] t]; simpl in *; [|by apply Hsub..].
  specialize (Hk a s'). unfold run_state in Hk.
  destruct (k a s') as [[r s''] t']. simpl in *. by eapply Htrans.
Qed.

(** [always_tac tac]: the property of a handler from that of its statements, where [tac]
    settles an assignment. *)
Ltac always_tac tac :=
  repeat first
    [ assumption
    | match goal with |- PreOrder _ => apply _ end
    | apply always_ret | apply always_get | apply always_gets | apply always_emit
    | apply always_panic | apply always_hang | apply always_try
    | apply always_when | apply always_bind | apply always_if | apply always_decide
    | apply always_modify; intros; tac
    | match goal with |- always _ (match ?x with _ => _ end) => destruct x end
    | progress intros
    | solve [eauto with go] ].

(** ** Runs that do not panic *)

(** [m] does not panic from [s], and what it returns and the state then satisfy [Q]; it
    may block for ever only if [blocks] holds. *)
Definition wp {S E A} (blocks : Prop) (m : GoM S E A) (Q : A → S → Prop) (s : S) : Prop :=
  match m s with
  | (Ok a, s', _) => Q a s'
  | (Panic, _, _) => False
  | (Hang, _, _) => blocks
  end.

Section wp.
Context {S E : Type} (blocks : Prop).
Implicit Types s : S.

Lemma wp_ret {A} (a : A) (Q : A → S → Prop) s : Q a s → wp blocks (mret a : GoM S E A) Q s.
Proof. done. Qed.

Lemma wp_bind {A B} (m : GoM S E A) (k : A → GoM S E B) (Q : B → S → Prop) s :
  wp blocks m (λ a, wp blocks (k a) Q) s → wp blocks (m ≫= k) Q s.
Proof.
  unfold wp, mbind, go_bind. destruct (m s) as [[[a| |] s'] t]; [|done..].
  by destruct (k a s') as [[[b| |] s''] t'].
Qed.

Lemma wp_mono {A} (m : GoM S E A) (P Q : A → S → Prop) s :
  wp blocks m P s → (∀ a s', P a s' → Q a s') → wp blocks m Q s.
Proof. unfold wp. intros H HPQ. destruct (m s) as [[[a| |] s'] t]; auto. Qed.

Lemma wp_get (Q : S → S → Prop) s : Q s s → wp blocks (get : GoM S E S) Q s.
Proof. done. Qed.
Lemma wp_gets {A} (f : S → A) (Q : A → S → Prop) s :
  Q (f s) s → wp blocks (gets f : GoM S E A) Q s.
Proof. done. Qed.
Lemma wp_modify (f : S → S) (Q : unit → S → Prop) s :
  Q tt (f s) → wp blocks (modify f : GoM S E unit) Q s.
Proof. done. Qed.
Lemma wp_emit (e : E) (Q : unit → S → Prop) s : Q tt s → wp blocks (emit e) Q s.
Proof. done. Qed.
Lemma wp_hang {A} (Q : A → S → Prop) s : blocks → wp blocks (hang : GoM S E A) Q s.
Proof. done. Qed.
Lemma wp_when (b : bool) (m : GoM S E unit) (Q : unit → S → Prop) s :
  (b = true → wp blocks m Q s) → (b = false → Q tt s) → wp blocks (when b m) Q s.
Proof. destruct b; intros H1 H2; [exact (H1 eq_refl)|exact (H2 eq_refl)]. Qed.
Lemma wp_when_emit (b : bool) (e : E) (Q : unit → S → Prop) s :
  Q tt s → wp blocks (when b (emit e)) Q s.
Proof. by destruct b. Qed.
Lemma wp_try {A} (o : option A) (a : A) (Q : A → S → Prop) s :
  o = Some a → Q a s → wp blocks (try o : GoM S E A) Q s.
Proof. by intros ->. Qed.
Lemma wp_ok {A} (m : GoM S E A) (Q : A → S → Prop) s a s' t :
  m s = (Ok a, s', t) → wp blocks m Q s → Q a s'.
Proof. unfold wp. by intros ->. Qed.
Lemma wp_run {A} (m : GoM S E A) (Q : A → S → Prop) s a s' t :
  m s = (Ok a, s', t) → Q a s' → wp blocks m Q s.
Proof. unfold wp. by intros ->. Qed.
End wp.

(** One step through a body; the cases of its tests are left to the caller. *)
Ltac wp_step :=
  lazymatch goal with
  | |- wp _ (mbind _ _) _ _ => apply wp_bind
  | |- wp _ (mret _) _ _ => apply wp_ret
  | |- wp _ get _ _ => apply wp_get
  | |- wp _ (gets _) _ _ => apply wp_gets
  | |- wp _ (modify _) _ _ => apply wp_modify
  | |- wp _ (emit _) _ _ => apply wp_emit
  | |- wp _ (when _ (emit _)) _ _ => apply wp_when_emit
  end.
Ltac wp_steps := repeat (wp_step; cbv beta).
