(* ===== verification/Wire.v ===== *)
(** * TCP segments on the wire and the package that encodes them

    The node does not encode TCP headers itself: it calls
    [github.com/google/netstack/tcpip/header] for headers and checksums.  The package is
    an interface here: a class of operations and a class of the laws the node relies on.
    Everything else is parametric in it; [WireRef.v] has an instance.

    The rest of the file models [src/pkg/tcp/tcp_handler_utils.go]. *)

From S2P Require Import Prelude GoLang.

(** ** TCP headers: the netstack interface *)

(** [header.TCPFields]. *)
Record TCPFields := mkTCPFields {
  SrcPort : Z;
  DstPort : Z;
  SeqNum : Z;
  AckNum : Z;
  DataOffsetF : Z;
  FlagsF : Z;
  WindowSizeF : Z;
  ChecksumF : Z;
  UrgentPointer : Z
}.

#[global] Instance TCPFields_eq_dec : EqDecision TCPFields.
Proof. solve_decision. Defined.

Definition set_ChecksumF (c : Z) (f : TCPFields) : TCPFields :=
  mkTCPFields (SrcPort f) (DstPort f) (SeqNum f) (AckNum f) (DataOffsetF f)
    (FlagsF f) (WindowSizeF f) c (UrgentPointer f).

(** The fields are in the range of their types, and the data offset is a header
    length that fits in its four bits. *)
Definition wf_fields (f : TCPFields) : Prop :=
  is_u16 (SrcPort f) ∧ is_u16 (DstPort f) ∧ is_u32 (SeqNum f) ∧ is_u32 (AckNum f) ∧
  DataOffsetF f = 20 ∧ 0 ≤ FlagsF f < 64 ∧ is_u16 (WindowSizeF f) ∧
  is_u16 (ChecksumF f) ∧ is_u16 (UrgentPointer f).

(** The operations of netstack's package [header] the node calls.  The accessors
    read a segment (header and payload). *)
Class Netstack := {
  (** [header.Checksum(buf, initial)] *)
  Checksum : list byte → Z → Z;
  (** [TCP(make([]byte, TCPMinimumSize)).Encode(fields)] *)
  Encode : TCPFields → list byte;
  SourcePort : list byte → Z;
  DestinationPort : list byte → Z;
  SequenceNumber : list byte → Z;
  AckNumber : list byte → Z;
  DataOffset : list byte → Z;
  Flags : list byte → Z;
  WindowSize : list byte → Z;
  TCPChecksum : list byte → Z;
  TCPMinimumSize : Z;
  TCPProtocolNumber : Z;
  TCPFlagFin : Z;
  TCPFlagSyn : Z;
  TCPFlagAck : Z;
  ICMPv4TimeExceeded : Z
}.

(** What the package documents of them: the header layout of RFC 793, and the
    checksum of RFC 1071, whose sum of 16-bit words can be taken in any order. *)
Class NetstackLaws (N : Netstack) := {
  Checksum_u16 b i : is_u16 i → is_u16 (Checksum b i);
  Checksum_swap a b c i :
    is_u16 i → Nat.Even (length a) → Nat.Even (length b) →
    Checksum (a ++ b ++ c) i = Checksum (b ++ a ++ c) i;
  Encode_length f : length (Encode f) = 20%nat;
  Encode_SourcePort f p : wf_fields f → SourcePort (Encode f ++ p) = SrcPort f;
  Encode_DestinationPort f p : wf_fields f → DestinationPort (Encode f ++ p) = DstPort f;
  Encode_SequenceNumber f p : wf_fields f → SequenceNumber (Encode f ++ p) = SeqNum f;
  Encode_AckNumber f p : wf_fields f → AckNumber (Encode f ++ p) = AckNum f;
  Encode_DataOffset f p : wf_fields f → DataOffset (Encode f ++ p) = DataOffsetF f;
  Encode_Flags f p : wf_fields f → Flags (Encode f ++ p) = FlagsF f;
  Encode_WindowSize f p : wf_fields f → WindowSize (Encode f ++ p) = WindowSizeF f;
  Encode_Checksum f p : wf_fields f → TCPChecksum (Encode f ++ p) = ChecksumF f;
  SourcePort_u16 b : is_u16 (SourcePort b);
  DestinationPort_u16 b : is_u16 (DestinationPort b);
  SequenceNumber_u32 b : is_u32 (SequenceNumber b);
  AckNumber_u32 b : is_u32 (AckNumber b);
  WindowSize_u16 b : is_u16 (WindowSize b);
  TCPMinimumSize_20 : TCPMinimumSize = 20;
  TCPFlagFin_bit : TCPFlagFin = 1;
  TCPFlagSyn_bit : TCPFlagSyn = 2;
  TCPFlagAck_bit : TCPFlagAck = 16;
  ICMPv4TimeExceeded_type : ICMPv4TimeExceeded = 11
}.

#[export] Hint Resolve Checksum_u16 SequenceNumber_u32 AckNumber_u32 WindowSize_u16
  SourcePort_u16 DestinationPort_u16 : go.

(** [tcpHeader.Flags() & flag != 0] *)
Definition has_flag `{Netstack} (seg : list byte) (flag : Z) : bool :=
  negb (Z.land (Flags seg) flag =? 0).

(** ** [tcp_handler_utils.go] *)

Section utils.
Context {N : Netstack}.

Definition ComputeTCPChecksum (tcpHdr : TCPFields) (sourceIP destIP : Z)
    (payload : list byte) : Z :=
  let totalLen := TCPMinimumSize + zlen payload in
  let pshBytes :=
    put_u32 sourceIP ++ put_u32 destIP ++
    [byte_of_Z 0; byte_of_Z TCPProtocolNumber] ++ put_u16 (u16 totalLen) in
  let headerBytes := Encode tcpHdr in
  let pseudoHeaderChecksum := Checksum pshBytes 0 in
  let headerChecksum := Checksum headerBytes pseudoHeaderChecksum in
  let fullChecksum := Checksum payload headerChecksum in
  Z.lxor fullChecksum 65535.

Definition ParseTCPHeader (tcpHeader : list byte) : TCPFields :=
  {| SrcPort := SourcePort tcpHeader;
     DstPort := DestinationPort tcpHeader;
     SeqNum := SequenceNumber tcpHeader;
     AckNum := AckNumber tcpHeader;
     DataOffsetF := DataOffset tcpHeader;
     FlagsF := Flags tcpHeader;
     WindowSizeF := WindowSize tcpHeader;
     ChecksumF := TCPChecksum tcpHeader;
     UrgentPointer := 0 |}.

Definition CreateTCPHeader (srcAddr destAddr srcPort dstPort seqNum ackNum flags
    windowSize : Z) (payload : list byte) : TCPFields :=
  let tcpHdr :=
    {| SrcPort := srcPort;
       DstPort := dstPort;
       SeqNum := seqNum;
       AckNum := ackNum;
       DataOffsetF := 20;
       FlagsF := flags;
       WindowSizeF := u16 windowSize;
       ChecksumF := 0;
       UrgentPointer := 0 |} in
  let checkSum := ComputeTCPChecksum tcpHdr srcAddr destAddr payload in
  set_ChecksumF checkSum tcpHdr.

Definition MarshallTCPHeader (tcpHeader : TCPFields) (destAddr : Z) : list byte :=
  Encode tcpHeader.

(** The message handed to the IP layer: the two addresses, the header and the
    payload, as every sender in the package builds it in [bufToSend]. *)
Definition ip_message (localAddr destAddr : Z) (tcpHeader : TCPFields)
    (payload : list byte) : list byte :=
  put_u32 localAddr ++ put_u32 destAddr ++
  MarshallTCPHeader tcpHeader destAddr ++ payload.
End utils.

Definition MAX_BUF_SIZE : Z := 65535.
Definition MSS_DATA : Z := 1360.

Definition SequenceToBufferInd (val : Z) : Z := val mod MAX_BUF_SIZE.

Definition Min (val1 val2 : Z) : Z := if val1 <? val2 then val1 else val2.

Lemma Min_spec a b : Min a b = Z.min a b.
Proof. unfold Min. bool_hyps; lia. Qed.

(** ** The checksum test of a receiver accepts what a sender built *)

Section checksum.
Context {N : Netstack} {NL : NetstackLaws N}.

Lemma lxor_ffff_u16 x : is_u16 x → is_u16 (Z.lxor x 65535).
Proof.
  unfold is_u16. intros Hx.
  assert (0 ≤ Z.lxor x 65535) by (apply Z.lxor_nonneg; lia).
  split; [done|]. change 65536 with (2 ^ 16).
  destruct (Z.eq_dec (Z.lxor x 65535) 0) as [->|]; [lia|].
  apply Z.log2_lt_pow2; [lia|].
  eapply Z.le_lt_trans; [apply Z.log2_lxor; lia|].
  apply Z.max_lub_lt; [|by cbv].
  destruct (Z.eq_dec x 0) as [->|]; [by cbv|].
  apply Z.log2_lt_pow2; lia.
Qed.

Lemma ComputeTCPChecksum_u16 f s d p : is_u16 (ComputeTCPChecksum f s d p).
Proof.
  unfold ComputeTCPChecksum. apply lxor_ffff_u16.
  do 3 apply Checksum_u16. by unfold is_u16.
Qed.

(** The pseudo header may name the two addresses in either order. *)
Lemma ComputeTCPChecksum_swap f s d p :
  ComputeTCPChecksum f s d p = ComputeTCPChecksum f d s p.
Proof.
  unfold ComputeTCPChecksum. do 3 f_equal.
  apply Checksum_swap; [by unfold is_u16|by exists 2%nat..].
Qed.

Lemma CreateTCPHeader_wf s d sp dp sq ak fl w p :
  is_u16 sp → is_u16 dp → is_u32 sq → is_u32 ak → 0 ≤ fl < 64 →
  wf_fields (CreateTCPHeader s d sp dp sq ak fl w p).
Proof.
  intros. unfold wf_fields, CreateTCPHeader, set_ChecksumF.
  cbn [SrcPort DstPort SeqNum AckNum DataOffsetF FlagsF WindowSizeF ChecksumF
    UrgentPointer].
  do 8 (split; [first [done | apply u16_range | apply ComputeTCPChecksum_u16]|]).
  by unfold is_u16.
Qed.

Lemma ParseTCPHeader_Encode f p :
  wf_fields f → UrgentPointer f = 0 → ParseTCPHeader (Encode f ++ p) = f.
Proof.
  intros Hf Hu. unfold ParseTCPHeader.
  rewrite Encode_SourcePort, Encode_DestinationPort, Encode_SequenceNumber,
    Encode_AckNumber, Encode_DataOffset, Encode_Flags, Encode_WindowSize,
    Encode_Checksum by done.
  destruct f; simpl in *; congruence.
Qed.
End checksum.
