(* ===== verification/WireRef.v ===== *)
(** * An instance of the packet interfaces

    A header codec with the layout of RFC 793 and the checksum of RFC 1071, which
    satisfies [NetstackLaws]: the theorems that assume those laws are not vacuous,
    and the witnesses run on it.  It is not a model of code of the repository. *)

From S2P Require Import Prelude GoLang Wire.

Definition nth_byte (seg : list byte) (i : nat) : byte := default x00 (seg !! i).
Definition u16_at (seg : list byte) (i : nat) : Z :=
  get_u16 (nth_byte seg i) (nth_byte seg (i + 1)).
Definition u32_at (seg : list byte) (i : nat) : Z :=
  get_u32 (nth_byte seg i) (nth_byte seg (i + 1)) (nth_byte seg (i + 2)) (nth_byte seg (i + 3)).

(** One's complement addition of 16-bit words. *)
Definition ones_add (a b : Z) : Z := if 65536 <=? a + b then a + b - 65535 else a + b.

Fixpoint words (b : list byte) : list Z :=
  match b with
  | b0 :: b1 :: rest => get_u16 b0 b1 :: words rest
  | [b0] => [get_u16 b0 x00]
  | [] => []
  end.

Definition ref_checksum (b : list byte) (initial : Z) : Z :=
  fold_left ones_add (words b) initial.

Definition ref_encode (f : TCPFields) : list byte :=
  put_u16 (SrcPort f) ++ put_u16 (DstPort f) ++ put_u32 (SeqNum f) ++ put_u32 (AckNum f) ++
  [byte_of_Z (DataOffsetF f / 4 * 16); byte_of_Z (FlagsF f)] ++
  put_u16 (WindowSizeF f) ++ put_u16 (ChecksumF f) ++ put_u16 (UrgentPointer f).

#[export] Instance ref_netstack : Netstack := {|
  Checksum := ref_checksum;
  Encode := ref_encode;
  SourcePort := λ b, u16_at b 0;
  DestinationPort := λ b, u16_at b 2;
  SequenceNumber := λ b, u32_at b 4;
  AckNumber := λ b, u32_at b 8;
  DataOffset := λ b, byte_to_Z (nth_byte b 12) / 16 * 4;
  Flags := λ b, byte_to_Z (nth_byte b 13);
  WindowSize := λ b, u16_at b 14;
  TCPChecksum := λ b, u16_at b 16;
  TCPMinimumSize := 20;
  TCPProtocolNumber := 6;
  TCPFlagFin := 1;
  TCPFlagSyn := 2;
  TCPFlagAck := 16;
  ICMPv4TimeExceeded := 11
|}.

Lemma ones_add_u16 a b : is_u16 a → is_u16 b → is_u16 (ones_add a b).
Proof. unfold is_u16, ones_add. intros. bool_hyps; lia. Qed.

Lemma ones_add_comm3 i a b :
  is_u16 i → is_u16 a → is_u16 b →
  ones_add (ones_add i a) b = ones_add (ones_add i b) a.
Proof. unfold is_u16, ones_add. intros. bool_hyps; lia. Qed.

Lemma words_u16 b : Forall is_u16 (words b).
Proof.
  revert b. fix IH 1. intros [|b0 [|b1 b]]; simpl;
    repeat constructor; first [apply get_u16_range | apply IH].
Qed.

Lemma words_app a b : Nat.Even (length a) → words (a ++ b) = words a ++ words b.
Proof.
  revert a. fix IH 1. intros [|a0 [|a1 a]]; simpl; [done| |].
  - intros [k Hk]. lia.
  - intros [k Hk]. rewrite IH; [done|]. exists (k - 1)%nat. lia.
Qed.

Lemma fold_ones_u16 l i : is_u16 i → Forall is_u16 l → is_u16 (fold_left ones_add l i).
Proof.
  intros Hi Hl. revert i Hi. induction Hl; simpl; [done|]. intros.
  by apply IHHl, ones_add_u16.
Qed.

Lemma fold_ones_perm l k i :
  is_u16 i → Forall is_u16 l → l ≡ₚ k → fold_left ones_add l i = fold_left ones_add k i.
Proof.
  intros Hi Hl Hp. revert i Hi Hl. induction Hp; simpl; intros i Hi Hl.
  - done.
  - inversion Hl; subst. by apply IHHp; [apply ones_add_u16|].
  - inversion Hl as [|?? Hx Hl']; subst. inversion Hl'; subst. by rewrite ones_add_comm3.
  - rewrite IHHp1 by done. apply IHHp2; [done|]. by rewrite <-Hp1.
Qed.

Ltac codec_field :=
  intros f p (?&?&?&?&?&?&?&?&?); simpl; unfold u16_at, u32_at, nth_byte; simpl;
  rewrite ?get_put_u16, ?get_put_u32 by done; done.

#[export] Instance ref_netstack_laws : NetstackLaws ref_netstack.
Proof.
  split; simpl; try done; try codec_field;
    try (intros; unfold u16_at, u32_at; apply get_u16_range || apply get_u32_range).
  - intros b i Hi. apply fold_ones_u16; [done|apply words_u16].
  - intros a b c i Hi Ha Hb. unfold ref_checksum.
    apply fold_ones_perm; [done|apply words_u16|].
    rewrite !words_app by done. rewrite !app_assoc. f_equiv. apply Permutation_app_comm.
  - intros f p (?&?&?&?&E&_). unfold nth_byte. simpl.
    rewrite byte_to_of_Z, E. by cbv.
  - intros f p (?&?&?&?&?&E&_). unfold nth_byte. simpl.
    rewrite byte_to_of_Z. unfold u8. apply Z.mod_small. lia.
Qed.

(** C26: A receiver accepts what a sender built: the segment that [CreateTCPHeader]
    and [MarshallTCPHeader] produce passes the checksum test of [ReceivePacket],
    although the receiver writes the two addresses into the pseudo header in the
    opposite order, and parsing it gives the header fields back. *)
Theorem checksum_roundtrip {N : Netstack} {NL : NetstackLaws N}
    (src dst sp dp seq ack flags win : Z) (payload : list byte) :
  is_u16 sp → is_u16 dp → is_u32 seq → is_u32 ack → 0 ≤ flags < 64 →
  let hdr := CreateTCPHeader src dst sp dp seq ack flags win payload in
  let seg := MarshallTCPHeader hdr dst ++ payload in
  ComputeTCPChecksum (set_ChecksumF 0 (ParseTCPHeader seg)) dst src payload
    = TCPChecksum seg ∧
  ParseTCPHeader seg = hdr.
Proof.
  intros ????? hdr seg.
  assert (Hwf : wf_fields hdr) by (by apply CreateTCPHeader_wf).
  assert (Hp : ParseTCPHeader seg = hdr) by (by apply ParseTCPHeader_Encode).
  split; [|done]. rewrite Hp. unfold seg, MarshallTCPHeader.
  rewrite Encode_Checksum by done. rewrite ComputeTCPChecksum_swap. done.
Qed.

Lemma checksum_roundtrip_witness :
  let hdr := CreateTCPHeader 3232235521 3232235522 1025 80 7 9 24 65535 [x61; x62; x63] in
  let seg := MarshallTCPHeader hdr 3232235522 ++ [x61; x62; x63] in
  ComputeTCPChecksum (set_ChecksumF 0 (ParseTCPHeader seg)) 3232235522 3232235521 [x61; x62; x63]
    = TCPChecksum seg ∧
  ParseTCPHeader seg = hdr.
Proof.
  apply (checksum_roundtrip 3232235521 3232235522 1025 80 7 9 24 65535);
    unfold is_u16, is_u32; lia.
Defined.
