(* ===== verification/Ring.v ===== *)
(** * Circular buffers addressed by sequence number

    Both buffers of a connection are arrays of [MAX_BUF_SIZE] bytes in which the
    byte of sequence number [x] lives at [SequenceToBufferInd x].  This file has
    the abstract view the receive, read, write, send and retransmission routines
    are proved against: writing a segment ([ring_put]), reading a window
    ([ring_window]) and a buffer that holds a stretch of a byte stream
    ([holds]). *)

From S2P Require Import Prelude GoLang Wire.

(** The cell of sequence number [x]. *)
Definition rlookup (buf : list byte) (x : Z) : option byte :=
  zlookup buf (SequenceToBufferInd x).

(** [buf'] is [buf] with the bytes [p] stored from sequence number [s] on. *)
Definition ring_put (buf : list byte) (s : Z) (p buf' : list byte) : Prop :=
  zlen buf' = MAX_BUF_SIZE ∧
  ∀ d, 0 ≤ d < MAX_BUF_SIZE →
    rlookup buf' (s + d) = if d <? zlen p then zlookup p d else rlookup buf (s + d).

(** [w] is what [buf] has at the [n] sequence numbers from [s] on. *)
Definition ring_window (buf : list byte) (s n : Z) (w : list byte) : Prop :=
  zlen w = n ∧ ∀ d, 0 ≤ d < n → zlookup w d = rlookup buf (s + d).

(** The bytes of the stream [st] with sequence numbers [a], ..., [b-1] are in [buf]. *)
Definition holds (buf : list byte) (st : Z → byte) (a b : Z) : Prop :=
  ∀ x, a ≤ x < b → rlookup buf x = Some (st x).

(** The bytes [p] are those of [st] from [s] on. *)
Definition carries (st : Z → byte) (s : Z) (p : list byte) : Prop :=
  ∀ d, 0 ≤ d < zlen p → zlookup p d = Some (st (s + d)).

(** The stretch of [st] of length [n] from [s] on. *)
Definition stretch (st : Z → byte) (s n : Z) : list byte := st <$> seqZ s n.

(** ** Index arithmetic *)

Lemma SequenceToBufferInd_range x : 0 ≤ SequenceToBufferInd x < MAX_BUF_SIZE.
Proof. unfold SequenceToBufferInd. by apply Z.mod_pos_bound. Qed.

(** [ring_idx] splits on whether an offset from a sequence number wraps. *)
Lemma SequenceToBufferInd_add s d :
  0 ≤ d < MAX_BUF_SIZE →
  SequenceToBufferInd (s + d) =
    if SequenceToBufferInd s + d <? MAX_BUF_SIZE
    then SequenceToBufferInd s + d
    else SequenceToBufferInd s + d - MAX_BUF_SIZE.
Proof.
  intros Hd. unfold SequenceToBufferInd, MAX_BUF_SIZE in *.
  bool_hyps; Z.div_mod_to_equations; lia.
Qed.

Lemma SequenceToBufferInd_inj base x y :
  base ≤ x < base + MAX_BUF_SIZE → base ≤ y < base + MAX_BUF_SIZE →
  SequenceToBufferInd x = SequenceToBufferInd y → x = y.
Proof.
  unfold SequenceToBufferInd, MAX_BUF_SIZE. intros.
  Z.div_mod_to_equations. lia.
Qed.

(** Every cell is the cell of a sequence number of the window that starts at [s]. *)
Lemma ring_cell s x :
  ∃ d, 0 ≤ d < MAX_BUF_SIZE ∧ SequenceToBufferInd x = SequenceToBufferInd (s + d).
Proof.
  exists ((x - s) mod MAX_BUF_SIZE). split; [by apply Z.mod_pos_bound|].
  unfold SequenceToBufferInd. rewrite Zplus_mod_idemp_r. f_equal. lia.
Qed.

(** ** Stretches of a stream *)

Lemma zlen_stretch st s n : 0 ≤ n → zlen (stretch st s n) = n.
Proof. intros. unfold zlen, stretch. rewrite length_fmap, length_seqZ. lia. Qed.

Lemma zlookup_stretch st s n d :
  0 ≤ d < n → zlookup (stretch st s n) d = Some (st (s + d)).
Proof.
  intros. unfold zlookup, stretch. bool_hyps; [|lia].
  rewrite list_lookup_fmap, (lookup_seqZ_lt s n (Z.to_nat d)) by lia. simpl.
  do 2 f_equal. lia.
Qed.

Lemma stretch_app st s n m :
  0 ≤ n → 0 ≤ m → stretch st s (n + m) = stretch st s n ++ stretch st (s + n) m.
Proof. intros. unfold stretch. rewrite seqZ_app by lia. by rewrite fmap_app. Qed.

Lemma stretch_nil st s : stretch st s 0 = [].
Proof. done. Qed.

Lemma carries_stretch st s n : 0 ≤ n → carries st s (stretch st s n).
Proof.
  intros Hn d. rewrite zlen_stretch by done. by apply zlookup_stretch.
Qed.

Lemma carries_eq st s p : carries st s p → p = stretch st s (zlen p).
Proof.
  intros H. pose proof (zlen_nonneg p).
  apply zlist_eq; rewrite ?zlen_stretch by done; [done|].
  intros d Hd. rewrite zlookup_stretch by done. by apply H.
Qed.

(** ** Windows, writes and streams *)

Lemma holds_window buf st s n w :
  holds buf st s (s + n) → ring_window buf s n w → w = stretch st s n.
Proof.
  intros Hh [Hlen Hw]. pose proof (zlen_nonneg w).
  apply zlist_eq; rewrite ?zlen_stretch by lia; [done|].
  intros d Hd. rewrite zlookup_stretch, Hw, Hh by lia. done.
Qed.

Lemma holds_weaken buf st a b a' b' :
  holds buf st a b → a ≤ a' → b' ≤ b → holds buf st a' b'.
Proof. intros H ?? x ?. apply H. lia. Qed.

Lemma holds_app buf st a b c :
  holds buf st a b → holds buf st b c → holds buf st a c.
Proof. intros H1 H2 x Hx. destruct (decide (x < b)); [apply H1|apply H2]; lia. Qed.

Lemma holds_empty buf st a b : b ≤ a → holds buf st a b.
Proof. intros ? x ?. lia. Qed.

(** A write of bytes of the stream makes the buffer hold them... *)
Lemma ring_put_holds buf s p buf' st :
  ring_put buf s p buf' → carries st s p → zlen p ≤ MAX_BUF_SIZE →
  holds buf' st s (s + zlen p).
Proof.
  intros [_ Hput] Hc Hlen x Hx. specialize (Hput (x - s)).
  replace (s + (x - s)) with x in Hput by lia. rewrite Hput by lia.
  destruct (Z.ltb_spec (x - s) (zlen p)); [|lia].
  rewrite Hc by lia. do 2 f_equal. lia.
Qed.

(** ... and keeps what it held of the window the write stays inside. *)
Lemma ring_put_keeps buf s p buf' st base a b :
  ring_put buf s p buf' → carries st s p →
  base ≤ s → s + zlen p ≤ base + MAX_BUF_SIZE →
  base ≤ a → b ≤ base + MAX_BUF_SIZE →
  holds buf st a b → holds buf' st a b.
Proof.
  intros [_ Hput] Hc Hs Hp Ha Hb Hh x Hx. pose proof (zlen_nonneg p).
  destruct (ring_cell s x) as (d & Hd & Heq).
  unfold rlookup at 1. rewrite Heq. fold (rlookup buf' (s + d)).
  rewrite Hput by done. destruct (Z.ltb_spec d (zlen p)).
  - apply (SequenceToBufferInd_inj base) in Heq; [|lia..].
    rewrite Hc by lia. by rewrite Heq.
  - unfold rlookup. rewrite <-Heq. by apply Hh.
Qed.

(** ** The two ways the code splits an access at the end of the array *)

(** [copy(buf[i:], p[:n]); copy(buf[:m], p[n:])] *)
Lemma ring_put_split buf s p1 p2 buf1 buf2 :
  zlen buf = MAX_BUF_SIZE →
  zlen p1 = MAX_BUF_SIZE - SequenceToBufferInd s →
  zlen p2 ≤ SequenceToBufferInd s →
  copy_into buf (SequenceToBufferInd s) (zlen buf) p1 = Some buf1 →
  copy_into buf1 0 (zlen p2) p2 = Some buf2 →
  ring_put buf s (p1 ++ p2) buf2.
Proof.
  intros Hb H1 H2 E1 E2. pose proof (SequenceToBufferInd_range s).
  pose proof (zlen_nonneg p2).
  destruct (copy_into_in buf (SequenceToBufferInd s) (zlen buf) p1)
    as (b1 & E1' & L1 & C1); [lia..|].
  rewrite E1 in E1'. simplify_eq.
  destruct (copy_into_in b1 0 (zlen p2) p2) as (b2 & E2' & L2 & C2); [lia..|].
  rewrite E2 in E2'. simplify_eq.
  split; [lia|]. intros d Hd. unfold rlookup. rewrite SequenceToBufferInd_add by done.
  rewrite zlookup_app, zlen_app.
  destruct (Z.ltb_spec (SequenceToBufferInd s + d) MAX_BUF_SIZE).
  - rewrite C2, C1 by lia. bool_hyps; simpl; try lia; f_equal; lia.
  - rewrite C2 by lia. bool_hyps; simpl; try lia.
    + f_equal. lia.
    + rewrite C1 by lia. bool_hyps; simpl; try lia. done.
Qed.

(** [copy(buf[i:hi], p)] when the bytes end before the end of the array. *)
Lemma ring_put_straight buf s p hi buf' :
  zlen buf = MAX_BUF_SIZE →
  SequenceToBufferInd s + zlen p ≤ hi → hi ≤ MAX_BUF_SIZE →
  copy_into buf (SequenceToBufferInd s) hi p = Some buf' →
  ring_put buf s p buf'.
Proof.
  intros Hb H1 H2 E. pose proof (SequenceToBufferInd_range s). pose proof (zlen_nonneg p).
  destruct (copy_into_in buf (SequenceToBufferInd s) hi p) as (b1 & E1 & L1 & C1); [lia..|].
  rewrite E in E1. simplify_eq. split; [lia|].
  intros d Hd. unfold rlookup. rewrite SequenceToBufferInd_add by done.
  destruct (Z.ltb_spec (SequenceToBufferInd s + d) MAX_BUF_SIZE);
    rewrite C1 by lia; bool_hyps; simpl; try lia; try done; f_equal; lia.
Qed.

(** [append(buf[i:], buf[0:m]...)] *)
Lemma ring_window_split buf s n :
  zlen buf = MAX_BUF_SIZE → n ≤ MAX_BUF_SIZE →
  MAX_BUF_SIZE ≤ SequenceToBufferInd s + n →
  ring_window buf s n
    (zdrop (SequenceToBufferInd s) buf ++ ztake (SequenceToBufferInd s + n - MAX_BUF_SIZE) buf).
Proof.
  intros Hb Hn Hw. pose proof (SequenceToBufferInd_range s). split.
  { rewrite zlen_app, zlen_zdrop, zlen_ztake by lia. lia. }
  intros d Hd. unfold rlookup. rewrite SequenceToBufferInd_add by lia.
  rewrite zlookup_app, zlen_zdrop, zlookup_ztake by lia.
  bool_hyps; try lia.
  - rewrite zlookup_zdrop by lia. done.
  - f_equal. lia.
Qed.

(** [buf[i:i+n]] *)
Lemma ring_window_straight buf s n :
  zlen buf = MAX_BUF_SIZE → 0 ≤ n →
  SequenceToBufferInd s + n ≤ MAX_BUF_SIZE →
  ring_window buf s n (ztake n (zdrop (SequenceToBufferInd s) buf)).
Proof.
  intros Hb Hn Hw. pose proof (SequenceToBufferInd_range s). split.
  { rewrite zlen_ztake; [done|]. rewrite zlen_zdrop by lia. lia. }
  intros d Hd. unfold rlookup. rewrite SequenceToBufferInd_add by lia.
  rewrite zlookup_ztake, zlookup_zdrop by lia. bool_hyps; try lia. done.
Qed.
