(* ===== verification/TcpData.v ===== *)
(** * The data of the TCP stack

    [src/pkg/tcp/socket.go] and the types of [src/pkg/tcp/tcp_handler.go],
    [tcp_timeout.go] and [tcp_early_arrivals.go].  A mutex, a condition variable, a
    channel or a goroutine is not state of a record: operations on it are effects
    ([eff]) that a handler emits in program order. *)

From S2P Require Import Prelude GoLang Wire.

(** ** [socket.go] *)

Inductive SocketType := LISTENER | CONNECTION.

Inductive ConnectionState :=
  | CLOSED
  | LISTEN
  | SYN_SENT
  | SYN_RECEIVED
  | ESTABLISHED
  | FIN_WAIT_1
  | FIN_WAIT_2
  | CLOSING
  | TIME_WAIT
  | CLOSE_WAIT
  | LAST_ACK.

#[global] Instance ConnectionState_eq_dec : EqDecision ConnectionState.
Proof. solve_decision. Defined.

Definition SocketStateToString (state : ConnectionState) : string :=
  match state with
  | CLOSED => "CLOSED"
  | LISTEN => "LISTEN"
  | SYN_SENT => "SYN_SENT"
  | SYN_RECEIVED => "SYN_RECEIVED"
  | ESTABLISHED => "ESTABLISHED"
  | FIN_WAIT_1 => "FIN_WAIT_1"
  | FIN_WAIT_2 => "FIN_WAIT_2"
  | TIME_WAIT => "TIME_WAIT"
  | CLOSE_WAIT => "CLOSE_WAIT"
  | _ => "LAST_ACK"
  end.

(** ** [tcp_handler.go] *)

Record SocketData := mkSocketData {
  LocalAddr : Z;
  LocalPort : Z;
  DestAddr : Z;
  DestPort : Z
}.

#[global] Instance SocketData_eq_dec : EqDecision SocketData.
Proof. solve_decision. Defined.

#[global] Instance SocketData_countable : Countable SocketData.
Proof.
  refine (inj_countable'
    (λ k, (LocalAddr k, LocalPort k, DestAddr k, DestPort k))
    (λ '(a, b, c, d), mkSocketData a b c d) _).
  by intros [].
Defined.

(** The zero value of the struct. *)
Definition zero_SocketData : SocketData := mkSocketData 0 0 0 0.

Definition INIT_CWND : Z := MSS_DATA.
Definition INIT_THRESHOLD : Z := 65535.
Definition MAX_DUP : Z := 3.

(** Durations are [int64] counts of nanoseconds ([time.Duration]). *)
Definition RTO_UPPER : Z := 1000000000.
Definition RTO_LOWER : Z := 1000000.
Definition MAX_RETRANSMISSIONS : Z := 5.

Record RetransmitSegment := mkRetransmitSegment {
  RTCPHeader : TCPFields;
  RPayloadLen : Z
}.

#[global] Instance RetransmitSegment_eq_dec : EqDecision RetransmitSegment.
Proof. solve_decision. Defined.

Record EarlyArrivalEntry := mkEarlyArrivalEntry {
  SequenceNum : Z;
  PayloadLen : Z
}.

#[global] Instance EarlyArrivalEntry_eq_dec : EqDecision EarlyArrivalEntry.
Proof. solve_decision. Defined.

(** The sending side: [UNA], [NXT] and [LBW] are absolute sequence numbers. *)
Record SendT := mkSend {
  SND_Buffer : list byte;
  SND_UNA : Z;
  SND_NXT : Z;
  SND_WND : Z;
  SND_ISS : Z;
  SND_LBW : Z
}.

(** The receiving side. *)
Record ReceiveT := mkReceive {
  RCV_Buffer : list byte;
  RCV_NXT : Z;
  RCV_WND : Z;
  RCV_IRS : Z;
  RCV_LBR : Z
}.

(** The transmission control block.  [ResetWaitChan] says whether the channel of
    that name has been made; a send on a channel that has not blocks for ever. *)
Record TCB := mkTCB {
  State : ConnectionState;
  SND : SendT;
  RCV : ReceiveT;
  ResetWaitChan : bool;
  ListenKey : SocketData;
  Cancelled : bool;
  TimeoutCancelled : bool;
  RTO : Z;
  SRTT : Z;
  RetransmissionQueue : list RetransmitSegment;
  RetransmitCounter : Z;
  SegmentToTimestamp : gmap Z Z;
  PendingReceivedFin : Z;
  PendingSendingFin : bool;
  EarlyArrivalQueue : list EarlyArrivalEntry;
  PendingConnections : list SocketData;
  CWND : Z;
  SSTHRESH : Z;
  CControlEnabled : bool;
  CurrentAck : Z;
  CurrentAckFreq : Z
}.

(** Assignments to a field. *)
Definition set_SND_Buffer (v : list byte) (s : SendT) : SendT :=
  mkSend v (SND_UNA s) (SND_NXT s) (SND_WND s) (SND_ISS s) (SND_LBW s).
Definition set_SND_UNA (v : Z) (s : SendT) : SendT :=
  mkSend (SND_Buffer s) v (SND_NXT s) (SND_WND s) (SND_ISS s) (SND_LBW s).
Definition set_SND_NXT (v : Z) (s : SendT) : SendT :=
  mkSend (SND_Buffer s) (SND_UNA s) v (SND_WND s) (SND_ISS s) (SND_LBW s).
Definition set_SND_WND (v : Z) (s : SendT) : SendT :=
  mkSend (SND_Buffer s) (SND_UNA s) (SND_NXT s) v (SND_ISS s) (SND_LBW s).
Definition set_SND_ISS (v : Z) (s : SendT) : SendT :=
  mkSend (SND_Buffer s) (SND_UNA s) (SND_NXT s) (SND_WND s) v (SND_LBW s).
Definition set_SND_LBW (v : Z) (s : SendT) : SendT :=
  mkSend (SND_Buffer s) (SND_UNA s) (SND_NXT s) (SND_WND s) (SND_ISS s) v.
Definition set_RCV_Buffer (v : list byte) (s : ReceiveT) : ReceiveT :=
  mkReceive v (RCV_NXT s) (RCV_WND s) (RCV_IRS s) (RCV_LBR s).
Definition set_RCV_NXT (v : Z) (s : ReceiveT) : ReceiveT :=
  mkReceive (RCV_Buffer s) v (RCV_WND s) (RCV_IRS s) (RCV_LBR s).
Definition set_RCV_WND (v : Z) (s : ReceiveT) : ReceiveT :=
  mkReceive (RCV_Buffer s) (RCV_NXT s) v (RCV_IRS s) (RCV_LBR s).
Definition set_RCV_IRS (v : Z) (s : ReceiveT) : ReceiveT :=
  mkReceive (RCV_Buffer s) (RCV_NXT s) (RCV_WND s) v (RCV_LBR s).
Definition set_RCV_LBR (v : Z) (s : ReceiveT) : ReceiveT :=
  mkReceive (RCV_Buffer s) (RCV_NXT s) (RCV_WND s) (RCV_IRS s) v.
Definition set_State (v : ConnectionState) (s : TCB) : TCB :=
  mkTCB v (SND s) (RCV s) (ResetWaitChan s) (ListenKey s) (Cancelled s) (TimeoutCancelled s)
    (RTO s) (SRTT s) (RetransmissionQueue s) (RetransmitCounter s) (SegmentToTimestamp s)
    (PendingReceivedFin s) (PendingSendingFin s) (EarlyArrivalQueue s)
    (PendingConnections s) (CWND s) (SSTHRESH s) (CControlEnabled s) (CurrentAck s)
    (CurrentAckFreq s).
Definition set_SND (v : SendT) (s : TCB) : TCB :=
  mkTCB (State s) v (RCV s) (ResetWaitChan s) (ListenKey s) (Cancelled s)
    (TimeoutCancelled s) (RTO s) (SRTT s) (RetransmissionQueue s) (RetransmitCounter s)
    (SegmentToTimestamp s) (PendingReceivedFin s) (PendingSendingFin s)
    (EarlyArrivalQueue s) (PendingConnections s) (CWND s) (SSTHRESH s) (CControlEnabled s)
    (CurrentAck s) (CurrentAckFreq s).
Definition set_RCV (v : ReceiveT) (s : TCB) : TCB :=
  mkTCB (State s) (SND s) v (ResetWaitChan s) (ListenKey s) (Cancelled s)
    (TimeoutCancelled s) (RTO s) (SRTT s) (RetransmissionQueue s) (RetransmitCounter s)
    (SegmentToTimestamp s) (PendingReceivedFin s) (PendingSendingFin s)
    (EarlyArrivalQueue s) (PendingConnections s) (CWND s) (SSTHRESH s) (CControlEnabled s)
    (CurrentAck s) (CurrentAckFreq s).
Definition set_ResetWaitChan (v : bool) (s : TCB) : TCB :=
  mkTCB (State s) (SND s) (RCV s) v (ListenKey s) (Cancelled s) (TimeoutCancelled s) (RTO s)
    (SRTT s) (RetransmissionQueue s) (RetransmitCounter s) (SegmentToTimestamp s)
    (PendingReceivedFin s) (PendingSendingFin s) (EarlyArrivalQueue s)
    (PendingConnections s) (CWND s) (SSTHRESH s) (CControlEnabled s) (CurrentAck s)
    (CurrentAckFreq s).
Definition set_ListenKey (v : SocketData) (s : TCB) : TCB :=
  mkTCB (State s) (SND s) (RCV s) (ResetWaitChan s) v (Cancelled s) (TimeoutCancelled s)
    (RTO s) (SRTT s) (RetransmissionQueue s) (RetransmitCounter s) (SegmentToTimestamp s)
    (PendingReceivedFin s) (PendingSendingFin s) (EarlyArrivalQueue s)
    (PendingConnections s) (CWND s) (SSTHRESH s) (CControlEnabled s) (CurrentAck s)
    (CurrentAckFreq s).
Definition set_Cancelled (v : bool) (s : TCB) : TCB :=
  mkTCB (State s) (SND s) (RCV s) (ResetWaitChan s) (ListenKey s) v (TimeoutCancelled s)
    (RTO s) (SRTT s) (RetransmissionQueue s) (RetransmitCounter s) (SegmentToTimestamp s)
    (PendingReceivedFin s) (PendingSendingFin s) (EarlyArrivalQueue s)
    (PendingConnections s) (CWND s) (SSTHRESH s) (CControlEnabled s) (CurrentAck s)
    (CurrentAckFreq s).
Definition set_TimeoutCancelled (v : bool) (s : TCB) : TCB :=
  mkTCB (State s) (SND s) (RCV s) (ResetWaitChan s) (ListenKey s) (Cancelled s) v (RTO s)
    (SRTT s) (RetransmissionQueue s) (RetransmitCounter s) (SegmentToTimestamp s)
    (PendingReceivedFin s) (PendingSendingFin s) (EarlyArrivalQueue s)
    (PendingConnections s) (CWND s) (SSTHRESH s) (CControlEnabled s) (CurrentAck s)
    (CurrentAckFreq s).
Definition set_RTO (v : Z) (s : TCB) : TCB :=
  mkTCB (State s) (SND s) (RCV s) (ResetWaitChan s) (ListenKey s) (Cancelled s)
    (TimeoutCancelled s) v (SRTT s) (RetransmissionQueue s) (RetransmitCounter s)
    (SegmentToTimestamp s) (PendingReceivedFin s) (PendingSendingFin s)
    (EarlyArrivalQueue s) (PendingConnections s) (CWND s) (SSTHRESH s) (CControlEnabled s)
    (CurrentAck s) (CurrentAckFreq s).
Definition set_SRTT (v : Z) (s : TCB) : TCB :=
  mkTCB (State s) (SND s) (RCV s) (ResetWaitChan s) (ListenKey s) (Cancelled s)
    (TimeoutCancelled s) (RTO s) v (RetransmissionQueue s) (RetransmitCounter s)
    (SegmentToTimestamp s) (PendingReceivedFin s) (PendingSendingFin s)
    (EarlyArrivalQueue s) (PendingConnections s) (CWND s) (SSTHRESH s) (CControlEnabled s)
    (CurrentAck s) (CurrentAckFreq s).
Definition set_RetransmissionQueue (v : list RetransmitSegment) (s : TCB) : TCB :=
  mkTCB (State s) (SND s) (RCV s) (ResetWaitChan s) (ListenKey s) (Cancelled s)
    (TimeoutCancelled s) (RTO s) (SRTT s) v (RetransmitCounter s) (SegmentToTimestamp s)
    (PendingReceivedFin s) (PendingSendingFin s) (EarlyArrivalQueue s)
    (PendingConnections s) (CWND s) (SSTHRESH s) (CControlEnabled s) (CurrentAck s)
    (CurrentAckFreq s).
Definition set_RetransmitCounter (v : Z) (s : TCB) : TCB :=
  mkTCB (State s) (SND s) (RCV s) (ResetWaitChan s) (ListenKey s) (Cancelled s)
    (TimeoutCancelled s) (RTO s) (SRTT s) (RetransmissionQueue s) v (SegmentToTimestamp s)
    (PendingReceivedFin s) (PendingSendingFin s) (EarlyArrivalQueue s)
    (PendingConnections s) (CWND s) (SSTHRESH s) (CControlEnabled s) (CurrentAck s)
    (CurrentAckFreq s).
Definition set_SegmentToTimestamp (v : gmap Z Z) (s : TCB) : TCB :=
  mkTCB (State s) (SND s) (RCV s) (ResetWaitChan s) (ListenKey s) (Cancelled s)
    (TimeoutCancelled s) (RTO s) (SRTT s) (RetransmissionQueue s) (RetransmitCounter s) v
    (PendingReceivedFin s) (PendingSendingFin s) (EarlyArrivalQueue s)
    (PendingConnections s) (CWND s) (SSTHRESH s) (CControlEnabled s) (CurrentAck s)
    (CurrentAckFreq s).
Definition set_PendingReceivedFin (v : Z) (s : TCB) : TCB :=
  mkTCB (State s) (SND s) (RCV s) (ResetWaitChan s) (ListenKey s) (Cancelled s)
    (TimeoutCancelled s) (RTO s) (SRTT s) (RetransmissionQueue s) (RetransmitCounter s)
    (SegmentToTimestamp s) v (PendingSendingFin s) (EarlyArrivalQueue s)
    (PendingConnections s) (CWND s) (SSTHRESH s) (CControlEnabled s) (CurrentAck s)
    (CurrentAckFreq s).
Definition set_PendingSendingFin (v : bool) (s : TCB) : TCB :=
  mkTCB (State s) (SND s) (RCV s) (ResetWaitChan s) (ListenKey s) (Cancelled s)
    (TimeoutCancelled s) (RTO s) (SRTT s) (RetransmissionQueue s) (RetransmitCounter s)
    (SegmentToTimestamp s) (PendingReceivedFin s) v (EarlyArrivalQueue s)
    (PendingConnections s) (CWND s) (SSTHRESH s) (CControlEnabled s) (CurrentAck s)
    (CurrentAckFreq s).
Definition set_EarlyArrivalQueue (v : list EarlyArrivalEntry) (s : TCB) : TCB :=
  mkTCB (State s) (SND s) (RCV s) (ResetWaitChan s) (ListenKey s) (Cancelled s)
    (TimeoutCancelled s) (RTO s) (SRTT s) (RetransmissionQueue s) (RetransmitCounter s)
    (SegmentToTimestamp s) (PendingReceivedFin s) (PendingSendingFin s) v
    (PendingConnections s) (CWND s) (SSTHRESH s) (CControlEnabled s) (CurrentAck s)
    (CurrentAckFreq s).
Definition set_PendingConnections (v : list SocketData) (s : TCB) : TCB :=
  mkTCB (State s) (SND s) (RCV s) (ResetWaitChan s) (ListenKey s) (Cancelled s)
    (TimeoutCancelled s) (RTO s) (SRTT s) (RetransmissionQueue s) (RetransmitCounter s)
    (SegmentToTimestamp s) (PendingReceivedFin s) (PendingSendingFin s)
    (EarlyArrivalQueue s) v (CWND s) (SSTHRESH s) (CControlEnabled s) (CurrentAck s)
    (CurrentAckFreq s).
Definition set_CWND (v : Z) (s : TCB) : TCB :=
  mkTCB (State s) (SND s) (RCV s) (ResetWaitChan s) (ListenKey s) (Cancelled s)
    (TimeoutCancelled s) (RTO s) (SRTT s) (RetransmissionQueue s) (RetransmitCounter s)
    (SegmentToTimestamp s) (PendingReceivedFin s) (PendingSendingFin s)
    (EarlyArrivalQueue s) (PendingConnections s) v (SSTHRESH s) (CControlEnabled s)
    (CurrentAck s) (CurrentAckFreq s).
Definition set_SSTHRESH (v : Z) (s : TCB) : TCB :=
  mkTCB (State s) (SND s) (RCV s) (ResetWaitChan s) (ListenKey s) (Cancelled s)
    (TimeoutCancelled s) (RTO s) (SRTT s) (RetransmissionQueue s) (RetransmitCounter s)
    (SegmentToTimestamp s) (PendingReceivedFin s) (PendingSendingFin s)
    (EarlyArrivalQueue s) (PendingConnections s) (CWND s) v (CControlEnabled s)
    (CurrentAck s) (CurrentAckFreq s).
Definition set_CControlEnabled (v : bool) (s : TCB) : TCB :=
  mkTCB (State s) (SND s) (RCV s) (ResetWaitChan s) (ListenKey s) (Cancelled s)
    (TimeoutCancelled s) (RTO s) (SRTT s) (RetransmissionQueue s) (RetransmitCounter s)
    (SegmentToTimestamp s) (PendingReceivedFin s) (PendingSendingFin s)
    (EarlyArrivalQueue s) (PendingConnections s) (CWND s) (SSTHRESH s) v (CurrentAck s)
    (CurrentAckFreq s).
Definition set_CurrentAck (v : Z) (s : TCB) : TCB :=
  mkTCB (State s) (SND s) (RCV s) (ResetWaitChan s) (ListenKey s) (Cancelled s)
    (TimeoutCancelled s) (RTO s) (SRTT s) (RetransmissionQueue s) (RetransmitCounter s)
    (SegmentToTimestamp s) (PendingReceivedFin s) (PendingSendingFin s)
    (EarlyArrivalQueue s) (PendingConnections s) (CWND s) (SSTHRESH s) (CControlEnabled s) v
    (CurrentAckFreq s).
Definition set_CurrentAckFreq (v : Z) (s : TCB) : TCB :=
  mkTCB (State s) (SND s) (RCV s) (ResetWaitChan s) (ListenKey s) (Cancelled s)
    (TimeoutCancelled s) (RTO s) (SRTT s) (RetransmissionQueue s) (RetransmitCounter s)
    (SegmentToTimestamp s) (PendingReceivedFin s) (PendingSendingFin s)
    (EarlyArrivalQueue s) (PendingConnections s) (CWND s) (SSTHRESH s) (CControlEnabled s)
    (CurrentAck s) v.

(** Assignments through [tcbEntry.SND] and [tcbEntry.RCV]. *)
Definition tcb_SND_Buffer (v : list byte) (s : TCB) : TCB := set_SND (set_SND_Buffer v (SND s)) s.
Definition tcb_SND_UNA (v : Z) (s : TCB) : TCB := set_SND (set_SND_UNA v (SND s)) s.
Definition tcb_SND_NXT (v : Z) (s : TCB) : TCB := set_SND (set_SND_NXT v (SND s)) s.
Definition tcb_SND_WND (v : Z) (s : TCB) : TCB := set_SND (set_SND_WND v (SND s)) s.
Definition tcb_SND_ISS (v : Z) (s : TCB) : TCB := set_SND (set_SND_ISS v (SND s)) s.
Definition tcb_SND_LBW (v : Z) (s : TCB) : TCB := set_SND (set_SND_LBW v (SND s)) s.
Definition tcb_RCV_Buffer (v : list byte) (s : TCB) : TCB := set_RCV (set_RCV_Buffer v (RCV s)) s.
Definition tcb_RCV_NXT (v : Z) (s : TCB) : TCB := set_RCV (set_RCV_NXT v (RCV s)) s.
Definition tcb_RCV_WND (v : Z) (s : TCB) : TCB := set_RCV (set_RCV_WND v (RCV s)) s.
Definition tcb_RCV_IRS (v : Z) (s : TCB) : TCB := set_RCV (set_RCV_IRS v (RCV s)) s.
Definition tcb_RCV_LBR (v : Z) (s : TCB) : TCB := set_RCV (set_RCV_LBR v (RCV s)) s.

(** The zero values the composite literals of the code start from; a slice that
    is [nil] and one that is empty are the same list.  A listener has no [SND] or
    [RCV]: nothing reads them, and they are zero here. *)
Definition zero_Send : SendT := mkSend [] 0 0 0 0 0.
Definition zero_Receive : ReceiveT := mkReceive [] 0 0 0 0.
Definition zero_TCB : TCB :=
  mkTCB CLOSED zero_Send zero_Receive false zero_SocketData false false 0 0 [] 0 ∅ 0
    false [] [] 0 0 false 0 0.

(** [make([]byte, n)] *)
Definition make_bytes (n : Z) : list byte := replicate (Z.to_nat n) x00.

Lemma zlen_make_bytes n : 0 ≤ n → zlen (make_bytes n) = n.
Proof. intros. unfold zlen, make_bytes. rewrite length_replicate. lia. Qed.

(** ** Effects *)

(** The condition variables of a TCB. *)
Inductive cond :=
  | WriteBlockedCond
  | SendBlockedCond
  | ZeroBlockedCond
  | ReadBlockedCond
  | PendingSendingFinCond.

(** The goroutines the stack starts. *)
Inductive goroutine :=
  | GoSend (key : SocketData)
  | GoWaitTimeout (key : SocketData)
  | GoWaitForClosed (key : SocketData)
  | GoWaitForAckReceiver (key : SocketData).

Inductive eff :=
  (** [tcbEntry.TCBLock.Lock()], [Unlock()] *)
  | ELock
  | EUnlock
  (** [t.IPLayerChannel <- msg] *)
  | EIP (msg : list byte)
  (** [tcbEntry.RTOTimeoutChan <- true] *)
  | ERTO
  (** [tcbEntry.ReceiveChan <- key] *)
  | EReceiveChan (key : SocketData)
  (** [tcbEntry.ResetWaitChan <- true] *)
  | EResetWait
  | ESignal (c : cond)
  | EBroadcast (c : cond)
  (** [PendingConnMutex.Lock()], [Unlock()] of a listener *)
  | EPendingLock
  | EPendingUnlock
  (** lock, signal [PendingConnCond] and unlock of a listener *)
  | EPendingSignal (listener : SocketData)
  (** [go f(...)] *)
  | EGo (g : goroutine).

(** The discipline of [TCBLock] along a trace: [None] when a goroutine locks the
    mutex it holds (a deadlock) or unlocks one it does not hold (a fatal error). *)
Fixpoint lock_run (held : bool) (tr : list eff) : option bool :=
  match tr with
  | [] => Some held
  | ELock :: tr => if held then None else lock_run true tr
  | EUnlock :: tr => if held then lock_run false tr else None
  | _ :: tr => lock_run held tr
  end.

Lemma lock_run_app held tr tr' :
  lock_run held (tr ++ tr') = lock_run held tr ≫= λ h, lock_run h tr'.
Proof.
  revert held. induction tr as [|e tr IH]; intros held; simpl; [done|].
  destruct e, held; simpl; auto.
Qed.

(** The messages to the IP layer in a trace. *)
Definition messages (tr : list eff) : list (list byte) :=
  omap (λ e, match e with EIP m => Some m | _ => None end) tr.

Lemma messages_app tr tr' : messages (tr ++ tr') = messages tr ++ messages tr'.
Proof. unfold messages. apply omap_app. Qed.

(** A handler body that works on one TCB. *)
Abbreviation TM := (GoM TCB eff).

(** Sending one segment without payload to the IP layer. *)
Definition send_ip `{Netstack} {S : Type} (local dest : Z) (hdr : TCPFields)
    (payload : list byte) : GoM S eff unit :=
  emit (EIP (ip_message local dest hdr payload)).
