(* ===== verification/EarlyArrivals.v ===== *)
(** * The queue of early arrivals ([src/pkg/tcp/tcp_early_arrivals.go])

    Segments that arrive ahead of [RCV.NXT] are copied into the receive buffer at
    once; the queue only remembers their boundaries, in the order in which they
    will become acknowledgeable. *)

From S2P Require Import Prelude GoLang Wire TcpData.

Abbreviation queue := (list EarlyArrivalEntry).

Definition Init : queue := [].

Definition IsEmpty (eq : queue) : bool :=
  match eq with [] => true | _ => false end.

(** [eq.EarlyArrivals[0]], a panic on an empty queue. *)
Definition Peek (eq : queue) : option EarlyArrivalEntry := eq !! 0%nat.

Definition Pop (eq : queue) : option (EarlyArrivalEntry * queue) :=
  match eq with [] => None | e :: rest => Some (e, rest) end.

(** The loop of [Push] over the queue: the first entry the new one ends before. *)
Fixpoint push_index (newEntry : EarlyArrivalEntry) (i : nat) (eq : queue) : option nat :=
  match eq with
  | [] => None
  | earlyArrivalEntry :: rest =>
      if (SequenceNum newEntry ⊞ PayloadLen newEntry) <=? SequenceNum earlyArrivalEntry
      then Some i else push_index newEntry (S i) rest
  end.

Definition Push (newEntry : EarlyArrivalEntry) (eq : queue) : queue :=
  match push_index newEntry 0 eq with
  | Some insertIndex =>
      <[insertIndex := newEntry]>
        (take (insertIndex + 1)%nat eq ++ drop insertIndex eq)
  | None => eq ++ [newEntry]
  end.

(** The loop of [updateAckNum]: the next acknowledgement and the entries left. *)
Fixpoint updateAckNum_loop (entryNum : Z) (eq : queue) : Z * queue :=
  match eq with
  | [] => (entryNum, [])
  | popped :: rest =>
      if entryNum =? SequenceNum popped
      then updateAckNum_loop (SequenceNum popped ⊞ PayloadLen popped) rest
      else (entryNum, eq)
  end.

Definition updateAckNum (nextAck : Z) : TM Z :=
  tcbEntry ← get;
  let '(entryNum, rest) := updateAckNum_loop nextAck (EarlyArrivalQueue tcbEntry) in
  modify (set_EarlyArrivalQueue rest);;
  mret entryNum.

(** ** The segments a queue stands for *)

Definition eend (e : EarlyArrivalEntry) : Z := SequenceNum e + PayloadLen e.

(** Byte [x] of the peer's stream has arrived early. *)
Definition covers (e : EarlyArrivalEntry) (x : Z) : Prop := SequenceNum e ≤ x < eend e.
Definition covered (q : queue) (x : Z) : Prop := ∃ e, e ∈ q ∧ covers e x.

(** A non-empty segment whose last sequence number does not wrap. *)
Definition wf_entry (e : EarlyArrivalEntry) : Prop :=
  0 ≤ SequenceNum e ∧ 0 < PayloadLen e ∧ eend e < 4294967296.

(** In order of sequence number and without overlap. *)
Definition apart (a b : EarlyArrivalEntry) : Prop := eend a ≤ SequenceNum b.
Definition ordered (q : queue) : Prop := StronglySorted apart q ∧ Forall wf_entry q.

Lemma push_index_spec e i q k :
  wf_entry e →
  push_index e i q = Some k →
  ∃ l1 b l2, q = l1 ++ b :: l2 ∧ k = (i + length l1)%nat ∧ apart e b ∧
    Forall (λ a, ¬ apart e a) l1.
Proof.
  intros He. revert i. induction q as [|a q IH]; intros i; simpl; [done|].
  destruct He as (? & ? & ?). unfold eend in *. rewrite u32_small by lia.
  bool_hyps; intros Hk; simplify_eq.
  - exists [], a, q. repeat split; [simpl; lia|by unfold apart, eend|constructor].
  - destruct (IH _ Hk) as (l1 & b & l2 & -> & -> & Hab & Hl).
    exists (a :: l1), b, l2. repeat split; [simpl; lia|done|].
    constructor; [|done]. unfold apart, eend. lia.
Qed.

Lemma push_index_None e i q :
  wf_entry e → push_index e i q = None → Forall (λ a, ¬ apart e a) q.
Proof.
  intros He. revert i. induction q as [|a q IH]; intros i; simpl; [done|].
  destruct He as (? & ? & ?). unfold eend in *. rewrite u32_small by lia.
  bool_hyps; intros Hk; [done|]. constructor; [unfold apart, eend; lia|eauto].
Qed.

(** The index juggling of [Push] inserts the entry before the first entry it ends
    before, and at the end when there is none. *)
Lemma Push_split e q :
  wf_entry e →
  ∃ l1 l2, q = l1 ++ l2 ∧ Push e q = l1 ++ e :: l2 ∧
    Forall (λ a, ¬ apart e a) l1 ∧ (∀ b l, l2 = b :: l → apart e b).
Proof.
  intros He. unfold Push. destruct (push_index e 0 q) as [k|] eqn:E.
  - destruct (push_index_spec _ _ _ _ He E) as (l1 & b & l2 & -> & -> & Hb & Hl).
    exists l1, (b :: l2). split_and!; try done; [|intros; by simplify_eq].
    simpl. rewrite Nat.add_1_r, drop_app_length.
    replace (S (length l1)) with (length (l1 ++ [b])) by (rewrite length_app; simpl; lia).
    replace (l1 ++ b :: l2) with ((l1 ++ [b]) ++ l2) by (by rewrite <-app_assoc).
    rewrite take_app_length, <-app_assoc. simpl.
    replace (length l1) with (length l1 + 0)%nat by lia.
    by rewrite insert_app_r.
  - exists q, []. split_and!; [by rewrite app_nil_r|done| |done].
    by eapply push_index_None.
Qed.

Lemma Push_elem e q a : wf_entry e → a ∈ Push e q ↔ a = e ∨ a ∈ q.
Proof.
  intros He. destruct (Push_split e q He) as (l1 & l2 & -> & -> & _).
  set_solver.
Qed.

Lemma Push_covered e q x :
  wf_entry e → covered (Push e q) x ↔ covers e x ∨ covered q x.
Proof.
  intros He. unfold covered. setoid_rewrite (Push_elem e q); [|done]. naive_solver.
Qed.

(** ** [updateAckNum] *)

(** The acknowledgement never moves back, what it passes over had arrived, and the
    entries that remain are a suffix of the queue. *)
Lemma updateAckNum_loop_spec n q m q' :
  Forall wf_entry q → updateAckNum_loop n q = (m, q') →
  n ≤ m ∧ (∃ l, q = l ++ q') ∧
  (∀ x, n ≤ x < m → ∃ e, e ∈ q ∧ n ≤ SequenceNum e ∧ covers e x) ∧
  (m = n ∨ ∃ e, e ∈ q ∧ n ≤ SequenceNum e ∧ m = eend e).
Proof.
  revert n. induction q as [|a q IH]; intros n Hwf; simpl.
  { intros [= <- <-]. split_and!; [lia|by exists []|lia|by left]. }
  inversion Hwf as [|?? (Ha0 & Ha1 & Ha2) Hwf']; subst. unfold eend in Ha2.
  destruct (Z.eqb_spec n (SequenceNum a)) as [->|].
  - rewrite u32_small by lia. intros E.
    destruct (IH _ Hwf' E) as (Hle & [l ->] & Hcov & Hm).
    split_and!; [lia|by exists (a :: l)| |].
    + intros x Hx. destruct (decide (x < SequenceNum a + PayloadLen a)).
      * exists a. split_and!; [set_solver|lia|unfold covers, eend; lia].
      * destruct (Hcov x) as (e & He & Hs & Hc); [lia|].
        exists e. split_and!; [set_solver|lia|done].
    + destruct Hm as [->|(e & He & Hs & ->)].
      * right. exists a. split_and!; [set_solver|lia|done].
      * right. exists e. split_and!; [set_solver|lia|done].
  - intros [= <- <-]. split_and!; [lia|by exists []|lia|by left].
Qed.

(** On an ordered queue the new acknowledgement is the first byte that has not
    arrived. *)
Lemma updateAckNum_loop_maximal n q m q' :
  ordered q → Forall (λ e, n ≤ SequenceNum e) q →
  updateAckNum_loop n q = (m, q') →
  ¬ covered q m ∧ Forall (λ e, m < SequenceNum e) q'.
Proof.
  intros [Hs Hwf]. revert n. induction Hs as [|a q Hs IH Hall]; intros n Hn; simpl.
  { intros [= <- <-]. split; [|done]. intros (e & He & _). set_solver. }
  inversion Hwf as [|?? (Ha0 & Ha1 & Ha2) Hwf']; subst.
  inversion Hn as [|?? Hna Hn']; subst. unfold eend in Ha2.
  destruct (Z.eqb_spec n (SequenceNum a)) as [->|].
  - rewrite u32_small by lia. intros E.
    destruct (IH Hwf' _ Hall E) as [Hc Hq]. split; [|done].
    intros (e & He & Hce). apply elem_of_cons in He as [->|He].
    + pose proof (updateAckNum_loop_spec _ _ _ _ Hwf' E) as (? & _).
      unfold covers, eend in Hce. lia.
    + apply Hc. by exists e.
  - intros [= <- <-]. split.
    + intros (e & He & Hce). unfold covers in Hce.
      apply elem_of_cons in He as [->|He]; [lia|].
      rewrite Forall_forall in Hall. specialize (Hall e He).
      unfold apart, eend in *. lia.
    + constructor; [lia|]. rewrite Forall_forall in Hall |- *.
      intros e He. specialize (Hall e He). unfold apart, eend in Hall. lia.
Qed.

(** ** Properties *)

(** Pushing a segment that overlaps no queued segment keeps the queue ordered by
    sequence number and without overlaps. *)
Theorem Push_ordered (e : EarlyArrivalEntry) (q : queue) :
  ordered q → wf_entry e → (∀ a, a ∈ q → apart a e ∨ apart e a) →
  ordered (Push e q).
Proof.
  intros [Hs Hwf] He Hdis. destruct (Push_split e q He) as (l1 & l2 & -> & -> & H1 & H2).
  apply StronglySorted_app in Hs as (H12 & Hl1 & Hl2).
  split.
  - apply StronglySorted_app_2; [|done|].
    2: { constructor; [done|]. destruct l2 as [|b l2]; [done|].
      assert (Hb : apart e b) by (by apply (H2 b l2)).
      constructor; [done|]. apply StronglySorted_inv in Hl2 as [_ Hl2].
      eapply Forall_impl; [exact Hl2|]. unfold apart. intros c.
      assert (Hwb : wf_entry b) by (rewrite Forall_forall in Hwf; set_solver).
      destruct Hwb as (? & ? & ?). unfold apart, eend in *. lia. }
    intros a b Ha Hb. apply elem_of_cons in Hb as [->|Hb].
    + rewrite Forall_forall in H1. destruct (Hdis a); [set_solver|done|].
      by destruct (H1 a).
    + by apply H12.
  - rewrite Forall_app, Forall_cons in *. naive_solver.
Qed.

Lemma Push_ordered_witness :
  ordered (Push (mkEarlyArrivalEntry 15 5) [mkEarlyArrivalEntry 10 5; mkEarlyArrivalEntry 30 5]).
Proof.
  apply Push_ordered.
  - split; repeat constructor; unfold apart, wf_entry, eend; simpl; lia.
  - unfold wf_entry, eend; simpl; lia.
  - intros a Ha. unfold apart, eend.
    apply elem_of_cons in Ha as [->|Ha]; [left; simpl; lia|].
    apply list_elem_of_singleton in Ha as ->. right; simpl; lia.
Defined.

(** After an in-order segment, [updateAckNum] coalesces the early arrivals
    exactly: the acknowledgement it returns is the first sequence number from
    [nextAck] on that has not arrived, every byte before it had arrived, and the
    entries that stay queued lie strictly beyond it, still in order. *)
Theorem updateAckNum_first_missing (tcb : TCB) (nextAck : Z) :
  ordered (EarlyArrivalQueue tcb) →
  Forall (λ e, nextAck ≤ SequenceNum e) (EarlyArrivalQueue tcb) →
  ∃ m q', updateAckNum nextAck tcb = (Ok m, set_EarlyArrivalQueue q' tcb, []) ∧
    nextAck ≤ m ∧
    (∀ x, nextAck ≤ x < m → covered (EarlyArrivalQueue tcb) x) ∧
    ¬ covered (EarlyArrivalQueue tcb) m ∧
    ordered q' ∧ Forall (λ e, m < SequenceNum e) q'.
Proof.
  intros Hord Hge. unfold updateAckNum. go_unfold.
  destruct (updateAckNum_loop _ _) as [m q'] eqn:E. exists m, q'. simpl.
  pose proof Hord as [Hs Hwf].
  destruct (updateAckNum_loop_spec _ _ _ _ Hwf E) as (Hle & [l Hl] & Hcov & _).
  destruct (updateAckNum_loop_maximal _ _ _ _ Hord Hge E) as [Hmax Hrest].
  split_and!; try done.
  - intros x Hx. destruct (Hcov x Hx) as (e & He & _ & Hc). by exists e.
  - rewrite Hl in Hs, Hwf. apply Forall_app in Hwf as [_ Hwf].
    split; [by eapply StronglySorted_app_1_r|done].
Qed.

Lemma updateAckNum_first_missing_witness :
  let tcb := set_EarlyArrivalQueue [mkEarlyArrivalEntry 10 5; mkEarlyArrivalEntry 15 5;
               mkEarlyArrivalEntry 30 5] zero_TCB in
  ∃ q', updateAckNum 10 tcb = (Ok 20, set_EarlyArrivalQueue q' tcb, []) ∧
    ¬ covered (EarlyArrivalQueue tcb) 20 ∧ Forall (λ e, 20 < SequenceNum e) q'.
Proof.
  intros tcb. destruct (updateAckNum_first_missing tcb 10) as (m & q' & E & _ & _ & Hm & _ & Hq).
  - split; repeat constructor; unfold apart, wf_entry, eend; simpl; lia.
  - repeat constructor; simpl; lia.
  - assert (m = 20) as -> by (vm_compute in E; by injection E). by exists q'.
Defined.
