(* ===== verification/Congestion.v ===== *)
(** * Congestion control ([src/pkg/tcp/tcp_handler_cc.go]): TCP Tahoe *)

From S2P Require Import Prelude GoLang Wire TcpData.

(** The assignments of [SetCCForSocket] on the TCB of the socket. *)
Definition SetCC : TM unit :=
  modify (set_CControlEnabled true);;
  emit ELock;;
  modify (set_CWND INIT_CWND);;
  modify (set_SSTHRESH INIT_THRESHOLD);;
  emit EUnlock.

(** Called for every acknowledgement of new data.  The division is the [uint32]
    division of Go: a panic when the window is zero. *)
Definition UpdateCWNDWindow : TM unit :=
  tcbEntry ← get;
  if CWND tcbEntry <? SSTHRESH tcbEntry then
    modify (set_CWND (CWND tcbEntry ⊞ MSS_DATA))
  else if CWND tcbEntry =? 0 then panic
  else modify (set_CWND (CWND tcbEntry ⊞ (MSS_DATA * MSS_DATA) / CWND tcbEntry)).

(** Called for every loss: three duplicate acknowledgements or a timeout. *)
Definition AfterLoss : TM unit :=
  tcbEntry ← get;
  modify (set_SSTHRESH (CWND tcbEntry / 2));;
  modify (set_CWND INIT_CWND).

(** ** The window stays in bounds *)

(** [MSS_DATA * MSS_DATA = 1849600] is where congestion avoidance stops growing. *)
Definition cc_bounds (tcb : TCB) : Prop :=
  MSS_DATA ≤ CWND tcb ≤ 1849601 ∧ 0 ≤ SSTHRESH tcb ≤ 924800.

Lemma cc_avoidance c : 1 ≤ c ≤ 1849601 → 0 ≤ 1849600 / c ∧ c + 1849600 / c ≤ 1849601.
Proof.
  intros. split; [apply Z.div_pos; lia|].
  destruct (decide (c = 1849601)) as [->|]; [by cbv|].
  assert (1849600 / c ≤ 1849601 - c); [|lia].
  assert (1849600 / c < 1849601 - c + 1); [|lia].
  apply Z.div_lt_upper_bound; nia.
Qed.

(** One event of a connection with congestion control. *)
Inductive cc_event := NewAck | Loss.

Definition cc_step (e : cc_event) : TM unit :=
  match e with NewAck => UpdateCWNDWindow | Loss => AfterLoss end.

Fixpoint cc_run (es : list cc_event) : TM unit :=
  match es with
  | [] => mret tt
  | e :: es => cc_step e;; cc_run es
  end.

Lemma cc_step_ok e tcb :
  cc_bounds tcb →
  ∃ tcb', cc_step e tcb = (Ok tt, tcb', []) ∧ cc_bounds tcb' ∧
    match e with
    | NewAck =>
        CWND tcb' = (if CWND tcb <? SSTHRESH tcb then CWND tcb + 1360
                     else CWND tcb + 1849600 / CWND tcb) ∧
        SSTHRESH tcb' = SSTHRESH tcb
    | Loss => CWND tcb' = 1360 ∧ SSTHRESH tcb' = CWND tcb / 2
    end.
Proof.
  unfold cc_bounds, MSS_DATA, INIT_CWND. intros [Hc Hs]. destruct e; simpl.
  - unfold UpdateCWNDWindow, MSS_DATA. go_unfold. simpl.
    change (1360 * 1360) with 1849600.
    destruct (Z.ltb_spec (CWND tcb) (SSTHRESH tcb)); simpl.
    + rewrite u32_small by lia. go_exists. split_and!; try done; lia.
    + destruct (Z.eqb_spec (CWND tcb) 0); [lia|].
      pose proof (cc_avoidance (CWND tcb) ltac:(lia)).
      rewrite u32_small by lia. go_exists. split_and!; try done; lia.
  - unfold AfterLoss, INIT_CWND, MSS_DATA. go_unfold. simpl.
    go_exists. assert (0 ≤ CWND tcb / 2 ≤ 924800).
    { split; [apply Z.div_pos; lia|]. assert (CWND tcb / 2 < 924801); [|lia].
      apply Z.div_lt_upper_bound; lia. }
    split_and!; try done; lia.
Qed.

Lemma cc_run_ok es tcb :
  cc_bounds tcb → ∃ tcb', cc_run es tcb = (Ok tt, tcb', []) ∧ cc_bounds tcb'.
Proof.
  revert tcb. induction es as [|e es IH]; intros tcb H; simpl.
  { by exists tcb. }
  destruct (cc_step_ok e tcb H) as (t1 & E1 & H1 & _).
  destruct (IH t1 H1) as (t2 & E2 & H2). exists t2.
  unfold mbind, go_bind. rewrite E1, E2. done.
Qed.

(** C34: After congestion control is switched on, whatever acknowledgements and
    losses follow, the arithmetic of the window never wraps or divides by zero: the
    congestion window stays between one segment and 1849601 bytes and the
    threshold below 924801. *)
Theorem cc_window_bounded (tcb : TCB) (es : list cc_event) :
  ∃ tcb', (SetCC;; cc_run es) tcb = (Ok tt, tcb', [ELock; EUnlock]) ∧
    MSS_DATA ≤ CWND tcb' ≤ 1849601 ∧ 0 ≤ SSTHRESH tcb' ≤ 924800.
Proof.
  set (t0 := set_SSTHRESH INIT_THRESHOLD
               (set_CWND INIT_CWND (set_CControlEnabled true tcb))).
  destruct (cc_run_ok es t0) as (t & E & H).
  { unfold cc_bounds, t0; simpl. by cbv. }
  exists t. unfold SetCC. go_unfold. simpl. fold t0. rewrite E. done.
Qed.

(** The Tahoe rules, exactly and without wrap-around: below the threshold an
    acknowledgement adds one segment, above it [MSS * MSS / CWND]; a loss halves
    the window into the threshold and restarts slow start from one segment. *)
Theorem tahoe_rules (tcb : TCB) :
  cc_bounds tcb →
  (∃ t1, UpdateCWNDWindow tcb = (Ok tt, t1, []) ∧ SSTHRESH t1 = SSTHRESH tcb ∧
    CWND t1 = if CWND tcb <? SSTHRESH tcb then CWND tcb + MSS_DATA
              else CWND tcb + MSS_DATA * MSS_DATA / CWND tcb) ∧
  (∃ t2, AfterLoss tcb = (Ok tt, t2, []) ∧ SSTHRESH t2 = CWND tcb / 2 ∧
    CWND t2 = MSS_DATA).
Proof.
  intros H. split.
  - destruct (cc_step_ok NewAck tcb H) as (t1 & E & _ & Hc & Hs). by exists t1.
  - destruct (cc_step_ok Loss tcb H) as (t2 & E & _ & Hc & Hs). by exists t2.
Qed.

Lemma tahoe_rules_witness :
  let tcb := set_SSTHRESH INIT_THRESHOLD (set_CWND INIT_CWND zero_TCB) in
  (∃ t1, UpdateCWNDWindow tcb = (Ok tt, t1, []) ∧ SSTHRESH t1 = 65535 ∧ CWND t1 = 2720) ∧
  (∃ t2, AfterLoss tcb = (Ok tt, t2, []) ∧ SSTHRESH t2 = 680 ∧ CWND t2 = 1360).
Proof.
  intros tcb. apply (tahoe_rules tcb). unfold cc_bounds. by cbv.
Defined.
