(* ===== verification/Rto.v ===== *)
(** * Retransmission timeouts ([src/pkg/tcp/tcp_timeout.go], the estimator)

    The estimator computes with Go's [float64].  Rounding operations are those of
    [SpecFloat] at the precision of binary64, without fused operations;
    comparisons of [float64] values are exact comparisons of the numbers they
    stand for. *)

From S2P Require Import Prelude GoLang Wire TcpData.
From Stdlib Require Import Floats.SpecFloat.

(** ** float64 *)

Definition f64_of_Z (z : Z) : spec_float := binary_normalize 53 1024 z 0 false.
Definition f64_mul : spec_float → spec_float → spec_float := SFmul 53 1024.
Definition f64_add : spec_float → spec_float → spec_float := SFadd 53 1024.
Definition f64_div : spec_float → spec_float → spec_float := SFdiv 53 1024.

(** A finite value is [m * 2^e]; scaled to an integer of the unit [2^k], [k <= e]. *)
Definition f64_scaled (k : Z) (f : spec_float) : Z :=
  match f with
  | S754_finite s m e => (if s then Z.neg m else Z.pos m) * 2 ^ (e - k)
  | _ => 0
  end.
Definition f64_exp (f : spec_float) : Z :=
  match f with S754_finite _ _ e => e | _ => 0 end.

(** [x < y] on values that are not NaN. *)
Definition f64_ltb (x y : spec_float) : bool :=
  match x, y with
  | S754_nan, _ | _, S754_nan => false
  | S754_infinity true, S754_infinity true => false
  | S754_infinity true, _ => true
  | _, S754_infinity true => false
  | S754_infinity false, _ => false
  | _, S754_infinity false => true
  | _, _ => let k := Z.min (f64_exp x) (f64_exp y) in f64_scaled k x <? f64_scaled k y
  end.

(** [int64(x)] of a value in range: truncation towards zero. *)
Definition f64_trunc (f : spec_float) : Z :=
  match f with
  | S754_finite s m e =>
      let a := if 0 <=? e then Z.pos m * 2 ^ e else Z.pos m / 2 ^ (- e) in
      if s then - a else a
  | _ => 0
  end.

(** ** The constants and the helpers *)

Definition ALPHA : spec_float := f64_div (f64_of_Z 85) (f64_of_Z 100).
Definition ONE_MINUS_ALPHA : spec_float := f64_div (f64_of_Z 15) (f64_of_Z 100).
Definition BETA : spec_float := f64_div (f64_of_Z 3) (f64_of_Z 2).

Definition Min64f (val1 val2 : spec_float) : spec_float :=
  if f64_ltb val1 val2 then val1 else val2.
Definition Max64f (val1 val2 : spec_float) : spec_float :=
  if f64_ltb val2 val1 then val1 else val2.

Definition calculateSRTT (SRTTlast RTT : Z) : Z :=
  f64_trunc (f64_add (f64_mul (f64_of_Z SRTTlast) ALPHA)
                     (f64_mul (f64_of_Z RTT) ONE_MINUS_ALPHA)).

Definition calculateRTO (SRTT : Z) : Z :=
  f64_trunc (Min64f (f64_of_Z RTO_UPPER)
               (Max64f (f64_mul BETA (f64_of_Z SRTT)) (f64_of_Z RTO_LOWER))).

(** [time.Duration] arithmetic is [int64] arithmetic. *)
Definition i64 (z : Z) : Z :=
  (z + 9223372036854775808) mod 18446744073709551616 - 9223372036854775808.

(** ** [updateTimeout]: a new sample of the round-trip time *)

Definition updateTimeout (segmentReceivedNum now : Z) : TM unit :=
  emit ELock;;
  tcbEntry ← get;
  match SegmentToTimestamp tcbEntry !! segmentReceivedNum with
  | None => emit EUnlock
  | Some sent =>
      let RTT := i64 (now - sent) in
      modify (set_SegmentToTimestamp (delete segmentReceivedNum (SegmentToTimestamp tcbEntry)));;
      emit EUnlock;;
      (if SRTT tcbEntry =? -1
       then modify (set_SRTT (calculateSRTT RTT RTT))
       else modify (set_SRTT (calculateSRTT (SRTT tcbEntry) RTT)));;
      srtt ← gets SRTT;
      modify (set_RTO (calculateRTO srtt));;
      emit ERTO
  end.

(** ** The timeout is always between its two bounds *)

(** The integer [z] as an exactly represented value. *)
Definition f64_exact (f : spec_float) (z : Z) : Prop :=
  ∃ m e, f = S754_finite false m e ∧ e ≤ 0 ∧ Z.pos m = z * 2 ^ (- e).

Lemma f64_upper_exact : f64_exact (f64_of_Z RTO_UPPER) RTO_UPPER.
Proof. eexists _, _. split; [vm_compute; reflexivity|]. by cbv. Qed.

Lemma f64_lower_exact : f64_exact (f64_of_Z RTO_LOWER) RTO_LOWER.
Proof. eexists _, _. split; [vm_compute; reflexivity|]. by cbv. Qed.

Lemma f64_exact_trunc f z : 0 < z → f64_exact f z → f64_trunc f = z.
Proof.
  intros Hz (m & e & -> & He & Hm). simpl. bool_hyps.
  - assert (e = 0) as -> by lia. rewrite Hm. simpl. lia.
  - rewrite Hm. apply Z.div_mul. assert (0 < 2 ^ (- e)) by (apply Z.pow_pos_nonneg; lia). lia.
Qed.

(** Truncation is monotone against an exact integer. *)
Lemma f64_ltb_trunc_ge x f z :
  0 < z → f64_exact f z → f64_ltb f x = true →
  z ≤ f64_trunc x ∨ x = S754_infinity false.
Proof.
  intros Hz (m & e & -> & He & Hm). simpl.
  destruct x as [s|s| |s mx ex]; simpl; try done.
  - intros H. apply Z.ltb_lt in H.
    assert (0 < 2 ^ (e - Z.min e 0)) by (apply Z.pow_pos_nonneg; lia). nia.
  - destruct s; [done|]. by right.
  - intros H. apply Z.ltb_lt in H. left.
    set (k := Z.min e ex) in *.
    assert (Hk : 0 < 2 ^ (- k)) by (apply Z.pow_pos_nonneg; lia).
    assert (Hm2 : Z.pos m * 2 ^ (e - k) = z * 2 ^ (- k)).
    { rewrite Hm, <-Z.mul_assoc, <-Z.pow_add_r by lia. do 2 f_equal. lia. }
    rewrite Hm2 in H.
    destruct s.
    { assert (0 < 2 ^ (ex - k)) by (apply Z.pow_pos_nonneg; lia). nia. }
    destruct (Z.leb_spec 0 ex).
    + assert (2 ^ (ex - k) = 2 ^ ex * 2 ^ (- k)) as Hp
        by (rewrite <-Z.pow_add_r by lia; f_equal; lia).
      rewrite Hp in H. nia.
    + apply Z.div_le_lower_bound; [apply Z.pow_pos_nonneg; lia|].
      assert (2 ^ (- k) = 2 ^ (ex - k) * 2 ^ (- ex)) as Hp
        by (rewrite <-Z.pow_add_r by lia; f_equal; lia).
      assert (0 < 2 ^ (ex - k)) by (apply Z.pow_pos_nonneg; lia).
      rewrite Hp in H. nia.
Qed.

Lemma f64_ltb_trunc_le x f z :
  0 < z → f64_exact f z → f64_ltb f x = false → x ≠ S754_nan → f64_trunc x ≤ z.
Proof.
  intros Hz (m & e & -> & He & Hm). simpl.
  destruct x as [s|s| |s mx ex]; simpl; try done; try lia.
  intros H _. apply Z.ltb_ge in H.
  destruct s.
  { destruct (Z.leb_spec 0 ex).
    - assert (0 ≤ 2 ^ ex) by (apply Z.pow_nonneg; lia). nia.
    - assert (0 ≤ Z.pos mx / 2 ^ (- ex)); [|lia].
      apply Z.div_pos; [lia|]. apply Z.pow_pos_nonneg; lia. }
  set (k := Z.min e ex) in *.
  assert (Hk : 0 < 2 ^ (- k)) by (apply Z.pow_pos_nonneg; lia).
  assert (Hm2 : Z.pos m * 2 ^ (e - k) = z * 2 ^ (- k)).
  { rewrite Hm, <-Z.mul_assoc, <-Z.pow_add_r by lia. do 2 f_equal. lia. }
  rewrite Hm2 in H.
  destruct (Z.leb_spec 0 ex).
  - assert (2 ^ (ex - k) = 2 ^ ex * 2 ^ (- k)) as Hp
      by (rewrite <-Z.pow_add_r by lia; f_equal; lia).
    rewrite Hp in H. nia.
  - assert (Z.pos mx / 2 ^ (- ex) < z + 1); [|lia].
    apply Z.div_lt_upper_bound; [apply Z.pow_pos_nonneg; lia|].
    assert (2 ^ (- k) = 2 ^ (ex - k) * 2 ^ (- ex)) as Hp
      by (rewrite <-Z.pow_add_r by lia; f_equal; lia).
    assert (0 < 2 ^ (ex - k)) by (apply Z.pow_pos_nonneg; lia).
    assert (0 < 2 ^ (- ex)) by (apply Z.pow_pos_nonneg; lia).
    rewrite Hp in H. nia.
Qed.

Lemma f64_ltb_nan_l x : f64_ltb S754_nan x = false.
Proof. done. Qed.
Lemma f64_ltb_nan_r x : f64_ltb x S754_nan = false.
Proof. by destruct x as [|[]| |]. Qed.

(** C35: Whatever the smoothed round-trip time, the retransmission timeout computed
    from it is at least [RTO_LOWER] and at most [RTO_UPPER] (the [float64] code
    included). *)
Theorem calculateRTO_bounds (SRTT : Z) :
  RTO_LOWER ≤ calculateRTO SRTT ≤ RTO_UPPER.
Proof.
  unfold calculateRTO. set (x := f64_mul BETA (f64_of_Z SRTT)). clearbody x.
  pose proof f64_upper_exact as HU. pose proof f64_lower_exact as HL.
  assert (HL0 : 0 < RTO_LOWER) by done. assert (HU0 : 0 < RTO_UPPER) by done.
  unfold Min64f, Max64f.
  destruct (f64_ltb (f64_of_Z RTO_LOWER) x) eqn:E1.
  - destruct (f64_ltb (f64_of_Z RTO_UPPER) x) eqn:E2.
    + rewrite (f64_exact_trunc _ RTO_UPPER) by done. by cbv.
    + assert (x ≠ S754_nan) by (intros ->; by rewrite f64_ltb_nan_r in E1).
      split; [|by eapply f64_ltb_trunc_le].
      destruct (f64_ltb_trunc_ge x _ _ HL0 HL E1) as [?| ->]; [lia|].
      by cbv in E2.
  - replace (f64_ltb (f64_of_Z RTO_UPPER) (f64_of_Z RTO_LOWER)) with false
      by (by vm_compute).
    rewrite (f64_exact_trunc _ RTO_LOWER) by done. by cbv.
Qed.
