(* ===== verification/Retransmit.v ===== *)
(** * Retransmission ([src/pkg/tcp/tcp_timeout.go], the queue and the timer) *)

From S2P Require Import Prelude GoLang Wire WireRef Ring TcpData Congestion Rto.

(** ** The retransmission queue *)

(** The loop of [removeFromRetransmissionQueue]: [index_to_remove]. *)
Fixpoint remove_index (ackNum : Z) (i : Z) (queue : list RetransmitSegment)
    (index_to_remove : Z) : Z :=
  match queue with
  | [] => index_to_remove
  | retransmitHeader :: rest =>
      if SeqNum (RTCPHeader retransmitHeader) <? ackNum
      then remove_index ackNum (i + 1) rest i
      else index_to_remove
  end.

Definition removeFromRetransmissionQueue (ackNum : Z) : TM unit :=
  tcbEntry ← get;
  let index_to_remove := remove_index ackNum 0 (RetransmissionQueue tcbEntry) (-1) in
  when (-1 <? index_to_remove)
    (rest ← try (slice (RetransmissionQueue tcbEntry) (index_to_remove + 1)
                   (zlen (RetransmissionQueue tcbEntry)));
     modify (set_RetransmissionQueue rest);;
     modify (set_RetransmitCounter 0)).

(** ** Rebuilding the payload of a segment from the send buffer *)

Definition retransmit_payload (buffer : list byte) (retransmitPacket : RetransmitSegment)
    : option (list byte) :=
  let seq_num_index := SequenceToBufferInd (SeqNum (RTCPHeader retransmitPacket)) in
  let len := RPayloadLen retransmitPacket in
  let payload := make_bytes len in
  if 0 <? len then
    if MAX_BUF_SIZE <? (seq_num_index ⊞ len) then
      let firstCopy := MAX_BUF_SIZE ⊟ seq_num_index in
      let secondCopy := (seq_num_index ⊞ len) ⊟ MAX_BUF_SIZE in
      tail ← slice buffer seq_num_index (zlen buffer);
      payload1 ← copy_into payload 0 (zlen payload) tail;
      front ← slice buffer 0 secondCopy;
      copy_into payload1 firstCopy (zlen payload1) front
    else
      src ← slice buffer seq_num_index (seq_num_index ⊞ len);
      copy_into payload 0 (zlen payload) src
  else Some payload.

(** The part [fastRetransmit] and [waitTimeout] share: the first segment of the
    queue goes out again, its timestamp is refreshed and the timeout doubled.  The
    key of the timestamp is the buffer index plus the length, as in the code. *)
Definition retransmit_head `{Netstack} (socketData : SocketData)
    (retransmitPacket : RetransmitSegment) (now : Z) : TM (list byte) :=
  tcbEntry ← get;
  let seq_num_index := SequenceToBufferInd (SeqNum (RTCPHeader retransmitPacket)) in
  payload ← try (retransmit_payload (SND_Buffer (SND tcbEntry)) retransmitPacket);
  modify (set_SegmentToTimestamp
    (<[seq_num_index ⊞ RPayloadLen retransmitPacket := now]> (SegmentToTimestamp tcbEntry)));;
  modify (set_RTO (i64 (RTO tcbEntry * 2)));;
  mret (ip_message (LocalAddr socketData) (DestAddr socketData)
          (RTCPHeader retransmitPacket) payload).

Definition fastRetransmit `{Netstack} (socketData : SocketData) (now : Z) : TM unit :=
  AfterLoss;;
  modify (set_CurrentAckFreq 0);;
  tcbEntry ← get;
  retransmitPacket ← try (RetransmissionQueue tcbEntry !! 0%nat);
  bufToSend ← retransmit_head socketData retransmitPacket now;
  emit EUnlock;;
  emit (EIP bufToSend);;
  emit ERTO.

(** ** The timer goroutine *)

(** What the goroutine [waitTimeout] does after an arm of its [select]: wait again
    with a new timer, return, or return after deleting the socket. *)
Inductive timer_next := TimerAgain | TimerReturn | TimerDelete.

(** The arm [<-tcbEntry.RTOTimeoutChan]. *)
Definition waitTimeout_reset : TM timer_next := mret TimerAgain.

(** The arm [<-timeout]. *)
Definition waitTimeout_fire `{Netstack} (socketData : SocketData) (now : Z)
    : TM timer_next :=
  emit ELock;;
  tcbEntry ← get;
  if decide (State tcbEntry = TIME_WAIT ∨ State tcbEntry = CLOSED) then
    emit EUnlock;; mret TimerReturn
  else match RetransmissionQueue tcbEntry with
  | [] => emit EUnlock;; mret TimerAgain
  | retransmitPacket :: _ =>
      if RetransmitCounter tcbEntry =? MAX_RETRANSMISSIONS then
        modify (set_State CLOSED);;
        modify (set_TimeoutCancelled true);;
        emit (EBroadcast WriteBlockedCond);;
        emit (ESignal SendBlockedCond);;
        emit (ESignal ReadBlockedCond);;
        emit EUnlock;;
        mret TimerDelete
      else
        when (CControlEnabled tcbEntry) AfterLoss;;
        modify (set_RetransmitCounter (RetransmitCounter tcbEntry + 1));;
        bufToSend ← retransmit_head socketData retransmitPacket now;
        emit EUnlock;;
        emit (EIP bufToSend);;
        mret TimerAgain
  end.

(** ** Facts *)

(** What an acknowledgement leaves of the queue. *)
Fixpoint unacked (ackNum : Z) (queue : list RetransmitSegment) : list RetransmitSegment :=
  match queue with
  | [] => []
  | s :: rest =>
      if SeqNum (RTCPHeader s) <? ackNum then unacked ackNum rest else queue
  end.

Lemma remove_index_unacked ack q i idx :
  -1 ≤ idx → idx + 1 = i →
  ∃ n, 0 ≤ n ≤ zlen q ∧ remove_index ack i q idx + 1 = i + n ∧ unacked ack q = zdrop n q.
Proof.
  revert i idx. induction q as [|s q IH]; intros i idx Hi Hidx; simpl.
  - exists 0. unfold zlen. simpl. split_and!; [lia..|done].
  - destruct (Z.ltb_spec (SeqNum (RTCPHeader s)) ack).
    + destruct (IH (i + 1) i) as (n & Hn & E & ->); [lia..|].
      exists (n + 1). unfold zlen, zdrop in *. simpl. split_and!; [lia..|].
      replace (Z.to_nat (n + 1)) with (S (Z.to_nat n)) by lia. done.
    + exists 0. pose proof (zlen_nonneg (s :: q)). split_and!; [lia..|done].
Qed.

Lemma unacked_suffix ack q : ∃ l, q = l ++ unacked ack q.
Proof.
  induction q as [|s q [l Hl]]; simpl; [by exists []|].
  destruct (_ <? _); [exists (s :: l); by rewrite Hl at 1|by exists []].
Qed.

Lemma unacked_filter ack q :
  StronglySorted (λ a b, SeqNum (RTCPHeader a) ≤ SeqNum (RTCPHeader b)) q →
  unacked ack q = filter (λ s, ack ≤ SeqNum (RTCPHeader s)) q.
Proof.
  induction 1 as [|s q Hs IH Hall]; simpl; [done|].
  destruct (Z.ltb_spec (SeqNum (RTCPHeader s)) ack).
  - rewrite filter_cons_False by lia. done.
  - rewrite filter_cons_True by lia. f_equal.
    symmetry. apply filter_all.
    eapply Forall_impl; [exact Hall|]. simpl. lia.
Qed.

(** The queue after an acknowledgement; the counter is reset when it shrank. *)
Definition ack_queue (ack : Z) (tcb : TCB) : TCB :=
  match RetransmissionQueue tcb with
  | s :: _ =>
      if SeqNum (RTCPHeader s) <? ack
      then set_RetransmitCounter 0
             (set_RetransmissionQueue (unacked ack (RetransmissionQueue tcb)) tcb)
      else tcb
  | [] => tcb
  end.

Lemma ack_queue_unacked ack tcb :
  RetransmissionQueue (ack_queue ack tcb) = unacked ack (RetransmissionQueue tcb).
Proof.
  unfold ack_queue. destruct (RetransmissionQueue tcb) as [|s q] eqn:Eq; [done|].
  simpl. destruct (_ <? _) eqn:E; simpl; rewrite ?E, ?Eq; done.
Qed.

Lemma ack_queue_counter ack tcb :
  unacked ack (RetransmissionQueue tcb) ≠ RetransmissionQueue tcb →
  RetransmitCounter (ack_queue ack tcb) = 0.
Proof.
  unfold ack_queue. destruct (RetransmissionQueue tcb) as [|s q] eqn:Eq; [done|].
  simpl. by destruct (_ <? _).
Qed.

Lemma remove_spec ack tcb :
  removeFromRetransmissionQueue ack tcb = (Ok tt, ack_queue ack tcb, []).
Proof.
  unfold removeFromRetransmissionQueue, ack_queue. go_unfold. simpl.
  destruct (RetransmissionQueue tcb) as [|s q] eqn:Eq; simpl; [done|].
  destruct (Z.ltb_spec (SeqNum (RTCPHeader s)) ack); simpl; [|done].
  change (0 + 1) with 1. destruct (remove_index_unacked ack q 1 0) as (n & Hn & E & Hu); [lia..|].
  destruct (Z.ltb_spec (-1) (remove_index ack 1 q 0)); [|lia].
  pose proof (zlen_cons s q).
  rewrite slice_in by lia. simpl.
  rewrite ztake_all.
  - do 4 f_equal. rewrite E, Hu. unfold zdrop.
    replace (Z.to_nat (1 + n)) with (S (Z.to_nat n)) by lia. done.
  - rewrite zlen_zdrop; lia.
Qed.

(** The payload of a retransmission is the window of the send buffer. *)
Lemma retransmit_payload_window buf seg :
  zlen buf = MAX_BUF_SIZE → 0 ≤ RPayloadLen seg ≤ MAX_BUF_SIZE →
  ∃ p, retransmit_payload buf seg = Some p ∧
    ring_window buf (SeqNum (RTCPHeader seg)) (RPayloadLen seg) p.
Proof.
  intros Hb Hlen. unfold retransmit_payload.
  set (s := SeqNum (RTCPHeader seg)). set (n := RPayloadLen seg) in *.
  pose proof (SequenceToBufferInd_range s) as Hi. unfold MAX_BUF_SIZE in *.
  pose proof (zlen_make_bytes n ltac:(lia)) as Hm.
  destruct (Z.ltb_spec 0 n).
  2: { assert (n = 0) as -> by lia. exists []. split; [done|]. split; [done|lia]. }
  u32_norm. destruct (Z.ltb_spec 65535 (SequenceToBufferInd s + n)).
  - u32_norm. rewrite !slice_in by lia. simpl.
    rewrite (ztake_all (zlen buf - _)) by (rewrite zlen_zdrop by lia; lia).
    destruct (copy_into_in (make_bytes n) 0 (zlen (make_bytes n))
      (zdrop (SequenceToBufferInd s) buf)) as (p1 & E1 & L1 & C1); [lia..|].
    rewrite E1. simpl.
    destruct (copy_into_in p1 (65535 - SequenceToBufferInd s) (zlen p1)
      (ztake (SequenceToBufferInd s + n - 65535 - 0) (zdrop 0 buf)))
      as (p2 & E2 & L2 & C2); [lia..|].
    exists p2. split; [done|]. split; [lia|]. intros d Hd.
    rewrite C2, C1 by lia. unfold rlookup.
    rewrite SequenceToBufferInd_add by (unfold MAX_BUF_SIZE; lia).
    rewrite !zlen_zdrop, zlen_ztake, zlookup_ztake by (rewrite ?zlen_zdrop; lia).
    unfold MAX_BUF_SIZE in *.
    bool_hyps; simpl; try lia; rewrite zlookup_zdrop by lia; f_equal; lia.
  - rewrite slice_in by lia. simpl.
    destruct (copy_into_in (make_bytes n) 0 (zlen (make_bytes n))
      (ztake (SequenceToBufferInd s + n - SequenceToBufferInd s)
         (zdrop (SequenceToBufferInd s) buf))) as (p1 & E1 & L1 & C1); [lia..|].
    exists p1. split; [done|]. split; [lia|]. intros d Hd.
    rewrite C1 by lia. unfold rlookup.
    rewrite SequenceToBufferInd_add by (unfold MAX_BUF_SIZE; lia).
    rewrite zlen_ztake, zlookup_ztake by (rewrite ?zlen_zdrop; lia).
    unfold MAX_BUF_SIZE in *.
    bool_hyps; simpl; try lia; rewrite zlookup_zdrop by lia; f_equal; lia.
Qed.

(** ** One retransmission *)

(** A connection whose first unacknowledged segment can be rebuilt. *)
Definition can_retransmit (tcb : TCB) (seg : RetransmitSegment) : Prop :=
  State tcb ≠ TIME_WAIT ∧ State tcb ≠ CLOSED ∧
  RetransmissionQueue tcb !! 0%nat = Some seg ∧
  zlen (SND_Buffer (SND tcb)) = MAX_BUF_SIZE ∧ 0 ≤ RPayloadLen seg ≤ MAX_BUF_SIZE.

Section fire.
Context {N : Netstack}.

Lemma waitTimeout_fire_retransmits key now tcb seg :
  can_retransmit tcb seg → RetransmitCounter tcb ≠ MAX_RETRANSMISSIONS →
  ∃ tcb' p, waitTimeout_fire key now tcb =
    (Ok TimerAgain, tcb',
     [ELock; EUnlock; EIP (ip_message (LocalAddr key) (DestAddr key) (RTCPHeader seg) p)]) ∧
    ring_window (SND_Buffer (SND tcb)) (SeqNum (RTCPHeader seg)) (RPayloadLen seg) p ∧
    SND tcb' = SND tcb ∧ RCV tcb' = RCV tcb ∧ State tcb' = State tcb ∧
    RetransmissionQueue tcb' = RetransmissionQueue tcb ∧
    RetransmitCounter tcb' = RetransmitCounter tcb + 1 ∧
    RTO tcb' = i64 (RTO tcb * 2).
Proof.
  intros (Hs1 & Hs2 & Hq & Hb & Hl) Hc.
  destruct (retransmit_payload_window (SND_Buffer (SND tcb)) seg Hb Hl) as (p & Ep & Hp).
  unfold waitTimeout_fire, retransmit_head, AfterLoss. go_unfold. simpl.
  rewrite decide_False by naive_solver.
  destruct (RetransmissionQueue tcb) as [|s q] eqn:Eq; [done|].
  simpl in Hq. simplify_eq. apply Z.eqb_neq in Hc. rewrite Hc.
  destruct (CControlEnabled tcb); simpl; rewrite Ep; simpl;
    eexists _, p; (split; [reflexivity|]); simpl; by rewrite Eq.
Qed.

Lemma waitTimeout_fire_gives_up key now tcb seg :
  can_retransmit tcb seg → RetransmitCounter tcb = MAX_RETRANSMISSIONS →
  waitTimeout_fire key now tcb =
    (Ok TimerDelete, set_TimeoutCancelled true (set_State CLOSED tcb),
     [ELock; EBroadcast WriteBlockedCond; ESignal SendBlockedCond;
      ESignal ReadBlockedCond; EUnlock]).
Proof.
  intros (Hs1 & Hs2 & Hq & _) Hc. unfold waitTimeout_fire. go_unfold. simpl.
  rewrite decide_False by naive_solver.
  destruct (RetransmissionQueue tcb) as [|s q] eqn:Eq; [done|].
  rewrite Hc. done.
Qed.

(** Timers that expire one after the other without an acknowledgement. *)
Fixpoint timer_fires (key : SocketData) (now : Z) (later : list Z) : TM timer_next :=
  r ← waitTimeout_fire key now;
  match r, later with
  | TimerAgain, now' :: later' => timer_fires key now' later'
  | _, _ => mret r
  end.

Definition is_EIP (e : eff) : bool := match e with EIP _ => true | _ => false end.

Lemma timer_fires_gives_up key now later tcb seg :
  can_retransmit tcb seg →
  RetransmitCounter tcb + zlen later = MAX_RETRANSMISSIONS →
  ∃ tcb' tr, timer_fires key now later tcb = (Ok TimerDelete, tcb', tr) ∧
    State tcb' = CLOSED ∧ TimeoutCancelled tcb' = true ∧
    zlen (List.filter is_EIP tr) = zlen later.
Proof.
  revert now tcb. induction later as [|now' later IH]; intros now tcb Hcan Hn; simpl.
  - rewrite zlen_nil in Hn.
    unfold mbind, go_bind. rewrite (waitTimeout_fire_gives_up _ _ _ seg) by (done || lia).
    eexists _, _. split; [reflexivity|]. done.
  - rewrite zlen_cons in Hn. pose proof (zlen_nonneg later).
    destruct (waitTimeout_fire_retransmits key now tcb seg Hcan)
      as (t1 & p & E1 & _ & HS & HR & Hst & HQ & Hc & _).
    { unfold MAX_RETRANSMISSIONS in *. lia. }
    destruct (IH now' t1) as (t2 & tr & E2 & H2 & H2' & Hl).
    { unfold can_retransmit in *. by rewrite Hst, HQ, HS. }
    { lia. }
    unfold mbind, go_bind in *. rewrite E1, E2.
    eexists _, _. split; [reflexivity|]. split_and!; [done..|].
    simpl. rewrite !zlen_cons, Hl. done.
Qed.
End fire.

(** ** Properties *)

(** C22: On a retransmission queue in sequence order, an acknowledgement removes
    exactly the segments that start below it, keeps the others in order, and resets
    the retransmission counter only when it removed one. *)
Theorem removeFromRetransmissionQueue_exact (ackNum : Z) (tcb : TCB) :
  StronglySorted (λ a b, SeqNum (RTCPHeader a) ≤ SeqNum (RTCPHeader b))
    (RetransmissionQueue tcb) →
  ∃ tcb', removeFromRetransmissionQueue ackNum tcb = (Ok tt, tcb', []) ∧
    RetransmissionQueue tcb' =
      filter (λ s, ackNum ≤ SeqNum (RTCPHeader s)) (RetransmissionQueue tcb) ∧
    RetransmitCounter tcb' =
      (if decide (RetransmissionQueue tcb' = RetransmissionQueue tcb)
       then RetransmitCounter tcb else 0) ∧
    SND tcb' = SND tcb ∧ RCV tcb' = RCV tcb ∧ State tcb' = State tcb.
Proof.
  intros Hs. rewrite remove_spec. go_exists.
  rewrite <-(unacked_filter ackNum) by done. unfold ack_queue.
  destruct (RetransmissionQueue tcb) as [|s q] eqn:Eq; simpl.
  { rewrite Eq. by rewrite decide_True. }
  destruct (Z.ltb_spec (SeqNum (RTCPHeader s)) ackNum); simpl.
  - split_and!; [done| |done..]. rewrite decide_False; [done|].
    intros E. apply (f_equal length) in E. simpl in E.
    destruct (remove_index_unacked ackNum q 1 0) as (n & Hn & _ & Hu); [lia..|].
    rewrite Hu in E. unfold zdrop in E. rewrite length_drop in E. lia.
  - rewrite Eq. by rewrite decide_True.
Qed.

Definition demo_segment (seq len : Z) : RetransmitSegment :=
  mkRetransmitSegment (mkTCPFields 1 2 seq 0 20 16 0 0 0) len.

Lemma removeFromRetransmissionQueue_exact_witness :
  let tcb := set_RetransmissionQueue [demo_segment 10 5; demo_segment 15 5; demo_segment 20 5]
               zero_TCB in
  ∃ tcb', removeFromRetransmissionQueue 20 tcb = (Ok tt, tcb', []) ∧
    RetransmissionQueue tcb' = [demo_segment 20 5].
Proof.
  intros tcb. destruct (removeFromRetransmissionQueue_exact 20 tcb) as (t & E & Hq & _).
  - repeat constructor; simpl; lia.
  - exists t. split; [done|]. by rewrite Hq.
Defined.

(** C19: A timeout retransmits the oldest unacknowledged segment unchanged: when the
    send buffer still holds the bytes of that segment, the message given to the IP
    layer is its stored header followed by exactly those bytes (across the end of the
    circular buffer too), the lock is released before the send, the queue and the
    buffers are untouched and the timeout is doubled. *)
Theorem waitTimeout_retransmits_segment {N : Netstack} (key : SocketData) (now : Z)
    (tcb : TCB) (seg : RetransmitSegment) (st : Z → byte) :
  can_retransmit tcb seg → RetransmitCounter tcb ≠ MAX_RETRANSMISSIONS →
  holds (SND_Buffer (SND tcb)) st (SeqNum (RTCPHeader seg))
    (SeqNum (RTCPHeader seg) + RPayloadLen seg) →
  ∃ tcb', waitTimeout_fire key now tcb =
    (Ok TimerAgain, tcb',
     [ELock; EUnlock;
      EIP (ip_message (LocalAddr key) (DestAddr key) (RTCPHeader seg)
             (stretch st (SeqNum (RTCPHeader seg)) (RPayloadLen seg)))]) ∧
    RetransmissionQueue tcb' = RetransmissionQueue tcb ∧
    SND tcb' = SND tcb ∧ RCV tcb' = RCV tcb ∧ RTO tcb' = i64 (RTO tcb * 2).
Proof.
  intros Hcan Hc Hh.
  destruct (waitTimeout_fire_retransmits key now tcb seg Hcan Hc)
    as (t & p & E & Hw & HS & HR & _ & HQ & _ & HRTO).
  exists t. rewrite <-(holds_window _ _ _ _ _ Hh Hw). done.
Qed.

(** An established connection with one segment of three bytes, 65533 to 65535, in
    flight: it wraps around the end of the send buffer. *)
Definition demo_sender : TCB :=
  set_RetransmissionQueue [demo_segment 65533 3]
    (set_State ESTABLISHED (tcb_SND_Buffer (make_bytes MAX_BUF_SIZE) zero_TCB)).

Lemma demo_sender_can_retransmit : can_retransmit demo_sender (demo_segment 65533 3).
Proof.
  unfold can_retransmit. by split_and!.
Qed.

Lemma waitTimeout_retransmits_segment_witness :
  ∃ tcb', waitTimeout_fire (mkSocketData 1 2 3 4) 0 demo_sender =
    (Ok TimerAgain, tcb',
     [ELock; EUnlock;
      EIP (ip_message 1 3 (RTCPHeader (demo_segment 65533 3)) [x00; x00; x00])]).
Proof.
  destruct (waitTimeout_retransmits_segment (mkSocketData 1 2 3 4) 0 demo_sender
              (demo_segment 65533 3) (λ _, x00)) as (t & E & _).
  - exact demo_sender_can_retransmit.
  - done.
  - intros x Hx. simpl in Hx.
    destruct (decide (x = 65533)) as [->|]; [by vm_compute|].
    destruct (decide (x = 65534)) as [->|]; [by vm_compute|].
    destruct (decide (x = 65535)) as [->|]; [by vm_compute|lia].
  - by exists t.
Defined.

(** C23: A connection does not retransmit for ever: from a retransmission counter
    [c], [MAX_RETRANSMISSIONS - c] timeouts without an acknowledgement each send the
    oldest segment once more, and the next one closes the connection, marks it as
    timed out and asks for its removal from the socket table. *)
Theorem retransmission_gives_up {N : Netstack} (key : SocketData) (now : Z)
    (later : list Z) (tcb : TCB) (seg : RetransmitSegment) :
  can_retransmit tcb seg → RetransmitCounter tcb + zlen later = MAX_RETRANSMISSIONS →
  ∃ tcb' tr, timer_fires key now later tcb = (Ok TimerDelete, tcb', tr) ∧
    State tcb' = CLOSED ∧ TimeoutCancelled tcb' = true ∧
    zlen (List.filter is_EIP tr) = zlen later.
Proof. apply timer_fires_gives_up. Qed.

Lemma retransmission_gives_up_witness :
  ∃ tcb' tr, timer_fires (mkSocketData 1 2 3 4) 0 [1; 2; 3; 4; 5] demo_sender
      = (Ok TimerDelete, tcb', tr) ∧
    State tcb' = CLOSED ∧ TimeoutCancelled tcb' = true ∧
    zlen (List.filter is_EIP tr) = 5.
Proof.
  apply (retransmission_gives_up (mkSocketData 1 2 3 4) 0 [1; 2; 3; 4; 5] demo_sender
           (demo_segment 65533 3)).
  - exact demo_sender_can_retransmit.
  - done.
Defined.
