(* ===== verification/TcpReceive.v ===== *)
(** * Receiving segments on an open connection

    [Receive] and [ReceiveFin] of [src/pkg/tcp/tcp_handler_core.go]: the data of a
    segment goes into the circular receive buffer, in order or early; its
    acknowledgement moves the send window.  The receiving side is proved against
    the byte stream of the peer. *)

From S2P Require Import Prelude GoLang Wire WireRef Ring TcpData EarlyArrivals Congestion Rto Retransmit.

Section receive.
Context {N : Netstack}.

(** The header of a pure acknowledgement, with the sequence number and the window
    of the connection. *)
Definition ack_header (socketData : SocketData) (tcb : TCB) (ackNum : Z) : TCPFields :=
  CreateTCPHeader (LocalAddr socketData) (DestAddr socketData) (LocalPort socketData)
    (DestPort socketData) (SND_NXT (SND tcb)) ackNum TCPFlagAck (RCV_WND (RCV tcb)) [].

Definition ack_message (socketData : SocketData) (tcb : TCB) (ackNum : Z) : list byte :=
  ip_message (LocalAddr socketData) (DestAddr socketData)
    (ack_header socketData tcb ackNum) [].

Definition send_ack (socketData : SocketData) (ackNum : Z) : TM unit :=
  tcbEntry ← get;
  emit (EIP (ack_message socketData tcbEntry ackNum)).

(** *** The copy loop *)

(** The body of the loop up to the pointer updates: the buffer after copying
    [toCopy] bytes of the payload, from [amountCopied] on, to [startCopyIndex]. *)
Definition copy_segment (buffer payload : list byte)
    (amountCopied startCopyIndex toCopy : Z) : option (list byte) :=
  let nxt_index := SequenceToBufferInd startCopyIndex in
  if MAX_BUF_SIZE <=? (nxt_index ⊞ toCopy) then
    let firstCopy := MAX_BUF_SIZE ⊟ nxt_index in
    src1 ← slice payload amountCopied (amountCopied ⊞ firstCopy);
    buffer1 ← copy_into buffer nxt_index (zlen buffer) src1;
    let secondCopy := toCopy ⊟ firstCopy in
    src2 ← slice payload (amountCopied ⊞ firstCopy) (amountCopied ⊞ firstCopy ⊞ secondCopy);
    copy_into buffer1 0 secondCopy src2
  else
    src ← slice payload amountCopied (amountCopied ⊞ toCopy);
    copy_into buffer nxt_index (nxt_index ⊞ toCopy) src.

(** [for amountCopied < amountToCopy]: with too little fuel the loop is taken to
    spin for ever; two iterations and a final test are enough for a loop that ends
    ([copy_loop_fits], [copy_loop_spins]). *)
Fixpoint copy_loop (fuel : nat) (payload : list byte) (amountToCopy : Z)
    (earlyArrivals : bool) (amountCopied startCopyIndex : Z) : TM unit :=
  match fuel with
  | O => hang
  | S fuel =>
      if amountCopied <? amountToCopy then
        tcbEntry ← get;
        let remainingBufSize :=
          MAX_BUF_SIZE ⊟ (startCopyIndex ⊟ RCV_LBR (RCV tcbEntry)) in
        let toCopy := Min remainingBufSize (amountToCopy ⊟ amountCopied) in
        buffer ← try (copy_segment (RCV_Buffer (RCV tcbEntry)) payload
                        amountCopied startCopyIndex toCopy);
        modify (tcb_RCV_Buffer buffer);;
        when (negb earlyArrivals)
          (modify (λ t, tcb_RCV_NXT (RCV_NXT (RCV t) ⊞ toCopy) t);;
           modify (λ t, tcb_RCV_WND (RCV_WND (RCV t) ⊟ toCopy) t));;
        copy_loop fuel payload amountToCopy earlyArrivals (amountCopied ⊞ toCopy)
          (startCopyIndex ⊞ toCopy)
      else mret tt
  end.

Definition copy_fuel : nat := 3.

(** *** The receiver: a segment with data *)

(** A segment inside the window: its bytes go into the buffer; in order, they and
    the early arrivals behind them become readable; early, it is queued. *)
Definition Receive_place (seqNumReceived : Z) (payload : list byte) : TM unit :=
  tcbEntry ← get;
  let earlyArrivals := RCV_NXT (RCV tcbEntry) <? seqNumReceived in
  let startCopyIndex :=
    if earlyArrivals then seqNumReceived else RCV_NXT (RCV tcbEntry) in
  copy_loop copy_fuel payload (u32 (zlen payload)) earlyArrivals 0 startCopyIndex;;
  if negb earlyArrivals then
    previousRCVNXT ← gets (λ t, RCV_NXT (RCV t));
    nxt ← updateAckNum previousRCVNXT;
    modify (tcb_RCV_NXT nxt);;
    modify (λ t, tcb_RCV_WND (RCV_WND (RCV t) ⊟ (RCV_NXT (RCV t) ⊟ previousRCVNXT)) t)
  else
    modify (λ t, set_EarlyArrivalQueue
      (Push (mkEarlyArrivalEntry seqNumReceived (u32 (zlen payload)))
         (EarlyArrivalQueue t)) t).

(** The acknowledgement of such a segment; a FIN that came early is due when all
    the data before it is there. *)
Definition Receive_reply (socketData : SocketData) : TM unit :=
  tcbEntry ← get;
  nextToSend ←
    (if RCV_NXT (RCV tcbEntry) =? PendingReceivedFin tcbEntry then
       modify (set_State CLOSE_WAIT);;
       mret (RCV_NXT (RCV tcbEntry) ⊞ 1)
     else mret (RCV_NXT (RCV tcbEntry)));
  send_ack socketData nextToSend;;
  emit (ESignal ReadBlockedCond).

Definition Receive_data (tcpHeader payload : list byte) (socketData : SocketData)
    : TM unit :=
  tcbEntry ← get;
  let seqNumReceived := SequenceNumber tcpHeader in
  if seqNumReceived <? RCV_NXT (RCV tcbEntry) then
    send_ack socketData (RCV_NXT (RCV tcbEntry))
  else if (RCV_NXT (RCV tcbEntry) ⊞ RCV_WND (RCV tcbEntry)) <=? seqNumReceived then
    send_ack socketData (RCV_NXT (RCV tcbEntry))
  else
    Receive_place seqNumReceived payload;;
    Receive_reply socketData.

(** *** The sender: the acknowledgement of a segment *)

(** The range test of the acknowledgement; [true] drops it. *)
Definition ack_out_of_range (tcpHeader : list byte) (tcb : TCB) : bool :=
  let ackNum := AckNumber tcpHeader in
  if WindowSize tcpHeader =? 0 then
    (ackNum <=? SND_UNA (SND tcb)) || (SND_NXT (SND tcb) <? ackNum)
  else
    (ackNum <=? SND_UNA (SND tcb)) ||
    ((SND_UNA (SND tcb) ⊞ SND_WND (SND tcb) <? ackNum) &&
     negb (SND_WND (SND tcb) =? 0)).

(** The congestion window grows with an acknowledgement of new data. *)
Definition Receive_ack_cc (ackNum : Z) : TM unit :=
  tcbEntry ← get;
  when (CControlEnabled tcbEntry)
    (UpdateCWNDWindow;;
     modify (set_CurrentAck ackNum);;
     modify (set_CurrentAckFreq 1)).

Definition Receive_ack_accept (tcpHeader : list byte) (now : Z) : TM unit :=
  let ackNum := AckNumber tcpHeader in
  removeFromRetransmissionQueue ackNum;;
  Receive_ack_cc ackNum;;
  modify (tcb_SND_WND (WindowSize tcpHeader));;
  modify (tcb_SND_UNA ackNum);;
  emit (EBroadcast WriteBlockedCond);;
  when (0 <? WindowSize tcpHeader) (emit (ESignal ZeroBlockedCond));;
  emit EUnlock;;
  updateTimeout ackNum now.

Definition Receive_ack_window (tcpHeader : list byte) (now : Z) : TM unit :=
  tcbEntry ← get;
  if ack_out_of_range tcpHeader tcbEntry then emit EUnlock
  else Receive_ack_accept tcpHeader now.

Definition Receive_ack (tcpHeader : list byte) (socketData : SocketData) (now : Z)
    : TM unit :=
  tcbEntry ← get;
  let ackNum := AckNumber tcpHeader in
  if CControlEnabled tcbEntry && (ackNum =? CurrentAck tcbEntry) then
    if (CurrentAckFreq tcbEntry =? 3) && (0 <? zlen (RetransmissionQueue tcbEntry)) then
      modify (set_CurrentAckFreq 0);;
      fastRetransmit socketData now
    else
      modify (set_CurrentAckFreq (CurrentAckFreq tcbEntry + 1));;
      Receive_ack_window tcpHeader now
  else Receive_ack_window tcpHeader now.

Definition Receive (tcpHeader payload : list byte) (socketData : SocketData) (now : Z)
    : TM unit :=
  if negb (has_flag tcpHeader TCPFlagAck) then mret tt
  else
    emit ELock;;
    when (0 <? zlen payload) (Receive_data tcpHeader payload socketData);;
    Receive_ack tcpHeader socketData now.

(** *** A FIN in [ESTABLISHED] *)

Definition ReceiveFin (tcpHeader : list byte) (socketData : SocketData) : TM unit :=
  emit ELock;;
  tcbEntry ← get;
  nxtToSend ←
    (if SequenceNumber tcpHeader =? RCV_NXT (RCV tcbEntry) then
       modify (set_State CLOSE_WAIT);;
       emit (ESignal ReadBlockedCond);;
       mret (RCV_NXT (RCV tcbEntry) ⊞ 1)
     else if RCV_NXT (RCV tcbEntry) <? SequenceNumber tcpHeader then
       modify (set_PendingReceivedFin (SequenceNumber tcpHeader));;
       mret (RCV_NXT (RCV tcbEntry))
     else mret 0);
  send_ack socketData nxtToSend;;
  emit EUnlock.
End receive.

(** ** The copy loop *)

Lemma copy_segment_put buf payload a s n :
  zlen buf = MAX_BUF_SIZE → 0 ≤ a → 0 ≤ n ≤ MAX_BUF_SIZE →
  a + n ≤ zlen payload → zlen payload < 4294967296 →
  ∃ buf', copy_segment buf payload a s n = Some buf' ∧
    ring_put buf s (ztake n (zdrop a payload)) buf'.
Proof.
  intros Hb Ha Hn Hle Hp. unfold copy_segment.
  pose proof (SequenceToBufferInd_range s) as Hi.
  assert (Hlen : zlen (ztake n (zdrop a payload)) = n)
    by (rewrite zlen_ztake; [done|rewrite zlen_zdrop; lia]).
  unfold MAX_BUF_SIZE in *. u32_norm.
  destruct (Z.leb_spec 65535 (SequenceToBufferInd s + n)); u32_norm.
  - rewrite !slice_in by lia. simpl.
    set (f := 65535 - SequenceToBufferInd s) in *.
    replace (a + f - a) with f by lia. replace (a + f + (n - f) - (a + f)) with (n - f) by lia.
    set (p1 := ztake f (zdrop a payload)). set (p2 := ztake (n - f) (zdrop (a + f) payload)).
    assert (zlen p1 = f) by (unfold p1; rewrite zlen_ztake; [done|rewrite zlen_zdrop; lia]).
    assert (zlen p2 = n - f) by (unfold p2; rewrite zlen_ztake; [done|rewrite zlen_zdrop; lia]).
    destruct (copy_into_in buf (SequenceToBufferInd s) (zlen buf) p1) as (b1 & E1 & L1 & _); [lia..|].
    destruct (copy_into_in b1 0 (n - f) p2) as (b2 & E2 & L2 & _); [lia..|].
    rewrite E1. simpl. exists b2. split; [done|].
    replace (ztake n (zdrop a payload)) with (p1 ++ p2).
    + eapply ring_put_split; [done|unfold MAX_BUF_SIZE; lia|lia|exact E1|].
      by replace (zlen p2) with (n - f) by lia.
    + apply zlist_eq; [rewrite zlen_app; lia|]. intros i Hi'. rewrite zlen_app in Hi'.
      rewrite zlookup_app. unfold p1, p2. rewrite !zlookup_ztake.
      fold p1. destruct (Z.ltb_spec i (zlen p1)).
      * bool_hyps; try lia; done.
      * rewrite !zlookup_zdrop by lia. bool_hyps; try lia. f_equal. lia.
  - rewrite slice_in by lia. simpl. replace (a + n - a) with n by lia.
    destruct (copy_into_in buf (SequenceToBufferInd s) (SequenceToBufferInd s + n)
      (ztake n (zdrop a payload))) as (b1 & E1 & L1 & _); [lia..|].
    exists b1. split; [done|].
    apply (ring_put_straight _ _ _ (SequenceToBufferInd s + n)); [done|lia|unfold MAX_BUF_SIZE; lia|done].
Qed.

(** The state after the loop copied the whole payload. *)
Definition after_copy (early : bool) (n : Z) (buf' : list byte) (tcb : TCB) : TCB :=
  if early then tcb_RCV_Buffer buf' tcb
  else tcb_RCV_WND (RCV_WND (RCV tcb) - n)
         (tcb_RCV_NXT (RCV_NXT (RCV tcb) + n) (tcb_RCV_Buffer buf' tcb)).

(** A payload that fits in the space left of the buffer is copied in one turn. *)
Lemma copy_loop_fits fuel payload early s tcb :
  zlen (RCV_Buffer (RCV tcb)) = MAX_BUF_SIZE →
  0 ≤ RCV_LBR (RCV tcb) ≤ s → 0 < zlen payload →
  s + zlen payload ≤ RCV_LBR (RCV tcb) + MAX_BUF_SIZE →
  RCV_LBR (RCV tcb) + MAX_BUF_SIZE < 4294967296 →
  (early = false → RCV_NXT (RCV tcb) = s ∧
     zlen payload ≤ RCV_WND (RCV tcb) < 4294967296) →
  ∃ buf', copy_loop (S (S fuel)) payload (zlen payload) early 0 s tcb =
      (Ok tt, after_copy early (zlen payload) buf' tcb, []) ∧
    ring_put (RCV_Buffer (RCV tcb)) s payload buf'.
Proof.
  intros Hb Hs Hp0 Hfit Hw Hord.
  destruct (copy_segment_put (RCV_Buffer (RCV tcb)) payload 0 s (zlen payload))
    as (buf' & E & Hput); [done|lia..|unfold MAX_BUF_SIZE in *; lia|].
  exists buf'. replace (ztake _ _) with payload in Hput
    by (symmetry; unfold zdrop; simpl; by rewrite ztake_all).
  split; [|done]. simpl. go_unfold. simpl.
  destruct (Z.ltb_spec 0 (zlen payload)); [|lia].
  unfold MAX_BUF_SIZE in *. u32_norm. rewrite Min_spec, Z.min_r, Z.sub_0_r by lia.
  rewrite E. simpl. u32_norm. rewrite Z.ltb_irrefl.
  unfold after_copy. destruct early; simpl; [done|].
  destruct (Hord eq_refl) as [-> ?]. u32_norm. done.
Qed.

(** The rest of a run spins, so the run does. *)
Ltac spin_with lem tac :=
  match goal with |- context [copy_loop ?f ?p ?l ?e ?a ?s ?t] =>
    let H := fresh "Hspin" in
    assert (H : run_res (copy_loop f p l e a s) t = Hang);
    [ first [ let H2 := fresh in pose proof (lem t) as H2; simpl in H2; tac H2; exact H2
            | pose proof lem as H; tac H ]
    | unfold run_res in H; destruct (copy_loop f p l e a s t) as [[? ?] ?];
      simpl in *; by subst ]
  end.

(** A payload that does not fit makes the loop spin, whatever the fuel: once the
    buffer is full every turn copies nothing. *)
Lemma copy_loop_full_spins fuel payload len early a s tcb :
  zlen (RCV_Buffer (RCV tcb)) = MAX_BUF_SIZE →
  0 ≤ a < len → zlen payload = len → len < 4294967296 → is_u32 s →
  u32 (s - RCV_LBR (RCV tcb)) = MAX_BUF_SIZE →
  run_res (copy_loop fuel payload len early a s) tcb = Hang.
Proof.
  revert tcb. induction fuel as [|fuel IH]; intros tcb Hb Ha Hl Hlen Hs Hfull; [done|].
  unfold run_res. simpl. go_unfold. simpl.
  destruct (Z.ltb_spec a len); [|lia]. rewrite Hfull.
  rewrite Z.sub_diag, Min_spec. change (u32 0) with 0.
  rewrite Z.min_l by apply u32_range.
  destruct (copy_segment_put (RCV_Buffer (RCV tcb)) payload a s 0)
    as (buf' & E & [Hput _]); [done|unfold MAX_BUF_SIZE; lia..|].
  rewrite E. simpl. rewrite !Z.add_0_r. unfold is_u32 in *. u32_norm.
  destruct early; simpl; spin_with IH ltac:(fun H => specialize (H Hput Ha Hl Hlen Hs Hfull)).
Qed.

Lemma copy_loop_spins fuel payload early s tcb :
  zlen (RCV_Buffer (RCV tcb)) = MAX_BUF_SIZE →
  0 ≤ RCV_LBR (RCV tcb) ≤ s → s < RCV_LBR (RCV tcb) + MAX_BUF_SIZE →
  RCV_LBR (RCV tcb) + MAX_BUF_SIZE < s + zlen payload →
  RCV_LBR (RCV tcb) + MAX_BUF_SIZE < 4294967296 → zlen payload < 4294967296 →
  run_res (copy_loop fuel payload (zlen payload) early 0 s) tcb = Hang.
Proof.
  intros Hb Hs Hwin Hover Hw Hp. destruct fuel as [|fuel]; [done|].
  set (rem := MAX_BUF_SIZE - (s - RCV_LBR (RCV tcb))).
  destruct (copy_segment_put (RCV_Buffer (RCV tcb)) payload 0 s rem)
    as (buf' & E & [Hlen _]); [done|unfold rem, MAX_BUF_SIZE in *; lia..|].
  unfold run_res. simpl. go_unfold. simpl. unfold MAX_BUF_SIZE in *.
  destruct (Z.ltb_spec 0 (zlen payload)); [|lia].
  u32_norm. fold rem. rewrite Min_spec, Z.min_l by lia. rewrite E. simpl. u32_norm.
  assert (Hfull : u32 (s + rem - RCV_LBR (RCV tcb)) = MAX_BUF_SIZE)
    by (unfold rem, MAX_BUF_SIZE; rewrite u32_small; lia).
  destruct early; simpl;
    spin_with (copy_loop_full_spins fuel payload (zlen payload))
      ltac:(fun H => apply H; [done|lia|done|lia|unfold is_u32; lia|done]).
Qed.

Lemma copy_loop_silent fuel payload len early a s tcb :
  run_trace (copy_loop fuel payload len early a s) tcb = [].
Proof.
  revert a s tcb. induction fuel as [|fuel IH]; intros a s tcb; [done|].
  unfold run_trace in *. simpl. go_unfold. destruct (a <? len); [|done].
  destruct (copy_segment _ _ _ _ _); simpl; [|done].
  destruct early; simpl; match goal with |- context [copy_loop ?f ?p ?l ?e ?a ?s ?t] =>
    specialize (IH a s t); destruct (copy_loop f p l e a s t) as [[[] ?] ?] end;
    by simpl in *; subst.
Qed.

#[global] Arguments copy_loop : simpl never.

(** ** The receive invariant

    [st] is the byte stream of the peer, by absolute sequence number.  The buffer
    holds the stream from the next byte to be read up to [RCV.NXT], the window is the
    space that is left, and every early arrival at or beyond [RCV.NXT] is in the
    buffer too.  The window does not reach the end of the sequence space: the code
    compares sequence numbers and computes buffer indices without wrap-around. *)
Record rcv_inv (st : Z → byte) (tcb : TCB) : Prop := {
  ri_buf : zlen (RCV_Buffer (RCV tcb)) = MAX_BUF_SIZE;
  ri_ptr : 0 ≤ RCV_LBR (RCV tcb) ≤ RCV_NXT (RCV tcb);
  ri_cap : RCV_NXT (RCV tcb) ≤ RCV_LBR (RCV tcb) + MAX_BUF_SIZE;
  ri_wrap : RCV_LBR (RCV tcb) + MAX_BUF_SIZE < 4294967296;
  ri_wnd : RCV_WND (RCV tcb) = MAX_BUF_SIZE - (RCV_NXT (RCV tcb) - RCV_LBR (RCV tcb));
  ri_data : holds (RCV_Buffer (RCV tcb)) st (RCV_LBR (RCV tcb)) (RCV_NXT (RCV tcb));
  ri_wf : Forall wf_entry (EarlyArrivalQueue tcb);
  ri_early : ∀ e, e ∈ EarlyArrivalQueue tcb → RCV_NXT (RCV tcb) ≤ SequenceNum e →
    eend e ≤ RCV_LBR (RCV tcb) + MAX_BUF_SIZE ∧
    holds (RCV_Buffer (RCV tcb)) st (SequenceNum e) (eend e)
}.

(** The invariant only reads the receiving side. *)
Lemma rcv_inv_frame st tcb tcb' :
  RCV tcb' = RCV tcb → EarlyArrivalQueue tcb' = EarlyArrivalQueue tcb →
  rcv_inv st tcb → rcv_inv st tcb'.
Proof. intros H1 H2 []. split; rewrite ?H1, ?H2; done. Qed.

Lemma rcv_inv_put st tcb s p buf' :
  rcv_inv st tcb → ring_put (RCV_Buffer (RCV tcb)) s p buf' → carries st s p →
  RCV_LBR (RCV tcb) ≤ s → s + zlen p ≤ RCV_LBR (RCV tcb) + MAX_BUF_SIZE →
  rcv_inv st (tcb_RCV_Buffer buf' tcb) ∧ holds buf' st s (s + zlen p).
Proof.
  intros [] Hput Hc Hs Hp. pose proof (zlen_nonneg p).
  split; [|eapply ring_put_holds; [done..|lia]].
  destruct Hput as [Hlen Hput'] eqn:E. clear E.
  split; simpl; try done.
  - eapply (ring_put_keeps _ s p _ _ (RCV_LBR (RCV tcb))); [done..| |done|done]. lia.
  - intros e He Hge. destruct (ri_early0 e He Hge) as [? Hh]. split; [done|].
    eapply (ring_put_keeps _ s p _ _ (RCV_LBR (RCV tcb))); [done..| |done|done]. lia.
Qed.

(** [updateAckNum] moves [RCV.NXT] over early arrivals only. *)
Definition advance (m : Z) (q : queue) (tcb : TCB) : TCB :=
  tcb_RCV_WND (RCV_WND (RCV tcb) - (m - RCV_NXT (RCV tcb)))
    (tcb_RCV_NXT m (set_EarlyArrivalQueue q tcb)).

(** Everything that has arrived ends where [P] holds. *)
Definition arrived (P : Z → Prop) (tcb : TCB) : Prop :=
  P (RCV_NXT (RCV tcb)) ∧ ∀ e, e ∈ EarlyArrivalQueue tcb → P (eend e).

Lemma arrived_frame P tcb tcb' :
  RCV_NXT (RCV tcb') = RCV_NXT (RCV tcb) → EarlyArrivalQueue tcb' = EarlyArrivalQueue tcb →
  arrived P tcb → arrived P tcb'.
Proof. unfold arrived. by intros -> ->. Qed.

(** It is below [hi]. *)
Definition below (hi : Z) : TCB → Prop := arrived (λ x, x ≤ hi).

Lemma coalesce_inv st tcb m q :
  rcv_inv st tcb →
  updateAckNum_loop (RCV_NXT (RCV tcb)) (EarlyArrivalQueue tcb) = (m, q) →
  RCV_NXT (RCV tcb) ≤ m ≤ RCV_LBR (RCV tcb) + MAX_BUF_SIZE ∧
  rcv_inv st (advance m q tcb) ∧
  ∀ P, arrived P tcb → arrived P (advance m q tcb).
Proof.
  intros Hinv E. pose proof Hinv as [].
  destruct (updateAckNum_loop_spec _ _ _ _ ri_wf0 E) as (Hle & [l Hl] & Hcov & Hm).
  assert (Hcap : m ≤ RCV_LBR (RCV tcb) + MAX_BUF_SIZE).
  { destruct Hm as [->|(e & He & Hs & ->)]; [done|]. by apply ri_early0. }
  split; [done|]. split.
  2: { intros P [Hn He]. split; simpl; [destruct Hm as [->|(e & ? & _ & ->)]; auto|].
       intros e ?. apply He. rewrite Hl. set_solver. }
  split; simpl; try lia; try done.
  - eapply holds_app; [exact ri_data0|]. intros x Hx.
    destruct (Hcov x Hx) as (e & He & Hs & Hc). destruct (ri_early0 e He Hs) as [_ Hh].
    by apply Hh.
  - rewrite Hl in ri_wf0. by apply Forall_app in ri_wf0 as [_ ?].
  - intros e He Hs. apply ri_early0; [rewrite Hl; set_solver|lia].
Qed.

Lemma push_inv st tcb e :
  rcv_inv st tcb → wf_entry e → eend e ≤ RCV_LBR (RCV tcb) + MAX_BUF_SIZE →
  holds (RCV_Buffer (RCV tcb)) st (SequenceNum e) (eend e) →
  rcv_inv st (set_EarlyArrivalQueue (Push e (EarlyArrivalQueue tcb)) tcb).
Proof.
  intros [] He Hend Hh. split; simpl; try done.
  - apply Forall_forall. intros a Ha%Push_elem; [|done].
    destruct Ha as [->|Ha]; [done|]. rewrite Forall_forall in ri_wf0. by apply ri_wf0.
  - intros a Ha%Push_elem; [|done]. destruct Ha as [->|Ha]; [done|]. by apply ri_early0.
Qed.

(** What a data segment may do to the rest of the connection. *)
Definition data_frame (tcb tcb' : TCB) : Prop :=
  SND tcb' = SND tcb ∧ RCV_LBR (RCV tcb') = RCV_LBR (RCV tcb) ∧
  RCV_IRS (RCV tcb') = RCV_IRS (RCV tcb) ∧
  RetransmissionQueue tcb' = RetransmissionQueue tcb ∧
  PendingReceivedFin tcb' = PendingReceivedFin tcb ∧
  CControlEnabled tcb' = CControlEnabled tcb ∧
  SegmentToTimestamp tcb' = SegmentToTimestamp tcb ∧
  CWND tcb' = CWND tcb ∧ SSTHRESH tcb' = SSTHRESH tcb ∧
  Cancelled tcb' = Cancelled tcb ∧ TimeoutCancelled tcb' = TimeoutCancelled tcb ∧
  CurrentAck tcb' = CurrentAck tcb.

(** A segment whose data fits in the receive window. *)
Definition fits (seq : Z) (payload : list byte) (tcb : TCB) : Prop :=
  RCV_NXT (RCV tcb) ≤ seq < RCV_NXT (RCV tcb) + RCV_WND (RCV tcb) →
  seq + zlen payload ≤ RCV_LBR (RCV tcb) + MAX_BUF_SIZE.

Lemma Receive_place_in_order st seq payload tcb :
  rcv_inv st tcb → seq = RCV_NXT (RCV tcb) → 0 < zlen payload → carries st seq payload →
  seq + zlen payload ≤ RCV_LBR (RCV tcb) + MAX_BUF_SIZE →
  ∃ tcb', Receive_place seq payload tcb = (Ok tt, tcb', []) ∧ rcv_inv st tcb' ∧
    data_frame tcb tcb' ∧ State tcb' = State tcb ∧
    RCV_NXT (RCV tcb) + zlen payload ≤ RCV_NXT (RCV tcb') ∧
    ∀ P : Z → Prop, P (seq + zlen payload) → arrived P tcb → arrived P tcb'.
Proof.
  intros Hinv -> Hp Hc Hfit. pose proof Hinv as [].
  unfold Receive_place. go_unfold. simpl. rewrite Z.ltb_irrefl. simpl.
  unfold MAX_BUF_SIZE in *. rewrite (u32_small (zlen payload)) by lia.
  destruct (copy_loop_fits 1 payload false (RCV_NXT (RCV tcb)) tcb) as (buf' & E & Hput);
    [done|unfold MAX_BUF_SIZE; lia..|intros _; split; [done|lia]|].
  unfold copy_fuel. rewrite E. clear E. unfold after_copy. simpl.
  destruct (rcv_inv_put st tcb _ _ _ Hinv Hput Hc) as [Hinv1 Hh]; [lia|done|].
  set (t1 := tcb_RCV_WND _ _).
  assert (Hinv2 : rcv_inv st t1).
  { destruct Hinv1. split; simpl in *; unfold MAX_BUF_SIZE in *; try lia; try done.
    - by eapply holds_app.
    - intros e He Hs. apply ri_early1; [done|lia]. }
  unfold updateAckNum. go_unfold. simpl.
  destruct (updateAckNum_loop (RCV_NXT (RCV tcb) + zlen payload) (EarlyArrivalQueue tcb))
    as [m q] eqn:Eu.
  destruct (coalesce_inv st t1 m q Hinv2 Eu) as (Hm & Hinv3 & Hbelow). simpl in *.
  unfold MAX_BUF_SIZE in *.
  rewrite (u32_small (m - _)) by lia. rewrite u32_small by lia.
  go_exists. split_and!; [done|done|done|lia|].
  intros P HP [_ He]. apply Hbelow. split; [exact HP|exact He].
Qed.

Lemma Receive_place_early st seq payload tcb :
  rcv_inv st tcb → RCV_NXT (RCV tcb) < seq → 0 < zlen payload → carries st seq payload →
  seq + zlen payload ≤ RCV_LBR (RCV tcb) + MAX_BUF_SIZE →
  ∃ tcb', Receive_place seq payload tcb = (Ok tt, tcb', []) ∧ rcv_inv st tcb' ∧
    data_frame tcb tcb' ∧ State tcb' = State tcb ∧ RCV_NXT (RCV tcb') = RCV_NXT (RCV tcb) ∧
    ∀ P : Z → Prop, P (seq + zlen payload) → arrived P tcb → arrived P tcb'.
Proof.
  intros Hinv Hseq Hp Hc Hfit. pose proof Hinv as [].
  unfold Receive_place. go_unfold. simpl. apply Z.ltb_lt in Hseq as Hb. rewrite Hb. simpl.
  unfold MAX_BUF_SIZE in *. rewrite (u32_small (zlen payload)) by lia.
  destruct (copy_loop_fits 1 payload true seq tcb) as (buf' & E & Hput);
    [done|unfold MAX_BUF_SIZE; lia..|done|].
  unfold copy_fuel. rewrite E. clear E. unfold after_copy. simpl.
  destruct (rcv_inv_put st tcb _ _ _ Hinv Hput Hc) as [Hinv1 Hh]; [lia|done|].
  go_exists. split_and!; [|done|done..|].
  2: { intros P HP [Hn He]. split; simpl; [done|]. intros e Hin.
       apply Push_elem in Hin as [->|?]; [exact HP|by apply He|unfold wf_entry, eend; simpl; lia]. }
  apply (push_inv st (tcb_RCV_Buffer buf' tcb)); [done|..]; simpl;
    unfold wf_entry, eend, MAX_BUF_SIZE; simpl; [lia|lia|done].
Qed.

Section data.
Context {N : Netstack}.

Lemma Receive_reply_ok st sd tcb :
  rcv_inv st tcb →
  ∃ tcb' ack, Receive_reply sd tcb =
      (Ok tt, tcb', [EIP (ack_message sd tcb' ack); ESignal ReadBlockedCond]) ∧
    rcv_inv st tcb' ∧ data_frame tcb tcb' ∧ RCV_NXT (RCV tcb') = RCV_NXT (RCV tcb) ∧
    EarlyArrivalQueue tcb' = EarlyArrivalQueue tcb ∧
    (ack = RCV_NXT (RCV tcb') ∧ State tcb' = State tcb ∨
     ack = RCV_NXT (RCV tcb') ⊞ 1 ∧ State tcb' = CLOSE_WAIT ∧
     RCV_NXT (RCV tcb') = PendingReceivedFin tcb).
Proof.
  intros Hinv. unfold Receive_reply, send_ack. go_unfold. simpl.
  destruct (Z.eqb_spec (RCV_NXT (RCV tcb)) (PendingReceivedFin tcb)) as [Hf|Hf]; simpl.
  - exists (set_State CLOSE_WAIT tcb). eexists. split; [reflexivity|]. split_and!.
    + by apply (rcv_inv_frame st tcb).
    + done.
    + done.
    + done.
    + right. done.
  - exists tcb. eexists. split; [reflexivity|].
    split_and!; [done..|by left].
Qed.

Lemma data_frame_trans a b c : data_frame a b → data_frame b c → data_frame a c.
Proof. unfold data_frame. intuition congruence. Qed.

Lemma Receive_data_rejects hdr payload sd tcb :
  SequenceNumber hdr < RCV_NXT (RCV tcb) ∨
    RCV_NXT (RCV tcb) ⊞ RCV_WND (RCV tcb) ≤ SequenceNumber hdr →
  Receive_data hdr payload sd tcb =
    (Ok tt, tcb, [EIP (ack_message sd tcb (RCV_NXT (RCV tcb)))]).
Proof.
  intros H. unfold Receive_data, send_ack. go_unfold. simpl.
  destruct (Z.ltb_spec (SequenceNumber hdr) (RCV_NXT (RCV tcb))); [done|].
  destruct (Z.leb_spec (RCV_NXT (RCV tcb) ⊞ RCV_WND (RCV tcb)) (SequenceNumber hdr)); [done|].
  lia.
Qed.

Lemma Receive_data_ok st hdr payload sd tcb :
  rcv_inv st tcb →
  0 < zlen payload → carries st (SequenceNumber hdr) payload →
  fits (SequenceNumber hdr) payload tcb →
  ∃ tcb' ack tr, Receive_data hdr payload sd tcb =
      (Ok tt, tcb', EIP (ack_message sd tcb' ack) :: tr) ∧
    rcv_inv st tcb' ∧ data_frame tcb tcb' ∧
    RCV_NXT (RCV tcb) ≤ RCV_NXT (RCV tcb') ∧
    (∀ P : Z → Prop, P (SequenceNumber hdr + zlen payload) → arrived P tcb → arrived P tcb') ∧
    (SequenceNumber hdr = RCV_NXT (RCV tcb) → 0 < RCV_WND (RCV tcb) →
       RCV_NXT (RCV tcb) + zlen payload ≤ RCV_NXT (RCV tcb')) ∧
    (ack = RCV_NXT (RCV tcb') ∧ State tcb' = State tcb ∨
     ack = RCV_NXT (RCV tcb') ⊞ 1 ∧ State tcb' = CLOSE_WAIT ∧
     RCV_NXT (RCV tcb') = PendingReceivedFin tcb) ∧
    (tr = [] ∨ tr = [ESignal ReadBlockedCond]).
Proof.
  intros Hinv Hp Hc Hfit. pose proof Hinv as [].
  set (seq := SequenceNumber hdr) in *.
  assert (Hw : RCV_NXT (RCV tcb) ⊞ RCV_WND (RCV tcb) = RCV_NXT (RCV tcb) + RCV_WND (RCV tcb))
    by (unfold MAX_BUF_SIZE in *; apply u32_small; lia).
  destruct (decide (seq < RCV_NXT (RCV tcb) ∨ RCV_NXT (RCV tcb) + RCV_WND (RCV tcb) ≤ seq))
    as [Hout|Hin].
  - rewrite Receive_data_rejects by (fold seq; rewrite Hw; done).
    exists tcb, (RCV_NXT (RCV tcb)), []. split_and!; try done; try lia; auto.
  - assert (Hplace : ∃ t1, Receive_place seq payload tcb = (Ok tt, t1, []) ∧ rcv_inv st t1 ∧
      data_frame tcb t1 ∧ State t1 = State tcb ∧ RCV_NXT (RCV tcb) ≤ RCV_NXT (RCV t1) ∧
      (seq = RCV_NXT (RCV tcb) → RCV_NXT (RCV tcb) + zlen payload ≤ RCV_NXT (RCV t1)) ∧
      (∀ P : Z → Prop, P (seq + zlen payload) → arrived P tcb → arrived P t1)).
    { destruct (decide (seq = RCV_NXT (RCV tcb))) as [Heq|Hne].
      - destruct (Receive_place_in_order st seq payload tcb) as (t1 & ? & ? & ? & ? & ? & ?);
          [done..|apply Hfit; lia|].
        exists t1. split_and!; try done; lia.
      - destruct (Receive_place_early st seq payload tcb) as (t1 & ? & ? & ? & ? & ? & ?);
          [done|lia|done..|apply Hfit; lia|].
        exists t1. split_and!; try done; lia. }
    destruct Hplace as (t1 & E1 & Hinv1 & Hf1 & Hs1 & Hn1 & Hi1 & Hb1).
    destruct (Receive_reply_ok st sd t1 Hinv1) as (t2 & ack & E2 & Hinv2 & Hf2 & Hn2 & Hq2 & Hack).
    exists t2, ack, [ESignal ReadBlockedCond].
    assert (Hpf : PendingReceivedFin t1 = PendingReceivedFin tcb) by apply Hf1.
    split_and!; [|done|by eapply data_frame_trans|lia|
      intros P ??; apply (arrived_frame P t1); auto|intros; rewrite Hn2; by apply Hi1| |by right].
    + unfold Receive_data. go_unfold. simpl. fold seq. rewrite Hw.
      destruct (Z.ltb_spec seq (RCV_NXT (RCV tcb))); [lia|].
      destruct (Z.leb_spec (RCV_NXT (RCV tcb) + RCV_WND (RCV tcb)) seq); [lia|].
      rewrite E1, E2. done.
    + destruct Hack as [[-> ?]|(-> & ? & Hfin)]; [left|right]; split_and!; try done; congruence.
Qed.
End data.

(** ** The sending side of [Receive] *)

(** What the acknowledgement routine needs of the connection. *)
Definition snd_ok (tcb : TCB) : Prop :=
  zlen (SND_Buffer (SND tcb)) = MAX_BUF_SIZE ∧
  Forall (λ s, 0 ≤ RPayloadLen s ≤ MAX_BUF_SIZE) (RetransmissionQueue tcb) ∧
  (CControlEnabled tcb = true → cc_bounds tcb).

(** What it leaves alone. *)
Definition ack_frame (tcb tcb' : TCB) : Prop :=
  RCV tcb' = RCV tcb ∧ EarlyArrivalQueue tcb' = EarlyArrivalQueue tcb ∧
  State tcb' = State tcb ∧ PendingReceivedFin tcb' = PendingReceivedFin tcb ∧
  SND_Buffer (SND tcb') = SND_Buffer (SND tcb) ∧ SND_NXT (SND tcb') = SND_NXT (SND tcb) ∧
  SND_LBW (SND tcb') = SND_LBW (SND tcb) ∧ CControlEnabled tcb' = CControlEnabled tcb.

Lemma ack_frame_trans a b c : ack_frame a b → ack_frame b c → ack_frame a c.
Proof. unfold ack_frame. intuition congruence. Qed.

Lemma snd_ok_frame tcb tcb' :
  SND_Buffer (SND tcb') = SND_Buffer (SND tcb) → CWND tcb' = CWND tcb →
  SSTHRESH tcb' = SSTHRESH tcb → CControlEnabled tcb' = CControlEnabled tcb →
  RetransmissionQueue tcb' = RetransmissionQueue tcb → snd_ok tcb → snd_ok tcb'.
Proof. unfold snd_ok, cc_bounds. by intros -> -> -> -> ->. Qed.

(** The send window and the retransmission queue after the acknowledgement: unchanged, or
    moved to it. *)
Definition window_moves (hdr : list byte) `{Netstack} (tcb tcb' : TCB) : Prop :=
  (SND_UNA (SND tcb') = SND_UNA (SND tcb) ∧ SND_WND (SND tcb') = SND_WND (SND tcb) ∧
   RetransmissionQueue tcb' = RetransmissionQueue tcb ∧ CurrentAck tcb' = CurrentAck tcb ∧
   (ack_out_of_range hdr tcb = true ∨ AckNumber hdr = CurrentAck tcb)) ∨
  (ack_out_of_range hdr tcb = false ∧
   SND_UNA (SND tcb') = AckNumber hdr ∧ SND_WND (SND tcb') = WindowSize hdr ∧
   RetransmissionQueue tcb' = unacked (AckNumber hdr) (RetransmissionQueue tcb) ∧
   (CurrentAck tcb' = AckNumber hdr ∨ CurrentAck tcb' = CurrentAck tcb) ∧
   (unacked (AckNumber hdr) (RetransmissionQueue tcb) ≠ RetransmissionQueue tcb →
      RetransmitCounter tcb' = 0)).

(** The messages of an acknowledgement: none, or the first queued segment again. *)
Definition retransmits `{Netstack} (sd : SocketData) (tcb : TCB) (ms : list (list byte))
    : Prop :=
  ms = [] ∨
  ∃ seg q p, RetransmissionQueue tcb = seg :: q ∧
    ring_window (SND_Buffer (SND tcb)) (SeqNum (RTCPHeader seg)) (RPayloadLen seg) p ∧
    ms = [ip_message (LocalAddr sd) (DestAddr sd) (RTCPHeader seg) p].

Lemma updateTimeout_ok n now tcb :
  ∃ tcb' tr, updateTimeout n now tcb = (Ok tt, tcb', tr) ∧
    lock_run false tr = Some false ∧ messages tr = [] ∧ ack_frame tcb tcb' ∧
    SND tcb' = SND tcb ∧ RetransmissionQueue tcb' = RetransmissionQueue tcb ∧
    CWND tcb' = CWND tcb ∧ SSTHRESH tcb' = SSTHRESH tcb ∧ CurrentAck tcb' = CurrentAck tcb ∧
    RetransmitCounter tcb' = RetransmitCounter tcb.
Proof.
  unfold updateTimeout. go_unfold. simpl.
  destruct (SegmentToTimestamp tcb !! n); simpl; [|by eexists _, _].
  destruct (SRTT tcb =? -1); simpl; eexists _, _; (split; [reflexivity|done]).
Qed.

Section ack.
Context {N : Netstack}.

Lemma ack_queue_snd_ok ack tcb : snd_ok tcb → snd_ok (ack_queue ack tcb).
Proof.
  intros (Hb & Hq & Hc). unfold ack_queue.
  destruct (RetransmissionQueue tcb) as [|s q] eqn:Eq; [by rewrite <-Eq in Hq|].
  destruct (_ <? _); [|by rewrite <-Eq in Hq].
  split_and!; [done| |done]. simpl.
  destruct (remove_index_unacked ack (s :: q) 0 (-1)) as (n & _ & _ & Hu); [lia..|].
  simpl in Hu. rewrite Hu. by apply Forall_drop.
Qed.

Lemma ack_queue_frame ack tcb :
  ack_frame tcb (ack_queue ack tcb) ∧ SND (ack_queue ack tcb) = SND tcb ∧
  CurrentAck (ack_queue ack tcb) = CurrentAck tcb.
Proof.
  unfold ack_queue. destruct (RetransmissionQueue tcb); [done|]. by destruct (_ <? _).
Qed.

Lemma Receive_ack_cc_ok ack tcb :
  snd_ok tcb →
  ∃ tcb', Receive_ack_cc ack tcb = (Ok tt, tcb', []) ∧ ack_frame tcb tcb' ∧
    SND tcb' = SND tcb ∧ RetransmissionQueue tcb' = RetransmissionQueue tcb ∧ snd_ok tcb' ∧
    (CurrentAck tcb' = ack ∨ CurrentAck tcb' = CurrentAck tcb) ∧
    RetransmitCounter tcb' = RetransmitCounter tcb.
Proof.
  intros (Hb & Hq & Hc). unfold Receive_ack_cc, when, mbind, go_bind, get, modify. simpl.
  destruct (CControlEnabled tcb) eqn:Ecc.
  - destruct (cc_step_ok NewAck tcb (Hc eq_refl)) as (t2 & E & Hb2 & _). simpl in E.
    assert (Hfr : ack_frame tcb t2 ∧ SND t2 = SND tcb ∧
                  RetransmissionQueue t2 = RetransmissionQueue tcb ∧
                  RetransmitCounter t2 = RetransmitCounter tcb).
    { unfold UpdateCWNDWindow in E. go_unfold. simpl in E.
      destruct (_ <? _); [by simplify_eq|]. destruct (_ =? _); by simplify_eq. }
    destruct Hfr as (? & HS2 & HQ2 & HC2).
    rewrite E. simpl. go_exists. split_and!; try done; [|by left].
    unfold snd_ok. simpl. rewrite HS2, HQ2. done.
  - exists tcb. split_and!; try done; [|by right]. unfold snd_ok. by rewrite Ecc.
Qed.

Lemma Receive_ack_accept_ok hdr now tcb :
  snd_ok tcb →
  ∃ tcb' tr, Receive_ack_accept hdr now tcb = (Ok tt, tcb', tr) ∧
    lock_run true tr = Some false ∧ messages tr = [] ∧ ack_frame tcb tcb' ∧ snd_ok tcb' ∧
    SND_UNA (SND tcb') = AckNumber hdr ∧ SND_WND (SND tcb') = WindowSize hdr ∧
    RetransmissionQueue tcb' = unacked (AckNumber hdr) (RetransmissionQueue tcb) ∧
    (CurrentAck tcb' = AckNumber hdr ∨ CurrentAck tcb' = CurrentAck tcb) ∧
    (unacked (AckNumber hdr) (RetransmissionQueue tcb) ≠ RetransmissionQueue tcb →
       RetransmitCounter tcb' = 0).
Proof.
  intros Hok. unfold Receive_ack_accept. go_unfold. rewrite remove_spec. simpl.
  pose proof (ack_queue_snd_ok (AckNumber hdr) tcb Hok) as Hok1.
  destruct (ack_queue_frame (AckNumber hdr) tcb) as (Hf1 & HS1 & HC1).
  pose proof (ack_queue_unacked (AckNumber hdr) tcb) as HQ1.
  pose proof (ack_queue_counter (AckNumber hdr) tcb) as Hn1.
  set (t1 := ack_queue (AckNumber hdr) tcb) in *. clearbody t1.
  destruct (Receive_ack_cc_ok (AckNumber hdr) t1 Hok1)
    as (t2 & E2 & Hf2 & HS2 & HQ2 & Hok2 & HC2 & Hn2).
  rewrite E2. simpl. set (t3 := tcb_SND_UNA _ _).
  destruct (updateTimeout_ok (AckNumber hdr) now t3)
    as (t4 & tr & E4 & Hl & Hm4 & Hf4 & HS4 & HQ4 & Hw4 & Ht4 & HC4 & Hn4).
  assert (Hok4 : snd_ok t4).
  { apply (snd_ok_frame t2); [by rewrite HS4|done|done|apply Hf4|done|done]. }
  assert (Hf : ack_frame tcb t4).
  { do 2 (eapply ack_frame_trans; [eassumption|]).
    by apply (ack_frame_trans _ t3). }
  assert (HQ : RetransmissionQueue t4 = unacked (AckNumber hdr) (RetransmissionQueue tcb)).
  { rewrite HQ4, <-HQ1. exact HQ2. }
  exists t4. destruct (0 <? WindowSize hdr); simpl; rewrite E4; eexists;
    (split; [reflexivity|]); rewrite HS4, HC4, Hn4, <-HC1; rewrite <-Hn2 in Hn1; done.
Qed.

Lemma Receive_ack_window_ok hdr now tcb :
  snd_ok tcb →
  ∃ tcb' tr, Receive_ack_window hdr now tcb = (Ok tt, tcb', tr) ∧
    lock_run true tr = Some false ∧ messages tr = [] ∧ ack_frame tcb tcb' ∧ snd_ok tcb' ∧
    window_moves hdr tcb tcb'.
Proof.
  intros Hok. unfold Receive_ack_window, mbind, go_bind, get.
  destruct (ack_out_of_range hdr tcb) eqn:E; simpl.
  - eexists _, _. split; [reflexivity|]. split_and!; try done. left. split_and!; try done. by left.
  - destruct (Receive_ack_accept_ok hdr now tcb Hok)
      as (t' & tr & E' & ? & ? & ? & ? & ? & ? & ? & ? & ?).
    rewrite E'. eexists _, _. split; [reflexivity|]. split_and!; try done. by right.
Qed.

Lemma fastRetransmit_ok sd now tcb :
  snd_ok tcb → cc_bounds tcb → RetransmissionQueue tcb ≠ [] →
  ∃ tcb' msg, fastRetransmit sd now tcb = (Ok tt, tcb', [EUnlock; EIP msg; ERTO]) ∧
    retransmits sd tcb [msg] ∧ RetransmissionQueue tcb' = RetransmissionQueue tcb ∧
    ack_frame tcb tcb' ∧ snd_ok tcb' ∧ SND tcb' = SND tcb ∧
    CWND tcb' = MSS_DATA ∧ SSTHRESH tcb' = CWND tcb / 2 ∧ CurrentAck tcb' = CurrentAck tcb.
Proof.
  intros (Hb & Hq & Hc) Hcc Hne.
  destruct (RetransmissionQueue tcb) as [|s q] eqn:Eq; [done|].
  assert (Hs : 0 ≤ RPayloadLen s ≤ MAX_BUF_SIZE) by (by inversion Hq).
  destruct (retransmit_payload_window (SND_Buffer (SND tcb)) s Hb Hs) as (p & Ep & Hp).
  destruct (cc_step_ok Loss tcb Hcc) as (t1 & E1 & Hcc1 & HW & HT).
  unfold cc_step, AfterLoss in E1. unfold fastRetransmit, AfterLoss, retransmit_head.
  go_unfold. simpl in *. rewrite Eq. simpl. rewrite Ep. simpl.
  eexists _, _. split; [reflexivity|]. split_and!; try done.
  - right. rewrite Eq. by exists s, q, p.
  - simplify_eq. split_and!; simpl; [done|by rewrite Eq|done].
Qed.

Lemma Receive_ack_ok hdr sd now tcb :
  snd_ok tcb →
  ∃ tcb' tr, Receive_ack hdr sd now tcb = (Ok tt, tcb', tr) ∧
    lock_run true tr = Some false ∧ retransmits sd tcb (messages tr) ∧ ack_frame tcb tcb' ∧
    snd_ok tcb' ∧ window_moves hdr tcb tcb'.
Proof.
  intros Hok. unfold Receive_ack, mbind, go_bind, get, modify.
  destruct (CControlEnabled tcb) eqn:Ecc; simpl; [|].
  2: { destruct (Receive_ack_window_ok hdr now tcb Hok) as (t' & tr & -> & ? & ? & ? & ? & ?).
       exists t', tr. split_and!; try done. by left. }
  assert (Hcc : cc_bounds tcb) by (by apply Hok).
  destruct (Z.eqb_spec (AckNumber hdr) (CurrentAck tcb)) as [Hcur|_]; simpl.
  2: { destruct (Receive_ack_window_ok hdr now tcb Hok) as (t' & tr & -> & ? & ? & ? & ? & ?).
       exists t', tr. split_and!; try done. by left. }
  destruct (CurrentAckFreq tcb =? 3); simpl; [destruct (Z.ltb_spec 0 (zlen (RetransmissionQueue tcb)))|].
  - destruct (fastRetransmit_ok sd now (set_CurrentAckFreq 0 tcb))
      as (t' & msg & -> & Hrt & HQ & Hf & Hok' & HS & _ & _ & HC); [done..| |].
    { simpl. intros E. by rewrite E in H. }
    eexists _, _. split; [reflexivity|]. split_and!; try done. left. rewrite HS, HQ, HC. split_and!; try done. by right.
  - destruct (Receive_ack_window_ok hdr now (set_CurrentAckFreq (CurrentAckFreq tcb + 1) tcb))
      as (t' & tr & -> & ? & ? & ? & ? & ?); [done|].
    exists t', tr. split_and!; try done. by left.
  - destruct (Receive_ack_window_ok hdr now (set_CurrentAckFreq (CurrentAckFreq tcb + 1) tcb))
      as (t' & tr & -> & ? & ? & ? & ? & ?); [done|].
    exists t', tr. split_and!; try done. by left.
Qed.
End ack.

(** ** The whole of [Receive] *)

(** The acknowledgement a run sends first, of what is readable in [tcb']: the next byte
    expected, or the FIN that came early and is now due. *)
Definition acks_readable `{Netstack} (sd : SocketData) (tcb tcb' : TCB) (tr : list eff)
    : Prop :=
  ∃ t1 ack rest, tr = ELock :: EIP (ack_message sd t1 ack) :: rest ∧
    RCV t1 = RCV tcb' ∧ SND t1 = SND tcb ∧ retransmits sd tcb (messages rest) ∧
    (ack = RCV_NXT (RCV tcb') ∧ State tcb' = State tcb ∨
     ack = RCV_NXT (RCV tcb') ⊞ 1 ∧ State tcb' = CLOSE_WAIT ∧
     RCV_NXT (RCV tcb') = PendingReceivedFin tcb).

Lemma data_snd_ok tcb tcb' : data_frame tcb tcb' → snd_ok tcb → snd_ok tcb'.
Proof.
  intros (HS & _ & _ & HQ & _ & HC & _ & HW & HT & _).
  apply snd_ok_frame; try done. by rewrite HS.
Qed.

Lemma Receive_ok {N : Netstack} st hdr payload sd now tcb :
  rcv_inv st tcb → snd_ok tcb → has_flag hdr TCPFlagAck = true →
  carries st (SequenceNumber hdr) payload → fits (SequenceNumber hdr) payload tcb →
  ∃ tcb' tr, Receive hdr payload sd now tcb = (Ok tt, tcb', tr) ∧
    rcv_inv st tcb' ∧ snd_ok tcb' ∧ lock_run false tr = Some false ∧
    RCV_LBR (RCV tcb') = RCV_LBR (RCV tcb) ∧
    SND_Buffer (SND tcb') = SND_Buffer (SND tcb) ∧
    SND_NXT (SND tcb') = SND_NXT (SND tcb) ∧ SND_LBW (SND tcb') = SND_LBW (SND tcb) ∧
    PendingReceivedFin tcb' = PendingReceivedFin tcb ∧
    window_moves hdr tcb tcb' ∧
    (∀ P : Z → Prop, P (SequenceNumber hdr + zlen payload) → arrived P tcb → arrived P tcb') ∧
    RCV_NXT (RCV tcb) ≤ RCV_NXT (RCV tcb') ∧
    (SequenceNumber hdr = RCV_NXT (RCV tcb) → 0 < RCV_WND (RCV tcb) →
       RCV_NXT (RCV tcb) + zlen payload ≤ RCV_NXT (RCV tcb')) ∧
    (0 < zlen payload → acks_readable sd tcb tcb' tr) ∧
    (zlen payload = 0 →
       State tcb' = State tcb ∧ RCV tcb' = RCV tcb ∧ retransmits sd tcb (messages tr)).
Proof.
  intros Hinv Hok Hflag Hc Hfit. unfold Receive. rewrite Hflag. simpl.
  unfold when, mbind, go_bind, emit, mret, go_ret.
  pose proof (zlen_nonneg payload).
  destruct (Z.ltb_spec 0 (zlen payload)) as [Hp|Hp].
  - destruct (Receive_data_ok st hdr payload sd tcb Hinv Hp Hc Hfit)
      as (t1 & ack & tr1 & E1 & Hinv1 & Hf1 & Hn1 & Hb1 & Hi1 & Hack & Htr).
    destruct (Receive_ack_ok hdr sd now t1 (data_snd_ok _ _ Hf1 Hok))
      as (t2 & tr2 & E2 & Hl & Hrt & Hf2 & Hok2 & Hm).
    pose proof Hf1 as (HS & HL & _ & HQ & HP & _ & _ & _ & _ & _ & _ & HCA).
    pose proof Hf2 as (HR & HE & Hst & HP2 & HB & HN & HW & _).
    rewrite E1, E2. exists t2. eexists. split; [reflexivity|]. rewrite HR, HB, HN, HW, HP2, HS.
    split_and!; try done.
    + by apply (rcv_inv_frame st t1).
    + by destruct Htr as [->| ->].
    + unfold window_moves, ack_out_of_range in *. by rewrite HS, HQ, HCA in Hm.
    + intros P ??. apply (arrived_frame P t1); [by rewrite HR|done|auto].
    + intros _. exists t1, ack, (tr1 ++ tr2). rewrite Hst, HR, messages_app.
      unfold retransmits in *. rewrite HS, HQ in Hrt. by destruct Htr as [->| ->].
    + lia.
  - destruct (Receive_ack_ok hdr sd now tcb Hok) as (t2 & tr2 & E2 & Hl & Hrt & Hf2 & Hok2 & Hm).
    pose proof Hf2 as (HR & HE & Hst & HP & HB & HN & HW & _).
    rewrite E2. exists t2. eexists. split; [reflexivity|]. rewrite HR, HB, HN, HW, HP.
    split_and!; try done; try lia.
    + by apply (rcv_inv_frame st tcb).
    + intros P ??. apply (arrived_frame P tcb); [by rewrite HR|done|done].
Qed.

(** ** The state a run of [Receive] can leave *)

(** The statements that place data leave the state and the pending FIN; those that handle
    the acknowledgement also leave the receiving side. *)
Definition keeps_fin (tcb tcb' : TCB) : Prop :=
  State tcb' = State tcb ∧ PendingReceivedFin tcb' = PendingReceivedFin tcb.

Definition keeps_rcv (tcb tcb' : TCB) : Prop :=
  keeps_fin tcb tcb' ∧ RCV tcb' = RCV tcb.

(** A run of [Receive] leaves the state, or all the data before a FIN that came early is
    there and the state is [CLOSE_WAIT]. *)
Definition fin_due (tcb tcb' : TCB) : Prop :=
  PendingReceivedFin tcb' = PendingReceivedFin tcb ∧
  (State tcb' = State tcb ∨
   State tcb' = CLOSE_WAIT ∧ RCV_NXT (RCV tcb') = PendingReceivedFin tcb).

#[global] Instance keeps_fin_preorder : PreOrder keeps_fin.
Proof. split; [done|]. unfold keeps_fin. intros a b c. intuition congruence. Qed.

#[global] Instance keeps_rcv_preorder : PreOrder keeps_rcv.
Proof. split; [done|]. unfold keeps_rcv, keeps_fin. intros a b c. intuition congruence. Qed.

Lemma keeps_fin_due tcb tcb' : keeps_fin tcb tcb' → fin_due tcb tcb'.
Proof. intros []. by split; [|left]. Qed.

Lemma fin_due_after a b c : keeps_fin a b → fin_due b c → fin_due a c.
Proof. unfold keeps_fin, fin_due. intuition congruence. Qed.

Lemma fin_due_before a b c : fin_due a b → keeps_rcv b c → fin_due a c.
Proof. unfold keeps_rcv, keeps_fin, fin_due. intuition congruence. Qed.

Lemma copy_loop_keeps fuel payload n early a s :
  always keeps_fin (copy_loop fuel payload n early a s).
Proof.
  revert a s. induction fuel as [|fuel IH]; intros; [apply always_hang; apply _|].
  unfold copy_loop; fold copy_loop. always_tac ltac:(done).
Qed.
#[export] Hint Resolve copy_loop_keeps : go.

Section receive_state.
Context {N : Netstack}.

Lemma Receive_ack_keeps hdr sd now : always keeps_rcv (Receive_ack hdr sd now).
Proof.
  unfold Receive_ack, Receive_ack_window, Receive_ack_accept, Receive_ack_cc, UpdateCWNDWindow,
    fastRetransmit, AfterLoss, retransmit_head, removeFromRetransmissionQueue, updateTimeout.
  always_tac ltac:(done).
Qed.

Lemma send_ack_keeps sd ack : always keeps_rcv (send_ack sd ack).
Proof. unfold send_ack. always_tac ltac:(done). Qed.

Lemma Receive_place_keeps seq payload : always keeps_fin (Receive_place seq payload).
Proof. unfold Receive_place, updateAckNum. always_tac ltac:(done). Qed.

Lemma Receive_reply_due sd : always fin_due (Receive_reply sd).
Proof.
  intros t. unfold run_state, Receive_reply, send_ack. go_unfold. simpl.
  destruct (Z.eqb_spec (RCV_NXT (RCV t)) (PendingReceivedFin t)); simpl; [|by apply keeps_fin_due].
  split; [done|by right].
Qed.

Lemma Receive_data_due hdr payload sd : always fin_due (Receive_data hdr payload sd).
Proof.
  apply always_get_then. intros t. simpl.
  destruct (_ <? _); [apply keeps_fin_due, (send_ack_keeps sd _ t)|].
  destruct (_ <=? _); [apply keeps_fin_due, (send_ack_keeps sd _ t)|].
  apply (always_seq keeps_fin fin_due fin_due);
    eauto using keeps_fin_due, fin_due_after, Receive_place_keeps, Receive_reply_due.
Qed.

Lemma Receive_state hdr payload sd now : always fin_due (Receive hdr payload sd now).
Proof.
  unfold Receive. destruct (negb _); [by intros t; apply keeps_fin_due|].
  apply (always_seq keeps_fin fin_due fin_due); [apply keeps_fin_due|apply fin_due_after|by intros t|].
  intros _. apply (always_seq fin_due keeps_rcv fin_due); [done|apply fin_due_before| |].
  - destruct (_ <? _); [apply Receive_data_due|by intros t; apply keeps_fin_due].
  - intros _. apply Receive_ack_keeps.
Qed.

Lemma Receive_cancelled hdr payload sd now :
  always (λ t t', Cancelled t' = Cancelled t) (Receive hdr payload sd now).
Proof.
  assert (Hpre : PreOrder (λ t t' : TCB, Cancelled t' = Cancelled t)).
  { split; [done|]. intros a b c Hab Hbc. by rewrite Hbc. }
  assert (Hloop : ∀ fuel p n early a s,
    always (λ t t', Cancelled t' = Cancelled t) (copy_loop fuel p n early a s)).
  { intros fuel. induction fuel as [|fuel IH]; intros; [by apply always_hang|].
    unfold copy_loop; fold copy_loop. always_tac ltac:(done). }
  unfold Receive, Receive_data, Receive_place, Receive_reply, Receive_ack,
    Receive_ack_window, Receive_ack_accept, Receive_ack_cc, UpdateCWNDWindow, send_ack,
    fastRetransmit, AfterLoss, retransmit_head, removeFromRetransmissionQueue,
    updateTimeout, updateAckNum.
  always_tac ltac:(done).
Qed.

(** The last data before a FIN that came early. *)
Lemma Receive_pending_fin st hdr payload sd now t :
  rcv_inv st t → snd_ok t → has_flag hdr TCPFlagAck = true →
  SequenceNumber hdr = RCV_NXT (RCV t) → carries st (RCV_NXT (RCV t)) payload →
  0 < zlen payload ≤ RCV_WND (RCV t) → EarlyArrivalQueue t = [] →
  PendingReceivedFin t = RCV_NXT (RCV t) + zlen payload →
  State (run_state (Receive hdr payload sd now) t) = CLOSE_WAIT.
Proof.
  intros Hinv Hok Hflag Hseq Hc Hlen HE HP. pose proof Hinv as [].
  destruct (Receive_place_in_order st _ payload t Hinv eq_refl) as (t1 & E1 & _ & Hf & _ & Hle & Harr);
    [lia|done|lia|].
  specialize (Harr (λ x, x ≤ RCV_NXT (RCV t) + zlen payload) (Z.le_refl _)).
  destruct Harr as [Hge _]; [|simpl in Hge].
  { split; [lia|]. rewrite HE. intros e He. by apply elem_of_nil in He. }
  pose proof Hf as (_ & _ & _ & _ & HP1 & _).
  unfold run_state, Receive. rewrite Hflag. simpl. unfold when, mbind, go_bind, emit.
  rewrite (proj2 (Z.ltb_lt _ _)) by lia. unfold Receive_data. go_unfold. rewrite Hseq.
  unfold MAX_BUF_SIZE in *. rewrite u32_small by lia. rewrite Z.ltb_irrefl.
  destruct (Z.leb_spec (RCV_NXT (RCV t) + RCV_WND (RCV t)) (RCV_NXT (RCV t))); [lia|].
  rewrite E1. unfold Receive_reply, send_ack. go_unfold. simpl.
  rewrite (proj2 (Z.eqb_eq (RCV_NXT (RCV t1)) (PendingReceivedFin t1))) by lia. simpl.
  pose proof (Receive_ack_keeps hdr sd now (set_State CLOSE_WAIT t1)) as [[Hs _] _].
  unfold run_state in Hs. by destruct (Receive_ack _ _ _ _) as [[[] ?] ?].
Qed.
End receive_state.

#[global] Arguments Receive : simpl never.

(** ** Properties *)

(** C5: [Receive] delivers correctly: on a connection whose receive buffer agrees
    with the peer's byte stream, a segment of that stream that fits in the window,
    early, in order or a duplicate, leaves the buffer in agreement with the stream
    (so nothing is lost, duplicated or reordered), never moves [RCV.NXT] back, moves
    it over the whole segment when it is the one expected, touches neither the read
    pointer nor the send buffer, answers data with an acknowledgement of what is
    readable, and leaves the TCB unlocked. *)
Theorem Receive_agrees_with_stream {N : Netstack} (st : Z → byte)
    (hdr payload : list byte) (sd : SocketData) (now : Z) (tcb : TCB) :
  rcv_inv st tcb → snd_ok tcb → has_flag hdr TCPFlagAck = true →
  carries st (SequenceNumber hdr) payload → fits (SequenceNumber hdr) payload tcb →
  ∃ tcb' tr, Receive hdr payload sd now tcb = (Ok tt, tcb', tr) ∧
    rcv_inv st tcb' ∧ snd_ok tcb' ∧ lock_run false tr = Some false ∧
    RCV_LBR (RCV tcb') = RCV_LBR (RCV tcb) ∧
    SND_Buffer (SND tcb') = SND_Buffer (SND tcb) ∧
    RCV_NXT (RCV tcb) ≤ RCV_NXT (RCV tcb') ∧
    (SequenceNumber hdr = RCV_NXT (RCV tcb) → 0 < RCV_WND (RCV tcb) →
       RCV_NXT (RCV tcb) + zlen payload ≤ RCV_NXT (RCV tcb')) ∧
    (0 < zlen payload → acks_readable sd tcb tcb' tr).
Proof.
  intros Hinv Hok Hflag Hc Hfit.
  destruct (Receive_ok st hdr payload sd now tcb Hinv Hok Hflag Hc Hfit)
    as (tcb' & tr & ? & ? & ? & ? & ? & ? & _ & _ & _ & _ & _ & ? & ? & ? & _).
  by exists tcb', tr.
Qed.

(** A connection with sequence numbers 500 (ours) and 100 (the peer's) and a stream for
    the examples. *)
Definition demo_stream (x : Z) : byte := byte_of_Z x.

Definition demo_conn : TCB :=
  set_CWND MAX_BUF_SIZE (set_State ESTABLISHED
    (set_SND (mkSend (make_bytes MAX_BUF_SIZE) 500 500 65535 499 500)
      (set_RCV (mkReceive (make_bytes MAX_BUF_SIZE) 100 65535 99 100) zero_TCB))).

Definition demo_key : SocketData := mkSocketData 167772161 1025 167772162 80.

Definition demo_header (seq ack flags win : Z) (payload : list byte) : list byte :=
  MarshallTCPHeader (CreateTCPHeader 167772162 167772161 80 1025 seq ack flags win payload)
    167772161.

Lemma demo_conn_rcv_inv : rcv_inv demo_stream demo_conn.
Proof.
  split; simpl; unfold MAX_BUF_SIZE; try lia; try done.
  - by apply holds_empty.
  - intros e He. by apply not_elem_of_nil in He.
Qed.

Lemma demo_conn_snd_ok : snd_ok demo_conn.
Proof. split_and!; [by apply zlen_make_bytes|by constructor|done]. Qed.

Lemma Receive_agrees_with_stream_witness :
  let payload := stretch demo_stream 100 3 in
  ∃ tcb' tr, Receive (demo_header 100 500 16 65535 payload) payload demo_key 0 demo_conn
      = (Ok tt, tcb', tr) ∧
    rcv_inv demo_stream tcb' ∧ 103 ≤ RCV_NXT (RCV tcb') ∧ lock_run false tr = Some false.
Proof.
  intros payload.
  assert (Hseq : SequenceNumber (demo_header 100 500 16 65535 payload) = 100)
    by (by vm_compute).
  destruct (Receive_agrees_with_stream demo_stream (demo_header 100 500 16 65535 payload)
              payload demo_key 0 demo_conn) as (t & tr & E & Hi & _ & Hl & _ & _ & _ & Hn & _).
  - exact demo_conn_rcv_inv.
  - exact demo_conn_snd_ok.
  - by vm_compute.
  - rewrite Hseq. by apply carries_stretch.
  - unfold fits. rewrite Hseq. intros _. by vm_compute.
  - exists t, tr. split_and!; [done..| |done].
    specialize (Hn Hseq eq_refl). unfold payload in Hn.
    rewrite zlen_stretch in Hn by done. exact Hn.
Defined.

(** The acknowledgement of a segment moves the send window only forward and only to
    what the code's range test admits: [SND.UNA] and [SND.WND] are as before, or they
    are the acknowledgement number and the window of the segment, and then the number
    is above the old [SND.UNA] and, if the window was open, within it. *)
Theorem Receive_ack_window_rule {N : Netstack} (hdr : list byte) (sd : SocketData)
    (now : Z) (tcb : TCB) :
  snd_ok tcb →
  ∃ tcb' tr, Receive_ack hdr sd now tcb = (Ok tt, tcb', tr) ∧ snd_ok tcb' ∧
    RCV tcb' = RCV tcb ∧ State tcb' = State tcb ∧
    SND_NXT (SND tcb') = SND_NXT (SND tcb) ∧ lock_run true tr = Some false ∧
    (SND_UNA (SND tcb') = SND_UNA (SND tcb) ∧ SND_WND (SND tcb') = SND_WND (SND tcb) ∨
     SND_UNA (SND tcb') = AckNumber hdr ∧ SND_WND (SND tcb') = WindowSize hdr ∧
     SND_UNA (SND tcb) < AckNumber hdr ∧
     (WindowSize hdr = 0 → AckNumber hdr ≤ SND_NXT (SND tcb)) ∧
     (WindowSize hdr ≠ 0 → SND_WND (SND tcb) ≠ 0 →
        AckNumber hdr ≤ SND_UNA (SND tcb) ⊞ SND_WND (SND tcb))).
Proof.
  intros Hok. destruct (Receive_ack_ok hdr sd now tcb Hok)
    as (tcb' & tr & E & Hl & _ & (HR & _ & Hst & _ & _ & HN & _) & Hok' & Hm).
  exists tcb', tr. split_and!; try done.
  destruct Hm as [(? & ? & _)|(Hr & HU & HW & _)]; [by left|right]. split_and!; try done;
    revert Hr; unfold ack_out_of_range; bool_hyps; simpl; try done; lia.
Qed.

Lemma Receive_ack_window_rule_witness :
  ∃ tcb' tr, Receive_ack (demo_header 100 500 16 65535 []) demo_key 0 demo_conn
    = (Ok tt, tcb', tr) ∧ lock_run true tr = Some false.
Proof.
  destruct (Receive_ack_window_rule (demo_header 100 500 16 65535 []) demo_key 0 demo_conn)
    as (t & tr & E & _ & _ & _ & _ & Hl & _).
  - exact demo_conn_snd_ok.
  - by exists t, tr.
Defined.

(** C36: A segment that starts inside the window but does not fit in it stops the
    receiver for good: the copy loop keeps copying zero bytes into the full buffer, and
    it does so with the lock of the TCB held, so every other goroutine of the
    connection blocks with it. *)
Theorem Receive_overrun_hangs {N : Netstack} (st : Z → byte) (hdr payload : list byte)
    (sd : SocketData) (now : Z) (tcb : TCB) :
  rcv_inv st tcb → has_flag hdr TCPFlagAck = true →
  RCV_NXT (RCV tcb) ≤ SequenceNumber hdr < RCV_NXT (RCV tcb) + RCV_WND (RCV tcb) →
  RCV_LBR (RCV tcb) + MAX_BUF_SIZE < SequenceNumber hdr + zlen payload →
  zlen payload < 4294967296 →
  run_res (Receive hdr payload sd now) tcb = Hang ∧
  lock_run false (run_trace (Receive hdr payload sd now) tcb) = Some true.
Proof.
  intros [] Hflag Hin Hover Hlen. unfold MAX_BUF_SIZE in *.
  unfold run_res, run_trace, Receive, Receive_data, Receive_place, when, negb.
  rewrite Hflag. unfold mbind, go_bind, emit, get. simpl.
  destruct (Z.ltb_spec 0 (zlen payload)); [|lia].
  destruct (Z.ltb_spec (SequenceNumber hdr) (RCV_NXT (RCV tcb))); [lia|].
  rewrite u32_small by lia.
  destruct (Z.leb_spec (RCV_NXT (RCV tcb) + RCV_WND (RCV tcb)) (SequenceNumber hdr)); [lia|].
  rewrite u32_small by lia. set (early := _ <? _).
  assert (Hs : (if early then SequenceNumber hdr else RCV_NXT (RCV tcb)) = SequenceNumber hdr).
  { unfold early. bool_hyps; lia. }
  rewrite Hs.
  pose proof (copy_loop_spins copy_fuel payload early (SequenceNumber hdr) tcb) as Hspin.
  pose proof (copy_loop_silent copy_fuel payload (zlen payload) early 0 (SequenceNumber hdr) tcb)
    as Htr.
  unfold run_res, run_trace in *.
  destruct (copy_loop _ _ _ _ _ _ _) as [[r t] tr]. simpl in *. subst tr.
  rewrite Hspin; unfold MAX_BUF_SIZE; try done; lia.
Qed.

Lemma Receive_overrun_hangs_witness :
  let payload := make_bytes 65536 in
  let hdr := demo_header 100 500 16 65535 payload in
  run_res (Receive hdr payload demo_key 0) demo_conn = Hang ∧
  lock_run false (run_trace (Receive hdr payload demo_key 0) demo_conn) = Some true.
Proof.
  intros payload hdr.
  assert (Hseq : SequenceNumber hdr = 100) by (by vm_compute).
  apply (Receive_overrun_hangs demo_stream); rewrite ?Hseq.
  - exact demo_conn_rcv_inv.
  - by vm_compute.
  - by vm_compute.
  - by vm_compute.
  - by vm_compute.
Defined.
