(* ===== verification/TcpHandler.v ===== *)
(** * The TCP handler and its state machine

    [src/pkg/tcp/tcp_handler.go] and [src/pkg/tcp/tcp_segment_receive.go]: the socket
    table, the dispatch of a packet in [ReceivePacket] and one handler per state of a
    connection.  A TCB is shared by pointer between the socket table and the goroutines
    of the connection, so the handler keeps a store of TCBs, and the table maps a socket
    to a location of the store. *)

From S2P Require Import Prelude GoLang Wire WireRef Ring TcpData EarlyArrivals Congestion Rto Retransmit TcpReceive.

(** ** The handler *)

Abbreviation loc := nat (only parsing).

(** [TCPHandler]; [TCBs] and [NextTCB] are the store of the TCBs.  The channels of the
    struct are effects. *)
Record TCPHandler := mkTCPHandler {
  SocketTable : gmap SocketData loc;
  TCBs : gmap loc TCB;
  NextTCB : loc;
  HLocalAddr : Z;
  CurrentPort : Z;
  Listeners : list SocketData
}.

Definition set_SocketTable (v : gmap SocketData loc) (h : TCPHandler) : TCPHandler :=
  mkTCPHandler v (TCBs h) (NextTCB h) (HLocalAddr h) (CurrentPort h) (Listeners h).
Definition set_TCBs (v : gmap loc TCB) (h : TCPHandler) : TCPHandler :=
  mkTCPHandler (SocketTable h) v (NextTCB h) (HLocalAddr h) (CurrentPort h) (Listeners h).
Definition set_CurrentPort (v : Z) (h : TCPHandler) : TCPHandler :=
  mkTCPHandler (SocketTable h) (TCBs h) (NextTCB h) (HLocalAddr h) v (Listeners h).
Definition set_Listeners (v : list SocketData) (h : TCPHandler) : TCPHandler :=
  mkTCPHandler (SocketTable h) (TCBs h) (NextTCB h) (HLocalAddr h) (CurrentPort h) v.

(** An effect carries the TCB it is on. *)
Abbreviation HM := (GoM TCPHandler (loc * eff)).

(** The TCB a packet of a socket goes to. *)
Definition socket (h : TCPHandler) (key : SocketData) : option TCB :=
  SocketTable h !! key ≫= λ l, TCBs h !! l.

(** Running the body of a handler on the TCB at [l]. *)
Definition on_tcb {A} (l : loc) (m : TM A) : HM A := λ h,
  match TCBs h !! l with
  | None => (Panic, h, [])
  | Some tcb =>
      match m tcb with
      | (r, tcb', tr) => (r, set_TCBs (<[l := tcb']> (TCBs h)) h, (l,.) <$> tr)
      end
  end.

(** [&TCB{...}] *)
Definition new_tcb (tcb : TCB) : HM loc := λ h,
  (Ok (NextTCB h),
   mkTCPHandler (SocketTable h) (<[NextTCB h := tcb]> (TCBs h)) (S (NextTCB h))
     (HLocalAddr h) (CurrentPort h) (Listeners h), []).

(** [t.SocketTable[key] = tcb], [delete(t.SocketTable, key)] *)
Definition store_socket (key : SocketData) (l : loc) : HM unit :=
  modify (λ h, set_SocketTable (<[key := l]> (SocketTable h)) h).
Definition delete_socket (key : SocketData) : HM unit :=
  modify (λ h, set_SocketTable (delete key (SocketTable h)) h).

(** [InitHandler] on the handler the node builds. *)
Definition InitHandler (h : TCPHandler) : TCPHandler := set_SocketTable ∅ h.

(** ** [tcp_segment_receive.go] *)

Section states.
Context {N : Netstack}.

(** *** Opening a connection *)

(** The TCB of a connection a SYN creates: the composite literal and the assignments
    that follow it. *)
Definition spawned_TCB (seqNum iss : Z) (listenKey : SocketData) : TCB :=
  let rcv := mkReceive (make_bytes MAX_BUF_SIZE) (seqNum ⊞ 1) MAX_BUF_SIZE seqNum (seqNum ⊞ 1) in
  let snd := mkSend (make_bytes MAX_BUF_SIZE) iss (iss ⊞ 1) 0 iss (iss ⊞ 1) in
  set_CWND MAX_BUF_SIZE (set_EarlyArrivalQueue Init (set_ListenKey listenKey
    (set_State SYN_RECEIVED (set_RTO RTO_UPPER (set_SRTT (-1)
      (set_RCV rcv (set_SND snd zero_TCB))))))).

(** The SYN-ACK of a passive open. *)
Definition syn_ack_message (localAddr destAddr localPort destPort : Z) (tcb : TCB)
    : list byte :=
  ip_message localAddr destAddr
    (CreateTCPHeader localAddr destAddr localPort destPort (SND_ISS (SND tcb))
       (RCV_NXT (RCV tcb)) (Z.lor TCPFlagSyn TCPFlagAck) (RCV_WND (RCV tcb)) []) [].

Definition HandleStateListen (tcpHeader : list byte)
    (localAddr srcPort destAddr destPort : Z) (key : SocketData) (iss : Z) : HM unit :=
  if has_flag tcpHeader TCPFlagAck then mret tt
  else if has_flag tcpHeader TCPFlagSyn then
    let socketData := mkSocketData localAddr srcPort destAddr destPort in
    let newTCBEntry := spawned_TCB (SequenceNumber tcpHeader) iss key in
    l ← new_tcb newTCBEntry;
    store_socket socketData l;;
    on_tcb l
      (emit (EIP (syn_ack_message localAddr destAddr (LocalPort socketData) destPort
                    newTCBEntry));;
       emit (EGo (GoWaitForAckReceiver socketData)))
  else mret tt.

Definition HandleStateSynSent (tcpHeader : list byte)
    (localAddr srcPort destAddr destPort : Z) (key : SocketData) (iss : Z) : TM unit :=
  tcbEntry ← get;
  if has_flag tcpHeader TCPFlagAck &&
     ((AckNumber tcpHeader <=? SND_ISS (SND tcbEntry)) ||
      (SND_NXT (SND tcbEntry) <? AckNumber tcpHeader)) then mret tt
  else if has_flag tcpHeader TCPFlagSyn then
    modify (tcb_RCV_NXT (SequenceNumber tcpHeader ⊞ 1));;
    modify (λ t, tcb_RCV_LBR (RCV_NXT (RCV t)) t);;
    modify (tcb_SND_WND (WindowSize tcpHeader));;
    modify (tcb_RCV_IRS (SequenceNumber tcpHeader));;
    modify (tcb_SND_UNA (AckNumber tcpHeader));;
    tcbEntry ← get;
    if SND_ISS (SND tcbEntry) <? SND_UNA (SND tcbEntry) then
      modify (set_State ESTABLISHED);;
      modify (tcb_SND_ISS iss);;
      tcbEntry ← get;
      let newTCPHeader :=
        CreateTCPHeader (LocalAddr key) (DestAddr key) srcPort destPort
          (SND_NXT (SND tcbEntry)) (RCV_NXT (RCV tcbEntry)) TCPFlagAck MAX_BUF_SIZE [] in
      emit (EReceiveChan key);;
      emit (EIP (ip_message localAddr destAddr newTCPHeader []));;
      emit (EGo (GoSend key));;
      emit (EGo (GoWaitTimeout key))
    else
      modify (set_State SYN_RECEIVED);;
      modify (tcb_SND_ISS iss);;
      tcbEntry ← get;
      let msgtcpHeader :=
        CreateTCPHeader (LocalAddr key) (DestAddr key) srcPort destPort
          (SND_ISS (SND tcbEntry)) (RCV_NXT (RCV tcbEntry)) (Z.lor TCPFlagSyn TCPFlagAck)
          (RCV_WND (RCV tcbEntry)) [] in
      emit (EIP (MarshallTCPHeader msgtcpHeader destAddr))
  else mret tt.

(** What [HandleStateSynReceived] does to the TCB of the connection; [true] when the
    listener is to be told. *)
Definition HandleStateSynReceived_conn (tcpHeader : list byte) (key : SocketData)
    : TM bool :=
  when (has_flag tcpHeader TCPFlagSyn)
    (tcbEntry ← get;
     emit (EIP (syn_ack_message (LocalAddr key) (DestAddr key) (LocalPort key)
                  (DestPort key) tcbEntry)));;
  if has_flag tcpHeader TCPFlagAck then
    tcbEntry ← get;
    if (SND_UNA (SND tcbEntry) <? AckNumber tcpHeader) &&
       (AckNumber tcpHeader <=? SND_NXT (SND tcbEntry)) then
      modify (set_State ESTABLISHED);;
      modify (tcb_SND_WND (WindowSize tcpHeader));;
      emit ERTO;;
      emit (EGo (GoSend key));;
      emit (EGo (GoWaitTimeout key));;
      mret true
    else mret false
  else mret false.

(** A listener that is gone is a [nil] pointer. *)
Definition HandleStateSynReceived (tcpHeader : list byte) (l : loc) (key : SocketData)
    (payload : list byte) : HM unit :=
  if 0 <? zlen payload then mret tt
  else
    established ← on_tcb l (HandleStateSynReceived_conn tcpHeader key);
    if (established : bool) then
      tcbEntry ← on_tcb l get;
      table ← gets SocketTable;
      listenerEntry ← try (table !! ListenKey tcbEntry);
      on_tcb listenerEntry
        (modify (λ t, set_PendingConnections (PendingConnections t ++ [key]) t);;
         emit (EPendingSignal (ListenKey tcbEntry)))
    else mret tt.

(** *** Data and closing *)

Definition HandleEstablished (tcpHeader : list byte) (key : SocketData)
    (tcpPayload : list byte) (now : Z) : TM unit :=
  if has_flag tcpHeader TCPFlagFin then ReceiveFin tcpHeader key
  else Receive tcpHeader tcpPayload key now.

(** The FIN branch of [HandleFinWait1]. *)
Definition HandleFinWait1_fin (tcpHeader : list byte) (key : SocketData) : TM unit :=
  tcbEntry ← get;
  (if AckNumber tcpHeader =? SND_NXT (SND tcbEntry) ⊟ 1
   then modify (set_State CLOSING) else modify (set_State TIME_WAIT));;
  modify (λ t, tcb_RCV_NXT (RCV_NXT (RCV t) ⊞ 1) t);;
  tcbEntry ← get;
  send_ack key (RCV_NXT (RCV tcbEntry));;
  when (bool_decide (State tcbEntry = TIME_WAIT)) (emit (EGo (GoWaitForClosed key)));;
  emit EUnlock.

Definition HandleFinWait1 (tcpHeader : list byte) (key : SocketData)
    (tcpPayload : list byte) (now : Z) : TM unit :=
  emit ELock;;
  tcbEntry ← get;
  if has_flag tcpHeader TCPFlagAck then
    if AckNumber tcpHeader =? SND_NXT (SND tcbEntry) then
      modify (set_State FIN_WAIT_2);;
      emit EUnlock;;
      Receive tcpHeader tcpPayload key now
    else if has_flag tcpHeader TCPFlagFin then HandleFinWait1_fin tcpHeader key
    else
      emit EUnlock;;
      Receive tcpHeader tcpPayload key now
  else emit EUnlock.

Definition HandleFinWait2 (tcpHeader : list byte) (key : SocketData)
    (tcpPayload : list byte) (now : Z) : TM unit :=
  if has_flag tcpHeader TCPFlagFin then
    emit ELock;;
    tcbEntry ← get;
    if negb (SequenceNumber tcpHeader =? RCV_NXT (RCV tcbEntry)) then emit EUnlock
    else
      modify (set_State TIME_WAIT);;
      modify (λ t, tcb_RCV_NXT (RCV_NXT (RCV t) ⊞ 1) t);;
      tcbEntry ← get;
      send_ack key (RCV_NXT (RCV tcbEntry));;
      modify (set_ResetWaitChan true);;
      emit EUnlock;;
      emit (EGo (GoWaitForClosed key))
  else Receive tcpHeader tcpPayload key now.

Definition HandleClosing (tcpHeader : list byte) (key : SocketData) : TM unit :=
  emit ELock;;
  tcbEntry ← get;
  when (has_flag tcpHeader TCPFlagAck && (AckNumber tcpHeader =? SND_NXT (SND tcbEntry)))
    (modify (set_State TIME_WAIT);;
     emit (EGo (GoWaitForClosed key)));;
  emit EUnlock.

(** A send on [ResetWaitChan] before the channel is made blocks for ever. *)
Definition HandleTimeWait (tcpHeader : list byte) (key : SocketData) : TM unit :=
  when (has_flag tcpHeader TCPFlagFin)
    (emit ELock;;
     tcbEntry ← get;
     send_ack key (RCV_NXT (RCV tcbEntry));;
     (if ResetWaitChan tcbEntry then emit EResetWait else hang);;
     emit EUnlock).

Definition HandleCloseWait (tcpHeader : list byte) (key : SocketData) : TM unit :=
  when (has_flag tcpHeader TCPFlagFin)
    (emit ELock;;
     tcbEntry ← get;
     send_ack key (RCV_NXT (RCV tcbEntry));;
     emit EUnlock).

Definition HandleLastAck (tcpHeader : list byte) (key : SocketData) : TM unit :=
  when (has_flag tcpHeader TCPFlagAck)
    (emit ELock;;
     tcbEntry ← get;
     when (AckNumber tcpHeader =? SND_NXT (SND tcbEntry))
       (modify (set_State CLOSED);;
        removeFromRetransmissionQueue (AckNumber tcpHeader);;
        emit (EReceiveChan key));;
     emit EUnlock).

(** The arms of the [select] of [WaitForClosed]: a reset starts the timer again, the
    timeout closes the connection and wakes up [Close]. *)
Definition WaitForClosed_timeout (key : SocketData) : TM unit :=
  emit ELock;;
  modify (set_State CLOSED);;
  emit (EReceiveChan key);;
  emit EUnlock.

(** The arm [<-timeout] of [WaitForAckReceiver]; [true] when the goroutine waits
    again. *)
Definition WaitForAckReceiver_timeout (l : loc) (key : SocketData) : HM bool :=
  tcbEntry ← on_tcb l get;
  if RetransmitCounter tcbEntry =? MAX_RETRANSMISSIONS then
    on_tcb l (modify (set_State CLOSED));;
    delete_socket key;;
    mret false
  else
    on_tcb l
      (modify (set_RetransmitCounter (RetransmitCounter tcbEntry + 1));;
       emit (EIP (syn_ack_message (LocalAddr key) (DestAddr key) (LocalPort key)
                    (DestPort key) tcbEntry)));;
    mret true.

(** Its arm [<-tcbEntry.RTOTimeoutChan]. *)
Definition WaitForAckReceiver_acked (l : loc) : HM bool :=
  on_tcb l (modify (set_RetransmitCounter 0));; mret false.

(** The arm [<-timeout] of [waitTimeout]: giving up removes the socket. *)
Definition waitTimeout_timeout (l : loc) (key : SocketData) (now : Z) : HM bool :=
  next ← on_tcb l (waitTimeout_fire key now);
  match next with
  | TimerAgain => mret true
  | TimerReturn => mret false
  | TimerDelete => delete_socket key;; mret false
  end.

(** ** [ReceivePacket] *)

(** The handlers that work on the TCB of the connection only. *)
Definition dispatch_tcb (state : ConnectionState) (tcpHeader tcpPayload : list byte)
    (localAddr srcPort destAddr destPort : Z) (key : SocketData) (iss now : Z) : TM unit :=
  match state with
  | SYN_SENT => HandleStateSynSent tcpHeader localAddr srcPort destAddr destPort key iss
  | ESTABLISHED => HandleEstablished tcpHeader key tcpPayload now
  | FIN_WAIT_1 => HandleFinWait1 tcpHeader key tcpPayload now
  | FIN_WAIT_2 => HandleFinWait2 tcpHeader key tcpPayload now
  | CLOSING => HandleClosing tcpHeader key
  | TIME_WAIT => HandleTimeWait tcpHeader key
  | CLOSE_WAIT => HandleCloseWait tcpHeader key
  | LAST_ACK => HandleLastAck tcpHeader key
  | CLOSED | LISTEN | SYN_RECEIVED => mret tt
  end.

(** The [switch] on the state. *)
Definition dispatch (l : loc) (state : ConnectionState) (tcpHeader tcpPayload : list byte)
    (localAddr srcPort destAddr destPort : Z) (key : SocketData) (iss now : Z) : HM unit :=
  match state with
  | LISTEN => HandleStateListen tcpHeader localAddr srcPort destAddr destPort key iss
  | SYN_RECEIVED => HandleStateSynReceived tcpHeader l key tcpPayload
  | _ => on_tcb l (dispatch_tcb state tcpHeader tcpPayload localAddr srcPort destAddr
                     destPort key iss now)
  end.

(** The checksum test of a segment. *)
Definition checksum_ok (tcpHeader tcpPayload : list byte) (localAddr destAddr : Z) : bool :=
  ComputeTCPChecksum (set_ChecksumF 0 (ParseTCPHeader tcpHeader)) localAddr destAddr
    tcpPayload =? TCPChecksum tcpHeader.

(** The socket a packet is for: the connection if there is one, else its listener. *)
Definition packet_key (table : gmap SocketData loc) (localAddr srcPort destAddr destPort : Z)
    : SocketData :=
  let key := mkSocketData localAddr srcPort destAddr destPort in
  let listenerKey := mkSocketData localAddr srcPort 0 0 in
  match table !! key with
  | Some _ => key
  | None => match table !! listenerKey with Some _ => listenerKey | None => key end
  end.

(** [localAddr] and [destAddr] are the destination and the source address of the IP
    header, [data] the bytes after it.  [iss] is the value [NewISS] returns if it is
    called and [now] the time. *)
Definition ReceivePacket (localAddr destAddr : Z) (data : list byte) (iss now : Z)
    : HM unit :=
  let tcpHeader := data in
  tcpPayload ← try (slice data (DataOffset tcpHeader) (zlen data));
  let srcPort := DestinationPort tcpHeader in
  let destPort := SourcePort tcpHeader in
  if negb (checksum_ok tcpHeader tcpPayload localAddr destAddr) then mret tt
  else
    table ← gets SocketTable;
    let key := packet_key table localAddr srcPort destAddr destPort in
    match table !! key with
    | None => mret tt
    | Some l =>
        tcbEntry ← on_tcb l get;
        dispatch l (State tcbEntry) tcpHeader tcpPayload localAddr srcPort destAddr
          destPort key iss now
    end.
End states.
