(* ===== verification/TcpApi.v ===== *)
(** * The socket calls

    [Connect], [Listen], [Accept], [Read] and [Write] of
    [src/pkg/tcp/tcp_handler_core.go], [src/pkg/tcp/tcp_close.go],
    [src/pkg/tcp/vtcp_conn.go] and [src/pkg/tcp/vtcp_listener.go].

    A call that blocks is a sequence of steps: one step runs from a point where the
    goroutine can be resumed (the call, the return of a [Wait], an arm of a [select], a
    lock it takes again) to the next, and its result says where the call goes on.
    [Wait] unlocks the TCB, and the step that resumes the call locks it again. *)

From S2P Require Import Prelude GoLang Wire WireRef Ring TcpData EarlyArrivals Congestion Rto Retransmit TcpReceive TcpHandler.

(** Errors: [io.EOF] and [errors.New(msg)]. *)
Inductive goerr := EOF | Err (msg : string).

(** [VTCPConn] and [VTCPListener]; the handler they point to is the state. *)
Record VTCPConn := mkVTCPConn {
  SocketTableKey : SocketData;
  ReadCancelled : bool;
  WriteCancelled : bool
}.

Record VTCPListener := mkVTCPListener {
  ListenerKey : SocketData;
  ListenerCancelled : bool
}.

Definition ConnGetType (vc : VTCPConn) : SocketType := CONNECTION.
Definition ListenerGetType (vl : VTCPListener) : SocketType := LISTENER.

Section api.
Context {N : Netstack}.

(** ** [Connect] *)

Inductive connect_next :=
  | ConnectWait (l : loc) (key : SocketData)
  | ConnectReturn (vc : VTCPConn)
  | ConnectError (err : goerr).

Definition connecting_TCB (iss : Z) : TCB :=
  let rcv := mkReceive (make_bytes MAX_BUF_SIZE) 0 MAX_BUF_SIZE 0 0 in
  let snd := mkSend (make_bytes MAX_BUF_SIZE) iss (iss ⊞ 1) 0 iss (iss ⊞ 1) in
  set_CWND MAX_BUF_SIZE (set_EarlyArrivalQueue Init
    (set_State SYN_SENT (set_RTO RTO_UPPER (set_SRTT (-1)
      (set_RCV rcv (set_SND snd zero_TCB)))))).

Definition syn_message (localAddr : Z) (key : SocketData) (iss : Z) : list byte :=
  ip_message localAddr (DestAddr key)
    (CreateTCPHeader localAddr (DestAddr key) (LocalPort key) (DestPort key) iss 0
       TCPFlagSyn MAX_BUF_SIZE []) [].

(** Up to the first [select]. *)
Definition Connect (destAddr port iss : Z) : HM connect_next :=
  t ← get;
  let socketData := mkSocketData (HLocalAddr t) (CurrentPort t) destAddr port in
  modify (λ h, set_CurrentPort (u16 (CurrentPort h + 1)) h);;
  match SocketTable t !! socketData with
  | Some _ => mret (ConnectError (Err "Socket for this address already exists"))
  | None =>
      l ← new_tcb (connecting_TCB iss);
      store_socket socketData l;;
      on_tcb l (emit (EIP (syn_message (HLocalAddr t) socketData iss)));;
      mret (ConnectWait l socketData)
  end.

(** The arm [<-timeout]. *)
Definition Connect_timeout (l : loc) (key : SocketData) : HM connect_next :=
  newTCBEntry ← on_tcb l get;
  if RetransmitCounter newTCBEntry =? MAX_RETRANSMISSIONS then
    on_tcb l (modify (set_State CLOSED));;
    delete_socket key;;
    mret (ConnectError (Err "Connection timed out"))
  else
    t ← get;
    on_tcb l
      (modify (set_RetransmitCounter (RetransmitCounter newTCBEntry + 1));;
       emit (EIP (syn_message (HLocalAddr t) key (SND_ISS (SND newTCBEntry)))));;
    mret (ConnectWait l key).

(** The arm [err := <-t.IPErrorChannel]. *)
Definition Connect_ip_error (err : goerr) : HM connect_next := mret (ConnectError err).

(** The arm [<-newTCBEntry.ReceiveChan]. *)
Definition Connect_established (l : loc) (key : SocketData) : HM connect_next :=
  on_tcb l (modify (set_RetransmitCounter 0));;
  mret (ConnectReturn (mkVTCPConn key false false)).

(** ** [Listen] and [Accept] *)

Definition listener_TCB : TCB := set_State LISTEN zero_TCB.

Definition Listen (port : Z) : HM (VTCPListener + goerr) :=
  if port <=? 1024 then mret (inr (Err "Invalid port number"))
  else
    t ← get;
    let socketTableKey := mkSocketData (HLocalAddr t) port 0 0 in
    modify (λ h, set_Listeners (Listeners h ++ [socketTableKey]) h);;
    match SocketTable t !! socketTableKey with
    | Some _ => mret (inr (Err "Listener socket already exists"))
    | None =>
        l ← new_tcb listener_TCB;
        store_socket socketTableKey l;;
        mret (inl (mkVTCPListener socketTableKey false))
    end.

Inductive accept_next :=
  | AcceptWait (l : loc)
  | AcceptReturn (vc : VTCPConn)
  | AcceptError (err : goerr).

(** [PendingConnections[0]], [PendingConnections[1:]] *)
Definition Accept_pop : TM VTCPConn :=
  listenerTCBEntry ← get;
  connEntry ← try (PendingConnections listenerTCBEntry !! 0%nat);
  rest ← try (slice (PendingConnections listenerTCBEntry) 1
                (zlen (PendingConnections listenerTCBEntry)));
  modify (set_PendingConnections rest);;
  mret (mkVTCPConn connEntry false false).

(** [PendingConnCond.Wait()] unlocks [PendingConnMutex]. *)
Definition Accept (vl : VTCPListener) : HM accept_next :=
  table ← gets SocketTable;
  match table !! ListenerKey vl with
  | None => mret (AcceptError (Err "Listener socket does not exist"))
  | Some l =>
      listenerTCBEntry ← on_tcb l get;
      if 0 <? zlen (PendingConnections listenerTCBEntry) then
        vc ← on_tcb l Accept_pop;
        mret (AcceptReturn vc)
      else
        on_tcb l (emit EPendingLock;; emit EPendingUnlock);;
        mret (AcceptWait l)
  end.

(** After the [Wait]; [cancelled] is what [vl.Cancelled.Load()] reads then. *)
Definition Accept_wake (l : loc) (cancelled : bool) : HM accept_next :=
  on_tcb l (emit EPendingLock);;
  if cancelled then mret (AcceptError (Err "Listener has been cancelled due to close"))
  else
    listenerTCBEntry ← on_tcb l get;
    if zlen (PendingConnections listenerTCBEntry) =? 0 then
      on_tcb l (emit EPendingUnlock);; mret (AcceptWait l)
    else
      vc ← on_tcb l Accept_pop;
      on_tcb l (emit EPendingUnlock);;
      mret (AcceptReturn vc).

(** ** [Read] *)

Inductive read_next :=
  | ReadReturn (n : Z) (err : option goerr)
  | ReadWait (amountReadSoFar : Z)
  | ReadCopy (amountReadSoFar bytesToRead : Z).

Definition read_closed (tcb : TCB) : bool :=
  bool_decide (State tcb = CLOSE_WAIT) || TimeoutCancelled tcb.

(** The number of bytes of this turn; the lock is released for the copy. *)
Definition Read_size (amountToRead amountReadSoFar : Z) : TM read_next :=
  tcbEntry ← get;
  let leftToReadBuf := RCV_NXT (RCV tcbEntry) ⊟ RCV_LBR (RCV tcbEntry) in
  let left := amountToRead ⊟ amountReadSoFar in
  let bytesToRead := if left <? leftToReadBuf then left else leftToReadBuf in
  emit EUnlock;;
  mret (ReadCopy amountReadSoFar bytesToRead).

(** The loop from its test on, with the lock held. *)
Definition Read_head (amountToRead : Z) (readAll : bool) (amountReadSoFar : Z)
    : TM read_next :=
  tcbEntry ← get;
  if amountReadSoFar <? amountToRead then
    if RCV_LBR (RCV tcbEntry) =? RCV_NXT (RCV tcbEntry) then
      if negb readAll && (0 <? amountReadSoFar) then
        emit EUnlock;; mret (ReadReturn amountReadSoFar None)
      else if read_closed tcbEntry then
        emit EUnlock;; mret (ReadReturn 0 (Some EOF))
      else
        emit EUnlock;; mret (ReadWait amountReadSoFar)
    else Read_size amountToRead amountReadSoFar
  else
    emit EUnlock;; mret (ReadReturn amountReadSoFar None).

(** After [ReadBlockedCond.Wait()]. *)
Definition Read_wake (amountToRead amountReadSoFar : Z) : TM read_next :=
  emit ELock;;
  tcbEntry ← get;
  if RCV_LBR (RCV tcbEntry) =? RCV_NXT (RCV tcbEntry) then
    if read_closed tcbEntry then
      emit EUnlock;; mret (ReadReturn 0 (Some EOF))
    else
      emit EUnlock;; mret (ReadWait amountReadSoFar)
  else Read_size amountToRead amountReadSoFar.

(** The copy out of the circular buffer into [data]. *)
Definition read_segment (data buffer : list byte) (lbr amountReadSoFar bytesToRead : Z)
    : option (list byte) :=
  let lbr_index := SequenceToBufferInd lbr in
  if MAX_BUF_SIZE <=? (lbr_index ⊞ bytesToRead) then
    let copyToEndOfBufferLen := MAX_BUF_SIZE ⊟ lbr_index in
    let copyOverflowLen := bytesToRead ⊟ copyToEndOfBufferLen in
    let firstCopyDataEndIndex := amountReadSoFar ⊞ copyToEndOfBufferLen in
    src1 ← slice buffer lbr_index (zlen buffer);
    data1 ← copy_into data amountReadSoFar firstCopyDataEndIndex src1;
    let secondCopyDataEndIndex := firstCopyDataEndIndex ⊞ copyOverflowLen in
    src2 ← slice buffer 0 copyOverflowLen;
    copy_into data1 firstCopyDataEndIndex secondCopyDataEndIndex src2
  else
    src ← slice buffer lbr_index (lbr_index ⊞ bytesToRead);
    copy_into data amountReadSoFar (amountReadSoFar ⊞ bytesToRead) src.

(** The copy and the pointer updates, which run without the lock, and the lock that
    is taken again. *)
Definition Read_copy (data : list byte) (amountReadSoFar bytesToRead : Z)
    : TM (list byte * Z) :=
  tcbEntry ← get;
  data' ← try (read_segment data (RCV_Buffer (RCV tcbEntry)) (RCV_LBR (RCV tcbEntry))
                 amountReadSoFar bytesToRead);
  modify (λ t, tcb_RCV_LBR (RCV_LBR (RCV t) ⊞ bytesToRead) t);;
  modify (λ t, tcb_RCV_WND (RCV_WND (RCV t) ⊞ bytesToRead) t);;
  emit ELock;;
  mret (data', amountReadSoFar ⊞ bytesToRead).

(** The call up to the loop, on a connection that exists. *)
Definition Read_enter (amountToRead : Z) (readAll : bool) : TM read_next :=
  emit ELock;;
  tcbEntry ← get;
  if TimeoutCancelled tcbEntry then
    emit EUnlock;; mret (ReadReturn 0 (Some (Err "Read on timed out connection")))
  else if bool_decide (State tcbEntry = CLOSE_WAIT) &&
          (RCV_LBR (RCV tcbEntry) =? RCV_NXT (RCV tcbEntry)) then
    emit EUnlock;; mret (ReadReturn 0 (Some EOF))
  else Read_head amountToRead readAll 0.

Definition Read (vc : VTCPConn) (amountToRead : Z) (readAll : bool) : HM read_next :=
  if ReadCancelled vc then mret (ReadReturn 0 (Some (Err "Read operation is not permitted")))
  else
    table ← gets SocketTable;
    match table !! SocketTableKey vc with
    | None => mret (ReadReturn 0 (Some (Err "Connection doesn't exist")))
    | Some l => on_tcb l (Read_enter amountToRead readAll)
    end.

(** The turns of a call that is not interleaved with a packet; two are enough
    ([Read_run_ok]). *)
Fixpoint Read_run (fuel : nat) (amountToRead : Z) (readAll : bool) (data : list byte)
    (next : read_next) : TM (list byte * read_next) :=
  match fuel, next with
  | S fuel, ReadCopy amountReadSoFar bytesToRead =>
      '(data', n) ← Read_copy data amountReadSoFar bytesToRead;
      next' ← Read_head amountToRead readAll n;
      Read_run fuel amountToRead readAll data' next'
  | _, _ => mret (data, next)
  end.

(** ** [Write] *)

Inductive write_next :=
  | WriteReturn (n : Z) (err : option goerr)
  | WriteWait (amountWritten : Z)
  | WriteMore (amountWritten : Z).

(** The copy of [bytesToWrite] bytes of [data] into the circular buffer. *)
Definition write_segment (buffer data : list byte) (lbw amountWritten bytesToWrite : Z)
    : option (list byte) :=
  let lbw_index := SequenceToBufferInd lbw in
  if MAX_BUF_SIZE <=? (lbw_index ⊞ bytesToWrite) then
    let copyToEndOfBufferLen := MAX_BUF_SIZE ⊟ lbw_index in
    let copyOverflowLen := bytesToWrite ⊟ copyToEndOfBufferLen in
    let firstCopyDataEndIndex := amountWritten ⊞ copyToEndOfBufferLen in
    let secondCopyDataEndIndex := firstCopyDataEndIndex ⊞ copyOverflowLen in
    src1 ← slice data amountWritten firstCopyDataEndIndex;
    buffer1 ← copy_into buffer lbw_index (zlen buffer) src1;
    src2 ← slice data firstCopyDataEndIndex secondCopyDataEndIndex;
    copy_into buffer1 0 copyOverflowLen src2
  else
    src ← slice data amountWritten (amountWritten ⊞ bytesToWrite);
    copy_into buffer lbw_index (zlen buffer) src.

Definition write_full (tcb : TCB) : bool :=
  SND_LBW (SND tcb) ⊟ SND_UNA (SND tcb) =? MAX_BUF_SIZE.

(** The rest of a turn, when there is space. *)
Definition Write_copy (data : list byte) (amountWritten : Z) : TM write_next :=
  tcbEntry ← get;
  let amountToWrite := u32 (zlen data) in
  let remainingBufSize :=
    MAX_BUF_SIZE ⊟ (SND_LBW (SND tcbEntry) ⊟ SND_UNA (SND tcbEntry)) in
  let bytesToWrite := Min remainingBufSize (amountToWrite ⊟ amountWritten) in
  buffer ← try (write_segment (SND_Buffer (SND tcbEntry)) data (SND_LBW (SND tcbEntry))
                  amountWritten bytesToWrite);
  modify (tcb_SND_Buffer buffer);;
  modify (λ t, tcb_SND_LBW (SND_LBW (SND t) ⊞ bytesToWrite) t);;
  emit (ESignal SendBlockedCond);;
  emit EUnlock;;
  mret (WriteMore (amountWritten ⊞ bytesToWrite)).

(** A turn of the loop, from its test on.  In a state that does not allow writing the
    call returns with the lock held, as the code does. *)
Definition Write_turn (data : list byte) (amountWritten : Z) : TM write_next :=
  if amountWritten <? u32 (zlen data) then
    emit ELock;;
    tcbEntry ← get;
    if negb (bool_decide (State tcbEntry = ESTABLISHED)) &&
       negb (bool_decide (State tcbEntry = CLOSE_WAIT)) then
      mret (WriteReturn 0 (Some (Err "Connection is closing")))
    else if write_full tcbEntry then
      emit EUnlock;; mret (WriteWait amountWritten)
    else Write_copy data amountWritten
  else mret (WriteReturn (u32 (zlen data)) None).

(** After [WriteBlockedCond.Wait()]; [cancelled] is what [vc.WriteCancelled.Load()]
    reads then. *)
Definition Write_wake (data : list byte) (amountWritten : Z) (cancelled : bool)
    : TM write_next :=
  emit ELock;;
  tcbEntry ← get;
  if cancelled then
    emit EUnlock;; mret (WriteReturn 0 (Some (Err "Write on a closed socket")))
  else if TimeoutCancelled tcbEntry then
    emit EUnlock;; mret (WriteReturn 0 (Some (Err "Write on timed out connection")))
  else if write_full tcbEntry then
    emit EUnlock;; mret (WriteWait amountWritten)
  else Write_copy data amountWritten.

Definition Write (vc : VTCPConn) (data : list byte) : HM write_next :=
  if WriteCancelled vc then mret (WriteReturn 0 (Some (Err "Write operation not permitted")))
  else
    table ← gets SocketTable;
    match table !! SocketTableKey vc with
    | None => mret (WriteReturn 0 (Some (Err "Connection doesn't exist")))
    | Some l =>
        tcbEntry ← on_tcb l get;
        if TimeoutCancelled tcbEntry then
          mret (WriteReturn 0 (Some (Err "Write on timed out connection")))
        else on_tcb l (Write_turn data 0)
    end.

(** ** [Close] *)

Inductive close_next :=
  | CloseWaitFin
  | CloseWaitClosed.

(** From the moment all the data is sent, with the lock held. *)
Definition Close_fin (localAddr : Z) (socketData : SocketData) : TM close_next :=
  tcbEntry ← get;
  let closeWait := bool_decide (State tcbEntry = CLOSE_WAIT) in
  let nextToSend :=
    if closeWait then RCV_NXT (RCV tcbEntry) ⊞ 1 else RCV_NXT (RCV tcbEntry) in
  let tcpHeader :=
    CreateTCPHeader localAddr (DestAddr socketData) (LocalPort socketData)
      (DestPort socketData) (SND_NXT (SND tcbEntry)) nextToSend
      (Z.lor TCPFlagFin TCPFlagAck) (RCV_WND (RCV tcbEntry)) [] in
  modify (set_Cancelled true);;
  emit (ESignal SendBlockedCond);;
  emit (EBroadcast WriteBlockedCond);;
  emit (EIP (ip_message localAddr (DestAddr socketData) tcpHeader []));;
  modify (set_State (if closeWait then LAST_ACK else FIN_WAIT_1));;
  modify (λ t, tcb_SND_NXT (SND_NXT (SND t) ⊞ 1) t);;
  modify (λ t, set_RetransmissionQueue
                 (RetransmissionQueue t ++ [mkRetransmitSegment tcpHeader 0]) t);;
  emit EUnlock;;
  emit ERTO;;
  mret CloseWaitClosed.

(** The loop that waits for the data to be sent. *)
Definition Close_test (localAddr : Z) (socketData : SocketData) : TM close_next :=
  tcbEntry ← get;
  if negb (SND_NXT (SND tcbEntry) =? SND_LBW (SND tcbEntry)) then
    emit EUnlock;; mret CloseWaitFin
  else Close_fin localAddr socketData.

(** After [PendingSendingFinCond.Wait()]. *)
Definition Close_wake (localAddr : Z) (socketData : SocketData) : TM close_next :=
  emit ELock;; Close_test localAddr socketData.

(** A socket that is not in the table is a [nil] pointer. *)
Definition Close (vc : VTCPConn) : HM (loc * close_next) :=
  t ← get;
  l ← try (SocketTable t !! SocketTableKey vc);
  next ← on_tcb l
    (emit ELock;;
     modify (set_PendingSendingFin true);;
     Close_test (HLocalAddr t) (SocketTableKey vc));
  mret (l, next).

(** The arm [<-tcbEntry.ReceiveChan]. *)
Definition Close_closed (vc : VTCPConn) : HM unit := delete_socket (SocketTableKey vc).

Definition CloseListener (vl : VTCPListener) : HM VTCPListener :=
  table ← gets SocketTable;
  l ← try (table !! ListenerKey vl);
  on_tcb l (emit (EPendingSignal (ListenerKey vl)));;
  delete_socket (ListenerKey vl);;
  mret (mkVTCPListener (ListenerKey vl) true).

(** ** [VShutdown], [VClose], [SetCCForSocket] *)

Definition set_ReadCancelled (vc : VTCPConn) : VTCPConn :=
  mkVTCPConn (SocketTableKey vc) true (WriteCancelled vc).
Definition set_WriteCancelled (vc : VTCPConn) : VTCPConn :=
  mkVTCPConn (SocketTableKey vc) (ReadCancelled vc) true.

Inductive shutdown_next :=
  | ShutdownReturn (err : option goerr)
  | ShutdownClose (l : loc) (next : close_next).

Definition VClose (vc : VTCPConn) : HM (VTCPConn * shutdown_next) :=
  let vc := set_WriteCancelled (set_ReadCancelled vc) in
  '(l, next) ← Close vc;
  mret (vc, ShutdownClose l next).

Definition VShutdown (vc : VTCPConn) (sdType : Z) : HM (VTCPConn * shutdown_next) :=
  if sdType =? 0 then mret (set_ReadCancelled vc, ShutdownReturn None)
  else if sdType =? 1 then
    let vc := set_WriteCancelled vc in
    '(l, next) ← Close vc;
    mret (vc, ShutdownClose l next)
  else if sdType =? 2 then VClose vc
  else mret (vc, ShutdownReturn (Some (Err "Invalid shutdown type"))).

Definition SetCCForSocket (vc : VTCPConn) : HM (option goerr) :=
  table ← gets SocketTable;
  match table !! SocketTableKey vc with
  | None => mret (Some (Err "Socket doesn't exist"))
  | Some l => on_tcb l SetCC;; mret None
  end.
End api.
