(* ===== verification/TcpStream.v ===== *)
(** * Reading and writing the byte stream

    [Read] and [Write] against the streams of the two directions: a call to [Write]
    appends its bytes to the stream the send buffer holds, and a call to [Read] returns
    the next bytes of the stream the receive buffer holds. *)

From S2P Require Import Prelude GoLang Wire WireRef Ring TcpData EarlyArrivals Congestion Rto Retransmit TcpReceive TcpHandler TcpApi.

(** ** Copies between a slice and a circular buffer *)

Lemma write_segment_put buf data s a n :
  zlen buf = MAX_BUF_SIZE → 0 ≤ a → 0 ≤ n ≤ MAX_BUF_SIZE →
  a + n ≤ zlen data → zlen data < 4294967296 →
  ∃ buf', write_segment buf data s a n = Some buf' ∧
    ring_put buf s (ztake n (zdrop a data)) buf'.
Proof.
  intros Hb Ha Hn Hle Hp.
  destruct (copy_segment_put buf data a s n Hb Ha Hn Hle Hp) as (buf' & E & Hput).
  unfold copy_segment, write_segment in *. pose proof (SequenceToBufferInd_range s) as Hi.
  destruct (_ <=? _) eqn:Ew; [by exists buf'|]. clear E Hput buf'.
  unfold MAX_BUF_SIZE in *. apply Z.leb_gt in Ew. rewrite u32_small in Ew by lia.
  u32_norm. rewrite slice_in by lia. simpl. replace (a + n - a) with n by lia.
  assert (zlen (ztake n (zdrop a data)) = n)
    by (rewrite zlen_ztake; [done|rewrite zlen_zdrop; lia]).
  destruct (copy_into_in buf (SequenceToBufferInd s) (zlen buf) (ztake n (zdrop a data)))
    as (b1 & E1 & _); [lia..|].
  exists b1. split; [done|].
  apply (ring_put_straight _ _ _ (zlen buf)); [done|lia|unfold MAX_BUF_SIZE; lia|done].
Qed.

Lemma read_segment_window data buf s a n :
  zlen buf = MAX_BUF_SIZE → 0 ≤ a → 0 < n ≤ MAX_BUF_SIZE →
  a + n ≤ zlen data → zlen data < 4294967296 →
  ∃ data', read_segment data buf s a n = Some data' ∧ zlen data' = zlen data ∧
    ∀ i, 0 ≤ i < zlen data →
      zlookup data' i =
        if (a <=? i) && (i <? a + n) then rlookup buf (s + (i - a)) else zlookup data i.
Proof.
  intros Hb Ha Hn Hle Hd. unfold read_segment.
  pose proof (SequenceToBufferInd_range s) as Hi. unfold MAX_BUF_SIZE in *. u32_norm.
  set (k := SequenceToBufferInd s) in *.
  assert (Hr : ∀ d, 0 ≤ d < n → rlookup buf (s + d) =
    zlookup buf (if k + d <? 65535 then k + d else k + d - 65535)).
  { intros d Hd'. unfold rlookup. rewrite SequenceToBufferInd_add by (unfold MAX_BUF_SIZE; lia).
    done. }
  destruct (Z.leb_spec 65535 (k + n)); u32_norm.
  - rewrite !slice_in by lia. simpl.
    set (p1 := ztake (zlen buf - k) (zdrop k buf)).
    set (p2 := ztake (n - (65535 - k) - 0) (zdrop 0 buf)).
    assert (L1 : zlen p1 = 65535 - k)
      by (unfold p1; rewrite zlen_ztake; [lia|rewrite zlen_zdrop; lia]).
    assert (L2 : zlen p2 = n - (65535 - k))
      by (unfold p2; rewrite zlen_ztake; [lia|rewrite zlen_zdrop; lia]).
    destruct (copy_into_in data a (a + (65535 - k)) p1) as (d1 & E1 & M1 & C1); [lia..|].
    destruct (copy_into_in d1 (a + (65535 - k)) (a + (65535 - k) + (n - (65535 - k))) p2)
      as (d2 & E2 & M2 & C2); [lia..|].
    rewrite E1. simpl. exists d2. split; [done|]. split; [lia|]. intros i Hi'.
    rewrite C2, C1 by lia. rewrite L1, L2.
    destruct (Z.leb_spec a i), (Z.ltb_spec i (a + n)); simpl.
    + rewrite Hr by lia. destruct (Z.ltb_spec (k + (i - a)) 65535).
      * unfold p1. rewrite zlookup_ztake, zlookup_zdrop by lia.
        bool_hyps; simpl; try lia; f_equal; lia.
      * unfold p2. rewrite zlookup_ztake.
        bool_hyps; simpl; try lia; rewrite zlookup_zdrop by lia; f_equal; lia.
    + bool_hyps; simpl; try lia; done.
    + bool_hyps; simpl; try lia; done.
    + bool_hyps; simpl; try lia; done.
  - rewrite slice_in by lia. simpl. set (p := ztake _ _).
    assert (L : zlen p = n) by (unfold p; rewrite zlen_ztake; [lia|rewrite zlen_zdrop; lia]).
    destruct (copy_into_in data a (a + n) p) as (d1 & E1 & M1 & C1); [lia..|].
    exists d1. split; [done|]. split; [lia|]. intros i Hi'. rewrite C1 by lia. rewrite L.
    destruct (Z.leb_spec a i), (Z.ltb_spec i (a + n)); simpl;
      destruct (Z.ltb_spec i (a + Z.min (a + n - a) n)); try lia; try done.
    rewrite Hr by lia. unfold p. rewrite zlookup_ztake, zlookup_zdrop by lia.
    bool_hyps; simpl; try lia; f_equal; lia.
Qed.

(** ** Reading *)

(** The part of the sequence space a read can move into. *)
Definition read_room (tcb : TCB) : Prop :=
  RCV_NXT (RCV tcb) + MAX_BUF_SIZE < 4294967296.

(** A read changes the read pointer and the window only. *)
Definition after_read (n : Z) (tcb : TCB) : TCB :=
  tcb_RCV_WND (RCV_WND (RCV tcb) + n) (tcb_RCV_LBR (RCV_LBR (RCV tcb) + n) tcb).

Lemma after_read_inv st n tcb :
  rcv_inv st tcb → read_room tcb → 0 ≤ n ≤ RCV_NXT (RCV tcb) - RCV_LBR (RCV tcb) →
  rcv_inv st (after_read n tcb).
Proof.
  intros [] Hroom Hn. unfold read_room in *. split; simpl; try lia; try done.
  - eapply holds_weaken; [done|lia..].
  - intros e He Hs. destruct (ri_early e He Hs). split; [lia|done].
Qed.

Lemma Read_copy_ok st data a n tcb :
  rcv_inv st tcb → read_room tcb → 0 ≤ a →
  0 < n ≤ RCV_NXT (RCV tcb) - RCV_LBR (RCV tcb) →
  a + n ≤ zlen data → zlen data < 4294967296 →
  Read_copy data a n tcb =
    (Ok (ztake a data ++ stretch st (RCV_LBR (RCV tcb)) n ++ zdrop (a + n) data, a + n),
     after_read n tcb, [ELock]).
Proof.
  intros Hinv Hroom Ha Hn Hle Hd. pose proof Hinv as []. unfold read_room in Hroom.
  destruct (read_segment_window data (RCV_Buffer (RCV tcb)) (RCV_LBR (RCV tcb)) a n)
    as (data' & E & Hlen & Hdata'); [done|lia|unfold MAX_BUF_SIZE in *; lia|lia..|].
  unfold Read_copy. go_unfold. simpl. rewrite E. simpl. unfold MAX_BUF_SIZE in *. u32_norm.
  unfold after_read. do 4 f_equal. apply zlist_eq.
  { rewrite !zlen_app, zlen_ztake, zlen_stretch, zlen_zdrop by lia. lia. }
  intros i Hi. rewrite Hdata' by lia.
  rewrite !zlookup_app, zlookup_ztake, zlen_ztake, zlen_stretch by lia.
  bool_hyps; simpl; try lia; try done.
  - rewrite zlookup_stretch by lia. apply ri_data. lia.
  - rewrite zlookup_zdrop by lia. f_equal. lia.
Qed.

(** What the call does next, after it has read [n] bytes and found no more. *)
Definition read_exhausted (readAll : bool) (n : Z) (tcb : TCB) : read_next :=
  if negb readAll && (0 <? n) then ReadReturn n None
  else if read_closed tcb then ReadReturn 0 (Some EOF) else ReadWait n.

Lemma Read_head_empty amount readAll n tcb :
  RCV_LBR (RCV tcb) = RCV_NXT (RCV tcb) → n < amount →
  Read_head amount readAll n tcb = (Ok (read_exhausted readAll n tcb), tcb, [EUnlock]).
Proof.
  intros He Hn. unfold Read_head, read_exhausted. go_unfold. simpl.
  destruct (Z.ltb_spec n amount); [|lia]. rewrite (proj2 (Z.eqb_eq _ _) He).
  destruct (negb readAll && _); [done|]. by destruct (read_closed tcb).
Qed.

Lemma Read_head_done amount readAll tcb :
  Read_head amount readAll amount tcb = (Ok (ReadReturn amount None), tcb, [EUnlock]).
Proof. unfold Read_head. go_unfold. simpl. by rewrite Z.ltb_irrefl. Qed.

(** The loop when there is data, up to the end of the call or of the data. *)
Lemma Read_run_ok st fuel amount readAll data tcb :
  rcv_inv st tcb → read_room tcb → RCV_LBR (RCV tcb) < RCV_NXT (RCV tcb) →
  0 < amount ≤ zlen data → zlen data < 4294967296 →
  let avail := RCV_NXT (RCV tcb) - RCV_LBR (RCV tcb) in
  let n := Z.min amount avail in
  (next ← Read_head amount readAll 0; Read_run (S fuel) amount readAll data next) tcb =
    (Ok (stretch st (RCV_LBR (RCV tcb)) n ++ zdrop n data,
         if amount <=? avail then ReadReturn amount None
         else read_exhausted readAll avail tcb),
     after_read n tcb, [EUnlock; ELock; EUnlock]).
Proof.
  intros Hinv Hroom Hlt Hamt Hlen avail n. pose proof Hinv as [].
  unfold read_room, MAX_BUF_SIZE in *.
  assert (Hhead : Read_head amount readAll 0 tcb = (Ok (ReadCopy 0 n), tcb, [EUnlock])).
  { unfold Read_head, Read_size. go_unfold. simpl.
    destruct (Z.ltb_spec 0 amount); [|lia].
    destruct (Z.eqb_spec (RCV_LBR (RCV tcb)) (RCV_NXT (RCV tcb))); [lia|].
    u32_norm. rewrite Z.sub_0_r. simpl. do 4 f_equal. unfold n, avail. bool_hyps; lia. }
  unfold mbind, go_bind. rewrite Hhead. simpl.
  unfold mbind, go_bind.
  rewrite (Read_copy_ok st data 0 n tcb) by (unfold read_room, MAX_BUF_SIZE; lia || done).
  simpl. destruct (Z.leb_spec amount avail).
  - assert (n = amount) as -> by lia. rewrite Read_head_done. simpl.
    by destruct fuel.
  - assert (n = avail) as -> by lia.
    rewrite Read_head_empty by (simpl; lia). rewrite Z.add_0_l.
    assert (read_exhausted readAll avail (after_read avail tcb) =
            read_exhausted readAll avail tcb) as -> by done.
    unfold read_exhausted. destruct (negb readAll && _); [by destruct fuel|].
    destruct (read_closed tcb); by destruct fuel.
Qed.

(** ** Writing *)

(** The send buffer holds the stream [st] from the oldest unacknowledged byte to the
    last byte written. *)
Record snd_inv (st : Z → byte) (tcb : TCB) : Prop := {
  si_buf : zlen (SND_Buffer (SND tcb)) = MAX_BUF_SIZE;
  si_ptr : 0 ≤ SND_UNA (SND tcb) ≤ SND_LBW (SND tcb);
  si_nxt : SND_UNA (SND tcb) ≤ SND_NXT (SND tcb) ≤ SND_LBW (SND tcb);
  si_cap : SND_LBW (SND tcb) ≤ SND_UNA (SND tcb) + MAX_BUF_SIZE;
  si_wrap : SND_UNA (SND tcb) + MAX_BUF_SIZE < 4294967296;
  si_data : holds (SND_Buffer (SND tcb)) st (SND_UNA (SND tcb)) (SND_LBW (SND tcb))
}.

(** The space left in the send buffer. *)
Definition write_room (tcb : TCB) : Z :=
  MAX_BUF_SIZE - (SND_LBW (SND tcb) - SND_UNA (SND tcb)).

Lemma Write_copy_ok st data a tcb :
  snd_inv st tcb → 0 ≤ a < zlen data → zlen data < 4294967296 →
  carries st (SND_LBW (SND tcb)) (zdrop a data) →
  let n := Z.min (write_room tcb) (zlen data - a) in
  ∃ tcb', Write_copy data a tcb =
      (Ok (WriteMore (a + n)), tcb', [ESignal SendBlockedCond; EUnlock]) ∧
    snd_inv st tcb' ∧ SND_LBW (SND tcb') = SND_LBW (SND tcb) + n ∧
    SND_UNA (SND tcb') = SND_UNA (SND tcb) ∧ SND_NXT (SND tcb') = SND_NXT (SND tcb) ∧
    RCV tcb' = RCV tcb ∧ State tcb' = State tcb ∧
    ∃ buf', tcb' = tcb_SND_LBW (SND_LBW (SND tcb) + n) (tcb_SND_Buffer buf' tcb).
Proof.
  intros Hinv Ha Hlen Hc n. pose proof Hinv as [].
  assert (Hn : 0 ≤ n ≤ MAX_BUF_SIZE) by (unfold n, write_room; lia).
  destruct (write_segment_put (SND_Buffer (SND tcb)) data (SND_LBW (SND tcb)) a n)
    as (buf' & E & Hput); [done|lia..|].
  assert (Hzl : zlen (zdrop a data) = zlen data - a) by (apply zlen_zdrop; lia).
  assert (Hl : zlen (ztake n (zdrop a data)) = n) by (apply zlen_ztake; lia).
  assert (Hcn : carries st (SND_LBW (SND tcb)) (ztake n (zdrop a data))).
  { intros d Hd. rewrite Hl in Hd. rewrite zlookup_ztake.
    destruct (Z.ltb_spec d n); [|lia]. apply Hc. lia. }
  unfold write_room, MAX_BUF_SIZE in *.
  assert (Hdef : n = Z.min (65535 - (SND_LBW (SND tcb) - SND_UNA (SND tcb))) (zlen data - a))
    by done.
  clearbody n. unfold Write_copy. go_unfold. simpl. unfold MAX_BUF_SIZE in *.
  u32_norm. rewrite Min_spec, <-Hdef, E. simpl. u32_norm.
  go_exists. split_and!; try done; [|by exists buf'].
  split; simpl; unfold MAX_BUF_SIZE; try lia.
  - by destruct Hput.
  - eapply holds_app.
    + eapply (ring_put_keeps _ (SND_LBW (SND tcb)) _ _ _ (SND_UNA (SND tcb))); try done;
        unfold MAX_BUF_SIZE; lia.
    + replace n with (zlen (ztake n (zdrop a data))) by done.
      eapply ring_put_holds; [done..|unfold MAX_BUF_SIZE; lia].
Qed.

(** ** Properties *)

(** C10: A read returns the next bytes of the peer's stream: with data in the buffer, a
    call for [amount] bytes copies exactly the next [min amount available] bytes of the
    stream to the front of the slice and leaves the rest of the slice alone, moves the
    read pointer and opens the window by as much, and keeps the buffer in agreement with
    the stream.  It returns when it has [amount] bytes, or, without [readAll], with what
    there was; with [readAll] it goes on waiting.  The lock is free at the end. *)
Theorem Read_returns_stream (st : Z → byte) (fuel : nat) (amount : Z) (readAll : bool)
    (data : list byte) (tcb : TCB) :
  rcv_inv st tcb → read_room tcb → RCV_LBR (RCV tcb) < RCV_NXT (RCV tcb) →
  TimeoutCancelled tcb = false → 0 < amount ≤ zlen data → zlen data < 4294967296 →
  let avail := RCV_NXT (RCV tcb) - RCV_LBR (RCV tcb) in
  let n := Z.min amount avail in
  ∃ tcb' tr,
    (next ← Read_enter amount readAll; Read_run (S fuel) amount readAll data next) tcb =
      (Ok (stretch st (RCV_LBR (RCV tcb)) n ++ zdrop n data,
           if amount <=? avail then ReadReturn amount None
           else read_exhausted readAll avail tcb), tcb', tr) ∧
    rcv_inv st tcb' ∧ RCV_LBR (RCV tcb') = RCV_LBR (RCV tcb) + n ∧
    RCV_WND (RCV tcb') = RCV_WND (RCV tcb) + n ∧ RCV_NXT (RCV tcb') = RCV_NXT (RCV tcb) ∧
    SND tcb' = SND tcb ∧ State tcb' = State tcb ∧ lock_run false tr = Some false.
Proof.
  intros Hinv Hroom Hlt Ht Hamt Hlen avail n.
  pose proof (Read_run_ok st fuel amount readAll data tcb Hinv Hroom Hlt Hamt Hlen) as E.
  assert (Henter : Read_enter amount readAll tcb =
    ((Read_head amount readAll 0 tcb).1, ELock :: (Read_head amount readAll 0 tcb).2)).
  { unfold Read_enter. go_unfold. simpl. rewrite Ht.
    destruct (Z.eqb_spec (RCV_LBR (RCV tcb)) (RCV_NXT (RCV tcb))); [lia|].
    rewrite andb_false_r. by destruct (Read_head amount readAll 0 tcb) as [[[] ?] ?]. }
  exists (after_read n tcb), [ELock; EUnlock; ELock; EUnlock].
  split_and!; try done.
  - unfold mbind, go_bind in *. rewrite Henter. clear Henter.
    set (f := S fuel) in *. clearbody f.
    destruct (Read_head amount readAll 0 tcb) as [[[next| |] t1] tr1]; simpl in *; [|done..].
    destruct (Read_run f amount readAll data next t1) as [[r' t'] tr']. simpl.
    injection E as -> -> E. by rewrite E.
  - apply after_read_inv; [done..|]. lia.
Qed.

(** A connection with three zero bytes to read. *)
Definition demo_reader : TCB :=
  set_RCV (mkReceive (make_bytes MAX_BUF_SIZE) 103 65532 99 100) demo_conn.

Lemma demo_reader_inv : rcv_inv (λ _, x00) demo_reader.
Proof.
  split; simpl; unfold MAX_BUF_SIZE; try lia; try done.
  - intros x Hx. destruct (decide (x = 100)) as [->|]; [by vm_compute|].
    destruct (decide (x = 101)) as [->|]; [by vm_compute|].
    destruct (decide (x = 102)) as [->|]; [by vm_compute|lia].
  - intros e He. by apply not_elem_of_nil in He.
Qed.

Lemma Read_returns_stream_witness :
  ∃ tcb' tr,
    (next ← Read_enter 5 false; Read_run 1 5 false [x61; x62; x63; x64; x65] next) demo_reader =
      (Ok ([x00; x00; x00; x64; x65], ReadReturn 3 None), tcb', tr) ∧
    lock_run false tr = Some false.
Proof.
  destruct (Read_returns_stream (λ _, x00) 0 5 false [x61; x62; x63; x64; x65] demo_reader)
    as (t & tr & E & _ & _ & _ & _ & _ & _ & Hl).
  - exact demo_reader_inv.
  - reflexivity.
  - reflexivity.
  - reflexivity.
  - split; [reflexivity|by vm_compute].
  - reflexivity.
  - exists t, tr. split; [exact E|done].
Defined.

(** Without data a read never returns bytes: a connection that timed out gives an
    error, one whose peer has closed gives [io.EOF], and otherwise the call waits; the
    TCB is as it was and the lock is free. *)
Theorem Read_empty (amount : Z) (readAll : bool) (tcb : TCB) :
  RCV_LBR (RCV tcb) = RCV_NXT (RCV tcb) → 0 < amount →
  Read_enter amount readAll tcb =
    (Ok (if TimeoutCancelled tcb then
           ReadReturn 0 (Some (Err "Read on timed out connection"))
         else if decide (State tcb = CLOSE_WAIT) then ReadReturn 0 (Some EOF)
         else ReadWait 0), tcb, [ELock; EUnlock]).
Proof.
  intros He Ha. unfold Read_enter. unfold mbind, go_bind, emit, get. simpl.
  destruct (TimeoutCancelled tcb) eqn:Ht; [done|].
  rewrite (proj2 (Z.eqb_eq _ _) He), andb_true_r.
  destruct (decide (State tcb = CLOSE_WAIT)) as [Hc|Hc].
  - by rewrite bool_decide_eq_true_2.
  - rewrite bool_decide_eq_false_2 by done. rewrite Read_head_empty by done.
    unfold read_exhausted, read_closed. rewrite Ht, bool_decide_eq_false_2 by done.
    by rewrite andb_false_r.
Qed.

Lemma Read_empty_witness :
  Read_enter 5 true demo_conn = (Ok (ReadWait 0), demo_conn, [ELock; EUnlock]).
Proof. apply (Read_empty 5 true demo_conn); done. Defined.

(** C11: A turn of [Write] appends to the stream: with space in the send buffer, the next
    [min space remaining] bytes of the slice are stored behind the bytes written before,
    so that the buffer still holds the whole unacknowledged stream, [SND.LBW] moves over
    them, the sending goroutine is signalled and the lock is free; with no space the
    call waits and changes nothing. *)
Theorem Write_appends (st : Z → byte) (data : list byte) (a : Z) (tcb : TCB) :
  snd_inv st tcb → 0 ≤ a < zlen data → zlen data < 4294967296 →
  carries st (SND_LBW (SND tcb)) (zdrop a data) →
  State tcb = ESTABLISHED ∨ State tcb = CLOSE_WAIT →
  let n := Z.min (write_room tcb) (zlen data - a) in
  (0 < write_room tcb → ∃ tcb', Write_turn data a tcb =
      (Ok (WriteMore (a + n)), tcb', [ELock; ESignal SendBlockedCond; EUnlock]) ∧
    snd_inv st tcb' ∧ SND_LBW (SND tcb') = SND_LBW (SND tcb) + n ∧ 0 < n ∧
    SND_UNA (SND tcb') = SND_UNA (SND tcb) ∧ SND_NXT (SND tcb') = SND_NXT (SND tcb) ∧
    RCV tcb' = RCV tcb ∧ State tcb' = State tcb) ∧
  (write_room tcb = 0 →
    Write_turn data a tcb = (Ok (WriteWait a), tcb, [ELock; EUnlock])).
Proof.
  intros Hinv Ha Hlen Hc Hst n. pose proof Hinv as [].
  assert (Hturn : Write_turn data a tcb =
    ((if write_room tcb =? 0 then (emit EUnlock;; mret (WriteWait a)) tcb
      else Write_copy data a tcb).1,
     ELock :: (if write_room tcb =? 0 then (emit EUnlock;; mret (WriteWait a)) tcb
      else Write_copy data a tcb).2)).
  { unfold Write_turn, write_full, write_room, mbind, go_bind, emit, get, MAX_BUF_SIZE in *.
    u32_norm. simpl. destruct (Z.ltb_spec a (zlen data)); [|lia].
    assert (negb (bool_decide (State tcb = ESTABLISHED)) &&
            negb (bool_decide (State tcb = CLOSE_WAIT)) = false) as ->
      by (destruct Hst as [->| ->]; done).
    u32_norm. bool_hyps; try lia; [done|].
    by destruct (Write_copy data a tcb) as [[[] ?] ?]. }
  rewrite Hturn. split; intros Hw.
  - destruct (Z.eqb_spec (write_room tcb) 0); [lia|].
    destruct (Write_copy_ok st data a tcb Hinv Ha Hlen Hc) as (t' & E & H).
    exists t'. rewrite E. split; [done|]. destruct H as (? & ? & ? & ? & ? & ? & _).
    split_and!; try done. lia.
  - by rewrite Hw.
Qed.

(** The stream of a writer that sends "ab" from sequence number 500. *)
Definition demo_written (x : Z) : byte := default x00 (zlookup [x61; x62] (x - 500)).

Lemma demo_conn_snd_inv : snd_inv demo_written demo_conn.
Proof.
  split; simpl; unfold MAX_BUF_SIZE; try lia; try done. by apply holds_empty.
Qed.

Lemma Write_appends_witness :
  ∃ tcb', Write_turn [x61; x62] 0 demo_conn =
      (Ok (WriteMore 2), tcb', [ELock; ESignal SendBlockedCond; EUnlock]) ∧
    snd_inv demo_written tcb'.
Proof.
  destruct (Write_appends demo_written [x61; x62] 0 demo_conn) as [H _].
  - exact demo_conn_snd_inv.
  - done.
  - done.
  - intros d Hd. change (zlen (zdrop 0 [x61; x62])) with 2 in Hd.
    destruct (decide (d = 0)) as [->|]; [done|].
    destruct (decide (d = 1)) as [->|]; [done|lia].
  - by left.
  - destruct (H eq_refl) as (t & E & Hinv & _). exists t. split; [exact E|exact Hinv].
Defined.

(** A write on a connection that is closing fails with the lock of the TCB held: the
    error return of the state check has no [Unlock], so every later operation on the
    connection blocks. *)
Theorem Write_closing_keeps_lock (data : list byte) (a : Z) (tcb : TCB) :
  State tcb ≠ ESTABLISHED → State tcb ≠ CLOSE_WAIT → a < zlen data < 4294967296 →
  Write_turn data a tcb =
    (Ok (WriteReturn 0 (Some (Err "Connection is closing"))), tcb, [ELock]) ∧
  lock_run false [ELock] = Some true.
Proof.
  intros H1 H2 Ha. pose proof (zlen_nonneg data). unfold Write_turn. go_unfold. simpl.
  u32_norm. destruct (Z.ltb_spec a (zlen data)); [|lia].
  by rewrite !bool_decide_eq_false_2.
Qed.

Lemma Write_closing_keeps_lock_witness :
  Write_turn [x61] 0 (set_State FIN_WAIT_1 demo_conn) =
    (Ok (WriteReturn 0 (Some (Err "Connection is closing"))),
     set_State FIN_WAIT_1 demo_conn, [ELock]).
Proof.
  apply (Write_closing_keeps_lock [x61] 0 (set_State FIN_WAIT_1 demo_conn)); done.
Defined.
