(* ===== verification/TcpStates.v ===== *)
(** * The state machine of a connection

    Properties of the handlers of [TcpHandler]: the transitions a packet can cause, and
    what a packet cannot touch. *)

From S2P Require Import Prelude GoLang Wire WireRef Ring TcpData EarlyArrivals Congestion Rto Retransmit TcpReceive TcpHandler.

(** ** Transitions *)

(** The transitions of an existing connection on a packet, by the state diagram of RFC 793
    (section 3.2, and section 3.9 for a FIN that also acknowledges ours). *)
Inductive packet_edge : ConnectionState → ConnectionState → Prop :=
  | edge_syn_ack : packet_edge SYN_SENT ESTABLISHED
  | edge_simultaneous_open : packet_edge SYN_SENT SYN_RECEIVED
  | edge_handshake_ack : packet_edge SYN_RECEIVED ESTABLISHED
  | edge_fin : packet_edge ESTABLISHED CLOSE_WAIT
  | edge_fin_acked : packet_edge FIN_WAIT_1 FIN_WAIT_2
  | edge_simultaneous_close : packet_edge FIN_WAIT_1 CLOSING
  | edge_fin_and_ack : packet_edge FIN_WAIT_1 TIME_WAIT
  | edge_fin_2 : packet_edge FIN_WAIT_2 TIME_WAIT
  | edge_closing_acked : packet_edge CLOSING TIME_WAIT
  | edge_last_ack : packet_edge LAST_ACK CLOSED.

(** The code leaves the diagram in one way: a FIN that came early, before the application
    closed, is due now, and a connection that has sent its own FIN goes to [CLOSE_WAIT] (from
    [FIN_WAIT_1] also through [FIN_WAIT_2] in the same packet). *)
Definition late_fin (t t' : TCB) : Prop :=
  (State t = FIN_WAIT_1 ∨ State t = FIN_WAIT_2) ∧ State t' = CLOSE_WAIT ∧
  RCV_NXT (RCV t') = PendingReceivedFin t.

Definition packet_step (t t' : TCB) : Prop :=
  State t' = State t ∨ packet_edge (State t) (State t') ∨ late_fin t t'.

#[export] Hint Constructors packet_edge : go.

Lemma packet_step_stay t t' : State t' = State t → packet_step t t'.
Proof. by left. Qed.

Lemma packet_step_edge t t' : packet_edge (State t) (State t') → packet_step t t'.
Proof. by right; left. Qed.

Section edges.
Context {N : Netstack}.

(** After a packet that goes on to [Receive]. *)
Lemma Receive_step hdr payload sd now t :
  State t = ESTABLISHED ∨ State t = FIN_WAIT_1 ∨ State t = FIN_WAIT_2 →
  packet_step t (run_state (Receive hdr payload sd now) t).
Proof.
  intros Ht. destruct (Receive_state hdr payload sd now t) as [_ [E|[E Hn]]]; [by left|right].
  destruct Ht as [Ht|Ht]; [left|by right]. rewrite Ht, E. auto with go.
Qed.

Lemma Receive_after_fin_wait hdr payload sd now t :
  State t = FIN_WAIT_1 →
  packet_step t (run_state (Receive hdr payload sd now) (set_State FIN_WAIT_2 t)).
Proof.
  intros Ht. destruct (Receive_state hdr payload sd now (set_State FIN_WAIT_2 t))
    as [_ [E|[E Hn]]]; right; [left|right].
  - rewrite Ht, E. auto with go.
  - split; [by left|done].
Qed.

(** Running a handler whose last statement is [Receive]. *)
Ltac receive_tail lem :=
  match goal with |- context [Receive ?h ?p ?k ?n ?t] =>
    let H := fresh in
    pose proof (lem h p k n t) as H; unfold run_state in H; simpl in H;
    destruct (Receive h p k n t) as [[[] ?] ?]; simpl in *; auto
  end.

(** A state of the handler, by its name. *)
Ltac step_tac Es :=
  simpl; first [ by apply packet_step_stay
               | by apply packet_step_edge; simpl; rewrite Es; auto with go ].

Lemma dispatch_tcb_edge hdr payload la sp da dp key iss now t :
  packet_step t (run_state (dispatch_tcb (State t) hdr payload la sp da dp key iss now) t).
Proof.
  destruct (State t) eqn:Es; unfold run_state; simpl; try step_tac Es.
  - unfold HandleStateSynSent. go_unfold. simpl.
    destruct (_ && _); simpl; [step_tac Es|].
    destruct (has_flag hdr TCPFlagSyn); simpl; [|step_tac Es].
    destruct (_ <? _); step_tac Es.
  - unfold HandleEstablished. destruct (has_flag hdr TCPFlagFin).
    + unfold ReceiveFin, send_ack. go_unfold. simpl.
      destruct (_ =? _); simpl; [step_tac Es|].
      destruct (_ <? _); step_tac Es.
    + apply Receive_step. auto.
  - unfold HandleFinWait1, HandleFinWait1_fin, send_ack. go_unfold. simpl.
    destruct (has_flag hdr TCPFlagAck); simpl; [|step_tac Es].
    destruct (AckNumber hdr =? SND_NXT (SND t)); simpl.
    { pose proof (Receive_after_fin_wait hdr payload key now t Es) as H. unfold run_state in H.
      by destruct (Receive _ _ _ _ _) as [[[] ?] ?]. }
    destruct (has_flag hdr TCPFlagFin); simpl.
    + destruct (_ =? _); step_tac Es.
    + receive_tail Receive_step.
  - unfold HandleFinWait2, send_ack. destruct (has_flag hdr TCPFlagFin).
    + go_unfold. simpl. destruct (_ =? _); step_tac Es.
    + apply Receive_step. auto.
  - unfold HandleClosing. go_unfold. simpl. destruct (_ && _); step_tac Es.
  - unfold HandleTimeWait, send_ack. go_unfold.
    destruct (has_flag hdr TCPFlagFin); simpl; [|step_tac Es].
    destruct (ResetWaitChan t); step_tac Es.
  - unfold HandleCloseWait, send_ack. go_unfold.
    destruct (has_flag hdr TCPFlagFin); step_tac Es.
  - unfold HandleLastAck. destruct (has_flag hdr TCPFlagAck); simpl; [|step_tac Es].
    unfold when, mbind, go_bind, emit, get, modify. simpl.
    destruct (_ =? _); simpl; [|step_tac Es].
    rewrite remove_spec. simpl. apply packet_step_edge.
    destruct (ack_queue_frame (AckNumber hdr) (set_State CLOSED t)) as [(_ & _ & -> & _) _].
    rewrite Es. simpl. auto with go.
Qed.
End edges.

(** ** The whole handler *)

(** Locations are allocated in order and the table has no dangling pointer. *)
Definition handler_wf (h : TCPHandler) : Prop :=
  (∀ l t, TCBs h !! l = Some t → (l < NextTCB h)%nat) ∧
  (∀ k l, SocketTable h !! k = Some l → is_Some (TCBs h !! l)).

(** What a listener sees of a new connection. *)
Definition tell_listener (key : SocketData) (t : TCB) : TCB :=
  set_PendingConnections (PendingConnections t ++ [key]) t.

(** How a packet for the socket [key], from and to the addresses of [new], can change the
    handler. *)
Inductive packet_outcome (key new : SocketData) (h : TCPHandler) : TCPHandler → Prop :=
  | outcome_none : packet_outcome key new h h
  | outcome_conn l t t' :
      SocketTable h !! key = Some l → TCBs h !! l = Some t → State t ≠ LISTEN →
      packet_step t t' →
      packet_outcome key new h (set_TCBs (<[l := t']> (TCBs h)) h)
  | outcome_spawn l t t' :
      SocketTable h !! key = Some l → TCBs h !! l = Some t → State t = LISTEN →
      State t' = SYN_RECEIVED → ListenKey t' = key →
      packet_outcome key new h
        (mkTCPHandler (<[new := NextTCB h]> (SocketTable h)) (<[NextTCB h := t']> (TCBs h))
           (S (NextTCB h)) (HLocalAddr h) (CurrentPort h) (Listeners h))
  | outcome_accept l t t' ll lt :
      SocketTable h !! key = Some l → TCBs h !! l = Some t → State t = SYN_RECEIVED →
      State t' = ESTABLISHED → ListenKey t' = ListenKey t →
      SocketTable h !! ListenKey t = Some ll → <[l := t']> (TCBs h) !! ll = Some lt →
      packet_outcome key new h
        (set_TCBs (<[ll := tell_listener key lt]> (<[l := t']> (TCBs h))) h).

Lemma set_TCBs_same h l t :
  TCBs h !! l = Some t → set_TCBs (<[l := t]> (TCBs h)) h = h.
Proof. intros Hl. destruct h. unfold set_TCBs. simpl in *. by rewrite insert_id. Qed.

Section outcome.
Context {N : Netstack}.

Lemma syn_received_outcome hdr payload key new h l t :
  handler_wf h → SocketTable h !! key = Some l → TCBs h !! l = Some t →
  State t = SYN_RECEIVED →
  packet_outcome key new h (run_state (HandleStateSynReceived hdr l key payload) h).
Proof.
  intros [_ Hwf] Hk Hl Hs. unfold run_state, HandleStateSynReceived.
  destruct (0 <? zlen payload); [constructor|].
  unfold HandleStateSynReceived_conn, on_tcb. go_unfold. rewrite Hl.
  destruct (has_flag hdr TCPFlagSyn), (has_flag hdr TCPFlagAck); simpl.
  2, 4: rewrite set_TCBs_same by done; constructor.
  all: destruct (_ && _); simpl;
    [|rewrite set_TCBs_same by done; constructor];
    rewrite lookup_insert_eq; simpl; rewrite insert_insert_eq;
    destruct (SocketTable h !! ListenKey t) as [ll|] eqn:Ell; simpl;
    [|eapply (outcome_conn key new h l t); [done|done|by rewrite Hs|];
        apply packet_step_edge; rewrite Hs; simpl; auto with go];
    set (t1 := tcb_SND_WND _ _);
    destruct (Hwf _ _ Ell) as [lt0 Hlt0];
    assert (is_Some (<[l:=t1]> (TCBs h) !! ll)) as [lt Hlt]
      by (destruct (decide (l = ll)) as [->|]; simplify_map_eq; done);
    rewrite Hlt; simpl; by eapply (outcome_accept key new h l t t1 ll lt).
Qed.

Lemma listen_outcome hdr la sp da dp key iss h l t :
  SocketTable h !! key = Some l → TCBs h !! l = Some t → State t = LISTEN →
  packet_outcome key (mkSocketData la sp da dp) h
    (run_state (HandleStateListen hdr la sp da dp key iss) h).
Proof.
  intros Hk Hl Hs. unfold run_state, HandleStateListen.
  destruct (has_flag hdr TCPFlagAck); [constructor|].
  destruct (has_flag hdr TCPFlagSyn); [|constructor].
  unfold new_tcb, store_socket, on_tcb. go_unfold. simpl.
  rewrite lookup_insert_eq. simpl. unfold set_TCBs, set_SocketTable. simpl.
  rewrite insert_insert_eq. by eapply outcome_spawn.
Qed.

(** The socket of a packet: the connection of its four addresses, else the listener. *)
Definition addressed (table : gmap SocketData loc) (conn : SocketData) : SocketData :=
  if decide (is_Some (table !! conn)) then conn
  else mkSocketData (LocalAddr conn) (LocalPort conn) 0 0.

Lemma packet_key_addressed table la sp da dp :
  let conn := mkSocketData la sp da dp in
  packet_key table la sp da dp = addressed table conn ∨
  table !! packet_key table la sp da dp = None ∧ table !! addressed table conn = None.
Proof.
  unfold packet_key, addressed. simpl.
  destruct (table !! mkSocketData la sp da dp) eqn:E; [left; by rewrite decide_True by done|].
  rewrite decide_False by (by intros []).
  destruct (table !! mkSocketData la sp 0 0) eqn:E2; [by left|by right].
Qed.

Lemma ReceivePacket_outcome la da data iss now h :
  let conn := mkSocketData la (DestinationPort data) da (SourcePort data) in
  handler_wf h →
  packet_outcome (addressed (SocketTable h) conn) conn h
    (run_state (ReceivePacket la da data iss now) h).
Proof.
  intros conn Hwf. unfold run_state, ReceivePacket.
  unfold mbind, go_bind, try, mret, go_ret, gets, panic.
  destruct (slice _ _ _) as [payload|]; [|constructor].
  destruct (negb _); [constructor|].
  destruct (packet_key_addressed (SocketTable h) la (DestinationPort data) da (SourcePort data))
    as [->|[-> _]]; [|constructor].
  fold conn. set (key := addressed _ conn).
  destruct (SocketTable h !! key) as [l|] eqn:Ek; [|constructor].
  destruct (proj2 Hwf _ _ Ek) as [t Ht].
  unfold on_tcb at 1, get. rewrite Ht. simpl. rewrite set_TCBs_same by done.
  assert (Hrun : packet_outcome key conn h (run_state (dispatch l (State t) data payload la
    (DestinationPort data) da (SourcePort data) key iss now) h)).
  { unfold dispatch.
    pose proof (dispatch_tcb_edge data payload la (DestinationPort data) da (SourcePort data)
      key iss now t) as Hedge.
    destruct (State t) eqn:Es;
      try exact (listen_outcome _ _ _ _ _ _ _ _ _ _ Ek Ht Es);
      try exact (syn_received_outcome _ _ _ _ _ _ _ Hwf Ek Ht Es).
    all: cbv iota; unfold run_state, on_tcb in *; rewrite Ht;
      destruct (dispatch_tcb _ _ _ _ _ _ _ _ _ _ _) as [[r t'] tr]; simpl in *;
      (eapply outcome_conn; [done..|by rewrite Es|done]). }
  unfold run_state in Hrun.
  destruct (dispatch _ _ _ _ _ _ _ _ _ _ _ _) as [[[] h'] tr]; done.
Qed.
End outcome.

(** What such a change means for any TCB, and for the table. *)
Lemma packet_outcome_step key new h h' l t :
  handler_wf h → packet_outcome key new h h' → TCBs h !! l = Some t →
  ∃ t', TCBs h' !! l = Some t' ∧ packet_step t t'.
Proof.
  intros [Hlt Hwf] Hout Hl.
  destruct Hout as [|l0 t0 t1 Hk0 H0 Hne Hst|l0 t0 t1|l0 t0 t1 ll lt Hk0 H0 Hs0 Hs1 HL Hll Hlt'].
  - exists t. by split; [|left].
  - simpl. destruct (decide (l = l0)) as [->|]; simplify_map_eq; eauto using packet_step_stay.
  - simpl. apply Hlt in Hl as Hn. rewrite lookup_insert_ne by lia. eauto using packet_step_stay.
  - simpl. destruct (decide (l = l0)) as [->|Hne].
    + simplify_map_eq. assert (Hst : packet_edge (State t0) (State t1)).
      { rewrite Hs0, Hs1. auto with go. }
      destruct (decide (l0 = ll)) as [->|]; simplify_map_eq; eauto using packet_step_edge.
    + destruct (decide (l = ll)) as [->|]; simplify_map_eq; eauto using packet_step_stay.
Qed.

Lemma packet_outcome_wf key new h h' :
  handler_wf h → packet_outcome key new h h' → handler_wf h'.
Proof.
  intros [Hlt Hwf] Hout. destruct Hout as [|l0 t0 t1 Hk0 H0 Hne Hst|l0 t0 t1|l0 t0 t1 ll lt Hk0 H0 Hs0 Hs1 HL Hll Hlt']; [done|..]; split; simpl.
  - intros l t [[-> _]|[_ ?]]%lookup_insert_Some; eauto.
  - intros k l ?%Hwf. by apply lookup_insert_is_Some'; right.
  - intros l t [[<- _]|[_ Hl]]%lookup_insert_Some; [lia|]. apply Hlt in Hl. lia.
  - intros k l [[_ <-]|[_ ?%Hwf]]%lookup_insert_Some;
      apply lookup_insert_is_Some'; [by left|by right].
  - intros l t [[-> _]|[_ Hl]]%lookup_insert_Some.
    + destruct (Hwf _ _ Hll) as [? ?]. eauto.
    + apply lookup_insert_Some in Hl as [[-> _]|[_ ?]]; eauto.
  - intros k l ?%Hwf. do 2 (apply lookup_insert_is_Some'; right). done.
Qed.

(** ** Properties *)

(** C14: Whatever the packet, and whatever it does to the receiving goroutine, every TCB of
    the host stays in its state or moves along one edge of the state diagram ([packet_edge]),
    with one exception: a connection that has sent its FIN and has received all the data
    before a FIN that came early ([RCV.NXT] is the pending FIN) goes to [CLOSE_WAIT], which
    no edge allows.  The handler stays well formed. *)
Theorem ReceivePacket_transitions {N : Netstack} (la da : Z) (data : list byte)
    (iss now : Z) (h : TCPHandler) :
  handler_wf h →
  let h' := run_state (ReceivePacket la da data iss now) h in
  handler_wf h' ∧
  ∀ l t, TCBs h !! l = Some t →
    ∃ t', TCBs h' !! l = Some t' ∧ packet_step t t'.
Proof.
  intros Hwf h'. pose proof (ReceivePacket_outcome la da data iss now h Hwf) as Hout.
  split; [by eapply packet_outcome_wf|]. intros l t. by eapply packet_outcome_step.
Qed.

(** A handler with a listener on port 80 and the SYN of a client. *)
Definition demo_handler : TCPHandler :=
  mkTCPHandler {[mkSocketData 167772161 80 0 0 := 0%nat]}
    {[0%nat := set_State LISTEN zero_TCB]} 1 167772161 1024 [].

Lemma demo_handler_wf : handler_wf demo_handler.
Proof.
  split; simpl.
  - intros l t [<- _]%lookup_singleton_Some. lia.
  - intros k l [<- <-]%lookup_singleton_Some. by rewrite lookup_singleton_eq.
Qed.

Definition demo_syn : list byte :=
  MarshallTCPHeader (CreateTCPHeader 167772162 167772161 1025 80 7 0 2 65535 []) 167772161.

Lemma ReceivePacket_transitions_witness :
  let h' := run_state (ReceivePacket 167772161 167772162 demo_syn 900 0) demo_handler in
  handler_wf h' ∧
  State <$> socket h' (mkSocketData 167772161 80 167772162 1025) = Some SYN_RECEIVED ∧
  State <$> TCBs h' !! 0%nat = Some LISTEN.
Proof.
  intros h'.
  destruct (ReceivePacket_transitions 167772161 167772162 demo_syn 900 0 demo_handler
              demo_handler_wf) as [Hwf _].
  split; [exact Hwf|]. split; by vm_compute.
Defined.

(** C21: A packet touches one connection: that of its four addresses if the table has it,
    else the listener of its port.  Every other TCB, and the TCB of a listener, is unchanged,
    except that the listener of a connection the packet completes gets it at the end of its
    queue.  No socket disappears and every socket keeps its TCB, except a listener that has
    the four addresses of the packet itself (address and port 0 at the other end).  A socket
    appears only for the four addresses of the packet, when they had none and the port has a
    listener, and its TCB is a new one in [SYN_RECEIVED]. *)
Theorem ReceivePacket_isolation {N : Netstack} (la da : Z) (data : list byte)
    (iss now : Z) (h : TCPHandler) :
  handler_wf h →
  let conn := mkSocketData la (DestinationPort data) da (SourcePort data) in
  let key := addressed (SocketTable h) conn in
  let h' := run_state (ReceivePacket la da data iss now) h in
  (∀ l t, TCBs h !! l = Some t → SocketTable h !! key ≠ Some l ∨ State t = LISTEN →
     TCBs h' !! l = Some t ∨
     (TCBs h' !! l = Some (tell_listener key t) ∧
      ∃ t0, socket h key = Some t0 ∧ State t0 = SYN_RECEIVED ∧
        SocketTable h !! ListenKey t0 = Some l)) ∧
  (∀ k l, SocketTable h !! k = Some l →
     SocketTable h' !! k = Some l ∨
     (k = conn ∧ ∃ t, socket h k = Some t ∧ State t = LISTEN)) ∧
  (∀ k l, SocketTable h !! k = None → SocketTable h' !! k = Some l →
     k = conn ∧ l = NextTCB h ∧ (∃ t, socket h key = Some t ∧ State t = LISTEN) ∧
     ∃ t', TCBs h' !! l = Some t' ∧ State t' = SYN_RECEIVED ∧ ListenKey t' = key).
Proof.
  intros Hwf conn key h'. pose proof (ReceivePacket_outcome la da data iss now h Hwf) as Hout.
  fold conn key h' in Hout. unfold socket.
  destruct Hout as [|l0 t0 t1 Hk0 H0 Hne0|l0 t0 t1 Hk0 H0 Hs0 Hs1 HL
                   |l0 t0 t1 ll lt Hk0 H0 Hs0 Hs1 HL Hll Hlt']; simpl;
    (split; [|try (split; [by auto|intros; congruence])]).
  - auto.
  - intros l t Hl Hor. left. rewrite lookup_insert_ne; [done|]. intros ->.
    destruct Hor; congruence.
  - intros l t Hl _. left. apply Hwf in Hl as Hlt. rewrite lookup_insert_ne by lia. done.
  - split.
    + intros k l Hk. destruct (decide (k = conn)) as [->|]; [|left; by rewrite lookup_insert_ne].
      right. split; [done|]. assert (Hkey : key = conn).
      { unfold key, addressed. by rewrite decide_True. }
      rewrite <-Hkey, Hk0. simpl. eauto.
    + intros k l Hk [[<- <-]|[_ ?]]%lookup_insert_Some; [|congruence].
      rewrite Hk0. simpl. split_and!; eauto. exists t1. by rewrite lookup_insert_eq.
  - intros l t Hl Hor. destruct (decide (l = l0)) as [->|Hne]; [destruct Hor; congruence|].
    destruct (decide (l = ll)) as [->|].
    + right. rewrite lookup_insert_ne in Hlt' by congruence. simplify_eq.
      rewrite lookup_insert_eq. split; [done|]. exists t0. rewrite Hk0. done.
    + left. rewrite !lookup_insert_ne by congruence. done.
Qed.

Lemma ReceivePacket_isolation_witness :
  let h' := run_state (ReceivePacket 167772161 167772162 demo_syn 900 0) demo_handler in
  SocketTable h' !! mkSocketData 167772161 80 0 0 = Some 0%nat ∧
  (∃ t', TCBs h' !! 1%nat = Some t' ∧ State t' = SYN_RECEIVED).
Proof.
  intros h'. destruct (ReceivePacket_isolation 167772161 167772162 demo_syn 900 0 demo_handler
                         demo_handler_wf) as (_ & Hkeep & Hnew).
  split.
  - destruct (Hkeep (mkSocketData 167772161 80 0 0) 0%nat) as [E|[E _]].
    + by vm_compute.
    + exact E.
    + exfalso. revert E. by vm_compute.
  - destruct (Hnew (mkSocketData 167772161 80 167772162 1025) 1%nat)
      as (_ & _ & _ & t' & Et & Es & _).
    + by vm_compute.
    + by vm_compute.
    + exists t'. split; [exact Et|exact Es].
Defined.
