(* ===== verification/Handshake.v ===== *)
(** * Segments between two hosts and the three-way handshake

    A segment that one host builds is received by [ReceivePacket] of the other with the
    fields it was built from; on top of it, [Connect], [HandleStateListen],
    [HandleStateSynSent] and [HandleStateSynReceived] synchronise two connections. *)

From S2P Require Import Prelude GoLang Wire WireRef Ring TcpData EarlyArrivals Congestion Rto Retransmit TcpReceive TcpHandler TcpApi TcpStream TcpStates.

(** ** A segment on the wire *)

(** What a host sends after the two addresses of the message to the IP layer. *)
Definition segment `{Netstack} (src dst sp dp seq ack flags win : Z) (payload : list byte)
    : list byte :=
  MarshallTCPHeader (CreateTCPHeader src dst sp dp seq ack flags win payload) dst ++ payload.

(** The ranges of the Go types. *)
Definition seg_ok (sp dp seq ack flags : Z) : Prop :=
  is_u16 sp ∧ is_u16 dp ∧ is_u32 seq ∧ is_u32 ack ∧ 0 ≤ flags < 64.

Section segment.
Context {N : Netstack} {NL : NetstackLaws N}.
Context (src dst sp dp seq ack flags win : Z) (payload : list byte).
Hypothesis Hok : seg_ok sp dp seq ack flags.

Notation seg := (segment src dst sp dp seq ack flags win payload).

Lemma segment_wf : wf_fields (CreateTCPHeader src dst sp dp seq ack flags win payload).
Proof. destruct Hok as (?&?&?&?&?). by apply CreateTCPHeader_wf. Qed.

Lemma segment_SequenceNumber : SequenceNumber seg = seq.
Proof. apply Encode_SequenceNumber, segment_wf. Qed.
Lemma segment_AckNumber : AckNumber seg = ack.
Proof. apply Encode_AckNumber, segment_wf. Qed.
Lemma segment_WindowSize : WindowSize seg = u16 win.
Proof. apply Encode_WindowSize, segment_wf. Qed.
Lemma segment_SourcePort : SourcePort seg = sp.
Proof. apply Encode_SourcePort, segment_wf. Qed.
Lemma segment_DestinationPort : DestinationPort seg = dp.
Proof. apply Encode_DestinationPort, segment_wf. Qed.
Lemma segment_has_flag f : has_flag seg f = negb (Z.land flags f =? 0).
Proof.
  unfold has_flag, segment, MarshallTCPHeader.
  rewrite Encode_Flags by apply segment_wf. done.
Qed.

Lemma segment_payload : slice seg (DataOffset seg) (zlen seg) = Some payload.
Proof.
  assert (Hoff : DataOffset seg = 20) by (apply Encode_DataOffset, segment_wf).
  rewrite Hoff. unfold segment, MarshallTCPHeader.
  set (e := Encode _). assert (Hl : length e = 20%nat) by apply Encode_length.
  rewrite slice_in by (try lia; unfold zlen; rewrite length_app, Hl; lia). f_equal.
  unfold zdrop. change (Z.to_nat 20) with 20%nat. rewrite <-Hl, drop_app_length.
  apply ztake_all. unfold zlen. rewrite length_app, Hl. lia.
Qed.

Lemma segment_checksum : checksum_ok seg payload dst src = true.
Proof.
  unfold checksum_ok, segment, MarshallTCPHeader. apply Z.eqb_eq.
  rewrite ParseTCPHeader_Encode by (apply segment_wf || done).
  rewrite Encode_Checksum by apply segment_wf.
  rewrite ComputeTCPChecksum_swap. done.
Qed.

(** [ReceivePacket] passes such a segment to the handler of the state. *)
Lemma ReceivePacket_segment iss now h l tcb :
  SocketTable h !! packet_key (SocketTable h) dst dp src sp = Some l →
  TCBs h !! l = Some tcb →
  ReceivePacket dst src seg iss now h =
    dispatch l (State tcb) seg payload dst dp src sp
      (packet_key (SocketTable h) dst dp src sp) iss now h.
Proof.
  intros Hk Hl. unfold ReceivePacket.
  rewrite segment_payload, segment_SourcePort, segment_DestinationPort.
  unfold mbind, go_bind, try, mret, go_ret, gets. rewrite segment_checksum. simpl.
  rewrite Hk. unfold on_tcb at 1. rewrite Hl. simpl. rewrite set_TCBs_same by done.
  by destruct (dispatch _ _ _ _ _ _ _ _ _ _ _ _) as [[[] ?] ?].
Qed.
End segment.

(** ** The steps of the handshake *)

(** What the IP layer puts into a packet: the message without the two addresses. *)
Definition deliver (msg : list byte) : list byte := zdrop 8 msg.

Lemma deliver_ip_message `{Netstack} src dst sp dp seq ack flags win payload :
  deliver (ip_message src dst (CreateTCPHeader src dst sp dp seq ack flags win payload) payload)
    = segment src dst sp dp seq ack flags win payload.
Proof. done. Qed.

(** The connections at the end of the handshake. *)
Definition client_TCB (iss_c iss_s iss' : Z) : TCB :=
  tcb_SND_ISS iss' (set_State ESTABLISHED (tcb_SND_UNA (iss_c + 1) (tcb_RCV_IRS iss_s
    (tcb_SND_WND 65535 (tcb_RCV_LBR (iss_s + 1) (tcb_RCV_NXT (iss_s + 1)
      (connecting_TCB iss_c))))))).

Definition server_TCB (iss_c iss_s : Z) (listener : SocketData) : TCB :=
  tcb_SND_WND 65535 (set_State ESTABLISHED (spawned_TCB iss_c iss_s listener)).

Section handshake.
Context {N : Netstack} {NL : NetstackLaws N}.

Ltac flags := rewrite ?TCPFlagSyn_bit, ?TCPFlagAck_bit, ?TCPFlagFin_bit.

Lemma syn_received_listen hs ac pc p iss_c iss_s now ll tl :
  let sa := HLocalAddr hs in
  let ks := mkSocketData sa p ac pc in
  let kl := mkSocketData sa p 0 0 in
  is_u16 pc → is_u16 p → is_u32 iss_c →
  SocketTable hs !! ks = None → SocketTable hs !! kl = Some ll →
  TCBs hs !! ll = Some tl → State tl = LISTEN →
  let new := spawned_TCB iss_c iss_s kl in
  ReceivePacket sa ac (segment ac sa pc p iss_c 0 TCPFlagSyn MAX_BUF_SIZE []) iss_s now hs =
    (Ok tt,
     mkTCPHandler (<[ks := NextTCB hs]> (SocketTable hs)) (<[NextTCB hs := new]> (TCBs hs))
       (S (NextTCB hs)) sa (CurrentPort hs) (Listeners hs),
     [(NextTCB hs, EIP (syn_ack_message sa ac p pc new));
      (NextTCB hs, EGo (GoWaitForAckReceiver ks))]).
Proof.
  intros sa ks kl Hpc Hp Hic Hks Hkl Hll Hst new.
  assert (Hok : seg_ok pc p iss_c 0 TCPFlagSyn).
  { unfold seg_ok. flags. split_and!; try done; unfold is_u32; lia. }
  assert (Hpk : packet_key (SocketTable hs) sa p ac pc = kl).
  { unfold packet_key. fold ks kl. by rewrite Hks, Hkl. }
  rewrite (ReceivePacket_segment _ _ _ _ _ _ _ _ _ Hok iss_s now hs ll tl)
    by (rewrite ?Hpk; done).
  rewrite Hpk, Hst. unfold dispatch, HandleStateListen.
  rewrite !segment_has_flag, segment_SequenceNumber by done. flags. simpl.
  unfold new_tcb, store_socket, on_tcb. go_unfold. simpl.
  rewrite lookup_insert_eq. simpl. unfold set_TCBs, set_SocketTable. simpl.
  by rewrite insert_insert_eq.
Qed.

Lemma syn_ack_received h l sa ac p pc iss_c iss_s iss' now :
  let kc := mkSocketData ac pc sa p in
  is_u16 pc → is_u16 p → 0 ≤ iss_c < 4294967295 → 0 ≤ iss_s < 4294967295 →
  SocketTable h !! kc = Some l → TCBs h !! l = Some (connecting_TCB iss_c) →
  ReceivePacket ac sa (segment sa ac p pc iss_s (iss_c + 1) (Z.lor TCPFlagSyn TCPFlagAck)
      MAX_BUF_SIZE []) iss' now h =
    (Ok tt, set_TCBs (<[l := client_TCB iss_c iss_s iss']> (TCBs h)) h,
     [(l, EReceiveChan kc);
      (l, EIP (ip_message ac sa (CreateTCPHeader ac sa pc p (iss_c + 1) (iss_s + 1)
                 TCPFlagAck MAX_BUF_SIZE []) []));
      (l, EGo (GoSend kc)); (l, EGo (GoWaitTimeout kc))]).
Proof.
  intros kc Hpc Hp Hic His Hkc Hl.
  assert (Hok : seg_ok p pc iss_s (iss_c + 1) (Z.lor TCPFlagSyn TCPFlagAck)).
  { unfold seg_ok. flags. unfold is_u32. simpl. split_and!; try done; lia. }
  assert (Hpk : packet_key (SocketTable h) ac pc sa p = kc).
  { unfold packet_key. fold kc. by rewrite Hkc. }
  rewrite (ReceivePacket_segment _ _ _ _ _ _ _ _ _ Hok iss' now h l (connecting_TCB iss_c))
    by (rewrite ?Hpk; done).
  rewrite Hpk. simpl. unfold on_tcb. rewrite Hl. unfold HandleStateSynSent.
  rewrite !segment_has_flag, segment_SequenceNumber, segment_AckNumber, segment_WindowSize
    by done.
  flags. change (u16 MAX_BUF_SIZE) with 65535. go_unfold. simpl. u32_norm.
  destruct (Z.leb_spec (iss_c + 1) iss_c); [lia|]. rewrite Z.ltb_irrefl. simpl.
  destruct (Z.ltb_spec iss_c (iss_c + 1)); [|lia]. simpl.
  unfold client_TCB, connecting_TCB. by rewrite u32_small by lia.
Qed.

Lemma handshake_ack_received h l ll tl sa ac p pc iss_c iss_s iss' now :
  let ks := mkSocketData sa p ac pc in
  let kl := mkSocketData sa p 0 0 in
  is_u16 pc → is_u16 p → 0 ≤ iss_c < 4294967295 → 0 ≤ iss_s < 4294967295 →
  SocketTable h !! ks = Some l → TCBs h !! l = Some (spawned_TCB iss_c iss_s kl) →
  SocketTable h !! kl = Some ll → TCBs h !! ll = Some tl → l ≠ ll →
  ReceivePacket sa ac (segment ac sa pc p (iss_c + 1) (iss_s + 1) TCPFlagAck
      MAX_BUF_SIZE []) iss' now h =
    (Ok tt,
     set_TCBs (<[ll := tell_listener ks tl]> (<[l := server_TCB iss_c iss_s kl]> (TCBs h))) h,
     [(l, ERTO); (l, EGo (GoSend ks)); (l, EGo (GoWaitTimeout ks));
      (ll, EPendingSignal kl)]).
Proof.
  intros ks kl Hpc Hp Hic His Hks Hl Hkl Hll Hne.
  assert (Hok : seg_ok pc p (iss_c + 1) (iss_s + 1) TCPFlagAck).
  { unfold seg_ok. flags. unfold is_u32. simpl. split_and!; try done; lia. }
  assert (Hpk : packet_key (SocketTable h) sa p ac pc = ks).
  { unfold packet_key. fold ks. by rewrite Hks. }
  rewrite (ReceivePacket_segment _ _ _ _ _ _ _ _ _ Hok iss' now h l (spawned_TCB iss_c iss_s kl))
    by (rewrite ?Hpk; done).
  rewrite Hpk. unfold dispatch, HandleStateSynReceived, HandleStateSynReceived_conn. simpl.
  rewrite !segment_has_flag, segment_AckNumber, segment_WindowSize by done.
  flags. change (u16 MAX_BUF_SIZE) with 65535. unfold on_tcb. go_unfold. simpl.
  rewrite Hl. simpl. u32_norm.
  destruct (Z.ltb_spec iss_s (iss_s + 1)); [|lia]. rewrite Z.leb_refl. simpl.
  rewrite lookup_insert_eq. simpl. fold kl. rewrite Hkl. simpl.
  rewrite insert_insert_eq, lookup_insert_ne, Hll by done. simpl. done.
Qed.
End handshake.

(** Two connections that agree on the sequence numbers of both directions, with nothing
    read, written or in flight. *)
Definition synchronised (a b : TCB) : Prop :=
  State a = ESTABLISHED ∧ State b = ESTABLISHED ∧
  RCV_NXT (RCV a) = SND_NXT (SND b) ∧ RCV_NXT (RCV b) = SND_NXT (SND a) ∧
  RCV_LBR (RCV a) = RCV_NXT (RCV a) ∧ RCV_LBR (RCV b) = RCV_NXT (RCV b) ∧
  SND_LBW (SND a) = SND_NXT (SND a) ∧ SND_LBW (SND b) = SND_NXT (SND b) ∧
  SND_WND (SND a) = MAX_BUF_SIZE ∧ SND_WND (SND b) = MAX_BUF_SIZE ∧
  RCV_WND (RCV a) = MAX_BUF_SIZE ∧ RCV_WND (RCV b) = MAX_BUF_SIZE.

(** A new connection satisfies the invariants of the data transfer, whatever the streams
    (the byte at the sequence number of the SYN of the passive side is never sent). *)
Lemma client_TCB_ok iss_c iss_s iss' st_in st_out :
  0 ≤ iss_c → iss_c + 1 + MAX_BUF_SIZE < 4294967296 →
  0 ≤ iss_s → iss_s + 1 + MAX_BUF_SIZE < 4294967296 →
  let t := client_TCB iss_c iss_s iss' in
  rcv_inv st_in t ∧ snd_inv st_out t ∧ snd_ok t.
Proof.
  intros ???? t. unfold MAX_BUF_SIZE in *.
  assert (Hu : u32 (iss_c + 1) = iss_c + 1) by (apply u32_small; lia).
  split_and!; try (split; simpl; rewrite ?Hu; unfold MAX_BUF_SIZE; try lia; try done).
  - by apply holds_empty.
  - intros e He. by apply not_elem_of_nil in He.
  - by apply holds_empty.
Qed.

Lemma server_TCB_ok iss_c iss_s kl st_in st_out :
  0 ≤ iss_c → iss_c + 1 + MAX_BUF_SIZE < 4294967296 →
  0 ≤ iss_s → iss_s + 1 + MAX_BUF_SIZE < 4294967296 →
  st_out iss_s = x00 →
  let t := server_TCB iss_c iss_s kl in
  rcv_inv st_in t ∧ snd_inv st_out t ∧ snd_ok t.
Proof.
  intros ???? Hz t. unfold MAX_BUF_SIZE in *.
  assert (Hu : u32 (iss_c + 1) = iss_c + 1) by (apply u32_small; lia).
  assert (Hv : u32 (iss_s + 1) = iss_s + 1) by (apply u32_small; lia).
  split_and!; try (split; simpl; rewrite ?Hu, ?Hv; unfold MAX_BUF_SIZE; try lia; try done).
  - by apply holds_empty.
  - intros e He. by apply not_elem_of_nil in He.
  - intros x Hx. assert (x = iss_s) as -> by lia. rewrite Hz.
    pose proof (SequenceToBufferInd_range iss_s). unfold rlookup, zlookup, make_bytes.
    destruct (Z.leb_spec 0 (SequenceToBufferInd iss_s)); [|lia].
    apply lookup_replicate. split; [done|]. unfold MAX_BUF_SIZE in *. lia.
Qed.

(** ** Properties *)

(** C8: The three-way handshake works: a [Connect] to a listening port, with its messages
    delivered in order, ends with both hosts holding an established connection for the
    pair of sockets, the same sequence numbers on both sides and full windows, ready for
    the transfer of any streams; the client's call is released and the server's listener
    has the connection queued for [Accept].  Each message is the one the other side
    sent, through the checksum and the parsing of the wire format. *)
Theorem three_way_handshake {N : Netstack} {NL : NetstackLaws N} (hc hs : TCPHandler)
    (p iss_c iss_s iss_c' iss_s' now : Z) (ll : loc) (tl : TCB)
    (to_server to_client : Z → byte) :
  let ca := HLocalAddr hc in let sa := HLocalAddr hs in let pc := CurrentPort hc in
  let kc := mkSocketData ca pc sa p in
  let ks := mkSocketData sa p ca pc in
  let kl := mkSocketData sa p 0 0 in
  handler_wf hs → is_u16 pc → is_u16 p →
  SocketTable hc !! kc = None → SocketTable hs !! ks = None →
  SocketTable hs !! kl = Some ll → TCBs hs !! ll = Some tl → State tl = LISTEN →
  0 ≤ iss_c → iss_c + 1 + MAX_BUF_SIZE < 4294967296 →
  0 ≤ iss_s → iss_s + 1 + MAX_BUF_SIZE < 4294967296 → to_client iss_s = x00 →
  ∃ hc1 hc2 hs1 hs2 syn syn_ack ack lc ls tc ts,
    Connect sa p iss_c hc = (Ok (ConnectWait lc kc), hc1, [(lc, EIP syn)]) ∧
    ReceivePacket sa ca (deliver syn) iss_s now hs =
      (Ok tt, hs1, [(ls, EIP syn_ack); (ls, EGo (GoWaitForAckReceiver ks))]) ∧
    ReceivePacket ca sa (deliver syn_ack) iss_c' now hc1 =
      (Ok tt, hc2, [(lc, EReceiveChan kc); (lc, EIP ack); (lc, EGo (GoSend kc));
                    (lc, EGo (GoWaitTimeout kc))]) ∧
    ReceivePacket sa ca (deliver ack) iss_s' now hs1 =
      (Ok tt, hs2, [(ls, ERTO); (ls, EGo (GoSend ks)); (ls, EGo (GoWaitTimeout ks));
                    (ll, EPendingSignal kl)]) ∧
    socket hc2 kc = Some tc ∧ socket hs2 ks = Some ts ∧ synchronised tc ts ∧
    PendingConnections <$> TCBs hs2 !! ll = Some (PendingConnections tl ++ [ks]) ∧
    rcv_inv to_client tc ∧ snd_inv to_server tc ∧ snd_ok tc ∧
    rcv_inv to_server ts ∧ snd_inv to_client ts ∧ snd_ok ts.
Proof.
  intros ca sa pc kc ks kl Hwf Hpc Hp Hkc Hks Hkl Hll Hst Hc0 Hc1 Hs0 Hs1 Hz.
  assert (Hic : 0 ≤ iss_c < 4294967295) by (unfold MAX_BUF_SIZE in *; lia).
  assert (His : 0 ≤ iss_s < 4294967295) by (unfold MAX_BUF_SIZE in *; lia).
  assert (Hu : u32 (iss_c + 1) = iss_c + 1) by (apply u32_small; lia).
  assert (Hv : u32 (iss_s + 1) = iss_s + 1) by (apply u32_small; lia).
  assert (Hlt : (ll < NextTCB hs)%nat) by (by eapply Hwf).
  assert (Hkne : ks ≠ kl) by congruence.
  do 4 eexists. exists (syn_message ca kc iss_c).
  exists (syn_ack_message sa ca p pc (spawned_TCB iss_c iss_s kl)).
  exists (ip_message ca sa (CreateTCPHeader ca sa pc p (iss_c + 1) (iss_s + 1) TCPFlagAck
            MAX_BUF_SIZE []) []).
  exists (NextTCB hc), (NextTCB hs), (client_TCB iss_c iss_s iss_c'), (server_TCB iss_c iss_s kl).
  split.
  { unfold Connect. go_unfold. simpl. fold ca pc kc. rewrite Hkc.
    unfold new_tcb, store_socket, on_tcb. simpl. rewrite lookup_insert_eq. simpl.
    rewrite insert_insert_eq. reflexivity. }
  split.
  { unfold syn_message. simpl. rewrite deliver_ip_message.
    apply (syn_received_listen hs ca pc p iss_c iss_s now ll tl); try done.
    unfold is_u32. lia. }
  split.
  { unfold syn_ack_message. rewrite deliver_ip_message. simpl. rewrite Hu.
    apply syn_ack_received; simpl; try done; by rewrite lookup_insert_eq. }
  split.
  { rewrite deliver_ip_message.
    apply (handshake_ack_received _ (NextTCB hs) ll tl); simpl; try done.
    - by rewrite lookup_insert_eq.
    - by rewrite lookup_insert_eq.
    - by rewrite lookup_insert_ne.
    - rewrite lookup_insert_ne by lia. done.
    - lia. }
  unfold socket. simpl. rewrite !lookup_insert_eq. simpl.
  rewrite !lookup_insert_eq, lookup_insert_ne, lookup_insert_eq by lia. simpl.
  split; [done|]. split; [done|]. split.
  { unfold synchronised. simpl. rewrite Hu, Hv. split_and!; done. }
  split; [done|].
  destruct (client_TCB_ok iss_c iss_s iss_c' to_client to_server) as (? & ? & ?); [done..|].
  destruct (server_TCB_ok iss_c iss_s kl to_server to_client) as (? & ? & ?); [done..|].
  split_and!; done.
Qed.

Lemma three_way_handshake_witness :
  let hc := mkTCPHandler ∅ ∅ 0 167772162 1025 [] in
  ∃ hc1 syn lc, Connect 167772161 80 7 hc =
    (Ok (ConnectWait lc (mkSocketData 167772162 1025 167772161 80)), hc1, [(lc, EIP syn)]) ∧
  ∃ hs1 hs2 hc2 syn_ack ack tr1 tr2 tr3 tc ts,
    ReceivePacket 167772161 167772162 (deliver syn) 900 0 demo_handler = (Ok tt, hs1, tr1) ∧
    ReceivePacket 167772162 167772161 (deliver syn_ack) 0 0 hc1 = (Ok tt, hc2, tr2) ∧
    ReceivePacket 167772161 167772162 (deliver ack) 0 0 hs1 = (Ok tt, hs2, tr3) ∧
    socket hc2 (mkSocketData 167772162 1025 167772161 80) = Some tc ∧
    socket hs2 (mkSocketData 167772161 80 167772162 1025) = Some ts ∧ synchronised tc ts.
Proof.
  intros hc.
  destruct (three_way_handshake hc demo_handler 80 7 900 0 0 0 0%nat (set_State LISTEN zero_TCB)
    (λ _, x00) (λ _, x00))
    as (hc1 & hc2 & hs1 & hs2 & syn & syn_ack & ack & lc & ls & tc & ts & E1 & E2 & E3 & E4 &
        S1 & S2 & Hsync & _);
    try reflexivity.
  - exact demo_handler_wf.
  - unfold is_u16. simpl. lia.
  - unfold is_u16. lia.
  - lia.
  - lia.
  - exists hc1, syn, lc. split; [exact E1|].
    eexists hs1, hs2, hc2, syn_ack, ack, _, _, _, tc, ts.
    split; [exact E2|]. split; [exact E3|]. split; [exact E4|]. done.
Defined.
