(* ===== verification/TcpSend.v ===== *)
(** * The sending goroutine

    [Send] of [src/pkg/tcp/tcp_handler_core.go] with its zero-window probe.  The goroutine
    is a machine whose steps run between the points where it can be suspended: each step
    is a definition, and its result says which step comes next. *)

From S2P Require Import Prelude GoLang Wire WireRef Ring TcpData EarlyArrivals Congestion Rto Retransmit TcpReceive TcpHandler TcpApi TcpStream.

Inductive send_next :=
  (** the next turn of the outer loop *)
  | SendLoop
  (** the loop over segments: the amount to send and the amount sent *)
  | SendSegments (amountToSend amountSent : Z)
  (** [SendBlockedCond.Wait()], in the inner and in the outer loop *)
  | SendWaitData1
  | SendWaitData2
  (** [ZeroBlockedCond.Wait()], with the probe running *)
  | SendWaitZero
  (** [WriteBlockedCond.Wait()] *)
  | SendWaitWindow
  | SendReturn.

Section send.
Context {N : Netstack}.

(** [Min(tcbEntry.SND.WND, tcbEntry.CWND)] *)
Definition send_window (tcb : TCB) : Z := Min (SND_WND (SND tcb)) (CWND tcb).

(** The payload of the next segment, from the circular buffer. *)
Definition send_payload (buffer : list byte) (nxt amountToCopy : Z) : option (list byte) :=
  let nxt_index := SequenceToBufferInd nxt in
  if MAX_BUF_SIZE <=? (nxt_index ⊞ amountToCopy) then
    let amountLeftover := (nxt_index ⊞ amountToCopy) ⊟ MAX_BUF_SIZE in
    tail ← slice buffer nxt_index (zlen buffer);
    front ← slice buffer 0 amountLeftover;
    Some (tail ++ front)
  else slice buffer nxt_index (nxt_index ⊞ amountToCopy).

Definition data_header (socketData : SocketData) (tcb : TCB) (payload : list byte)
    : TCPFields :=
  CreateTCPHeader (LocalAddr socketData) (DestAddr socketData) (LocalPort socketData)
    (DestPort socketData) (SND_NXT (SND tcb)) (RCV_NXT (RCV tcb)) TCPFlagAck
    (RCV_WND (RCV tcb)) payload.

(** How much of the written data the window admits. *)
Definition Send_amount : TM send_next :=
  tcbEntry ← get;
  let totalWinIndex := SND_UNA (SND tcbEntry) ⊞ send_window tcbEntry in
  let amountToSend := Min (totalWinIndex ⊟ SND_NXT (SND tcbEntry))
                          (SND_LBW (SND tcbEntry) ⊟ SND_NXT (SND tcbEntry)) in
  emit EUnlock;;
  mret (SendSegments amountToSend 0).

(** A test of the loops that wait for data, with the lock held: [wait] is where the
    goroutine waits and [rest] what follows the loop. *)
Definition Send_data (wait : send_next) (rest : TM send_next) : TM send_next :=
  tcbEntry ← get;
  if SND_NXT (SND tcbEntry) =? SND_LBW (SND tcbEntry) then
    if PendingSendingFin tcbEntry then
      emit (ESignal PendingSendingFinCond);; emit EUnlock;; mret SendReturn
    else if Cancelled tcbEntry then
      emit EUnlock;; mret SendReturn
    else
      emit EUnlock;; mret wait
  else rest.

(** The loop that waits for acknowledgements, with the lock held. *)
Definition Send_full : TM send_next :=
  tcbEntry ← get;
  if (SND_NXT (SND tcbEntry) ⊟ SND_UNA (SND tcbEntry) =? send_window tcbEntry) &&
     negb (SND_WND (SND tcbEntry) =? 0) then
    if Cancelled tcbEntry then emit EUnlock;; mret SendReturn
    else emit EUnlock;; mret SendWaitWindow
  else
    emit EUnlock;; mret SendLoop.

(** The start of the probe of a zero window. *)
Definition Send_zero : TM send_next :=
  tcbEntry ← get;
  if (SND_WND (SND tcbEntry) =? 0) && (SND_NXT (SND tcbEntry) <? SND_LBW (SND tcbEntry)) then
    emit EUnlock;; mret SendWaitZero
  else Send_full.

Definition Send_data1 : TM send_next := Send_data SendWaitData1 Send_amount.
Definition Send_data2 : TM send_next := Send_data SendWaitData2 Send_zero.

(** The test of the inner loop, with the lock held. *)
Definition Send_inner : TM send_next :=
  tcbEntry ← get;
  if SND_NXT (SND tcbEntry) ⊟ SND_UNA (SND tcbEntry) <? send_window tcbEntry
  then Send_data1 else Send_data2.

Definition Send_loop : TM send_next := emit ELock;; Send_inner.

(** One turn of the loop over segments, which runs without the lock. *)
Definition Send_segment (socketData : SocketData) (amountToSend amountSent now : Z)
    : TM send_next :=
  if amountSent <? amountToSend then
    tcbEntry ← get;
    let amountToCopy := Min (amountToSend ⊟ amountSent) MSS_DATA in
    payload ← try (send_payload (SND_Buffer (SND tcbEntry)) (SND_NXT (SND tcbEntry))
                     amountToCopy);
    let tcpHeader := data_header socketData tcbEntry payload in
    let bufToSend := ip_message (LocalAddr socketData) (DestAddr socketData) tcpHeader payload in
    if Cancelled tcbEntry then mret SendReturn
    else
      modify (λ t, set_RetransmissionQueue
                     (RetransmissionQueue t ++ [mkRetransmitSegment tcpHeader (u32 (zlen payload))]) t);;
      emit (EIP bufToSend);;
      modify (λ t, tcb_SND_NXT (SND_NXT (SND t) ⊞ amountToCopy) t);;
      emit ELock;;
      modify (λ t, set_SegmentToTimestamp
                     (<[SND_NXT (SND t) := now]> (SegmentToTimestamp t)) t);;
      emit EUnlock;;
      emit ERTO;;
      mret (SendSegments amountToSend (amountSent ⊞ amountToCopy))
  else
    emit ELock;; Send_inner.

(** After a [Wait]. *)
Definition Send_wake (rest : TM send_next) : TM send_next :=
  emit ELock;;
  tcbEntry ← get;
  if Cancelled tcbEntry then emit EUnlock;; mret SendReturn else rest.

Definition Send_wake_data1 : TM send_next := Send_wake Send_data1.
Definition Send_wake_data2 : TM send_next := Send_wake Send_data2.
Definition Send_wake_window : TM send_next := Send_wake Send_full.

(** After the window opened: the byte of the probe counts as sent. *)
Definition Send_wake_zero : TM send_next :=
  Send_wake
    (tcbEntry ← get;
     if SND_WND (SND tcbEntry) =? 0 then emit EUnlock;; mret SendWaitZero
     else
       modify (λ t, tcb_SND_NXT (SND_NXT (SND t) ⊞ 1) t);;
       Send_full).

(** A tick of the probe; [false] when its goroutine returns. *)
Definition Send_probe (socketData : SocketData) : TM bool :=
  tcbEntry ← get;
  let nxt_index := SequenceToBufferInd (SND_NXT (SND tcbEntry)) in
  b ← try (zlookup (SND_Buffer (SND tcbEntry)) nxt_index);
  let payload := [b] in
  let tcpHeader := data_header socketData tcbEntry payload in
  if Cancelled tcbEntry then
    emit (ESignal ZeroBlockedCond);; mret false
  else
    emit (EIP (ip_message (LocalAddr socketData) (DestAddr socketData) tcpHeader payload));;
    mret true.

(** The loop over segments, when nothing else runs. *)
Fixpoint Send_burst (fuel : nat) (socketData : SocketData) (amountToSend amountSent now : Z)
    : TM send_next :=
  match fuel with
  | O => mret (SendSegments amountToSend amountSent)
  | S fuel =>
      if amountSent <? amountToSend then
        next ← Send_segment socketData amountToSend amountSent now;
        match next with
        | SendSegments _ amountSent' =>
            Send_burst fuel socketData amountToSend amountSent' now
        | _ => mret next
        end
      else mret (SendSegments amountToSend amountSent)
  end.
End send.

(** ** One segment *)

Lemma send_payload_window buf nxt n :
  zlen buf = MAX_BUF_SIZE → 0 ≤ n ≤ MAX_BUF_SIZE →
  ∃ p, send_payload buf nxt n = Some p ∧ ring_window buf nxt n p.
Proof.
  intros Hb Hn. unfold send_payload. pose proof (SequenceToBufferInd_range nxt) as Hi.
  unfold MAX_BUF_SIZE in *. u32_norm.
  destruct (Z.leb_spec 65535 (SequenceToBufferInd nxt + n)); u32_norm.
  - rewrite !slice_in by lia. simpl. eexists. split; [reflexivity|].
    rewrite ztake_all by (rewrite zlen_zdrop; lia). rewrite Z.sub_0_r.
    change (zdrop 0 buf) with buf.
    apply (ring_window_split buf nxt n); unfold MAX_BUF_SIZE in *; lia.
  - rewrite slice_in by lia. eexists. split; [reflexivity|].
    replace (SequenceToBufferInd nxt + n - SequenceToBufferInd nxt) with n by lia.
    apply ring_window_straight; unfold MAX_BUF_SIZE; lia.
Qed.

(** The segment a turn sends, and the entry it queues for retransmission. *)
Definition sent_header `{Netstack} (sd : SocketData) (tcb : TCB) (st : Z → byte) (n : Z)
    : TCPFields := data_header sd tcb (stretch st (SND_NXT (SND tcb)) n).

Lemma Send_segment_ok {N : Netstack} st sd total sent now tcb :
  snd_inv st tcb → Cancelled tcb = false →
  0 ≤ sent < total → total < 4294967296 → total - sent ≤ SND_LBW (SND tcb) - SND_NXT (SND tcb) →
  let n := Z.min (total - sent) MSS_DATA in
  ∃ tcb', Send_segment sd total sent now tcb =
      (Ok (SendSegments total (sent + n)), tcb',
       [EIP (ip_message (LocalAddr sd) (DestAddr sd) (sent_header sd tcb st n)
               (stretch st (SND_NXT (SND tcb)) n)); ELock; EUnlock; ERTO]) ∧
    snd_inv st tcb' ∧ SND_NXT (SND tcb') = SND_NXT (SND tcb) + n ∧
    SND_LBW (SND tcb') = SND_LBW (SND tcb) ∧ SND_UNA (SND tcb') = SND_UNA (SND tcb) ∧
    RetransmissionQueue tcb' =
      RetransmissionQueue tcb ++ [mkRetransmitSegment (sent_header sd tcb st n) n] ∧
    SegmentToTimestamp tcb' !! (SND_NXT (SND tcb) + n) = Some now ∧
    RCV tcb' = RCV tcb ∧ State tcb' = State tcb ∧ Cancelled tcb' = false ∧
    CControlEnabled tcb' = CControlEnabled tcb ∧ CWND tcb' = CWND tcb ∧
    SSTHRESH tcb' = SSTHRESH tcb ∧ SND_WND (SND tcb') = SND_WND (SND tcb) ∧
    EarlyArrivalQueue tcb' = EarlyArrivalQueue tcb ∧
    PendingReceivedFin tcb' = PendingReceivedFin tcb ∧ CurrentAck tcb' = CurrentAck tcb.
Proof.
  intros Hinv Hcan Hs Htot Hle n. pose proof Hinv as [].
  assert (Hn : 0 < n ≤ MSS_DATA) by (unfold n, MSS_DATA; lia).
  assert (Hle' : n ≤ total - sent) by lia.
  assert (Hdef : n = Z.min (total - sent) MSS_DATA) by done. clearbody n.
  unfold MSS_DATA, MAX_BUF_SIZE in *.
  destruct (send_payload_window (SND_Buffer (SND tcb)) (SND_NXT (SND tcb)) n)
    as (p & Ep & Hp); [done|unfold MAX_BUF_SIZE; lia|].
  apply (holds_window _ st) in Hp; [|by eapply holds_weaken; [done|lia..]]. subst p.
  unfold Send_segment. go_unfold. destruct (Z.ltb_spec sent total); [|lia].
  rewrite (u32_small (total - sent)) by lia. unfold MSS_DATA. rewrite Min_spec, <-Hdef.
  simpl. rewrite Ep. simpl. rewrite Hcan. simpl.
  rewrite zlen_stretch by lia. u32_norm.
  go_exists. split_and!; try done.
  - split; simpl; unfold MAX_BUF_SIZE; try lia; done.
  - by rewrite lookup_insert_eq.
Qed.

(** ** A burst *)

(** The messages of segments of the given sizes from sequence number [seq] on. *)
Fixpoint burst `{Netstack} (sd : SocketData) (ackNum wnd : Z) (st : Z → byte) (seq : Z)
    (sizes : list Z) : list (list byte) :=
  match sizes with
  | [] => []
  | n :: sizes =>
      ip_message (LocalAddr sd) (DestAddr sd)
        (CreateTCPHeader (LocalAddr sd) (DestAddr sd) (LocalPort sd) (DestPort sd) seq ackNum
           TCPFlagAck wnd (stretch st seq n)) (stretch st seq n)
      :: burst sd ackNum wnd st (seq + n) sizes
  end.

Definition sum_sizes (sizes : list Z) : Z := foldr Z.add 0 sizes.

Lemma Send_burst_ok {N : Netstack} st sd total now fuel sent tcb :
  snd_inv st tcb → Cancelled tcb = false →
  0 ≤ sent ≤ total → total < 4294967296 → total - sent ≤ SND_LBW (SND tcb) - SND_NXT (SND tcb) →
  total - sent ≤ Z.of_nat fuel * MSS_DATA →
  ∃ tcb' tr sizes, Send_burst fuel sd total sent now tcb =
      (Ok (SendSegments total total), tcb', tr) ∧
    messages tr = burst sd (RCV_NXT (RCV tcb)) (RCV_WND (RCV tcb)) st (SND_NXT (SND tcb)) sizes ∧
    Forall (λ n, 0 < n ≤ MSS_DATA) sizes ∧ sum_sizes sizes = total - sent ∧
    snd_inv st tcb' ∧ SND_NXT (SND tcb') = SND_NXT (SND tcb) + (total - sent) ∧
    SND_LBW (SND tcb') = SND_LBW (SND tcb) ∧ SND_UNA (SND tcb') = SND_UNA (SND tcb) ∧
    RCV tcb' = RCV tcb ∧ lock_run false tr = Some false.
Proof.
  revert sent tcb. induction fuel as [|fuel IH]; intros sent tcb Hinv Hcan Hs Htot Hle Hf.
  { assert (sent = total) as -> by lia. exists tcb, [], []. simpl. rewrite Z.sub_diag, Z.add_0_r.
    split_and!; try done. }
  simpl. destruct (Z.ltb_spec sent total) as [Hlt|Hge].
  2: { assert (sent = total) as -> by lia. exists tcb, [], []. simpl.
       rewrite Z.sub_diag, Z.add_0_r. split_and!; done. }
  destruct (Send_segment_ok st sd total sent now tcb Hinv Hcan)
    as (t1 & E1 & Hinv1 & HN1 & HL1 & HU1 & _ & _ & HR1 & _ & Hc1 & _); [lia..|].
  set (n := Z.min (total - sent) MSS_DATA) in *.
  assert (Hn : 0 < n ≤ MSS_DATA) by (unfold n, MSS_DATA; lia).
  destruct (IH (sent + n) t1) as (t2 & tr & sizes & E2 & Hm & Hsz & Hsum & Hinv2 & HN2 & HL2 & HU2 & HR2 & Hlk);
    [done|done|lia|done|lia|unfold MSS_DATA in *; lia|].
  unfold mbind, go_bind. rewrite E1, E2.
  eexists t2, _, (n :: sizes). split; [reflexivity|]. simpl. rewrite Hm, HN1, HR1.
  split_and!; try done; try lia; try congruence. by constructor.
Qed.

(** ** Properties *)

(** C12: The sender respects the window and sends the stream: when the inner loop of [Send]
    finds the window open and data written, it sends exactly the bytes that the peer's
    window, the congestion window and the written data admit, as consecutive segments of
    at most [MSS_DATA] bytes whose payloads are the next bytes of the written stream,
    and [SND.NXT] never passes [SND.UNA] plus the window or [SND.LBW]. *)
Theorem Send_transmits_window {N : Netstack} (st : Z → byte) (sd : SocketData) (now : Z)
    (fuel : nat) (tcb : TCB) :
  snd_inv st tcb → Cancelled tcb = false → SND_NXT (SND tcb) < SND_LBW (SND tcb) →
  0 ≤ SND_WND (SND tcb) ≤ MAX_BUF_SIZE → 0 ≤ CWND tcb < 4294967296 →
  SND_NXT (SND tcb) - SND_UNA (SND tcb) < send_window tcb →
  MAX_BUF_SIZE ≤ Z.of_nat fuel * MSS_DATA →
  let limit := Z.min (SND_UNA (SND tcb) + send_window tcb) (SND_LBW (SND tcb)) in
  ∃ total tcb' tr sizes,
    Send_loop tcb = (Ok (SendSegments total 0), tcb, [ELock; EUnlock]) ∧
    Send_burst fuel sd total 0 now tcb = (Ok (SendSegments total total), tcb', tr) ∧
    messages tr = burst sd (RCV_NXT (RCV tcb)) (RCV_WND (RCV tcb)) st (SND_NXT (SND tcb)) sizes ∧
    Forall (λ n, 0 < n ≤ MSS_DATA) sizes ∧ sum_sizes sizes = total ∧
    SND_NXT (SND tcb') = limit ∧ SND_NXT (SND tcb) < limit ∧
    snd_inv st tcb' ∧ RCV tcb' = RCV tcb ∧ lock_run false tr = Some false.
Proof.
  intros Hinv Hcan Hlt HW HC Hopen Hfuel limit. pose proof Hinv as [].
  set (total := limit - SND_NXT (SND tcb)).
  assert (Hwin : 0 ≤ send_window tcb ≤ MAX_BUF_SIZE)
    by (unfold send_window; rewrite Min_spec; lia).
  assert (Hloop : Send_loop tcb = (Ok (SendSegments total 0), tcb, [ELock; EUnlock])).
  { unfold Send_loop, Send_inner, Send_data1, Send_data, Send_amount. go_unfold. simpl.
    unfold MAX_BUF_SIZE in *. u32_norm.
    destruct (Z.ltb_spec (SND_NXT (SND tcb) - SND_UNA (SND tcb)) (send_window tcb)); [|lia].
    destruct (Z.eqb_spec (SND_NXT (SND tcb)) (SND_LBW (SND tcb))); [lia|]. simpl.
    u32_norm. rewrite Min_spec. do 4 f_equal. unfold total, limit. lia. }
  destruct (Send_burst_ok st sd total now fuel 0 tcb Hinv Hcan)
    as (t' & tr & sizes & E & Hm & Hsz & Hsum & Hinv' & HN & _ & _ & HR & Hlk);
    [unfold total, limit, MAX_BUF_SIZE in *; lia..|].
  exists total, t', tr, sizes. split_and!; try done; unfold total, limit in *; lia.
Qed.

(** A connection with three bytes written and not sent. *)
Definition demo_writer : TCB := tcb_SND_LBW 503 demo_conn.

Lemma demo_writer_inv : snd_inv (λ _, x00) demo_writer.
Proof.
  split; simpl; unfold MAX_BUF_SIZE; try lia; try done.
  intros x Hx. destruct (decide (x = 500)) as [->|]; [by vm_compute|].
  destruct (decide (x = 501)) as [->|]; [by vm_compute|].
  destruct (decide (x = 502)) as [->|]; [by vm_compute|lia].
Qed.

Lemma Send_transmits_window_witness :
  ∃ total tcb' tr,
    Send_loop demo_writer = (Ok (SendSegments total 0), demo_writer, [ELock; EUnlock]) ∧
    Send_burst 49 demo_key total 0 0 demo_writer = (Ok (SendSegments total total), tcb', tr) ∧
    SND_NXT (SND tcb') = 503 ∧ lock_run false tr = Some false.
Proof.
  destruct (Send_transmits_window (λ _, x00) demo_key 0 49 demo_writer)
    as (total & t & tr & sizes & E1 & E2 & _ & _ & _ & HN & _ & _ & _ & Hl).
  - exact demo_writer_inv.
  - reflexivity.
  - reflexivity.
  - split; by vm_compute.
  - split; by vm_compute.
  - by vm_compute.
  - by vm_compute.
  - exists total, t, tr. split_and!; [exact E1|exact E2|exact HN|exact Hl].
Defined.
