(* ===== verification/Delivery.v ===== *)
(** * End-to-end delivery over an unreliable network

    Two established connections, one whose application writes a stream and one whose
    application reads, and a network that keeps every message either of them sends: a
    message can be delivered late, out of order, again and again, or never.  Timers can
    expire at any time.  The steps are those of the code ([Write], [Send],
    [waitTimeout], [Receive] on both sides, [Read]); the zero-window probe is left out. *)

From S2P Require Import Prelude GoLang Wire WireRef Ring TcpData EarlyArrivals Congestion Rto Retransmit TcpReceive TcpHandler TcpApi TcpStream TcpStates Handshake TcpSend.

(** ** The system *)

Record sys := mkSys {
  sender : TCB;
  receiver : TCB;
  (** the messages sent so far, in the two directions *)
  wire : list (list byte);
  acks : list (list byte);
  (** the loop over segments of [Send]: amount to send and amount sent *)
  plan : Z * Z;
  (** what the reading application got *)
  got : list byte
}.

Section system.
Context {N : Netstack} {NL : NetstackLaws N}.
(** The addresses and ports of the two ends, the stream that is written and its first
    sequence number, and the stream of the other direction. *)
Context (sa ra sp rp : Z) (st back : Z → byte) (start : Z).
Hypothesis Hsp : is_u16 sp.
Hypothesis Hrp : is_u16 rp.

Definition skey : SocketData := mkSocketData sa sp ra rp.
Definition rkey : SocketData := mkSocketData ra rp sa sp.

(** The handling of a packet on an established connection: the payload behind the
    header, and [HandleEstablished]. *)
Definition packet_in (key : SocketData) (data : list byte) (now : Z) : TM unit :=
  payload ← try (slice data (DataOffset data) (zlen data));
  HandleEstablished data key payload now.

(** What happens without the applications: the goroutines, the timer, the network. *)
Inductive net_step (s : sys) : sys → Prop :=
  (** the sending goroutine looks at the window and at the data *)
  | step_plan total snd' tr :
      Send_loop (sender s) = (Ok (SendSegments total 0), snd', tr) →
      net_step s (mkSys snd' (receiver s) (wire s) (acks s) (total, 0) (got s))
  (** it sends a segment *)
  | step_segment total sent sent' now snd' tr :
      plan s = (total, sent) → sent < total →
      Send_segment skey total sent now (sender s) = (Ok (SendSegments total sent'), snd', tr) →
      net_step s (mkSys snd' (receiver s) (wire s ++ messages tr) (acks s) (total, sent') (got s))
  (** the retransmission timer expires *)
  | step_timeout now next snd' tr :
      waitTimeout_fire skey now (sender s) = (Ok next, snd', tr) →
      net_step s (mkSys snd' (receiver s) (wire s ++ messages tr) (acks s) (plan s) (got s))
  (** a message arrives at the receiver *)
  | step_data msg now rcv' tr :
      msg ∈ wire s → State (receiver s) = ESTABLISHED →
      packet_in rkey (deliver msg) now (receiver s) = (Ok tt, rcv', tr) →
      net_step s (mkSys (sender s) rcv' (wire s) (acks s ++ messages tr) (plan s) (got s))
  (** a message arrives at the sender *)
  | step_ack msg now snd' tr :
      msg ∈ acks s → State (sender s) = ESTABLISHED →
      SND_NXT (SND (sender s)) + MAX_BUF_SIZE < 4294967296 →
      packet_in skey (deliver msg) now (sender s) = (Ok tt, snd', tr) →
      net_step s (mkSys snd' (receiver s) (wire s ++ messages tr) (acks s) (plan s) (got s)).

Inductive step (s : sys) : sys → Prop :=
  | step_net s' : net_step s s' → step s s'
  (** a turn of a call to [Write]; the application writes the stream *)
  | step_write data a next snd' tr :
      0 ≤ a < zlen data → zlen data < 4294967296 →
      carries st (SND_LBW (SND (sender s))) (zdrop a data) →
      Write_turn data a (sender s) = (Ok next, snd', tr) →
      step s (mkSys snd' (receiver s) (wire s) (acks s) (plan s) (got s))
  (** the same after a wait for space *)
  | step_write_wake data a cancelled next snd' tr :
      0 ≤ a < zlen data → zlen data < 4294967296 →
      carries st (SND_LBW (SND (sender s))) (zdrop a data) →
      Write_wake data a cancelled (sender s) = (Ok next, snd', tr) →
      step s (mkSys snd' (receiver s) (wire s) (acks s) (plan s) (got s))
  (** a turn of a call to [Read] *)
  | step_read data a n data' a' rcv' tr :
      0 ≤ a → 0 < n ≤ RCV_NXT (RCV (receiver s)) - RCV_LBR (RCV (receiver s)) →
      a + n ≤ zlen data → zlen data < 4294967296 → read_room (receiver s) →
      Read_copy data a n (receiver s) = (Ok (data', a'), rcv', tr) →
      step s (mkSys (sender s) rcv' (wire s) (acks s) (plan s)
                (got s ++ ztake n (zdrop a data'))).

(** ** The invariant *)

(** A segment of the stream on the wire, from [seq] on, of [n] bytes. *)
Definition segment_at (seq n : Z) (msg : list byte) : Prop :=
  ∃ ack win, msg = ip_message sa ra
      (CreateTCPHeader sa ra sp rp seq ack TCPFlagAck win (stretch st seq n)) (stretch st seq n) ∧
    is_u32 seq ∧ is_u32 ack ∧ 0 < n.

(** [hi] bounds where it ends. *)
Definition data_message (hi : Z) (msg : list byte) : Prop :=
  ∃ seq n, segment_at seq n msg ∧ seq + n ≤ hi.

(** The acknowledgement a receiver sends. *)
Definition ack_of (t : TCB) : list byte :=
  ip_message ra sa (CreateTCPHeader ra sa rp sp (SND_NXT (SND t)) (RCV_NXT (RCV t)) TCPFlagAck
    (RCV_WND (RCV t)) []) [].

(** The acknowledgement of [ack] with the window [win]. *)
Definition ack_at (ack win : Z) (msg : list byte) : Prop :=
  ∃ seq, msg = ip_message ra sa (CreateTCPHeader ra sa rp sp seq ack TCPFlagAck win []) [] ∧
    is_u32 seq ∧ 0 ≤ ack ∧ 0 ≤ win ≤ MAX_BUF_SIZE.

(** A queued segment can be sent again, and is on the wire already. *)
Definition queued_ok (una nxt : Z) (w : list (list byte)) (e : RetransmitSegment) : Prop :=
  let seq := SeqNum (RTCPHeader e) in
  una ≤ seq ∧ 0 < RPayloadLen e ∧ seq + RPayloadLen e ≤ nxt ∧
  ip_message sa ra (RTCPHeader e) (stretch st seq (RPayloadLen e)) ∈ w.

Definition in_order (a b : RetransmitSegment) : Prop :=
  SeqNum (RTCPHeader a) ≤ SeqNum (RTCPHeader b).

(** The right edge of the window the receiver has offered. *)
Definition edge (s : sys) : Z := RCV_LBR (RCV (receiver s)) + MAX_BUF_SIZE.

(** The sender by itself: its stream, its queue, the part of it in flight. *)
Record sender_ok (w : list (list byte)) (hi : Z) (pl : Z * Z) (t : TCB) : Prop := {
  so_inv : snd_inv st t;
  so_ok : snd_ok t;
  so_rcv : rcv_inv back t;
  so_wnd : 0 ≤ SND_WND (SND t) ≤ MAX_BUF_SIZE;
  so_edge : SND_UNA (SND t) + SND_WND (SND t) ≤ hi;
  so_sorted : StronglySorted in_order (RetransmissionQueue t);
  so_queue : Forall (queued_ok (SND_UNA (SND t)) (SND_NXT (SND t)) w) (RetransmissionQueue t);
  so_plan : 0 ≤ pl.2 ≤ pl.1 ∧ pl.1 < 4294967296;
  so_left : SND_NXT (SND t) + (pl.1 - pl.2)
    ≤ Z.min (SND_UNA (SND t) + SND_WND (SND t)) (SND_LBW (SND t));
  so_cur : CurrentAck t ≤ SND_UNA (SND t)
}.

(** The receiver: it only reads. *)
Record receiver_ok (t : TCB) : Prop := {
  ro_inv : rcv_inv st t;
  ro_ok : snd_ok t;
  ro_queue : RetransmissionQueue t = [];
  ro_fin : PendingReceivedFin t = 0;
  ro_start : 1 ≤ start ≤ RCV_LBR (RCV t);
  ro_nxt : is_u32 (SND_NXT (SND t))
}.

(** What the receiver has acknowledged and offered so far: the acknowledgements and the
    right edges of their windows, which only grow; one of them is the sender's. *)
Definition grows (x y : Z * Z) : Prop := x.1 ≤ y.1 ∧ x.2 ≤ y.2.

Record history (hs : list (Z * Z)) (s : sys) : Prop := {
  h_sorted : StronglySorted grows hs;
  h_top : ∀ h, h ∈ hs → h.1 ≤ RCV_NXT (RCV (receiver s)) ∧ h.2 ≤ edge s;
  h_sender : (SND_UNA (SND (sender s)), SND_UNA (SND (sender s)) + SND_WND (SND (sender s))) ∈ hs;
  h_acks : ∀ msg, msg ∈ acks s → ∃ ack win, ack_at ack win msg ∧ (ack, ack + win) ∈ hs
}.

Record inv (s : sys) : Prop := {
  i_sender : sender_ok (wire s) (edge s) (plan s) (sender s);
  i_receiver : receiver_ok (receiver s);
  i_una : SND_UNA (SND (sender s)) ≤ RCV_NXT (RCV (receiver s));
  i_below : below (SND_NXT (SND (sender s))) (receiver s);
  i_wire : Forall (data_message (Z.min (edge s) (SND_NXT (SND (sender s))))) (wire s);
  i_hist : ∃ hs, history hs s;
  i_got : got s = stretch st start (RCV_LBR (RCV (receiver s)) - start)
}.

(** Facts that only get weaker as the connection goes on. *)
Lemma data_message_mono hi hi' msg : hi ≤ hi' → data_message hi msg → data_message hi' msg.
Proof.
  intros ? (seq & n & ? & ?). exists seq, n. split; [done|lia].
Qed.

Lemma queued_mono una nxt w nxt' w' e :
  nxt ≤ nxt' → w ⊆ w' → queued_ok una nxt w e → queued_ok una nxt' w' e.
Proof. intros ? Hw (? & ? & ? & ?). split_and!; try done; [lia|by apply Hw]. Qed.

(** ** Messages *)

Lemma packet_in_segment key src dst p1 p2 seq ack win p now t :
  is_u16 p1 → is_u16 p2 → is_u32 seq → is_u32 ack →
  packet_in key (segment src dst p1 p2 seq ack TCPFlagAck win p) now t =
    Receive (segment src dst p1 p2 seq ack TCPFlagAck win p) p key now t.
Proof.
  intros. assert (Hok : seg_ok p1 p2 seq ack TCPFlagAck).
  { unfold seg_ok. rewrite TCPFlagAck_bit. done. }
  assert (Hfin : has_flag (segment src dst p1 p2 seq ack TCPFlagAck win p) TCPFlagFin = false)
    by (rewrite segment_has_flag, TCPFlagFin_bit, TCPFlagAck_bit by done; done).
  unfold packet_in, mbind, go_bind. rewrite segment_payload by done. simpl.
  unfold HandleEstablished. rewrite Hfin. by destruct (Receive _ _ _ _ _) as [[[] ?] ?].
Qed.

Lemma ack_at_number ack win msg : ack_at ack win msg → is_u32 ack → AckNumber (deliver msg) = ack.
Proof.
  intros (seq & -> & Hseq & _) Hack. rewrite deliver_ip_message by done.
  apply segment_AckNumber. unfold seg_ok. by rewrite TCPFlagAck_bit.
Qed.

(** A retransmission repeats a message that is on the wire. *)
Lemma retransmits_wire w hi pl t ms :
  sender_ok w hi pl t → retransmits skey t ms → ms ⊆ w.
Proof.
  intros [Hinv _ _ _ _ _ Hq _ _] [->|(seg & q & p & Eq & Hp & ->)]; [set_solver|].
  rewrite Eq in Hq. apply Forall_cons in Hq as [(Hu & Hl & Hn & Hin) _]. destruct Hinv.
  apply (holds_window _ st) in Hp; [|eapply holds_weaken; [done|lia..]]. subst p.
  intros m Hm. apply list_elem_of_singleton in Hm as ->. exact Hin.
Qed.

(** ** The steps of the sender *)

(** Where a call to [Write] is, and how far the stream is written then. *)
Definition write_moves (len a : Z) (next : write_next) (t t' : TCB) : Prop :=
  match next with
  | WriteMore a' => a ≤ a' ≤ len ∧ SND_LBW (SND t') = SND_LBW (SND t) + (a' - a)
  | WriteWait a' => a' = a ∧ a < len ∧ t' = t
  | WriteReturn n None => n = len ∧ a = len ∧ t' = t
  | WriteReturn _ (Some _) => t' = t
  end.

Lemma sender_copy w hi pl t data a next t' tr :
  sender_ok w hi pl t → 0 ≤ a < zlen data → zlen data < 4294967296 →
  carries st (SND_LBW (SND t)) (zdrop a data) →
  Write_copy data a t = (Ok next, t', tr) →
  sender_ok w hi pl t' ∧ SND_NXT (SND t') = SND_NXT (SND t) ∧ SND_UNA (SND t') = SND_UNA (SND t) ∧
  SND_WND (SND t') = SND_WND (SND t) ∧ RetransmissionQueue t' = RetransmissionQueue t ∧
  write_moves (zlen data) a next t t'.
Proof.
  intros Hs Ha Hlen Hc E. pose proof Hs as [].
  destruct (Write_copy_ok st data a t so_inv0 Ha Hlen Hc)
    as (t1 & E1 & Hinv & HL & HU & HN & HR & Hst & buf' & Ht1).
  rewrite E1 in E. simplify_eq.
  set (n := Z.min (write_room t) (zlen data - a)) in *.
  assert (0 ≤ n ≤ zlen data - a) by (destruct so_inv0; unfold n, write_room; lia).
  split_and!; try done; [|simpl; split; lia]. split; try done.
  - destruct so_ok0 as (? & ? & ?). split_and!; try done. apply Hinv.
  - by apply (rcv_inv_frame back t).
  - simpl in *. lia.
Qed.

Lemma sender_write w hi pl t data a next t' tr :
  sender_ok w hi pl t → 0 ≤ a ≤ zlen data → zlen data < 4294967296 →
  carries st (SND_LBW (SND t)) (zdrop a data) →
  Write_turn data a t = (Ok next, t', tr) →
  sender_ok w hi pl t' ∧ SND_NXT (SND t') = SND_NXT (SND t) ∧ SND_UNA (SND t') = SND_UNA (SND t) ∧
  SND_WND (SND t') = SND_WND (SND t) ∧ RetransmissionQueue t' = RetransmissionQueue t ∧
  write_moves (zlen data) a next t t'.
Proof.
  intros Hs Ha Hlen Hc E. unfold Write_turn, mbind, go_bind, emit, get in E.
  rewrite u32_small in E by lia.
  destruct (Z.ltb_spec a (zlen data)).
  2: { injection E as <- <- _. do 5 (split; [done|]). simpl. split_and!; [done|lia|done]. }
  simpl in E.
  destruct (negb _ && negb _); [by simpl in E; simplify_eq|].
  destruct (write_full t).
  { injection E as <- <- _. do 5 (split; [done|]). simpl. split_and!; (done || lia). }
  destruct (Write_copy data a t) as [[r t1] tr1] eqn:E1. injection E as -> -> _.
  eapply sender_copy; try done. lia.
Qed.

Lemma sender_write_wake w hi pl t data a cancelled next t' tr :
  sender_ok w hi pl t → 0 ≤ a < zlen data → zlen data < 4294967296 →
  carries st (SND_LBW (SND t)) (zdrop a data) →
  Write_wake data a cancelled t = (Ok next, t', tr) →
  sender_ok w hi pl t' ∧ SND_NXT (SND t') = SND_NXT (SND t) ∧ SND_UNA (SND t') = SND_UNA (SND t) ∧
  SND_WND (SND t') = SND_WND (SND t) ∧ RetransmissionQueue t' = RetransmissionQueue t ∧
  write_moves (zlen data) a next t t'.
Proof.
  intros Hs Ha Hlen Hc E. unfold Write_wake, mbind, go_bind, emit, get in E. simpl in E.
  destruct cancelled; [by simpl in E; simplify_eq|].
  destruct (TimeoutCancelled t); [by simpl in E; simplify_eq|].
  destruct (write_full t).
  { injection E as <- <- _. do 5 (split; [done|]). simpl. split_and!; (done || lia). }
  destruct (Write_copy data a t) as [[r t1] tr1] eqn:E1. injection E as -> -> _.
  by eapply sender_copy.
Qed.

Lemma sender_plan w hi pl t total t' tr :
  sender_ok w hi pl t → Send_loop t = (Ok (SendSegments total 0), t', tr) →
  t' = t ∧ sender_ok w hi (total, 0) t.
Proof.
  intros Hs E. pose proof Hs as []. pose proof so_inv0 as [].
  unfold Send_loop, Send_inner, Send_data1, Send_data2, Send_data, Send_zero, Send_full,
    Send_amount, mbind, go_bind, emit, get, mret, go_ret in E.
  unfold MAX_BUF_SIZE in *. rewrite (u32_small (SND_NXT _ - SND_UNA _)) in E by lia. simpl in E.
  destruct (Z.ltb_spec (SND_NXT (SND t) - SND_UNA (SND t)) (send_window t)) as [Hw|Hw].
  2: { repeat (case_match; simplify_eq). }
  destruct (SND_NXT (SND t) =? SND_LBW (SND t)); [repeat (case_match; simplify_eq)|].
  assert (Hwin : send_window t ≤ SND_WND (SND t)) by (unfold send_window; rewrite Min_spec; lia).
  rewrite !u32_small in E by (rewrite ?u32_small by lia; lia).
  rewrite Min_spec in E. simplify_eq. split; [done|].
  split; try done; simpl in *; lia.
Qed.

Lemma sender_segment w hi total sent now t sent' t' tr :
  sender_ok w hi (total, sent) t → sent < total →
  Send_segment skey total sent now t = (Ok (SendSegments total sent'), t', tr) →
  sender_ok (w ++ messages tr) hi (total, sent') t' ∧
  SND_NXT (SND t) ≤ SND_NXT (SND t') ∧ SND_UNA (SND t') = SND_UNA (SND t) ∧
  SND_LBW (SND t') = SND_LBW (SND t) ∧ SND_WND (SND t') = SND_WND (SND t) ∧
  SND_NXT (SND t') ≤ hi ∧
  ∃ e, let n := SND_NXT (SND t') - SND_NXT (SND t) in
    let msg := ip_message sa ra (RTCPHeader e) (stretch st (SND_NXT (SND t)) n) in
    messages tr = [msg] ∧ segment_at (SND_NXT (SND t)) n msg ∧
    RetransmissionQueue t' = RetransmissionQueue t ++ [e] ∧
    SeqNum (RTCPHeader e) = SND_NXT (SND t) ∧ RPayloadLen e = n.
Proof.
  intros Hs Hlt E. pose proof Hs as []. pose proof so_inv0 as []. simpl in *.
  assert (Hcan : Cancelled t = false).
  { destruct (Cancelled t) eqn:Hc; [|done]. unfold Send_segment in E. go_unfold.
    destruct (Z.ltb_spec sent total); [|lia]. simpl in E.
    destruct (send_payload _ _ _); simpl in E; [|done]. rewrite Hc in E. done. }
  destruct (Send_segment_ok st skey total sent now t so_inv0 Hcan)
    as (t1 & E1 & Hinv & HN & HL & HU & HQ & _ & HR & _ & _ & HC & HW & HT & Hwnd & HE & _ & HCA);
    [lia..|].
  rewrite E1 in E. simplify_eq. set (n := Z.min (total - sent) MSS_DATA) in *.
  assert (Hn : 0 < n ≤ 1360 ∧ n ≤ total - sent) by (unfold n, MSS_DATA; lia).
  simpl. change (omap _ _) with (@nil (list byte)).
  split_and!; [|lia|done|done|done|lia|].
  - split; rewrite ?HU, ?HN, ?HL, ?Hwnd, ?HQ, ?HCA; simpl; try done; try lia.
    + destruct so_ok0 as (? & Hlen & Hcc). split_and!.
      * apply Hinv.
      * rewrite HQ. apply Forall_app. split; [done|]. constructor; [|done].
        simpl. unfold MAX_BUF_SIZE in *. lia.
      * unfold cc_bounds in *. by rewrite HC, HW, HT.
    + by apply (rcv_inv_frame back t).
    + apply StronglySorted_app_2; [|done|by repeat constructor].
      intros a b Ha ->%list_elem_of_singleton. unfold in_order. simpl.
      rewrite Forall_forall in so_queue0. destruct (so_queue0 a Ha) as (_ & ? & ? & _). lia.
    + apply Forall_app. split.
      * eapply Forall_impl; [exact so_queue0|]. intros e. apply queued_mono; [lia|set_solver].
      * constructor; [|done]. unfold queued_ok. simpl. split_and!; try lia. set_solver.
  - exists (mkRetransmitSegment (sent_header skey t st n) n).
    rewrite HN. replace (SND_NXT (SND t) + n - SND_NXT (SND t)) with n by lia.
    split_and!; [reflexivity| |exact HQ|done|done].
    unfold MAX_BUF_SIZE in *. destruct so_rcv0.
    exists (RCV_NXT (RCV t)), (RCV_WND (RCV t)).
    unfold MAX_BUF_SIZE in *. split_and!; try done; unfold is_u32; lia.
Qed.

Lemma sender_ok_frame w w' hi hi' pl t t' :
  SND t' = SND t → RCV t' = RCV t → EarlyArrivalQueue t' = EarlyArrivalQueue t →
  RetransmissionQueue t' = RetransmissionQueue t → CurrentAck t' = CurrentAck t →
  snd_ok t' → w ⊆ w' → hi ≤ hi' → sender_ok w hi pl t → sender_ok w' hi' pl t'.
Proof.
  intros HS HR HE HQ HC Hok Hw Hhi []. split; rewrite ?HS, ?HQ, ?HC; try done; try lia.
  - destruct so_inv0. split; rewrite ?HS; done.
  - by apply (rcv_inv_frame back t).
  - eapply Forall_impl; [done|]. intros e. by apply queued_mono.
Qed.

Lemma waitTimeout_fire_ok sd now t :
  snd_ok t →
  ∃ next t' tr, waitTimeout_fire sd now t = (Ok next, t', tr) ∧ snd_ok t' ∧
    SND t' = SND t ∧ RCV t' = RCV t ∧ EarlyArrivalQueue t' = EarlyArrivalQueue t ∧
    RetransmissionQueue t' = RetransmissionQueue t ∧ CurrentAck t' = CurrentAck t ∧
    retransmits sd t (messages tr).
Proof.
  intros Hok. pose proof Hok as (Hb & Hq & Hc).
  unfold waitTimeout_fire, retransmit_head, AfterLoss. go_unfold. simpl.
  destruct (decide _); simpl; [eexists _, _, _; split; [reflexivity|]; split_and!; by try left|].
  destruct (RetransmissionQueue t) as [|seg q] eqn:Eq; simpl.
  { eexists _, _, _; split; [reflexivity|]. split_and!; try done. by left. }
  assert (Hl : 0 ≤ RPayloadLen seg ≤ MAX_BUF_SIZE) by (by inversion Hq).
  destruct (retransmit_payload_window (SND_Buffer (SND t)) seg Hb Hl) as (p & Ep & Hp).
  assert (Hrt : retransmits sd t [ip_message (LocalAddr sd) (DestAddr sd) (RTCPHeader seg) p]).
  { right. by exists seg, q, p. }
  destruct (_ =? _); simpl.
  { eexists _, _, _; split; [reflexivity|]. split_and!; try done. by left. }
  destruct (CControlEnabled t) eqn:Ecc; simpl; rewrite Ep; simpl;
    eexists _, _, _; (split; [reflexivity|]); simpl; rewrite Eq;
    split_and!; try done.
  split_and!; simpl; [done|by rewrite Eq|]. intros _. destruct (cc_step_ok Loss t (Hc eq_refl)) as (t1 & E1 & Hcc1 & _).
  unfold cc_step, AfterLoss in E1. go_unfold. simpl in E1. by simplify_eq.
Qed.

Lemma sender_timeout w hi pl t now next t' tr :
  sender_ok w hi pl t → waitTimeout_fire skey now t = (Ok next, t', tr) →
  sender_ok (w ++ messages tr) hi pl t' ∧ SND t' = SND t ∧
  RetransmissionQueue t' = RetransmissionQueue t ∧ messages tr ⊆ w.
Proof.
  intros Hs E. pose proof Hs as [].
  destruct (waitTimeout_fire_ok skey now t so_ok0)
    as (n1 & t1 & tr1 & E1 & ? & ? & ? & ? & ? & ? & Hrt).
  rewrite E1 in E. simplify_eq. split_and!; [|done|done|by eapply retransmits_wire].
  apply (sender_ok_frame w _ hi hi pl t); try done. set_solver.
Qed.

(** The window after an accepted acknowledgement. *)
Lemma snd_inv_ack t t' ack :
  snd_inv st t → SND_Buffer (SND t') = SND_Buffer (SND t) →
  SND_NXT (SND t') = SND_NXT (SND t) → SND_LBW (SND t') = SND_LBW (SND t) →
  SND_UNA (SND t') = ack → SND_UNA (SND t) ≤ ack ≤ SND_NXT (SND t) →
  SND_NXT (SND t) + MAX_BUF_SIZE < 4294967296 → snd_inv st t'.
Proof.
  intros [] HB HN HL HU Hr Hw. split; rewrite ?HB, ?HN, ?HL, ?HU; try done; try lia.
  eapply holds_weaken; [done|lia..].
Qed.

Lemma sender_ack w hi pl t msg ack win now :
  sender_ok w hi pl t → ack_at ack win msg → ack ≤ SND_NXT (SND t) → ack + win ≤ hi →
  (SND_UNA (SND t) < ack → SND_UNA (SND t) + SND_WND (SND t) ≤ ack + win) →
  SND_NXT (SND t) + MAX_BUF_SIZE < 4294967296 →
  ∃ t' tr, packet_in skey (deliver msg) now t = (Ok tt, t', tr) ∧
  sender_ok (w ++ messages tr) hi pl t' ∧ SND_NXT (SND t') = SND_NXT (SND t) ∧
  SND_LBW (SND t') = SND_LBW (SND t) ∧ messages tr ⊆ w ∧ State t' = State t ∧
  (SND_UNA (SND t') = SND_UNA (SND t) ∧ SND_WND (SND t') = SND_WND (SND t) ∧
     RetransmissionQueue t' = RetransmissionQueue t ∧ ack ≤ SND_UNA (SND t) ∨
   SND_UNA (SND t) < ack ∧ SND_UNA (SND t') = ack ∧ SND_WND (SND t') = win ∧
     RetransmissionQueue t' = unacked ack (RetransmissionQueue t) ∧
     (unacked ack (RetransmissionQueue t) ≠ RetransmissionQueue t → RetransmitCounter t' = 0)).
Proof.
  intros Hs (seq & -> & Hseq & Hack & Hwin) Hnxt Hedge Hgrow Hroom.
  pose proof Hs as []. pose proof so_inv0 as []. unfold MAX_BUF_SIZE in *.
  rewrite deliver_ip_message, packet_in_segment by (done || unfold is_u32; lia).
  assert (Hsok : seg_ok rp sp seq ack TCPFlagAck).
  { unfold seg_ok. rewrite TCPFlagAck_bit. split_and!; try done; unfold is_u32; lia. }
  destruct (Receive_ok back (segment ra sa rp sp seq ack TCPFlagAck win []) [] skey now t)
    as (t' & tr & E & Hri & Hok & _ & HL & HB & HN & HW & HP & Hm & _ & _ & _ & _ & Hz);
    [done|done|..].
  { rewrite segment_has_flag, TCPFlagAck_bit by done. done. }
  { intros d Hd. change (zlen (@nil byte)) with 0 in Hd. lia. }
  { unfold fits. rewrite segment_SequenceNumber by done. destruct so_rcv0.
    change (zlen (@nil byte)) with 0. unfold MAX_BUF_SIZE in *. lia. }
  exists t', tr. split; [done|]. destruct (Hz eq_refl) as (HState & _ & Hrt).
  assert (Hsub : messages tr ⊆ w) by (by eapply retransmits_wire).
  unfold window_moves, ack_out_of_range in Hm.
  rewrite segment_AckNumber, segment_WindowSize in Hm by done.
  rewrite (u16_small win), (u32_small (SND_UNA _ + SND_WND _)) in Hm by lia.
  assert (Hframe : ∀ una wnd, SND_UNA (SND t') = una → SND_WND (SND t') = wnd →
    SND_UNA (SND t) ≤ una ≤ SND_NXT (SND t) → 0 ≤ wnd ≤ 65535 → una + wnd ≤ hi →
    SND_UNA (SND t) + SND_WND (SND t) ≤ una + wnd → CurrentAck t' ≤ una →
    StronglySorted in_order (RetransmissionQueue t') →
    Forall (queued_ok una (SND_NXT (SND t)) w) (RetransmissionQueue t') →
    sender_ok (w ++ messages tr) hi pl t').
  { intros una wnd HU HWn ?????? Hqq. split; rewrite ?HN, ?HW, ?HU, ?HWn; try done; try lia.
    - eapply (snd_inv_ack t t' una); try done; lia.
    - eapply Forall_impl; [exact Hqq|]. intros e. apply queued_mono; [lia|set_solver]. }
  destruct Hm as [(HU & HWn & HQ & HC & Hwhy)|(Hr & HU & HWn & HQ & HC & Hn0)].
  - assert (Hle : ack ≤ SND_UNA (SND t)).
    { destruct Hwhy as [Hr|Hcur]; [|lia]. revert Hr. bool_hyps; simpl; try done; lia. }
    split_and!; try done; [|by left].
    apply (Hframe _ _ HU HWn); rewrite ?HQ; try done; lia.
  - assert (Hlt : SND_UNA (SND t) < ack).
    { revert Hr. bool_hyps; simpl; try done; lia. }
    specialize (Hgrow Hlt). split_and!; try done; [|by right].
    apply (Hframe _ _ HU HWn); rewrite ?HQ; try done; try lia.
    + destruct (unacked_suffix ack (RetransmissionQueue t)) as [l Hl].
      rewrite Hl in so_sorted0. by eapply StronglySorted_app_1_r.
    + rewrite unacked_filter by done. apply Forall_forall. intros e [He1 He2]%list_elem_of_filter.
      rewrite Forall_forall in so_queue0. by destruct (so_queue0 e He2) as (_ & ? & ? & ?).
Qed.

(** ** The steps of the receiver *)

Lemma receiver_segment t seq n msg now :
  receiver_ok t → segment_at seq n msg → seq + n ≤ RCV_LBR (RCV t) + MAX_BUF_SIZE →
  ∃ t' tr, packet_in rkey (deliver msg) now t = (Ok tt, t', tr) ∧
    receiver_ok t' ∧ RCV_LBR (RCV t') = RCV_LBR (RCV t) ∧ State t' = State t ∧
    RCV_NXT (RCV t) ≤ RCV_NXT (RCV t') ∧
    (seq = RCV_NXT (RCV t) → RCV_NXT (RCV t) + n ≤ RCV_NXT (RCV t')) ∧
    (∀ P : Z → Prop, P (seq + n) → arrived P t → arrived P t') ∧
    lock_run false tr = Some false ∧ messages tr = [ack_of t'].
Proof.
  intros [] (ack & win & -> & Hseq & Hack & Hn) Hend.
  rewrite deliver_ip_message, packet_in_segment by done.
  assert (Hsok : seg_ok sp rp seq ack TCPFlagAck).
  { unfold seg_ok. rewrite TCPFlagAck_bit. done. }
  set (p := stretch st seq n). assert (Hp : zlen p = n) by (apply zlen_stretch; lia).
  set (seg := segment _ _ _ _ _ _ _ _ _).
  assert (Hsn : SequenceNumber seg = seq) by (by apply segment_SequenceNumber).
  destruct (Receive_ok st seg p rkey now t)
    as (t' & tr & E & Hri & Hok & Hlk & HL & HB & HN & HW & HP & Hm & Hb & Hle & Hin & Hacks & _);
    [done|done|..].
  { unfold seg. rewrite segment_has_flag, TCPFlagAck_bit by done. done. }
  { rewrite Hsn. apply carries_stretch. lia. }
  { unfold fits. rewrite Hsn, Hp. lia. }
  rewrite Hsn, Hp in Hb, Hin. exists t', tr. split; [done|].
  destruct (Hacks ltac:(lia)) as (t1 & ackn & rest & -> & HR1 & HS1 & Hrt & Hackn).
  pose proof Hri as [].
  assert (Hnofin : ackn = RCV_NXT (RCV t') ∧ State t' = State t).
  { destruct Hackn as [?|(_ & _ & Hz)]; [done|]. unfold MAX_BUF_SIZE in *. lia. }
  destruct Hnofin as [-> HState]. split_and!; try done.
  - split; try done; rewrite ?HL, ?HN; try done; [|by rewrite HP].
    destruct Hm as [(_ & _ & HQ & _)|(_ & _ & _ & HQ & _)]; by rewrite HQ, ro_queue0.
  - intros ->. destruct ro_inv0. apply Hin; [done|]. unfold MAX_BUF_SIZE in *. lia.
  - simpl. destruct Hrt as [->|(s0 & q & p0 & HQ & _)]; [|by rewrite ro_queue0 in HQ].
    f_equal. unfold ack_of. by rewrite HN, <-HR1, <-HS1.
Qed.

Lemma ack_of_at t : receiver_ok t →
  ack_at (RCV_NXT (RCV t)) (RCV_WND (RCV t)) (ack_of t) ∧
  RCV_NXT (RCV t) + RCV_WND (RCV t) = RCV_LBR (RCV t) + MAX_BUF_SIZE.
Proof.
  intros []. destruct ro_inv0. split; [|lia]. unfold MAX_BUF_SIZE in *.
  exists (SND_NXT (SND t)). split; [done|].
  unfold MAX_BUF_SIZE in *. split_and!; try done; lia.
Qed.

Lemma receiver_data hi t msg now :
  receiver_ok t → data_message (Z.min (RCV_LBR (RCV t) + MAX_BUF_SIZE) hi) msg → below hi t →
  ∃ t' tr, packet_in rkey (deliver msg) now t = (Ok tt, t', tr) ∧
    receiver_ok t' ∧ RCV_LBR (RCV t') = RCV_LBR (RCV t) ∧
    RCV_NXT (RCV t) ≤ RCV_NXT (RCV t') ∧ below hi t' ∧ lock_run false tr = Some false ∧
    messages tr = [ack_of t'].
Proof.
  intros Hro (seq & n & Hseg & Hend) Hbelow.
  destruct (receiver_segment t seq n msg now)
    as (t' & tr & E & Hro' & HL & _ & Hle & _ & Harr & Hlk & Hms); [done|done|lia|].
  exists t', tr. split_and!; try done. apply Harr; [lia|done].
Qed.

Lemma receiver_read t data a n data' a' t' tr :
  receiver_ok t → 0 ≤ a → 0 < n ≤ RCV_NXT (RCV t) - RCV_LBR (RCV t) →
  a + n ≤ zlen data → zlen data < 4294967296 → read_room t →
  Read_copy data a n t = (Ok (data', a'), t', tr) →
  t' = after_read n t ∧ receiver_ok t' ∧
  ztake n (zdrop a data') = stretch st (RCV_LBR (RCV t)) n.
Proof.
  intros [] Ha Hn Hle Hlen Hroom E.
  rewrite (Read_copy_ok st) in E by done. simplify_eq. split; [done|]. split.
  - split; try done; [|simpl; lia]. apply after_read_inv; [done..|lia].
  - unfold ztake, zdrop, zlen in *.
    assert (Hl : length (take (Z.to_nat a) data) = Z.to_nat a) by (rewrite length_take; lia).
    rewrite <-Hl at 1. rewrite drop_app_length.
    assert (Hs : length (stretch st (RCV_LBR (RCV t)) n) = Z.to_nat n).
    { unfold stretch. by rewrite length_fmap, length_seqZ. }
    rewrite <-Hs at 1. by rewrite take_app_length.
Qed.

(** ** Every step keeps the invariant *)

Lemma Forall_subset {A} (P : A → Prop) (l k : list A) : l ⊆ k → Forall P k → Forall P l.
Proof. intros Hs Hk. rewrite Forall_forall in *. auto. Qed.

Lemma grows_edge hs x y :
  StronglySorted grows hs → x ∈ hs → y ∈ hs → x.1 < y.1 → x.2 ≤ y.2.
Proof.
  induction 1 as [|z hs Hs IH Hall]; intros Hx Hy Hlt; [by apply elem_of_nil in Hx|].
  rewrite Forall_forall in Hall. apply elem_of_cons in Hx as [->|Hx], Hy as [->|Hy]; [lia| | |].
  - by destruct (Hall y Hy).
  - destruct (Hall x Hx). lia.
  - by apply IH.
Qed.

Lemma history_frame hs s s' :
  history hs s → acks s' = acks s →
  SND_UNA (SND (sender s')) = SND_UNA (SND (sender s)) →
  SND_WND (SND (sender s')) = SND_WND (SND (sender s)) →
  RCV_NXT (RCV (receiver s)) ≤ RCV_NXT (RCV (receiver s')) → edge s ≤ edge s' →
  history hs s'.
Proof.
  intros [] HA HU HW HN HE. split; rewrite ?HA, ?HU, ?HW; try done.
  intros h Hh. destruct (h_top0 h Hh). lia.
Qed.

(** The receiver acknowledges. *)
Lemma history_snoc hs s t' pl g :
  history hs s → receiver_ok t' → RCV_LBR (RCV t') = RCV_LBR (RCV (receiver s)) →
  RCV_NXT (RCV (receiver s)) ≤ RCV_NXT (RCV t') →
  history (hs ++ [(RCV_NXT (RCV t'), edge s)])
    (mkSys (sender s) t' (wire s) (acks s ++ [ack_of t']) pl g).
Proof.
  intros [] Hro HL Hle. destruct (ack_of_at t' Hro) as [Hat Hedge].
  split; unfold edge in *; simpl.
  - apply StronglySorted_app_2; [|done|by repeat constructor].
    intros x y Hx ->%list_elem_of_singleton. destruct (h_top0 x Hx). split; simpl; lia.
  - intros h [Hh|Hh%list_elem_of_singleton]%elem_of_app; [|subst h; simpl; lia].
    destruct (h_top0 h Hh). lia.
  - set_solver.
  - intros msg [Hm|Hm%list_elem_of_singleton]%elem_of_app.
    + destruct (h_acks0 msg Hm) as (ack & win & ? & ?). exists ack, win. set_solver.
    + subst msg. exists (RCV_NXT (RCV t')), (RCV_WND (RCV t')). split; [done|].
      rewrite Hedge, HL. set_solver.
Qed.

(** The sender gets an acknowledgement. *)
Lemma net_ack s msg now t' tr :
  inv s → msg ∈ acks s → SND_NXT (SND (sender s)) + MAX_BUF_SIZE < 4294967296 →
  packet_in skey (deliver msg) now (sender s) = (Ok tt, t', tr) →
  inv (mkSys t' (receiver s) (wire s ++ messages tr) (acks s) (plan s) (got s)) ∧
  SND_NXT (SND t') = SND_NXT (SND (sender s)) ∧ SND_LBW (SND t') = SND_LBW (SND (sender s)) ∧
  SND_UNA (SND (sender s)) ≤ SND_UNA (SND t') ∧ messages tr ⊆ wire s ∧
  (SND_UNA (SND t') = SND_UNA (SND (sender s)) ∧
     RetransmissionQueue t' = RetransmissionQueue (sender s) ∨
   SND_UNA (SND t') = AckNumber (deliver msg) ∧
     RetransmissionQueue t' = unacked (AckNumber (deliver msg)) (RetransmissionQueue (sender s))).
Proof.
  intros [] Hin Hroom E. destruct i_hist0 as [hs Hh]. pose proof Hh as [].
  destruct (h_acks0 msg Hin) as (ack & win & Hat & Hack). destruct (h_top0 _ Hack) as [Hn He].
  destruct (sender_ack _ _ _ _ msg ack win now i_sender0 Hat)
    as (t1 & tr1 & E1 & Hs & HN & HL & Hms & _ & Hmove); [|done| |done|].
  { simpl in Hn. destruct i_below0 as [? _]. lia. }
  { intros Hlt. by apply (grows_edge hs _ _ h_sorted0 h_sender0 Hack). }
  rewrite E1 in E. simplify_eq.
  split_and!; [|done|done| |done|]; [|destruct Hmove as [(-> & _)|(? & -> & _)]; lia|].
  2: { rewrite (ack_at_number ack win msg); [|done|].
       2: { destruct Hat as (? & _ & _ & ? & _), i_below0 as [? _]. simpl in Hn.
            unfold MAX_BUF_SIZE, is_u32 in *. lia. }
       destruct Hmove as [(? & _ & ? & _)|(_ & ? & _ & ? & _)]; [by left|by right]. }
  unfold edge in *. split; unfold edge; simpl; rewrite ?HN; try done.
  - destruct Hmove as [(-> & _)|(_ & -> & _)]; [done|]. simpl in Hn. lia.
  - apply Forall_app. split; [done|]. by eapply Forall_subset.
  - exists hs. split; simpl; try done.
    by destruct Hmove as [(-> & -> & _)|(_ & -> & -> & _)].
Qed.

Lemma net_step_inv s s' : inv s → net_step s s' → inv s'.
Proof.
  intros Hinv Hstep. pose proof Hinv as []. unfold edge in *. destruct i_hist0 as [hs Hh].
  destruct Hstep as [total t' tr E|total sent sent' now t' tr Hpl Hlt E
    |now next t' tr E|msg now t' tr Hin Hst E|msg now t' tr Hin Hst Hroom E].
  - destruct (sender_plan _ _ _ _ _ _ _ i_sender0 E) as [-> ?]. split; try done.
    exists hs. by apply (history_frame hs s).
  - rewrite Hpl in i_sender0.
    destruct (sender_segment _ _ _ _ _ _ _ _ _ i_sender0 Hlt E)
      as (? & HN & HU & _ & HW & Hhi & seg & Hms & Hseg & _).
    split; unfold edge; simpl; rewrite ?HU; try done.
    + destruct i_below0 as [? He]. split; [lia|]. intros e ?%He. lia.
    + apply Forall_app. split.
      * eapply Forall_impl; [done|]. intros m. apply data_message_mono. lia.
      * rewrite Hms. constructor; [|done]. eexists _, _. split; [done|]. lia.
    + exists hs. by apply (history_frame hs s).
  - destruct (sender_timeout _ _ _ _ _ _ _ _ i_sender0 E) as (? & HS & _ & Hms).
    split; unfold edge; simpl; rewrite ?HS; try done.
    + apply Forall_app. split; [done|]. by eapply Forall_subset.
    + exists hs. apply (history_frame hs s); simpl; by rewrite ?HS.
  - rewrite Forall_forall in i_wire0.
    destruct (receiver_data (SND_NXT (SND (sender s))) (receiver s) msg now)
      as (t1 & tr1 & E1 & Hro & HL & Hle & Hb & _ & Hms); [done|by apply i_wire0|done|].
    rewrite E1 in E. simplify_eq. rewrite Hms.
    split; unfold edge; simpl; rewrite ?HL; try done; [lia|by rewrite Forall_forall|].
    eexists. by apply history_snoc.
  - by destruct (net_ack s msg now t' tr Hinv Hin Hroom E).
Qed.

(** The pointers of the applications stay, and [RCV.NXT] does not move back. *)
Lemma net_step_frame s s' :
  inv s → net_step s s' →
  SND_LBW (SND (sender s')) = SND_LBW (SND (sender s)) ∧
  RCV_LBR (RCV (receiver s')) = RCV_LBR (RCV (receiver s)) ∧
  RCV_NXT (RCV (receiver s)) ≤ RCV_NXT (RCV (receiver s')).
Proof.
  intros Hinv [total t' tr E|total sent sent' now t' tr Hpl Hlt E
    |now next t' tr E|msg now t' tr Hin Hst E|msg now t' tr Hin Hst Hroom E];
    pose proof Hinv as []; simpl.
  - by destruct (sender_plan _ _ _ _ _ _ _ i_sender0 E) as [-> ?].
  - rewrite Hpl in i_sender0.
    by destruct (sender_segment _ _ _ _ _ _ _ _ _ i_sender0 Hlt E) as (? & _ & _ & HL & _).
  - by destruct (sender_timeout _ _ _ _ _ _ _ _ i_sender0 E) as (? & -> & _).
  - rewrite Forall_forall in i_wire0.
    destruct (receiver_data (SND_NXT (SND (sender s))) (receiver s) msg now)
      as (t1 & tr1 & E1 & Hro & HL & Hle & _); [done|by apply i_wire0|done|].
    rewrite E1 in E. by simplify_eq.
  - by destruct (net_ack s msg now t' tr Hinv Hin Hroom E) as (? & ? & ? & _).
Qed.

(** A step of the writing application. *)
Lemma inv_sender s t' :
  inv s → sender_ok (wire s) (edge s) (plan s) t' →
  SND_NXT (SND t') = SND_NXT (SND (sender s)) → SND_UNA (SND t') = SND_UNA (SND (sender s)) →
  SND_WND (SND t') = SND_WND (SND (sender s)) →
  inv (mkSys t' (receiver s) (wire s) (acks s) (plan s) (got s)).
Proof.
  intros [] Hs HN HU HW. unfold edge in *.
  split; unfold edge; simpl; rewrite ?HN, ?HU; try done.
  destruct i_hist0 as [hs Hh]. exists hs. by apply (history_frame hs s).
Qed.

Lemma step_inv s s' : inv s → step s s' → inv s'.
Proof.
  intros Hinv [s1 Hnet|data a next t' tr Ha Hlen Hc E|data a c next t' tr Ha Hlen Hc E
    |data a n data' a' t' tr Ha Hn Hle Hlen Hroom E];
    [by apply (net_step_inv s)|..].
  - assert (Ha' : 0 ≤ a ≤ zlen data) by lia.
    destruct (sender_write _ _ _ _ _ _ _ _ _ (i_sender s Hinv) Ha' Hlen Hc E) as (? & HN & HU & HW & _).
    by apply inv_sender.
  - destruct (sender_write_wake _ _ _ _ _ _ _ _ _ _ (i_sender s Hinv) Ha Hlen Hc E)
      as (? & HN & HU & HW & _).
    by apply inv_sender.
  - destruct Hinv; unfold edge in *.
    destruct (receiver_read _ _ _ _ _ _ _ _ i_receiver0 Ha Hn Hle Hlen Hroom E)
      as (-> & Hro & Hdata).
    split; unfold edge; simpl; try done.
    + apply (sender_ok_frame (wire s) _ (RCV_LBR (RCV (receiver s)) + MAX_BUF_SIZE) _ _
               (sender s)); try done; [apply i_sender0|lia].
    + eapply Forall_impl; [done|]. intros m. apply data_message_mono. lia.
    + destruct i_hist0 as [hs Hh]. exists hs. apply (history_frame hs s); try done. unfold edge. simpl. lia.
    + destruct i_receiver0. rewrite i_got0, Hdata.
      replace (RCV_LBR (RCV (receiver s)) + n - start)
        with (RCV_LBR (RCV (receiver s)) - start + n) by lia.
      rewrite stretch_app by lia. do 2 f_equal. lia.
Qed.

(** The steps without the applications do not look at what has been read. *)
Lemma net_step_got s s' g :
  net_step s s' →
  got s' = got s ∧
  net_step (mkSys (sender s) (receiver s) (wire s) (acks s) (plan s) g)
    (mkSys (sender s') (receiver s') (wire s') (acks s') (plan s') g).
Proof.
  intros [total t' tr E|total sent sent' now t' tr Hpl Hlt E
    |now next t' tr E|msg now t' tr Hin Hst E|msg now t' tr Hin Hst Hroom E]; (split; [done|]); simpl.
  - by eapply (step_plan (mkSys _ _ _ _ _ g)).
  - by eapply (step_segment (mkSys _ _ _ _ _ g)).
  - by eapply (step_timeout (mkSys _ _ _ _ _ g)).
  - by eapply (step_data (mkSys _ _ _ _ _ g)).
  - by eapply (step_ack (mkSys _ _ _ _ _ g)).
Qed.

Lemma steps_inv s s' : rtc step s s' → inv s → inv s'.
Proof. induction 1; eauto using step_inv. Qed.

End system.

(** ** The connection after the handshake *)

Definition established (iss_c iss_s iss' : Z) (kl : SocketData) : sys :=
  mkSys (client_TCB iss_c iss_s iss') (server_TCB iss_c iss_s kl) [] [] (0, 0) [].

Lemma established_inv {N : Netstack} {NL : NetstackLaws N} sa ra sp rp st iss_c iss_s iss' kl :
  0 ≤ iss_c → iss_c + 1 + MAX_BUF_SIZE < 4294967296 →
  0 ≤ iss_s → iss_s + 1 + MAX_BUF_SIZE < 4294967296 →
  inv sa ra sp rp st (λ _, x00) (iss_c + 1) (established iss_c iss_s iss' kl).
Proof.
  intros Hc0 Hc1 Hs0 Hs1. pose proof Hc1. pose proof Hs1. unfold MAX_BUF_SIZE in *.
  assert (Hu : u32 (iss_c + 1) = iss_c + 1) by (apply u32_small; lia).
  assert (Hv : u32 (iss_s + 1) = iss_s + 1) by (apply u32_small; lia).
  destruct (client_TCB_ok iss_c iss_s iss' (λ _, x00) st) as (? & ? & ?); [done..|].
  destruct (server_TCB_ok iss_c iss_s kl st (λ _, x00)) as (? & ? & ?); [done..|].
  split.
  - split; try done; unfold edge; simpl; rewrite ?Hu; unfold MAX_BUF_SIZE; try lia.
    by constructor.
  - split; try done; simpl; rewrite ?Hu, ?Hv; unfold is_u32; lia.
  - simpl. rewrite Hu. lia.
  - split; simpl; rewrite ?Hu; [lia|]. intros e He. by apply not_elem_of_nil in He.
  - by constructor.
  - exists [(iss_c + 1, iss_c + 1 + 65535)].
    split; unfold edge; simpl; rewrite ?Hu; unfold MAX_BUF_SIZE.
    + by repeat constructor.
    + intros h ->%list_elem_of_singleton. simpl. lia.
    + by apply list_elem_of_singleton.
    + intros msg Hm. by apply elem_of_nil in Hm.
  - simpl. rewrite Hu, Z.sub_diag. done.
Qed.

(** ** Properties *)

(** C1: Reliable delivery: from the connection that the handshake leaves, whatever the
    network loses, repeats or reorders, whenever the timers expire and however the writes
    and reads are cut, what the reading application has got is a prefix of what the other
    one has written: no byte is skipped, invented, repeated or out of place.  The steps
    are taken while the sequence numbers do not wrap around, and the zero-window probe is
    not one of them. *)
Theorem delivery_prefix {N : Netstack} {NL : NetstackLaws N} (sa ra sp rp : Z)
    (st : Z → byte) (iss_c iss_s iss' : Z) (kl : SocketData) (s : sys) :
  is_u16 sp → is_u16 rp →
  0 ≤ iss_c → iss_c + 1 + MAX_BUF_SIZE < 4294967296 →
  0 ≤ iss_s → iss_s + 1 + MAX_BUF_SIZE < 4294967296 →
  rtc (step sa ra sp rp st) (established iss_c iss_s iss' kl) s →
  got s = stretch st (iss_c + 1) (zlen (got s)) ∧
  iss_c + 1 + zlen (got s) ≤ SND_LBW (SND (sender s)).
Proof.
  intros Hsp Hrp Hc0 Hc1 Hs0 Hs1 Hsteps.
  pose proof (established_inv sa ra sp rp st iss_c iss_s iss' kl Hc0 Hc1 Hs0 Hs1) as Hinv.
  apply (steps_inv _ _ _ _ _ _ _ Hsp Hrp) with (1 := Hsteps) in Hinv.
  destruct Hinv as [[[] _ _ _ _ _ _ _ _] [[] _ _ _ ? _] _ [] _ _ ->].
  rewrite zlen_stretch by lia. split; [done|]. lia.
Qed.

(** C16: No message of the connection harms the receiver: in every reachable state, any
    message the sender has ever sent is handled without a panic and without blocking, the
    lock of the TCB is free afterwards, and [RCV.NXT] does not move back. *)
Theorem delivery_safe {N : Netstack} {NL : NetstackLaws N} (sa ra sp rp : Z)
    (st : Z → byte) (iss_c iss_s iss' now : Z) (kl : SocketData) (s : sys) (msg : list byte) :
  is_u16 sp → is_u16 rp →
  0 ≤ iss_c → iss_c + 1 + MAX_BUF_SIZE < 4294967296 →
  0 ≤ iss_s → iss_s + 1 + MAX_BUF_SIZE < 4294967296 →
  rtc (step sa ra sp rp st) (established iss_c iss_s iss' kl) s → msg ∈ wire s →
  ∃ rcv' tr, packet_in (rkey sa ra sp rp) (deliver msg) now (receiver s) = (Ok tt, rcv', tr) ∧
    lock_run false tr = Some false ∧
    RCV_NXT (RCV (receiver s)) ≤ RCV_NXT (RCV rcv') ≤ SND_NXT (SND (sender s)).
Proof.
  intros Hsp Hrp Hc0 Hc1 Hs0 Hs1 Hsteps Hin.
  pose proof (established_inv sa ra sp rp st iss_c iss_s iss' kl Hc0 Hc1 Hs0 Hs1) as Hinv.
  apply (steps_inv _ _ _ _ _ _ _ Hsp Hrp) with (1 := Hsteps) in Hinv.
  destruct Hinv as [_ Hro _ Hb Hw _ _]. rewrite Forall_forall in Hw.
  destruct (receiver_data sa ra sp rp st (iss_c + 1) Hsp Hrp (SND_NXT (SND (sender s)))
              (receiver s) msg now) as (t' & tr & E & _ & _ & Hle & [Hn _] & Hl & _);
    [done|by apply Hw|done|].
  exists t', tr. split_and!; done.
Qed.

(** *** A run: "ab" is written, sent, received and read. *)

Definition demo_text (x : Z) : byte := default x00 (zlookup [x61; x62] (x - 8)).
Definition run0 : sys := established 7 900 0 (mkSocketData 2 80 0 0).
Definition run1 : sys :=
  mkSys (run_state (Write_turn [x61; x62] 0) (sender run0)) (receiver run0) (wire run0)
    (acks run0) (plan run0) (got run0).
Definition run2 : sys :=
  mkSys (run_state Send_loop (sender run1)) (receiver run1) (wire run1) (acks run1) (2, 0)
    (got run1).
Definition run3 : sys :=
  let m := Send_segment (skey 1 2 1025 80) 2 0 0 in
  mkSys (run_state m (sender run2)) (receiver run2)
    (wire run2 ++ messages (run_trace m (sender run2))) (acks run2) (2, 2) (got run2).
Definition demo_message : list byte := default [] (wire run3 !! 0%nat).
Definition run4 : sys :=
  let m := packet_in (rkey 1 2 1025 80) (deliver demo_message) 0 in
  mkSys (sender run3) (run_state m (receiver run3)) (wire run3)
    (acks run3 ++ messages (run_trace m (receiver run3))) (plan run3) (got run3).
Definition run5 : sys :=
  mkSys (sender run4) (run_state (Read_copy [x00; x00; x00] 0 2) (receiver run4)) (wire run4)
    (acks run4) (plan run4) (got run4 ++ ztake 2 (zdrop 0 [x61; x62; x00])).

Lemma demo_write : step 1 2 1025 80 demo_text run0 run1.
Proof.
  apply (step_write 1 2 1025 80 demo_text run0 [x61; x62] 0 (WriteMore 2)) with
    (tr := run_trace (Write_turn [x61; x62] 0) (sender run0)); [by vm_compute..| |].
  - intros d Hd. change (zlen (zdrop 0 [x61; x62])) with 2 in Hd.
    destruct (decide (d = 0)) as [->|]; [by vm_compute|].
    destruct (decide (d = 1)) as [->|]; [by vm_compute|lia].
  - apply run_eq. by vm_compute.
Qed.

Lemma demo_plan : step 1 2 1025 80 demo_text run1 run2.
Proof.
  apply step_net, (step_plan 1 2 1025 80 run1 2) with (tr := run_trace Send_loop (sender run1)).
  apply run_eq. by vm_compute.
Qed.

Lemma demo_segment : step 1 2 1025 80 demo_text run2 run3.
Proof.
  apply step_net, (step_segment 1 2 1025 80 run2 2 0 2 0); [done|done|].
  apply run_eq. by vm_compute.
Qed.

Lemma demo_data : step 1 2 1025 80 demo_text run3 run4.
Proof.
  apply step_net, (step_data 1 2 1025 80 run3 demo_message 0).
  - apply (list_elem_of_lookup_2 _ 0%nat). by vm_compute.
  - by vm_compute.
  - apply run_eq. by vm_compute.
Qed.

Lemma demo_read : step 1 2 1025 80 demo_text run4 run5.
Proof.
  apply (step_read 1 2 1025 80 demo_text run4 [x00; x00; x00] 0 2 [x61; x62; x00] 2) with
    (rcv' := run_state (Read_copy [x00; x00; x00] 0 2) (receiver run4))
    (tr := run_trace (Read_copy [x00; x00; x00] 0 2) (receiver run4));
    [done|by vm_compute..|]. apply run_eq. by vm_compute.
Qed.

Lemma demo_run : rtc (step 1 2 1025 80 demo_text) run0 run5.
Proof.
  eapply rtc_l, rtc_l, rtc_l, rtc_l, rtc_once;
    [exact demo_write|exact demo_plan|exact demo_segment|exact demo_data|exact demo_read].
Qed.

Lemma delivery_prefix_witness :
  got run5 = [x61; x62] ∧ got run5 = stretch demo_text 8 2 ∧ 8 + 2 ≤ SND_LBW (SND (sender run5)).
Proof.
  split; [reflexivity|].
  apply (delivery_prefix 1 2 1025 80 demo_text 7 900 0 (mkSocketData 2 80 0 0) run5).
  - unfold is_u16. lia.
  - unfold is_u16. lia.
  - lia.
  - by vm_compute.
  - lia.
  - by vm_compute.
  - exact demo_run.
Defined.

Lemma delivery_safe_witness :
  ∃ rcv' tr, packet_in (rkey 1 2 1025 80) (deliver demo_message) 0 (receiver run5)
      = (Ok tt, rcv', tr) ∧ lock_run false tr = Some false.
Proof.
  destruct (delivery_safe 1 2 1025 80 demo_text 7 900 0 0 (mkSocketData 2 80 0 0) run5
              demo_message) as (t & tr & E & Hl & _).
  - unfold is_u16. lia.
  - unfold is_u16. lia.
  - lia.
  - by vm_compute.
  - lia.
  - by vm_compute.
  - exact demo_run.
  - apply (list_elem_of_lookup_2 _ 0%nat). by vm_compute.
  - exists t, tr. split; [exact E|exact Hl].
Defined.
