(* ===== verification/Progress.v ===== *)
(** * Progress

    Retransmission makes up for every loss.  The network of [Delivery] keeps all messages;
    here it can also lose any of them for good, so that a lost segment comes to the receiver
    only if the sender sends it again.

    The segments tile the stream: [RCV.NXT], the early arrivals and the acknowledgements are
    at boundaries of segments, so the retransmission queue holds exactly the segments from
    [SND.UNA] to [SND.NXT], and its head is the one the receiver waits for. *)

From S2P Require Import Prelude GoLang Wire WireRef Ring TcpData EarlyArrivals Congestion Rto Retransmit TcpReceive TcpHandler TcpApi TcpStream TcpStates Handshake TcpSend Delivery.

Section progress.
Context {N : Netstack} {NL : NetstackLaws N}.
Context (sa ra sp rp : Z) (st back : Z → byte) (start : Z).
Hypothesis Hsp : is_u16 sp.
Hypothesis Hrp : is_u16 rp.

#[local] Abbreviation inv := (inv sa ra sp rp st back start).
#[local] Abbreviation step := (step sa ra sp rp st).
#[local] Abbreviation net_step := (net_step sa ra sp rp).
#[local] Abbreviation segment_at := (segment_at sa ra sp rp st).

(** ** Losing messages *)

(** A step of the system, or the network loses messages. *)
Inductive lossy_step (s : sys) : sys → Prop :=
  | lossy_go s' : step s s' → lossy_step s s'
  | lossy_drop w a :
      w ⊆ wire s → a ⊆ acks s →
      lossy_step s (mkSys (sender s) (receiver s) w a (plan s) (got s)).

(** The same two ends, with the messages lost from the one network still in the other. *)
Record under (s S : sys) : Prop := {
  u_sender : sender s = sender S;
  u_receiver : receiver s = receiver S;
  u_plan : plan s = plan S;
  u_got : got s = got S;
  u_wire : wire s ⊆ wire S;
  u_acks : acks s ⊆ acks S
}.

Lemma under_net_step s S s' : under s S → net_step s s' → ∃ S', net_step S S' ∧ under s' S'.
Proof.
  intros Hu. pose proof Hu as [HS HR HP HG HW HA].
  intros [total t' tr E|total sent sent' now t' tr Hpl Hlt E
    |now next t' tr E|msg now t' tr Hin Hst E|msg now t' tr Hin Hst Hroom E];
    rewrite ?HS, ?HR, ?HP, ?HG in *;
    (eexists; split;
      [first [by eapply step_plan|by eapply step_segment|by eapply step_timeout
             |eapply step_data; [by apply HW|done|done]|eapply step_ack; [by apply HA|done..]]
      |split; simpl; try done; set_solver]).
Qed.

Lemma under_step s S s' : under s S → step s s' → ∃ S', step S S' ∧ under s' S'.
Proof.
  intros Hu. pose proof Hu as [HS HR HP HG HW HA].
  intros [s1 Hnet|data a next t' tr Ha Hlen Hc E|data a c next t' tr Ha Hlen Hc E
    |data a n data' a' t' tr Ha Hn Hle Hlen Hroom E].
  { destruct (under_net_step s S s1 Hu Hnet) as (S' & ? & ?). exists S'. split; [by apply step_net|done]. }
  all: rewrite ?HS, ?HR, ?HP, ?HG in *;
    (eexists; split;
      [first [by eapply step_write|by eapply step_write_wake|by eapply step_read]
      |by split]).
Qed.

(** ** The retransmission queue tiles what is unacknowledged *)

(** The boundaries of the queued segments, from [a] on. *)
Fixpoint bounds (a : Z) (q : list RetransmitSegment) : list Z :=
  a :: match q with [] => [] | e :: q' => bounds (a + RPayloadLen e) q' end.

(** The queue holds the segments from [a] to [b]. *)
Fixpoint chain (a : Z) (q : list RetransmitSegment) (b : Z) : Prop :=
  match q with
  | [] => a = b
  | e :: q' =>
      SeqNum (RTCPHeader e) = a ∧
      segment_at a (RPayloadLen e)
        (ip_message sa ra (RTCPHeader e) (stretch st a (RPayloadLen e))) ∧
      chain (a + RPayloadLen e) q' b
  end.

Lemma segment_at_pos seq n msg : segment_at seq n msg → 0 < n.
Proof. by intros (? & ? & _ & _ & _ & ?). Qed.

Lemma bounds_from a q b x : chain a q b → x ∈ bounds a q → a ≤ x.
Proof.
  revert a. induction q as [|e q IH]; intros a; simpl.
  - intros _ ->%list_elem_of_singleton. lia.
  - intros (_ & Hs%segment_at_pos & Hc) [->|Hx]%elem_of_cons; [lia|].
    apply (IH _ Hc) in Hx. lia.
Qed.

Lemma bounds_snoc a q b e : chain a q b → bounds a (q ++ [e]) = bounds a q ++ [b + RPayloadLen e].
Proof.
  revert a. induction q as [|e' q IH]; intros a; simpl; [by intros ->|].
  intros (_ & _ & Hc). by rewrite (IH _ Hc).
Qed.

Lemma chain_snoc a q b e :
  chain a q b → SeqNum (RTCPHeader e) = b →
  segment_at b (RPayloadLen e) (ip_message sa ra (RTCPHeader e) (stretch st b (RPayloadLen e))) →
  chain a (q ++ [e]) (b + RPayloadLen e).
Proof.
  revert a. induction q as [|e' q IH]; intros a; simpl; [by intros ->|].
  intros (? & ? & Hc) ? ?. by split_and!; [..|apply IH].
Qed.

(** An acknowledgement at a boundary takes the segments before it off the queue. *)
Lemma chain_unacked a q b x :
  chain a q b → x ∈ bounds a q →
  chain x (unacked x q) b ∧ ∀ y, y ∈ bounds a q → x ≤ y → y ∈ bounds x (unacked x q).
Proof.
  revert a. induction q as [|e q IH]; intros a; simpl.
  - intros -> ->%list_elem_of_singleton. split; [done|]. by intros y ->%list_elem_of_singleton _; left.
  - intros (He & Hs & Hc) [->|Hx]%elem_of_cons.
    + rewrite He. destruct (Z.ltb_spec a a); [lia|]. simpl. by rewrite He.
    + pose proof (bounds_from _ _ _ _ Hc Hx). pose proof (segment_at_pos _ _ _ Hs).
      destruct (Z.ltb_spec (SeqNum (RTCPHeader e)) x); [|lia].
      destruct (IH _ Hc Hx) as [Hc' Hy]. split; [done|].
      intros y [->|Hy']%elem_of_cons; [lia|by apply Hy].
Qed.

Lemma chain_removes e q b a x : chain a (e :: q) b → a < x → (length (unacked x (e :: q)) ≤ length q)%nat.
Proof.
  intros (He & _) Hx. simpl. destruct (Z.ltb_spec (SeqNum (RTCPHeader e)) x); [|lia].
  destruct (unacked_suffix x q) as [l Hl]. rewrite Hl at 2. rewrite length_app. lia.
Qed.

(** ** The boundaries of the segments *)

Record tiled (bs : list Z) (s : sys) : Prop := {
  p_chain : chain (SND_UNA (SND (sender s))) (RetransmissionQueue (sender s))
    (SND_NXT (SND (sender s)));
  p_bounds : ∀ x, x ∈ bs → SND_UNA (SND (sender s)) ≤ x →
    x ∈ bounds (SND_UNA (SND (sender s))) (RetransmissionQueue (sender s));
  p_ends : ∀ msg, msg ∈ wire s →
    ∃ seq n, segment_at seq n msg ∧ seq + n ≤ edge s ∧ seq + n ∈ bs;
  p_acks : ∀ msg, msg ∈ acks s → AckNumber (deliver msg) ∈ bs;
  p_arrived : arrived (λ x, x ∈ bs) (receiver s);
  p_state : State (receiver s) = ESTABLISHED
}.

Lemma tiled_frame bs s s' :
  tiled bs s → wire s' ⊆ wire s → acks s' = acks s → edge s ≤ edge s' →
  SND_NXT (SND (sender s')) = SND_NXT (SND (sender s)) →
  SND_UNA (SND (sender s')) = SND_UNA (SND (sender s)) →
  RetransmissionQueue (sender s') = RetransmissionQueue (sender s) →
  RCV_NXT (RCV (receiver s')) = RCV_NXT (RCV (receiver s)) →
  EarlyArrivalQueue (receiver s') = EarlyArrivalQueue (receiver s) →
  State (receiver s') = State (receiver s) → tiled bs s'.
Proof.
  intros [] Hw HA He HN HU HQ HR HE HS. split; rewrite ?HN, ?HU, ?HQ, ?HS, ?HA; try done.
  - intros m Hm. destruct (p_ends0 m (Hw m Hm)) as (seq & n & ? & ? & ?).
    exists seq, n. split_and!; (done || lia).
  - by apply (arrived_frame _ (receiver s)).
Qed.

(** A new segment adds a boundary. *)
Lemma tiled_snoc bs s t' e pl g :
  let nxt := SND_NXT (SND (sender s)) in
  let n := SND_NXT (SND t') - nxt in
  let msg := ip_message sa ra (RTCPHeader e) (stretch st nxt n) in
  tiled bs s → SND_UNA (SND t') = SND_UNA (SND (sender s)) → SND_NXT (SND t') ≤ edge s →
  segment_at nxt n msg → RetransmissionQueue t' = RetransmissionQueue (sender s) ++ [e] →
  SeqNum (RTCPHeader e) = nxt → RPayloadLen e = n →
  tiled (bs ++ [SND_NXT (SND t')]) (mkSys t' (receiver s) (wire s ++ [msg]) (acks s) pl g).
Proof.
  intros nxt n msg [] HU He Hseg HQ Hsq Hlen.
  assert (Hend : nxt + RPayloadLen e = SND_NXT (SND t')) by lia.
  split; simpl; rewrite ?HU, ?HQ; try done.
  - rewrite <-Hend. apply chain_snoc; [done|done|by rewrite Hlen].
  - intros x Hx Hge. rewrite (bounds_snoc _ _ _ _ p_chain0). fold nxt. rewrite Hend. set_solver.
  - intros m [Hm|Hm%list_elem_of_singleton]%elem_of_app.
    + destruct (p_ends0 m Hm) as (seq & k & ? & ? & ?). exists seq, k. split_and!; [done|done|set_solver].
    + subst m. exists nxt, n. split; [done|].
      replace (nxt + n) with (SND_NXT (SND t')) by lia. split; [done|set_solver].
  - set_solver.
  - destruct p_arrived0 as [Hn He']. split; [set_solver|]. intros x ?%He'. set_solver.
Qed.

(** A segment arrives. *)
Lemma tiled_data bs s msg now t' tr :
  inv s → tiled bs s → msg ∈ wire s →
  packet_in (rkey sa ra sp rp) (deliver msg) now (receiver s) = (Ok tt, t', tr) →
  tiled bs (mkSys (sender s) t' (wire s) (acks s ++ messages tr) (plan s) (got s)).
Proof.
  intros Hinv Ht Hm E. destruct (p_ends _ _ Ht msg Hm) as (seq & n & Hseg & Hle & Hin).
  destruct (receiver_segment sa ra sp rp st start Hsp Hrp (receiver s) seq n msg now)
    as (t1 & tr1 & E1 & Hro & HL & HS & _ & _ & Harr & _ & Hms);
    [apply (i_receiver _ _ _ _ _ _ _ _ Hinv)|done|done|].
  rewrite E1 in E. simplify_eq. rewrite Hms. pose proof Ht as [].
  specialize (Harr _ Hin p_arrived0). destruct (ack_of_at sa ra sp rp st start t' Hro) as [Hat _].
  split; unfold edge in *; simpl; rewrite ?HL, ?HS; try done.
  intros m [Hm'|Hm'%list_elem_of_singleton]%elem_of_app; [by apply p_acks0|]. subst m.
  rewrite (ack_at_number sa ra sp rp Hsp Hrp _ _ _ Hat); [apply Harr|].
  destruct (ro_inv _ _ _ Hro). unfold is_u32, MAX_BUF_SIZE in *. lia.
Qed.

(** An acknowledgement arrives. *)
Lemma tiled_ack bs s msg t' w pl g :
  tiled bs s → msg ∈ acks s → w ⊆ wire s →
  SND_NXT (SND t') = SND_NXT (SND (sender s)) → SND_UNA (SND (sender s)) ≤ SND_UNA (SND t') →
  (SND_UNA (SND t') = SND_UNA (SND (sender s)) ∧
     RetransmissionQueue t' = RetransmissionQueue (sender s) ∨
   SND_UNA (SND t') = AckNumber (deliver msg) ∧
     RetransmissionQueue t' = unacked (AckNumber (deliver msg)) (RetransmissionQueue (sender s))) →
  tiled bs (mkSys t' (receiver s) w (acks s) pl g).
Proof.
  intros Ht Hin Hw HN HU [[HU' HQ]|[HU' HQ]]; [by apply (tiled_frame bs s)|].
  destruct Ht. pose proof (p_acks0 _ Hin) as Hb. rewrite HU' in HU.
  pose proof (p_bounds0 _ Hb HU) as Hx.
  destruct (chain_unacked _ _ _ _ p_chain0 Hx) as [Hc Hy].
  split; simpl; rewrite ?HU', ?HQ, ?HN; try done.
  - intros x Hxb Hge. apply Hy; [|done]. apply p_bounds0; [done|lia].
  - intros m Hm. by apply p_ends0, Hw.
Qed.

Lemma tiled_step bs s s' : inv s → tiled bs s → step s s' → ∃ bs', tiled bs' s'.
Proof.
  intros Hinv Ht Hstep. pose proof (i_sender _ _ _ _ _ _ _ _ Hinv) as Hs.
  destruct Hstep as [s' [total t' tr E|total sent sent' now t' tr Hpl Hlt E
    |now next t' tr E|msg now t' tr Hin Hst E|msg now t' tr Hin Hst Hroom E]
    |data a next t' tr Ha Hlen Hc E|data a c next t' tr Ha Hlen Hc E
    |data a n data' a' t' tr Ha Hn Hle Hlen Hroom E].
  - edestruct sender_plan as [-> _]; [exact Hs|exact E|]. exists bs. by apply (tiled_frame bs s).
  - rewrite Hpl in Hs.
    edestruct sender_segment as (_ & _ & HU & _ & _ & He & e & Hms & Hseg & HQ & Hsq & Hlen);
      [exact Hsp|exact Hrp|exact Hs|exact Hlt|exact E|].
    rewrite Hms. eexists. by apply tiled_snoc.
  - edestruct sender_timeout as (_ & HS & HQ & Hms); [exact Hsp|exact Hrp|exact Hs|exact E|].
    exists bs. apply (tiled_frame bs s); simpl; rewrite ?HS; try done; set_solver.
  - exists bs. by eapply tiled_data.
  - edestruct net_ack as (_ & HN & _ & HU & Hms & Hmv);
      [exact Hsp|exact Hrp|exact Hinv|exact Hin|done|exact E|].
    exists bs. apply (tiled_ack bs s msg); try done; set_solver.
  - assert (Ha' : 0 ≤ a ≤ zlen data) by lia.
    edestruct sender_write as (_ & HN & HU & _ & HQ & _); [exact Hs|exact Ha'|done|exact Hc|exact E|].
    exists bs. by apply (tiled_frame bs s).
  - edestruct sender_write_wake as (_ & HN & HU & _ & HQ & _); [exact Hs|exact Ha|done|exact Hc|exact E|].
    exists bs. by apply (tiled_frame bs s).
  - edestruct receiver_read as (Hr & _ & _);
      [apply (i_receiver _ _ _ _ _ _ _ _ Hinv)|exact Ha|exact Hn|done..|exact E|]. subst t'.
    exists bs. apply (tiled_frame bs s); unfold edge; simpl; try done. lia.
Qed.

(** ** Going on *)

(** A state of the lossy network: the ends are those of a state that has lost nothing. *)
Definition shadowed (s : sys) : Prop := ∃ S bs, under s S ∧ inv S ∧ tiled bs S.

Lemma shadowed_step s s' : shadowed s → step s s' → shadowed s'.
Proof.
  intros (S & bs & Hu & Hinv & Ht) Hstep. destruct (under_step s S s' Hu Hstep) as (S' & HS & Hu').
  destruct (tiled_step bs S S' Hinv Ht HS) as [bs' Ht']. exists S', bs'.
  split_and!; [done|by eapply step_inv|done].
Qed.

Lemma shadowed_lossy s s' : shadowed s → lossy_step s s' → shadowed s'.
Proof.
  intros Hsh [s1 Hstep|w a Hw Ha]; [by eapply shadowed_step|].
  destruct Hsh as (S & bs & [] & Hinv & Ht). exists S, bs. split; [|done].
  split; simpl; try done; set_solver.
Qed.

Lemma shadowed_steps s s' : rtc lossy_step s s' → shadowed s → shadowed s'.
Proof. induction 1; eauto using shadowed_lossy. Qed.

(** The sender is open, has a retransmission left and its sequence numbers do not wrap. *)
Definition can_go_on (t : TCB) : Prop :=
  State t = ESTABLISHED ∧ RetransmitCounter t < MAX_RETRANSMISSIONS ∧
  SND_NXT (SND t) + MAX_BUF_SIZE < 4294967296.

(** The timer expires: the first segment of the queue is on the wire again. *)
Lemma resend s e q :
  shadowed s → can_go_on (sender s) → RetransmissionQueue (sender s) = e :: q →
  ∃ t' msg, step s (mkSys t' (receiver s) (wire s ++ [msg]) (acks s) (plan s) (got s)) ∧
    segment_at (SND_UNA (SND (sender s))) (RPayloadLen e) msg ∧
    SND t' = SND (sender s) ∧ State t' = ESTABLISHED ∧ RetransmissionQueue t' = e :: q.
Proof.
  intros (S & bs & [] & Hinv & []) (Hst & Hcnt & _) HQ. rewrite u_sender0 in *.
  pose proof (i_sender _ _ _ _ _ _ _ _ Hinv) as []. pose proof so_inv as [].
  rewrite HQ in *. destruct p_chain0 as (Hsq & Hseg & _).
  apply Forall_cons in so_queue as [(Hu & Hl & Hn & _) _].
  destruct (waitTimeout_fire_retransmits (skey sa ra sp rp) 0 (sender S) e)
    as (t' & p & E & Hp & HS & _ & Hst' & HQ' & _).
  { unfold can_retransmit. rewrite Hst, HQ. split_and!; (done || lia). }
  { lia. }
  apply (holds_window _ st) in Hp; [|eapply holds_weaken; [done|lia..]]. subst p.
  exists t', (ip_message sa ra (RTCPHeader e) (stretch st (SeqNum (RTCPHeader e)) (RPayloadLen e))).
  split_and!; [|by rewrite Hsq|done|by rewrite Hst'|by rewrite HQ', HQ].
  apply step_net. rewrite <-u_sender0 in E. exact (step_timeout _ _ _ _ s _ _ _ _ E).
Qed.

(** It arrives, is acknowledged, and the acknowledgement takes it off the queue. *)
Lemma head_delivered s e q msg :
  shadowed s → State (sender s) = ESTABLISHED →
  SND_NXT (SND (sender s)) + MAX_BUF_SIZE < 4294967296 →
  RetransmissionQueue (sender s) = e :: q → msg ∈ wire s →
  segment_at (SND_UNA (SND (sender s))) (RPayloadLen e) msg →
  ∃ s', rtc step s s' ∧ can_go_on (sender s') ∧
    SND_NXT (SND (sender s')) = SND_NXT (SND (sender s)) ∧
    (length (RetransmissionQueue (sender s')) ≤ length q)%nat.
Proof.
  intros Hsh Hst Hroom HQ Hm Hseg. pose proof Hsh as (S & bs & [] & Hinv & []).
  rewrite u_sender0 in *.
  pose proof (i_sender _ _ _ _ _ _ _ _ Hinv) as []. pose proof so_inv as [].
  pose proof (i_receiver _ _ _ _ _ _ _ _ Hinv) as Hro.
  pose proof (i_una _ _ _ _ _ _ _ _ Hinv) as Hle0.
  pose proof (segment_at_pos _ _ _ Hseg) as Hpos.
  rewrite HQ in *. pose proof p_chain0 as (Hsq & _).
  apply Forall_cons in so_queue as [(Hu & Hl & Hn & _) _].
  destruct (receiver_segment sa ra sp rp st start Hsp Hrp (receiver S) _ _ msg 0 Hro Hseg)
    as (t' & tr & E & Hro' & HL & _ & Hle & Hup & _ & _ & Hms).
  { unfold edge in *. lia. }
  assert (Hgt : SND_UNA (SND (sender S)) < RCV_NXT (RCV t')).
  { destruct (decide (SND_UNA (SND (sender S)) = RCV_NXT (RCV (receiver S)))) as [He|]; [|lia].
    specialize (Hup He). lia. }
  set (s1 := mkSys (sender s) t' (wire s) (acks s ++ messages tr) (plan s) (got s)).
  assert (Hstep : step s s1).
  { apply step_net. rewrite <-u_receiver0 in E, p_state0. exact (step_data _ _ _ _ s msg _ _ _ Hm p_state0 E). }
  destruct (shadowed_step s s1 Hsh Hstep) as (S1 & bs1 & [] & Hinv1 & _). simpl in *.
  pose proof (i_sender _ _ _ _ _ _ _ _ Hinv1) as Hs1.
  pose proof (i_below _ _ _ _ _ _ _ _ Hinv1) as [Hbelow _].
  unfold edge in Hs1. rewrite <-u_sender1, <-u_receiver1, u_sender0 in *.
  destruct (ack_of_at sa ra sp rp st start t' Hro') as [Hat Hedge].
  destruct (sender_ack sa ra sp rp st back Hsp Hrp _ _ _ (sender S) _ _ _ 0 Hs1 Hat)
    as (t2 & tr2 & E2 & _ & HN2 & _ & _ & Hst2 & Hmove); [lia|lia| |done|].
  { intros _. rewrite Hedge. exact (Delivery.so_edge _ _ _ _ _ _ _ _ Hs1). }
  destruct Hmove as [(_ & _ & _ & ?)|(_ & _ & _ & HQ2 & Hcnt)]; [lia|].
  rewrite HQ in HQ2, Hcnt. pose proof (chain_removes _ _ _ _ _ p_chain0 Hgt) as Hlen.
  assert (Hstep2 : step s1 (mkSys t2 t' (wire s ++ messages tr2) (acks s1) (plan s) (got s))).
  { apply step_net. apply (step_ack sa ra sp rp s1 (ack_of sa ra sp rp t') 0); simpl;
      rewrite ?u_sender0; try done. rewrite Hms. set_solver. }
  eexists. split; [by eapply rtc_l, rtc_once|]. simpl. rewrite HQ2.
  split_and!; [|done|done]. unfold can_go_on. rewrite Hst2, HN2, Hcnt; [done|].
  intros Heq%(f_equal length). simpl in Heq, Hlen. lia.
Qed.

(** Head by head, until the queue is empty. *)
Lemma drain s :
  shadowed s → can_go_on (sender s) →
  ∃ s', rtc step s s' ∧ shadowed s' ∧ SND_NXT (SND (sender s')) = SND_NXT (SND (sender s)) ∧
    RetransmissionQueue (sender s') = [].
Proof.
  remember (length (RetransmissionQueue (sender s))) as k eqn:Hk. revert s Hk.
  induction (lt_wf k) as [k _ IH]. intros s Hk Hsh Hgo.
  destruct (RetransmissionQueue (sender s)) as [|e q] eqn:HQ; [by exists s|].
  destruct (resend s e q Hsh Hgo HQ) as (t' & msg & Hstep & Hseg & HS & Hst & HQ').
  set (s1 := mkSys t' _ _ _ _ _) in *. pose proof (shadowed_step _ _ Hsh Hstep) as Hsh1.
  destruct Hgo as (_ & _ & Hroom). rewrite <-HS in Hseg, Hroom.
  destruct (head_delivered s1 e q msg Hsh1 Hst Hroom HQ') as (s2 & R & Hgo2 & HN2 & Hlen); [set_solver|done|].
  assert (Hsh2 : shadowed s2).
  { eapply shadowed_steps; [|exact Hsh1]. clear -R. induction R; [done|]. eapply rtc_l; [by apply lossy_go|done]. }
  destruct (IH (length (RetransmissionQueue (sender s2)))) with (s := s2)
    as (s3 & R3 & Hsh3 & HN3 & HQ3); [simpl in Hk; lia|done..|].
  exists s3. split_and!; [|done|by rewrite HN3, HN2; simpl; rewrite HS|done].
  eapply rtc_l; [exact Hstep|]. by etrans.
Qed.

(** The reader takes everything that has arrived. *)
Lemma read_all s :
  shadowed s → read_room (receiver s) →
  ∃ s', rtc step s s' ∧ shadowed s' ∧ sender s' = sender s ∧
    RCV_NXT (RCV (receiver s')) = RCV_NXT (RCV (receiver s)) ∧
    RCV_LBR (RCV (receiver s')) = RCV_NXT (RCV (receiver s)).
Proof.
  intros Hsh Hroom.
  assert (Hri : rcv_inv st (receiver s)).
  { destruct Hsh as (S & bs & [] & Hinv & _). rewrite u_receiver0.
    apply (ro_inv st start), (i_receiver _ _ _ _ _ _ _ _ Hinv). }
  pose proof Hri as []. unfold MAX_BUF_SIZE in *.
  set (n := RCV_NXT (RCV (receiver s)) - RCV_LBR (RCV (receiver s))).
  destruct (decide (n = 0)) as [Hn|Hn]; [exists s; split_and!; (done || lia)|].
  pose proof (Read_copy_ok st (make_bytes n) 0 n (receiver s) Hri Hroom) as E.
  rewrite zlen_make_bytes in E by lia. specialize (E ltac:(lia) ltac:(lia) ltac:(lia) ltac:(lia)).
  assert (Hn' : 0 < n ≤ n) by lia.
  eassert (Hstep : step s _).
  { eapply (step_read sa ra sp rp st s (make_bytes n) 0 n); [lia|exact Hn'|..|exact E];
      rewrite ?zlen_make_bytes by lia; (done || lia). }
  eexists. split; [by apply rtc_once|]. split; [by eapply shadowed_step|].
  split_and!; [done|done|simpl; unfold n; lia].
Qed.

(** What a state of the lossy network says of the bytes read, with an empty queue. *)
Lemma shadowed_settled s :
  shadowed s → RetransmissionQueue (sender s) = [] →
  SND_UNA (SND (sender s)) = SND_NXT (SND (sender s)) ∧
  RCV_NXT (RCV (receiver s)) = SND_NXT (SND (sender s)) ∧
  got s = stretch st start (RCV_LBR (RCV (receiver s)) - start).
Proof.
  intros (S & bs & [] & Hinv & []) HQ. rewrite u_sender0, u_receiver0, u_got0 in *.
  rewrite HQ in p_chain0. simpl in p_chain0.
  pose proof (i_una _ _ _ _ _ _ _ _ Hinv). pose proof (i_below _ _ _ _ _ _ _ _ Hinv) as [? _].
  split_and!; [done|lia|apply (i_got _ _ _ _ _ _ _ _ Hinv)].
Qed.
End progress.

Lemma established_shadowed {N : Netstack} {NL : NetstackLaws N} sa ra sp rp st iss_c iss_s iss' kl :
  0 ≤ iss_c → iss_c + 1 + MAX_BUF_SIZE < 4294967296 →
  0 ≤ iss_s → iss_s + 1 + MAX_BUF_SIZE < 4294967296 →
  shadowed sa ra sp rp st (λ _, x00) (iss_c + 1) (established iss_c iss_s iss' kl).
Proof.
  intros Hc0 Hc1 Hs0 Hs1. exists (established iss_c iss_s iss' kl), [iss_c + 1].
  split; [done|]. split; [by apply established_inv|].
  assert (Hu : u32 (iss_c + 1) = iss_c + 1) by (apply u32_small; unfold MAX_BUF_SIZE in *; lia).
  split; simpl; rewrite ?Hu; try done; try (intros msg Hm; by apply elem_of_nil in Hm).
  split; simpl; rewrite ?Hu; [by apply list_elem_of_singleton|].
  intros e He. by apply elem_of_nil in He.
Qed.

(** ** A closed window *)

Section zero_window.
Context {N : Netstack} {NL : NetstackLaws N}.
Context (sa ra sp rp : Z) (st back : Z → byte) (start : Z).
Hypothesis Hsp : is_u16 sp.
Hypothesis Hrp : is_u16 rp.

(** A sender whose window the peer has closed: everything sent is acknowledged and there is
    more to send. *)
Definition window_closed (t : TCB) : Prop :=
  snd_inv st t ∧ snd_ok t ∧ rcv_inv back t ∧ SND_WND (SND t) = 0 ∧
  SND_UNA (SND t) = SND_NXT (SND t) ∧ SND_NXT (SND t) < SND_LBW (SND t) ∧
  Cancelled t = false ∧ CurrentAck t ≤ SND_UNA (SND t) ∧
  SND_NXT (SND t) + 1 + MAX_BUF_SIZE < 4294967296.

Lemma window_closed_by t :
  snd_inv st t → snd_ok t → rcv_inv back t → SND_UNA (SND t) = SND_NXT (SND t) →
  SND_NXT (SND t) < SND_LBW (SND t) → Cancelled t = false → CurrentAck t ≤ SND_UNA (SND t) →
  SND_NXT (SND t) + 1 + MAX_BUF_SIZE < 4294967296 → window_closed (tcb_SND_WND 0 t).
Proof.
  intros [] Hok Hri HU HL Hcan HC Hmax. split_and!; try done. by apply (rcv_inv_frame back t).
Qed.

(** A tick of the probe sends the byte at [SND.NXT] and changes nothing. *)
Lemma probe_sends t :
  window_closed t →
  ∃ msg, Send_probe (skey sa ra sp rp) t = (Ok true, t, [EIP msg]) ∧
    segment_at sa ra sp rp st (SND_NXT (SND t)) 1 msg.
Proof.
  intros (Hsi & _ & Hri & _ & HU & HL & Hcan & _ & Hmax). destruct Hsi, Hri.
  unfold Send_probe. go_unfold. simpl.
  assert (Hb : zlookup (SND_Buffer (SND t)) (SequenceToBufferInd (SND_NXT (SND t)))
    = Some (st (SND_NXT (SND t)))) by (apply si_data; lia).
  rewrite Hb. simpl. rewrite Hcan. eexists. split; [reflexivity|].
  unfold MAX_BUF_SIZE in *.
  exists (RCV_NXT (RCV t)), (RCV_WND (RCV t)). split_and!; [done|unfold is_u32; lia..|lia].
Qed.

(** The acknowledgement of the probe's byte opens the window. *)
Lemma probe_acked t win msg now :
  window_closed t → 0 < win → ack_at sa ra sp rp (SND_NXT (SND t) + 1) win msg →
  ∃ t' tr, packet_in (skey sa ra sp rp) (deliver msg) now t = (Ok tt, t', tr) ∧
    SND_UNA (SND t') = SND_NXT (SND t) + 1 ∧ SND_WND (SND t') = win ∧
    SND_NXT (SND t') = SND_NXT (SND t) ∧ SND_LBW (SND t') = SND_LBW (SND t) ∧
    SND_Buffer (SND t') = SND_Buffer (SND t) ∧ Cancelled t' = false.
Proof.
  intros (Hsi & Hok & Hri & HW & HU & HL & Hcan & HC & Hmax) Hw (seq & -> & Hseq & _ & Hwin).
  pose proof Hsi as []. unfold MAX_BUF_SIZE in *.
  rewrite deliver_ip_message, packet_in_segment by (done || unfold is_u32; lia).
  assert (Hsok : seg_ok rp sp seq (SND_NXT (SND t) + 1) TCPFlagAck).
  { unfold seg_ok. rewrite TCPFlagAck_bit. split_and!; try done; unfold is_u32; lia. }
  set (seg := segment _ _ _ _ _ _ _ _ _).
  destruct (Receive_ok back seg [] (skey sa ra sp rp) now t)
    as (t' & tr & E & _ & _ & _ & _ & HB' & HN' & HL' & _ & Hm & _); [done|done|..].
  { unfold seg. rewrite segment_has_flag, TCPFlagAck_bit by done. done. }
  { intros d Hd. change (zlen (@nil byte)) with 0 in Hd. lia. }
  { unfold fits, seg. rewrite segment_SequenceNumber by done. destruct Hri.
    change (zlen (@nil byte)) with 0. unfold MAX_BUF_SIZE in *. lia. }
  pose proof (Receive_cancelled seg [] (skey sa ra sp rp) now t) as Hc'.
  unfold run_state in Hc'. rewrite E in Hc'. simpl in Hc'.
  exists t', tr. split; [done|]. unfold window_moves, ack_out_of_range, seg in Hm.
  rewrite segment_AckNumber, segment_WindowSize, (u16_small win), HW in Hm by (done || lia).
  rewrite HN', HL', HB', Hc'.
  destruct Hm as [(_ & _ & _ & _ & [Hr|Hcur])|(_ & HU' & HW' & _)]; [|lia|by split_and!].
  exfalso. revert Hr. bool_hyps; simpl; try done; lia.
Qed.

(** The sender wakes up. *)
Lemma probe_wakes t t1 :
  window_closed t → SND_UNA (SND t1) = SND_NXT (SND t) + 1 → 0 < SND_WND (SND t1) →
  SND_NXT (SND t1) = SND_NXT (SND t) → SND_LBW (SND t1) = SND_LBW (SND t) →
  SND_Buffer (SND t1) = SND_Buffer (SND t) → Cancelled t1 = false →
  ∃ next t2 tr, Send_wake_zero t1 = (Ok next, t2, tr) ∧ next ≠ SendReturn ∧
    SND_NXT (SND t2) = SND_UNA (SND t2) ∧ SND_UNA (SND t2) = SND_NXT (SND t) + 1 ∧
    SND_WND (SND t2) = SND_WND (SND t1) ∧ snd_inv st t2 ∧ lock_run false tr = Some false.
Proof.
  intros (Hsi & _ & _ & _ & HU & HL & _ & _ & Hmax) HU1 HW1 HN1 HL1 HB1 HC1.
  pose proof Hsi as []. unfold MAX_BUF_SIZE in *.
  unfold Send_wake_zero, Send_wake, Send_full. go_unfold. simpl.
  rewrite HC1. simpl. rewrite (proj2 (Z.eqb_neq _ _)) by lia. simpl.
  rewrite HN1, (u32_small (SND_NXT (SND t) + 1)) by lia.
  assert (Hinv : snd_inv st (tcb_SND_NXT (SND_NXT (SND t) + 1) t1)).
  { split; simpl; unfold MAX_BUF_SIZE; rewrite ?HU1, ?HL1, ?HB1; try done; try lia.
    eapply holds_weaken; [done|lia..]. }
  destruct (_ && _); simpl; rewrite ?HC1; simpl; eexists _, _, _; (split; [reflexivity|]);
    simpl; by split_and!.
Qed.
End zero_window.

(** ** Properties *)

(** C3: Retransmission makes up for every loss: take any state that the connection can reach
    over a network that reorders and repeats messages and loses any of them for good, in both
    directions.  As long as the sender has not given up (it is established and has a
    retransmission left) and its sequence numbers have not wrapped around, there is a
    continuation, in which lost messages reach the receiver only because the timer sends them
    again, after which the reader has got every byte that was sent, all of them are
    acknowledged and the retransmission queue is empty. *)
Theorem delivery_progress {N : Netstack} {NL : NetstackLaws N} (sa ra sp rp : Z)
    (st : Z → byte) (iss_c iss_s iss' : Z) (kl : SocketData) (s : sys) :
  is_u16 sp → is_u16 rp →
  0 ≤ iss_c → iss_c + 1 + MAX_BUF_SIZE < 4294967296 →
  0 ≤ iss_s → iss_s + 1 + MAX_BUF_SIZE < 4294967296 →
  rtc (lossy_step sa ra sp rp st) (established iss_c iss_s iss' kl) s →
  State (sender s) = ESTABLISHED → RetransmitCounter (sender s) < MAX_RETRANSMISSIONS →
  SND_NXT (SND (sender s)) + MAX_BUF_SIZE < 4294967296 →
  let nxt := SND_NXT (SND (sender s)) in
  ∃ s', rtc (step sa ra sp rp st) s s' ∧
    got s' = stretch st (iss_c + 1) (nxt - (iss_c + 1)) ∧
    SND_NXT (SND (sender s')) = nxt ∧ SND_UNA (SND (sender s')) = nxt ∧
    RetransmissionQueue (sender s') = [].
Proof.
  intros Hsp Hrp Hc0 Hc1 Hs0 Hs1 Hsteps Hst Hcnt Hroom nxt.
  pose proof (established_shadowed sa ra sp rp st iss_c iss_s iss' kl Hc0 Hc1 Hs0 Hs1) as Hsh.
  apply (shadowed_steps _ _ _ _ _ _ _ Hsp Hrp _ _ Hsteps) in Hsh.
  destruct (drain _ _ _ _ _ _ _ Hsp Hrp s Hsh) as (s1 & R1 & Hsh1 & HN1 & HQ1); [done|].
  destruct (shadowed_settled _ _ _ _ _ _ _ s1 Hsh1 HQ1) as (HU1 & HR1 & _). rewrite HN1 in HU1, HR1.
  destruct (read_all _ _ _ _ _ _ _ Hsp Hrp s1 Hsh1) as (s2 & R2 & Hsh2 & HS2 & HR2 & HL2).
  { unfold read_room. by rewrite HR1. }
  rewrite <-HS2 in *. destruct (shadowed_settled _ _ _ _ _ _ _ s2 Hsh2 HQ1) as (_ & _ & HG).
  exists s2. split; [by etrans|]. split_and!; [|done|done|done]. by rewrite HG, HL2, HR1.
Qed.

(** The run of [Delivery] after the segment is sent, and the network loses it. *)
Definition run_lost : sys := mkSys (sender run3) (receiver run3) [] [] (plan run3) (got run3).

Lemma delivery_progress_witness :
  wire run_lost = [] ∧ got run_lost = [] ∧
  ∃ s', rtc (step 1 2 1025 80 demo_text) run_lost s' ∧ got s' = [x61; x62] ∧
    SND_UNA (SND (sender s')) = 10.
Proof.
  split; [reflexivity|]. split; [reflexivity|].
  destruct (delivery_progress 1 2 1025 80 demo_text 7 900 0 (mkSocketData 2 80 0 0) run_lost)
    as (s' & R & HG & _ & HU & _).
  - unfold is_u16. lia.
  - unfold is_u16. lia.
  - lia.
  - by vm_compute.
  - lia.
  - by vm_compute.
  - apply (rtc_l _ _ run1); [|apply (rtc_l _ _ run2); [|apply (rtc_l _ _ run3); [|apply rtc_once]]].
    + apply lossy_go. exact demo_write.
    + apply lossy_go. exact demo_plan.
    + apply lossy_go. exact demo_segment.
    + apply (lossy_drop _ _ _ _ _ run3); intros m Hm; by apply elem_of_nil in Hm.
  - by vm_compute.
  - by vm_compute.
  - by vm_compute.
  - exists s'. split; [exact R|]. split; [rewrite HG; by vm_compute|rewrite HU; by vm_compute].
Defined.

(** C13: The probe of a closed window carries the connection on without losing its place.
    While the window is closed a tick of the probe sends the byte at [SND.NXT] and changes
    nothing, so the next tick sends the same byte again.  When it arrives at a receiver that
    has made room for more than that byte, the receiver takes it and acknowledges it; that
    acknowledgement, above [SND.NXT], is accepted, opens the window by what the receiver has
    left, and the goroutine it wakes up counts the byte: the sender goes on from exactly where
    the receiver is, with the rest of the stream still in its buffer. *)
Theorem zero_window_probe {N : Netstack} {NL : NetstackLaws N} (sa ra sp rp : Z)
    (st back : Z → byte) (start now : Z) (snd rcv : TCB) :
  is_u16 sp → is_u16 rp → window_closed st back snd → receiver_ok st start rcv →
  below (SND_NXT (SND snd)) rcv → RCV_NXT (RCV rcv) = SND_NXT (SND snd) → 1 < RCV_WND (RCV rcv) →
  ∃ msg ack rcv' tr snd1 tr1 next snd2 tr2,
    Send_probe (skey sa ra sp rp) snd = (Ok true, snd, [EIP msg]) ∧
    packet_in (rkey sa ra sp rp) (deliver msg) now rcv = (Ok tt, rcv', tr) ∧
    messages tr = [ack] ∧
    packet_in (skey sa ra sp rp) (deliver ack) now snd = (Ok tt, snd1, tr1) ∧
    Send_wake_zero snd1 = (Ok next, snd2, tr2) ∧ next ≠ SendReturn ∧
    RCV_NXT (RCV rcv') = SND_NXT (SND snd) + 1 ∧ SND_UNA (SND snd2) = SND_NXT (SND snd) + 1 ∧
    SND_NXT (SND snd2) = SND_NXT (SND snd) + 1 ∧ SND_WND (SND snd2) = RCV_WND (RCV rcv) - 1 ∧
    rcv_inv st rcv' ∧ snd_inv st snd2 ∧ lock_run false tr2 = Some false.
Proof.
  intros Hsp Hrp Hclosed Hro Hb Hn Hw.
  destruct (probe_sends sa ra sp rp st back snd Hclosed) as (msg & Hprobe & Hseg).
  pose proof (ro_inv _ _ _ Hro) as [].
  destruct (receiver_segment sa ra sp rp st start Hsp Hrp rcv _ _ msg now Hro Hseg)
    as (rcv' & tr & E & Hro' & HL & _ & _ & Hup & Harr & _ & Hms); [lia|].
  specialize (Hup (eq_sym Hn)).
  destruct (Harr (λ x, x ≤ SND_NXT (SND snd) + 1)) as [Hle _]; [lia| |].
  { destruct Hb as [H1 H2]. split; [lia|]. intros e He. specialize (H2 e He). simpl in H2. lia. }
  simpl in Hle. pose proof (ro_inv _ _ _ Hro') as Hri'.
  assert (Hnxt : RCV_NXT (RCV rcv') = SND_NXT (SND snd) + 1) by lia.
  assert (Hwnd : RCV_WND (RCV rcv') = RCV_WND (RCV rcv) - 1) by (destruct Hri'; lia).
  destruct (ack_of_at sa ra sp rp st start rcv' Hro') as [Hat _]. rewrite Hnxt, Hwnd in Hat.
  destruct (probe_acked sa ra sp rp st back Hsp Hrp snd (RCV_WND (RCV rcv) - 1) _ now
    Hclosed ltac:(lia) Hat) as (snd1 & tr1 & E1 & HU1 & HW1 & HN1 & HL1 & HB1 & HC1).
  destruct (probe_wakes st back snd snd1 Hclosed HU1 ltac:(lia) HN1 HL1 HB1 HC1)
    as (next & snd2 & tr2 & E2 & Hne & HN2 & HU2 & HW2 & Hsi2 & Hlk).
  exists msg, (ack_of sa ra sp rp rcv'), rcv', tr, snd1, tr1, next, snd2, tr2.
  split_and!; try done; lia.
Qed.

(** "ab" is written, and the peer has closed its window and opened it again. *)
Lemma zero_window_probe_witness :
  let snd := tcb_SND_WND 0 (sender run1) in
  ∃ msg ack rcv' tr snd1 tr1 next snd2 tr2,
    Send_probe (skey 1 2 1025 80) snd = (Ok true, snd, [EIP msg]) ∧
    packet_in (rkey 1 2 1025 80) (deliver msg) 0 (receiver run1) = (Ok tt, rcv', tr) ∧
    messages tr = [ack] ∧
    packet_in (skey 1 2 1025 80) (deliver ack) 0 snd = (Ok tt, snd1, tr1) ∧
    Send_wake_zero snd1 = (Ok next, snd2, tr2) ∧ RCV_NXT (RCV rcv') = 9 ∧
    SND_NXT (SND snd2) = 9.
Proof.
  intros snd.
  assert (Hinv : inv 1 2 1025 80 demo_text (λ _, x00) 8 run1).
  { eapply step_inv; [unfold is_u16; lia..| |exact demo_write].
    by apply (established_inv 1 2 1025 80 demo_text 7 900 0 (mkSocketData 2 80 0 0)). }
  destruct (i_sender _ _ _ _ _ _ _ _ Hinv) as [Hsi Hok Hri _ _ _ _ _ _ _].
  destruct (zero_window_probe 1 2 1025 80 demo_text (λ _, x00) 8 0 snd (receiver run1))
    as (msg & ack & rcv' & tr & snd1 & tr1 & next & snd2 & tr2 & E1 & E2 & E3 & E4 & E5 & _ & HR & _ & HN & _).
  - unfold is_u16. lia.
  - unfold is_u16. lia.
  - apply (window_closed_by _ _ _ Hsi Hok Hri); by vm_compute.
  - exact (i_receiver _ _ _ _ _ _ _ _ Hinv).
  - pose proof (i_below _ _ _ _ _ _ _ _ Hinv) as Hb.
    replace (SND_NXT (SND snd)) with (SND_NXT (SND (sender run1))) by (by vm_compute). exact Hb.
  - by vm_compute.
  - by vm_compute.
  - exists msg, ack, rcv', tr, snd1, tr1, next, snd2, tr2.
    split_and!; [exact E1|exact E2|exact E3|exact E4|exact E5|..].
    + rewrite HR. by vm_compute.
    + rewrite HN. by vm_compute.
Defined.
