(* ===== verification/Teardown.v ===== *)
(** * Closing a connection

    The orderly release between two hosts through [Close], [ReceiveFin], [HandleFinWait1],
    [HandleFinWait2], [HandleLastAck] and [WaitForClosed], and what goes wrong when the
    two sides close at the same time. *)

From S2P Require Import Prelude GoLang Wire WireRef Ring TcpData EarlyArrivals Congestion Rto Retransmit TcpReceive TcpHandler TcpApi TcpStream TcpStates Handshake TcpSend Delivery.

Section teardown.
Context {N : Netstack} {NL : NetstackLaws N}.

(** A packet on a connection, in any state that handles it by itself. *)
Definition tcb_packet (key : SocketData) (data : list byte) (now : Z) : TM unit :=
  payload ← try (slice data (DataOffset data) (zlen data));
  tcb ← get;
  dispatch_tcb (State tcb) data payload (LocalAddr key) (LocalPort key) (DestAddr key)
    (DestPort key) key 0 now.

(** The call of [Close] on the TCB of a connection. *)
Definition close_call (localAddr : Z) (key : SocketData) : TM close_next :=
  emit ELock;;
  modify (set_PendingSendingFin true);;
  Close_test localAddr key.

(** The FIN of a connection, and the state it leaves. *)
Definition fin_ack (t : TCB) : Z :=
  if decide (State t = CLOSE_WAIT) then RCV_NXT (RCV t) + 1 else RCV_NXT (RCV t).

Definition fin_header (key : SocketData) (t : TCB) : TCPFields :=
  CreateTCPHeader (LocalAddr key) (DestAddr key) (LocalPort key) (DestPort key)
    (SND_NXT (SND t)) (fin_ack t) (Z.lor TCPFlagFin TCPFlagAck) (RCV_WND (RCV t)) [].

Lemma close_call_ok key t :
  SND_NXT (SND t) = SND_LBW (SND t) → 0 ≤ SND_NXT (SND t) < 4294967295 →
  0 ≤ RCV_NXT (RCV t) < 4294967295 →
  ∃ t', close_call (LocalAddr key) key t =
      (Ok CloseWaitClosed, t',
       [ELock; ESignal SendBlockedCond; EBroadcast WriteBlockedCond;
        EIP (ip_message (LocalAddr key) (DestAddr key) (fin_header key t) []); EUnlock; ERTO]) ∧
    State t' = (if decide (State t = CLOSE_WAIT) then LAST_ACK else FIN_WAIT_1) ∧
    SND_NXT (SND t') = SND_NXT (SND t) + 1 ∧ RCV t' = RCV t ∧
    EarlyArrivalQueue t' = EarlyArrivalQueue t ∧
    RetransmissionQueue t' = RetransmissionQueue t ++ [mkRetransmitSegment (fin_header key t) 0] ∧
    Cancelled t' = true ∧ (snd_ok t → snd_ok t').
Proof.
  intros Hn Hs Hr. unfold close_call, Close_test, Close_fin. go_unfold. simpl.
  rewrite (proj2 (Z.eqb_eq _ _) Hn). simpl. unfold fin_header, fin_ack.
  rewrite !u32_small by lia.
  destruct (decide (State t = CLOSE_WAIT)) as [Hc|Hc].
  - rewrite bool_decide_eq_true_2 by done. eexists. split; [reflexivity|]. simpl.
    split_and!; try done. intros (? & ? & ?). split_and!; try done. simpl.
    apply Forall_app. split; [done|]. by constructor.
  - rewrite bool_decide_eq_false_2 by done. eexists. split; [reflexivity|]. simpl.
    split_and!; try done. intros (? & ? & ?). split_and!; try done. simpl.
    apply Forall_app. split; [done|]. by constructor.
Qed.

(** What the call leaves alone. *)
Lemma close_call_frame key t t' r tr :
  close_call (LocalAddr key) key t = (r, t', tr) →
  PendingReceivedFin t' = PendingReceivedFin t ∧ SND_UNA (SND t') = SND_UNA (SND t) ∧
  SND_WND (SND t') = SND_WND (SND t) ∧ CurrentAck t' = CurrentAck t.
Proof.
  unfold close_call, Close_test, Close_fin. go_unfold. simpl.
  destruct (negb _); simpl; intros ?; by simplify_eq.
Qed.

(** A segment without data. *)
Lemma tcb_packet_segment key src dst p1 p2 seq ack flags win now t :
  seg_ok p1 p2 seq ack flags →
  tcb_packet key (segment src dst p1 p2 seq ack flags win []) now t =
    dispatch_tcb (State t) (segment src dst p1 p2 seq ack flags win []) []
      (LocalAddr key) (LocalPort key) (DestAddr key) (DestPort key) key 0 now t.
Proof.
  intros Hok. unfold tcb_packet, mbind, go_bind. rewrite segment_payload by done. simpl.
  by destruct (dispatch_tcb _ _ _ _ _ _ _ _ _ _ _) as [[[] ?] ?].
Qed.

Ltac flag_bits := rewrite ?TCPFlagSyn_bit, ?TCPFlagAck_bit, ?TCPFlagFin_bit.

Lemma fin_flags_ok p1 p2 seq ack :
  is_u16 p1 → is_u16 p2 → is_u32 seq → is_u32 ack →
  seg_ok p1 p2 seq ack (Z.lor TCPFlagFin TCPFlagAck).
Proof. intros. unfold seg_ok. flag_bits. simpl. split_and!; try done; lia. Qed.

Lemma ack_flags_ok p1 p2 seq ack :
  is_u16 p1 → is_u16 p2 → is_u32 seq → is_u32 ack → seg_ok p1 p2 seq ack TCPFlagAck.
Proof. intros. unfold seg_ok. flag_bits. done. Qed.

Lemma fin_segment_flags a b q1 q2 seq ack win :
  seg_ok q1 q2 seq ack (Z.lor TCPFlagFin TCPFlagAck) →
  let seg := segment a b q1 q2 seq ack (Z.lor TCPFlagFin TCPFlagAck) win [] in
  has_flag seg TCPFlagFin = true ∧ has_flag seg TCPFlagAck = true.
Proof. intros. unfold seg. rewrite !segment_has_flag by done. by flag_bits. Qed.

Lemma ack_segment_flags a b q1 q2 seq ack win :
  seg_ok q1 q2 seq ack TCPFlagAck →
  let seg := segment a b q1 q2 seq ack TCPFlagAck win [] in
  has_flag seg TCPFlagFin = false ∧ has_flag seg TCPFlagAck = true.
Proof. intros. unfold seg. rewrite !segment_has_flag by done. by flag_bits. Qed.

Context (src dst p1 p2 : Z).
Hypothesis Hp1 : is_u16 p1.
Hypothesis Hp2 : is_u16 p2.

(** The two ends; the messages below go from [dst] to [src]. *)
Definition here : SocketData := mkSocketData src p1 dst p2.

Lemma established_fin seq ack win now t :
  State t = ESTABLISHED → seq = RCV_NXT (RCV t) → is_u32 ack → 0 ≤ seq < 4294967295 →
  tcb_packet here (segment dst src p2 p1 seq ack (Z.lor TCPFlagFin TCPFlagAck) win []) now t =
    (Ok tt, set_State CLOSE_WAIT t,
     [ELock; ESignal ReadBlockedCond; EIP (ack_message here t (RCV_NXT (RCV t) + 1)); EUnlock]).
Proof.
  intros Hs -> Hack Hseq.
  assert (Hok : seg_ok p2 p1 (RCV_NXT (RCV t)) ack (Z.lor TCPFlagFin TCPFlagAck))
    by (apply fin_flags_ok; try done; unfold is_u32; lia).
  rewrite tcb_packet_segment, Hs by done.
  destruct (fin_segment_flags dst src _ _ _ _ win Hok) as [Hfin _].
  pose proof (segment_SequenceNumber dst src _ _ _ _ _ win [] Hok) as Hsn.
  unfold dispatch_tcb, HandleEstablished, ReceiveFin, send_ack. rewrite Hfin. go_unfold. simpl.
  rewrite Hsn, Z.eqb_refl. simpl. by rewrite u32_small by lia.
Qed.

Lemma fin_wait_1_ack st seq ack win now t :
  State t = FIN_WAIT_1 → rcv_inv st t → snd_ok t → is_u32 seq →
  ack = SND_NXT (SND t) → is_u32 ack →
  ∃ t' tr, tcb_packet here (segment dst src p2 p1 seq ack TCPFlagAck win []) now t =
      (Ok tt, t', tr) ∧
    State t' = FIN_WAIT_2 ∧ RCV t' = RCV t ∧ SND_NXT (SND t') = SND_NXT (SND t) ∧
    lock_run false tr = Some false.
Proof.
  intros Hs Hinv Hok Hseq -> Hack.
  assert (Hsok : seg_ok p2 p1 seq (SND_NXT (SND t)) TCPFlagAck) by (by apply ack_flags_ok).
  rewrite tcb_packet_segment, Hs by done.
  destruct (ack_segment_flags dst src _ _ _ _ win Hsok) as [_ Ha].
  pose proof (segment_SequenceNumber dst src _ _ _ _ _ win [] Hsok) as Hsn.
  pose proof (segment_AckNumber dst src _ _ _ _ _ win [] Hsok) as Han.
  set (seg := segment _ _ _ _ _ _ _ _ _) in *. clearbody seg.
  unfold dispatch_tcb, HandleFinWait1, mbind, go_bind, emit, get, modify.
  rewrite Ha. simpl. rewrite Han, Z.eqb_refl.
  destruct (Receive_ok st seg [] here now (set_State FIN_WAIT_2 t))
    as (t' & tr & E & Hri & _ & Hl & HL & _ & HN & _ & _ & _ & Hb & Hle & _ & _ & Hz);
    [by apply (rcv_inv_frame st t)|done|done|..].
  { intros d Hd. change (zlen (@nil byte)) with 0 in Hd. lia. }
  { unfold fits. rewrite Hsn. destruct Hinv. simpl in *.
    change (zlen (@nil byte)) with 0. unfold MAX_BUF_SIZE in *. lia. }
  rewrite E. eexists t', _. split; [reflexivity|].
  destruct (Hz eq_refl) as (Hst & HR & _). done.
Qed.

Lemma fin_wait_2_fin seq ack win now t :
  State t = FIN_WAIT_2 → seq = RCV_NXT (RCV t) → is_u32 ack → 0 ≤ seq < 4294967295 →
  ∃ t', tcb_packet here (segment dst src p2 p1 seq ack (Z.lor TCPFlagFin TCPFlagAck) win []) now t =
      (Ok tt, t', [ELock; EIP (ack_message here t' (seq + 1)); EUnlock;
                   EGo (GoWaitForClosed here)]) ∧
    State t' = TIME_WAIT ∧ RCV_NXT (RCV t') = seq + 1 ∧ SND t' = SND t ∧
    ResetWaitChan t' = true.
Proof.
  intros Hs -> Hack Hseq.
  assert (Hok : seg_ok p2 p1 (RCV_NXT (RCV t)) ack (Z.lor TCPFlagFin TCPFlagAck))
    by (apply fin_flags_ok; try done; unfold is_u32; lia).
  rewrite tcb_packet_segment, Hs by done.
  destruct (fin_segment_flags dst src _ _ _ _ win Hok) as [Hfin _].
  pose proof (segment_SequenceNumber dst src _ _ _ _ _ win [] Hok) as Hsn.
  unfold dispatch_tcb, HandleFinWait2, send_ack. rewrite Hfin. go_unfold. simpl.
  rewrite Hsn, Z.eqb_refl. simpl. rewrite u32_small by lia.
  exists (set_ResetWaitChan true (tcb_RCV_NXT (RCV_NXT (RCV t) + 1) (set_State TIME_WAIT t))).
  split; [reflexivity|]. done.
Qed.

Lemma last_ack_ack seq ack win now t :
  State t = LAST_ACK → is_u32 seq → ack = SND_NXT (SND t) → is_u32 ack →
  ∃ t', tcb_packet here (segment dst src p2 p1 seq ack TCPFlagAck win []) now t =
      (Ok tt, t', [ELock; EReceiveChan here; EUnlock]) ∧ State t' = CLOSED.
Proof.
  intros Hs Hseq -> Hack.
  assert (Hsok : seg_ok p2 p1 seq (SND_NXT (SND t)) TCPFlagAck) by (by apply ack_flags_ok).
  rewrite tcb_packet_segment, Hs by done.
  destruct (ack_segment_flags dst src _ _ _ _ win Hsok) as [_ Ha].
  pose proof (segment_AckNumber dst src _ _ _ _ _ win [] Hsok) as Han.
  set (seg := segment _ _ _ _ _ _ _ _ _) in *. clearbody seg.
  unfold dispatch_tcb, HandleLastAck, when, mbind, go_bind, emit, get, modify.
  rewrite Ha. simpl. rewrite Han, Z.eqb_refl. simpl. rewrite remove_spec. simpl.
  eexists. split; [reflexivity|].
  apply (ack_queue_frame (SND_NXT (SND t)) (set_State CLOSED t)).
Qed.
End teardown.

(** ** Properties *)

(** The data a TCB needs for an orderly release: nothing is left to send, and no sequence
    number is at the end of its range. *)
Definition can_close (st : Z → byte) (t : TCB) : Prop :=
  State t = ESTABLISHED ∧ SND_NXT (SND t) = SND_LBW (SND t) ∧
  0 ≤ SND_NXT (SND t) < 4294967295 ∧ RCV_NXT (RCV t) < 4294967295 ∧
  rcv_inv st t ∧ snd_ok t.

(** C15: The orderly release works: when one side closes and then the other, with the
    messages delivered in order, the side that closed first goes through FIN_WAIT_1 and
    FIN_WAIT_2 to TIME_WAIT and, after the timer, to CLOSED; the other one goes through
    CLOSE_WAIT and LAST_ACK to CLOSED; each FIN is acknowledged by its sequence number
    plus one, the blocked calls of [Close] are released, and no lock stays held. *)
Theorem orderly_release {N : Netstack} {NL : NetstackLaws N} (sa ra sp rp now : Z)
    (st1 st2 : Z → byte) (a b : TCB) :
  let ka := skey sa ra sp rp in let kb := rkey sa ra sp rp in
  is_u16 sp → is_u16 rp → can_close st1 a → can_close st2 b →
  RCV_NXT (RCV b) = SND_NXT (SND a) → RCV_NXT (RCV a) = SND_NXT (SND b) →
  ∃ a1 a2 a3 b1 b2 b3 fin1 ack1 fin2 ack2 tr,
    close_call sa ka a = (Ok CloseWaitClosed, a1,
      [ELock; ESignal SendBlockedCond; EBroadcast WriteBlockedCond; EIP fin1; EUnlock; ERTO]) ∧
    tcb_packet kb (deliver fin1) now b = (Ok tt, b1,
      [ELock; ESignal ReadBlockedCond; EIP ack1; EUnlock]) ∧
    tcb_packet ka (deliver ack1) now a1 = (Ok tt, a2, tr) ∧
    close_call ra kb b1 = (Ok CloseWaitClosed, b2,
      [ELock; ESignal SendBlockedCond; EBroadcast WriteBlockedCond; EIP fin2; EUnlock; ERTO]) ∧
    tcb_packet ka (deliver fin2) now a2 = (Ok tt, a3,
      [ELock; EIP ack2; EUnlock; EGo (GoWaitForClosed ka)]) ∧
    tcb_packet kb (deliver ack2) now b2 = (Ok tt, b3, [ELock; EReceiveChan kb; EUnlock]) ∧
    [State a1; State a2; State a3] = [FIN_WAIT_1; FIN_WAIT_2; TIME_WAIT] ∧
    [State b1; State b2; State b3] = [CLOSE_WAIT; LAST_ACK; CLOSED] ∧
    lock_run false tr = Some false ∧
    run_res (WaitForClosed_timeout ka) a3 = Ok tt ∧
    State (run_state (WaitForClosed_timeout ka) a3) = CLOSED ∧
    run_trace (WaitForClosed_timeout ka) a3 = [ELock; EReceiveChan ka; EUnlock].
Proof.
  intros ka kb Hsp Hrp (Sa & La & Na & Ra & Ia & Oa) (Sb & Lb & Nb & Rb & Ib & Ob) Hab Hba.
  assert (Ha0 : 0 ≤ RCV_NXT (RCV a)) by (destruct Ia; lia).
  assert (Hb0 : 0 ≤ RCV_NXT (RCV b)) by (destruct Ib; lia).
  destruct (close_call_ok ka a La Na) as (a1 & E1 & S1 & N1 & R1 & Q1 & _ & _ & O1); [lia|].
  rewrite decide_False in S1 by (by rewrite Sa).
  pose proof (established_fin ra sa rp sp Hrp Hsp (SND_NXT (SND a)) (fin_ack a)
    (RCV_WND (RCV a)) now b Sb (eq_sym Hab)) as E2.
  destruct (fin_wait_1_ack sa ra sp rp Hsp Hrp st1 (SND_NXT (SND b)) (RCV_NXT (RCV b) + 1)
    (RCV_WND (RCV b)) now a1) as (a2 & tr & E3 & S3 & R3 & N3 & L3);
    [done|by apply (rcv_inv_frame st1 a)|by apply O1|unfold is_u32; lia|lia|unfold is_u32; lia|].
  set (b1 := set_State CLOSE_WAIT b) in *.
  destruct (close_call_ok kb b1) as (b2 & E4 & S4 & N4 & R4 & _); [done..|simpl; lia|].
  rewrite decide_True in S4 by done.
  assert (Hfaa : fin_ack a = RCV_NXT (RCV a))
    by (unfold fin_ack; rewrite decide_False; [done|by rewrite Sa]).
  assert (Hfa : fin_ack b1 = RCV_NXT (RCV b) + 1) by (unfold fin_ack; by rewrite decide_True).
  destruct (fin_wait_2_fin sa ra sp rp Hsp Hrp (SND_NXT (SND b)) (fin_ack b1)
    (RCV_WND (RCV b)) now a2) as (a3 & E5 & S5 & R5 & N5 & _);
    [done|by rewrite R3, R1|rewrite Hfa; unfold is_u32; lia|lia|].
  destruct (last_ack_ack ra sa rp sp Hrp Hsp (SND_NXT (SND a3)) (SND_NXT (SND b) + 1)
    (RCV_WND (RCV a3)) now b2) as (b3 & E6 & S6);
    [done|rewrite N5, N3, N1; unfold is_u32; lia|by rewrite N4|unfold is_u32; lia|].
  exists a1, a2, a3, b1, b2, b3. do 5 eexists.
  split; [exact E1|]. split; [apply E2; [rewrite Hfaa; unfold is_u32; lia|lia]|].
  split; [exact E3|]. split; [exact E4|]. split; [exact E5|]. split; [exact E6|].
  rewrite S1, S3, S5, S4, S6. split_and!; done.
Qed.

Lemma orderly_release_witness :
  let ka := skey 1 2 1025 80 in let kb := rkey 1 2 1025 80 in
  let a := client_TCB 7 900 0 in let b := server_TCB 7 900 (mkSocketData 2 80 0 0) in
  ∃ a1 fin1 ack1 b1 a2 tr tr1,
    close_call 1 ka a = (Ok CloseWaitClosed, a1, tr1) ∧
    tcb_packet kb (deliver fin1) 0 b =
      (Ok tt, b1, [ELock; ESignal ReadBlockedCond; EIP ack1; EUnlock]) ∧
    tcb_packet ka (deliver ack1) 0 a1 = (Ok tt, a2, tr) ∧
    [State a1; State a2] = [FIN_WAIT_1; FIN_WAIT_2] ∧ State b1 = CLOSE_WAIT.
Proof.
  intros ka kb a b.
  destruct (orderly_release 1 2 1025 80 0 (λ _, x00) (λ _, x00) a b)
    as (a1 & a2 & a3 & b1 & b2 & b3 & fin1 & ack1 & fin2 & ack2 & tr & E1 & E2 & E3 & _ & _ & _ &
        Sa & Sb & _).
  - unfold is_u16. lia.
  - unfold is_u16. lia.
  - destruct (client_TCB_ok 7 900 0 (λ _, x00) (λ _, x00)) as (H1 & _ & H2); [by vm_compute..|].
    split_and!; [reflexivity|reflexivity|by vm_compute|by vm_compute|by vm_compute|exact H1|exact H2].
  - destruct (server_TCB_ok 7 900 (mkSocketData 2 80 0 0) (λ _, x00) (λ _, x00)) as (H1 & _ & H2);
      [by vm_compute..|].
    split_and!; [reflexivity|reflexivity|by vm_compute|by vm_compute|by vm_compute|exact H1|exact H2].
  - reflexivity.
  - reflexivity.
  - injection Sa as Sa1 Sa2 _. injection Sb as Sb1 _ _.
    exists a1, fin1, ack1, b1, a2, tr. eexists.
    split; [exact E1|]. split; [exact E2|]. split; [exact E3|]. by rewrite Sa1, Sa2, Sb1.
Defined.

(** An early FIN in [ESTABLISHED] is remembered. *)
Lemma early_fin_pending {N : Netstack} (fin : list byte) (key : SocketData) (now : Z) (t : TCB) :
  has_flag fin TCPFlagFin = true → RCV_NXT (RCV t) < SequenceNumber fin →
  HandleEstablished fin key [] now t =
    (Ok tt, set_PendingReceivedFin (SequenceNumber fin) t,
     [ELock; EIP (ack_message key (set_PendingReceivedFin (SequenceNumber fin) t)
                    (RCV_NXT (RCV t))); EUnlock]).
Proof.
  intros Hf Hlt. unfold HandleEstablished. rewrite Hf. unfold ReceiveFin, send_ack. go_unfold. simpl.
  rewrite (proj2 (Z.eqb_neq _ _)) by lia. by rewrite (proj2 (Z.ltb_lt _ _)) by lia.
Qed.

(** An idle connection: everything sent is acknowledged and the window is open. *)
Definition idle (t : TCB) : Prop :=
  RetransmissionQueue t = [] ∧ SND_UNA (SND t) = SND_NXT (SND t) ∧
  0 < SND_WND (SND t) ≤ MAX_BUF_SIZE ∧ SND_UNA (SND t) + MAX_BUF_SIZE < 4294967296 ∧
  CurrentAck t ≤ SND_UNA (SND t) ∧ EarlyArrivalQueue t = [].

(** The last data, with the acknowledgement of our FIN, after an early FIN and a [Close]. *)
Lemma fin_wait_1_late_fin {N : Netstack} st (data payload : list byte) key now t e :
  State t = FIN_WAIT_1 → rcv_inv st t → snd_ok t → EarlyArrivalQueue t = [] →
  RetransmissionQueue t = [e] → SeqNum (RTCPHeader e) < SND_NXT (SND t) →
  SND_NXT (SND t) = SND_UNA (SND t) + 1 → CurrentAck t ≤ SND_UNA (SND t) →
  0 < SND_WND (SND t) ≤ MAX_BUF_SIZE → 0 ≤ SND_UNA (SND t) →
  SND_UNA (SND t) + MAX_BUF_SIZE < 4294967296 →
  has_flag data TCPFlagAck = true → SequenceNumber data = RCV_NXT (RCV t) →
  AckNumber data = SND_NXT (SND t) → carries st (RCV_NXT (RCV t)) payload →
  0 < zlen payload ≤ RCV_WND (RCV t) →
  PendingReceivedFin t = RCV_NXT (RCV t) + zlen payload →
  ∃ t' tr, HandleFinWait1 data key payload now t = (Ok tt, t', tr) ∧
    State t' = CLOSE_WAIT ∧ RetransmissionQueue t' = [].
Proof.
  intros Hs Hinv Hok HE HQ Hsq HN HC Hw H0 Hmax Ha Hseq Hack Hc Hlen HP.
  pose proof (Receive_pending_fin st data payload key now (set_State FIN_WAIT_2 t)) as Hst.
  destruct (Receive_ok st data payload key now (set_State FIN_WAIT_2 t))
    as (t' & tr & E & _ & _ & _ & _ & _ & _ & _ & _ & Hm & _);
    [by apply (rcv_inv_frame st t)|done|done|by rewrite Hseq|..].
  { unfold fits. rewrite Hseq. destruct Hinv. simpl in *. lia. }
  unfold run_state in Hst. rewrite E in Hst.
  unfold HandleFinWait1, mbind, go_bind, emit, get, modify. rewrite Ha, Hack, Z.eqb_refl. simpl.
  rewrite E. eexists _, _. split; [reflexivity|].
  split; [apply Hst; try done; by apply (rcv_inv_frame st t)|].
  unfold window_moves, ack_out_of_range in Hm. rewrite Hack in Hm. simpl in Hm.
  unfold MAX_BUF_SIZE in *. rewrite u32_small in Hm by lia. rewrite HQ in Hm. simpl in Hm.
  rewrite (proj2 (Z.ltb_lt _ _) Hsq) in Hm.
  destruct Hm as [(_ & _ & _ & _ & Hwhy)|(_ & _ & _ & HQ' & _)]; [|done].
  exfalso. destruct Hwhy as [Hr|Hcur]; [|lia]. revert Hr. bool_hyps; simpl; try done; lia.
Qed.

(** C37: A connection whose FIN crosses the last data of the peer never closes: when the FIN
    of the peer comes before its last data, the application then closes, and the data comes
    with the acknowledgement of our FIN, the connection goes from [FIN_WAIT_1] to
    [CLOSE_WAIT], which is no edge of the state diagram; there, no packet and no timeout
    changes it any more, so the blocked call of [Close] is never released. *)
Theorem early_fin_never_closes {N : Netstack} (st : Z → byte) (key : SocketData)
    (fin data payload : list byte) (now : Z) (t : TCB) :
  can_close st t → idle t →
  has_flag fin TCPFlagFin = true → SequenceNumber fin = RCV_NXT (RCV t) + zlen payload →
  has_flag data TCPFlagAck = true → SequenceNumber data = RCV_NXT (RCV t) →
  AckNumber data = SND_NXT (SND t) + 1 → carries st (RCV_NXT (RCV t)) payload →
  0 < zlen payload ≤ RCV_WND (RCV t) →
  ∃ t1 t2 t3 tr1 tr2 tr3,
    HandleEstablished fin key [] now t = (Ok tt, t1, tr1) ∧
    close_call (LocalAddr key) key t1 = (Ok CloseWaitClosed, t2, tr2) ∧
    HandleFinWait1 data key payload now t2 = (Ok tt, t3, tr3) ∧
    [State t1; State t2; State t3] = [ESTABLISHED; FIN_WAIT_1; CLOSE_WAIT] ∧
    ~ packet_edge (State t2) (State t3) ∧
    (∀ hdr pl la sp da dp iss now',
       run_state (dispatch_tcb (State t3) hdr pl la sp da dp key iss now') t3 = t3) ∧
    (∀ now', run_state (waitTimeout_fire key now') t3 = t3).
Proof.
  intros (Hs & HL & Hn & Hr & Hinv & Hok) (HQ & HU & Hw & Hmax & HC & HE) Hf Hfs Ha Hds Hack Hc Hlen.
  pose proof Hinv as []. assert (H0 : 0 ≤ RCV_NXT (RCV t)) by lia.
  pose proof (early_fin_pending fin key now t Hf ltac:(lia)) as E1.
  set (t1 := set_PendingReceivedFin (SequenceNumber fin) t) in *.
  destruct (close_call_ok key t1) as (t2 & E2 & S2 & N2 & R2 & Q2 & HQ2 & _ & Hok2);
    [exact HL|exact Hn|simpl; lia|].
  rewrite decide_False in S2 by (by simpl; rewrite Hs).
  destruct (close_call_frame key t1 t2 _ _ E2) as (HP2 & HU2 & HW2 & HC2). simpl in *.
  destruct (fin_wait_1_late_fin st data payload key now t2 (mkRetransmitSegment (fin_header key t1) 0))
    as (t3 & tr3 & E3 & S3 & Q3); rewrite ?R2, ?N2, ?HU2, ?HW2, ?HC2, ?HP2, ?Q2, ?HQ2, ?HQ; try done;
    try (simpl; lia).
  { by apply (rcv_inv_frame st t). }
  { by apply Hok2. }
  exists t1, t2, t3. do 3 eexists. split; [exact E1|]. split; [exact E2|]. split; [exact E3|].
  rewrite S2, S3. split_and!; [by simpl; rewrite Hs|by inversion 1|..].
  - intros. unfold run_state. simpl. unfold HandleCloseWait, send_ack. go_unfold.
    by destruct (has_flag hdr TCPFlagFin).
  - intros. unfold run_state, waitTimeout_fire. go_unfold. rewrite S3, Q3. done.
Qed.

Lemma early_fin_never_closes_witness :
  let fin := demo_header 103 500 17 65535 [] in
  let payload := stretch demo_stream 100 3 in
  let data := demo_header 100 501 16 65535 payload in
  ∃ t1 t2 t3 tr1 tr2 tr3,
    HandleEstablished fin demo_key [] 0 demo_conn = (Ok tt, t1, tr1) ∧
    close_call 167772161 demo_key t1 = (Ok CloseWaitClosed, t2, tr2) ∧
    HandleFinWait1 data demo_key payload 0 t2 = (Ok tt, t3, tr3) ∧
    State t2 = FIN_WAIT_1 ∧ State t3 = CLOSE_WAIT.
Proof.
  intros fin payload data.
  destruct (early_fin_never_closes demo_stream demo_key fin data payload 0 demo_conn)
    as (t1 & t2 & t3 & tr1 & tr2 & tr3 & E1 & E2 & E3 & Hs & _).
  - unfold can_close. by split_and!; try exact demo_conn_rcv_inv; try exact demo_conn_snd_ok.
  - unfold idle. by split_and!.
  - by vm_compute.
  - by vm_compute.
  - by vm_compute.
  - by vm_compute.
  - by vm_compute.
  - by apply carries_stretch.
  - by vm_compute.
  - exists t1, t2, t3, tr1, tr2, tr3. split_and!; [exact E1|exact E2|exact E3|..]; congruence.
Defined.

(** C38: After a simultaneous close the connection can block for good: the transition from
    CLOSING to TIME_WAIT starts the timer but makes no [ResetWaitChan], so a FIN that the
    peer sends again blocks the receiving goroutine on a channel that does not exist, with
    the lock of the TCB held; the timer goroutine needs that lock to close the
    connection. *)
Theorem simultaneous_close_blocks {N : Netstack} (key : SocketData) (ack fin : list byte)
    (t : TCB) :
  State t = CLOSING → ResetWaitChan t = false →
  has_flag ack TCPFlagAck = true → AckNumber ack = SND_NXT (SND t) →
  has_flag fin TCPFlagFin = true →
  ∃ t1, HandleClosing ack key t =
      (Ok tt, t1, [ELock; EGo (GoWaitForClosed key); EUnlock]) ∧
    State t1 = TIME_WAIT ∧
    run_res (HandleTimeWait fin key) t1 = Hang ∧
    lock_run false (run_trace (HandleTimeWait fin key) t1) = Some true.
Proof.
  intros Hs Hc Ha Hn Hf. unfold HandleClosing. go_unfold. rewrite Ha. simpl.
  rewrite Hn, Z.eqb_refl. simpl. eexists. split; [reflexivity|].
  unfold run_res, run_trace, HandleTimeWait, send_ack. go_unfold. rewrite Hf. simpl.
  by rewrite Hc.
Qed.

Lemma simultaneous_close_blocks_witness :
  let t := set_State CLOSING demo_conn in
  let ack := demo_header 100 500 16 65535 [] in
  let fin := demo_header 100 500 17 65535 [] in
  ∃ t1, HandleClosing ack demo_key t =
      (Ok tt, t1, [ELock; EGo (GoWaitForClosed demo_key); EUnlock]) ∧
    run_res (HandleTimeWait fin demo_key) t1 = Hang.
Proof.
  intros t ack fin.
  destruct (simultaneous_close_blocks demo_key ack fin t) as (t1 & E & _ & Hh & _).
  - reflexivity.
  - reflexivity.
  - by vm_compute.
  - by vm_compute.
  - by vm_compute.
  - exists t1. split; [exact E|exact Hh].
Defined.

(** C39: A reader that has only shut down writing reads a byte that was never sent: in
    FIN_WAIT_2 the FIN of the peer is counted in [RCV.NXT] like a byte of data, and a
    read after it, with all the data already read, returns one byte and no error instead
    of [io.EOF]. *)
Theorem half_closed_reader_reads_fin {N : Netstack} (st : Z → byte) (key : SocketData)
    (fin : list byte) (b : byte) (t : TCB) :
  rcv_inv st t → State t = FIN_WAIT_2 → TimeoutCancelled t = false →
  RCV_LBR (RCV t) = RCV_NXT (RCV t) → has_flag fin TCPFlagFin = true →
  SequenceNumber fin = RCV_NXT (RCV t) →
  let t1 := run_state (HandleFinWait2 fin key [] 0) t in
  ∃ b' t2 tr, (next ← Read_enter 1 false; Read_run 1 1 false [b] next) t1 =
    (Ok ([b'], ReadReturn 1 None), t2, tr).
Proof.
  intros Hinv Hs Ht He Hf Hseq t1. pose proof Hinv as []. unfold MAX_BUF_SIZE in *.
  assert (Ht1 : t1 = set_ResetWaitChan true (tcb_RCV_NXT (RCV_NXT (RCV t) + 1) (set_State TIME_WAIT t))).
  { unfold t1, run_state, HandleFinWait2, send_ack. go_unfold. rewrite Hf. simpl.
    rewrite Hseq, Z.eqb_refl. simpl. by rewrite u32_small by lia. }
  rewrite Ht1. clear t1 Ht1.
  destruct (read_segment_window [b] (RCV_Buffer (RCV t)) (RCV_LBR (RCV t)) 0 1)
    as (data' & E & Hlen & _); [done|lia|unfold MAX_BUF_SIZE; lia|done|done|].
  unfold zlen in Hlen. destruct data' as [|b' [|? ?]]; simpl in Hlen; try lia.
  unfold Read_enter, Read_head, Read_size, Read_run, Read_copy. go_unfold. simpl.
  rewrite Ht. simpl.
  destruct (Z.eqb_spec (RCV_LBR (RCV t)) (RCV_NXT (RCV t) + 1)); [lia|]. simpl.
  assert (Hsz : (if 1 ⊟ 0 <? RCV_NXT (RCV t) + 1 ⊟ RCV_LBR (RCV t)
                 then 1 ⊟ 0 else RCV_NXT (RCV t) + 1 ⊟ RCV_LBR (RCV t)) = 1).
  { rewrite He. replace (RCV_NXT (RCV t) + 1 - RCV_NXT (RCV t)) with 1 by lia. done. }
  rewrite Hsz, E. simpl. change (u32 1) with 1. simpl.
  eexists b', _, _. reflexivity.
Qed.

Lemma half_closed_reader_reads_fin_witness :
  let t := set_State FIN_WAIT_2 demo_conn in
  let fin := demo_header 100 500 17 65535 [] in
  let t1 := run_state (HandleFinWait2 fin demo_key [] 0) t in
  ∃ b' t2 tr, (next ← Read_enter 1 false; Read_run 1 1 false [x61] next) t1 =
    (Ok ([b'], ReadReturn 1 None), t2, tr).
Proof.
  intros t fin. apply (half_closed_reader_reads_fin demo_stream).
  - apply (rcv_inv_frame demo_stream demo_conn); [reflexivity|reflexivity|exact demo_conn_rcv_inv].
  - reflexivity.
  - reflexivity.
  - reflexivity.
  - by vm_compute.
  - by vm_compute.
Defined.
