(* ===== verification/RoutingTable.v ===== *)
(** * The routing table ([src/pkg/ip/routing_table.go])

    A route is kept by destination address.  Entries are shared by pointer, and every
    operation reaches an entry through the table, so the table is a map to values; the
    channel of an entry is its number. *)

From S2P Require Import Prelude GoLang.

(** [INFINITY] of [rip_handler.go] *)
Definition INFINITY : Z := 16.

Record RoutingTableEntry := mkEntry {
  NextHop : Z;
  Cost : Z;
  UpdateChan : nat
}.

#[global] Instance RoutingTableEntry_eq_dec : EqDecision RoutingTableEntry.
Proof. solve_decision. Defined.

Abbreviation RoutingTable := (gmap Z RoutingTableEntry).

(** [updateChan] is the channel that [make] returns. *)
Definition CreateEntry (nextHop cost : Z) (updateChan : nat) : RoutingTableEntry :=
  mkEntry nextHop cost updateChan.

Definition CheckRoute (rt : RoutingTable) (dest : Z) : option RoutingTableEntry :=
  rt !! dest.

Definition UpdateRoute (rt : RoutingTable) (dest newCost nextHop : Z) : RoutingTable :=
  match rt !! dest with
  | Some entry => <[dest := mkEntry nextHop newCost (UpdateChan entry)]> rt
  | None => rt
  end.

Definition AddRoute (rt : RoutingTable) (dest cost nextHop : Z) (updateChan : nat)
    : RoutingTable :=
  <[dest := mkEntry nextHop cost updateChan]> rt.

Definition RemoveNextHops (rt : RoutingTable) (nextHops : list Z) : RoutingTable :=
  (λ entry, if decide (NextHop entry ∈ nextHops)
            then mkEntry (NextHop entry) INFINITY (UpdateChan entry) else entry) <$> rt.

Definition RemoveRoute (rt : RoutingTable) (dest : Z) : RoutingTable := delete dest rt.

(** ** Facts *)

Lemma UpdateRoute_lookup rt dest c n :
  UpdateRoute rt dest c n !! dest = (λ e, mkEntry n c (UpdateChan e)) <$> rt !! dest.
Proof.
  unfold UpdateRoute. destruct (rt !! dest) eqn:E; simpl; [by rewrite lookup_insert_eq|done].
Qed.

Lemma UpdateRoute_lookup_ne rt dest c n d :
  d ≠ dest → UpdateRoute rt dest c n !! d = rt !! d.
Proof.
  intros. unfold UpdateRoute. destruct (rt !! dest); [by rewrite lookup_insert_ne|done].
Qed.

Lemma RemoveNextHops_lookup rt hops dest e :
  rt !! dest = Some e →
  RemoveNextHops rt hops !! dest =
    Some (if decide (NextHop e ∈ hops) then mkEntry (NextHop e) INFINITY (UpdateChan e) else e).
Proof. intros Hd. unfold RemoveNextHops. by rewrite lookup_fmap, Hd. Qed.
