(* ===== verification/Rip.v ===== *)
(** * RIP ([src/pkg/ip/rip_handler.go], [src/pkg/ip/rip_protocol.go])

    The wire format of the messages, the update of the table on a message, the periodic
    and the triggered updates.  Go iterates over a map in any order: the order is an
    argument of the functions that build messages, a permutation of the table. *)

From S2P Require Import Prelude GoLang RoutingTable.

(** [MASK] *)
Definition MASK : Z := 4294967295.

Record RIPEntry := mkRIPEntry {
  RCost : Z;
  Address : Z;
  Mask : Z
}.

#[global] Instance RIPEntry_eq_dec : EqDecision RIPEntry.
Proof. solve_decision. Defined.

Record RIPMessage := mkRIPMessage {
  Command : Z;
  NumEntries : Z;
  Entries : list RIPEntry
}.

(** The handler: the neighbours, the addresses of the own interfaces, the table it shares
    with the host, and the number of the next channel. *)
Record RipHandler := mkRipHandler {
  Neighbors : list Z;
  OwnInterfaces : gset Z;
  Table : RoutingTable;
  NextChan : nat
}.

Definition set_Table (t : RoutingTable) (r : RipHandler) : RipHandler :=
  mkRipHandler (Neighbors r) (OwnInterfaces r) t (NextChan r).

Inductive rip_eff :=
  (** [r.MessageChan <- bytes] *)
  | RMessage (bytes : list byte)
  (** [oldEntry.UpdateChan <- true] *)
  | RRefresh (chan : nat)
  (** [go r.waitForUpdates(...)] *)
  | RWait (address nextHop : Z) (chan : nat)
  (** [go r.SendTriggeredUpdates(...)] *)
  | RTrigger (entries : list RIPEntry)
  (** [go r.SendUpdatesToNeighbors(...)] *)
  | RPeriodic.

Abbreviation RM := (GoM RipHandler rip_eff).

(** ** The wire format *)

Definition entry_bytes (e : RIPEntry) : list byte :=
  put_u32 (RCost e) ++ put_u32 (Address e) ++ put_u32 (Mask e).

(** [binary.Write] of the command, the number of entries and the slice of entries, behind
    the address of the neighbour. *)
Definition rip_bytes (neighbor : Z) (m : RIPMessage) : list byte :=
  put_u32 neighbor ++ put_u16 (Command m) ++ put_u16 (NumEntries m) ++
  concat (entry_bytes <$> Entries m).

Definition new_message (command : Z) (entries : list RIPEntry) : RIPMessage :=
  mkRIPMessage command (u16 (zlen entries)) entries.

(** The loop of [binary.Read] over the entries. *)
Fixpoint read_entries (n : nat) (r : list byte) : list RIPEntry :=
  match n with
  | O => []
  | S n =>
      let (cost, r1) := read_u32 r in
      let (address, r2) := read_u32 r1 in
      let (mask, r3) := read_u32 r2 in
      mkRIPEntry cost address mask :: read_entries n r3
  end.

Definition parse_message (data : list byte) : RIPMessage :=
  let (command, r1) := read_u16 data in
  let (numEntries, r2) := read_u16 r1 in
  mkRIPMessage command numEntries (read_entries (Z.to_nat numEntries) r2).

(** ** [ReceivePacket] *)

(** One turn of the loop over the entries; the result is the entry when it changed the
    table. *)
Definition receive_entry (nextHop : Z) (newEntry : RIPEntry) : RM (list RIPEntry) :=
  if RCost newEntry =? INFINITY then mret []
  else
    r ← get;
    match CheckRoute (Table r) (Address newEntry) with
    | None =>
        let updateChan := NextChan r in
        put (mkRipHandler (Neighbors r) (OwnInterfaces r)
               (AddRoute (Table r) (Address newEntry) (RCost newEntry ⊞ 1) nextHop updateChan)
               (S updateChan));;
        emit (RWait (Address newEntry) nextHop updateChan);;
        mret [newEntry]
    | Some oldEntry =>
        let newCost := RCost newEntry ⊞ 1 in
        let better := (newCost <? Cost oldEntry) ||
                      ((Cost oldEntry <? newCost) && (NextHop oldEntry =? nextHop)) in
        let worse := (Cost oldEntry <? newCost) && negb (NextHop oldEntry =? nextHop) in
        when better (modify (λ r, set_Table
          (UpdateRoute (Table r) (Address newEntry) newCost nextHop) r));;
        if negb better && worse then mret []
        else
          when (negb (bool_decide (Address newEntry ∈ OwnInterfaces r)))
            (emit (RRefresh (UpdateChan oldEntry)));;
          mret (if better then [newEntry] else [])
    end.

Fixpoint receive_entries (nextHop : Z) (entries : list RIPEntry) : RM (list RIPEntry) :=
  match entries with
  | [] => mret []
  | e :: entries =>
      updated ← receive_entry nextHop e;
      rest ← receive_entries nextHop entries;
      mret (updated ++ rest)
  end.

(** [src] is the source address of the packet and [data] its payload. *)
Definition RipReceivePacket (src : Z) (data : list byte) : RM unit :=
  let ripEntry := parse_message data in
  updatedEntries ← receive_entries src (Entries ripEntry);
  when (0 <? zlen updatedEntries) (emit (RTrigger updatedEntries)).

(** ** Updates *)

(** [order] is the order of the iteration over the table. *)
Definition GetAllEntries (order : list (Z * RoutingTableEntry)) : list RIPEntry :=
  omap (λ '(destination, entry),
    if Cost entry =? INFINITY then None
    else Some (mkRIPEntry (Cost entry) destination MASK)) order.

Definition GetSpecificEntries (order : list (Z * RoutingTableEntry)) (neighborToPoison : Z)
    : list RIPEntry :=
  omap (λ '(destination, entry),
    if Cost entry =? INFINITY then None
    else Some (mkRIPEntry
      (if NextHop entry =? neighborToPoison then INFINITY else Cost entry) destination MASK))
    order.

(** The loop over the neighbours of [InitHandler]. *)
Fixpoint init_messages (order : list (Z * RoutingTableEntry)) (neighbors : list Z) : RM unit :=
  match neighbors with
  | [] => mret tt
  | neighbor :: neighbors =>
      emit (RMessage (rip_bytes neighbor (new_message 1 (GetAllEntries order))));;
      init_messages order neighbors
  end.

(** [InitHandler]: [neighbors] are the keys of the neighbour map. *)
Definition RipInitHandler (neighbors : list Z) (own : gset Z)
    (order : list (Z * RoutingTableEntry)) : RM unit :=
  modify (λ r, mkRipHandler neighbors own (Table r) (NextChan r));;
  init_messages order neighbors;;
  emit RPeriodic.

(** A tick of [SendUpdatesToNeighbors]. *)
Fixpoint periodic_messages (order : list (Z * RoutingTableEntry)) (neighbors : list Z)
    : RM unit :=
  match neighbors with
  | [] => mret tt
  | neighbor :: neighbors =>
      emit (RMessage (rip_bytes neighbor (new_message 2 (GetSpecificEntries order neighbor))));;
      periodic_messages order neighbors
  end.

Definition SendUpdatesToNeighbors_tick (order : list (Z * RoutingTableEntry)) : RM unit :=
  r ← get; periodic_messages order (Neighbors r).

(** The poisoning of the shared slice of [SendTriggeredUpdates] for one neighbour. *)
Definition poison (table : RoutingTable) (neighbor : Z) (entry : RIPEntry) : RIPEntry :=
  match CheckRoute table (Address entry) with
  | Some newEntry =>
      if NextHop newEntry =? neighbor then mkRIPEntry INFINITY (Address entry) (Mask entry)
      else entry
  | None => entry
  end.

(** [binary.Write] of a struct with a slice in it is an error and writes nothing: the
    message is the address only.  The slice keeps what was poisoned for the neighbours
    before. *)
Fixpoint triggered_messages (neighbors : list Z) (entriesToSend : list RIPEntry)
    : RM (list RIPEntry) :=
  match neighbors with
  | [] => mret entriesToSend
  | neighbor :: neighbors =>
      r ← get;
      let entriesToSend := poison (Table r) neighbor <$> entriesToSend in
      emit (RMessage (put_u32 neighbor));;
      triggered_messages neighbors entriesToSend
  end.

Definition SendTriggeredUpdates (entriesToSend : list RIPEntry) : RM (list RIPEntry) :=
  r ← get; triggered_messages (Neighbors r) entriesToSend.

(** The arm [<-timeout] of [waitForUpdates]. *)
Definition waitForUpdates_timeout (newEntryAddress nextHop : Z) : RM unit :=
  modify (λ r, set_Table (UpdateRoute (Table r) newEntryAddress 16 nextHop) r).

(** ** The wire format round trip *)

(** The fields of an entry fit their width. *)
Definition entry_u32 (e : RIPEntry) : Prop :=
  is_u32 (RCost e) ∧ is_u32 (Address e) ∧ is_u32 (Mask e).

#[global] Instance entry_u32_dec e : Decision (entry_u32 e).
Proof. unfold entry_u32, is_u32. apply _. Defined.

Lemma read_entries_bytes es r :
  Forall entry_u32 es →
  read_entries (length es) (concat (entry_bytes <$> es) ++ r) = es.
Proof.
  induction 1 as [|e es (Hc & Ha & Hm) Hes IH]; [done|].
  cbn [fmap list_fmap concat length read_entries]. unfold entry_bytes at 1.
  rewrite <-!(assoc_L (++)). rewrite !read_put_u32 by done.
  rewrite IH. by destruct e.
Qed.

Lemma zdrop_put_u32 v l : zdrop 4 (put_u32 v ++ l) = l.
Proof. done. Qed.

Lemma parse_new_message command es :
  is_u16 command → zlen es < 65536 → Forall entry_u32 es →
  parse_message (put_u16 command ++ put_u16 (u16 (zlen es)) ++ concat (entry_bytes <$> es))
  = new_message command es.
Proof.
  intros Hc Hlen Hes. pose proof (zlen_nonneg es).
  unfold parse_message, new_message. rewrite (u16_small (zlen es)) by lia.
  rewrite read_put_u16 by done. rewrite read_put_u16 by (unfold is_u16; lia).
  f_equal. unfold zlen. rewrite Nat2Z.id, <-(app_nil_r (concat _)).
  by apply read_entries_bytes.
Qed.

(** C25: a RIP message that the handler writes is split by the host into the address of
    the neighbour, which is the first four bytes, and a payload from which the receiving
    handler reads the same command and the same entries, up to the 65535 entries that the
    counter can hold. *)
Theorem rip_message_roundtrip neighbor command es :
  is_u32 neighbor → is_u16 command → zlen es < 65536 → Forall entry_u32 es →
  be_uint32 (rip_bytes neighbor (new_message command es)) = Some neighbor ∧
  parse_message (zdrop 4 (rip_bytes neighbor (new_message command es)))
  = new_message command es.
Proof.
  intros. unfold rip_bytes. cbn [Command NumEntries Entries new_message]. split.
  - by apply be_put_u32.
  - rewrite zdrop_put_u32. by apply parse_new_message.
Qed.

Lemma rip_message_roundtrip_witness :
  be_uint32 (rip_bytes 167772161 (new_message 2 [mkRIPEntry 1 167772162 MASK]))
    = Some 167772161 ∧
  parse_message (zdrop 4 (rip_bytes 167772161 (new_message 2 [mkRIPEntry 1 167772162 MASK])))
  = new_message 2 [mkRIPEntry 1 167772162 MASK].
Proof.
  apply rip_message_roundtrip.
  - unfold is_u32; lia.
  - unfold is_u16; lia.
  - vm_compute. reflexivity.
  - repeat constructor; simpl; unfold MASK; lia.
Defined.

(** ** The distance-vector rule *)

(** The step of Bellman and Ford: what a route becomes when the neighbour [n] offers the
    destination at the cost [c].  A route through [n] follows its offer, another one is
    given up for a cheaper offer only. *)
Definition bellman_ford (n c : Z) (fresh : nat) (old : option RoutingTableEntry)
    : RoutingTableEntry :=
  match old with
  | None => mkEntry n c fresh
  | Some e =>
      if decide (NextHop e = n) then mkEntry n c (UpdateChan e)
      else mkEntry (if c <? Cost e then n else NextHop e) (Z.min (Cost e) c) (UpdateChan e)
  end.

Lemma bellman_ford_cost n c fresh old : Cost (bellman_ford n c fresh old) ≤ c.
Proof.
  unfold bellman_ford. destruct old as [e|]; simpl; [|lia]. case_decide; simpl; lia.
Qed.

(** The table after one entry. *)
Definition entry_table (n : Z) (e : RIPEntry) (t : RoutingTable) (fresh : nat) : RoutingTable :=
  if RCost e =? INFINITY then t
  else <[Address e := bellman_ford n (RCost e ⊞ 1) fresh (t !! Address e)]> t.

Lemma bellman_ford_keeps n c fresh old :
  (Cost old < c ∧ NextHop old ≠ n) ∨ Cost old = c →
  bellman_ford n c fresh (Some old) = old.
Proof.
  intros H. unfold bellman_ford. destruct old as [h c0 ch]. simpl in *.
  case_decide as Hn.
  - destruct H as [[_ ?]|H]; [done|]. by subst.
  - rewrite (proj2 (Z.ltb_ge _ _)) by lia. by rewrite Z.min_l by lia.
Qed.

Lemma bellman_ford_takes n c fresh old :
  c < Cost old ∨ (Cost old < c ∧ NextHop old = n) →
  bellman_ford n c fresh (Some old) = mkEntry n c (UpdateChan old).
Proof.
  intros H. unfold bellman_ford. case_decide as Hn; [done|].
  rewrite (proj2 (Z.ltb_lt _ _)) by lia. by rewrite Z.min_r by lia.
Qed.

Lemma better_spec c c0 h n :
  (c <? c0) || (c0 <? c) && (h =? n) = true ↔ c < c0 ∨ (c0 < c ∧ h = n).
Proof. rewrite orb_true_iff, andb_true_iff, !Z.ltb_lt, Z.eqb_eq. done. Qed.

Lemma receive_entry_run n e r :
  ∃ t u chan,
    receive_entry n e r =
      (Ok u, mkRipHandler (Neighbors r) (OwnInterfaces r)
               (entry_table n e (Table r) (NextChan r)) chan, t) ∧
    u = (if decide (entry_table n e (Table r) (NextChan r) = Table r) then [] else [e]).
Proof.
  unfold receive_entry, entry_table. bool_hyps.
  { exists [], [], (NextChan r). go_unfold. destruct r. split; [done|]. by rewrite decide_True. }
  go_unfold. unfold CheckRoute, UpdateRoute, AddRoute.
  destruct (Table r !! Address e) as [old|] eqn:Eold.
  - set (c := RCost e ⊞ 1).
    destruct (decide (c < Cost old ∨ (Cost old < c ∧ NextHop old = n))) as [Hb|Hb].
    + rewrite bellman_ford_takes by done.
      replace ((c <? Cost old) || (Cost old <? c) && (NextHop old =? n)) with true
        by (symmetry; apply better_spec; lia).
      simpl. rewrite Eold.
      exists (if bool_decide (Address e ∈ OwnInterfaces r) then []
              else [RRefresh (UpdateChan old)]), [e], (NextChan r).
      split; [by destruct (bool_decide _)|].
      rewrite decide_False; [done|]. intros E.
      assert (Hin := lookup_insert_eq (Table r) (Address e) (mkEntry n c (UpdateChan old))).
      rewrite E, Eold in Hin. injection Hin as Hold. rewrite Hold in Hb. simpl in Hb. lia.
    + replace ((c <? Cost old) || (Cost old <? c) && (NextHop old =? n)) with false
        by (symmetry; apply not_true_is_false; rewrite better_spec; lia).
      rewrite bellman_ford_keeps by lia. rewrite insert_id by done. simpl.
      exists (if (Cost old <? c) && negb (NextHop old =? n) then []
              else if bool_decide (Address e ∈ OwnInterfaces r) then []
              else [RRefresh (UpdateChan old)]), [], (NextChan r).
      rewrite decide_True by done.
      destruct ((Cost old <? c) && negb (NextHop old =? n)), r; [done|].
      by destruct (bool_decide _).
  - eexists _, _, _. split; [reflexivity|]. rewrite decide_False; [done|]. intros E.
    assert (Hin := lookup_insert_eq (Table r) (Address e) (mkEntry n (RCost e ⊞ 1) (NextChan r))).
    simpl in E. rewrite E, Eold in Hin. done.
Qed.

(** The entries of a message that offer a destination at a finite cost. *)
Definition offers (es : list RIPEntry) : list RIPEntry :=
  filter (λ e, RCost e ≠ INFINITY) es.

Lemma entry_table_ne n e t fresh d :
  d ≠ Address e → entry_table n e t fresh !! d = t !! d.
Proof. intros. unfold entry_table. bool_hyps; [done|]. by rewrite lookup_insert_ne. Qed.

Lemma receive_entries_run n es r :
  NoDup (Address <$> es) →
  ∃ t u r',
    receive_entries n es r = (Ok u, r', t) ∧
    Neighbors r' = Neighbors r ∧ OwnInterfaces r' = OwnInterfaces r ∧
    (∀ d, d ∉ Address <$> offers es → Table r' !! d = Table r !! d) ∧
    (∀ e, e ∈ offers es → ∃ fresh, Table r' !! Address e
       = Some (bellman_ford n (RCost e ⊞ 1) fresh (Table r !! Address e))) ∧
    (∀ e, e ∈ u ↔ e ∈ es ∧ Table r' !! Address e ≠ Table r !! Address e).
Proof.
  revert r. induction es as [|e es IH]; intros r Hnd.
  { exists [], [], r. split_and!; try done; set_solver. }
  apply NoDup_cons in Hnd as [He Hnd].
  destruct (receive_entry_run n e r) as (t1 & u1 & ch & Hrun & Hu1).
  set (r1 := mkRipHandler _ _ _ ch) in Hrun.
  destruct (IH r1 Hnd) as (t2 & u2 & r' & Hrest & Hnb & Hown & Hsame & Hoff & Hchg).
  assert (Hfst : Table r' !! Address e = Table r1 !! Address e).
  { apply Hsame. unfold offers. rewrite list_elem_of_fmap.
    intros (x & Hx & Hin%list_elem_of_filter). apply He. rewrite Hx.
    by apply list_elem_of_fmap_2, Hin. }
  assert (Hne : ∀ x, x ∈ es → Table r1 !! Address x = Table r !! Address x).
  { intros x Hx. apply entry_table_ne. intros E. apply He. rewrite <-E.
    by apply list_elem_of_fmap_2. }
  exists (t1 ++ t2 ++ []), (u1 ++ u2), r'. split.
  { cbn [receive_entries]. unfold mbind, go_bind, mret, go_ret. by rewrite Hrun, Hrest. }
  split; [done|]. split; [done|]. split_and!.
  - intros d Hd. unfold offers in Hd. rewrite filter_cons in Hd.
    destruct (decide (RCost e ≠ INFINITY)) as [Hf|Hf]; simpl in Hd.
    + rewrite Hsame by set_solver. apply entry_table_ne. set_solver.
    + rewrite Hsame by done. simpl. unfold entry_table. by bool_hyps.
  - intros x [Hf Hin]%list_elem_of_filter. apply elem_of_cons in Hin as [->|Hin].
    + exists (NextChan r). rewrite Hfst. simpl. unfold entry_table.
      bool_hyps; [done|]. by rewrite lookup_insert_eq.
    + destruct (Hoff x) as [fr Hfr]; [by apply list_elem_of_filter|].
      exists fr. by rewrite Hfr, Hne.
  - intros x. rewrite elem_of_app, Hchg, elem_of_cons, Hu1. split.
    + intros [Hx|[Hin Hx]]; [|by rewrite Hne in Hx by done; auto].
      case_decide as Heq; [set_solver|]. apply list_elem_of_singleton in Hx as ->.
      split; [by left|]. rewrite Hfst. intros E. apply Heq. apply map_eq. intros d.
      destruct (decide (d = Address e)) as [->|]; [done|]. by apply entry_table_ne.
    + intros [[->|Hin] Hx].
      * left. rewrite decide_False; [set_solver|]. intros E. apply Hx. by rewrite Hfst; simpl; rewrite E.
      * right. by rewrite Hne.
Qed.

(** C17: a RIP message from the neighbour [src] whose entries are about distinct
    destinations is taken by the distance-vector rule.  Every destination offered at a
    finite cost gets the route of the Bellman-Ford step at the offered cost plus one, every
    other route is as before, and a triggered update is started for exactly the entries
    that changed their route, if there is one. *)
Theorem RipReceivePacket_bellman_ford src data r :
  NoDup (Address <$> Entries (parse_message data)) →
  ∃ r' t u,
    RipReceivePacket src data r
      = (Ok tt, r', t ++ (if decide (u = []) then [] else [RTrigger u])) ∧
    Neighbors r' = Neighbors r ∧ OwnInterfaces r' = OwnInterfaces r ∧
    (∀ e, e ∈ offers (Entries (parse_message data)) → ∃ fresh,
       Table r' !! Address e
         = Some (bellman_ford src (RCost e ⊞ 1) fresh (Table r !! Address e))) ∧
    (∀ d, d ∉ Address <$> offers (Entries (parse_message data)) →
       Table r' !! d = Table r !! d) ∧
    (∀ e, e ∈ u ↔ e ∈ Entries (parse_message data) ∧
                  Table r' !! Address e ≠ Table r !! Address e).
Proof.
  intros Hnd.
  destruct (receive_entries_run src _ r Hnd) as (t & u & r' & Hrun & Hnb & Hown & Hs & Ho & Hu).
  exists r', t, u. split; [|done].
  unfold RipReceivePacket. rewrite (go_bind_ok _ _ _ _ _ _ Hrun).
  destruct u as [|e u]; [done|].
  rewrite decide_False by done. unfold when.
  rewrite (proj2 (Z.ltb_lt _ _)); [done|].
  rewrite zlen_cons. pose proof (zlen_nonneg u). lia.
Qed.

(** A router that knows [D] through its neighbour [A] at cost 3. *)
Definition demo_rip : RipHandler :=
  mkRipHandler [10; 20] {[1; 2]} {[7 := mkEntry 10 3 0; 8 := mkEntry 20 4 1]} 2.

Lemma RipReceivePacket_bellman_ford_witness :
  ∃ r' t u,
    RipReceivePacket 20 (zdrop 4 (rip_bytes 1 (new_message 2 [mkRIPEntry 1 7 MASK; mkRIPEntry 5 8 MASK]))) demo_rip
      = (Ok tt, r', t ++ (if decide (u = []) then [] else [RTrigger u])) ∧
    Table r' !! 7 = Some (mkEntry 20 2 0) ∧ Table r' !! 8 = Some (mkEntry 20 6 1).
Proof.
  destruct (RipReceivePacket_bellman_ford 20
    (zdrop 4 (rip_bytes 1 (new_message 2 [mkRIPEntry 1 7 MASK; mkRIPEntry 5 8 MASK]))) demo_rip)
    as (r' & t & u & Hrun & _ & _ & Hoff & _).
  { refine (bool_decide_unpack _ _). vm_compute. reflexivity. }
  exists r', t, u. split; [exact Hrun|].
  destruct (Hoff (mkRIPEntry 1 7 MASK)) as [f1 H1].
  { refine (bool_decide_unpack _ _). vm_compute. reflexivity. }
  destruct (Hoff (mkRIPEntry 5 8 MASK)) as [f2 H2].
  { refine (bool_decide_unpack _ _). vm_compute. reflexivity. }
  split; [exact H1|exact H2].
Defined.

(** ** Split horizon with poisoned reverse *)

(** The table of a router holds [uint32] keys and costs, and fits a message. *)
Definition table_wf (t : RoutingTable) : Prop :=
  (∀ d e, t !! d = Some e → is_u32 d ∧ is_u32 (Cost e)) ∧ Z.of_nat (size t) < 65536.

Lemma elem_of_GetSpecificEntries order n e :
  e ∈ GetSpecificEntries order n ↔
  ∃ d en, (d, en) ∈ order ∧ Cost en ≠ INFINITY ∧
    e = mkRIPEntry (if decide (NextHop en = n) then INFINITY else Cost en) d MASK.
Proof.
  unfold GetSpecificEntries. rewrite list_elem_of_omap. split.
  - intros ([d en] & Hin & Heq). exists d, en.
    revert Heq. bool_hyps; intros [= <-]; case_decide; done.
  - intros (d & en & Hin & Hc & ->). exists (d, en). split; [done|].
    bool_hyps; try done; by case_decide.
Qed.

Lemma GetSpecificEntries_addresses order n :
  Address <$> GetSpecificEntries order n
  = (filter (λ p, Cost p.2 ≠ INFINITY) order).*1.
Proof.
  induction order as [|[d en] order IH]; [done|].
  unfold GetSpecificEntries in *. cbn [omap list_omap]. rewrite filter_cons. simpl.
  bool_hyps; case_decide; try done; try exact IH; simpl; f_equal; exact IH.
Qed.

Lemma GetSpecificEntries_wf order n t :
  order ≡ₚ map_to_list t → table_wf t →
  NoDup (Address <$> GetSpecificEntries order n) ∧
  Forall entry_u32 (GetSpecificEntries order n) ∧
  zlen (GetSpecificEntries order n) < 65536.
Proof.
  intros Hord [Hwf Hsz].
  assert (Hlk : ∀ d en, (d, en) ∈ order → t !! d = Some en).
  { intros d en. rewrite Hord. apply elem_of_map_to_list. }
  split_and!.
  - rewrite GetSpecificEntries_addresses.
    apply (sublist_NoDup _ (order.*1)).
    + rewrite Hord. apply NoDup_fst_map_to_list.
    + apply fmap_sublist, sublist_filter.
  - apply Forall_forall. intros e (d & en & Hin & _ & ->)%elem_of_GetSpecificEntries.
    destruct (Hwf d en) as [Hd Hc]; [by apply Hlk|].
    unfold entry_u32. simpl. split; [|split]; [|exact Hd|by vm_compute].
    case_decide; [by vm_compute|exact Hc].
  - unfold zlen. rewrite <-(length_fmap Address), GetSpecificEntries_addresses, length_fmap.
    pose proof (length_filter (λ p, Cost p.2 ≠ INFINITY) order) as Hl.
    assert (Hlo : length order = size t) by (rewrite Hord; apply length_map_to_list). lia.
Qed.

Lemma periodic_messages_trace order ns r :
  periodic_messages order ns r =
    (Ok tt, r, (λ n, RMessage (rip_bytes n (new_message 2 (GetSpecificEntries order n)))) <$> ns).
Proof.
  induction ns as [|n ns IH]; [done|]. cbn [periodic_messages]. go_unfold.
  by rewrite IH.
Qed.

(** C18: a periodic update sends to every neighbour one message, whose first four bytes
    are its address.  When the neighbour takes the rest of it, a destination that this
    router reaches through that neighbour keeps the route that the neighbour has (poisoned
    reverse: no loop of two routers can arise from it), and a destination that the router
    reaches otherwise at a finite cost below [INFINITY] costs the neighbour at most one
    more. *)
Theorem periodic_update_poisoned_reverse r order :
  order ≡ₚ map_to_list (Table r) → table_wf (Table r) →
  ∃ payload : Z → list byte,
    SendUpdatesToNeighbors_tick order r
      = (Ok tt, r, (λ n, RMessage (put_u32 n ++ payload n)) <$> Neighbors r) ∧
    ∀ n src q, ∃ q' t,
      RipReceivePacket src (payload n) q = (Ok tt, q', t) ∧
      (∀ d e, Table r !! d = Some e → NextHop e = n → Table q' !! d = Table q !! d) ∧
      (∀ d e, Table r !! d = Some e → NextHop e ≠ n → Cost e < INFINITY →
         ∃ e', Table q' !! d = Some e' ∧ Cost e' ≤ Cost e + 1).
Proof.
  intros Hord Hwf.
  exists (λ n, zdrop 4 (rip_bytes n (new_message 2 (GetSpecificEntries order n)))).
  split.
  { unfold SendUpdatesToNeighbors_tick. go_unfold. by rewrite periodic_messages_trace. }
  intros n src q.
  destruct (GetSpecificEntries_wf order n _ Hord Hwf) as (Hnd & Hu & Hlen).
  assert (Hlk : ∀ d en, (d, en) ∈ order ↔ Table r !! d = Some en).
  { intros d en. rewrite Hord. apply elem_of_map_to_list. }
  unfold rip_bytes. rewrite zdrop_put_u32. cbn [Command NumEntries Entries new_message].
  unfold RipReceivePacket. rewrite parse_new_message by done. cbn [Entries new_message].
  destruct (receive_entries_run src _ q Hnd) as (t & u & q' & Hrun & _ & _ & Hsame & Hoff & _).
  rewrite (go_bind_ok _ _ _ _ _ _ Hrun). unfold when.
  exists q', (t ++ if 0 <? zlen u then [RTrigger u] else []).
  split; [by destruct (0 <? zlen u)|]. split.
  - intros d e Hd Hne. apply Hsame. unfold offers. rewrite list_elem_of_fmap.
    intros (x & -> & [Hf (d' & en & Hin & Hc & ->)%elem_of_GetSpecificEntries]%list_elem_of_filter).
    apply Hlk in Hin. simpl in *. rewrite Hd in Hin. injection Hin as <-.
    by rewrite decide_True in Hf.
  - intros d e Hd Hne Hc.
    destruct (proj1 Hwf d e Hd) as [_ [Hc0 _]]. unfold INFINITY in Hc.
    destruct (Hoff (mkRIPEntry (Cost e) d MASK)) as [fr Hfr].
    { apply list_elem_of_filter. split; [unfold INFINITY; simpl; lia|].
      apply elem_of_GetSpecificEntries. exists d, e. rewrite decide_False by done.
      split_and!; [by apply Hlk|unfold INFINITY; lia|done]. }
    simpl in Hfr. eexists. split; [exact Hfr|]. u32_norm. apply bellman_ford_cost.
Qed.

Lemma demo_rip_wf : table_wf (Table demo_rip).
Proof.
  split; [|vm_compute; reflexivity]. intros d e H.
  assert (Hl : (d, e) ∈ map_to_list (Table demo_rip)) by by apply elem_of_map_to_list.
  change (map_to_list (Table demo_rip)) with [(7, mkEntry 10 3 0); (8, mkEntry 20 4 1)] in Hl.
  unfold is_u32. set_solver by lia.
Qed.

Lemma periodic_update_poisoned_reverse_witness :
  ∃ payload : Z → list byte,
    run_trace (SendUpdatesToNeighbors_tick (map_to_list (Table demo_rip))) demo_rip
      = [RMessage (put_u32 10 ++ payload 10); RMessage (put_u32 20 ++ payload 20)] ∧
    ∃ q' t, RipReceivePacket 1 (payload 10) demo_rip = (Ok tt, q', t) ∧
      Table q' !! 7 = Some (mkEntry 10 3 0).
Proof.
  destruct (periodic_update_poisoned_reverse demo_rip (map_to_list (Table demo_rip)))
    as (payload & Hrun & Hq).
  - reflexivity.
  - exact demo_rip_wf.
  - exists payload. split; [unfold run_trace; rewrite Hrun; reflexivity|].
    destruct (Hq 10 1 demo_rip) as (q' & t & Hrecv & Hpoison & _).
    exists q', t. split; [exact Hrecv|].
    rewrite (Hpoison 7 (mkEntry 10 3 0)); reflexivity.
Defined.

Lemma triggered_messages_trace ns es r :
  ∃ es', triggered_messages ns es r = (Ok es', r, (λ n, RMessage (put_u32 n)) <$> ns).
Proof.
  revert es. induction ns as [|n ns IH]; intros es; [by exists es|].
  cbn [triggered_messages]. go_unfold.
  destruct (IH (poison (Table r) n <$> es)) as [es' ->]. by exists es'.
Qed.

(** A triggered update tells the neighbours nothing: every neighbour is sent a message that
    holds its address only, and a handler that receives the (empty) rest keeps its state and
    does nothing.  A change of a route is learned from the next periodic update only. *)
Lemma triggered_update_is_empty r es :
  ∃ es',
    SendTriggeredUpdates es r = (Ok es', r, (λ n, RMessage (put_u32 n)) <$> Neighbors r) ∧
    ∀ n src q, RipReceivePacket src (zdrop 4 (put_u32 n)) q = (Ok tt, q, []).
Proof.
  destruct (triggered_messages_trace (Neighbors r) es r) as [es' H].
  exists es'. split; [|intros n src q; reflexivity].
  unfold SendTriggeredUpdates. go_unfold. by rewrite H.
Qed.

(** An offer of the cost that the route already has, from another neighbour, restarts the
    timer of the route: the route through the silent neighbour does not expire. *)
Lemma receive_entry_refreshes_other n e r old :
  Table r !! Address e = Some old → NextHop old ≠ n →
  RCost e ≠ INFINITY → Cost old = RCost e ⊞ 1 → Address e ∉ OwnInterfaces r →
  receive_entry n e r = (Ok [], r, [RRefresh (UpdateChan old)]).
Proof.
  intros Hl Hn Hi Hc Hown. unfold receive_entry, CheckRoute. go_unfold.
  rewrite (proj2 (Z.eqb_neq _ _)) by done. rewrite Hl, <-Hc, Z.ltb_irrefl. simpl.
  by rewrite bool_decide_eq_false_2.
Qed.
