(* ===== verification/IpWire.v ===== *)
(** * IP headers: the interface of [golang.org/x/net/ipv4]

    The node encodes and decodes IP headers with that package, which is a parameter: a
    class of its two functions and a class of the laws the node relies on, with a
    reference instance that shows that the laws can hold. *)

From S2P Require Import Prelude GoLang Wire WireRef.

(** [ipv4.Header].  A [net.IP] is the number that [To4] and [BigEndian.Uint32] read. *)
Record IPHeader := mkIPHeader {
  IPVersion : Z;
  IPLen : Z;
  TOS : Z;
  TotalLen : Z;
  ID : Z;
  IPFlags : Z;
  FragOff : Z;
  TTL : Z;
  Protocol : Z;
  IPChecksum : Z;
  Src : Z;
  Dst : Z;
  Options : list byte
}.

#[global] Instance IPHeader_eq_dec : EqDecision IPHeader.
Proof. solve_decision. Defined.

Definition set_IPChecksum (c : Z) (h : IPHeader) : IPHeader :=
  mkIPHeader (IPVersion h) (IPLen h) (TOS h) (TotalLen h) (ID h) (IPFlags h) (FragOff h)
    (TTL h) (Protocol h) c (Src h) (Dst h) (Options h).

Definition set_TTL (t : Z) (h : IPHeader) : IPHeader :=
  mkIPHeader (IPVersion h) (IPLen h) (TOS h) (TotalLen h) (ID h) (IPFlags h) (FragOff h)
    t (Protocol h) (IPChecksum h) (Src h) (Dst h) (Options h).

(** The functions of the package; [None] is an error. *)
Class IPv4 := {
  (** [(h *Header) Marshal()] *)
  Marshal : IPHeader → option (list byte);
  (** [ParseHeader(b)] *)
  ParseHeader : list byte → option IPHeader
}.

(** A header without options whose fields fit the widths of RFC 791. *)
Definition wf_ip (h : IPHeader) : Prop :=
  IPVersion h = 4 ∧ IPLen h = 20 ∧ 0 ≤ TOS h < 256 ∧ is_u16 (TotalLen h) ∧ is_u16 (ID h) ∧
  0 ≤ IPFlags h < 8 ∧ 0 ≤ FragOff h < 8192 ∧ 0 ≤ TTL h < 256 ∧ 0 ≤ Protocol h < 256 ∧
  is_u16 (IPChecksum h) ∧ is_u32 (Src h) ∧ is_u32 (Dst h) ∧ Options h = [].

(** [Marshal] returns the binary encoding of the header, which [ParseHeader] parses. *)
Class IPv4Laws (I : IPv4) := {
  Marshal_length h : wf_ip h → ∃ b, Marshal h = Some b ∧ zlen b = 20;
  ParseHeader_Marshal h b r : wf_ip h → Marshal h = Some b → ParseHeader (b ++ r) = Some h
}.

(** ** The reference instance *)

Definition ref_marshal (h : IPHeader) : option (list byte) :=
  if IPLen h <? 20 then None
  else Some (
    [byte_of_Z (IPVersion h * 16 + IPLen h / 4); byte_of_Z (TOS h)] ++
    put_u16 (TotalLen h) ++ put_u16 (ID h) ++ put_u16 (IPFlags h * 8192 + FragOff h) ++
    [byte_of_Z (TTL h); byte_of_Z (Protocol h)] ++ put_u16 (IPChecksum h) ++
    put_u32 (Src h) ++ put_u32 (Dst h) ++ Options h).

Definition ref_parse (b : list byte) : option IPHeader :=
  let hdrlen := byte_to_Z (nth_byte b 0) mod 16 * 4 in
  if (zlen b <? 20) || (zlen b <? hdrlen) then None
  else Some {|
    IPVersion := byte_to_Z (nth_byte b 0) / 16;
    IPLen := hdrlen;
    TOS := byte_to_Z (nth_byte b 1);
    TotalLen := u16_at b 2;
    ID := u16_at b 4;
    IPFlags := u16_at b 6 / 8192;
    FragOff := u16_at b 6 mod 8192;
    TTL := byte_to_Z (nth_byte b 8);
    Protocol := byte_to_Z (nth_byte b 9);
    IPChecksum := u16_at b 10;
    Src := u32_at b 12;
    Dst := u32_at b 16;
    Options := ztake (hdrlen - 20) (zdrop 20 b) |}.

#[export] Instance ref_ipv4 : IPv4 := {| Marshal := ref_marshal; ParseHeader := ref_parse |}.

Lemma byte_to_of_Z_small z : 0 ≤ z < 256 → byte_to_Z (byte_of_Z z) = z.
Proof. intros. rewrite byte_to_of_Z. unfold u8. by apply Z.mod_small. Qed.

#[export] Instance ref_ipv4_laws : IPv4Laws ref_ipv4.
Proof.
  split.
  - intros h (Hv & Hl & Hrest). simpl. unfold ref_marshal. rewrite Hl. simpl.
    destruct Hrest as (_&_&_&_&_&_&_&_&_&_&->).
    eexists. split; [done|]. done.
  - intros h b r (Hv & Hl & Ht & Htl & Hid & Hf & Hfo & Httl & Hp & Hc & Hs & Hd & Ho) Hm.
    simpl in Hm. unfold ref_marshal in Hm. rewrite Hl in Hm. simpl in Hm.
    injection Hm as <-. rewrite Hv, Ho. simpl. unfold ref_parse, u16_at, u32_at, nth_byte.
    cbn [lookup list_lookup default from_option]. simpl.
    rewrite !get_put_u32, !get_put_u16 by (done || unfold is_u16; lia).
    change (4 * 16 + 20 / 4) with 69. rewrite !byte_to_of_Z_small by lia.
    change (69 mod 16 * 4) with 20. change (69 / 16) with 4.
    rewrite (proj2 (Z.ltb_ge _ 20)) by (rewrite !zlen_cons; pose proof (zlen_nonneg r); lia).
    cbn [orb]. f_equal. destruct h. simpl in *. subst. f_equal.
    + rewrite Z.div_add_l by lia. rewrite Z.div_small by lia. lia.
    + rewrite Z.add_comm, Z.mod_add by lia. apply Z.mod_small. lia.
Qed.
