(* ===== verification/Host.v ===== *)
(** * The IP host ([src/pkg/ip/host.go], [link_interface.go], [ip_packet.go],
      [traceroute_handler.go], [traceroute/tr_protocol.go])

    The goroutines of the host are loops around a [select]: one turn of each is a
    definition.  What they start or send (goroutines, channels, datagrams) is an effect. *)

From S2P Require Import Prelude GoLang Wire WireRef IpWire RoutingTable.
From Stdlib Require Strings.String.

(** ** Data *)

Definition ADDR_SIZE : Z := 4.
Definition IPV6 : Z := 6.
Definition RIP_PROTOCOL : Z := 200.
Definition ICMP : Z := 1.
Definition TTL_MAX : Z := 16.
Definition MTU : Z := 1400.

(** [IPPacket].  [Spare] is what lies between the length and the capacity of the slice
    [Data]: the upper bound of a slice expression is checked against the capacity. *)
Record IPPacket := mkIPPacket {
  Header : IPHeader;
  Data : list byte;
  Spare : list byte
}.

Definition set_Header (h : IPHeader) (p : IPPacket) : IPPacket := mkIPPacket h (Data p) (Spare p).

(** [p.Data[0:n]] *)
Definition data_upto (p : IPPacket) (n : Z) : option (list byte) := slice (Data p ++ Spare p) 0 n.

(** [LinkInterface]; [UDPAddr] is nil until [InitializeDestConnection] has resolved it. *)
Record LinkInterface := mkLinkInterface {
  InterfaceNumber : Z;
  HostIPAddress : Z;
  DestIPAddress : Z;
  UDPDestPort : Z;
  UDPAddr : option Z;
  Stopped : bool
}.

(** The handlers that [SetupHandlers] registers. *)
Inductive Handler := TestHandler | TracerouteHandler | TcpHandler | RIPHandler.

Record Host := mkHost {
  LocalIFs : gmap Z LinkInterface;
  RemoteDestination : gmap Z Z;
  HostRoutes : RoutingTable;
  HandlerRegistry : gmap Z Handler;
  HostNextChan : nat
}.

(** [NextHopMsg] *)
Record NextHopMsg := mkNextHopMsg { Found : bool; NextLoc : Z }.

Inductive host_eff :=
  (** [c.HostConnection.WriteToUDP(bytes, c.UDPAddr)] *)
  | HDatagram (udpAddr : Z) (bytes : list byte)
  (** [h.PacketChannel <- packet] *)
  | HPacket (packet : IPPacket)
  (** [go handler.ReceivePacket(packet, h.RoutingTable)] *)
  | HReceive (handler : Handler) (packet : IPPacket)
  (** [go h.SendToLinkLayer(destAddr, packet)] *)
  | HForward (destAddr : Z) (packet : IPPacket)
  (** [go h.SendToNeighbor(destAddr, packet)] *)
  | HNeighbor (destAddr : Z) (packet : IPPacket)
  (** [go h.sendICMPTimeExceeded(packet)] *)
  | HTimeExceeded (packet : IPPacket)
  (** [h.TCPErrorChannel <- err] *)
  | HTCPError
  (** [AddChanRoutine], [RemoveChanRoutine] of the registered ICMP handler *)
  | HAddChan (handler : Handler)
  | HRemoveChan (handler : Handler)
  (** [os.Exit(1)] *)
  | HExit
  (** [go handler.InitHandler(data)] *)
  | HInit (handler : Handler).

Abbreviation HM := (GoM Host host_eff).

Section host.
Context {N : Netstack} {I : IPv4}.

(** ** Packets and interfaces *)

Definition computeChecksum (packet : IPPacket) : option Z :=
  headerBytes ← Marshal (set_IPChecksum 0 (Header packet));
  Some (Z.lxor (Checksum headerBytes 0) 65535).

Definition CreateIPPacket (src dest : Z) (data spare : list byte) (protocol ttl : Z) : IPPacket :=
  mkIPPacket
    {| IPVersion := 4;
       IPLen := 20;
       TOS := 0;
       TotalLen := 20 + zlen data;
       ID := 0;
       IPFlags := 0;
       FragOff := 0;
       TTL := ttl;
       Protocol := protocol;
       IPChecksum := 0;
       Src := src;
       Dst := dest;
       Options := [] |}
    data spare.

(** The three statements that put the checksum into a packet. *)
Definition with_checksum (packet : IPPacket) (checkSum : Z) : IPPacket :=
  set_Header (set_IPChecksum checkSum (Header packet)) packet.

Definition LinkSend (c : LinkInterface) (ip_packet : IPPacket) : HM unit :=
  if Stopped c then mret tt
  else
    match UDPAddr c with
    | None => mret tt
    | Some udpAddr =>
        emit (HDatagram udpAddr (default [] (Marshal (Header ip_packet)) ++ Data ip_packet))
    end.

Definition set_Stopped (b : bool) (c : LinkInterface) : LinkInterface :=
  mkLinkInterface (InterfaceNumber c) (HostIPAddress c) (DestIPAddress c) (UDPDestPort c)
    (UDPAddr c) b.

Definition Enable (c : LinkInterface) : LinkInterface := set_Stopped false c.
Definition Disable (c : LinkInterface) : LinkInterface := set_Stopped true c.

Definition RegisterHandler (protocolNum : Z) (handler : Handler) : HM unit :=
  modify (λ h, mkHost (LocalIFs h) (RemoteDestination h) (HostRoutes h)
                 (<[protocolNum := handler]> (HandlerRegistry h)) (HostNextChan h)).

(** [InitHost] *)
Definition InitHost (h : Host) : Host := mkHost ∅ ∅ (HostRoutes h) ∅ (HostNextChan h).

(** ** Sending *)

(** The lookups [h.RemoteDestination[nextHop]] and [h.LocalIFs[addrOfInterface]]. *)
Definition SendToLinkLayer (destAddr : Z) (packet : IPPacket) : HM unit :=
  match computeChecksum packet with
  | None => mret tt
  | Some newCheckSum =>
      let packet := with_checksum packet newCheckSum in
      h ← get;
      match CheckRoute (HostRoutes h) destAddr with
      | None => mret tt
      | Some entry =>
          if Cost entry =? INFINITY then mret tt
          else
            match RemoteDestination h !! NextHop entry with
            | None => mret tt
            | Some addrOfInterface =>
                match LocalIFs h !! addrOfInterface with
                | None => mret tt
                | Some localInterface => LinkSend localInterface packet
                end
            end
      end
  end.

Definition SendToNeighbor (dest : Z) (packet : IPPacket) : HM unit :=
  match computeChecksum packet with
  | None => mret tt
  | Some newCheckSum =>
      let packet := with_checksum packet newCheckSum in
      h ← get;
      match RemoteDestination h !! dest with
      | None => mret tt
      | Some addrOfInterface =>
          match LocalIFs h !! addrOfInterface with
          | None => mret tt
          | Some localInterface => LinkSend localInterface packet
          end
      end
  end.

(** The errors of [SendPacket]. *)
Inductive send_error :=
  | EntryDoesntExist | UnableToReach | MarshalFailed | NoInterface | NoNextHop.

(** [data] is the string and [spare] the rest of the array of [[]byte(data)]. *)
Definition SendPacket (destAddr protocol : Z) (data spare : list byte) : HM (option send_error) :=
  h ← get;
  match CheckRoute (HostRoutes h) destAddr with
  | None => mret (Some EntryDoesntExist)
  | Some entry =>
      if Cost entry =? INFINITY then mret (Some UnableToReach)
      else
        let nextHop := NextHop entry in
        match LocalIFs h !! nextHop with
        | Some _ =>
            let packet := CreateIPPacket nextHop destAddr data spare 0 TTL_MAX in
            match computeChecksum packet with
            | None => mret (Some MarshalFailed)
            | Some checkSum => emit (HPacket (with_checksum packet checkSum));; mret None
            end
        | None =>
            match RemoteDestination h !! nextHop with
            | None => mret (Some NoNextHop)
            | Some addrOfInterface =>
                match LocalIFs h !! addrOfInterface with
                | None => mret (Some NoInterface)
                | Some localInterface =>
                    let packet := CreateIPPacket addrOfInterface destAddr data spare 0 TTL_MAX in
                    match computeChecksum packet with
                    | None => mret (Some MarshalFailed)
                    | Some checkSum =>
                        LinkSend localInterface (with_checksum packet checkSum);; mret None
                    end
                end
            end
        end
  end.

(** [ReadFromHandler]: the arm of [h.MessageChannel].  The result of an arm is false when
    it returns from the loop. *)
Definition ReadFromHandler_rip (data : list byte) : HM bool :=
  if zlen data =? 0 then mret true
  else
    addr ← try (slice data 0 ADDR_SIZE);
    destAddr ← try (be_uint32 addr);
    h ← get;
    let srcAddr := default 0 (RemoteDestination h !! destAddr) in
    let packet :=
      CreateIPPacket srcAddr destAddr (zdrop ADDR_SIZE data) [] RIP_PROTOCOL TTL_MAX in
    emit (HNeighbor destAddr packet);;
    mret true.

(** [ReadFromHandler]: the arm of [h.TCPMessageChannel]. *)
Definition ReadFromHandler_tcp (data : list byte) : HM bool :=
  if zlen data =? 0 then mret true
  else
    src ← try (slice data 0 ADDR_SIZE);
    srcAddr ← try (be_uint32 src);
    dest ← try (slice data ADDR_SIZE (2 * ADDR_SIZE));
    destAddr ← try (be_uint32 dest);
    h ← get;
    match HostRoutes h !! destAddr with
    | None => emit HTCPError;; mret false
    | Some entry =>
        match RemoteDestination h !! NextHop entry with
        | None => mret true
        | Some addrOfInterface =>
            let packet := CreateIPPacket srcAddr destAddr (zdrop (2 * ADDR_SIZE) data) [] 6 16 in
            match computeChecksum packet with
            | None => emit HTCPError;; mret false
            | Some checkSum =>
                match LocalIFs h !! addrOfInterface with
                | None => mret true
                | Some localInterface =>
                    LinkSend localInterface (with_checksum packet checkSum);; mret true
                end
            end
        end
    end.

(** ** Receiving *)

(** [ListenOnPort]: one turn, in which [datagram] arrives from the UDP port [port],
    [cancel] is what is in [h.CancelChannel], and [failed] is the error of the read. *)
Definition ListenOnPort (datagram : list byte) (port : Z) (cancel : option bool)
    (failed : bool) : HM bool :=
  if default false cancel then mret false
  else if failed then emit HExit;; mret false
  else
    h ← get;
    if negb (existsb (λ '(_, localIF), port =? UDPDestPort localIF) (map_to_list (LocalIFs h)))
    then mret true
    else
      let read := ztake MTU datagram in
      let buffer := read ++ replicate (Z.to_nat (MTU - zlen read)) x00 in
      hdr ← try (ParseHeader buffer);
      data ← try (slice read (IPLen hdr) (zlen read));
      emit (HPacket (mkIPPacket hdr data (zdrop (zlen read) buffer)));;
      mret true.

(** [ReadFromLinkLayer]: one turn, on the packet it takes from [h.PacketChannel]. *)
Definition ReadFromLinkLayer (packet : IPPacket) : HM unit :=
  if IPVersion (Header packet) =? IPV6 then mret tt
  else
    let checkSum := IPChecksum (Header packet) in
    match computeChecksum packet with
    | None => mret tt
    | Some newCheckSum =>
        if negb (newCheckSum =? checkSum) then mret tt
        else
          let packet := set_Header (set_TTL (TTL (Header packet) - 1) (Header packet)) packet in
          let destAddr := Dst (Header packet) in
          h ← get;
          match LocalIFs h !! destAddr with
          | Some localInterface =>
              if Stopped localInterface then mret tt
              else
                match HandlerRegistry h !! Protocol (Header packet) with
                | Some handler => emit (HReceive handler packet)
                | None => mret tt
                end
          | None =>
              if TTL (Header packet) =? 0 then emit (HTimeExceeded packet)
              else emit (HForward destAddr packet)
          end
    end.

(** ** ICMP *)

(** [ICMPHeader] as [binary.Write] writes it. *)
Definition icmp_header (type : Z) : list byte :=
  [byte_of_Z type; byte_of_Z 0] ++ put_u16 0 ++ put_u16 0 ++ put_u16 0.

(** [sendICMPTimeExceeded]: [binary.Write] of the [ipv4.Header], a struct with [int] and
    slice fields, is an error and writes nothing. *)
Definition sendICMPTimeExceeded (packet : IPPacket) : HM unit :=
  let originalSrc := Src (Header packet) in
  data ← try (data_upto packet 8);
  let buf := icmp_header ICMPv4TimeExceeded ++ data in
  h ← get;
  match CheckRoute (HostRoutes h) originalSrc with
  | None => mret tt
  | Some entry =>
      if Cost entry =? INFINITY then mret tt
      else
        match RemoteDestination h !! NextHop entry with
        | None => mret tt
        | Some addrOfInterface =>
            let packet := CreateIPPacket addrOfInterface originalSrc buf [] 1 16 in
            match computeChecksum packet with
            | None => mret tt
            | Some checkSum =>
                match LocalIFs h !! addrOfInterface with
                | None => mret tt
                | Some localInterface => LinkSend localInterface (with_checksum packet checkSum)
                end
            end
        end
  end.

(** [ReadEchoPacket]: one turn; [CheckRoute] may return nil, whose field is then read. *)
Definition ReadEchoPacket (echoMsg : list byte) : HM unit :=
  dest ← try (slice echoMsg 0 ADDR_SIZE);
  destAddr ← try (be_uint32 dest);
  src ← try (slice echoMsg ADDR_SIZE (ADDR_SIZE + ADDR_SIZE));
  srcAddr ← try (be_uint32 src);
  let dataToSend := zdrop (ADDR_SIZE + ADDR_SIZE) echoMsg in
  h ← get;
  entry ← try (CheckRoute (HostRoutes h) destAddr);
  match RemoteDestination h !! NextHop entry with
  | None => mret tt
  | Some addrOfInterface =>
      match LocalIFs h !! addrOfInterface with
      | None => mret tt
      | Some localInterface =>
          let packet := CreateIPPacket srcAddr destAddr dataToSend [] 1 TTL_MAX in
          match computeChecksum packet with
          | None => mret tt
          | Some checkSum => LinkSend localInterface (with_checksum packet checkSum)
          end
      end
  end.

(** The bytes of [CreateEchoPacket] as [SendTraceroutePacket] writes them. *)
Definition CreateEchoPacket : list byte :=
  icmp_header 8 ++ String.list_byte_of_string "traceroute echo"%string.

(** The body of the loop of [SendTraceroutePacket] up to the [select]; [entry] is what the
    entry of the table holds at that moment.  The result is false when it returns. *)
Definition traceroute_probe (destAddr currTTL : Z) (entry : RoutingTableEntry) : HM bool :=
  if Cost entry =? INFINITY then mret false
  else
    h ← get;
    match RemoteDestination h !! NextHop entry with
    | None => mret true
    | Some addrOfInterface =>
        match LocalIFs h !! addrOfInterface with
        | None => mret true
        | Some localInterface =>
            let packet := CreateIPPacket addrOfInterface destAddr CreateEchoPacket [] 1 currTTL in
            match computeChecksum packet with
            | None => mret false
            | Some checkSum => LinkSend localInterface (with_checksum packet checkSum);; mret true
            end
        end
    end.

(** The loop: [n] turns are left.  [replies] are the messages on [h.NextHopChannel], each
    with what the entry holds after it; without one the goroutine waits for ever. *)
Fixpoint traceroute_loop (n : nat) (destAddr currTTL : Z) (entry : RoutingTableEntry)
    (path : list Z) (replies : list (NextHopMsg * RoutingTableEntry)) : HM (list Z) :=
  match n with
  | O => mret path
  | S n =>
      sent ← traceroute_probe destAddr currTTL entry;
      if negb sent then mret []
      else
        match replies with
        | [] => hang
        | (nextLoc, entry) :: replies =>
            let path := path ++ [NextLoc nextLoc] in
            if Found nextLoc then
              h ← get;
              handler ← try (HandlerRegistry h !! ICMP);
              emit (HRemoveChan handler);;
              mret path
            else traceroute_loop n destAddr (currTTL + 1) entry path replies
        end
  end.

Definition SendTraceroutePacket (destAddr : Z) (replies : list (NextHopMsg * RoutingTableEntry))
    : HM (list Z) :=
  h ← get;
  match CheckRoute (HostRoutes h) destAddr with
  | None => mret []
  | Some entry =>
      if Cost entry =? INFINITY then mret []
      else
        handler ← try (HandlerRegistry h !! ICMP);
        emit (HAddChan handler);;
        traceroute_loop 16 destAddr 1 entry [] replies
  end.

(** ** Interfaces up and down *)

(** The first interface of the iteration [order] that has the number. *)
Definition find_interface (interfaceNum : Z) (order : list (Z * LinkInterface))
    : option (Z * LinkInterface) :=
  List.find (λ '(_, interf), InterfaceNumber interf =? interfaceNum) order.

Inductive if_error := AlreadyDown | AlreadyUp | NoSuchInterface.

Definition DownInterface (interfaceNum : Z) (order : list (Z * LinkInterface))
    : HM (option if_error) :=
  match find_interface interfaceNum order with
  | None => mret (Some NoSuchInterface)
  | Some (key, interf) =>
      if Stopped interf then mret (Some AlreadyDown)
      else
        modify (λ h, mkHost (<[key := Disable interf]> (LocalIFs h)) (RemoteDestination h)
          (RemoveNextHops (HostRoutes h) [HostIPAddress interf; DestIPAddress interf])
          (HandlerRegistry h) (HostNextChan h));;
        mret None
  end.

Definition UpInterface (interfaceNum : Z) (order : list (Z * LinkInterface))
    : HM (option if_error) :=
  match find_interface interfaceNum order with
  | None => mret (Some NoSuchInterface)
  | Some (key, interf) =>
      if negb (Stopped interf) then mret (Some AlreadyUp)
      else
        modify (λ h, mkHost (<[key := Enable interf]> (LocalIFs h)) (RemoteDestination h)
          (<[HostIPAddress interf := CreateEntry (HostIPAddress interf) 0 (HostNextChan h)]>
             (HostRoutes h))
          (HandlerRegistry h) (S (HostNextChan h)));;
        mret None
  end.
End host.

(** ** The traceroute handler *)

(** [TracerouteHandler]: whether [HandleRoute] is set. *)
Record TracerouteState := mkTraceroute { HandleRoute : bool }.

Inductive tr_eff :=
  (** [tr.RouteChan <- msg] *)
  | TRoute (msg : NextHopMsg)
  (** [tr.EchoChan <- buf] *)
  | TEcho (buf : list byte).

Definition AddChanRoutine : GoM TracerouteState tr_eff unit := put (mkTraceroute true).
Definition RemoveChanRoutine : GoM TracerouteState tr_eff unit := put (mkTraceroute false).

(** [binary.Read] into a [[]byte] of 64 zeros: on shorter data it is an error and the slice
    keeps its zeros. *)
Definition echo_data (data : list byte) : list byte :=
  if zlen data <? 64 then replicate 64 x00 else ztake 64 data.

Definition TracerouteReceivePacket (packet : IPPacket) : GoM TracerouteState tr_eff unit :=
  first ← try (data_upto packet 1);
  let typeMsg := default 0 (byte_to_Z <$> head first) in
  if typeMsg =? 8 then
    data ← try (slice (Data packet) 8 (zlen (Data packet)));
    emit (TEcho (put_u32 (Src (Header packet)) ++ put_u32 (Dst (Header packet)) ++
                 icmp_header 0 ++ echo_data data))
  else if typeMsg =? 0 then emit (TRoute (mkNextHopMsg true (Src (Header packet))))
  else if typeMsg =? 11 then
    tr ← get;
    when (HandleRoute tr) (emit (TRoute (mkNextHopMsg false (Src (Header packet)))))
  else mret tt.
