(* ===== verification/Forwarding.v ===== *)
(** * Packets through the network

    What the hosts along a path do with a packet: the turn of [ListenOnPort] that reads the
    datagram, the turn of [ReadFromLinkLayer] that checks the packet, and the goroutine
    [SendToLinkLayer] that sends it on, or the handler that receives it. *)

From S2P Require Import Prelude GoLang Wire WireRef IpWire RoutingTable Host TcpData Handshake.

(** ** Checksums *)

Section packets.
Context {N : Netstack} {I : IPv4}.

(** A packet as it is on the wire. *)
Definition packet_bytes (p : IPPacket) : list byte :=
  default [] (Marshal (Header p)) ++ Data p.

(** The header is well formed and its checksum is right. *)
Definition valid (p : IPPacket) : Prop :=
  wf_ip (Header p) ∧ computeChecksum p = Some (IPChecksum (Header p)).

Lemma computeChecksum_with p c : computeChecksum (with_checksum p c) = computeChecksum p.
Proof. done. Qed.

Lemma wf_ip_checksum h c : wf_ip h → is_u16 c → wf_ip (set_IPChecksum c h).
Proof. unfold wf_ip. destruct h. simpl. tauto. Qed.

Lemma wf_ip_ttl h t : wf_ip h → 0 ≤ t < 256 → wf_ip (set_TTL t h).
Proof. unfold wf_ip. destruct h. simpl. tauto. Qed.

Context {NL : NetstackLaws N} {IL : IPv4Laws I}.

Lemma computeChecksum_some p :
  wf_ip (Header p) → ∃ c, computeChecksum p = Some c ∧ valid (with_checksum p c).
Proof.
  intros Hwf. unfold computeChecksum.
  destruct (Marshal_length (set_IPChecksum 0 (Header p))) as (b & Hb & _).
  { by apply wf_ip_checksum. }
  assert (Hu : is_u16 (Z.lxor (Checksum b 0) 65535)).
  { apply lxor_ffff_u16, Checksum_u16. by unfold is_u16. }
  exists (Z.lxor (Checksum b 0) 65535). rewrite Hb. split; [done|]. split.
  - by apply wf_ip_checksum.
  - rewrite computeChecksum_with. unfold computeChecksum. by rewrite Hb.
Qed.

Lemma CreateIPPacket_wf src dst data spare protocol ttl :
  is_u32 src → is_u32 dst → 20 + zlen data < 65536 → 0 ≤ protocol < 256 → 0 ≤ ttl < 256 →
  wf_ip (Header (CreateIPPacket src dst data spare protocol ttl)).
Proof.
  intros. pose proof (zlen_nonneg data). unfold wf_ip, CreateIPPacket, is_u16. simpl.
  split_and!; try done; lia.
Qed.

(** ** One host *)

(** The host has an interface whose neighbour uses that UDP port. *)
Definition known_port (h : Host) (port : Z) : Prop :=
  ∃ a lif, LocalIFs h !! a = Some lif ∧ UDPDestPort lif = port.

Lemma known_port_found h port :
  known_port h port →
  existsb (λ '(_, localIF), port =? UDPDestPort localIF) (map_to_list (LocalIFs h)) = true.
Proof.
  intros (a & lif & Hl & Hp). apply existsb_exists. exists (a, lif). split.
  - apply list_elem_of_In. by apply elem_of_map_to_list.
  - by apply Z.eqb_eq.
Qed.

Lemma ListenOnPort_packet p port h :
  wf_ip (Header p) → 20 + zlen (Data p) ≤ MTU → known_port h port →
  ∃ spare, ListenOnPort (packet_bytes p) port None false h
    = (Ok true, h, [HPacket (mkIPPacket (Header p) (Data p) spare)]).
Proof.
  intros Hwf Hlen Hport. destruct (Marshal_length _ Hwf) as (b & Hb & Hb20).
  unfold ListenOnPort, packet_bytes. rewrite Hb. change (default [] (Some b)) with b. cbn [default].
  rewrite (ztake_all MTU (b ++ Data p)) by (rewrite zlen_app, Hb20; exact Hlen).
  go_unfold. simpl.
  rewrite known_port_found by done. simpl. rewrite <-(assoc_L (++)).
  rewrite (ParseHeader_Marshal _ _ _ Hwf Hb). go_unfold.
  replace (IPLen (Header p)) with 20 by (symmetry; apply Hwf).
  pose proof (zlen_nonneg (Data p)).
  rewrite slice_in by (rewrite ?zlen_app; lia).
  replace (ztake _ (zdrop 20 (b ++ Data p))) with (Data p).
  - eexists. reflexivity.
  - unfold zdrop. rewrite drop_app_length'; [|unfold zlen in Hb20; lia].
    symmetry. apply ztake_all. rewrite zlen_app. lia.
Qed.

(** The host sends packets for [dst] on, out of the interface to the UDP address [udp]. *)
Definition routes_to (h : Host) (dst udp : Z) : Prop :=
  ∃ e a lif, HostRoutes h !! dst = Some e ∧ Cost e ≠ INFINITY ∧
    RemoteDestination h !! NextHop e = Some a ∧ LocalIFs h !! a = Some lif ∧
    Stopped lif = false ∧ UDPAddr lif = Some udp.

Lemma SendToLinkLayer_sends p h dst udp :
  wf_ip (Header p) → routes_to h dst udp →
  ∃ c, valid (with_checksum p c) ∧
    SendToLinkLayer dst p h = (Ok tt, h, [HDatagram udp (packet_bytes (with_checksum p c))]).
Proof.
  intros Hwf (e & a & lif & He & Hc & Ha & Hlif & Hs & Hu).
  destruct (computeChecksum_some p Hwf) as (c & Hcs & Hv). exists c. split; [done|].
  unfold SendToLinkLayer. rewrite Hcs. go_unfold. unfold CheckRoute. rewrite He.
  rewrite (proj2 (Z.eqb_neq _ _)) by done. rewrite Ha, Hlif.
  unfold LinkSend. rewrite Hs, Hu. done.
Qed.

(** The packet after its time to live has been decremented. *)
Definition aged (p : IPPacket) : IPPacket :=
  set_Header (set_TTL (TTL (Header p) - 1) (Header p)) p.

Lemma ReadFromLinkLayer_checked p h :
  IPVersion (Header p) ≠ IPV6 ∧ computeChecksum p = Some (IPChecksum (Header p)) →
  ReadFromLinkLayer p h =
    (Ok tt, h,
     match LocalIFs h !! Dst (Header p) with
     | Some lif =>
         if Stopped lif then []
         else match HandlerRegistry h !! Protocol (Header p) with
              | Some handler => [HReceive handler (aged p)]
              | None => []
              end
     | None => if TTL (Header p) =? 1 then [HTimeExceeded (aged p)]
               else [HForward (Dst (Header p)) (aged p)]
     end).
Proof.
  intros [Hv Hcs]. unfold ReadFromLinkLayer.
  rewrite (proj2 (Z.eqb_neq _ _) Hv), Hcs, Z.eqb_refl. simpl.
  go_unfold. destruct (LocalIFs h !! _) as [lif|].
  - destruct (Stopped lif); [done|]. by destruct (HandlerRegistry h !! _).
  - destruct (Z.eqb_spec (TTL (Header p) - 1) 0), (Z.eqb_spec (TTL (Header p)) 1);
      try lia; done.
Qed.

Lemma ReadFromLinkLayer_unchecked p h :
  ¬ (IPVersion (Header p) ≠ IPV6 ∧ computeChecksum p = Some (IPChecksum (Header p))) →
  ReadFromLinkLayer p h = (Ok tt, h, []).
Proof.
  intros Hn. unfold ReadFromLinkLayer. destruct (Z.eqb_spec (IPVersion (Header p)) IPV6); [done|].
  destruct (computeChecksum p) as [c|]; [|done].
  destruct (Z.eqb_spec c (IPChecksum (Header p))) as [->|]; [by destruct Hn|done].
Qed.

Lemma ReadFromLinkLayer_valid p h :
  valid p →
  ReadFromLinkLayer p h =
    (Ok tt, h,
     match LocalIFs h !! Dst (Header p) with
     | Some lif =>
         if Stopped lif then []
         else match HandlerRegistry h !! Protocol (Header p) with
              | Some handler => [HReceive handler (aged p)]
              | None => []
              end
     | None => if TTL (Header p) =? 1 then [HTimeExceeded (aged p)]
               else [HForward (Dst (Header p)) (aged p)]
     end).
Proof.
  intros [(Hv & _) Hcs]. apply ReadFromLinkLayer_checked. by rewrite Hv.
Qed.

Lemma SendToLinkLayer_iff d q h udp bytes :
  run_trace (SendToLinkLayer d q) h = [HDatagram udp bytes] ↔
    routes_to h d udp ∧
    ∃ c, computeChecksum q = Some c ∧ bytes = packet_bytes (with_checksum q c).
Proof.
  split.
  - unfold run_trace, SendToLinkLayer, routes_to, CheckRoute, LinkSend.
    destruct (computeChecksum q) as [c|]; [|done]. go_unfold.
    destruct (HostRoutes h !! d) as [e|]; [|done].
    destruct (Z.eqb_spec (Cost e) INFINITY); [done|].
    destruct (RemoteDestination h !! NextHop e) as [a|] eqn:Ea; [|done].
    destruct (LocalIFs h !! a) as [lif|] eqn:El; [|done].
    destruct (Stopped lif) eqn:Es; [done|]. destruct (UDPAddr lif) eqn:Eu; [|done].
    intros [= <- <-]. split; [by exists e, a, lif|by exists c].
  - intros [(e & a & lif & He & Hc & Ha & Hlif & Hs & Hu) (c & Hcs & ->)].
    unfold run_trace, SendToLinkLayer, CheckRoute, LinkSend. rewrite Hcs. go_unfold.
    by rewrite He, (proj2 (Z.eqb_neq _ _) Hc), Ha, Hlif, Hs, Hu.
Qed.

(** ** A path of hosts *)

(** A datagram that comes from the UDP port [from] makes the host send one on. *)
Definition forwards (h : Host) (from : Z) (bytes : list byte) (udp : Z) (bytes' : list byte)
    : Prop :=
  ∃ p d p',
    ListenOnPort bytes from None false h = (Ok true, h, [HPacket p]) ∧
    ReadFromLinkLayer p h = (Ok tt, h, [HForward d p']) ∧
    SendToLinkLayer d p' h = (Ok tt, h, [HDatagram udp bytes']).

(** A datagram makes the host start a handler on a packet. *)
Definition delivers (h : Host) (from : Z) (bytes : list byte) (handler : Handler)
    (q : IPPacket) : Prop :=
  ∃ p,
    ListenOnPort bytes from None false h = (Ok true, h, [HPacket p]) ∧
    ReadFromLinkLayer p h = (Ok tt, h, [HReceive handler q]).

(** A node of the network: a host, the UDP address it is reached at, and its UDP port. *)
Record node := mkNode { nhost : Host; naddr : Z; nport : Z }.

(** The datagram [bytes], sent from the port [from] to the first node of the path, is
    forwarded from node to node; the last one sends [bytes'] to the address [last]. *)
Fixpoint travels (path : list node) (from : Z) (bytes : list byte) (last : Z)
    (from' : Z) (bytes' : list byte) : Prop :=
  match path with
  | [] => from' = from ∧ bytes' = bytes
  | n :: path =>
      ∃ bytes1,
        forwards (nhost n) from bytes (default last (naddr <$> head path)) bytes1 ∧
        travels path (nport n) bytes1 last from' bytes'
  end.

(** Every node of the path knows its predecessor and has a route to [dst], which is none of
    its own addresses, through its successor. *)
Fixpoint good_path (path : list node) (from dst last from' : Z) : Prop :=
  match path with
  | [] => from' = from
  | n :: path =>
      known_port (nhost n) from ∧ LocalIFs (nhost n) !! dst = None ∧
      routes_to (nhost n) dst (default last (naddr <$> head path)) ∧
      good_path path (nport n) dst last from'
  end.

(** What forwarding keeps of a packet. *)
Definition same_packet (p q : IPPacket) : Prop :=
  Src (Header q) = Src (Header p) ∧ Dst (Header q) = Dst (Header p) ∧
  Protocol (Header q) = Protocol (Header p) ∧ Data q = Data p.

Lemma valid_spare p spare : valid p → valid (mkIPPacket (Header p) (Data p) spare).
Proof. done. Qed.

Lemma forwards_valid p h from udp :
  valid p → 20 + zlen (Data p) ≤ MTU → 1 < TTL (Header p) → known_port h from →
  LocalIFs h !! Dst (Header p) = None → routes_to h (Dst (Header p)) udp →
  ∃ q, valid q ∧ same_packet p q ∧ TTL (Header q) = TTL (Header p) - 1 ∧
    forwards h from (packet_bytes p) udp (packet_bytes q).
Proof.
  intros Hv Hlen Httl Hport Hloc Hr.
  destruct (ListenOnPort_packet p from h (proj1 Hv) Hlen Hport) as [spare Hlis].
  set (p0 := mkIPPacket (Header p) (Data p) spare) in Hlis.
  assert (Hwf : wf_ip (Header (aged p0))).
  { apply wf_ip_ttl; [apply Hv|]. destruct (proj1 Hv) as (_&_&_&_&_&_&_&?&_).
    simpl in *. lia. }
  destruct (SendToLinkLayer_sends (aged p0) h (Dst (Header p)) udp Hwf Hr) as (c & Hvc & Hsend).
  exists (with_checksum (aged p0) c). split; [done|]. split; [done|]. split; [done|].
  exists p0, (Dst (Header p)), (aged p0). split; [done|]. split; [|done].
  rewrite ReadFromLinkLayer_valid by (by apply valid_spare). simpl. rewrite Hloc.
  by rewrite (proj2 (Z.eqb_neq _ _)) by lia.
Qed.

Lemma travels_valid path p from last from' :
  valid p → 20 + zlen (Data p) ≤ MTU → zlen path < TTL (Header p) →
  good_path path from (Dst (Header p)) last from' →
  ∃ q, valid q ∧ same_packet p q ∧ TTL (Header q) = TTL (Header p) - zlen path ∧
    travels path from (packet_bytes p) last from' (packet_bytes q).
Proof.
  revert p from. induction path as [|n path IH]; intros p from Hv Hlen Httl; simpl.
  { intros ->. exists p. rewrite zlen_nil, Z.sub_0_r. split; [done|]. by split; [split_and!|]. }
  intros (Hport & Hloc & Hr & Hgood). rewrite zlen_cons in Httl.
  pose proof (zlen_nonneg path).
  destruct (forwards_valid p (nhost n) from _ Hv Hlen ltac:(lia) Hport Hloc Hr)
    as (q1 & Hv1 & (Hs1 & Hd1 & Hp1 & Hdata1) & Ht1 & Hf1).
  destruct (IH q1 (nport n)) as (q & Hvq & (Hs & Hd & Hp & Hdata) & Ht & Htr).
  - done.
  - by rewrite Hdata1.
  - lia.
  - by rewrite Hd1.
  - exists q. split; [done|]. split; [split_and!; congruence|].
    split; [rewrite zlen_cons; lia|]. by exists (packet_bytes q1).
Qed.

Lemma delivers_valid p h from handler lif :
  valid p → 20 + zlen (Data p) ≤ MTU → known_port h from →
  LocalIFs h !! Dst (Header p) = Some lif → Stopped lif = false →
  HandlerRegistry h !! Protocol (Header p) = Some handler →
  ∃ q, same_packet p q ∧ delivers h from (packet_bytes p) handler q.
Proof.
  intros Hv Hlen Hport Hl Hs Hh.
  destruct (ListenOnPort_packet p from h (proj1 Hv) Hlen Hport) as [spare Hlis].
  exists (aged (mkIPPacket (Header p) (Data p) spare)). split; [done|].
  eexists. split; [exact Hlis|].
  rewrite ReadFromLinkLayer_valid by (by apply valid_spare). simpl.
  by rewrite Hl, Hs, Hh.
Qed.
End packets.

(** ** A TCP message across the network *)

Section tcp_message.
Context {N : Netstack} {I : IPv4} {NL : NetstackLaws N} {IL : IPv4Laws I}.

Lemma slice_first_u32 v l : slice (put_u32 v ++ l) 0 ADDR_SIZE = Some (put_u32 v).
Proof.
  rewrite slice_in; [done|by unfold ADDR_SIZE|].
  pose proof (zlen_nonneg l). rewrite zlen_app. unfold ADDR_SIZE.
  change (zlen (put_u32 v)) with 4. lia.
Qed.

Lemma slice_second_u32 v w l :
  slice (put_u32 v ++ put_u32 w ++ l) ADDR_SIZE (2 * ADDR_SIZE) = Some (put_u32 w).
Proof.
  rewrite slice_in; [done|by unfold ADDR_SIZE|].
  pose proof (zlen_nonneg l). rewrite !zlen_app. unfold ADDR_SIZE.
  change (zlen (put_u32 v)) with 4. change (zlen (put_u32 w)) with 4. lia.
Qed.

(** The host sends the segment that follows the two addresses in a message of TCP. *)
Lemma ReadFromHandler_tcp_sends sa da seg h udp :
  is_u32 sa → is_u32 da → zlen seg ≤ 1380 → routes_to h da udp →
  ∃ p, valid p ∧ Src (Header p) = sa ∧ Dst (Header p) = da ∧ Protocol (Header p) = 6 ∧
    TTL (Header p) = 16 ∧ Data p = seg ∧
    ReadFromHandler_tcp (put_u32 sa ++ put_u32 da ++ seg) h
      = (Ok true, h, [HDatagram udp (packet_bytes p)]).
Proof.
  intros Hsa Hda Hseg (e & a & lif & He & Hc & Ha & Hlif & Hs & Hu).
  destruct (computeChecksum_some (CreateIPPacket sa da seg [] 6 16)) as (c & Hcs & Hv).
  { apply CreateIPPacket_wf; (done || lia). }
  exists (with_checksum (CreateIPPacket sa da seg [] 6 16) c). split; [done|].
  do 5 (split; [done|]). unfold ReadFromHandler_tcp.
  rewrite (proj2 (Z.eqb_neq _ _)); [|done].
  rewrite slice_first_u32, slice_second_u32. do 2 go_unfold. cbv beta iota.
  rewrite !be_put_u32_nil by done. do 2 go_unfold. cbv beta iota. rewrite He, Ha.
  change (zdrop (2 * ADDR_SIZE) (put_u32 sa ++ put_u32 da ++ seg)) with seg.
  rewrite Hcs, Hlif. unfold LinkSend. by rewrite Hs, Hu.
Qed.
End tcp_message.

(** The path of a message of TCP. *)
Lemma tcp_message_carried {N : Netstack} {I : IPv4} {NL : NetstackLaws N} {IL : IPv4Laws I}
    sa da hdr payload (first final : node) (path : list node) from' lif :
  let msg := ip_message sa da hdr payload in
  is_u32 sa → is_u32 da → zlen payload ≤ MSS_DATA → zlen path < 16 →
  routes_to (nhost first) da (default (naddr final) (naddr <$> head path)) →
  good_path path (nport first) da (naddr final) from' →
  known_port (nhost final) from' →
  LocalIFs (nhost final) !! da = Some lif → Stopped lif = false →
  HandlerRegistry (nhost final) !! 6 = Some TcpHandler →
  ∃ bytes bytes' q,
    ReadFromHandler_tcp msg (nhost first)
      = (Ok true, nhost first,
         [HDatagram (default (naddr final) (naddr <$> head path)) bytes]) ∧
    travels path (nport first) bytes (naddr final) from' bytes' ∧
    delivers (nhost final) from' bytes' TcpHandler q ∧
    Src (Header q) = sa ∧ Dst (Header q) = da ∧ Data q = deliver msg.
Proof.
  intros msg Hsa Hda Hpay Hpath Hr Hgood Hport Hl Hs Hh.
  assert (Hd : deliver msg = MarshallTCPHeader hdr da ++ payload) by done.
  assert (Hlen : zlen (MarshallTCPHeader hdr da ++ payload) ≤ 1380).
  { rewrite zlen_app. unfold MarshallTCPHeader, zlen at 1. rewrite Encode_length.
    unfold MSS_DATA in Hpay. lia. }
  destruct (ReadFromHandler_tcp_sends sa da _ _ _ Hsa Hda Hlen Hr)
    as (p & Hv & Hps & Hpd & Hpp & Hpt & Hpdata & Hsend).
  destruct (travels_valid path p (nport first) (naddr final) from')
    as (p' & Hv' & (Hs' & Hd' & Hp' & Hdata') & _ & Htr).
  - done.
  - rewrite Hpdata. unfold MTU. lia.
  - by rewrite Hpt.
  - by rewrite Hpd.
  - destruct (delivers_valid p' (nhost final) from' TcpHandler lif)
      as (q & (Hqs & Hqd & Hqp & Hqdata) & Hdel).
    + done.
    + rewrite Hdata', Hpdata. unfold MTU. lia.
    + done.
    + by rewrite Hd', Hpd.
    + done.
    + by rewrite Hp', Hpp.
    + exists (packet_bytes p), (packet_bytes p'), q. split; [exact Hsend|].
      split; [exact Htr|]. split; [exact Hdel|]. rewrite Hd. split_and!; congruence.
Qed.

(** C9: IP carries the messages of TCP.  The message of the TCP layer for a segment with at
    most [MSS_DATA] bytes of data, given to a host with a route, becomes one datagram; along
    any path of less than 16 routers that have a route, every router forwards it to the next
    one, and at the host that has the destination address the TCP handler is started on a
    packet with the addresses of the message and, as payload, exactly the segment.  This is
    the delivery that the theorems on the handshake, on the data and on the release take as
    a step of the network. *)
Theorem tcp_message_delivery {N : Netstack} {I : IPv4} {NL : NetstackLaws N} {IL : IPv4Laws I}
    sa da hdr payload (first final : node) (path : list node) from' lif :
  let msg := ip_message sa da hdr payload in
  is_u32 sa → is_u32 da → zlen payload ≤ MSS_DATA → zlen path < 16 →
  routes_to (nhost first) da (default (naddr final) (naddr <$> head path)) →
  good_path path (nport first) da (naddr final) from' →
  known_port (nhost final) from' →
  LocalIFs (nhost final) !! da = Some lif → Stopped lif = false →
  HandlerRegistry (nhost final) !! 6 = Some TcpHandler →
  ∃ bytes bytes' q,
    ReadFromHandler_tcp msg (nhost first)
      = (Ok true, nhost first,
         [HDatagram (default (naddr final) (naddr <$> head path)) bytes]) ∧
    travels path (nport first) bytes (naddr final) from' bytes' ∧
    delivers (nhost final) from' bytes' TcpHandler q ∧
    Src (Header q) = sa ∧ Dst (Header q) = da ∧ Data q = deliver msg.
Proof. apply tcp_message_carried. Qed.

(** C24: IP carries the messages of RIP.  A message of the RIP handler with at most 1380
    bytes behind the address of a neighbour becomes one datagram on the interface to that
    neighbour, and the RIP handler of the neighbour is started on a packet whose source is
    the address of that interface and whose payload is the message. *)
Theorem rip_message_delivery {N : Netstack} {I : IPv4} {NL : NetstackLaws N} {IL : IPv4Laws I}
    n payload a lif lif' (first final : node) :
  is_u32 n → is_u32 a → zlen payload ≤ 1380 →
  RemoteDestination (nhost first) !! n = Some a →
  LocalIFs (nhost first) !! a = Some lif → Stopped lif = false → UDPAddr lif = Some (naddr final) →
  known_port (nhost final) (nport first) →
  LocalIFs (nhost final) !! n = Some lif' → Stopped lif' = false →
  HandlerRegistry (nhost final) !! RIP_PROTOCOL = Some RIPHandler →
  ∃ p bytes q,
    ReadFromHandler_rip (put_u32 n ++ payload) (nhost first)
      = (Ok true, nhost first, [HNeighbor n p]) ∧
    SendToNeighbor n p (nhost first)
      = (Ok tt, nhost first, [HDatagram (naddr final) bytes]) ∧
    delivers (nhost final) (nport first) bytes RIPHandler q ∧
    Src (Header q) = a ∧ Dst (Header q) = n ∧ Data q = payload.
Proof.
  intros Hn Hua Hlen Ha Hl Hs Hu Hport Hl' Hs' Hh.
  set (p := CreateIPPacket a n payload [] RIP_PROTOCOL TTL_MAX).
  assert (Hwf : wf_ip (Header p)).
  { apply CreateIPPacket_wf; unfold RIP_PROTOCOL, TTL_MAX; (done || lia). }
  destruct (computeChecksum_some p Hwf) as (c & Hcs & Hv).
  destruct (delivers_valid (with_checksum p c) (nhost final) (nport first) RIPHandler lif')
    as (q & (Hqs & Hqd & _ & Hqdata) & Hdel); try done.
  { simpl. unfold MTU. lia. }
  exists p, (packet_bytes (with_checksum p c)), q. split; [|split; [|done]].
  - unfold ReadFromHandler_rip. rewrite (proj2 (Z.eqb_neq _ _)) by done.
    rewrite slice_first_u32. do 2 go_unfold. cbv beta iota.
    rewrite be_put_u32_nil by done. do 2 go_unfold. cbv beta iota. by rewrite Ha.
  - unfold SendToNeighbor. rewrite Hcs. go_unfold. rewrite Ha, Hl. unfold LinkSend.
    by rewrite Hs, Hu.
Qed.

(** A line of three nodes: 1 -- (2, 3) -- 4, with the addresses of the interfaces. *)
Definition demo_if (num own peer udp : Z) : LinkInterface :=
  mkLinkInterface num own peer (5000 + udp) (Some udp) false.

Definition demo_host (ifs : list (Z * LinkInterface)) (routes : list (Z * RoutingTableEntry))
    (peers : list (Z * Z)) : Host :=
  mkHost (list_to_map ifs) (list_to_map peers) (list_to_map routes)
    {[6 := TcpHandler; 200 := RIPHandler; 1 := TracerouteHandler; 0 := TestHandler]} 0.

Definition demo_first : node := mkNode
  (demo_host [(1, demo_if 0 1 2 11)] [(1, mkEntry 1 0 0); (4, mkEntry 2 2 1)] [(2, 1)]) 10 5010.
Definition demo_router : node := mkNode
  (demo_host [(2, demo_if 0 2 1 10); (3, demo_if 1 3 4 12)]
     [(1, mkEntry 1 1 0); (4, mkEntry 4 1 1)] [(1, 2); (4, 3)]) 11 5011.
Definition demo_final : node := mkNode
  (demo_host [(4, demo_if 0 4 3 11)] [(4, mkEntry 4 0 0); (1, mkEntry 3 2 1)] [(3, 4)]) 12 5012.

Lemma demo_good_path : good_path [demo_router] 5010 4 12 5011.
Proof.
  split; [|split; [reflexivity|split; [|reflexivity]]].
  - exists 2, (demo_if 0 2 1 10). split; reflexivity.
  - exists (mkEntry 4 1 1), 3, (demo_if 1 3 4 12). do 5 (split; [first [reflexivity|discriminate]|]).
    reflexivity.
Qed.

Lemma tcp_message_delivery_witness :
  ∃ bytes bytes' q,
    let msg := ip_message 1 4 (CreateTCPHeader 1 4 1025 80 7 9 16 65535 [x61; x62]) [x61; x62] in
    ReadFromHandler_tcp msg (nhost demo_first) = (Ok true, nhost demo_first, [HDatagram 11 bytes]) ∧
    travels [demo_router] 5010 bytes 12 5011 bytes' ∧
    delivers (nhost demo_final) 5011 bytes' TcpHandler q ∧
    Src (Header q) = 1 ∧ Dst (Header q) = 4 ∧ Data q = deliver msg.
Proof.
  apply (tcp_message_delivery 1 4 (CreateTCPHeader 1 4 1025 80 7 9 16 65535 [x61; x62])
    [x61; x62] demo_first demo_final [demo_router] 5011 (demo_if 0 4 3 11)).
  - unfold is_u32. lia.
  - unfold is_u32. lia.
  - vm_compute. discriminate.
  - vm_compute. reflexivity.
  - exists (mkEntry 2 2 1), 1, (demo_if 0 1 2 11).
    do 5 (split; [first [reflexivity|discriminate]|]). reflexivity.
  - exact demo_good_path.
  - exists 4, (demo_if 0 4 3 11). split; reflexivity.
  - reflexivity.
  - reflexivity.
  - reflexivity.
Defined.

Lemma rip_message_delivery_witness :
  ∃ p bytes q,
    ReadFromHandler_rip (put_u32 2 ++ [x00; x02; x00; x00]) (nhost demo_first)
      = (Ok true, nhost demo_first, [HNeighbor 2 p]) ∧
    SendToNeighbor 2 p (nhost demo_first) = (Ok tt, nhost demo_first, [HDatagram 11 bytes]) ∧
    delivers (nhost demo_router) 5010 bytes RIPHandler q ∧
    Src (Header q) = 1 ∧ Dst (Header q) = 2 ∧ Data q = [x00; x02; x00; x00].
Proof.
  apply (rip_message_delivery 2 [x00; x02; x00; x00] 1 (demo_if 0 1 2 11) (demo_if 0 2 1 10)
    demo_first demo_router).
  - unfold is_u32. lia.
  - unfold is_u32. lia.
  - vm_compute. discriminate.
  - reflexivity.
  - reflexivity.
  - reflexivity.
  - reflexivity.
  - exists 2, (demo_if 0 2 1 10). split; reflexivity.
  - reflexivity.
  - reflexivity.
  - reflexivity.
Defined.

(** ** The time to live *)

Section ttl.
Context {N : Netstack} {I : IPv4} {NL : NetstackLaws N} {IL : IPv4Laws I}.

Lemma ListenOnPort_known p port h p0 :
  ListenOnPort p port None false h = (Ok true, h, [HPacket p0]) → known_port h port.
Proof.
  unfold ListenOnPort. go_unfold. simpl.
  destruct (existsb _ _) eqn:E; [|done]. intros _.
  apply existsb_exists in E as ([a lif] & Hin & Hp). exists a, lif. split.
  - apply elem_of_map_to_list. by apply list_elem_of_In.
  - symmetry. by apply Z.eqb_eq.
Qed.

Lemma SendToLinkLayer_inv p h dst udp bytes :
  wf_ip (Header p) → SendToLinkLayer dst p h = (Ok tt, h, [HDatagram udp bytes]) →
  ∃ c, valid (with_checksum p c) ∧ bytes = packet_bytes (with_checksum p c).
Proof.
  intros Hwf. destruct (computeChecksum_some p Hwf) as (c & Hcs & Hv).
  unfold SendToLinkLayer. rewrite Hcs. go_unfold. unfold CheckRoute, LinkSend.
  destruct (HostRoutes h !! dst) as [e|]; [|done].
  destruct (Cost e =? INFINITY); [done|].
  destruct (RemoteDestination h !! _) as [a|]; [|done].
  destruct (LocalIFs h !! a) as [lif|]; [|done].
  destruct (Stopped lif); [done|]. destruct (UDPAddr lif); [|done]. intros [= _ <-]. by exists c.
Qed.

Lemma forwards_inv p h from udp bytes :
  valid p → 20 + zlen (Data p) ≤ MTU → 1 ≤ TTL (Header p) →
  forwards h from (packet_bytes p) udp bytes →
  ∃ q, valid q ∧ bytes = packet_bytes q ∧ Data q = Data p ∧
    TTL (Header q) = TTL (Header p) - 1 ∧ 1 ≤ TTL (Header q).
Proof.
  intros Hv Hlen Httl (p0 & d & p1 & Hlis & Hread & Hsend).
  destruct (ListenOnPort_packet p from h (proj1 Hv) Hlen) as [spare Hlis'].
  { by eapply ListenOnPort_known. }
  rewrite Hlis' in Hlis. injection Hlis as <-.
  set (p0 := mkIPPacket (Header p) (Data p) spare) in *.
  rewrite ReadFromLinkLayer_valid in Hread by (by apply valid_spare).
  assert (Hp1 : p1 = aged p0 ∧ TTL (Header p) ≠ 1).
  { simpl in Hread. destruct (LocalIFs h !! _) as [lif|].
    - destruct (Stopped lif); [done|]. by destruct (HandlerRegistry h !! _).
    - destruct (Z.eqb_spec (TTL (Header p)) 1); [done|]. by injection Hread as _ <-. }
  destruct Hp1 as [-> Hne].
  assert (Hwf : wf_ip (Header (aged p0))).
  { apply wf_ip_ttl; [apply Hv|]. destruct (proj1 Hv) as (_&_&_&_&_&_&_&?&_).
    simpl in *. lia. }
  destruct (SendToLinkLayer_inv _ _ _ _ _ Hwf Hsend) as (c & Hvc & ->).
  exists (with_checksum (aged p0) c). split; [done|]. do 2 (split; [done|]).
  simpl. split; [done|lia].
Qed.
End ttl.

(** C20: No packet is forwarded for ever, whatever the routing tables hold: a valid packet
    with a time to live of at least one is forwarded by less than that many hosts, also
    when its path is a loop. *)
Theorem ttl_bounds_forwarding {N : Netstack} {I : IPv4} {NL : NetstackLaws N} {IL : IPv4Laws I}
    (path : list node) p from last from' bytes' :
  valid p → 20 + zlen (Data p) ≤ MTU → 1 ≤ TTL (Header p) →
  travels path from (packet_bytes p) last from' bytes' →
  zlen path < TTL (Header p).
Proof.
  revert p from. induction path as [|n path IH]; intros p from Hv Hlen Httl Htr.
  { rewrite zlen_nil. lia. }
  destruct Htr as (bytes1 & Hf & Htr).
  destruct (forwards_inv _ _ _ _ _ Hv Hlen Httl Hf) as (q & Hvq & -> & Hd & Ht & H1).
  rewrite zlen_cons.
  assert (zlen path < TTL (Header q)); [|lia].
  eapply IH; [done| |done|exact Htr]. by rewrite Hd.
Qed.

(** A packet from host 1 to host 4. *)
Definition demo_packet (ttl : Z) : IPPacket :=
  let p := CreateIPPacket 1 4 [x61; x62; x63; x64; x65; x66; x67; x68] [] 6 ttl in
  with_checksum p (default 0 (computeChecksum p)).

Lemma demo_packet_valid ttl : 0 ≤ ttl < 256 → valid (demo_packet ttl).
Proof.
  intros Httl.
  destruct (computeChecksum_some (CreateIPPacket 1 4
    [x61; x62; x63; x64; x65; x66; x67; x68] [] 6 ttl)) as (c & Hc & Hv).
  { apply CreateIPPacket_wf; try done. }
  unfold demo_packet. rewrite Hc. exact Hv.
Qed.

Lemma demo_travels :
  ∃ q, travels [demo_router] 5010 (packet_bytes (demo_packet 16)) 12 5011 (packet_bytes q).
Proof.
  destruct (travels_valid [demo_router] (demo_packet 16) 5010 12 5011) as (q & _ & _ & _ & Htr).
  - apply demo_packet_valid. lia.
  - vm_compute. discriminate.
  - vm_compute. reflexivity.
  - exact demo_good_path.
  - by exists q.
Qed.

Lemma ttl_bounds_forwarding_witness :
  zlen [demo_router] < TTL (Header (demo_packet 16)).
Proof.
  destruct demo_travels as [q Hq].
  apply (ttl_bounds_forwarding [demo_router] (demo_packet 16) 5010 12 5011 (packet_bytes q)).
  - apply demo_packet_valid. lia.
  - vm_compute. discriminate.
  - vm_compute. discriminate.
  - exact Hq.
Defined.

(** The test of the time to live is for zero after the decrement, so a packet that
    arrives with a time to live of zero is not dropped: the router goes on to forward it
    with the time to live -1, as soon as the header package encodes that header. *)
Theorem ttl_zero_is_forwarded {N : Netstack} {I : IPv4} {NL : NetstackLaws N}
    {IL : IPv4Laws I} p h udp hb :
  valid p → TTL (Header p) = 0 → LocalIFs h !! Dst (Header p) = None →
  routes_to h (Dst (Header p)) udp →
  Marshal (set_IPChecksum 0 (set_TTL (-1) (Header p))) = Some hb →
  ∃ q bytes,
    ReadFromLinkLayer p h = (Ok tt, h, [HForward (Dst (Header p)) q]) ∧
    TTL (Header q) = -1 ∧
    SendToLinkLayer (Dst (Header p)) q h = (Ok tt, h, [HDatagram udp bytes]).
Proof.
  intros Hv Httl Hloc (e & a & lif & He & Hc & Ha & Hlif & Hs & Hu) Hm.
  assert (Hcs : ∃ c, computeChecksum (aged p) = Some c).
  { unfold computeChecksum, aged. rewrite Httl. cbn [Header set_Header].
    change (0 - 1) with (-1). rewrite Hm. by eexists. }
  destruct Hcs as [c Hcs]. exists (aged p). eexists. split; [|split].
  - rewrite ReadFromLinkLayer_valid by done. by rewrite Hloc, Httl.
  - simpl. by rewrite Httl.
  - unfold SendToLinkLayer. rewrite Hcs. go_unfold. unfold CheckRoute. rewrite He.
    rewrite (proj2 (Z.eqb_neq _ _)) by done. rewrite Ha, Hlif.
    unfold LinkSend. rewrite Hs, Hu. reflexivity.
Qed.

Lemma ttl_zero_is_forwarded_witness :
  ∃ q bytes,
    ReadFromLinkLayer (demo_packet 0) (nhost demo_router)
      = (Ok tt, nhost demo_router, [HForward 4 q]) ∧
    TTL (Header q) = -1 ∧
    SendToLinkLayer 4 q (nhost demo_router) = (Ok tt, nhost demo_router, [HDatagram 12 bytes]).
Proof.
  eapply (ttl_zero_is_forwarded (demo_packet 0) (nhost demo_router) 12).
  - apply demo_packet_valid. lia.
  - reflexivity.
  - reflexivity.
  - exact (proj1 (proj2 (proj2 demo_good_path))).
  - vm_compute. reflexivity.
Defined.

(** C31: What a host does with a packet from the link layer, in every case.  It changes
    nothing and starts at most one goroutine.  The packet passes the checks when its version
    is not 6 and the checksum of its header is the one it carries.  A handler is started
    exactly when a packet that passes is for an interface that is not stopped and its protocol
    is registered, an ICMP report exactly when it is for another host and its time to live is
    1, and forwarding exactly when it is for another host and its time to live is not 1; all
    three get the packet with the time to live decremented and nothing else changed.
    Forwarding then sends exactly one datagram when there is a route of finite cost through an
    interface that is up, with the checksum computed again, and otherwise none. *)
Theorem ReadFromLinkLayer_exact {N : Netstack} {I : IPv4} p h :
  let checked := IPVersion (Header p) ≠ IPV6 ∧
    computeChecksum p = Some (IPChecksum (Header p)) in
  ∃ tr, ReadFromLinkLayer p h = (Ok tt, h, tr) ∧ (length tr ≤ 1)%nat ∧
    (∀ handler q, HReceive handler q ∈ tr ↔
       checked ∧ q = aged p ∧ HandlerRegistry h !! Protocol (Header p) = Some handler ∧
       ∃ lif, LocalIFs h !! Dst (Header p) = Some lif ∧ Stopped lif = false) ∧
    (∀ q, HTimeExceeded q ∈ tr ↔
       checked ∧ q = aged p ∧ LocalIFs h !! Dst (Header p) = None ∧ TTL (Header p) = 1) ∧
    (∀ d q, HForward d q ∈ tr ↔
       checked ∧ q = aged p ∧ d = Dst (Header p) ∧ LocalIFs h !! d = None ∧
       TTL (Header p) ≠ 1) ∧
    (∀ d q udp bytes, run_trace (SendToLinkLayer d q) h = [HDatagram udp bytes] ↔
       routes_to h d udp ∧
       ∃ c, computeChecksum q = Some c ∧ bytes = packet_bytes (with_checksum q c)).
Proof.
  cbv zeta.
  destruct (decide (IPVersion (Header p) ≠ IPV6 ∧
    computeChecksum p = Some (IPChecksum (Header p)))) as [Hck|Hck].
  2: { exists []. rewrite (ReadFromLinkLayer_unchecked p h Hck). split_and!; [done|simpl; lia|..];
         intros; first [apply SendToLinkLayer_iff|rewrite elem_of_nil; tauto]. }
  rewrite (ReadFromLinkLayer_checked p h Hck). eexists. split; [reflexivity|].
  destruct (LocalIFs h !! _) as [lif|] eqn:El; [destruct (Stopped lif) eqn:Es;
    [|destruct (HandlerRegistry h !! _) as [hd|] eqn:Eh]|destruct (Z.eqb_spec (TTL (Header p)) 1)];
    (split_and!; [simpl; lia|..]); intros; try apply SendToLinkLayer_iff;
    rewrite ?elem_of_nil, ?list_elem_of_singleton; split; intros Hx;
    first [naive_solver|destruct Hx as (_ & _ & _ & ? & [= <-] & ?); congruence].
Qed.
