(* ===== verification/Icmp.v ===== *)
(** * Traceroute and the interfaces

    The ICMP messages of [host.go] and [traceroute_handler.go] put together: the reply of a
    router at which a probe expires, the path that [SendTraceroutePacket] builds from the
    replies, and the commands that take an interface down and up again. *)

From S2P Require Import Prelude GoLang Wire WireRef IpWire RoutingTable Host Forwarding.

Section icmp.
Context {N : Netstack} {I : IPv4} {NL : NetstackLaws N} {IL : IPv4Laws I}.

Lemma LinkSend_up lif udp p (h : Host) :
  Stopped lif = false → UDPAddr lif = Some udp →
  LinkSend lif p h = (Ok tt, h, [HDatagram udp (packet_bytes p)]).
Proof. intros Hs Hu. unfold LinkSend. by rewrite Hs, Hu. Qed.

(** The probe of a turn of the loop: an echo request with that time to live. *)
Lemma traceroute_probe_sends destAddr ttl e (h : Host) a lif udp :
  Cost e ≠ INFINITY → RemoteDestination h !! NextHop e = Some a →
  LocalIFs h !! a = Some lif → Stopped lif = false → UDPAddr lif = Some udp →
  is_u32 a → is_u32 destAddr → 0 ≤ ttl < 256 →
  ∃ p, valid p ∧ TTL (Header p) = ttl ∧ Src (Header p) = a ∧ Dst (Header p) = destAddr ∧
    Protocol (Header p) = ICMP ∧ Data p = CreateEchoPacket ∧
    traceroute_probe destAddr ttl e h
      = (Ok true, h, [HDatagram udp (packet_bytes p)]).
Proof.
  intros Hc Ha Hl Hs Hu Hua Hud Ht.
  destruct (computeChecksum_some (CreateIPPacket a destAddr CreateEchoPacket [] 1 ttl))
    as (c & Hcs & Hv).
  { by apply CreateIPPacket_wf. }
  exists (with_checksum (CreateIPPacket a destAddr CreateEchoPacket [] 1 ttl) c).
  split; [done|]. do 5 (split; [done|]). unfold traceroute_probe. go_unfold.
  rewrite (proj2 (Z.eqb_neq _ _)) by done. rewrite Ha, Hl, Hcs.
  by rewrite (LinkSend_up lif udp).
Qed.
(** The turns of the loop while the replies come from routers on the way, and the last one
    from the destination. *)
Lemma traceroute_loop_path destAddr e (h : Host) a lif udp handler locs final e' :
  Cost e ≠ INFINITY → RemoteDestination h !! NextHop e = Some a →
  LocalIFs h !! a = Some lif → Stopped lif = false → UDPAddr lif = Some udp →
  HandlerRegistry h !! ICMP = Some handler → is_u32 a → is_u32 destAddr →
  ∀ n ttl path, (length locs < n)%nat → 0 ≤ ttl → ttl + zlen locs < 256 →
  ∃ ps,
    traceroute_loop n destAddr ttl e path
      (((λ l, (mkNextHopMsg false l, e)) <$> locs) ++ [(mkNextHopMsg true final, e')]) h
    = (Ok (path ++ locs ++ [final]), h,
       ((λ p, HDatagram udp (packet_bytes p)) <$> ps) ++ [HRemoveChan handler]) ∧
    length ps = S (length locs) ∧
    ∀ i p, ps !! i = Some p →
      valid p ∧ TTL (Header p) = ttl + Z.of_nat i ∧ Dst (Header p) = destAddr ∧
      Protocol (Header p) = ICMP ∧ Data p = CreateEchoPacket.
Proof.
  intros Hc Ha Hl Hs Hu Hh Hua Hud.
  induction locs as [|l locs IH]; intros n ttl path Hn Ht0 Ht; (destruct n as [|n]; [simpl in Hn; lia|]);
    rewrite ?zlen_nil, ?zlen_cons in Ht.
  - destruct (traceroute_probe_sends destAddr ttl e h a lif udp Hc Ha Hl Hs Hu Hua Hud ltac:(lia))
      as (p & Hv & Hpt & _ & Hpd & Hpp & Hpdata & Hrun).
    exists [p]. split.
    { cbn [traceroute_loop]. rewrite (go_bind_ok _ _ _ _ _ _ Hrun). go_unfold. simpl.
      rewrite Hh. done. }
    split; [done|]. intros i q Hq. destruct i; [|done]. injection Hq as <-.
    rewrite Z.add_0_r. auto.
  - pose proof (zlen_nonneg locs).
    destruct (traceroute_probe_sends destAddr ttl e h a lif udp Hc Ha Hl Hs Hu Hua Hud ltac:(lia))
      as (p & Hv & Hpt & _ & Hpd & Hpp & Hpdata & Hrun).
    destruct (IH n (ttl + 1) (path ++ [l])) as (ps & Hloop & Hlen & Hps);
      [simpl in Hn; lia|lia|lia|].
    exists (p :: ps). split.
    { cbn [traceroute_loop fmap list_fmap app]. rewrite (go_bind_ok _ _ _ _ _ _ Hrun).
      cbn [negb Found NextLoc]. cbv beta iota. rewrite Hloop. simpl.
      by rewrite <-(assoc_L (++)). }
    split; [simpl; by rewrite Hlen|]. intros [|i] q Hq.
    + injection Hq as <-. rewrite Z.add_0_r. auto.
    + destruct (Hps i q Hq) as (?&Hqt&?&?&?). split_and!; try done. lia.
Qed.
End icmp.

(** C27: Traceroute returns the path.  When the routers on the way report the probes that
    expire at them and the destination answers, [SendTraceroutePacket] returns the list of
    those addresses in order, for up to 16 hops, and it has sent one echo request per hop,
    with the times to live 1, 2, and so on. *)
Theorem traceroute_returns_path {N : Netstack} {I : IPv4} {NL : NetstackLaws N}
    {IL : IPv4Laws I} destAddr e (h : Host) a lif udp handler locs final e' :
  HostRoutes h !! destAddr = Some e → Cost e ≠ INFINITY →
  RemoteDestination h !! NextHop e = Some a →
  LocalIFs h !! a = Some lif → Stopped lif = false → UDPAddr lif = Some udp →
  HandlerRegistry h !! ICMP = Some handler → is_u32 a → is_u32 destAddr →
  (length locs < 16)%nat →
  ∃ ps,
    SendTraceroutePacket destAddr
      (((λ l, (mkNextHopMsg false l, e)) <$> locs) ++ [(mkNextHopMsg true final, e')]) h
    = (Ok (locs ++ [final]), h,
       [HAddChan handler] ++
       ((λ p, HDatagram udp (packet_bytes p)) <$> ps) ++ [HRemoveChan handler]) ∧
    length ps = S (length locs) ∧
    ∀ i p, ps !! i = Some p →
      valid p ∧ TTL (Header p) = 1 + Z.of_nat i ∧ Dst (Header p) = destAddr ∧
      Protocol (Header p) = ICMP ∧ Data p = CreateEchoPacket.
Proof.
  intros He Hc Ha Hl Hs Hu Hh Hua Hud Hlen.
  destruct (traceroute_loop_path destAddr e h a lif udp handler locs final e' Hc Ha Hl Hs Hu Hh Hua Hud
    16 1 [] Hlen ltac:(lia) ltac:(unfold zlen; lia)) as (ps & Hloop & Hps).
  exists ps. split; [|exact Hps].
  unfold SendTraceroutePacket, CheckRoute. do 2 go_unfold. rewrite He.
  rewrite (proj2 (Z.eqb_neq _ _)) by done. rewrite Hh. by rewrite Hloop.
Qed.

Lemma traceroute_returns_path_witness :
  ∃ ps,
    SendTraceroutePacket 4
      [(mkNextHopMsg false 2, mkEntry 2 2 1); (mkNextHopMsg true 4, mkEntry 2 2 1)]
      (nhost demo_first)
    = (Ok [2; 4], nhost demo_first,
       [HAddChan TracerouteHandler] ++
       ((λ p, HDatagram 11 (packet_bytes p)) <$> ps) ++ [HRemoveChan TracerouteHandler]) ∧
    length ps = 2%nat ∧
    ∀ i p, ps !! i = Some p →
      valid p ∧ TTL (Header p) = 1 + Z.of_nat i ∧ Dst (Header p) = 4 ∧
      Protocol (Header p) = ICMP ∧ Data p = CreateEchoPacket.
Proof.
  apply (traceroute_returns_path 4 (mkEntry 2 2 1) (nhost demo_first) 1 (demo_if 0 1 2 11) 11
    TracerouteHandler [2] 4 (mkEntry 2 2 1)).
  - reflexivity.
  - discriminate.
  - reflexivity.
  - reflexivity.
  - reflexivity.
  - reflexivity.
  - reflexivity.
  - unfold is_u32. lia.
  - unfold is_u32. lia.
  - simpl. lia.
Defined.

(** C28: A router at which a probe expires makes itself known.  A valid packet that arrives
    with a time to live of one for another host, and carries at least eight bytes, is not
    forwarded: the router sends one valid ICMP packet to the source of the probe, from the
    address of the interface it leaves by, and the traceroute handler of the source takes
    it as the next hop of the path while a traceroute is running, and ignores it
    otherwise. *)
Theorem expired_probe_is_reported {N : Netstack} {I : IPv4} {NL : NetstackLaws N}
    {IL : IPv4Laws I} p (h : Host) e a lif udp :
  valid p → TTL (Header p) = 1 → 8 ≤ zlen (Data p) →
  LocalIFs h !! Dst (Header p) = None →
  HostRoutes h !! Src (Header p) = Some e → Cost e ≠ INFINITY →
  RemoteDestination h !! NextHop e = Some a → is_u32 a →
  LocalIFs h !! a = Some lif → Stopped lif = false → UDPAddr lif = Some udp →
  ∃ q r,
    ReadFromLinkLayer p h = (Ok tt, h, [HTimeExceeded q]) ∧
    sendICMPTimeExceeded q h = (Ok tt, h, [HDatagram udp (packet_bytes r)]) ∧
    valid r ∧ Dst (Header r) = Src (Header p) ∧ Protocol (Header r) = ICMP ∧
    ∀ r', same_packet r r' →
      TracerouteReceivePacket r' (mkTraceroute true)
        = (Ok tt, mkTraceroute true, [TRoute (mkNextHopMsg false a)]) ∧
      TracerouteReceivePacket r' (mkTraceroute false) = (Ok tt, mkTraceroute false, []).
Proof.
  intros Hv Httl Hlen Hloc He Hc Ha Hua Hl Hs Hu.
  set (data := ztake 8 (Data p ++ Spare p)).
  set (buf := icmp_header 11 ++ data).
  assert (Hdata : zlen data = 8).
  { apply zlen_ztake. rewrite zlen_app. pose proof (zlen_nonneg (Spare p)). lia. }
  destruct (computeChecksum_some (CreateIPPacket a (Src (Header p)) buf [] 1 16))
    as (c & Hcs & Hvr).
  { apply CreateIPPacket_wf; try done; [apply Hv|]. unfold buf. rewrite zlen_app, Hdata.
    by vm_compute. }
  exists (aged p), (with_checksum (CreateIPPacket a (Src (Header p)) buf [] 1 16) c).
  split. { rewrite ReadFromLinkLayer_valid by done. by rewrite Hloc, Httl. }
  split.
  { unfold sendICMPTimeExceeded, data_upto. cbn [Header Data Spare aged set_Header].
    rewrite slice_in; [|lia|rewrite zlen_app; pose proof (zlen_nonneg (Spare p)); lia].
    do 2 go_unfold. unfold CheckRoute. cbn [Src set_TTL].
    rewrite He, (proj2 (Z.eqb_neq _ _)), Ha, ICMPv4TimeExceeded_type by done.
    change (ztake (8 - 0) (zdrop 0 (Data p ++ Spare p))) with data. fold buf.
    by rewrite Hcs, Hl, (LinkSend_up lif udp). }
  split; [done|]. do 2 (split; [done|]).
  intros r' (Hsrc & _ & _ & Hd). simpl in Hsrc, Hd.
  unfold TracerouteReceivePacket, data_upto.
  rewrite (slice_in (Data r' ++ Spare r') 0 1); [|lia|].
  - rewrite Hd, Hsrc. by split.
  - rewrite Hd, zlen_app. pose proof (zlen_nonneg (Spare r')).
    assert (zlen buf = 16) by (unfold buf; by rewrite zlen_app, Hdata). lia.
Qed.

Lemma expired_probe_is_reported_witness :
  ∃ q r,
    ReadFromLinkLayer (demo_packet 1) (nhost demo_router)
      = (Ok tt, nhost demo_router, [HTimeExceeded q]) ∧
    sendICMPTimeExceeded q (nhost demo_router)
      = (Ok tt, nhost demo_router, [HDatagram 10 (packet_bytes r)]) ∧
    valid r ∧ Dst (Header r) = 1 ∧ Protocol (Header r) = ICMP ∧
    ∀ r', same_packet r r' →
      TracerouteReceivePacket r' (mkTraceroute true)
        = (Ok tt, mkTraceroute true, [TRoute (mkNextHopMsg false 2)]) ∧
      TracerouteReceivePacket r' (mkTraceroute false) = (Ok tt, mkTraceroute false, []).
Proof.
  apply (expired_probe_is_reported (demo_packet 1) (nhost demo_router) (mkEntry 1 1 0) 2
    (demo_if 0 2 1 10) 10).
  - apply demo_packet_valid. lia.
  - reflexivity.
  - vm_compute. discriminate.
  - reflexivity.
  - reflexivity.
  - discriminate.
  - reflexivity.
  - unfold is_u32. lia.
  - reflexivity.
  - reflexivity.
  - reflexivity.
Defined.

(** ** Interfaces down and up *)

(** No two interfaces have the same number. *)
Definition unique_numbers (ifs : gmap Z LinkInterface) : Prop :=
  ∀ k k' lif lif', ifs !! k = Some lif → ifs !! k' = Some lif' →
    InterfaceNumber lif = InterfaceNumber lif' → k = k'.

Lemma find_interface_unique ifs order num key lif :
  order ≡ₚ map_to_list ifs → unique_numbers ifs →
  ifs !! key = Some lif → InterfaceNumber lif = num →
  find_interface num order = Some (key, lif).
Proof.
  intros Hord Huniq Hl Hnum. unfold find_interface.
  destruct (List.find _ order) as [[k lif']|] eqn:E.
  - apply find_some in E as [Hin Heq]. apply Z.eqb_eq in Heq.
    apply list_elem_of_In in Hin. rewrite Hord in Hin. apply elem_of_map_to_list in Hin.
    assert (k = key) as -> by (eapply Huniq; [done|done|congruence]).
    rewrite Hl in Hin. congruence.
  - exfalso. assert (Hin : In (key, lif) order).
    { apply list_elem_of_In. rewrite Hord. by apply elem_of_map_to_list. }
    apply (find_none _ _ E) in Hin. simpl in Hin. by rewrite Hnum, Z.eqb_refl in Hin.
Qed.

(** C29: The command that takes an interface down stops it and withdraws its routes.
    Whatever the iteration order of the map, the interface with that number is stopped; every
    route whose next hop is its neighbour or its own address gets the cost [INFINITY] and
    keeps its next hop and its timer channel, every other route is the same entry as before,
    no route appears, and the other interfaces, the neighbours and the handlers are
    unchanged.  Taking it up again enables it and gives its own address a new entry of cost
    zero, and changes no other route; to take it down or up twice is an error that changes
    nothing. *)
Theorem interface_down_up (h : Host) num key lif order order' :
  order ≡ₚ map_to_list (LocalIFs h) → unique_numbers (LocalIFs h) →
  LocalIFs h !! key = Some lif → InterfaceNumber lif = num → Stopped lif = false →
  let hops := [HostIPAddress lif; DestIPAddress lif] in
  UpInterface num order h = (Ok (Some AlreadyUp), h, []) ∧
  ∃ h1,
    DownInterface num order h = (Ok None, h1, []) ∧
    LocalIFs h1 = <[key := Disable lif]> (LocalIFs h) ∧ Stopped (Disable lif) = true ∧
    RemoteDestination h1 = RemoteDestination h ∧ HandlerRegistry h1 = HandlerRegistry h ∧
    HostNextChan h1 = HostNextChan h ∧
    (∀ d e, HostRoutes h !! d = Some e → NextHop e ∉ hops → HostRoutes h1 !! d = Some e) ∧
    (∀ d e, HostRoutes h !! d = Some e → NextHop e ∈ hops →
       HostRoutes h1 !! d = Some (mkEntry (NextHop e) INFINITY (UpdateChan e))) ∧
    (∀ d, HostRoutes h !! d = None → HostRoutes h1 !! d = None) ∧
    (order' ≡ₚ map_to_list (LocalIFs h1) →
       DownInterface num order' h1 = (Ok (Some AlreadyDown), h1, []) ∧
       ∃ h2, UpInterface num order' h1 = (Ok None, h2, []) ∧
         LocalIFs h2 = LocalIFs h ∧
         RemoteDestination h2 = RemoteDestination h ∧ HandlerRegistry h2 = HandlerRegistry h ∧
         HostRoutes h2 !! HostIPAddress lif
           = Some (mkEntry (HostIPAddress lif) 0 (HostNextChan h)) ∧
         HostNextChan h2 = S (HostNextChan h) ∧
         (∀ d, d ≠ HostIPAddress lif → HostRoutes h2 !! d = HostRoutes h1 !! d)).
Proof.
  intros Hord Huniq Hl Hnum Hs hops.
  pose proof (find_interface_unique _ _ _ _ _ Hord Huniq Hl Hnum) as Hfind.
  split. { unfold UpInterface. by rewrite Hfind, Hs. }
  eexists. split. { unfold DownInterface. rewrite Hfind, Hs. reflexivity. }
  cbn [LocalIFs RemoteDestination HandlerRegistry HostRoutes HostNextChan].
  do 5 (split; [done|]).
  split; [intros d e Hd Hn; by rewrite (RemoveNextHops_lookup _ _ _ e Hd), decide_False by done|].
  split; [intros d e Hd Hn; by rewrite (RemoveNextHops_lookup _ _ _ e Hd), decide_True by done|].
  split; [intros d Hd; unfold RemoveNextHops; by rewrite lookup_fmap, Hd|].
  intros Hord'.
  assert (Hfind' : find_interface num order' = Some (key, Disable lif)).
  { eapply find_interface_unique; [exact Hord'| |by rewrite lookup_insert_eq|done].
    intros k k' l l'. rewrite !lookup_insert_Some.
    intros [[<- <-]|[_ H]] [[<- <-]|[_ H']]; try done; simpl; intros E;
      eapply Huniq; eauto. }
  split. { unfold DownInterface. by rewrite Hfind'. }
  eexists. split. { unfold UpInterface. rewrite Hfind'. reflexivity. }
  cbn [LocalIFs HostRoutes RemoteDestination HandlerRegistry HostNextChan HostIPAddress Disable set_Stopped]. split.
  { rewrite insert_insert_eq. apply insert_id. rewrite Hl. f_equal.
    unfold Enable, Disable, set_Stopped. destruct lif. simpl in *. by rewrite Hs. }
  do 2 (split; [done|]). split; [apply lookup_insert_eq|]. split; [done|].
  intros d Hd. by rewrite lookup_insert_ne.
Qed.

Lemma interface_down_up_witness :
  ∃ h1, DownInterface 1 (map_to_list (LocalIFs (nhost demo_router))) (nhost demo_router)
          = (Ok None, h1, []) ∧
    HostRoutes h1 !! 4 = Some (mkEntry 4 16 1) ∧ HostRoutes h1 !! 1 = Some (mkEntry 1 1 0).
Proof.
  destruct (interface_down_up (nhost demo_router) 1 3 (demo_if 1 3 4 12)
    (map_to_list (LocalIFs (nhost demo_router))) [])
    as (_ & h1 & Hdown & _ & _ & _ & _ & _ & Hkeep & Hgone & _).
  - reflexivity.
  - intros k k' l l'. cbn. rewrite !lookup_insert_Some, !lookup_empty.
    intros [[<- <-]|[_ [[<- <-]|[_ ?]]]] [[<- <-]|[_ [[<- <-]|[_ ?]]]]; done.
  - reflexivity.
  - reflexivity.
  - reflexivity.
  - exists h1. split; [exact Hdown|]. split.
    + apply (Hgone 4 (mkEntry 4 1 1)); [reflexivity|]. right. left.
    + apply (Hkeep 1 (mkEntry 1 1 0)); [reflexivity|].
      cbn. rewrite !not_elem_of_cons. split; [discriminate|]. split; [discriminate|].
      apply not_elem_of_nil.
Defined.
