(* ===== verification/GoStrings.v ===== *)
(** * Strings of the command line

    What the node uses of Go's packages [strings], [strconv] and [net] (Go 1.17): splitting
    a line, decimal numbers, and IPv4 addresses in dotted form; and [addrNumToIP] of
    [src/cmd/node/node_init.go], which prints an address.  A Go string is its bytes. *)

From S2P Require Import Prelude GoLang.
From Stdlib Require Strings.String.

Abbreviation gostring := (list byte).

(** A literal. *)
Definition str (s : string) : gostring := String.list_byte_of_string s.

Definition SPACE : byte := x20.
Definition DOT : byte := x2e.
Definition COLON : byte := x3a.

(** ** [strings.Split] and [strings.SplitN] *)

Definition cons_head (c : byte) (ws : list gostring) : list gostring :=
  match ws with
  | w :: ws => (c :: w) :: ws
  | [] => [[c]]
  end.

Fixpoint Split (s : gostring) : list gostring :=
  match s with
  | [] => [[]]
  | c :: s => if decide (c = SPACE) then [] :: Split s else cons_head c (Split s)
  end.

(** [strings.SplitN(s, " ", n)] for a positive [n]. *)
Fixpoint SplitN (n : nat) (s : gostring) : list gostring :=
  match s with
  | [] => [[]]
  | c :: s' =>
      if decide ((n <= 1)%nat) then [s]
      else if decide (c = SPACE) then [] :: SplitN (n - 1) s'
      else cons_head c (SplitN n s')
  end.

(** ** [strconv.Atoi] *)

Definition digit (c : byte) : option Z :=
  let v := byte_to_Z c in
  if (48 <=? v) && (v <=? 57) then Some (v - 48) else None.

Inductive uint_result := UOk (n : Z) | USyntax | URange.

(** The loop of [ParseUint]: a number beyond 64 bits is an error as soon as it is seen. *)
Fixpoint parse_uint (s : gostring) (n : Z) : uint_result :=
  match s with
  | [] => UOk n
  | c :: s =>
      match digit c with
      | None => USyntax
      | Some d => if 18446744073709551616 <=? n * 10 + d then URange else parse_uint s (n * 10 + d)
      end
  end.

(** The value and whether the error is [nil]; out of range the value is the bound. *)
Definition Atoi (s : gostring) : Z * bool :=
  let neg := bool_decide (head s = Some x2d) in
  let s0 := if neg || bool_decide (head s = Some x2b) then tail s else s in
  match (if decide (s0 = []) then USyntax else parse_uint s0 0) with
  | USyntax => (0, false)
  | URange => (if neg then -9223372036854775808 else 9223372036854775807, false)
  | UOk n =>
      if neg then
        if 9223372036854775808 <? n then (-9223372036854775808, false) else (- n, true)
      else
        if 9223372036854775808 <=? n then (9223372036854775807, false) else (n, true)
  end.

(** ** [net.ParseIP] *)

(** [dtoi]: the number, and what follows its digits. *)
Fixpoint dtoi_loop (s : gostring) (n : Z) : option (Z * gostring) :=
  match s with
  | [] => Some (n, [])
  | c :: s' =>
      match digit c with
      | None => Some (n, s)
      | Some d => if 16777215 <=? n * 10 + d then None else dtoi_loop s' (n * 10 + d)
      end
  end.

Definition dtoi (s : gostring) : option (Z * gostring) :=
  match s with
  | c :: _ => match digit c with Some _ => dtoi_loop s 0 | None => None end
  | [] => None
  end.

(** One number of an address: at most 255 and without a leading zero. *)
Definition parse_octet (s : gostring) : option (Z * gostring) :=
  '(n, rest) ← dtoi s;
  if 255 <? n then None
  else if (1 <? zlen s - zlen rest) && bool_decide (head s = Some x30) then None
  else Some (n, rest).

Definition skip_dot (s : gostring) : option gostring :=
  match s with
  | c :: s => if decide (c = DOT) then Some s else None
  | [] => None
  end.

Definition parseIPv4 (s : gostring) : option Z :=
  '(a, s) ← parse_octet s; s ← skip_dot s;
  '(b, s) ← parse_octet s; s ← skip_dot s;
  '(c, s) ← parse_octet s; s ← skip_dot s;
  '(d, s) ← parse_octet s;
  if decide (s = []) then Some (a * 16777216 + b * 65536 + c * 256 + d) else None.

(** An address: [To4] of it is [None] for an IPv6 address that maps no IPv4 address. *)
Record IP := mkIP { To4 : option Z }.

(** [parseIPv6] of the package, which the node only reaches on text with a colon before
    any dot, is left open. *)
Class NetIP := { parseIPv6 : gostring → option IP }.

Fixpoint first_separator (s : gostring) : option byte :=
  match s with
  | [] => None
  | c :: s => if decide (c = DOT ∨ c = COLON) then Some c else first_separator s
  end.

Definition ParseIP `{NetIP} (s : gostring) : option IP :=
  match first_separator s with
  | None => None
  | Some c =>
      if decide (c = DOT) then n ← parseIPv4 s; Some (mkIP (Some n)) else parseIPv6 s
  end.

(** ** Printing an address *)

(** The decimal digits of a byte. *)
Definition digit_byte (d : Z) : byte := byte_of_Z (48 + d).

Definition ubtoa (v : Z) : gostring :=
  if v <? 10 then [digit_byte v]
  else if v <? 100 then [digit_byte (v / 10); digit_byte (v mod 10)]
  else [digit_byte (v / 100); digit_byte (v / 10 mod 10); digit_byte (v mod 10)].

Definition addrNumToIP (addr : Z) : gostring :=
  ubtoa (u8 (Z.shiftr addr 24)) ++ DOT :: ubtoa (u8 (Z.shiftr addr 16)) ++ DOT ::
  ubtoa (u8 (Z.shiftr addr 8)) ++ DOT :: ubtoa (u8 addr).

(** ** Round trips *)

Lemma digit_digit_byte d : 0 ≤ d < 10 → digit (digit_byte d) = Some d.
Proof.
  intros Hd. unfold digit, digit_byte. rewrite byte_to_of_Z. unfold u8.
  rewrite Z.mod_small by lia. bool_hyps; simpl; try lia. f_equal. lia.
Qed.

Lemma digit_byte_nonzero d : 0 < d < 10 → digit_byte d ≠ x30.
Proof.
  intros Hd E. apply (f_equal digit) in E. rewrite digit_digit_byte in E by lia.
  vm_compute in E. injection E as ->. lia.
Qed.

(** What cannot continue a number. *)
Definition no_digit (s : gostring) : Prop :=
  match s with c :: _ => digit c = None | [] => True end.

Lemma dtoi_loop_stop n s : no_digit s → dtoi_loop s n = Some (n, s).
Proof. destruct s as [|c s]; [done|]. simpl. by intros ->. Qed.

Lemma dtoi_loop_digit d s n :
  0 ≤ d < 10 → n * 10 + d < 16777215 →
  dtoi_loop (digit_byte d :: s) n = dtoi_loop s (n * 10 + d).
Proof.
  intros Hd Hn. cbn [dtoi_loop]. rewrite digit_digit_byte by done.
  by rewrite (proj2 (Z.leb_gt _ _)) by lia.
Qed.

Lemma dtoi_ubtoa v s : 0 ≤ v < 256 → no_digit s → dtoi (ubtoa v ++ s) = Some (v, s).
Proof.
  intros Hv Hs. unfold ubtoa.
  assert (Hmod : ∀ x, 0 ≤ x mod 10 < 10) by (intros; apply Z.mod_pos_bound; lia).
  assert (v / 10 < 26) by (apply Z.div_lt_upper_bound; lia).
  assert (0 ≤ v / 10) by (apply Z.div_pos; lia).
  assert (0 ≤ v / 100 < 10).
  { split; [apply Z.div_pos; lia|apply Z.div_lt_upper_bound; lia]. }
  bool_hyps; cbn [app dtoi].
  - rewrite digit_digit_byte, dtoi_loop_digit, dtoi_loop_stop by (done || lia). done.
  - assert (v / 10 < 10) by (apply Z.div_lt_upper_bound; lia).
    rewrite digit_digit_byte, !dtoi_loop_digit, dtoi_loop_stop by (done || lia || specialize (Hmod v); lia).
    do 2 f_equal. pose proof (Z.div_mod v 10). lia.
  - rewrite digit_digit_byte, !dtoi_loop_digit, dtoi_loop_stop
      by (done || lia || (pose proof (Hmod v); pose proof (Hmod (v / 10)); lia)).
    do 2 f_equal. pose proof (Z.div_mod v 10). pose proof (Z.div_mod (v / 10) 10).
    rewrite Z.div_div in * by lia. change (10 * 10) with 100 in *. lia.
Qed.

Lemma zlen_ubtoa v : zlen (ubtoa v) = if v <? 10 then 1 else if v <? 100 then 2 else 3.
Proof. unfold ubtoa. bool_hyps; done. Qed.

Lemma ubtoa_head v : 10 ≤ v < 256 → head (ubtoa v) ≠ Some x30.
Proof.
  intros Hv. unfold ubtoa.
  assert (0 < v / 10) by (apply Z.div_str_pos; lia).
  bool_hyps; simpl; try lia; intros [= E]; revert E; apply digit_byte_nonzero.
  - split; [done|]. apply Z.div_lt_upper_bound; lia.
  - split; [apply Z.div_str_pos; lia|apply Z.div_lt_upper_bound; lia].
Qed.

Lemma parse_octet_ubtoa v s :
  0 ≤ v < 256 → no_digit s → parse_octet (ubtoa v ++ s) = Some (v, s).
Proof.
  intros Hv Hs. unfold parse_octet. rewrite dtoi_ubtoa by done. simpl.
  rewrite (proj2 (Z.ltb_ge _ _)) by lia. rewrite zlen_app.
  replace (zlen (ubtoa v) + zlen s - zlen s) with (zlen (ubtoa v)) by lia.
  rewrite zlen_ubtoa. destruct (Z.ltb_spec v 10) as [H10|H10]; [done|].
  rewrite bool_decide_eq_false_2; [by rewrite andb_false_r|].
  replace (head (ubtoa v ++ s)) with (head (ubtoa v)); [apply ubtoa_head; lia|].
  unfold ubtoa. bool_hyps; done.
Qed.

Lemma first_separator_ubtoa v s :
  0 ≤ v < 256 → first_separator (ubtoa v ++ DOT :: s) = Some DOT.
Proof.
  intros Hv.
  assert (Hd : ∀ d, 0 ≤ d < 10 → ¬ (digit_byte d = DOT ∨ digit_byte d = COLON)).
  { intros d Hd [E|E]; apply (f_equal digit) in E; rewrite digit_digit_byte in E by done;
      vm_compute in E; done. }
  assert (Hmod : ∀ x, 0 ≤ x mod 10 < 10) by (intros; apply Z.mod_pos_bound; lia).
  unfold ubtoa. bool_hyps; cbn [app first_separator]; repeat (rewrite decide_False; [|apply Hd]);
    try done; try (rewrite decide_True by (by left); done); try lia;
    split; try (apply Z.div_pos; lia); try (apply Z.div_lt_upper_bound; lia).
Qed.

Lemma u32_octets a :
  is_u32 a →
  u8 (Z.shiftr a 24) * 16777216 + u8 (Z.shiftr a 16) * 65536 + u8 (Z.shiftr a 8) * 256 + u8 a = a.
Proof.
  intros Ha. pose proof (get_put_u32 a Ha) as E. unfold get_u32 in E.
  by rewrite !byte_to_of_Z in E.
Qed.

Lemma u8_range z : 0 ≤ u8 z < 256.
Proof. unfold u8. apply Z.mod_pos_bound. lia. Qed.

Lemma no_digit_dot s : no_digit (DOT :: s).
Proof. reflexivity. Qed.

Lemma skip_dot_dot s : skip_dot (DOT :: s) = Some s.
Proof. reflexivity. Qed.

(** C32: The addresses that the node prints are the ones it reads: [net.ParseIP] takes the
    dotted form that [addrNumToIP] gives to an address back to that address. *)
Theorem ParseIP_addrNumToIP `{NetIP} a :
  is_u32 a → ParseIP (addrNumToIP a) = Some (mkIP (Some a)).
Proof.
  intros Ha. unfold ParseIP, addrNumToIP.
  rewrite first_separator_ubtoa by apply u8_range. rewrite decide_True by done.
  unfold parseIPv4. rewrite <-(app_nil_r (ubtoa (u8 a))).
  do 3 (rewrite parse_octet_ubtoa; [|apply u8_range|apply no_digit_dot]; cbn [mbind option_bind];
        rewrite skip_dot_dot; cbn [mbind option_bind]).
  rewrite parse_octet_ubtoa; [|apply u8_range|exact Logic.I]. cbn [mbind option_bind].
  rewrite decide_True by done.
  by rewrite u32_octets.
Qed.

(** A node that reads IPv4 addresses only. *)
Definition only_IPv4 : NetIP := {| parseIPv6 := λ _, None |}.

Lemma ParseIP_addrNumToIP_witness :
  @ParseIP only_IPv4 (addrNumToIP 3232235777) = Some (mkIP (Some 3232235777)) ∧
  addrNumToIP 3232235777 = str "192.168.1.1".
Proof.
  split; [|reflexivity]. apply ParseIP_addrNumToIP. unfold is_u32. lia.
Defined.

(** [Split] and [SplitN] take a line apart and lose nothing. *)
Fixpoint Join (ws : list gostring) : gostring :=
  match ws with
  | [] => []
  | [w] => w
  | w :: ws => w ++ SPACE :: Join ws
  end.

Lemma Split_nonempty s : Split s ≠ [].
Proof. destruct s as [|c s]; simpl; [done|]. case_decide; [done|]. by destruct (Split s). Qed.

Lemma Join_cons w ws : ws ≠ [] → Join (w :: ws) = w ++ SPACE :: Join ws.
Proof. by destruct ws. Qed.

Lemma Join_cons_head c ws : ws ≠ [] → Join (cons_head c ws) = c :: Join ws.
Proof. by destruct ws as [|w [|w' ws]]. Qed.

Lemma Join_Split s : Join (Split s) = s.
Proof.
  induction s as [|c s IH]; [done|]. simpl. case_decide as Hc.
  - rewrite Join_cons by apply Split_nonempty. simpl. by rewrite IH, Hc.
  - rewrite Join_cons_head by apply Split_nonempty. by rewrite IH.
Qed.

Lemma SplitN_nonempty n s : SplitN n s ≠ [].
Proof.
  destruct s as [|c s]; simpl; [done|]. do 2 (case_decide; [done|]).
  by destruct (SplitN n s).
Qed.

Lemma Join_SplitN n s : Join (SplitN n s) = s.
Proof.
  revert n. induction s as [|c s IH]; intros n; [done|]. simpl.
  case_decide; [done|]. case_decide as Hc.
  - rewrite Join_cons by apply SplitN_nonempty. simpl. by rewrite IH, Hc.
  - rewrite Join_cons_head by apply SplitN_nonempty. by rewrite IH.
Qed.

(** A line of at least [n] words has [n] parts for [SplitN]. *)
Lemma length_cons_head c ws : ws ≠ [] → length (cons_head c ws) = length ws.
Proof. by destruct ws. Qed.

Lemma length_SplitN n s :
  (1 <= n)%nat → length (SplitN n s) = Nat.min n (length (Split s)).
Proof.
  revert n. induction s as [|c s IH]; intros n Hn; simpl; [lia|].
  case_decide as H1.
  - assert (n = 1%nat) as -> by lia.
    assert (0 < length (if decide (c = SPACE) then [] :: Split s else cons_head c (Split s)))%nat;
      [|rewrite Nat.min_l by lia; done].
    case_decide; simpl; [lia|]. rewrite length_cons_head by apply Split_nonempty.
    pose proof (Split_nonempty s). destruct (Split s); [done|simpl; lia].
  - case_decide; simpl.
    + rewrite IH by lia. lia.
    + rewrite !length_cons_head by (apply Split_nonempty || apply SplitN_nonempty).
      by apply IH.
Qed.

(** The parts of [SplitN] before the last one are the words. *)
Lemma lookup_cons_head c ws ws' i :
  ws ≠ [] → ws' ≠ [] → ws !! i = ws' !! i → cons_head c ws !! i = cons_head c ws' !! i.
Proof.
  destruct ws, ws'; try done. destruct i; simpl; [|done]. intros _ _ [= ->]. done.
Qed.

Lemma lookup_SplitN n s i : (S i < n)%nat → SplitN n s !! i = Split s !! i.
Proof.
  revert n i. induction s as [|c s IH]; intros n i Hi; [done|]. simpl.
  case_decide; [lia|]. case_decide.
  - destruct i as [|i]; [done|]. simpl. apply IH. lia.
  - apply lookup_cons_head; [apply SplitN_nonempty|apply Split_nonempty|by apply IH].
Qed.

(** A part is not longer than the line. *)
Lemma zlen_Join_lookup ws i w : ws !! i = Some w → zlen w ≤ zlen (Join ws).
Proof.
  revert i. induction ws as [|w0 ws IH]; intros i Hi; [done|].
  destruct ws as [|w1 ws].
  - destruct i; [|done]. by injection Hi as ->.
  - rewrite Join_cons, zlen_app, zlen_cons by done.
    pose proof (zlen_nonneg w0). pose proof (zlen_nonneg (Join (w1 :: ws))).
    destruct i as [|i]; [injection Hi as ->; lia|]. specialize (IH i Hi). lia.
Qed.

Lemma zlen_SplitN_lookup n s i w : SplitN n s !! i = Some w → zlen w ≤ zlen s.
Proof. intros Hw%zlen_Join_lookup. by rewrite Join_SplitN in Hw. Qed.
