(* ===== verification/Node.v ===== *)
(** * The node and its commands

    [src/cmd/node/node.go], [node_tcp_api.go], [node_tcp_commands.go],
    [node_ip_commands.go] and [node_tcp_cc_commands.go]: the socket table, which works like
    a table of file descriptors, the commands on it, the transfer of files, and the loop
    that reads command lines.

    A command that blocks in a socket call is cut there: it results in the state of the
    call, and a second definition goes on when the call has returned.  Output is an effect
    with the format and its arguments, without tabs and line ends; logging is left out. *)

From S2P Require Import Prelude GoLang GoStrings Wire IpWire RoutingTable Host TcpData Congestion TcpHandler TcpApi.

(** ** Data *)

(** A value of the interface type [tcp.Socket] that is not nil: a pointer to a connection or
    to a listener.  A nil pointer in an interface is not a nil interface. *)
Inductive Socket :=
  | SConn (p : option nat)
  | SListener (p : option nat).

#[global] Instance Socket_eq_dec : EqDecision Socket.
Proof. solve_decision. Defined.

(** [Node]; the objects the sockets point to are in [Conns] and [Lsts]. *)
Record Node := mkNodeState {
  NHost : Host;
  NTCP : TCPHandler;
  Conns : gmap nat VTCPConn;
  Lsts : gmap nat VTCPListener;
  NextObj : nat;
  SocketIndexTable : list (option Socket)
}.

Definition set_NHost (v : Host) (n : Node) : Node :=
  mkNodeState v (NTCP n) (Conns n) (Lsts n) (NextObj n) (SocketIndexTable n).
Definition set_NTCP (v : TCPHandler) (n : Node) : Node :=
  mkNodeState (NHost n) v (Conns n) (Lsts n) (NextObj n) (SocketIndexTable n).
Definition set_Conns (v : gmap nat VTCPConn) (n : Node) : Node :=
  mkNodeState (NHost n) (NTCP n) v (Lsts n) (NextObj n) (SocketIndexTable n).
Definition set_Lsts (v : gmap nat VTCPListener) (n : Node) : Node :=
  mkNodeState (NHost n) (NTCP n) (Conns n) v (NextObj n) (SocketIndexTable n).
Definition set_SocketIndexTable (v : list (option Socket)) (n : Node) : Node :=
  mkNodeState (NHost n) (NTCP n) (Conns n) (Lsts n) (NextObj n) v.

(** [err.Error()] *)
Definition Error (err : goerr) : gostring :=
  match err with EOF => str "EOF" | Err msg => str msg end.

Inductive print_arg := PInt (z : Z) | PStr (s : gostring).

Inductive node_eff :=
  (** what the TCP stack and the host do *)
  | NTcpEff (e : nat * eff)
  | NHostEff (e : host_eff)
  (** [fmt.Printf], [fmt.Fprintf] *)
  | NPrint (format : string) (args : list print_arg)
  (** [n.PrintHelp(w)] *)
  | NHelp
  (** [go n.acceptHelper(listener)] *)
  | NGoAccept (p : nat)
  (** the two goroutines of [CloseTCPCommand] *)
  | NGoClose (socketID : Z) (p : nat) (noRead : bool)
  (** the goroutine of [ReadFileTCPCommand] *)
  | NGoReadFile (filepath : gostring) (port : Z)
  (** [f.Write(b)], [f.Close()] *)
  | NFileWrite (b : list byte)
  | NFileClose
  (** [log.Fatal]: the process ends *)
  | NFatal
  (** [Quit]: [h.CancelChannel <- true], [HostConnection.Close()], [os.Exit(0)] *)
  | NQuit.

Abbreviation NM := (GoM Node node_eff).

(** [log.Fatal(...)] *)
Definition log_fatal {A} : NM A := emit NFatal;; panic.

(** Calls into the TCP stack and the host. *)
Definition on_tcp {A} (m : TcpHandler.HM A) : NM A := λ n,
  match m (NTCP n) with (r, h, tr) => (r, set_NTCP h n, NTcpEff <$> tr) end.
Definition on_host {A} (m : Host.HM A) : NM A := λ n,
  match m (NHost n) with (r, h, tr) => (r, set_NHost h n, NHostEff <$> tr) end.

(** [&VTCPConn{...}], [&VTCPListener{...}] *)
Definition new_conn (vc : VTCPConn) : NM nat := λ n,
  (Ok (NextObj n),
   mkNodeState (NHost n) (NTCP n) (<[NextObj n := vc]> (Conns n)) (Lsts n) (S (NextObj n))
     (SocketIndexTable n), []).
Definition new_listener (vl : VTCPListener) : NM nat := λ n,
  (Ok (NextObj n),
   mkNodeState (NHost n) (NTCP n) (Conns n) (<[NextObj n := vl]> (Lsts n)) (S (NextObj n))
     (SocketIndexTable n), []).

(** The object behind a pointer; a nil pointer is a panic. *)
Definition conn_of (p : option nat) : NM (nat * VTCPConn) :=
  n ← get;
  q ← try p;
  vc ← try (Conns n !! q);
  mret (q, vc).
Definition listener_of (p : option nat) : NM (nat * VTCPListener) :=
  n ← get;
  q ← try p;
  vl ← try (Lsts n !! q);
  mret (q, vl).

(** Assignments to the fields of an object. *)
Definition store_conn (p : nat) (vc : VTCPConn) : NM unit :=
  modify (λ n, set_Conns (<[p := vc]> (Conns n)) n).
Definition store_listener (p : nat) (vl : VTCPListener) : NM unit :=
  modify (λ n, set_Lsts (<[p := vl]> (Lsts n)) n).

(** ** The socket table *)

(** The loop of [AddToTable]: the first free slot. *)
Fixpoint first_free (t : list (option Socket)) : option nat :=
  match t with
  | [] => None
  | None :: _ => Some 0%nat
  | Some _ :: t => S <$> first_free t
  end.

Definition AddToTable (newSocket : Socket) : NM Z :=
  n ← get;
  let t := SocketIndexTable n in
  match first_free t with
  | Some i =>
      modify (set_SocketIndexTable (<[i := Some newSocket]> t));; mret (Z.of_nat i)
  | None =>
      modify (set_SocketIndexTable (t ++ [Some newSocket]));; mret (zlen t)
  end.

(** [n.SocketIndexTable[i]] and [n.SocketIndexTable[i] = nil] *)
Definition slot (i : Z) : NM (option Socket) :=
  n ← get; try (zlookup (SocketIndexTable n) i).

Definition clear_slot (i : Z) : NM unit :=
  n ← get;
  _ ← try (zlookup (SocketIndexTable n) i);
  modify (set_SocketIndexTable (<[Z.to_nat i := None]> (SocketIndexTable n))).

(** [InitSocketIndexTable] *)
Definition InitSocketIndexTable : NM unit := modify (set_SocketIndexTable []).

(** [len(n.SocketIndexTable)] *)
Definition table_len : NM Z := gets (λ n, zlen (SocketIndexTable n)).

Section node.
Context {N : Netstack} {I : IPv4} {P : NetIP}.

(** ** TCP commands *)

(** [VListen] and [VConnect]; [binary.BigEndian.Uint32] of a nil [To4] is a panic. *)
Definition VListen (port : Z) : NM (VTCPListener + goerr) := on_tcp (Listen port).
Definition VConnect (addr : option IP) (port iss : Z) : NM connect_next :=
  destAddr ← try (addr ≫= To4);
  on_tcp (Connect destAddr port iss).

(** The listener is put into the table before the error is looked at: a nil pointer then. *)
Definition AcceptCommand (port : Z) : NM (option goerr) :=
  res ← VListen port;
  match res with
  | inl vl =>
      p ← new_listener vl;
      AddToTable (SListener (Some p));;
      emit (NGoAccept p);;
      mret None
  | inr err =>
      AddToTable (SListener None);;
      mret (Some err)
  end.

(** A turn of [acceptHelper]: the call, and what follows it; false when it returns. *)
Definition acceptHelper_call (p : nat) : NM accept_next :=
  '(_, vl) ← listener_of (Some p);
  on_tcp (Accept vl).

Definition acceptHelper_return (next : accept_next) : NM bool :=
  match next with
  | AcceptReturn vc =>
      q ← new_conn vc;
      newSocketIndex ← AddToTable (SConn (Some q));
      emit (NPrint "v_accept() returned %d" [PInt newSocketIndex]);;
      mret true
  | AcceptError _ => mret false
  | AcceptWait _ => mret true
  end.

Definition ConnectCommand (destAddr : option IP) (port iss : Z) : NM connect_next :=
  VConnect destAddr port iss.

(** When [Connect] has returned. *)
Definition ConnectCommand_return (vc : VTCPConn) : NM Z :=
  p ← new_conn vc; AddToTable (SConn (Some p)).

(** [socket.GetSocketTableKey()] *)
Definition GetSocketTableKey (s : Socket) : NM SocketData :=
  match s with
  | SConn p => '(_, vc) ← conn_of p; mret (SocketTableKey vc)
  | SListener p => '(_, vl) ← listener_of p; mret (ListenerKey vl)
  end.

(** The line of a socket in [ListSocketCommand]. *)
Definition socket_row (i : Z) (key : SocketData) (tcb : TCB) : node_eff :=
  NPrint "%d %s %d %s %d %s %s %d"
    [PInt i; PStr (addrNumToIP (LocalAddr key)); PInt (LocalPort key);
     PStr (addrNumToIP (DestAddr key)); PInt (DestPort key);
     PStr (str (SocketStateToString (State tcb)));
     PStr (str (if CControlEnabled tcb then "tahoe" else "none"));
     PInt (if CControlEnabled tcb then CWND tcb else 0)].

(** The first loop: the indices to delete. *)
Fixpoint list_sockets (i : Z) (t : list (option Socket)) : NM (list Z) :=
  match t with
  | [] => mret []
  | None :: t => list_sockets (i + 1) t
  | Some s :: t =>
      key ← GetSocketTableKey s;
      n ← get;
      match SocketTable (NTCP n) !! key with
      | None =>
          rest ← list_sockets (i + 1) t;
          mret (i :: rest)
      | Some l =>
          tcb ← try (TCBs (NTCP n) !! l);
          emit (socket_row i key tcb);;
          list_sockets (i + 1) t
      end
  end.

Fixpoint clear_slots (indices : list Z) : NM unit :=
  match indices with
  | [] => mret tt
  | i :: indices => clear_slot i;; clear_slots indices
  end.

Definition ListSocketCommand : NM unit :=
  emit (NPrint "socket local-addr port dst-addr port status ccontrol cwnd" []);;
  n ← get;
  toDelete ← list_sockets 0 (SocketIndexTable n);
  clear_slots toDelete.

(** The error of a command, or the call it is in. *)
Inductive write_cmd := WriteFailed (err : goerr) | WriteCall (data : list byte) (next : write_next).

Definition SendTCPCommand (line : gostring) : NM write_cmd :=
  let args := SplitN 3 line in
  arg1 ← try (args !! 1%nat);
  let (socketID, ok) := Atoi arg1 in
  when (negb ok) (emit (NPrint "Invalid socket id number: %s" [PStr arg1]));;
  len ← table_len;
  if len <=? socketID then mret (WriteFailed (Err "Invalid socket id"))
  else
    socketToSend ← slot socketID;
    match socketToSend with
    | Some (SConn p) =>
        '(_, vc) ← conn_of p;
        data ← try (args !! 2%nat);
        next ← on_tcp (Write vc data);
        mret (WriteCall data next)
    | _ => mret (WriteFailed (Err "Cannot use send command on socket"))
    end.

Inductive read_cmd := ReadFailed (err : goerr) | ReadCall (data : list byte) (next : read_next).

Definition ReadTCPCommand (socketID numBytes : Z) (readAll : bool) : NM read_cmd :=
  len ← table_len;
  if len <=? socketID then mret (ReadFailed (Err "Invalid socket id"))
  else
    socketToRead ← slot socketID;
    match socketToRead with
    | None => mret (ReadFailed (Err "Socket does not exist"))
    | Some (SListener _) => mret (ReadFailed (Err "Cannot use read command on socket"))
    | Some (SConn p) =>
        '(_, vc) ← conn_of p;
        let data := make_bytes numBytes in
        next ← on_tcp (Read vc numBytes readAll);
        mret (ReadCall data next)
    end.

(** When [Read] has returned, with the data it has copied. *)
Definition ReadTCPCommand_return (data : list byte) (numBytesRead : Z) (err : option goerr)
    : NM (option goerr) :=
  match err with
  | Some err => mret (Some err)
  | None =>
      emit (NPrint "Number of bytes read: %d" [PInt numBytesRead]);;
      emit (NPrint "Data read: %s" [PStr data]);;
      mret None
  end.

(** [HandleDeletion], when the other goroutine tells it that close has returned. *)
Definition HandleDeletion (socketID : Z) : NM unit := clear_slot socketID.

(** The goroutine that closes: until it waits for the connection to be closed. *)
Definition close_goroutine (p : nat) (noRead : bool) : NM shutdown_next :=
  '(_, vc) ← conn_of (Some p);
  '(vc', next) ← on_tcp (if noRead then VClose vc else VShutdown vc 1);
  store_conn p vc';;
  mret next.

Definition CloseTCPCommand (socketID : Z) (noRead : bool) : NM (option goerr) :=
  len ← table_len;
  if (len <=? socketID) || (socketID <? 0) then mret (Some (Err "Invalid socket id"))
  else
    socketToClose ← slot socketID;
    match socketToClose with
    | None => mret (Some (Err "Socket does not exist"))
    | Some (SListener p) =>
        clear_slot socketID;;
        '(q, vl) ← listener_of p;
        vl' ← on_tcp (CloseListener vl);
        store_listener q vl';;
        mret None
    | Some (SConn p) =>
        '(q, vc) ← conn_of p;
        store_conn q (set_WriteCancelled (if noRead then set_ReadCancelled vc else vc));;
        emit (NGoClose socketID q noRead);;
        emit (NPrint "Socket %d has been closed" [PInt socketID]);;
        mret None
    end.

Definition ShutDownTCPCommand (socketID : Z) (kind : gostring) : NM (option goerr) :=
  n ← get;
  match (if (socketID <? 0) || (zlen (SocketIndexTable n) <=? socketID) then None
         else zlookup (SocketIndexTable n) socketID) with
  | None | Some None => mret (Some (Err "Invalid socket ID"))
  | Some (Some (SListener _)) => mret (Some (Err "Cannot shutdown read on listening conn"))
  | Some (Some (SConn p)) =>
      if decide (kind = str "read" ∨ kind = str "r") then
        '(q, vc) ← conn_of p;
        '(vc', _) ← on_tcp (VShutdown vc 0);
        store_conn q vc';;
        mret None
      else if decide (kind = str "write" ∨ kind = str "w") then
        CloseTCPCommand socketID false;; mret None
      else if decide (kind = str "both") then
        CloseTCPCommand socketID true;; mret None
      else mret (Some (Err "Invalid option for shutdown"))
  end.

(** [congestionControl] is not used. *)
Definition SetCongestionControl (socketId : Z) (congestionControl : bool) : NM (option goerr) :=
  n ← get;
  match (if (socketId <? 0) || (zlen (SocketIndexTable n) <=? socketId) then None
         else zlookup (SocketIndexTable n) socketId) with
  | None | Some None => mret (Some (Err "Invalid socket id"))
  | Some (Some (SListener _)) => mret (Some (Err "Cannot use send command on socket"))
  | Some (Some (SConn p)) =>
      '(_, vc) ← conn_of p;
      on_tcp (SetCCForSocket vc);;
      mret None
  end.

(** ** Files *)

(** Where [SendFileTCPCommand] is: in [Connect], in [VWrite] of a chunk with the rest of the
    file ahead, or in [VClose]. *)
Inductive sendfile_next :=
  | SFReturn (err : option goerr)
  | SFConnect (file : list byte) (ccontrol : bool) (next : connect_next)
  | SFRead (p : nat) (socketID : Z) (rest : list byte) (bytesWritten : Z)
  | SFWrite (p : nat) (socketID : Z) (rest chunk : list byte) (bytesWritten : Z)
      (next : write_next)
  | SFClose (p : nat) (socketID : Z) (next : shutdown_next).

(** [file] is the content of the file when it can be opened; [Err "open"] stands for the
    error of [os.Open]. *)
Definition SendFileTCPCommand (file : option (list byte)) (ipAddr : gostring) (port : Z)
    (ccontrol : bool) (iss : Z) : NM sendfile_next :=
  match ParseIP ipAddr with
  | None => mret (SFReturn (Some (Err "Invalid ip address")))
  | Some addr =>
      match file with
      | None => mret (SFReturn (Some (Err "open")))
      | Some file =>
          next ← VConnect (Some addr) port iss;
          mret (SFConnect file ccontrol next)
      end
  end.

(** When [Connect] has returned a connection. *)
Definition SendFile_connected (file : list byte) (ccontrol : bool) (vc : VTCPConn)
    : NM sendfile_next :=
  p ← new_conn vc;
  socketID ← AddToTable (SConn (Some p));
  (if (ccontrol : bool) then on_tcp (SetCCForSocket vc);; mret tt else mret tt);;
  mret (SFRead p socketID file 0).

(** A turn of the loop: [f.Read(buf)] has read [amountRead] bytes and [failed] is whether it
    has an error. *)
Definition SendFile_chunk (p : nat) (socketID : Z) (rest : list byte) (bytesWritten : Z)
    (amountRead : Z) (failed : bool) : NM sendfile_next :=
  if amountRead =? 0 then
    emit (NPrint "Total bytes written: %d" [PInt bytesWritten]);;
    next ← close_goroutine p true;
    mret (SFClose p socketID next)
  else if failed then mret (SFReturn (Some (Err "read")))
  else
    '(_, vc) ← conn_of (Some p);
    next ← on_tcp (Write vc (ztake amountRead rest));
    mret (SFWrite p socketID (zdrop amountRead rest) (ztake amountRead rest) bytesWritten next).

(** When [VWrite] has returned. *)
Definition SendFile_written (p : nat) (socketID : Z) (rest : list byte) (bytesWritten : Z)
    (numBytesWritten : Z) (err : option goerr) : NM sendfile_next :=
  match err with
  | Some err => mret (SFReturn (Some err))
  | None => mret (SFRead p socketID rest (bytesWritten ⊞ numBytesWritten))
  end.

(** When [VClose] has returned. *)
Definition SendFile_closed (socketID : Z) : NM sendfile_next :=
  clear_slot socketID;; mret (SFReturn None).

(** Where the goroutine of [ReadFileTCPCommand] is. *)
Inductive readfile_next :=
  | RFReturn
  | RFAccept (lp : nat) (listenerIndex : Z) (next : accept_next)
  | RFRead (lp p : nat) (listenerIndex connIndex bytesReadTotal : Z) (buf : list byte)
      (next : read_next)
  | RFClose (lp p : nat) (listenerIndex connIndex bytesReadTotal : Z) (next : shutdown_next).

(** The goroutine of [ReadFileTCPCommand] up to [VAccept]; [created] is whether [os.Create]
    succeeds, and the text of its error is not modelled. *)
Definition ReadFileTCPCommand (created : bool) (port : Z) : NM readfile_next :=
  if negb created then emit (NPrint "%s" [PStr (str "create")]);; mret RFReturn
  else
    res ← VListen port;
    match res with
    | inr err => emit (NPrint "%s" [PStr (Error err)]);; mret RFReturn
    | inl vl =>
        lp ← new_listener vl;
        listenerIndex ← AddToTable (SListener (Some lp));
        next ← acceptHelper_call lp;
        mret (RFAccept lp listenerIndex next)
    end.

(** A call to [VRead] of the loop. *)
Definition ReadFile_read (lp p : nat) (listenerIndex connIndex bytesReadTotal : Z)
    (buf : list byte) : NM readfile_next :=
  '(_, vc) ← conn_of (Some p);
  next ← on_tcp (Read vc 4096 false);
  mret (RFRead lp p listenerIndex connIndex bytesReadTotal buf next).

(** When [VAccept] has returned; its error is not looked at, and the connection is nil. *)
Definition ReadFile_accepted (lp : nat) (listenerIndex : Z) (res : VTCPConn + goerr)
    : NM readfile_next :=
  match res with
  | inl vc =>
      p ← new_conn vc;
      connIndex ← AddToTable (SConn (Some p));
      emit (NPrint "Connection established, reading now..." []);;
      ReadFile_read lp p listenerIndex connIndex 0 (make_bytes 4096)
  | inr _ =>
      AddToTable (SConn None);;
      emit (NPrint "Connection established, reading now..." []);;
      panic
  end.

(** When [VRead] has returned; [failed] is whether [f.Write] has an error. *)
Definition ReadFile_returned (lp p : nat) (listenerIndex connIndex bytesReadTotal : Z)
    (buf : list byte) (numbytes : Z) (err : option goerr) (failed : bool) : NM readfile_next :=
  match err with
  | Some _ =>
      next ← close_goroutine p true;
      mret (RFClose lp p listenerIndex connIndex bytesReadTotal next)
  | None =>
      b ← try (slice buf 0 numbytes);
      emit (NFileWrite b);;
      if failed then mret RFReturn
      else ReadFile_read lp p listenerIndex connIndex (bytesReadTotal ⊞ numbytes) buf
  end.

(** When [VClose] of the connection has returned. *)
Definition ReadFile_closed (lp : nat) (listenerIndex connIndex bytesReadTotal : Z)
    : NM readfile_next :=
  '(q, vl) ← listener_of (Some lp);
  vl' ← on_tcp (CloseListener vl);
  store_listener q vl';;
  clear_slot listenerIndex;;
  clear_slot connIndex;;
  emit NFileClose;;
  emit (NPrint "Total bytes read: %d" [PInt bytesReadTotal]);;
  mret RFReturn.

(** ** IP commands *)

(** [spare] is the rest of the array of [[]byte(args[3])]. *)
Definition SendCommand (line : gostring) (spare : list byte) : NM unit :=
  let args := SplitN 4 line in
  arg1 ← try (args !! 1%nat);
  match ParseIP arg1 with
  | None => mret tt
  | Some ipAddr =>
      destAddr ← try (To4 ipAddr);
      arg2 ← try (args !! 2%nat);
      let (protocolNum, ok) := Atoi arg2 in
      if negb ok || negb (protocolNum =? 0) then mret tt
      else
        arg3 ← try (args !! 3%nat);
        on_host (SendPacket destAddr protocolNum arg3 spare);;
        mret tt
  end.

Definition interface_row (addrLocalIF : Z) (localIF : LinkInterface) : node_eff :=
  NPrint "%d %s %s %s"
    [PInt (InterfaceNumber localIF); PStr (str (if Stopped localIF then "down" else "up"));
     PStr (addrNumToIP addrLocalIF); PStr (addrNumToIP (DestIPAddress localIF))].

Fixpoint interface_rows (order : list (Z * LinkInterface)) : NM unit :=
  match order with
  | [] => mret tt
  | (addrLocalIF, localIF) :: order =>
      emit (interface_row addrLocalIF localIF);; interface_rows order
  end.

Definition PrintInterfaces (order : list (Z * LinkInterface)) : NM unit :=
  emit (NPrint "id state local remote" []);; interface_rows order.

Fixpoint route_rows (order : list (Z * RoutingTableEntry)) : NM unit :=
  match order with
  | [] => mret tt
  | (dest, entry) :: order =>
      when (negb (Cost entry =? INFINITY))
        (emit (NPrint "%s %s %d" [PStr (addrNumToIP dest); PStr (addrNumToIP (NextHop entry));
                                  PInt (Cost entry)]));;
      route_rows order
  end.

Definition PrintRoutingTable (order : list (Z * RoutingTableEntry)) : NM unit :=
  emit (NPrint "dest next cost" []);; route_rows order.

Fixpoint hop_rows (index : Z) (path : list Z) : NM unit :=
  match path with
  | [] => mret tt
  | hop :: path =>
      emit (NPrint "%d %s" [PInt (index + 1); PStr (addrNumToIP hop)]);;
      hop_rows (index + 1) path
  end.

Definition Traceroute (destAddr : gostring) (replies : list (NextHopMsg * RoutingTableEntry))
    : NM unit :=
  match ParseIP destAddr with
  | None => mret tt
  | Some destIPAddr =>
      addr ← try (To4 destIPAddr);
      n ← get;
      match LocalIFs (NHost n) !! addr with
      | Some localIF =>
          if Stopped localIF
          then emit (NPrint "Traceroute to %s does not exist" [PStr destAddr])
          else emit (NPrint "Traceroute finished in 0 hops" [])
      | None =>
          path ← on_host (SendTraceroutePacket addr replies);
          match path with
          | [] => emit (NPrint "Traceroute to %s does not exist" [PStr destAddr])
          | first :: _ =>
              let startAddr := default 0 (RemoteDestination (NHost n) !! first) in
              emit (NPrint "Traceroute from %s to %s" [PStr (addrNumToIP startAddr); PStr destAddr]);;
              hop_rows 0 path;;
              emit (NPrint "Traceroute finished in %d hops" [PInt (zlen path)])
          end
      end
  end.

(** [TestHandler.ReceivePacket], for a packet that [send] has sent. *)
Definition TestReceivePacket (packet : IPPacket) : NM unit :=
  emit (NPrint "" []);;
  emit (NPrint "---Node received packet!---" []);;
  emit (NPrint "source IP: %s" [PStr (addrNumToIP (Src (Header packet)))]);;
  emit (NPrint "destination IP: %s" [PStr (addrNumToIP (Dst (Header packet)))]);;
  emit (NPrint "protocol: %d" [PInt (Protocol (Header packet))]);;
  emit (NPrint "payload length: %d" [PInt (zlen (Data packet))]);;
  emit (NPrint "payload: %s" [PStr (Data packet)]);;
  emit (NPrint "---------------------------" []).

(** ** The loop over command lines *)

(** What a command line finds outside of the node: random numbers, the orders of the
    iterations, the messages of the ICMP handler, the files. *)
Record repl_env := mkEnv {
  env_iss : Z;
  env_ifs : list (Z * LinkInterface);
  env_routes : list (Z * RoutingTableEntry);
  env_replies : list (NextHopMsg * RoutingTableEntry);
  env_spare : list byte;
  env_file : gostring → option (list byte)
}.

(** The next line can be read, or the command is in a call. *)
Inductive repl_next :=
  | ReplNext
  | ReplConnect (next : connect_next)
  | ReplWrite (cmd : write_cmd)
  | ReplRead (cmd : read_cmd)
  | ReplSendFile (next : sendfile_next)
  | ReplExit.

(** Printing an error of a command. *)
Definition print_error (format : string) (err : option goerr) : NM unit :=
  match err with
  | None => mret tt
  | Some err => emit (NPrint format [PStr (Error err)])
  end.

Definition invalid (msg : string) (args : list print_arg) : NM repl_next :=
  emit (NPrint msg args);; mret ReplNext.

Definition Quit : NM repl_next := emit NQuit;; mret ReplExit.

Definition ListCongestionControl : NM unit :=
  emit (NPrint "Congestion control algorithms available: " []);;
  emit (NPrint "--tahoe" []).

(** The command [a]: two tests that do not leave the [switch]. *)
Definition REPL_accept (commands : list gostring) : NM repl_next :=
  when (negb (zlen commands =? 2))
    (emit (NPrint "Invalid number of arguments for <a>ccept" []));;
  arg ← try (commands !! 1%nat);
  let (port, ok) := Atoi arg in
  when (negb ok) (emit (NPrint "Invalid port number: %s" [PStr arg]));;
  err ← AcceptCommand (u16 port);
  print_error "Accept error: %s" err;;
  mret ReplNext.

(** The commands that take a number in their first argument. *)
Definition REPL_interface (down : bool) (commands : list gostring) (env : repl_env)
    : NM repl_next :=
  if zlen commands <? 2 then invalid (if down then "Invalid number of arguments for down"
                                      else "Invalid number of arguments for up") []
  else
    arg ← try (commands !! 1%nat);
    let (ifNum, ok) := Atoi arg in
    if negb ok then invalid "Invalid input for interface number" []
    else
      on_host (if down then DownInterface ifNum (env_ifs env) else UpInterface ifNum (env_ifs env));;
      mret ReplNext.

Definition REPL_connect (commands : list gostring) (env : repl_env) : NM repl_next :=
  if negb (zlen commands =? 3) then invalid "Invalid number of arguments for <c>onnect" []
  else
    arg1 ← try (commands !! 1%nat);
    arg2 ← try (commands !! 2%nat);
    let (port, ok) := Atoi arg2 in
    if negb ok then invalid "Invalid port number: %s" [PStr arg2]
    else
      next ← ConnectCommand (ParseIP arg1) (u16 port) (env_iss env);
      mret (ReplConnect next).

Definition REPL_read (commands : list gostring) : NM repl_next :=
  if negb (zlen commands =? 4) then invalid "Invalid number of arguments for r" []
  else
    arg1 ← try (commands !! 1%nat);
    let (socketID, ok) := Atoi arg1 in
    if negb ok then invalid "Invalid socket id number: %s" [PStr arg1]
    else
      arg2 ← try (commands !! 2%nat);
      let (numBytes, ok) := Atoi arg2 in
      if negb ok then invalid "Invalid number of bytes: %s" [PStr arg2]
      else
        arg3 ← try (commands !! 3%nat);
        if decide (arg3 = str "y") then
          cmd ← ReadTCPCommand socketID (u32 numBytes) true; mret (ReplRead cmd)
        else if decide (arg3 = str "n") then
          cmd ← ReadTCPCommand socketID (u32 numBytes) false; mret (ReplRead cmd)
        else invalid "Invalid option for read: %s" [PStr arg3].

Definition REPL_close (commands : list gostring) : NM repl_next :=
  if negb (zlen commands =? 2) then invalid "Invalid number of arguments for cl" []
  else
    arg1 ← try (commands !! 1%nat);
    let (socketId, ok) := Atoi arg1 in
    if negb ok then invalid "Invalid socket id number: %s" [PStr arg1]
    else
      err ← CloseTCPCommand socketId true;
      print_error "%s" err;;
      mret ReplNext.

Definition REPL_shutdown (commands : list gostring) : NM repl_next :=
  if negb (zlen commands =? 3) then invalid "Invalid number of arguments for sd" []
  else
    arg1 ← try (commands !! 1%nat);
    let (socketId, ok) := Atoi arg1 in
    if negb ok then invalid "Invalid socket id number: %s" [PStr arg1]
    else
      arg2 ← try (commands !! 2%nat);
      err ← ShutDownTCPCommand socketId arg2;
      print_error "%s" err;;
      mret ReplNext.

Definition REPL_sendfile (commands : list gostring) (env : repl_env) : NM repl_next :=
  if negb (zlen commands =? 4) && negb (zlen commands =? 5)
  then invalid "Invalid number of arguments for sf" []
  else
    arg3 ← try (commands !! 3%nat);
    let (port, ok) := Atoi arg3 in
    if negb ok then invalid "Invalid port number" []
    else
      let ccontrol := (zlen commands =? 5) && bool_decide (commands !! 4%nat = Some (str "tahoe")) in
      arg1 ← try (commands !! 1%nat);
      arg2 ← try (commands !! 2%nat);
      next ← SendFileTCPCommand (env_file env arg1) arg2 (u16 port) ccontrol (env_iss env);
      mret (ReplSendFile next).

Definition REPL_readfile (commands : list gostring) : NM repl_next :=
  if negb (zlen commands =? 3) then invalid "Invalid number of arguments for rf" []
  else
    arg1 ← try (commands !! 1%nat);
    arg2 ← try (commands !! 2%nat);
    let (port, ok) := Atoi arg2 in
    if negb ok then invalid "Invalid port number" []
    else
      emit (NGoReadFile arg1 (u16 port));; mret ReplNext.

(** An invalid number of a socket does not leave the [switch]. *)
Definition REPL_setcc (commands : list gostring) : NM repl_next :=
  if negb (zlen commands =? 3) then invalid "Invalid number of arguments for sc" []
  else
    arg1 ← try (commands !! 1%nat);
    arg2 ← try (commands !! 2%nat);
    if decide (arg2 ≠ str "tahoe" ∧ arg2 ≠ str "none")
    then invalid "Invalid option for congestion control" []
    else
      let (socketId, ok) := Atoi arg1 in
      when (negb ok) (emit (NPrint "Invalid socket id number: %s" [PStr arg1]));;
      SetCongestionControl socketId (bool_decide (arg2 = str "tahoe"));;
      mret ReplNext.

(** The [switch] on the first word. *)
Definition REPL_command (name : gostring) (commands : list gostring) (line : gostring)
    (env : repl_env) : NM repl_next :=
  let named (s : string) := bool_decide (name = str s) in
  if named "interfaces" || named "li" then PrintInterfaces (env_ifs env);; mret ReplNext
  else if named "routes" || named "lr" then PrintRoutingTable (env_routes env);; mret ReplNext
  else if named "down" then REPL_interface true commands env
  else if named "up" then REPL_interface false commands env
  else if named "send" then
    if zlen commands <? 4 then invalid "Invalid number of arguments for send" []
    else SendCommand line (env_spare env);; mret ReplNext
  else if named "q" then
    if negb (zlen commands =? 1) then invalid "Invalid number of arguments for q" []
    else Quit
  else if named "traceroute" then
    if negb (zlen commands =? 2) then invalid "Invalid number of arguments for traceroute" []
    else arg ← try (commands !! 1%nat); Traceroute arg (env_replies env);; mret ReplNext
  else if named "a" then REPL_accept commands
  else if named "c" then REPL_connect commands env
  else if named "ls" || named "sockets" then
    if negb (zlen commands =? 1) then invalid "Invalid number of arguments for ls" []
    else ListSocketCommand;; mret ReplNext
  else if named "s" then
    if zlen commands <? 3 then invalid "Invalid number of arguments for s" []
    else cmd ← SendTCPCommand line; mret (ReplWrite cmd)
  else if named "r" then REPL_read commands
  else if named "cl" then REPL_close commands
  else if named "sd" then REPL_shutdown commands
  else if named "sf" then REPL_sendfile commands env
  else if named "rf" then REPL_readfile commands
  else if named "lc" then
    if negb (zlen commands =? 1) then invalid "Invalid number of arguments for lc" []
    else ListCongestionControl;; mret ReplNext
  else if named "sc" then REPL_setcc commands
  else emit NHelp;; mret ReplNext.

(** A line; the prompt is not shown here. *)
Definition REPL (line : gostring) (env : repl_env) : NM repl_next :=
  if zlen line =? 0 then mret ReplNext
  else
    let commands := Split line in
    name ← try (commands !! 0%nat);
    REPL_command name commands line env.

(** When [Connect] of the command [c] has returned. *)
Definition REPL_connected (res : VTCPConn + goerr) : NM unit :=
  match res with
  | inr err => print_error "Connect error: %s" (Some err)
  | inl vc =>
      socketNum ← ConnectCommand_return vc;
      emit (NPrint "v_connect() returned %d" [PInt socketNum])
  end.

(** When [Read] of the command [r] has returned. *)
Definition REPL_read_returned (data : list byte) (n : Z) (err : option goerr) : NM unit :=
  err ← ReadTCPCommand_return data n err; print_error "%s" err.
End node.
