(* ===== verification/NodeInit.v ===== *)
(** * The configuration of a node ([src/cmd/node/node_init.go])

    How the text of a [.lnx] file becomes the host of the node: the interfaces, the
    neighbours and the routing table, and which handlers are registered. *)

From S2P Require Import Prelude GoLang GoStrings Wire IpWire RoutingTable Host Icmp TcpData TcpHandler Node.

(** [net.ResolveUDPAddr] of the network udp4, on an address and a port joined by a colon. *)
Class NetUDP := { ResolveUDPAddr : gostring → gostring → option Z }.

(** The loop of [InitRoutingTable] over the keys of the interfaces, in the order of the
    iteration; [ch] is the next channel. *)
Fixpoint init_routes (addrs : list Z) (ch : nat) (t : RoutingTable) : RoutingTable * nat :=
  match addrs with
  | [] => (t, ch)
  | localIFAddr :: addrs =>
      init_routes addrs (S ch) (<[localIFAddr := CreateEntry localIFAddr 0 ch]> t)
  end.

Definition InitRoutingTable (order : list (Z * LinkInterface)) (ch : nat) : RoutingTable * nat :=
  init_routes order.*1 ch ∅.

(** [NewTCPHandler]: the address is the first key of an iteration over the interfaces.  The
    map of the sockets is made by [InitHandler] in its goroutine; no socket is in it. *)
Definition NewTCPHandler (order : list (Z * LinkInterface)) : TCPHandler :=
  mkTCPHandler ∅ ∅ 0 (default 0 (head order.*1)) 1025 [].

(** [&ip.Host{}] *)
Definition zero_Host : Host := mkHost ∅ ∅ ∅ ∅ 0.

Section init.
Context {P : NetIP} {U : NetUDP}.

(** [SetupHost]; [listens] is whether [net.ListenUDP] succeeds. *)
Definition SetupHost (line : list gostring) (listens : bool) : NM unit :=
  if negb (zlen line =? 2) then log_fatal
  else
    modify (set_NHost zero_Host);;
    addr ← try (line !! 0%nat);
    port ← try (line !! 1%nat);
    match ResolveUDPAddr addr port with
    | None => log_fatal
    | Some _ => if negb listens then log_fatal else mret tt
    end.

(** [InitializeDestConnection]: [UDPAddr] stays nil on an error, which is only logged. *)
Definition InitializeDestConnection (addr port : gostring) (c : LinkInterface) : LinkInterface :=
  mkLinkInterface (InterfaceNumber c) (HostIPAddress c) (DestIPAddress c) (UDPDestPort c)
    (match ResolveUDPAddr addr port with Some udpAddr => Some udpAddr | None => UDPAddr c end)
    (Stopped c).

(** [SetupInterface] of the line with the number [l].  An invalid port is only logged; an
    invalid address is the panic of [Uint32] on a nil slice. *)
Definition SetupInterface (line : list gostring) (l : Z) : NM unit :=
  if negb (zlen line =? 4) then log_fatal
  else
    addr ← try (line !! 0%nat);
    port ← try (line !! 1%nat);
    hostIP ← try (line !! 2%nat);
    neighborIP ← try (line !! 3%nat);
    let (udpDestPort, _) := Atoi port in
    hostIPAddr ← try (ParseIP hostIP ≫= To4);
    neighborIPAddr ← try (ParseIP neighborIP ≫= To4);
    let linkIF := mkLinkInterface (l - 1) hostIPAddr neighborIPAddr udpDestPort None false in
    on_host (modify (λ h,
      mkHost (<[hostIPAddr := InitializeDestConnection addr port linkIF]> (LocalIFs h))
        (<[neighborIPAddr := hostIPAddr]> (RemoteDestination h))
        (HostRoutes h) (HandlerRegistry h) (HostNextChan h))).

(** [SetupHandlers]: the routing table, the registered handlers, and the two that are
    initialised in a goroutine of their own; [order] and [tcpOrder] are the iterations over
    the interfaces. *)
Definition SetupHandlers (order tcpOrder : list (Z * LinkInterface)) : NM unit :=
  on_host (modify (λ h, let (t, ch) := InitRoutingTable order (HostNextChan h) in
                        mkHost (LocalIFs h) (RemoteDestination h) t (HandlerRegistry h) ch));;
  InitSocketIndexTable;;
  on_host (RegisterHandler 200 RIPHandler);;
  on_host (RegisterHandler 0 TestHandler);;
  on_host (RegisterHandler 1 TracerouteHandler);;
  on_host (RegisterHandler 6 TcpHandler);;
  modify (set_NTCP (NewTCPHandler tcpOrder));;
  on_host (emit (HInit RIPHandler));;
  on_host (emit (HInit TcpHandler)).

(** The loop of [InitNodeFromLNX] over the lines after the first. *)
Fixpoint setup_lines (lines : list gostring) (l : Z) : NM unit :=
  match lines with
  | [] => mret tt
  | line :: lines => SetupInterface (Split line) l;; setup_lines lines (l + 1)
  end.

(** [InitNodeFromLNX]; [file] are the lines of the file, if it can be opened.  Without a
    line the node has no host when [SetupHandlers] uses it. *)
Definition InitNodeFromLNX (file : option (list gostring)) (listens : bool)
    (order tcpOrder : list (Z * LinkInterface)) : NM unit :=
  match file with
  | None => log_fatal
  | Some [] => panic
  | Some (line :: lines) =>
      SetupHost (Split line) listens;;
      on_host (modify InitHost);;
      setup_lines lines 1;;
      SetupHandlers order tcpOrder
  end.
End init.

(** ** What the text describes *)

(** A line [<neighbor_addr> <neighbor_port> <host_interface_addr> <neighbor_interface_addr>];
    the first two together resolve to [line_udp]. *)
Record lnx_line := mkLine {
  line_udp : option Z;
  line_port : Z;
  line_host : Z;
  line_neighbor : Z
}.

Definition describes `{NetIP, NetUDP} (text : gostring) (line : lnx_line) : Prop :=
  ∃ addr port hostIP neighborIP,
    Split text = [addr; port; hostIP; neighborIP] ∧
    (Atoi port).1 = line_port line ∧ ResolveUDPAddr addr port = line_udp line ∧
    ParseIP hostIP = Some (mkIP (Some (line_host line))) ∧
    ParseIP neighborIP = Some (mkIP (Some (line_neighbor line))).

(** The interface of a line, and all of them with their numbers. *)
Definition line_interface (line : lnx_line) (num : Z) : LinkInterface :=
  mkLinkInterface num (line_host line) (line_neighbor line) (line_port line) (line_udp line) false.

Fixpoint interfaces (num : Z) (lines : list lnx_line) : list (Z * LinkInterface) :=
  match lines with
  | [] => []
  | line :: lines => (line_host line, line_interface line num) :: interfaces (num + 1) lines
  end.

Definition neighbours (lines : list lnx_line) : list (Z * Z) :=
  (λ line, (line_neighbor line, line_host line)) <$> lines.

Lemma interfaces_keys num lines : (interfaces num lines).*1 = line_host <$> lines.
Proof. revert num. induction lines as [|line lines IH]; intros num; simpl; [done|]. by rewrite IH. Qed.

Lemma neighbours_keys lines : (neighbours lines).*1 = line_neighbor <$> lines.
Proof. unfold neighbours. by rewrite <-list_fmap_compose. Qed.

(** Lines with the same number are the same line. *)
Lemma interfaces_numbers num lines a l :
  (a, l) ∈ interfaces num lines →
  num ≤ InterfaceNumber l ∧ lines !! Z.to_nat (InterfaceNumber l - num) ≫= (λ line, Some (line_host line)) = Some a.
Proof.
  revert num. induction lines as [|line lines IH]; intros num Hin; simpl in *.
  { by apply elem_of_nil in Hin. }
  apply elem_of_cons in Hin as [[= -> ->]|Hin]; simpl.
  - rewrite Z.sub_diag. split; [lia|done].
  - destruct (IH _ Hin) as [Hle Hl]. split; [lia|].
    replace (Z.to_nat (InterfaceNumber l - num))
      with (S (Z.to_nat (InterfaceNumber l - (num + 1)))) by lia. done.
Qed.

Lemma interfaces_unique num lines :
  NoDup (line_host <$> lines) →
  unique_numbers (list_to_map (interfaces num lines) : gmap Z LinkInterface).
Proof.
  intros Hnd k k' l l' Hk Hk' E.
  apply elem_of_list_to_map_2 in Hk, Hk'.
  apply interfaces_numbers in Hk as [_ Hk]. apply interfaces_numbers in Hk' as [_ Hk'].
  rewrite E in Hk. congruence.
Qed.

Lemma init_routes_lookup addrs ch t d :
  NoDup addrs →
  (d ∈ addrs → ∃ c, (init_routes addrs ch t).1 !! d = Some (mkEntry d 0 c)) ∧
  (d ∉ addrs → (init_routes addrs ch t).1 !! d = t !! d).
Proof.
  intros Hnd. revert ch t. induction Hnd as [|a addrs Ha Hnd IH]; intros ch t; simpl.
  { split; [intros H; by apply elem_of_nil in H|done]. }
  specialize (IH (S ch) (<[a := CreateEntry a 0 ch]> t)) as [IHin IHout].
  split.
  - rewrite elem_of_cons. intros [->|Hin]; [|by apply IHin].
    rewrite IHout by done. rewrite lookup_insert_eq. by eexists.
  - rewrite not_elem_of_cons. intros [? ?]. rewrite IHout by done.
    by rewrite lookup_insert_ne.
Qed.

(** ** The run *)

Section run.
Context {P : NetIP} {U : NetUDP}.

Lemma SetupHost_run first addr port udp n :
  Split first = [addr; port] → ResolveUDPAddr addr port = Some udp →
  SetupHost (Split first) true n = (Ok tt, set_NHost zero_Host n, []).
Proof.
  intros Hf Hu. unfold SetupHost. rewrite Hf, (proj2 (Z.eqb_eq _ _)) by done. cbn.
  do 2 go_unfold. by rewrite Hu.
Qed.

Lemma SetupInterface_run text line l n :
  describes text line →
  SetupInterface (Split text) l n
    = (Ok tt, set_NHost (mkHost (<[line_host line := line_interface line (l - 1)]> (LocalIFs (NHost n)))
         (<[line_neighbor line := line_host line]> (RemoteDestination (NHost n)))
         (HostRoutes (NHost n)) (HandlerRegistry (NHost n)) (HostNextChan (NHost n))) n, []).
Proof.
  intros (addr & port & hostIP & neighborIP & Ht & Hp & Hu & Hh & Hn).
  unfold SetupInterface. rewrite Ht, (proj2 (Z.eqb_eq _ _)) by done.
  cbn -[ParseIP Atoi]. do 2 go_unfold. rewrite Hh, Hn. destruct (Atoi port) as [z ok].
  simpl in Hp. subst z. unfold InitializeDestConnection. rewrite Hu. simpl. unfold line_interface.
  by destruct (line_udp line).
Qed.

(** The maps after the loop; a later line replaces an earlier one. *)
Lemma setup_lines_run texts lines l n :
  Forall2 describes texts lines →
  NoDup (line_host <$> lines) → NoDup (line_neighbor <$> lines) →
  LocalIFs (NHost n) ##ₘ list_to_map (interfaces (l - 1) lines) →
  RemoteDestination (NHost n) ##ₘ list_to_map (neighbours lines) →
  setup_lines texts l n
    = (Ok tt, set_NHost (mkHost (list_to_map (interfaces (l - 1) lines) ∪ LocalIFs (NHost n))
         (list_to_map (neighbours lines) ∪ RemoteDestination (NHost n))
         (HostRoutes (NHost n)) (HandlerRegistry (NHost n)) (HostNextChan (NHost n))) n, []).
Proof.
  intros Hd. revert l n. induction Hd as [|text line texts lines Ht Hd IH]; intros l n Hh Hn Hl Hr.
  { simpl. rewrite !(left_id_L ∅ (∪)). by destruct n as [[]]. }
  cbn [fmap list_fmap] in Hh, Hn. apply NoDup_cons in Hh as [Hh0 Hh].
  apply NoDup_cons in Hn as [Hn0 Hn]. simpl in Hl, Hr.
  apply map_disjoint_insert_r in Hl as [Hl0 Hl]. apply map_disjoint_insert_r in Hr as [Hr0 Hr].
  assert (Hh1 : (list_to_map (interfaces (l + 1 - 1) lines) : gmap Z LinkInterface) !! line_host line = None).
  { apply not_elem_of_list_to_map_1. by rewrite interfaces_keys. }
  assert (Hn1 : (list_to_map (neighbours lines) : gmap Z Z) !! line_neighbor line = None).
  { apply not_elem_of_list_to_map_1. by rewrite neighbours_keys. }
  cbn [setup_lines]. rewrite (go_bind_ok _ _ _ _ _ _ (SetupInterface_run _ _ _ _ Ht)).
  replace (l - 1 + 1) with (l + 1 - 1) in * by lia.
  rewrite IH; simpl; try done; try (by apply map_disjoint_insert_l_2).
  unfold set_NHost. simpl. do 4 f_equal.
  - replace (l - 1 + 1) with (l + 1 - 1) by lia.
    by rewrite <-insert_union_l, insert_union_r.
  - by rewrite <-insert_union_l, insert_union_r.
Qed.
End run.

(** C30: A configured node is ready.  From a file whose first line resolves and whose other
    lines describe interfaces with distinct addresses and distinct neighbours, the node gets
    one running interface per line, numbered from zero in the order of the lines, and for
    every neighbour the interface that leads to it; the routing table holds exactly the own
    addresses at cost zero, the four protocols have their handlers, TCP has no socket and one
    of the addresses, and no descriptor is open. *)
Theorem InitNodeFromLNX_ready `{NetIP, NetUDP} first addr port texts lines order tcpOrder n :
  Split first = [addr; port] → is_Some (ResolveUDPAddr addr port) →
  Forall2 describes texts lines →
  NoDup (line_host <$> lines) → NoDup (line_neighbor <$> lines) →
  order ≡ₚ interfaces 0 lines → tcpOrder ≡ₚ interfaces 0 lines →
  ∃ n',
    InitNodeFromLNX (Some (first :: texts)) true order tcpOrder n
      = (Ok tt, n', NHostEff <$> [HInit RIPHandler; HInit TcpHandler]) ∧
    LocalIFs (NHost n') = list_to_map (interfaces 0 lines) ∧
    RemoteDestination (NHost n') = list_to_map (neighbours lines) ∧
    unique_numbers (LocalIFs (NHost n')) ∧
    (∀ d, (d ∈ line_host <$> lines → ∃ c, HostRoutes (NHost n') !! d = Some (mkEntry d 0 c)) ∧
          (d ∉ line_host <$> lines → HostRoutes (NHost n') !! d = None)) ∧
    HandlerRegistry (NHost n') = {[6 := TcpHandler; 1 := TracerouteHandler; 0 := TestHandler;
                                   200 := RIPHandler]} ∧
    SocketTable (NTCP n') = ∅ ∧ TCBs (NTCP n') = ∅ ∧ SocketIndexTable n' = [] ∧
    (lines ≠ [] → HLocalAddr (NTCP n') ∈ line_host <$> lines).
Proof.
  intros Hf [udp Hu] Hd Hh Hn Hord Htcp.
  assert (Hnd : NoDup order.*1) by (rewrite Hord, interfaces_keys; done).
  assert (Hin : ∀ d, d ∈ order.*1 ↔ d ∈ line_host <$> lines) by (intros d; by rewrite Hord, interfaces_keys).
  destruct (InitRoutingTable order 0) as [t ch] eqn:Et.
  pose proof (λ d, init_routes_lookup order.*1 0 ∅ d Hnd) as Hroutes.
  unfold InitRoutingTable in Et. rewrite Et in Hroutes. cbn [fst] in Hroutes.
  eexists. split.
  { unfold InitNodeFromLNX.
    erewrite (go_bind_ok (SetupHost _ _)) by (by apply (SetupHost_run _ addr port udp)).
    erewrite (go_bind_ok (on_host _)) by reflexivity.
    erewrite (go_bind_ok (setup_lines _ _)) by (apply (setup_lines_run _ lines);
      try done; apply map_disjoint_empty_l).
    unfold SetupHandlers, InitRoutingTable, on_host. go_unfold. simpl. rewrite Et. reflexivity. }
  cbn [LocalIFs RemoteDestination HostRoutes HandlerRegistry]. simpl.
  rewrite !(right_id_L ∅ (∪)). split_and!; try done.
  - by apply interfaces_unique.
  - intros d. rewrite <-Hin. apply Hroutes.
  - intros Hne. rewrite <-(interfaces_keys 0), <-Htcp. destruct tcpOrder as [|[a lif] rest]; [|by left].
    destruct lines; [done|]. by apply Permutation_nil_cons in Htcp.
Qed.

(** A file of two interfaces; the port is the address. *)
Definition demo_udp : NetUDP := {| ResolveUDPAddr := λ _ port, Some (Atoi port).1 |}.
Definition demo_texts : list gostring :=
  [str "localhost 5001 192.168.0.2 192.168.0.1"; str "localhost 5003 192.168.0.3 192.168.0.4"].
Definition demo_lines : list lnx_line :=
  [mkLine (Some 5001) 5001 3232235522 3232235521; mkLine (Some 5003) 5003 3232235523 3232235524].

Definition blank_node : Node := mkNodeState zero_Host (NewTCPHandler []) ∅ ∅ 0 [].

Lemma demo_describes : Forall2 (@describes only_IPv4 demo_udp) demo_texts demo_lines.
Proof.
  repeat constructor.
  - exists (str "localhost"), (str "5001"), (str "192.168.0.2"), (str "192.168.0.1").
    by split_and!; vm_compute.
  - exists (str "localhost"), (str "5003"), (str "192.168.0.3"), (str "192.168.0.4").
    by split_and!; vm_compute.
Qed.

Lemma InitNodeFromLNX_ready_witness :
  ∃ n',
    @InitNodeFromLNX only_IPv4 demo_udp (Some (str "localhost 5000" :: demo_texts)) true
      (interfaces 0 demo_lines) (interfaces 0 demo_lines) blank_node
      = (Ok tt, n', NHostEff <$> [HInit RIPHandler; HInit TcpHandler]) ∧
    LocalIFs (NHost n') !! 3232235523
      = Some (mkLinkInterface 1 3232235523 3232235524 5003 (Some 5003) false) ∧
    RemoteDestination (NHost n') !! 3232235524 = Some 3232235523 ∧
    HandlerRegistry (NHost n') !! 6 = Some TcpHandler.
Proof.
  destruct (@InitNodeFromLNX_ready only_IPv4 demo_udp (str "localhost 5000") (str "localhost") (str "5000")
    demo_texts demo_lines (interfaces 0 demo_lines) (interfaces 0 demo_lines) blank_node)
    as (n' & Hrun & Hl & Hr & _ & _ & Hreg & _).
  - reflexivity.
  - exists 5000. reflexivity.
  - exact demo_describes.
  - refine (bool_decide_unpack _ _). vm_compute. reflexivity.
  - refine (bool_decide_unpack _ _). vm_compute. reflexivity.
  - reflexivity.
  - reflexivity.
  - exists n'. split; [exact Hrun|]. rewrite Hl, Hr, Hreg. split_and!; reflexivity.
Defined.
