(* ===== verification/RipNet.v ===== *)
(** * RIP in a network

    Any number of routers that run [src/pkg/ip/rip_handler.go] over links between their
    interfaces.  An update is a run of the sending handler; its messages are queued on the
    links, and the handler at the other end takes them in order ([Forwarding] shows that the
    hosts carry them).  The topology is fixed and no timer of a route expires.  The tables
    then never contain a loop, and they converge to the shortest paths. *)

From stdpp Require Import functions.
From S2P Require Import Prelude GoLang Wire WireRef IpWire RoutingTable Rip Host Forwarding NodeInit TcpData Handshake.

(** ** Messages *)

(** The message offers the destination [d] at the finite cost [c]. *)
Definition offered (payload : list byte) (d c : Z) : Prop :=
  ∃ e, e ∈ offers (Entries (parse_message payload)) ∧ Address e = d ∧ RCost e = c.

(** The payloads that a trace sends to the neighbour [n], in order. *)
Definition sent_to (n : Z) (tr : list rip_eff) : list (list byte) :=
  omap (λ e, match e with
             | RMessage m => if decide (be_uint32 m = Some n) then Some (zdrop 4 m) else None
             | _ => None
             end) tr.

(** The updates of a handler: at the start, periodically, after a change. *)
Inductive update (r : RipHandler) : RM unit → Prop :=
  | update_initial order :
      order ≡ₚ map_to_list (Table r) → update r (init_messages order (Neighbors r))
  | update_periodic order :
      order ≡ₚ map_to_list (Table r) → update r (SendUpdatesToNeighbors_tick order)
  | update_triggered es : update r (SendTriggeredUpdates es;; mret tt).

(** What a payload says is in the table of its sender. *)
Definition truthful (r : RipHandler) (payload : list byte) : Prop :=
  NoDup (Address <$> Entries (parse_message payload)) ∧
  ∀ d c, offered payload d c → ∃ e, Table r !! d = Some e ∧ Cost e = c ∧ c ≠ INFINITY.

Lemma RipReceivePacket_run src payload r :
  NoDup (Address <$> Entries (parse_message payload)) →
  ∃ r' t, RipReceivePacket src payload r = (Ok tt, r', t) ∧ Neighbors r' = Neighbors r ∧
    (∀ d, (∀ c, ¬ offered payload d c) → Table r' !! d = Table r !! d) ∧
    (∀ d c, offered payload d c → ∃ fresh,
       Table r' !! d = Some (bellman_ford src (c ⊞ 1) fresh (Table r !! d))).
Proof.
  intros Hnd.
  destruct (receive_entries_run src _ r Hnd) as (t & u & r' & Hrun & Hnb & _ & Hsame & Hoff & _).
  unfold RipReceivePacket. rewrite (go_bind_ok _ _ _ _ _ _ Hrun). unfold when.
  exists r', (t ++ if 0 <? zlen u then [RTrigger u] else []).
  split; [by destruct (0 <? zlen u)|]. split_and!; [done| |].
  - intros d Hd. apply Hsame. intros (e & -> & He)%list_elem_of_fmap. apply (Hd (RCost e)). by exists e.
  - intros d c (e & He & <- & <-). by apply Hoff.
Qed.

Lemma offered_dec p d : (∃ c, offered p d c) ∨ ∀ c, ¬ offered p d c.
Proof.
  destruct (filter (λ x, Address x = d) (offers (Entries (parse_message p)))) as [|x l] eqn:E.
  - right. intros c (e & He & Ha & _). apply (filter_nil_not_elem_of _ _ _ E Ha He).
  - left. assert (Hx : x ∈ x :: l) by (by left). rewrite <-E in Hx.
    apply list_elem_of_filter in Hx as [Ha Hx]. exists (RCost x). by exists x.
Qed.

(** Two offers of one message for a destination are the same. *)
Lemma offered_inj payload d c c' :
  NoDup (Address <$> Entries (parse_message payload)) →
  offered payload d c → offered payload d c' → c = c'.
Proof.
  intros Hnd (e & He & Ha & <-) (e' & He' & Ha' & <-).
  apply list_elem_of_filter in He as [_ He], He' as [_ He'].
  apply list_elem_of_lookup in He as [i Hi], He' as [j Hj].
  assert (i = j) as ->; [|congruence].
  apply (NoDup_lookup _ i j d Hnd); rewrite list_lookup_fmap;
    [rewrite Hi; simpl; by rewrite Ha|rewrite Hj; simpl; by rewrite Ha'].
Qed.

Definition payload_of (command : Z) (es : list RIPEntry) : list byte :=
  put_u16 command ++ put_u16 (u16 (zlen es)) ++ concat (entry_bytes <$> es).

Lemma sent_to_messages n (f : Z → list byte) ns :
  is_u32 n → Forall is_u32 ns →
  ∀ p, p ∈ sent_to n ((λ m, RMessage (put_u32 m ++ f m)) <$> ns) ↔ n ∈ ns ∧ p = f n.
Proof.
  intros Hn Hns p. unfold sent_to. rewrite list_elem_of_omap. split.
  - intros (e & (m & -> & Hm)%list_elem_of_fmap & He). rewrite Forall_forall in Hns.
    rewrite be_put_u32 in He by auto. case_decide as E; [|done]. injection E as ->.
    injection He as <-. split; [done|]. reflexivity.
  - intros [Hin ->]. exists (RMessage (put_u32 n ++ f n)). split; [by apply list_elem_of_fmap; eauto|].
    rewrite be_put_u32 by done. rewrite decide_True by done. by rewrite zdrop_put_u32.
Qed.

(** The entries of the table that are in a message. *)
Definition entries_of (t : RoutingTable) (es : list RIPEntry) : Prop :=
  NoDup (Address <$> es) ∧ Forall entry_u32 es ∧ zlen es < 65536 ∧
  ∀ e, e ∈ es → RCost e ≠ INFINITY →
    ∃ en, t !! Address e = Some en ∧ Cost en = RCost e.

Lemma GetSpecificEntries_of order n t :
  order ≡ₚ map_to_list t → table_wf t → entries_of t (GetSpecificEntries order n).
Proof.
  intros Hord Hwf. destruct (GetSpecificEntries_wf order n t Hord Hwf) as (Hnd & Hu & Hl).
  split_and!; try done. intros e (d & en & Hin & Hc & ->)%elem_of_GetSpecificEntries. simpl.
  case_decide; [done|]. intros _. exists en. split; [|done].
  apply elem_of_map_to_list. by rewrite <-Hord.
Qed.

(** An address that is the next hop of no route. *)
Lemma GetAllEntries_specific order :
  ∃ n, GetAllEntries order = GetSpecificEntries order n ∧ ∀ d en, (d, en) ∈ order → NextHop en ≠ n.
Proof.
  assert (Hex : ∃ n, ∀ d en, (d, en) ∈ order → NextHop en < n).
  { induction order as [|[d en] order [n Hn]].
    - exists 0. intros d en Hin. by apply elem_of_nil in Hin.
    - exists (Z.max n (NextHop en + 1)). intros d' en' [[= -> ->]|Hin]%elem_of_cons; [lia|].
      specialize (Hn d' en' Hin). lia. }
  destruct Hex as [n Hn]. exists n. split; [|intros d en Hin; specialize (Hn d en Hin); lia].
  unfold GetAllEntries, GetSpecificEntries. induction order as [|[d en] order IH]; [done|].
  assert (Hen : NextHop en < n) by (apply (Hn d); by left).
  cbn [omap list_omap]. rewrite IH by (intros d' en' Hin; apply (Hn d'); by right).
  destruct (Z.eqb_spec (NextHop en) n); [lia|done].
Qed.

Lemma payload_truthful r command es :
  is_u16 command → entries_of (Table r) es →
  truthful r (payload_of command es) ∧ Entries (parse_message (payload_of command es)) = es.
Proof.
  intros Hc (Hnd & Hu & Hl & Hes). unfold truthful, payload_of, offered.
  rewrite parse_new_message by done. cbn [Entries new_message]. split; [|done]. split; [done|].
  intros d c (e & [Hf He]%list_elem_of_filter & <- & <-).
  destruct (Hes e He Hf) as (en & ? & ?). by exists en.
Qed.

(** ** The updates *)

(** The payloads of an update say what the table says; a periodic update of a router tells
    the neighbour [n] every finite route that does not go through it. *)
Lemma update_run r op :
  update r op → table_wf (Table r) → Forall is_u32 (Neighbors r) →
  ∃ tr, op r = (Ok tt, r, tr) ∧
    ∀ n p, is_u32 n → p ∈ sent_to n tr → truthful r p.
Proof.
  intros Hup Hwf Hnb. destruct Hup as [order Hord|order Hord|es].
  - exists ((λ n, RMessage (put_u32 n ++ payload_of 1 (GetAllEntries order))) <$> Neighbors r).
    split.
    { generalize (Neighbors r) as ns. induction ns as [|n ns IH]; [done|].
      cbn [init_messages]. go_unfold. by rewrite IH. }
    intros n p Hn [_ ->]%sent_to_messages; [|done..].
    destruct (GetAllEntries_specific order) as (m & -> & _).
    apply payload_truthful; [done|]. by apply GetSpecificEntries_of.
  - exists ((λ n, RMessage (put_u32 n ++ payload_of 2 (GetSpecificEntries order n))) <$> Neighbors r).
    split; [unfold SendUpdatesToNeighbors_tick; go_unfold; by rewrite periodic_messages_trace|].
    intros n p Hn [_ ->]%(sent_to_messages n (λ n, payload_of 2 (GetSpecificEntries order n))); [|done..].
    apply payload_truthful; [done|]. by apply GetSpecificEntries_of.
  - destruct (triggered_messages_trace (Neighbors r) es r) as [es' Htr].
    exists ((λ n, RMessage (put_u32 n ++ [])) <$> Neighbors r). split.
    { unfold SendTriggeredUpdates. go_unfold. rewrite Htr, app_nil_r.
      by setoid_rewrite app_nil_r. }
    intros n p Hn [_ ->]%(sent_to_messages n (λ _, [])); [|done..].
    split; [constructor|]. intros d c (e & He & _). by apply elem_of_nil in He.
Qed.

Lemma periodic_offers r order n :
  order ≡ₚ map_to_list (Table r) → table_wf (Table r) → Forall is_u32 (Neighbors r) →
  n ∈ Neighbors r → is_u32 n →
  ∃ tr, SendUpdatesToNeighbors_tick order r = (Ok tt, r, tr) ∧ sent_to n tr ≠ [] ∧
    ∀ p d e, p ∈ sent_to n tr → Table r !! d = Some e → Cost e ≠ INFINITY → NextHop e ≠ n →
      offered p d (Cost e).
Proof.
  intros Hord Hwf Hnb Hin Hn. set (f := λ n, payload_of 2 (GetSpecificEntries order n)).
  exists ((λ n, RMessage (put_u32 n ++ f n)) <$> Neighbors r).
  split; [unfold SendUpdatesToNeighbors_tick; go_unfold; by rewrite periodic_messages_trace|].
  pose proof (sent_to_messages n f (Neighbors r) Hn Hnb) as Hsent. split.
  - intros E. assert (Hf : f n ∈ @nil (list byte)) by (rewrite <-E; by apply Hsent).
    by apply elem_of_nil in Hf.
  - intros p d e Hp He Hc Hne. apply Hsent in Hp as [_ ->]. unfold f, offered.
    destruct (payload_truthful r 2 (GetSpecificEntries order n)) as [_ ->];
      [done|by apply GetSpecificEntries_of|].
    exists (mkRIPEntry (Cost e) d MASK). split; [|done].
    apply list_elem_of_filter. split; [done|]. apply elem_of_GetSpecificEntries.
    exists d, e. rewrite decide_False by done. split_and!; [|done|done].
    rewrite Hord. by apply elem_of_map_to_list.
Qed.

(** ** The network *)

Record rip_net (R : Type) := mkNet {
  routers : R → RipHandler;
  (** the messages on their way from an interface to the one at the other end of its link *)
  queues : Z → list (list byte);
  (** how many messages from an interface have been taken *)
  taken : Z → nat
}.
Arguments mkNet {R}.
Arguments routers {R}.
Arguments queues {R}.
Arguments taken {R}.

Section network.
Context {R : Type} `{EqDecision R}.
(** The router that has the address, and the address at the other end of its link. *)
Context (owner : gmap Z R) (peer : gmap Z Z).

Record topology : Prop := {
  tp_u32 : ∀ a u, owner !! a = Some u → is_u32 a;
  tp_size : Z.of_nat (size owner) < 65536;
  tp_sym : ∀ a b, peer !! a = Some b → peer !! b = Some a;
  tp_ends : ∀ a b, peer !! a = Some b →
    ∃ u v, owner !! a = Some u ∧ owner !! b = Some v ∧ u ≠ v
}.

(** The messages of an update go out on the links of the router. *)
Definition enqueue (u : R) (tr : list rip_eff) (q : Z → list (list byte)) (a : Z)
    : list (list byte) :=
  if decide (owner !! a = Some u)
  then q a ++ match peer !! a with Some b => sent_to b tr | None => [] end
  else q a.

(** The code starts a goroutine for every message that a host receives; here the messages of a
    link are taken in order, each by a run of the handler that nothing interrupts. *)
Inductive rip_step (lossy : bool) (s : rip_net R) : rip_net R → Prop :=
  (** a router sends an update *)
  | rip_update u op r' tr :
      update (routers s u) op → op (routers s u) = (Ok tt, r', tr) →
      rip_step lossy s (mkNet (<[u := r']> (routers s)) (enqueue u tr (queues s)) (taken s))
  (** the router at the other end of a link takes the next message *)
  | rip_receive a b v p rest r' tr :
      peer !! a = Some b → owner !! b = Some v → queues s a = p :: rest →
      RipReceivePacket a p (routers s v) = (Ok tt, r', tr) →
      rip_step lossy s (mkNet (<[v := r']> (routers s)) (<[a := rest]> (queues s))
                          (<[a := S (taken s a)]> (taken s)))
  (** a message is lost *)
  | rip_lose a p rest :
      lossy = true → queues s a = p :: rest →
      rip_step lossy s (mkNet (routers s) (<[a := rest]> (queues s)) (taken s)).

(** The configured routers, before any update. *)
Definition rip_start (s : rip_net R) : Prop :=
  (∀ u, ∃ order ch, NoDup order.*1 ∧ (∀ d, d ∈ order.*1 ↔ owner !! d = Some u) ∧
     Table (routers s u) = (InitRoutingTable order ch).1) ∧
  (∀ u n, n ∈ Neighbors (routers s u) ↔ ∃ a, peer !! a = Some n ∧ owner !! a = Some u) ∧
  (∀ a, queues s a = [] ∧ taken s a = 0%nat).

(** ** The invariant *)

(** A route: to an own address, or through a neighbour that is nearer. *)
Definition route_ok (s : rip_net R) (v : R) (d : Z) (e : RoutingTableEntry) : Prop :=
  is_Some (owner !! d) ∧
  ((Cost e = 0 ∧ owner !! d = Some v ∧ NextHop e = d) ∨
   ∃ b u e', peer !! NextHop e = Some b ∧ owner !! b = Some v ∧ owner !! NextHop e = Some u ∧
     Table (routers s u) !! d = Some e' ∧ 0 ≤ Cost e' < Cost e ∧ Cost e ≤ INFINITY).

(** Later offers of a queue are not worse. *)
Definition improves (p q : list byte) : Prop :=
  ∀ d c c', offered p d c → offered q d c' → c' ≤ c.

(** The queue of the interface [a] of [u] to [v]: what it offers is not better than what [u]
    has, and what [v] has through [a] is not better than what it is still offered. *)
Record queue_ok (s : rip_net R) (a : Z) (u v : R) : Prop := {
  q_nodup : ∀ p, p ∈ queues s a → NoDup (Address <$> Entries (parse_message p));
  q_offer : ∀ p d c, p ∈ queues s a → offered p d c →
    ∃ e, Table (routers s u) !! d = Some e ∧ 0 ≤ Cost e ≤ c ∧ c < INFINITY;
  q_sorted : StronglySorted improves (queues s a);
  q_via : ∀ p d c e, p ∈ queues s a → offered p d c →
    Table (routers s v) !! d = Some e → NextHop e = a → c < Cost e
}.

Record rip_inv (s : rip_net R) : Prop := {
  r_routes : ∀ v d e, Table (routers s v) !! d = Some e → route_ok s v d e;
  r_own : ∀ d v, owner !! d = Some v →
    ∃ e, Table (routers s v) !! d = Some e ∧ Cost e = 0 ∧ NextHop e = d;
  r_neighbors : ∀ u n, n ∈ Neighbors (routers s u) ↔
    ∃ a, peer !! a = Some n ∧ owner !! a = Some u;
  r_queues : ∀ a b u v, peer !! a = Some b → owner !! a = Some u → owner !! b = Some v →
    queue_ok s a u v
}.

(** Costs only fall. *)
Definition falls (s s' : rip_net R) : Prop :=
  ∀ v d e, Table (routers s v) !! d = Some e →
    ∃ e', Table (routers s' v) !! d = Some e' ∧ Cost e' ≤ Cost e.

Hypothesis Htop : topology.

Lemma cost_bounds s v d e :
  rip_inv s → Table (routers s v) !! d = Some e → 0 ≤ Cost e ≤ INFINITY.
Proof.
  intros Hinv He. destruct (r_routes s Hinv v d e He) as (_ & [(-> & _)|(b & u & e' & _ & _ & _ & _ & ? & ?)]);
    unfold INFINITY in *; lia.
Qed.

Lemma inv_table_wf s u : rip_inv s → table_wf (Table (routers s u)).
Proof.
  intros Hinv. split.
  - intros d e He. destruct (r_routes s Hinv u d e He) as ([v Hv] & _).
    pose proof (cost_bounds s u d e Hinv He). unfold INFINITY in *.
    split; [by eapply tp_u32|unfold is_u32; lia].
  - apply (Z.le_lt_trans _ (Z.of_nat (size owner))); [|apply Htop].
    rewrite <-!size_dom. apply inj_le, subseteq_size. intros d [e He]%elem_of_dom.
    apply elem_of_dom. by destruct (r_routes s Hinv u d e He).
Qed.

Lemma inv_neighbors_u32 s u : rip_inv s → Forall is_u32 (Neighbors (routers s u)).
Proof.
  intros Hinv. apply Forall_forall. intros n (a & Ha & _)%(r_neighbors s Hinv).
  destruct (tp_ends Htop a n Ha) as (u' & v & _ & Hv & _). by eapply tp_u32.
Qed.

Lemma rip_start_inv s : rip_start s → rip_inv s.
Proof.
  intros (Htab & Hnb & Hq).
  assert (Hlk : ∀ u d, (owner !! d = Some u → ∃ c, Table (routers s u) !! d = Some (mkEntry d 0 c)) ∧
    (owner !! d ≠ Some u → Table (routers s u) !! d = None)).
  { intros u d. destruct (Htab u) as (order & ch & Hnd & Hin & ->).
    destruct (init_routes_lookup order.*1 ch ∅ d Hnd) as [H1 H2]. rewrite Hin in H1, H2.
    split; [exact H1|]. intros Hne. unfold InitRoutingTable. by rewrite H2. }
  split; [| |exact Hnb|].
  - intros v d e He. destruct (decide (owner !! d = Some v)) as [Hd|Hd].
    + destruct (proj1 (Hlk v d) Hd) as [c Hc]. rewrite Hc in He. injection He as <-.
      split; [by eexists|]. by left.
    + rewrite (proj2 (Hlk v d) Hd) in He. done.
  - intros d v Hd. destruct (proj1 (Hlk v d) Hd) as [c Hc]. eexists. by split; [exact Hc|].
  - intros a b u v _ _ _. destruct (Hq a) as [Hqa _].
    split; rewrite Hqa; [| |constructor|]; intros p; intros; exfalso; set_solver.
Qed.

(** ** The steps keep the invariant *)

Lemma bellman_ford_cases a c fresh old :
  let e' := bellman_ford a c fresh old in
  (NextHop e' = a ∧ Cost e' = c ∧ ∀ e, old = Some e → NextHop e = a ∨ c < Cost e) ∨
  ∃ e, old = Some e ∧ NextHop e ≠ a ∧ Cost e ≤ c ∧ NextHop e' = NextHop e ∧ Cost e' = Cost e.
Proof.
  unfold bellman_ford. destruct old as [e|]; simpl; [|by left].
  case_decide as Hn; simpl.
  - left. split_and!; try done. intros ? [= <-]. by left.
  - destruct (Z.ltb_spec c (Cost e)) as [Hlt|Hge].
    + left. split_and!; [done|lia|]. intros ? [= <-]. by right.
    + right. exists e. split_and!; try done. lia.
Qed.

Lemma sorted_all (l : list (list byte)) :
  (∀ p q, p ∈ l → q ∈ l → improves p q) → StronglySorted improves l.
Proof.
  induction l as [|p l IH]; intros H; [constructor|]. constructor.
  - apply IH. intros q q' ??. apply H; by right.
  - apply Forall_forall. intros q Hq. apply H; [by left|by right].
Qed.

(** A neighbour is not the owner of the address it is asked for. *)
Lemma via_nearer s a b u v d e :
  rip_inv s → peer !! a = Some b → owner !! a = Some u → owner !! b = Some v →
  Table (routers s v) !! d = Some e → NextHop e = a →
  ∃ e', Table (routers s u) !! d = Some e' ∧ 0 ≤ Cost e' < Cost e.
Proof.
  intros Hinv Hp Hu Hv He Hn. destruct (tp_ends Htop a b Hp) as (u' & v' & Hu' & Hv' & Hne).
  rewrite Hu in Hu'. rewrite Hv in Hv'. injection Hu' as <-. injection Hv' as <-.
  destruct (r_routes s Hinv v d e He) as (_ & [(_ & Ho & Hd)|(b' & u' & e' & _ & _ & Hu' & He' & Hlt & _)]).
  - rewrite <-Hd, Hn, Hu in Ho. congruence.
  - rewrite Hn, Hu in Hu'. injection Hu' as <-. by exists e'.
Qed.

Lemma queue_frame s s' a u v :
  queue_ok s a u v → queues s' a = queues s a →
  routers s' u = routers s u → routers s' v = routers s v → queue_ok s' a u v.
Proof. intros [] Hq Hu Hv. split; rewrite ?Hq, ?Hu, ?Hv; done. Qed.

(** New messages of the sender. *)
Lemma queue_enqueue s s' a b u v tr :
  rip_inv s → peer !! a = Some b → owner !! a = Some u → owner !! b = Some v →
  (∀ p, p ∈ sent_to b tr → truthful (routers s u) p) →
  queues s' a = queues s a ++ sent_to b tr → (∀ w, routers s' w = routers s w) →
  queue_ok s' a u v.
Proof.
  intros Hinv Hp Hu Hv Htr Hq Hr. destruct (r_queues s Hinv a b u v Hp Hu Hv).
  assert (Hnew : ∀ p d c, p ∈ sent_to b tr → offered p d c →
    ∃ e, Table (routers s u) !! d = Some e ∧ Cost e = c ∧ c < INFINITY).
  { intros p d c Hin Hoff. destruct (proj2 (Htr p Hin) d c Hoff) as (e & He & <- & Hc).
    exists e. pose proof (cost_bounds s u d e Hinv He). split_and!; [done|done|lia]. }
  split; rewrite ?Hq; try setoid_rewrite Hr.
  - intros p [Hin|Hin]%elem_of_app; [by apply q_nodup0|by apply Htr].
  - intros p d c [Hin|Hin]%elem_of_app Hoff; [by eapply q_offer0|].
    destruct (Hnew p d c Hin Hoff) as (e & He & <- & Hc). exists e.
    pose proof (cost_bounds s u d e Hinv He). split_and!; [done|lia..].
  - apply StronglySorted_app_2; [|done|].
    + intros p q Hin Hin' d c c' Hc Hc'. destruct (q_offer0 p d c Hin Hc) as (e & He & Hle & _).
      destruct (Hnew q d c' Hin' Hc') as (e' & He' & <- & _). rewrite He in He'. injection He' as <-. lia.
    + apply sorted_all. intros p q Hin Hin' d c c' Hc Hc'.
      destruct (Hnew p d c Hin Hc) as (e & He & <- & _).
      destruct (Hnew q d c' Hin' Hc') as (e' & He' & <- & _). rewrite He in He'. by injection He' as <-.
  - intros p d c e [Hin|Hin]%elem_of_app Hoff He Hn; [by eapply q_via0|].
    destruct (via_nearer s a b u v d e Hinv Hp Hu Hv He Hn) as (e' & He' & Hlt).
    destruct (Hnew p d c Hin Hoff) as (e'' & He'' & <- & _). rewrite He' in He''. injection He'' as <-. lia.
Qed.

Lemma update_step_inv s u op r' tr :
  rip_inv s → update (routers s u) op → op (routers s u) = (Ok tt, r', tr) →
  let s' := mkNet (<[u := r']> (routers s)) (enqueue u tr (queues s)) (taken s) in
  rip_inv s' ∧ ∀ w, routers s' w = routers s w.
Proof.
  intros Hinv Hup E s'.
  destruct (update_run _ _ Hup (inv_table_wf s u Hinv) (inv_neighbors_u32 s u Hinv)) as (tr' & E' & Htr).
  rewrite E' in E. injection E as <- <-.
  assert (Hr : ∀ w, routers s' w = routers s w).
  { intros w. simpl. destruct (decide (w = u)) as [->|Hne];
      [by rewrite fn_lookup_insert|by rewrite fn_lookup_insert_ne]. }
  split; [|done]. split; unfold route_ok; try setoid_rewrite Hr; try apply Hinv.
  intros a b x v Hp Hx Hv. destruct (decide (x = u)) as [->|Hne].
  - apply (queue_enqueue s s' a b u v tr'); try done.
    + intros p. apply Htr. by eapply tp_u32.
    + simpl. unfold enqueue. by rewrite decide_True, Hp.
  - apply (queue_frame s); try done; [by eapply r_queues|].
    simpl. unfold enqueue. by rewrite decide_False by congruence.
Qed.

(** The table of [v] after it has taken the message [p] of the interface [a]. *)
Definition takes (s : rip_net R) (a : Z) (p : list byte) (v : R) (r' : RipHandler) : Prop :=
  Neighbors r' = Neighbors (routers s v) ∧
  (∀ d, (∀ c, ¬ offered p d c) → Table r' !! d = Table (routers s v) !! d) ∧
  (∀ d c, offered p d c → 0 ≤ c < INFINITY ∧ ∃ fresh,
     Table r' !! d = Some (bellman_ford a (c + 1) fresh (Table (routers s v) !! d))).

Lemma receive_takes s a b v p rest r' tr :
  rip_inv s → peer !! a = Some b → owner !! b = Some v → queues s a = p :: rest →
  RipReceivePacket a p (routers s v) = (Ok tt, r', tr) → takes s a p v r'.
Proof.
  intros Hinv Hp Hv Hq E. destruct (tp_ends Htop a b Hp) as (u & v' & Hu & Hv' & _).
  rewrite Hv in Hv'. injection Hv' as <-. destruct (r_queues s Hinv a b u v Hp Hu Hv).
  assert (Hin : p ∈ queues s a) by (rewrite Hq; by left).
  destruct (RipReceivePacket_run a p (routers s v) (q_nodup0 p Hin)) as (r1 & t & E1 & Hnb & Hs & Ho).
  rewrite E1 in E. injection E as <- _. split_and!; try done.
  intros d c Hoff. destruct (q_offer0 p d c Hin Hoff) as (e & _ & Hc & Hi).
  split; [lia|]. destruct (Ho d c Hoff) as [fresh Hf]. exists fresh.
  unfold INFINITY in *. by rewrite u32_small in Hf by lia.
Qed.

(** A route of the new table: an old one, or the offer. *)
Lemma takes_cases s a p v r' d e' :
  takes s a p v r' → Table r' !! d = Some e' →
  (∃ e, Table (routers s v) !! d = Some e ∧ NextHop e' = NextHop e ∧ Cost e' = Cost e) ∨
  ∃ c, offered p d c ∧ NextHop e' = a ∧ Cost e' = c + 1 ∧ 0 ≤ c < INFINITY.
Proof.
  intros (_ & Hs & Ho) He. destruct (offered_dec p d) as [[c Hoff]|Hno].
  - destruct (Ho d c Hoff) as (Hc & fresh & Hf). rewrite Hf in He. injection He as <-.
    destruct (bellman_ford_cases a (c + 1) fresh (Table (routers s v) !! d))
      as [(Hn & Hcost & _)|(e & He & Hn & Hle & Hn' & Hcost)].
    + right. by exists c.
    + left. by exists e.
  - left. rewrite Hs in He by done. by exists e'.
Qed.

(** The costs of the router fall, because what it has through [a] is not better. *)
Lemma takes_falls s a p v r' d e :
  takes s a p v r' →
  (∀ c, offered p d c → NextHop e = a → c < Cost e) → Table (routers s v) !! d = Some e →
  ∃ e', Table r' !! d = Some e' ∧ Cost e' ≤ Cost e ∧ ∀ c, offered p d c → Cost e' ≤ c + 1.
Proof.
  intros (_ & Hs & Ho) Hvia He. destruct (offered_dec p d) as [[c Hoff]|Hno].
  - destruct (Ho d c Hoff) as (Hc & fresh & Hf). eexists. split; [exact Hf|]. split.
    + destruct (bellman_ford_cases a (c + 1) fresh (Table (routers s v) !! d))
        as [(_ & -> & Hold)|(e0 & He0 & _ & _ & _ & ->)].
      * destruct (Hold e He) as [Hn|]; [specialize (Hvia c Hoff Hn)|]; lia.
      * rewrite He in He0. by injection He0 as ->.
    + intros c' Hoff'. destruct (Ho d c' Hoff') as (_ & fresh' & Hf'). rewrite Hf in Hf'.
      injection Hf' as ->. apply bellman_ford_cost.
  - exists e. rewrite Hs by done. split_and!; [done|done|]. intros c Hc. by destruct (Hno c).
Qed.

Lemma route_ok_falls s s' v d e :
  route_ok s v d e → falls s s' →
  (∀ w d e, Table (routers s' w) !! d = Some e → 0 ≤ Cost e) → route_ok s' v d e.
Proof.
  intros [Ho [Hown|(b & u & e' & ? & ? & ? & He & Hlt & ?)]] Hf Hpos; (split; [done|]); [by left|].
  right. destruct (Hf u d e' He) as (e'' & He'' & Hle). exists b, u, e''. pose proof (Hpos _ _ _ He'').
  split_and!; (done || lia).
Qed.

(** *** Taking a message *)

Section receive.
Context (s : rip_net R) (a b : Z) (u v : R) (p : list byte) (rest : list (list byte)).
Context (r' : RipHandler).
Hypothesis Hinv : rip_inv s.
Hypothesis Hp : peer !! a = Some b.
Hypothesis Hu : owner !! a = Some u.
Hypothesis Hv : owner !! b = Some v.
Hypothesis Hq : queues s a = p :: rest.
Hypothesis Ht : takes s a p v r'.

#[local] Abbreviation s' := (mkNet (<[v := r']> (routers s)) (<[a := rest]> (queues s))
                          (<[a := S (taken s a)]> (taken s))).

Lemma receive_here : routers s' v = r'.
Proof. simpl. by rewrite fn_lookup_insert. Qed.

Lemma receive_there w : w ≠ v → routers s' w = routers s w.
Proof. intros Hw. simpl. by rewrite fn_lookup_insert_ne. Qed.

Lemma receive_ends : u ≠ v.
Proof. destruct (tp_ends Htop a b Hp) as (u' & v' & ? & ? & ?). congruence. Qed.

Lemma receive_queue : queue_ok s a u v ∧ p ∈ queues s a.
Proof. split; [by eapply r_queues|]. rewrite Hq. by left. Qed.

Lemma receive_falls : falls s s'.
Proof.
  intros w d e He. destruct (decide (w = v)) as [->|Hw].
  - rewrite receive_here. destruct receive_queue as [Hqo Hin].
    destruct (takes_falls s a p v r' d e Ht) as (e' & He' & Hle & _); [|done|by exists e'].
    intros c Hoff. by apply (q_via _ _ _ _ Hqo p d c e Hin Hoff).
  - rewrite receive_there by done. by exists e.
Qed.

Lemma receive_pos w d e : Table (routers s' w) !! d = Some e → 0 ≤ Cost e.
Proof.
  destruct (decide (w = v)) as [->|Hw].
  - rewrite receive_here. intros He. destruct (takes_cases s a p v r' d e Ht He)
      as [(e0 & He0 & _ & ->)|(c & _ & _ & -> & ?)]; [by eapply cost_bounds|lia].
  - rewrite receive_there by done. intros He. by eapply cost_bounds.
Qed.

Lemma receive_routes w d e : Table (routers s' w) !! d = Some e → route_ok s' w d e.
Proof.
  assert (Hold : ∀ w d e, route_ok s w d e → route_ok s' w d e).
  { intros. apply (route_ok_falls s); [done|apply receive_falls|apply receive_pos]. }
  destruct (decide (w = v)) as [->|Hw].
  2: { rewrite receive_there by done. intros He. by apply Hold, Hinv. }
  rewrite receive_here. intros He. destruct (takes_cases s a p v r' d e Ht He)
    as [(e0 & He0 & Hn & Hc)|(c & Hoff & Hn & Hc & Hb)].
  - pose proof (Hold v d e0 (r_routes s Hinv v d e0 He0)) as Hok. unfold route_ok in *. by rewrite Hn, Hc.
  - destruct receive_queue as [Hqo Hin].
    destruct (q_offer _ _ _ _ Hqo p d c Hin Hoff) as (eu & Heu & Hle & _).
    destruct (r_routes s Hinv u d eu Heu) as [Ho _]. split; [done|]. right.
    exists b, u, eu. rewrite Hn, Hc, receive_there by apply receive_ends.
    unfold INFINITY in *. split_and!; (done || lia).
Qed.

Lemma receive_own d w :
  owner !! d = Some w → ∃ e, Table (routers s' w) !! d = Some e ∧ Cost e = 0 ∧ NextHop e = d.
Proof.
  intros Hd. destruct (r_own s Hinv d w Hd) as (e & He & Hc & Hn).
  destruct (decide (w = v)) as [->|Hw]; [|rewrite receive_there by done; by exists e].
  destruct (receive_falls v d e He) as (e' & He' & Hle). pose proof (receive_pos _ _ _ He').
  rewrite receive_here in *. exists e'. split; [done|]. split; [lia|].
  destruct (takes_cases s a p v r' d e' Ht He') as [(e0 & He0 & Hn' & _)|(c & _ & _ & Hc' & ?)]; [|lia].
  rewrite He in He0. injection He0 as <-. congruence.
Qed.

Lemma receive_queues a1 b1 u1 v1 :
  peer !! a1 = Some b1 → owner !! a1 = Some u1 → owner !! b1 = Some v1 → queue_ok s' a1 u1 v1.
Proof.
  intros Hp1 Hu1 Hv1. pose proof (r_queues s Hinv a1 b1 u1 v1 Hp1 Hu1 Hv1) as Hq1.
  destruct receive_queue as [Hqo Hin].
  assert (Hsub : ∀ q, q ∈ queues s' a1 → q ∈ queues s a1).
  { intros q. simpl. destruct (decide (a1 = a)) as [->|Ha];
      [rewrite fn_lookup_insert, Hq; by right|by rewrite fn_lookup_insert_ne]. }
  assert (Htail : Forall (improves p) rest ∧ StronglySorted improves rest).
  { pose proof (q_sorted _ _ _ _ Hqo) as Hs. rewrite Hq in Hs. by apply StronglySorted_inv in Hs as []. }
  split.
  - intros q Hq'. by eapply q_nodup, Hsub.
  - intros q d c Hq' Hoff. destruct (q_offer _ _ _ _ Hq1 q d c (Hsub q Hq') Hoff) as (e & He & Hle & Hi).
    destruct (receive_falls u1 d e He) as (e' & He' & Hle'). pose proof (receive_pos _ _ _ He').
    exists e'. split; [done|lia].
  - simpl. destruct (decide (a1 = a)) as [->|Ha]; [rewrite fn_lookup_insert; apply Htail|].
    rewrite fn_lookup_insert_ne by done. apply Hq1.
  - intros q d c e Hq' Hoff He Hn. destruct (decide (v1 = v)) as [->|Hw].
    2: { rewrite receive_there in He by done. by eapply (q_via _ _ _ _ Hq1), Hn; [apply Hsub| |]. }
    rewrite receive_here in He. destruct (takes_cases s a p v r' d e Ht He)
      as [(e0 & He0 & Hn0 & ->)|(c0 & Hoff0 & Hn0 & -> & _)].
    + eapply (q_via _ _ _ _ Hq1); [by apply Hsub|done|done|congruence].
    + assert (a1 = a) as -> by congruence. simpl in Hq'. rewrite fn_lookup_insert in Hq'.
      destruct Htail as [Hall _]. rewrite Forall_forall in Hall.
      specialize (Hall q Hq' d c0 c Hoff0 Hoff). lia.
Qed.

Lemma receive_step_inv : rip_inv s'.
Proof.
  split; [apply receive_routes|apply receive_own| |apply receive_queues].
  intros w n. destruct (decide (w = v)) as [->|Hw]; [|rewrite receive_there by done; apply Hinv].
  rewrite receive_here. destruct Ht as [-> _]. apply Hinv.
Qed.
End receive.

Lemma lose_step_inv s a p rest :
  rip_inv s → queues s a = p :: rest →
  rip_inv (mkNet (routers s) (<[a := rest]> (queues s)) (taken s)).
Proof.
  intros [] Hq. split; try done. intros a1 b1 u1 v1 Hp Hu Hv.
  destruct (r_queues0 a1 b1 u1 v1 Hp Hu Hv) as [Hnd Hoff Hs Hvia].
  destruct (decide (a1 = a)) as [->|Ha].
  - rewrite Hq in *. apply StronglySorted_inv in Hs as [Hs _].
    split; simpl; rewrite fn_lookup_insert; [| |done|]; intros q *; intros; [apply Hnd|eapply Hoff|eapply Hvia];
      try done; by right.
  - split; simpl; rewrite fn_lookup_insert_ne by done; done.
Qed.

Lemma rip_step_inv lossy s s' : rip_inv s → rip_step lossy s s' → rip_inv s' ∧ falls s s'.
Proof.
  intros Hinv [u op r' tr Hup E|a b v p rest r' tr Hp Hv Hq E|a p rest _ Hq].
  - destruct (update_step_inv s u op r' tr Hinv Hup E) as [Hi Hr]. split; [done|].
    intros w d e He. exists e. by rewrite Hr.
  - destruct (tp_ends Htop a b Hp) as (u & v' & Hu & _ & _).
    pose proof (receive_takes s a b v p rest r' tr Hinv Hp Hv Hq E) as Ht.
    split; [by eapply receive_step_inv|by eapply receive_falls].
  - split; [by eapply lose_step_inv|]. intros w d e He. by exists e.
Qed.

Lemma falls_trans s1 s2 s3 : falls s1 s2 → falls s2 s3 → falls s1 s3.
Proof.
  intros H12 H23 v d e He. destruct (H12 v d e He) as (e' & He' & Hle).
  destruct (H23 v d e' He') as (e'' & He'' & Hle'). exists e''. split; [done|lia].
Qed.

Lemma rip_steps_inv lossy s s' : rtc (rip_step lossy) s s' → rip_inv s → rip_inv s' ∧ falls s s'.
Proof.
  induction 1 as [s|s s1 s' Hstep _ IH]; intros Hinv; [split; [done|intros v d e He; by exists e]|].
  destruct (rip_step_inv lossy s s1 Hinv Hstep) as [Hinv1 Hf1].
  destruct (IH Hinv1) as [? Hf2]. split; [done|]. by eapply falls_trans.
Qed.

(** ** Distances *)

(** Routers at the two ends of a link. *)
Definition linked (u v : R) : Prop :=
  ∃ a b, peer !! a = Some b ∧ owner !! a = Some v ∧ owner !! b = Some u.

(** The address [d] is [n] links away from [u]. *)
Definition away (n : nat) (u : R) (d : Z) : Prop :=
  ∃ v, nsteps linked n u v ∧ owner !! d = Some v.

Definition shortest (n : nat) (u : R) (d : Z) : Prop :=
  away n u d ∧ ∀ m, away m u d → (n ≤ m)%nat.

(** The cost of a route is not less than the length of a path. *)
Lemma route_away s u d e :
  rip_inv s → Table (routers s u) !! d = Some e →
  ∃ n, away n u d ∧ Z.of_nat n ≤ Cost e.
Proof.
  intros Hinv. remember (Z.to_nat (Cost e)) as k eqn:Hk. revert u e Hk.
  induction (lt_wf k) as [k _ IH]. intros u e Hk He.
  destruct (r_routes s Hinv u d e He) as (_ & [(Hc & Ho & _)|(b & v & e' & Hp & Hb & Hv & He' & Hlt & _)]).
  - exists 0%nat. split; [exists u; split; [constructor|done]|lia].
  - destruct (IH (Z.to_nat (Cost e')) ltac:(lia) v e' eq_refl He') as (n & (w & Hn & Hw) & Hle).
    exists (S n). split; [|lia]. exists w. split; [|done]. apply nsteps_l with v; [|done].
    by exists (NextHop e), b.
Qed.

Lemma shortest_step n u d : shortest (S n) u d → ∃ v, linked u v ∧ shortest n v d.
Proof.
  intros [(w & Hn & Hw) Hmin]. inversion Hn as [|? ? v ? Huv Hvw]; subst. exists v. split; [done|].
  split; [by exists w|]. intros m (w' & Hm & Hw').
  assert (Hs : (S n ≤ S m)%nat); [|lia]. apply Hmin. exists w'. split; [|done]. by apply nsteps_l with v.
Qed.

(** ** Convergence *)

(** In the run from [s] to [s'] the router [u] sends a periodic update, and the other end of
    its interface [a] takes all its messages up to that one. *)
Definition exchanged (a : Z) (u : R) (s s' : rip_net R) : Prop :=
  ∃ m order r tr,
    rtc (rip_step false) s m ∧ order ≡ₚ map_to_list (Table (routers m u)) ∧
    SendUpdatesToNeighbors_tick order (routers m u) = (Ok tt, r, tr) ∧
    let m' := mkNet (<[u := r]> (routers m)) (enqueue u tr (queues m)) (taken m) in
    rtc (rip_step false) m' s' ∧ (taken m' a + length (queues m' a) ≤ taken s' a)%nat.

(** A round: every router exchanges a periodic update over each of its links. *)
Definition round (s s' : rip_net R) : Prop :=
  rtc (rip_step false) s s' ∧
  ∀ a b u, peer !! a = Some b → owner !! a = Some u → exchanged a u s s'.

(** The routes to what is at most [k] links away are found. *)
Definition found (k : nat) (s : rip_net R) : Prop :=
  ∀ n u d, shortest n u d → (n ≤ k)%nat → Z.of_nat n < INFINITY →
    ∃ e, Table (routers s u) !! d = Some e ∧ Cost e ≤ Z.of_nat n.

(** The message [p], the last of the queue, is on its way or has been taken. *)
Definition on_its_way (a : Z) (v : R) (d c : Z) (p : list byte) (last : nat) (s : rip_net R) : Prop :=
  if decide (last ≤ taken s a)%nat
  then ∃ e, Table (routers s v) !! d = Some e ∧ Cost e ≤ c + 1
  else queues s a !! (last - 1 - taken s a)%nat = Some p.

Lemma on_its_way_step a b v d c p last s s' :
  rip_inv s → peer !! a = Some b → owner !! b = Some v → offered p d c →
  on_its_way a v d c p last s → rip_step false s s' → on_its_way a v d c p last s'.
Proof.
  intros Hinv Hp Hv Hoff Hway Hstep.
  destruct (rip_step_inv false s s' Hinv Hstep) as [_ Hf]. unfold on_its_way in *.
  assert (Hdone : (last ≤ taken s a)%nat → ∃ e, Table (routers s' v) !! d = Some e ∧ Cost e ≤ c + 1).
  { intros Hl. rewrite decide_True in Hway by done. destruct Hway as (e & He & Hle).
    destruct (Hf v d e He) as (e' & He' & ?). exists e'. split; [done|lia]. }
  destruct Hstep as [u op r' tr Hup E|a1 b1 v1 p1 rest r' tr Hp1 Hv1 Hq E|a1 p1 rest Hl _]; [| |done];
    simpl in *.
  - case_decide as Hl; [by apply Hdone|]. unfold enqueue. case_decide; [|done].
    by apply lookup_app_l_Some.
  - destruct (decide (a1 = a)) as [->|Ha].
    2: { rewrite (fn_lookup_insert_ne (taken s)), (fn_lookup_insert_ne (queues s)) by done.
         destruct (decide (last ≤ taken s a)%nat) as [Hl|Hl]; [by apply Hdone|done]. }
    rewrite !fn_lookup_insert. assert (b1 = b) as -> by congruence. assert (v1 = v) as -> by congruence.
    destruct (decide (last ≤ taken s a)%nat) as [Hl|Hl].
    { rewrite decide_True by lia. by apply Hdone. }
    rewrite Hq in Hway. destruct (last - 1 - taken s a)%nat as [|i] eqn:Ei.
    + rewrite decide_True by lia. injection Hway as ->.
      pose proof (receive_takes s a b v p rest r' tr Hinv Hp Hv Hq E) as (_ & _ & Ho).
      destruct (Ho d c Hoff) as (_ & fresh & Hfr). eexists.
      rewrite fn_lookup_insert. split; [exact Hfr|apply bellman_ford_cost].
    + rewrite decide_False by lia. simpl in Hway. by replace (last - 1 - S (taken s a))%nat with i by lia.
Qed.

Lemma on_its_way_steps a b v d c p last s s' :
  peer !! a = Some b → owner !! b = Some v → offered p d c →
  rtc (rip_step false) s s' → rip_inv s →
  on_its_way a v d c p last s → on_its_way a v d c p last s'.
Proof.
  intros Hp Hv Hoff. induction 1 as [|s s1 s' Hstep _ IH]; intros Hinv Hway; [done|].
  apply IH; [by destruct (rip_step_inv false s s1 Hinv Hstep)|by eapply on_its_way_step].
Qed.

(** A round finds the routes that are one link longer. *)
Lemma round_found k s s' : rip_inv s → found k s → round s s' → found (S k) s'.
Proof.
  intros Hinv Hfound [Hrun Hround] n u d Hshort Hn Hi.
  destruct (rip_steps_inv false s s' Hrun Hinv) as [_ Hfall].
  destruct (decide (n ≤ k)%nat) as [Hle|Hgt].
  { destruct (Hfound n u d Hshort Hle Hi) as (e & He & Hc).
    destruct (Hfall u d e He) as (e' & He' & ?). exists e'. split; [done|lia]. }
  destruct n as [|n]; [lia|]. destruct (shortest_step n u d Hshort) as (v & (a & b & Hp & Hv & Hu) & Hs).
  destruct (Hround a b v Hp Hv) as (m & order & r & tr & R1 & Hord & E & R2 & Hlen).
  destruct (rip_steps_inv false s m R1 Hinv) as [Hinvm Hfm].
  destruct (Hfound n v d Hs) as (e0 & He0 & Hc0); [lia|lia|].
  destruct (Hfm v d e0 He0) as (e & He & Hc).
  destruct (tp_ends Htop a b Hp) as (v' & u' & _ & _ & _).
  assert (Hnb : b ∈ Neighbors (routers m v)) by (apply (r_neighbors m Hinvm); by exists a).
  destruct (periodic_offers (routers m v) order b Hord (inv_table_wf m v Hinvm)
    (inv_neighbors_u32 m v Hinvm) Hnb) as (tr' & E' & Hne & Hoff); [by eapply tp_u32|].
  rewrite E' in E. injection E as <- <-.
  assert (Hnext : NextHop e ≠ b).
  { intros Hb. destruct (via_nearer m b a u v d e Hinvm (tp_sym Htop a b Hp) Hu Hv He Hb) as (e' & He' & Hlt).
    destruct (route_away m u d e' Hinvm He') as (i & Hi' & Hle). apply (proj2 Hshort) in Hi'. lia. }
  destruct (exists_last Hne) as (ps & p & Hps).
  assert (Hoffp : offered p d (Cost e)).
  { apply Hoff; [rewrite Hps; set_solver|done|lia|done]. }
  set (m' := mkNet (<[v := routers m v]> (routers m)) (enqueue v tr' (queues m)) (taken m)) in *.
  assert (Hq : queues m' a = (queues m a ++ ps) ++ [p]).
  { simpl. unfold enqueue. rewrite decide_True, Hp, Hps by done. by rewrite (assoc_L (++)). }
  assert (Hinv' : rip_inv m').
  { apply (update_step_inv m v _ _ _ Hinvm (update_periodic _ order Hord) E'). }
  pose proof (on_its_way_steps a b u d (Cost e) p (taken m' a + length (queues m' a)) m' s'
    Hp Hu Hoffp R2 Hinv') as Hway. unfold on_its_way in Hway.
  rewrite (decide_True (P := (_ ≤ taken s' a)%nat)) in Hway by done.
  destruct Hway as (e' & He' & Hle').
  - rewrite Hq, length_app. simpl length. rewrite decide_False by lia.
    apply list_lookup_middle. simpl. lia.
  - exists e'. split; [done|lia].
Qed.

Lemma rounds_found k j s s' :
  nsteps round k s s' → rip_inv s → found j s → rip_inv s' ∧ found (j + k) s'.
Proof.
  intros Hr. revert j. induction Hr as [s|k s s1 s' Hround _ IH]; intros j Hinv Hf.
  - by rewrite Nat.add_0_r.
  - rewrite Nat.add_succ_r. apply (IH (S j)); [|by eapply round_found].
    by destruct (rip_steps_inv false s s1 (proj1 Hround) Hinv).
Qed.

Lemma found_own s : rip_inv s → found 0 s.
Proof.
  intros Hinv n u d [(v & Hn & Hv) _] Hle _. assert (n = 0%nat) as -> by lia.
  inversion Hn; subst. destruct (r_own _ Hinv d v Hv) as (e & He & Hc & _).
  exists e. split; [done|lia].
Qed.

(** ** The hosts *)

(** Hosts with these tables and links: the host of [v] reaches its neighbour [a] through its
    interface [b], at the UDP address and port of the neighbour's host. *)
Record carries (s : rip_net R) (host : R → node) : Prop := {
  c_routes : ∀ u, HostRoutes (nhost (host u)) = Table (routers s u);
  c_link : ∀ a b u v, peer !! a = Some b → owner !! a = Some u → owner !! b = Some v →
    ∃ lif, RemoteDestination (nhost (host v)) !! a = Some b ∧
      LocalIFs (nhost (host v)) !! b = Some lif ∧ Stopped lif = false ∧
      UDPAddr lif = Some (naddr (host u)) ∧ UDPDestPort lif = nport (host u);
  c_local : ∀ u d, (owner !! d = Some u →
      ∃ lif, LocalIFs (nhost (host u)) !! d = Some lif ∧ Stopped lif = false) ∧
    (owner !! d ≠ Some u → LocalIFs (nhost (host u)) !! d = None);
  c_tcp : ∀ u, HandlerRegistry (nhost (host u)) !! 6 = Some TcpHandler
}.

(** The hosts along a finite route. *)
Lemma route_path s host u d e :
  rip_inv s → carries s host → Table (routers s u) !! d = Some e → Cost e < INFINITY →
  owner !! d ≠ Some u →
  ∃ path v from', owner !! d = Some v ∧ zlen path < Cost e ∧
    routes_to (nhost (host u)) d (default (naddr (host v)) (naddr <$> head (host <$> path))) ∧
    good_path (host <$> path) (nport (host u)) d (naddr (host v)) from' ∧
    known_port (nhost (host v)) from'.
Proof.
  intros Hinv Hc. remember (Z.to_nat (Cost e)) as k eqn:Hk. revert u e Hk.
  induction (lt_wf k) as [k _ IH]. intros u e Hk He Hfin Hown.
  destruct (r_routes s Hinv u d e He)
    as (_ & [(_ & Ho & _)|(b & v & e' & Hp & Hb & Hv & He' & Hlt & _)]); [done|].
  destruct (c_link s host Hc _ b v u Hp Hv Hb) as (lif & Hr & Hl & Hs & Ha & _).
  destruct (c_link s host Hc _ _ u v (tp_sym Htop _ _ Hp) Hb Hv) as (lif' & _ & Hl' & _ & _ & Hport).
  assert (Hroute : routes_to (nhost (host u)) d (naddr (host v))).
  { exists e, b, lif. rewrite (c_routes s host Hc). split_and!; try done. lia. }
  assert (Hknown : known_port (nhost (host v)) (nport (host u))) by (by exists (NextHop e), lif').
  destruct (decide (owner !! d = Some v)) as [Hd|Hd].
  - exists [], v, (nport (host u)). split_and!; try done. rewrite zlen_nil. lia.
  - destruct (IH (Z.to_nat (Cost e')) ltac:(lia) v e' eq_refl He') as (path & w & from' & Hw & Hlen & Hr' & Hg & Hkn);
      [lia|done|].
    exists (v :: path), w, from'. rewrite zlen_cons. split_and!; try done; [lia|].
    split_and!; try done. by apply (c_local s host Hc).
Qed.
End network.

(** ** Properties *)

(** C4: The routes that RIP finds lead to their destinations.  Configured routers exchange
    initial, periodic and triggered updates in any order, over links that may lose messages.
    In every state that the network can reach, a host whose table has a route of finite cost
    to an address sends a message of TCP to the host that owns the address: the message
    crosses fewer hosts than the cost of the route, so it neither loops nor runs out of its
    time to live, and the TCP handler there gets the segment.  The topology is fixed, no timer
    of a route expires, and a router handles the messages of a link in order and one at a
    time (the code starts a goroutine per message). *)
Theorem rip_routes_deliver {N : Netstack} {I : IPv4} {NL : NetstackLaws N} {IL : IPv4Laws I}
    {R : Type} {ER : EqDecision R} (owner : gmap Z R) (peer : gmap Z Z) (lossy : bool)
    (s0 s : rip_net R) (host : R → node) (u : R) (sa d : Z) (e : RoutingTableEntry) hdr payload :
  topology owner peer → rip_start owner peer s0 → rtc (rip_step owner peer lossy) s0 s →
  carries owner peer s host →
  Table (routers s u) !! d = Some e → Cost e < INFINITY → owner !! d ≠ Some u →
  is_u32 sa → zlen payload ≤ MSS_DATA →
  let msg := ip_message sa d hdr payload in
  ∃ path v from' bytes bytes' q,
    owner !! d = Some v ∧ zlen path < Cost e ∧
    ReadFromHandler_tcp msg (nhost (host u)) = (Ok true, nhost (host u),
      [HDatagram (default (naddr (host v)) (naddr <$> head (host <$> path))) bytes]) ∧
    travels (host <$> path) (nport (host u)) bytes (naddr (host v)) from' bytes' ∧
    delivers (nhost (host v)) from' bytes' TcpHandler q ∧
    Src (Header q) = sa ∧ Dst (Header q) = d ∧ Data q = deliver msg.
Proof.
  intros Htop Hstart Hsteps Hc He Hfin Hown Hsa Hpay msg.
  destruct (rip_steps_inv owner peer Htop lossy s0 s Hsteps) as [Hinv _]; [by apply rip_start_inv|].
  destruct (route_path owner peer Htop s host u d e Hinv Hc He Hfin Hown)
    as (path & v & from' & Hv & Hlen & Hr & Hg & Hk).
  destruct (c_local owner peer s host Hc v d) as [Hloc _]. destruct (Hloc Hv) as (lif & Hl & Hs).
  destruct (tcp_message_carried sa d hdr payload (host u) (host v) (host <$> path) from' lif)
    as (bytes & bytes' & q & H1 & H2 & H3 & H4); try done.
  - by eapply tp_u32.
  - unfold zlen in *. rewrite length_fmap. unfold INFINITY in Hfin. lia.
  - apply (c_tcp owner peer s host Hc).
  - exists path, v, from', bytes, bytes', q. split_and!; done || apply H4.
Qed.

(** C6: RIP converges to the shortest paths.  When the updates are not lost, after [k] rounds
    (in each of which every router has sent a periodic update over each of its links and the
    other end has taken it, with any other updates in between) every router has, for every
    address that is at most [k] and less than 16 links away, a route whose cost is exactly the
    length of a shortest path; and at any time every route in a table has a path of links
    that is not longer than its cost.  The topology is fixed, no timer of a route expires, and
    a router handles the messages of a link in order and one at a time (the code starts a
    goroutine per message). *)
Theorem rip_converges {R : Type} {ER : EqDecision R} (owner : gmap Z R) (peer : gmap Z Z)
    (s0 s : rip_net R) (k : nat) :
  topology owner peer → rip_start owner peer s0 → nsteps (round owner peer) k s0 s →
  (∀ n u d, shortest owner peer n u d → (n ≤ k)%nat → Z.of_nat n < INFINITY →
     ∃ e, Table (routers s u) !! d = Some e ∧ Cost e = Z.of_nat n) ∧
  (∀ u d e, Table (routers s u) !! d = Some e →
     ∃ n, away owner peer n u d ∧ Z.of_nat n ≤ Cost e).
Proof.
  intros Htop Hstart Hrounds.
  apply (rip_start_inv owner peer Htop) in Hstart.
  destruct (rounds_found owner peer Htop k 0 s0 s Hrounds Hstart (found_own _ _ _ Hstart)) as [Hinv Hf].
  split; [|intros u d e He; by eapply route_away].
  intros n u d Hs Hn Hi. destruct (Hf n u d Hs Hn Hi) as (e & He & Hle). exists e. split; [done|].
  destruct (route_away owner peer s u d e Hinv He) as (m & Hm & Hle').
  apply (proj2 Hs) in Hm. lia.
Qed.

(** *** Three routers in a line: A (1) -- (2) B (3) -- (4) C *)

Inductive abc := A | B | C.

#[global] Instance abc_eq_dec : EqDecision abc.
Proof. solve_decision. Defined.

Definition line_owner : gmap Z abc := list_to_map [(1, A); (2, B); (3, B); (4, C)].
Definition line_peer : gmap Z Z := list_to_map [(1, 2); (2, 1); (3, 4); (4, 3)].
Definition line_ifs (u : abc) : list (Z * LinkInterface) :=
  match u with
  | A => [(1, demo_if 0 1 2 11)]
  | B => [(2, demo_if 0 2 1 10); (3, demo_if 1 3 4 12)]
  | C => [(4, demo_if 0 4 3 11)]
  end.

Lemma line_owner_inv (P : Z → abc → Prop) :
  P 1 A → P 2 B → P 3 B → P 4 C → ∀ a u, line_owner !! a = Some u → P a u.
Proof.
  intros ???? a u H. apply elem_of_list_to_map_2 in H.
  repeat (apply elem_of_cons in H as [[= -> ->]|H]; [done|]). by apply elem_of_nil in H.
Qed.

Lemma line_peer_inv (P : Z → Z → Prop) :
  P 1 2 → P 2 1 → P 3 4 → P 4 3 → ∀ a b, line_peer !! a = Some b → P a b.
Proof.
  intros ???? a u H. apply elem_of_list_to_map_2 in H.
  repeat (apply elem_of_cons in H as [[= -> ->]|H]; [done|]). by apply elem_of_nil in H.
Qed.

Lemma line_topology : topology line_owner line_peer.
Proof.
  split.
  - apply line_owner_inv; unfold is_u32; lia.
  - by vm_compute.
  - by apply line_peer_inv.
  - apply line_peer_inv; eexists _, _; by split_and!.
Qed.

Definition line_start : rip_net abc := mkNet
  (λ u, mkRipHandler (match u with A => [2] | B => [1; 4] | C => [3] end) ∅
          (InitRoutingTable (line_ifs u) 0).1 (length (line_ifs u)))
  (λ _, []) (λ _, 0%nat).

Lemma line_start_ok : rip_start line_owner line_peer line_start.
Proof.
  split_and!; [| |done].
  - intros u. exists (line_ifs u), 0%nat. split_and!; [destruct u; refine (bool_decide_unpack _ _); by vm_compute| |done].
    intros d. split.
    + destruct u; simpl; intros H; repeat (apply elem_of_cons in H as [->|H]; [done|]);
        by apply elem_of_nil in H.
    + revert d u. apply line_owner_inv; simpl; set_solver.
  - intros u n. split.
    + intros H. exists (default 0 (line_peer !! n)). revert H.
      destruct u; simpl; intros H; repeat (apply elem_of_cons in H as [->|H]; [done|]);
        by apply elem_of_nil in H.
    + intros (a & Ha & Hu). revert a n Ha Hu.
      apply (line_peer_inv (λ a n, line_owner !! a = Some u → n ∈ Neighbors (routers line_start u)));
        intros [= <-]; simpl; set_solver.
Qed.

(** A periodic update of [u], and a message of the interface [a] that [v] takes. *)
Definition line_send (u : abc) (s : rip_net abc) : rip_net abc :=
  let m := SendUpdatesToNeighbors_tick (map_to_list (Table (routers s u))) in
  mkNet (<[u := run_state m (routers s u)]> (routers s))
    (enqueue line_owner line_peer u (run_trace m (routers s u)) (queues s)) (taken s).
Definition line_take (a : Z) (v : abc) (s : rip_net abc) : rip_net abc :=
  let m := RipReceivePacket a (default [] (head (queues s a))) in
  mkNet (<[v := run_state m (routers s v)]> (routers s)) (<[a := tail (queues s a)]> (queues s))
    (<[a := S (taken s a)]> (taken s)).

Lemma line_send_run u (s : rip_net abc) :
  let m := SendUpdatesToNeighbors_tick (map_to_list (Table (routers s u))) in
  m (routers s u) = (Ok tt, run_state m (routers s u), run_trace m (routers s u)).
Proof.
  unfold SendUpdatesToNeighbors_tick, run_state, run_trace. go_unfold. by rewrite periodic_messages_trace.
Qed.

Lemma line_send_step u s : rip_step line_owner line_peer false s (line_send u s).
Proof. eapply rip_update; [by apply update_periodic|]. apply line_send_run. Qed.

Lemma line_take_step a b v (s : rip_net abc) :
  line_peer !! a = Some b → line_owner !! b = Some v → (0 <? zlen (queues s a)) = true →
  (match run_res (RipReceivePacket a (default [] (head (queues s a)))) (routers s v) with
   | Ok _ => true | _ => false end) = true →
  rip_step line_owner line_peer false s (line_take a v s).
Proof.
  intros Hp Hv Hq Hr. unfold line_take.
  destruct (queues s a) as [|p rest] eqn:E; [done|]. simpl in *. eapply rip_receive; [done..|].
  apply run_eq. by destruct (run_res (RipReceivePacket a p) (routers s v)) as [[]| |].
Qed.

(** C and then B send; B and then A take. *)
Definition line1 : rip_net abc := line_send C line_start.
Definition line2 : rip_net abc := line_take 4 B line1.
Definition line3 : rip_net abc := line_send B line2.
Definition line4 : rip_net abc := line_take 2 A line3.

Lemma line_run : rtc (rip_step line_owner line_peer false) line_start line4.
Proof.
  apply (rtc_l _ _ line1); [apply line_send_step|].
  apply (rtc_l _ _ line2); [by apply (line_take_step 4 3); vm_compute|].
  apply (rtc_l _ _ line3); [apply line_send_step|].
  apply rtc_once. by apply (line_take_step 2 1); vm_compute.
Qed.

Definition line_host (s : rip_net abc) (u : abc) : node :=
  mkNode (mkHost (list_to_map (line_ifs u))
      (list_to_map (match u with A => [(2, 1)] | B => [(1, 2); (4, 3)] | C => [(3, 4)] end))
      (Table (routers s u)) {[6 := TcpHandler; 200 := RIPHandler]} 0)
    (match u with A => 10 | B => 11 | C => 12 end)
    (match u with A => 5010 | B => 5011 | C => 5012 end).

Lemma line_carries s : carries line_owner line_peer s (line_host s).
Proof.
  split; [done| | |done].
  - intros a b u v Hp. revert a b Hp u v. apply (line_peer_inv (λ a b, ∀ u v,
      line_owner !! a = Some u → line_owner !! b = Some v → ∃ lif, _));
      intros u v [= <-] [= <-]; by eexists.
  - intros u d. split.
    + revert d u. apply line_owner_inv; by eexists.
    + intros Hd. destruct (LocalIFs (nhost (line_host s u)) !! d) as [lif|] eqn:E; [|done].
      exfalso. apply Hd. apply elem_of_list_to_map_2 in E. revert E.
      destruct u; simpl; intros E; repeat (apply elem_of_cons in E as [[= -> ->]|E]; [done|]);
        by apply elem_of_nil in E.
Qed.

Lemma rip_routes_deliver_witness :
  ∃ path v from' bytes bytes' q,
    let msg := ip_message 1 4 (CreateTCPHeader 1 4 1025 80 7 9 16 65535 [x61; x62]) [x61; x62] in
    line_owner !! 4 = Some v ∧ zlen path < 2 ∧
    ReadFromHandler_tcp msg (nhost (line_host line4 A)) = (Ok true, nhost (line_host line4 A),
      [HDatagram (default (naddr (line_host line4 v)) (naddr <$> head (line_host line4 <$> path))) bytes]) ∧
    travels (line_host line4 <$> path) 5010 bytes (naddr (line_host line4 v)) from' bytes' ∧
    delivers (nhost (line_host line4 v)) from' bytes' TcpHandler q ∧
    Src (Header q) = 1 ∧ Dst (Header q) = 4 ∧ Data q = deliver msg.
Proof.
  apply (rip_routes_deliver line_owner line_peer false line_start line4 (line_host line4) A 1 4
    (mkEntry 2 2 2) (CreateTCPHeader 1 4 1025 80 7 9 16 65535 [x61; x62]) [x61; x62]).
  - exact line_topology.
  - exact line_start_ok.
  - exact line_run.
  - apply line_carries.
  - by vm_compute.
  - by vm_compute.
  - by vm_compute.
  - unfold is_u32. lia.
  - by vm_compute.
Defined.

(** A round: all send, all take. *)
Definition round1 : rip_net abc := line_send A line_start.
Definition round2 : rip_net abc := line_send B round1.
Definition round3 : rip_net abc := line_send C round2.
Definition round4 : rip_net abc := line_take 1 B round3.
Definition round5 : rip_net abc := line_take 2 A round4.
Definition round6 : rip_net abc := line_take 3 C round5.
Definition round7 : rip_net abc := line_take 4 B round6.

Lemma line_takes : rtc (rip_step line_owner line_peer false) round3 round7.
Proof.
  apply (rtc_l _ _ round4); [by apply (line_take_step 1 2); vm_compute|].
  apply (rtc_l _ _ round5); [by apply (line_take_step 2 1); vm_compute|].
  apply (rtc_l _ _ round6); [by apply (line_take_step 3 4); vm_compute|].
  apply rtc_once. by apply (line_take_step 4 3); vm_compute.
Qed.

Lemma line_exchanged a u s :
  rtc (rip_step line_owner line_peer false) line_start s →
  rtc (rip_step line_owner line_peer false) (line_send u s) round7 →
  (taken (line_send u s) a + length (queues (line_send u s) a) ≤ taken round7 a)%nat →
  exchanged line_owner line_peer a u line_start round7.
Proof.
  intros R1 R2 Hle. exists s, (map_to_list (Table (routers s u))). eexists _, _.
  split_and!; [done|done|apply line_send_run|exact (conj R2 Hle)].
Qed.

Lemma line_round : round line_owner line_peer line_start round7.
Proof.
  assert (R1 : rtc (rip_step line_owner line_peer false) line_start round1)
    by (apply rtc_once, line_send_step).
  assert (R2 : rtc (rip_step line_owner line_peer false) line_start round2)
    by (apply (rtc_r _ round1); [done|apply line_send_step]).
  assert (T2 : rtc (rip_step line_owner line_peer false) round2 round7)
    by (apply (rtc_l _ _ round3); [apply line_send_step|apply line_takes]).
  assert (T1 : rtc (rip_step line_owner line_peer false) round1 round7)
    by (apply (rtc_l _ _ round2); [apply line_send_step|done]).
  split; [by etrans|]. intros a b u _ Hu. revert a u Hu. apply line_owner_inv.
  - apply (line_exchanged 1 A line_start); [apply rtc_refl|done|]. vm_compute. lia.
  - apply (line_exchanged 2 B round1); [done|done|]. vm_compute. lia.
  - apply (line_exchanged 3 B round1); [done|done|]. vm_compute. lia.
  - apply (line_exchanged 4 C round2); [done|apply line_takes|]. vm_compute. lia.
Qed.

Lemma rip_converges_witness :
  ∃ e, Table (routers round7 A) !! 3 = Some e ∧ Cost e = 1.
Proof.
  apply (rip_converges line_owner line_peer line_start round7 1) with (n := 1%nat).
  - exact line_topology.
  - exact line_start_ok.
  - apply nsteps_once. exact line_round.
  - split.
    + exists B. split; [|reflexivity]. apply nsteps_once. exists 2, 1. split_and!; reflexivity.
    + intros [|m] (v & Hm & Hv); [|lia]. inversion Hm; subst. discriminate Hv.
  - lia.
  - by vm_compute.
Defined.
