(* ===== verification/NodeSockets.v ===== *)
(** * The socket table of the node

    The table of [src/cmd/node/node_tcp_commands.go] as a table of descriptors: what
    [AddToTable] allocates, and what goes wrong with nil pointers and with slots that are
    freed late. *)

From S2P Require Import Prelude GoLang GoStrings Wire WireRef IpWire RoutingTable Host TcpData Congestion TcpHandler TcpApi Node.

(** ** Descriptors *)

(** The socket of a descriptor, [None] for one that is not open. *)
Definition open_socket (t : list (option Socket)) (i : nat) : option Socket := mjoin (t !! i).

(** The smallest number that is not a descriptor. *)
Definition lowest_free (t : list (option Socket)) (i : nat) : Prop :=
  open_socket t i = None ∧ ∀ j, (j < i)%nat → is_Some (open_socket t j).

Lemma first_free_Some t i :
  first_free t = Some i → lowest_free t i ∧ t !! i = Some None.
Proof.
  revert i. induction t as [|[s|] t IH]; intros i; simpl; [done| |].
  - destruct (first_free t) as [k|]; simpl; [|done]. intros [= <-].
    destruct (IH k eq_refl) as [[Hk Hlow] Hn]. split; [|done]. split; [done|].
    intros [|j] Hj; [by eexists|]. apply Hlow. lia.
  - intros [= <-]. split; [|done]. split; [done|]. intros j Hj. lia.
Qed.

Lemma first_free_None t :
  first_free t = None → lowest_free t (length t).
Proof.
  intros Hf. split; [unfold open_socket; by rewrite (proj2 (lookup_ge_None _ _))|].
  induction t as [|[s|] t IH]; simpl in *; [lia| |done].
  destruct (first_free t); [done|]. intros [|j] Hj; [by eexists|]. apply IH; [done|lia].
Qed.

Lemma lowest_free_unique t i j : lowest_free t i → lowest_free t j → i = j.
Proof.
  intros [Hi Hbi] [Hj Hbj]. destruct (Nat.lt_trichotomy i j) as [Hlt|[Heq|Hlt]]; [|done|].
  - destruct (Hbj i Hlt) as [s Hs]. congruence.
  - destruct (Hbi j Hlt) as [s Hs]. congruence.
Qed.

Lemma open_socket_insert t i o j :
  (i < length t)%nat → open_socket (<[i := o]> t) j = if decide (j = i) then o else open_socket t j.
Proof.
  intros Hi. unfold open_socket. case_decide as E.
  - subst. by rewrite list_lookup_insert_eq.
  - by rewrite list_lookup_insert_ne.
Qed.

Lemma open_socket_snoc t s j :
  open_socket (t ++ [Some s]) j = if decide (j = length t) then Some s else open_socket t j.
Proof.
  unfold open_socket. case_decide as E.
  - subst. by rewrite lookup_app_r, Nat.sub_diag by lia.
  - destruct (decide (j < length t)%nat) as [Hj|Hj]; [by rewrite lookup_app_l|].
    rewrite lookup_app_r by lia. rewrite (proj2 (lookup_ge_None t j)) by lia.
    destruct (j - length t)%nat as [|k] eqn:Ek; [lia|done].
Qed.

Lemma AddToTable_run s n :
  ∃ i n',
    AddToTable s n = (Ok (Z.of_nat i), n', []) ∧
    lowest_free (SocketIndexTable n) i ∧
    (∀ j, open_socket (SocketIndexTable n') j
          = if decide (j = i) then Some s else open_socket (SocketIndexTable n) j) ∧
    n' = set_SocketIndexTable (SocketIndexTable n') n.
Proof.
  unfold AddToTable. go_unfold. destruct (first_free (SocketIndexTable n)) as [i|] eqn:E.
  - apply first_free_Some in E as [Hlow Hi].
    eexists i, _. split; [reflexivity|]. split; [done|]. split; [|done]. simpl.
    intros j. apply open_socket_insert. by eapply lookup_lt_Some.
  - apply first_free_None in E as Hlow.
    eexists (length (SocketIndexTable n)), _. split; [reflexivity|]. split; [done|].
    split; [|done]. intros j. apply open_socket_snoc.
Qed.

Lemma open_socket_bound t i s : open_socket t i = Some s → (i < length t)%nat.
Proof.
  unfold open_socket. destruct (t !! i) eqn:E; [|done]. intros _. by eapply lookup_lt_Some.
Qed.

Lemma zlookup_nat {A} (l : list A) (i : nat) : zlookup l (Z.of_nat i) = l !! i.
Proof. unfold zlookup. rewrite Nat2Z.id. bool_hyps; [done|lia]. Qed.

Lemma clear_slot_run i n :
  (i < length (SocketIndexTable n))%nat →
  ∃ n', clear_slot (Z.of_nat i) n = (Ok tt, n', []) ∧
    (∀ j, open_socket (SocketIndexTable n') j
          = if decide (j = i) then None else open_socket (SocketIndexTable n) j) ∧
    n' = set_SocketIndexTable (SocketIndexTable n') n ∧
    length (SocketIndexTable n') = length (SocketIndexTable n).
Proof.
  intros Hi. destruct (lookup_lt_is_Some_2 _ _ Hi) as [o Ho].
  unfold clear_slot. go_unfold. rewrite zlookup_nat, Ho, Nat2Z.id.
  eexists. split; [reflexivity|]. simpl. split; [|split; [done|by rewrite length_insert]].
  intros j. by apply open_socket_insert.
Qed.

(** C33: The socket table allocates descriptors like a table of files: [AddToTable] returns
    the smallest number that is not open and opens it, every other descriptor stays as it
    is, the descriptor then names the socket, and clearing it gives the descriptors of
    before back. *)
Theorem AddToTable_lowest_descriptor s n :
  ∃ i n1 n2,
    AddToTable s n = (Ok (Z.of_nat i), n1, []) ∧
    lowest_free (SocketIndexTable n) i ∧
    slot (Z.of_nat i) n1 = (Ok (Some s), n1, []) ∧
    (∀ j, j ≠ i → open_socket (SocketIndexTable n1) j = open_socket (SocketIndexTable n) j) ∧
    clear_slot (Z.of_nat i) n1 = (Ok tt, n2, []) ∧
    (∀ j, open_socket (SocketIndexTable n2) j = open_socket (SocketIndexTable n) j).
Proof.
  destruct (AddToTable_run s n) as (i & n1 & Hadd & Hlow & Hopen & _).
  assert (Hi : open_socket (SocketIndexTable n1) i = Some s) by (by rewrite Hopen, decide_True).
  destruct (clear_slot_run i n1) as (n2 & Hclr & Hopen2 & _).
  { by eapply open_socket_bound. }
  exists i, n1, n2. split_and!; try done.
  - unfold slot. go_unfold. rewrite zlookup_nat. unfold open_socket in Hi.
    destruct (SocketIndexTable n1 !! i) as [o|]; [|done]. simpl in Hi. by subst.
  - intros j Hj. by rewrite Hopen, decide_False.
  - intros j. rewrite Hopen2, Hopen. case_decide; [|done]. subst. symmetry. apply Hlow.
Qed.

(** ** Nil pointers *)

Lemma GetSocketTableKey_run s n :
  (∃ key, GetSocketTableKey s n = (Ok key, n, [])) ∨ GetSocketTableKey s n = (Panic, n, []).
Proof.
  destruct s as [[q|]|[q|]]; unfold GetSocketTableKey, conn_of, listener_of; do 2 go_unfold;
    simpl; try (by right); [destruct (Conns n !! q)|destruct (Lsts n !! q)];
    simpl; (by left; eexists) || by right.
Qed.

(** A nil pointer in the table stops the listing. *)
Lemma list_sockets_nil t i n :
  Some (SListener None) ∈ t → run_res (list_sockets i t) n = Panic.
Proof.
  revert i. induction t as [|o t IH]; intros i Hin; [by apply elem_of_nil in Hin|].
  apply elem_of_cons in Hin as [<-|Hin]; [done|].
  destruct o as [s|]; cbn [list_sockets]; [|by apply IH]. unfold run_res in *.
  destruct (GetSocketTableKey_run s n) as [[key Hkey]|Hkey];
    [|unfold mbind, go_bind; by rewrite Hkey].
  rewrite (go_bind_ok _ _ _ _ _ _ Hkey), (go_bind_ok get _ n n n []) by done.
  specialize (IH (i + 1) Hin). simpl. destruct (SocketTable (NTCP n) !! key) as [l|].
  - destruct (TCBs (NTCP n) !! l); [|done]. go_unfold. simpl.
    by destruct (list_sockets (i + 1) t n) as [[[] ?] ?].
  - go_unfold. by destruct (list_sockets (i + 1) t n) as [[[] ?] ?].
Qed.

(** An error of the command [a] breaks the command [ls]: when the port is not allowed or
    in use, [AcceptCommand] returns the error with a nil listener in the socket table, and
    the next listing of the sockets is a nil pointer dereference that ends the node. *)
Theorem failed_accept_breaks_listing port err n n' tr :
  AcceptCommand port n = (Ok (Some err), n', tr) → run_res ListSocketCommand n' = Panic.
Proof.
  intros Hacc.
  assert (Hnil : Some (SListener None) ∈ SocketIndexTable n').
  { unfold AcceptCommand in Hacc. unfold mbind at 1, go_bind at 1 in Hacc.
    destruct (VListen port n) as [[[[vl|e]| |] n1] tr1]; [|..|done|done].
    - destruct (AddToTable_run (SListener (Some (NextObj n1))) (run_state (new_listener vl) n1))
        as (i & n2 & Hadd & _).
      rewrite (go_bind_ok (new_listener vl) _ n1 (NextObj n1)
        (run_state (new_listener vl) n1) []) in Hacc by done.
      rewrite (go_bind_ok _ _ _ _ _ _ Hadd) in Hacc. done.
    - destruct (AddToTable_run (SListener None) n1) as (i & n2 & Hadd & _ & Hopen & _).
      rewrite (go_bind_ok _ _ _ _ _ _ Hadd) in Hacc. simpl in Hacc. injection Hacc as _ <- _.
      specialize (Hopen i). rewrite decide_True in Hopen by done. unfold open_socket in Hopen.
      destruct (SocketIndexTable n2 !! i) as [o|] eqn:E; [|done]. simpl in Hopen. subst o.
      by eapply list_elem_of_lookup_2. }
  unfold ListSocketCommand. unfold run_res.
  rewrite (go_bind_ok (emit _) _ n' tt n' [_]), (go_bind_ok get _ n' n' n' []) by done.
  pose proof (list_sockets_nil (SocketIndexTable n') 0 n' Hnil) as Hp. unfold run_res in Hp.
  unfold mbind, go_bind. by destruct (list_sockets 0 (SocketIndexTable n') n') as [[[] ?] ?].
Qed.

(** A node without sockets. *)
Definition demo_node : Node :=
  mkNodeState (mkHost ∅ ∅ ∅ ∅ 0) (mkTCPHandler ∅ ∅ 0 167772161 1025 []) ∅ ∅ 0 [].

Lemma failed_accept_breaks_listing_witness :
  ∃ n' tr, AcceptCommand 80 demo_node = (Ok (Some (Err "Invalid port number")), n', tr) ∧
    run_res ListSocketCommand n' = Panic.
Proof.
  eexists _, _. split; [reflexivity|].
  eapply (failed_accept_breaks_listing 80 (Err "Invalid port number") demo_node). reflexivity.
Defined.

(** ** Slots that are freed late *)

(** A socket that the listing can look at, and one whose connection is gone. *)
Definition listable (n : Node) (s : Socket) : Prop :=
  ∃ key, GetSocketTableKey s n = (Ok key, n, []) ∧
    ∀ l, SocketTable (NTCP n) !! key = Some l → is_Some (TCBs (NTCP n) !! l).

Definition gone (n : Node) (s : Socket) : Prop :=
  ∃ key, GetSocketTableKey s n = (Ok key, n, []) ∧ SocketTable (NTCP n) !! key = None.

Lemma list_sockets_run t i n :
  (∀ j s, t !! j = Some (Some s) → listable n s) →
  ∃ idx tr, list_sockets i t n = (Ok idx, n, tr) ∧
    ∀ z, z ∈ idx ↔ ∃ j s, z = i + Z.of_nat j ∧ t !! j = Some (Some s) ∧ gone n s.
Proof.
  revert i. induction t as [|o t IH]; intros i Hok.
  { exists [], []. split; [done|]. intros z. rewrite elem_of_nil. split; [done|].
    intros (j & s & _ & Hj & _). by rewrite lookup_nil in Hj. }
  destruct (IH (i + 1)) as (idx & tr & Hrun & Hidx); [intros j s Hj; by apply (Hok (S j))|].
  assert (Hshift : ∀ (Q : nat → Prop) z,
    (∃ j s, z = i + Z.of_nat j ∧ (o :: t) !! j = Some (Some s) ∧ gone n s) ↔
    (z = i ∧ (∃ s, o = Some s ∧ gone n s)) ∨ z ∈ idx).
  { intros _ z. rewrite Hidx. split.
    - intros ([|j] & s & -> & Hj & Hg).
      + left. split; [lia|]. simpl in Hj. injection Hj as ->. by exists s.
      + right. exists j, s. split_and!; try done. lia.
    - intros [[-> (s & -> & Hg)]|(j & s & -> & Hj & Hg)].
      + exists 0%nat, s. split_and!; try done. lia.
      + exists (S j), s. split_and!; try done. lia. }
  destruct o as [s|]; cbn [list_sockets].
  2: { exists idx, tr. split; [done|]. intros z. rewrite (Hshift (λ _, True)). naive_solver. }
  destruct (Hok 0%nat s eq_refl) as (key & Hkey & Htcb).
  rewrite (go_bind_ok _ _ _ _ _ _ Hkey), (go_bind_ok get _ n n n []) by done.
  destruct (SocketTable (NTCP n) !! key) as [l|] eqn:El.
  - destruct (Htcb l eq_refl) as [tcb Ht]. rewrite Ht. do 2 go_unfold. simpl. rewrite Hrun.
    exists idx; eexists. split; [reflexivity|]. intros z. rewrite (Hshift (λ _, True)).
    split; [by right|]. intros [[_ (s' & [= <-] & key' & Hkey' & Hnone)]|]; [|done].
    rewrite Hkey in Hkey'. injection Hkey' as <-. congruence.
  - go_unfold. rewrite Hrun. exists (i :: idx); eexists. split; [reflexivity|].
    intros z. rewrite elem_of_cons, (Hshift (λ _, True)).
    assert (Hs : ∃ s', Some s = Some s' ∧ gone n s') by (exists s; split; [done|by exists key]).
    split; [intros [Hz|Hz]; [by left|by right]|intros [[Hz _]|Hz]; [by left|by right]].
Qed.

Lemma clear_slots_run idx n :
  (∀ z, z ∈ idx → ∃ j, z = Z.of_nat j ∧ (j < length (SocketIndexTable n))%nat) →
  ∃ n', clear_slots idx n = (Ok tt, n', []) ∧
    (∀ j, open_socket (SocketIndexTable n') j
          = if decide (Z.of_nat j ∈ idx) then None else open_socket (SocketIndexTable n) j) ∧
    n' = set_SocketIndexTable (SocketIndexTable n') n.
Proof.
  revert n. induction idx as [|z idx IH]; intros n Hin.
  { exists n. split; [done|]. split; [done|]. by destruct n. }
  destruct (Hin z) as (i & -> & Hi); [by left|].
  destruct (clear_slot_run i n Hi) as (n1 & Hclr & Hopen & Hn1 & Hlen).
  destruct (IH n1) as (n' & Hrun & Hopen' & Hn').
  { intros z Hz. rewrite Hlen. apply Hin. by right. }
  exists n'. split; [|split].
  - cbn [clear_slots]. rewrite (go_bind_ok _ _ _ _ _ _ Hclr). by rewrite Hrun.
  - intros j. rewrite Hopen', Hopen. case_decide as H1; [by rewrite decide_True by (by right)|].
    case_decide as H2; [by subst; rewrite decide_True by (by left)|].
    rewrite decide_False; [done|]. rewrite elem_of_cons. intros [?|?]; [lia|done].
  - rewrite Hn', Hn1. by destruct n.
Qed.

(** The listing frees exactly the slots of the connections that are gone. *)
Lemma ListSocketCommand_run n :
  (∀ j s, SocketIndexTable n !! j = Some (Some s) → listable n s) →
  ∃ n' tr, ListSocketCommand n = (Ok tt, n', tr) ∧
    n' = set_SocketIndexTable (SocketIndexTable n') n ∧
    ∀ j, (∀ s, open_socket (SocketIndexTable n) j = Some s → gone n s →
            open_socket (SocketIndexTable n') j = None) ∧
         (∀ s, open_socket (SocketIndexTable n) j = Some s → ¬ gone n s →
            open_socket (SocketIndexTable n') j = Some s) ∧
         (open_socket (SocketIndexTable n) j = None →
            open_socket (SocketIndexTable n') j = None).
Proof.
  intros Hok. destruct (list_sockets_run _ 0 n Hok) as (idx & tr & Hrun & Hidx).
  destruct (clear_slots_run idx n) as (n' & Hclr & Hopen & Hn').
  { intros z (j & s & -> & Hj & _)%Hidx. exists j. split; [lia|]. by eapply lookup_lt_Some. }
  exists n'; eexists. split; [|split; [done|]].
  { unfold ListSocketCommand.
    rewrite (go_bind_ok (emit _) _ n tt n [_]), (go_bind_ok get _ n n n []) by done.
    rewrite (go_bind_ok _ _ _ _ _ _ Hrun), Hclr. reflexivity. }
  assert (Hmem : ∀ j s, open_socket (SocketIndexTable n) j = Some s →
    (Z.of_nat j ∈ idx ↔ gone n s)).
  { intros j s Hj. unfold open_socket in Hj.
    destruct (SocketIndexTable n !! j) as [o|] eqn:E; [|done]. simpl in Hj. subst o.
    rewrite Hidx. split.
    - intros (j' & s' & Hz & Hj' & Hg). assert (j' = j) as -> by lia. congruence.
    - intros Hg. by exists j, s. }
  intros j. rewrite Hopen. split_and!.
  - intros s Hj Hg. rewrite decide_True; [done|]. by eapply Hmem.
  - intros s Hj Hg. rewrite decide_False; [done|]. by rewrite (Hmem j s).
  - intros Hj. by case_decide.
Qed.

(** C40: A descriptor can be lost to a close that ended before.  The goroutine of [cl] frees
    the slot of a connection some time after the connection is closed.  When a listing finds
    the closed connection first, it frees the slot, the next connection is given the same
    descriptor, and the late [HandleDeletion] frees it again: the new connection is no
    longer in the table. *)
Theorem late_deletion_loses_descriptor vc new i p n :
  SocketIndexTable n !! i = Some (Some (SConn (Some p))) → Conns n !! p = Some vc →
  SocketTable (NTCP n) !! SocketTableKey vc = None →
  lowest_free (<[i := None]> (SocketIndexTable n)) i →
  (∀ j s, SocketIndexTable n !! j = Some (Some s) → j ≠ i → ∃ key l tcb,
     GetSocketTableKey s n = (Ok key, n, []) ∧ SocketTable (NTCP n) !! key = Some l ∧
     TCBs (NTCP n) !! l = Some tcb) →
  ∃ n1 tr n2 n3,
    ListSocketCommand n = (Ok tt, n1, tr) ∧
    ConnectCommand_return new n1 = (Ok (Z.of_nat i), n2, []) ∧
    HandleDeletion (Z.of_nat i) n2 = (Ok tt, n3, []) ∧
    open_socket (SocketIndexTable n2) i = Some (SConn (Some (NextObj n1))) ∧
    open_socket (SocketIndexTable n3) i = None ∧
    Conns n3 !! NextObj n1 = Some new.
Proof.
  intros Hi Hvc Hnone [Hfree Hbelow] Hlive.
  assert (Hgone : gone n (SConn (Some p))).
  { exists (SocketTableKey vc). split; [|done]. unfold GetSocketTableKey, conn_of. do 2 go_unfold.
    by rewrite Hvc. }
  destruct (ListSocketCommand_run n) as (n1 & tr & Hls & Hn1 & Hopen).
  { intros j s Hj. destruct (decide (j = i)) as [->|Hne].
    - rewrite Hi in Hj. injection Hj as <-. destruct Hgone as (key & Hkey & Hn).
      exists key. split; [done|]. congruence.
    - destruct (Hlive j s Hj Hne) as (key & l & tcb & Hkey & Hl & Ht).
      exists key. split; [done|]. intros l' Hl'. rewrite Hl in Hl'. injection Hl' as <-. by exists tcb. }
  set (n1' := run_state (new_conn new) n1).
  destruct (AddToTable_run (SConn (Some (NextObj n1))) n1') as (k & n2 & Hadd & Hk & Hopen2 & Hn2).
  assert (k = i) as ->.
  { apply (lowest_free_unique (SocketIndexTable n1)); [done|]. split.
    - apply (proj1 (Hopen i) (SConn (Some p))); [|done]. unfold open_socket. by rewrite Hi.
    - intros j Hj. destruct (Hbelow j Hj) as [s Hs].
      rewrite open_socket_insert, decide_False in Hs
        by (first [by eapply lookup_lt_Some | lia]).
      exists s. apply (proj1 (proj2 (Hopen j)) s Hs). intros (key & Hkey & Hg).
      unfold open_socket in Hs. destruct (SocketIndexTable n !! j) as [o|] eqn:E; [|done].
      simpl in Hs. subst o. destruct (Hlive j s E) as (key' & l & tcb & Hkey' & Hl & _); [lia|].
      rewrite Hkey in Hkey'. injection Hkey' as <-. congruence. }
  assert (Hi2 : open_socket (SocketIndexTable n2) i = Some (SConn (Some (NextObj n1))))
    by (by rewrite Hopen2, decide_True).
  destruct (clear_slot_run i n2) as (n3 & Hclr & Hopen3 & Hn3 & _); [by eapply open_socket_bound|].
  exists n1, tr, n2, n3. split_and!; try done.
  - unfold ConnectCommand_return.
    by rewrite (go_bind_ok (new_conn new) _ n1 (NextObj n1) n1' []), Hadd by done.
  - by rewrite Hopen3, decide_True.
  - rewrite Hn3, Hn2. simpl. by rewrite lookup_insert_eq.
Qed.

(** A connection in slot 0 whose entry in the TCP stack is gone. *)
Definition demo_closed : Node :=
  mkNodeState (NHost demo_node) (NTCP demo_node)
    {[ 0%nat := mkVTCPConn (mkSocketData 1 1024 2 80) true true ]} ∅ 1 [Some (SConn (Some 0%nat))].

Lemma late_deletion_loses_descriptor_witness :
  ∃ n1 tr n2 n3,
    ListSocketCommand demo_closed = (Ok tt, n1, tr) ∧
    ConnectCommand_return (mkVTCPConn (mkSocketData 1 1025 2 80) false false) n1 = (Ok 0, n2, []) ∧
    HandleDeletion 0 n2 = (Ok tt, n3, []) ∧
    open_socket (SocketIndexTable n2) 0 = Some (SConn (Some (NextObj n1))) ∧
    open_socket (SocketIndexTable n3) 0 = None ∧
    Conns n3 !! NextObj n1 = Some (mkVTCPConn (mkSocketData 1 1025 2 80) false false).
Proof.
  apply (late_deletion_loses_descriptor (mkVTCPConn (mkSocketData 1 1024 2 80) true true)
    (mkVTCPConn (mkSocketData 1 1025 2 80) false false) 0%nat 0%nat demo_closed).
  - reflexivity.
  - reflexivity.
  - reflexivity.
  - split; [reflexivity|]. intros j Hj. lia.
  - intros [|j] s Hj Hne; [done|]. simpl in Hj. discriminate Hj.
Defined.
