(* ===== verification/NodeWf.v ===== *)
(** * Well-formed nodes

    The type of a node: every descriptor is a connection or a listener that exists, and TCP
    has no dangling pointer and no send buffer out of shape.  The commands on sockets and the
    commands on the host keep it and do not panic; the goroutines keep it. *)

From S2P Require Import Prelude GoLang GoStrings Wire WireRef Ring IpWire RoutingTable Host Icmp TcpData EarlyArrivals Congestion Rto Retransmit TcpReceive TcpHandler TcpApi TcpStream TcpStates Node NodeInit NodeSockets.

(** ** TCP *)

(** A TCB that is not a listener's has its send buffer. *)
Definition tcb_ok (t : TCB) : Prop :=
  State t ≠ LISTEN → zlen (SND_Buffer (SND t)) = MAX_BUF_SIZE.

Definition handler_ok (h : TCPHandler) : Prop :=
  handler_wf h ∧ ∀ l t, TCBs h !! l = Some t → tcb_ok t.

(** A step of TCP that keeps this and the sockets of the table. *)
Definition tcp_keeps (h h' : TCPHandler) : Prop :=
  handler_ok h' ∧ ∀ k, is_Some (SocketTable h !! k) → is_Some (SocketTable h' !! k).

Lemma tcp_keeps_refl h : handler_ok h → tcp_keeps h h.
Proof. by split. Qed.

Lemma handler_ok_tcb h l t t' :
  handler_ok h → TCBs h !! l = Some t → tcb_ok t' → tcp_keeps h (set_TCBs (<[l := t']> (TCBs h)) h).
Proof.
  intros [[Hlt Hwf] Hok] Hl Ht. split; [|done]. split; [split|]; simpl.
  - intros l' t0 [[-> _]|[_ ?]]%lookup_insert_Some; eauto.
  - intros k l' ?%Hwf. by apply lookup_insert_is_Some'; right.
  - intros l' t0 [[_ <-]|[_ ?]]%lookup_insert_Some; eauto.
Qed.

(** A new socket. *)
Lemma handler_ok_new h k t :
  handler_ok h → tcb_ok t →
  tcp_keeps h (mkTCPHandler (<[k := NextTCB h]> (SocketTable h)) (<[NextTCB h := t]> (TCBs h))
    (S (NextTCB h)) (HLocalAddr h) (CurrentPort h) (Listeners h)).
Proof.
  intros [[Hlt Hwf] Hok] Ht. split; [split; [split|]|]; simpl.
  - intros l t0 [[<- _]|[_ Hl]]%lookup_insert_Some; [lia|]. apply Hlt in Hl. lia.
  - intros k' l [[_ <-]|[_ ?%Hwf]]%lookup_insert_Some;
      apply lookup_insert_is_Some'; [by left|by right].
  - intros l t0 [[_ <-]|[_ ?]]%lookup_insert_Some; eauto.
  - intros k' ?. by apply lookup_insert_is_Some'; right.
Qed.

(** The fields that [handler_ok] does not look at. *)
Lemma tcp_keeps_ports h h' p ls :
  tcp_keeps h h' →
  tcp_keeps h (mkTCPHandler (SocketTable h') (TCBs h') (NextTCB h') (HLocalAddr h') p ls).
Proof. by intros [[[] ] ]. Qed.

Section tcp.
Context {N : Netstack} (B : Prop).

Lemma wp_on_tcb {A} l (m : TM A) t (Q : A → TCPHandler → Prop) h :
  TCBs h !! l = Some t →
  wp B m (λ a t', Q a (set_TCBs (<[l := t']> (TCBs h)) h)) t → wp B (on_tcb l m) Q h.
Proof. unfold wp, on_tcb. intros ->. by destruct (m t) as [[[]]]. Qed.

(** A body that keeps the shape of the TCB. *)
Lemma wp_on_tcb_keeps {A} l (m : TM A) h k :
  handler_ok h → SocketTable h !! k = Some l →
  (∀ t, tcb_ok t → wp B m (λ _, tcb_ok) t) → wp B (on_tcb l m) (λ _, tcp_keeps h) h.
Proof.
  intros Hok Hk Hm. destruct (proj2 (proj1 Hok) _ _ Hk) as [t Ht].
  eapply wp_on_tcb; [done|]. eapply wp_mono; [by eapply Hm, Hok|].
  intros a t' Ht'. by eapply handler_ok_tcb.
Qed.

Lemma Listen_wp port h :
  handler_ok h →
  wp B (Listen port) (λ r h', tcp_keeps h h' ∧
    match r with
    | inl vl => SocketTable h !! ListenerKey vl = None ∧ is_Some (SocketTable h' !! ListenerKey vl)
    | inr _ => port ≤ 1024 ∨ is_Some (SocketTable h !! mkSocketData (HLocalAddr h) port 0 0)
    end) h.
Proof.
  intros Hok. unfold Listen. destruct (Z.leb_spec port 1024).
  { wp_steps. split; [by apply tcp_keeps_refl|by left]. }
  wp_steps. destruct (SocketTable h !! _) as [l|] eqn:Ek.
  - wp_steps. split; [|by right]. apply tcp_keeps_ports. by apply tcp_keeps_refl.
  - wp_steps. unfold new_tcb. eapply wp_run; [done|]. wp_steps. unfold store_socket. wp_steps. split.
    + simpl. apply (tcp_keeps_ports h (mkTCPHandler _ _ (S (NextTCB h)) (HLocalAddr h) (CurrentPort h) (Listeners h))).
      apply handler_ok_new; [done|by intros []].
    + simpl. by rewrite lookup_insert_eq.
Qed.

Lemma Connect_wp dest port iss h :
  handler_ok h → wp B (Connect dest port iss) (λ _, tcp_keeps h) h.
Proof.
  intros Hok. unfold Connect. wp_steps. destruct (SocketTable h !! _) eqn:Ek; wp_steps.
  - apply tcp_keeps_ports. by apply tcp_keeps_refl.
  - unfold new_tcb. eapply wp_run; [done|]. unfold store_socket. wp_steps.
    eapply wp_on_tcb; [apply lookup_insert_eq|]. wp_steps. unfold set_TCBs. simpl.
    rewrite insert_insert_eq.
    apply (tcp_keeps_ports h (mkTCPHandler _ _ (S (NextTCB h)) (HLocalAddr h) (CurrentPort h) (Listeners h))).
    apply handler_ok_new; [done|]. intros _. by apply zlen_make_bytes.
Qed.

(** A write of at most the size of the buffer, whatever the pointers are. *)
Lemma Write_turn_wp data t :
  zlen data ≤ MAX_BUF_SIZE → tcb_ok t → wp B (Write_turn data 0) (λ _, tcb_ok) t.
Proof.
  intros Hlen Hok. unfold Write_turn. destruct (0 <? u32 (zlen data)); [|by wp_steps].
  wp_steps. destruct (negb _ && negb _) eqn:Est; [by wp_steps|].
  destruct (write_full t); [by wp_steps|].
  assert (Hst : State t ≠ LISTEN).
  { apply andb_false_iff in Est. rewrite !negb_false_iff, !bool_decide_eq_true in Est.
    by destruct Est as [->| ->]. }
  pose proof (Hok Hst) as Hbuf. unfold Write_copy. wp_steps. pose proof (zlen_nonneg data).
  set (room := MAX_BUF_SIZE ⊟ _). assert (Hroom : 0 ≤ room) by apply u32_range.
  unfold MAX_BUF_SIZE in *. rewrite Z.sub_0_r, !(u32_small (zlen data)), Min_spec by lia.
  destruct (write_segment_put (SND_Buffer (SND t)) data (SND_LBW (SND t)) 0 (Z.min room (zlen data)))
    as (buf & E & Hput); try done; try (unfold MAX_BUF_SIZE; lia).
  eapply wp_try; [done|]. wp_steps. intros _. simpl. by destruct Hput.
Qed.

Lemma Write_wp vc data h :
  handler_ok h → zlen data ≤ MAX_BUF_SIZE → wp B (Write vc data) (λ _, tcp_keeps h) h.
Proof.
  intros Hok Hlen. unfold Write. destruct (WriteCancelled vc); [wp_steps; by apply tcp_keeps_refl|].
  wp_steps. destruct (SocketTable h !! _) as [l|] eqn:Ek; [|wp_steps; by apply tcp_keeps_refl].
  destruct (proj2 (proj1 Hok) _ _ Ek) as [t Ht]. wp_steps. eapply wp_on_tcb; [done|]. wp_steps.
  rewrite set_TCBs_same by done. destruct (TimeoutCancelled t).
  - wp_steps. by apply tcp_keeps_refl.
  - eapply wp_on_tcb_keeps; [done..|]. intros. by apply Write_turn_wp.
Qed.

Lemma Read_wp vc amount all h :
  handler_ok h → wp B (Read vc amount all) (λ _, tcp_keeps h) h.
Proof.
  intros Hok. unfold Read. destruct (ReadCancelled vc); [wp_steps; by apply tcp_keeps_refl|].
  wp_steps. destruct (SocketTable h !! _) as [l|] eqn:Ek; [|wp_steps; by apply tcp_keeps_refl].
  eapply wp_on_tcb_keeps; [done..|]. intros t Ht. unfold Read_enter, Read_head, Read_size. wp_steps.
  repeat match goal with |- wp _ (if ?b then _ else _) _ _ => destruct b; wp_steps end; done.
Qed.

Lemma SetCCForSocket_wp vc h :
  handler_ok h → wp B (SetCCForSocket vc) (λ _, tcp_keeps h) h.
Proof.
  intros Hok. unfold SetCCForSocket. wp_steps.
  destruct (SocketTable h !! _) as [l|] eqn:Ek; [|wp_steps; by apply tcp_keeps_refl].
  wp_steps. eapply wp_mono; [eapply wp_on_tcb_keeps; [done..|]|by intros; wp_steps].
  intros t Ht. unfold SetCC. by wp_steps.
Qed.

Lemma CloseListener_wp vl h :
  handler_ok h → is_Some (SocketTable h !! ListenerKey vl) →
  wp B (CloseListener vl) (λ vl' h', handler_ok h' ∧ ListenerKey vl' = ListenerKey vl ∧
    SocketTable h' = delete (ListenerKey vl) (SocketTable h)) h.
Proof.
  intros Hok [l Hl]. destruct (proj2 (proj1 Hok) _ _ Hl) as [t Ht]. unfold CloseListener.
  wp_steps. eapply wp_try; [done|]. wp_steps. eapply wp_on_tcb; [done|]. wp_steps.
  unfold delete_socket. wp_steps. rewrite set_TCBs_same by done. split; [|done].
  destruct Hok as [[Hlt Hwf] Hok]. split; [split|]; simpl; try done.
  intros k l' [_ ?]%lookup_delete_Some. eauto.
Qed.
End tcp.

(** ** Packets *)

(** What no handler of a packet changes. *)
Definition same_shape (t t' : TCB) : Prop :=
  SND_Buffer (SND t') = SND_Buffer (SND t) ∧ (State t ≠ LISTEN → State t' ≠ LISTEN).

#[global] Instance same_shape_pre : PreOrder same_shape.
Proof.
  split; [done|]. intros a b c [H1 H2] [H3 H4]. split; [by rewrite H3|auto].
Qed.

Lemma same_shape_ok t t' : same_shape t t' → State t ≠ LISTEN → tcb_ok t → tcb_ok t'.
Proof. intros [Hb _] Hs Hok _. rewrite Hb. by apply Hok. Qed.

Ltac shape_tac := always_tac ltac:(by split).

Lemma copy_loop_shape fuel payload n early a s :
  always same_shape (copy_loop fuel payload n early a s).
Proof.
  revert a s. induction fuel as [|fuel IH]; intros; [apply always_hang; apply _|].
  unfold copy_loop; fold copy_loop. shape_tac.
Qed.
#[export] Hint Resolve copy_loop_shape : go.

Section packets.
Context {N : Netstack}.

Lemma Receive_shape hdr payload sd now : always same_shape (Receive hdr payload sd now).
Proof.
  unfold Receive, Receive_data, Receive_place, Receive_reply, Receive_ack,
    Receive_ack_window, Receive_ack_accept, Receive_ack_cc, UpdateCWNDWindow, send_ack,
    fastRetransmit, AfterLoss, retransmit_head, removeFromRetransmissionQueue,
    updateTimeout, updateAckNum.
  shape_tac.
Qed.
#[local] Hint Resolve Receive_shape : go.

Lemma dispatch_tcb_shape s hdr payload la sp da dp key iss now :
  always same_shape (dispatch_tcb s hdr payload la sp da dp key iss now).
Proof.
  destruct s; cbn [dispatch_tcb]; try (apply always_ret; apply _);
    unfold HandleStateSynSent, HandleEstablished, ReceiveFin, HandleFinWait1, HandleFinWait1_fin,
      HandleFinWait2, HandleClosing, HandleTimeWait, HandleCloseWait, HandleLastAck, send_ack,
      removeFromRetransmissionQueue; shape_tac.
Qed.

Lemma tcp_keeps_trans h1 h2 h3 : tcp_keeps h1 h2 → tcp_keeps h2 h3 → tcp_keeps h1 h3.
Proof. intros [_ H1] [H2 H3]. split; [done|]. eauto. Qed.

(** A body that keeps the shape of a TCB that is not a listener's. *)
Lemma on_tcb_shape {A} l (m : TM A) t h :
  handler_ok h → TCBs h !! l = Some t → State t ≠ LISTEN → always same_shape m →
  tcp_keeps h (run_state (on_tcb l m) h).
Proof.
  intros Hok Hl Hs Hm. specialize (Hm t). unfold run_state, on_tcb in *. rewrite Hl.
  destruct (m t) as [[r t'] tr]. simpl in *. eapply handler_ok_tcb; [done..|].
  eapply same_shape_ok; [done..|]. exact (proj2 Hok _ _ Hl).
Qed.

Lemma HandleStateListen_keeps hdr la sp da dp key iss h :
  handler_ok h → tcp_keeps h (run_state (HandleStateListen hdr la sp da dp key iss) h).
Proof.
  intros Hok. unfold run_state, HandleStateListen.
  destruct (has_flag hdr TCPFlagAck); [by apply tcp_keeps_refl|].
  destruct (has_flag hdr TCPFlagSyn); [|by apply tcp_keeps_refl].
  unfold new_tcb, store_socket, on_tcb. go_unfold. simpl.
  rewrite lookup_insert_eq. unfold set_TCBs, set_SocketTable. simpl. rewrite insert_insert_eq.
  apply handler_ok_new; [done|]. intros _. by apply zlen_make_bytes.
Qed.

Lemma HandleStateSynReceived_keeps hdr l key payload t h :
  handler_ok h → TCBs h !! l = Some t → State t ≠ LISTEN →
  tcp_keeps h (run_state (HandleStateSynReceived hdr l key payload) h).
Proof.
  intros Hok Hl Hs. unfold HandleStateSynReceived.
  destruct (0 <? zlen payload); [by apply tcp_keeps_refl|].
  assert (Hshape : always same_shape (HandleStateSynReceived_conn hdr key)).
  { unfold HandleStateSynReceived_conn. shape_tac. }
  pose proof (on_tcb_shape l _ t h Hok Hl Hs Hshape) as Hk. unfold run_state in *.
  unfold mbind at 1, go_bind at 1.
  destruct (on_tcb l (HandleStateSynReceived_conn hdr key) h) as [[[[]| |] h1] tr1]; simpl in *;
    try done.
  destruct Hk as [Hok1 Hk1]. unfold on_tcb. do 2 go_unfold.
  destruct (TCBs h1 !! l) as [t1|] eqn:E1; simpl; [|done].
  destruct (SocketTable h1 !! ListenKey t1) as [ll|] eqn:Ell; simpl; rewrite set_TCBs_same by done;
    [|done]. rewrite insert_id by done.
  destruct (TCBs h1 !! ll) as [lt|] eqn:Elt; simpl; [|done].
  eapply tcp_keeps_trans; [by split|]. eapply handler_ok_tcb; [done..|]. exact (proj2 Hok1 _ _ Elt).
Qed.

Lemma ReceivePacket_keeps la da data iss now h :
  handler_ok h → tcp_keeps h (run_state (ReceivePacket la da data iss now) h).
Proof.
  intros Hok. unfold run_state, ReceivePacket.
  unfold mbind, go_bind, try, mret, go_ret, gets, panic.
  destruct (slice _ _ _) as [payload|]; [|by apply tcp_keeps_refl].
  destruct (negb _); [by apply tcp_keeps_refl|]. set (key := packet_key _ _ _ _ _).
  destruct (SocketTable h !! key) as [l|] eqn:Ek; [|by apply tcp_keeps_refl].
  destruct (proj2 (proj1 Hok) _ _ Ek) as [t Ht].
  unfold on_tcb at 1, get. rewrite Ht. simpl. rewrite set_TCBs_same by done.
  assert (Hrun : tcp_keeps h (run_state (dispatch l (State t) data payload la
    (DestinationPort data) da (SourcePort data) key iss now) h)).
  { unfold dispatch. destruct (State t) eqn:Es;
      first [apply HandleStateListen_keeps; done
            |eapply HandleStateSynReceived_keeps; [done..|by rewrite Es]
            |eapply on_tcb_shape; [done..|by rewrite Es|apply dispatch_tcb_shape]]. }
  unfold run_state in Hrun. by destruct (dispatch _ _ _ _ _ _ _ _ _ _ _ _) as [[[] h'] tr].
Qed.
End packets.

(** ** The node *)

(** The key of the listener behind a descriptor. *)
Definition listener_key (n : Node) (i : nat) : option SocketData :=
  match open_socket (SocketIndexTable n) i with
  | Some (SListener (Some q)) => ListenerKey <$> Lsts n !! q
  | _ => None
  end.

Record node_wf (n : Node) : Prop := {
  wf_tcp : handler_ok (NTCP n);
  wf_conns : ∀ i p, open_socket (SocketIndexTable n) i = Some (SConn p) →
    ∃ q, p = Some q ∧ is_Some (Conns n !! q);
  wf_listeners : ∀ i p, open_socket (SocketIndexTable n) i = Some (SListener p) →
    ∃ q, p = Some q ∧ is_Some (Lsts n !! q);
  wf_fresh : ∀ p, (NextObj n <= p)%nat → Conns n !! p = None ∧ Lsts n !! p = None;
  wf_icmp : is_Some (HandlerRegistry (NHost n) !! ICMP)
}.

(** Steps of TCP and of the host. *)
Lemma node_wf_tcp n h' : node_wf n → handler_ok h' → node_wf (set_NTCP h' n).
Proof. by intros [] Hok. Qed.

Lemma node_wf_host n h' :
  node_wf n → HandlerRegistry h' = HandlerRegistry (NHost n) → node_wf (set_NHost h' n).
Proof. intros [] E. split; try done. simpl. by rewrite E. Qed.

(** Changes of the table that only close descriptors. *)
Lemma node_wf_closed n t :
  node_wf n →
  (∀ j s, open_socket t j = Some s → open_socket (SocketIndexTable n) j = Some s) →
  node_wf (set_SocketIndexTable t n).
Proof. intros [? Hc Hl ? ?] Ht. split; try done; simpl; eauto. Qed.

Section node.
Context {N : Netstack} {I : IPv4} {P : NetIP} (B : Prop).

Lemma wp_on_tcp {A} (m : TcpHandler.HM A) (Q : A → Node → Prop) n :
  wp B m (λ a h', Q a (set_NTCP h' n)) (NTCP n) → wp B (on_tcp m) Q n.
Proof. unfold wp, on_tcp. by destruct (m (NTCP n)) as [[[]]]. Qed.

Lemma wp_on_host {A} (m : Host.HM A) (Q : A → Node → Prop) n :
  wp B m (λ a h', Q a (set_NHost h' n)) (NHost n) → wp B (on_host m) Q n.
Proof. unfold wp, on_host. by destruct (m (NHost n)) as [[[]]]. Qed.

Lemma wp_on_tcp_keeps {A} (m : TcpHandler.HM A) n :
  node_wf n → wp B m (λ _, tcp_keeps (NTCP n)) (NTCP n) → wp B (on_tcp m) (λ _, node_wf) n.
Proof.
  intros Hwf Hm. apply wp_on_tcp. eapply wp_mono; [done|]. intros a h' [Hok _]. by apply node_wf_tcp.
Qed.

(** *** The socket table *)

Lemma clear_slot_wp i n :
  node_wf n → 0 ≤ i < zlen (SocketIndexTable n) →
  wp B (clear_slot i)
    (λ _ n', node_wf n' ∧ zlen (SocketIndexTable n') = zlen (SocketIndexTable n) ∧
       n' = set_SocketIndexTable (SocketIndexTable n') n ∧
       ∀ j, open_socket (SocketIndexTable n') j =
         if decide (Z.of_nat j = i) then None else open_socket (SocketIndexTable n) j) n.
Proof.
  intros Hwf Hi. destruct (clear_slot_run (Z.to_nat i) n) as (n' & Hrun & Hop & Hn' & Hlen).
  { unfold zlen in Hi. lia. }
  rewrite Z2Nat.id in Hrun by lia. eapply wp_run; [done|]. split_and!.
  - rewrite Hn'. apply node_wf_closed; [done|]. intros j s. rewrite Hop. by case_decide.
  - unfold zlen. by rewrite Hlen.
  - done.
  - intros j. rewrite Hop. do 2 case_decide; try done; lia.
Qed.

Lemma clear_slots_wp ids n :
  node_wf n → Forall (λ i, 0 ≤ i < zlen (SocketIndexTable n)) ids →
  wp B (clear_slots ids) (λ _, node_wf) n.
Proof.
  revert n. induction ids as [|i ids IH]; intros n Hwf Hids; cbn [clear_slots]; [by wp_steps|].
  inversion_clear Hids as [|? ? Hi Hids']. wp_steps.
  eapply wp_mono; [by apply clear_slot_wp|]. intros a n' (Hwf' & Hlen & _).
  apply IH; [done|]. by rewrite Hlen.
Qed.

(** Opening a descriptor for a connection or a listener. *)
Lemma AddToTable_wp s n (Q : Z → Node → Prop) :
  (∀ i n', lowest_free (SocketIndexTable n) i →
     (∀ j, open_socket (SocketIndexTable n') j
           = if decide (j = i) then Some s else open_socket (SocketIndexTable n) j) →
     n' = set_SocketIndexTable (SocketIndexTable n') n → Q (Z.of_nat i) n') →
  wp B (AddToTable s) Q n.
Proof.
  intros HQ. destruct (AddToTable_run s n) as (i & n' & Hrun & ? & ? & ?). eapply wp_run; [done|].
  by apply HQ.
Qed.

Lemma add_conn_wp q n :
  node_wf n → is_Some (Conns n !! q) → wp B (AddToTable (SConn (Some q))) (λ _, node_wf) n.
Proof.
  intros [? Hc Hl ? ?] Hq. apply AddToTable_wp. intros i n' Hlow Hop Hn'.
  rewrite Hn' in *. simpl in *. split; try done; simpl; intros j p; rewrite Hop; case_decide;
    [|by eauto|done|by eauto]. intros [= <-]. by exists q.
Qed.

Lemma add_listener_wp q n :
  node_wf n → is_Some (Lsts n !! q) →
  wp B (AddToTable (SListener (Some q))) (λ _ n', node_wf n' ∧ Lsts n' = Lsts n) n.
Proof.
  intros [? Hc Hl ? ?] Hq. apply AddToTable_wp. intros i n' Hlow Hop Hn'.
  split; [|by rewrite Hn'].
  rewrite Hn' in *. simpl in *. split; try done; simpl; intros j p; rewrite Hop; case_decide;
    [done|by eauto| |by eauto]. intros [= <-]. by exists q.
Qed.

(** New objects are not behind any descriptor. *)
Lemma new_conn_wp vc n :
  node_wf n →
  wp B (new_conn vc) (λ p n', node_wf n' ∧ Conns n' !! p = Some vc ∧ NTCP n' = NTCP n) n.
Proof.
  intros [? Hc Hl Hf ?]. eapply wp_run; [done|]. simpl. rewrite lookup_insert_eq.
  split; [|done]. split; try done; simpl.
  - intros i p (q & -> & ?)%Hc. exists q. split; [done|]. by apply lookup_insert_is_Some'; right.
  - intros p Hp. rewrite lookup_insert_ne by lia. apply Hf. lia.
Qed.

Lemma new_listener_wp vl n :
  node_wf n →
  wp B (new_listener vl) (λ p n', node_wf n' ∧ Lsts n' !! p = Some vl) n.
Proof.
  intros [? Hc Hl Hf ?]. eapply wp_run; [done|]. simpl. rewrite lookup_insert_eq.
  split; [|done]. split; try done; simpl.
  - intros i p (q & -> & ?)%Hl. exists q. split; [done|]. by apply lookup_insert_is_Some'; right.
  - intros p Hp. rewrite lookup_insert_ne by lia. apply Hf. lia.
Qed.

Lemma store_conn_wp p vc n :
  node_wf n → is_Some (Conns n !! p) → wp B (store_conn p vc) (λ _, node_wf) n.
Proof.
  intros [? Hc Hl Hf ?] [vc0 Hp]. apply wp_modify. split; try done; simpl.
  - intros i q (q' & -> & ?)%Hc. exists q'. split; [done|]. by apply lookup_insert_is_Some'; right.
  - intros q Hq. rewrite lookup_insert_ne; [by apply Hf|]. intros ->.
    by rewrite (proj1 (Hf q Hq)) in Hp.
Qed.

Lemma store_listener_wp p vl n :
  node_wf n → is_Some (Lsts n !! p) → wp B (store_listener p vl) (λ _, node_wf) n.
Proof.
  intros [? Hc Hl Hf ?] [vl0 Hp]. apply wp_modify. split; try done; simpl.
  - intros i q (q' & -> & ?)%Hl. exists q'. split; [done|]. by apply lookup_insert_is_Some'; right.
  - intros q Hq. rewrite lookup_insert_ne; [by apply Hf|]. intros ->.
    by rewrite (proj2 (Hf q Hq)) in Hp.
Qed.

(** *** Pointers *)

Lemma conn_of_wp i p n (Q : nat * VTCPConn → Node → Prop) :
  node_wf n → open_socket (SocketIndexTable n) i = Some (SConn p) →
  (∀ q vc, Conns n !! q = Some vc → Q (q, vc) n) → wp B (conn_of p) Q n.
Proof.
  intros Hwf Hi HQ. destruct (wf_conns n Hwf i p Hi) as (q & -> & vc & Hvc).
  unfold conn_of. wp_steps. eapply wp_try; [done|]. wp_steps. eapply wp_try; [done|]. wp_steps.
  by apply HQ.
Qed.

Lemma listener_of_wp i p n (Q : nat * VTCPListener → Node → Prop) :
  node_wf n → open_socket (SocketIndexTable n) i = Some (SListener p) →
  (∀ q vl, Lsts n !! q = Some vl → Q (q, vl) n) → wp B (listener_of p) Q n.
Proof.
  intros Hwf Hi HQ. destruct (wf_listeners n Hwf i p Hi) as (q & -> & vl & Hvl).
  unfold listener_of. wp_steps. eapply wp_try; [done|]. wp_steps. eapply wp_try; [done|]. wp_steps.
  by apply HQ.
Qed.

Lemma slot_wp i n (Q : option Socket → Node → Prop) :
  0 ≤ i < zlen (SocketIndexTable n) →
  Q (open_socket (SocketIndexTable n) (Z.to_nat i)) n → wp B (slot i) Q n.
Proof.
  intros Hi HQ. unfold slot. wp_steps. unfold open_socket in HQ.
  destruct (lookup_lt_is_Some_2 (SocketIndexTable n) (Z.to_nat i)) as [o Ho];
    [unfold zlen in Hi; lia|].
  eapply (wp_try _ _ o).
  - unfold zlookup. destruct (Z.leb_spec 0 i); [done|lia].
  - by rewrite Ho in HQ.
Qed.

(** *** Commands on sockets *)

(** [Listen] can give the port a listener. *)
Definition can_listen (port : Z) (h : TCPHandler) : Prop :=
  1024 < port ∧ SocketTable h !! mkSocketData (HLocalAddr h) port 0 0 = None.

(** A listener that TCP has just made gets its descriptor. *)
Lemma open_listener_wp {A} vl n h' (k : nat → Z → NM A) :
  node_wf n → handler_ok h' →
  (∀ p i n', node_wf n' → Lsts n' !! p = Some vl → wp B (k p i) (λ _, node_wf) n') →
  wp B (p ← new_listener vl; i ← AddToTable (SListener (Some p)); k p i) (λ _, node_wf) (set_NTCP h' n).
Proof.
  intros Hwf Hok Hrest. wp_steps.
  eapply wp_mono; [by apply new_listener_wp, node_wf_tcp|].
  intros p n1 [Hwf1 Hp]. wp_steps.
  eapply wp_mono; [apply (add_listener_wp p); [done|by eexists]|].
  intros i n2 [Hwf2 HL]. apply Hrest; [done|]. by rewrite HL.
Qed.

Lemma AcceptCommand_wp port n :
  node_wf n → can_listen port (NTCP n) → wp B (AcceptCommand port) (λ _, node_wf) n.
Proof.
  intros Hwf [Hp Hk]. unfold AcceptCommand, VListen. wp_steps. apply wp_on_tcp.
  eapply wp_mono; [by apply Listen_wp, wf_tcp|]. intros [vl|err] h' [Hkeep Hres]; simpl in Hres.
  - apply (open_listener_wp vl n h' (λ p _, emit (NGoAccept p);; mret None)); try done; apply Hkeep.
  - destruct Hres as [|[l Hl]]; [lia|]. congruence.
Qed.

Lemma ConnectCommand_wp a port iss n :
  node_wf n → wp B (ConnectCommand (Some (mkIP (Some a))) port iss) (λ _, node_wf) n.
Proof.
  intros Hwf. unfold ConnectCommand, VConnect. wp_steps. eapply wp_try; [done|].
  apply wp_on_tcp_keeps; [done|]. apply Connect_wp, Hwf.
Qed.

Lemma list_sockets_wp i t n :
  node_wf n →
  (∀ j s, t !! j = Some (Some s) → open_socket (SocketIndexTable n) (Z.to_nat i + j) = Some s) →
  0 ≤ i → i + zlen t = zlen (SocketIndexTable n) →
  wp B (list_sockets i t)
    (λ ids n', n' = n ∧ Forall (λ k, 0 ≤ k < zlen (SocketIndexTable n)) ids) n.
Proof.
  intros Hwf. revert i. induction t as [|o t IH]; intros i Ht Hi Hlen; cbn [list_sockets].
  { by wp_steps. }
  rewrite zlen_cons in Hlen. pose proof (zlen_nonneg t).
  assert (Hnext : wp B (list_sockets (i + 1) t)
    (λ ids n', n' = n ∧ Forall (λ k, 0 ≤ k < zlen (SocketIndexTable n)) ids) n).
  { apply IH; [|lia..]. intros j s Hj. rewrite <-(Ht (S j) s Hj). f_equal. lia. }
  destruct o as [s|]; [|done].
  assert (Hs : open_socket (SocketIndexTable n) (Z.to_nat i) = Some s).
  { rewrite <-(Ht 0%nat s eq_refl). f_equal. lia. }
  wp_steps. eapply (wp_mono _ _ (λ _ n', n' = n)).
  { unfold GetSocketTableKey. destruct s as [p|p]; wp_steps.
    - eapply conn_of_wp; [done..|]. intros. by wp_steps.
    - eapply listener_of_wp; [done..|]. intros. by wp_steps. }
  intros key n' ->. wp_steps. destruct (SocketTable (NTCP n) !! key) as [l|] eqn:Ek.
  - destruct (proj2 (proj1 (wf_tcp n Hwf)) _ _ Ek) as [tcb Htcb]. wp_steps.
    eapply wp_try; [done|]. by wp_steps.
  - wp_steps. eapply wp_mono; [done|]. intros ids n' [-> Hids]. wp_steps. split; [done|].
    constructor; [lia|done].
Qed.

Lemma ListSocketCommand_wp n : node_wf n → wp B ListSocketCommand (λ _, node_wf) n.
Proof.
  intros Hwf. unfold ListSocketCommand. wp_steps.
  eapply wp_mono; [apply list_sockets_wp; [done| |lia|lia]|].
  - intros j s Hj. unfold open_socket. change (Z.to_nat 0 + j)%nat with j. by rewrite Hj.
  - intros ids n' [-> Hids]. by apply clear_slots_wp.
Qed.

Lemma SendTCPCommand_wp line n :
  node_wf n → (3 <= length (Split line))%nat → zlen line < 65536 →
  (∀ w, Split line !! 1%nat = Some w → 0 ≤ (Atoi w).1) →
  wp B (SendTCPCommand line) (λ _, node_wf) n.
Proof.
  intros Hwf Hlen Hline Hid. unfold SendTCPCommand.
  pose proof (length_SplitN 3 line ltac:(lia)) as Hl. rewrite Nat.min_l in Hl by lia.
  pose proof (lookup_SplitN 3 line 1 ltac:(lia)) as H1.
  destruct (lookup_lt_is_Some_2 (SplitN 3 line) 1 ltac:(lia)) as [w Hw].
  destruct (lookup_lt_is_Some_2 (SplitN 3 line) 2 ltac:(lia)) as [data Hd].
  rewrite Hw in *. specialize (Hid w (eq_sym H1)). wp_steps. eapply wp_try; [done|].
  destruct (Atoi w) as [socketID ok]. simpl in Hid. wp_steps.
  unfold table_len. wp_steps.
  destruct (Z.leb_spec (zlen (SocketIndexTable n)) socketID); [by wp_steps|].
  wp_steps. apply slot_wp; [lia|].
  destruct (open_socket _ _) as [[p|p]|] eqn:Es; [|by wp_steps..].
  wp_steps. eapply conn_of_wp; [done..|]. intros q vc _. wp_steps.
  eapply wp_try; [done|]. wp_steps.
  eapply wp_mono; [apply wp_on_tcp_keeps; [done|]; apply Write_wp; [apply Hwf|]|by intros; wp_steps].
  apply zlen_SplitN_lookup in Hd. unfold MAX_BUF_SIZE. lia.
Qed.

Lemma ReadTCPCommand_wp id num all n :
  node_wf n → 0 ≤ id → wp B (ReadTCPCommand id num all) (λ _, node_wf) n.
Proof.
  intros Hwf Hid. unfold ReadTCPCommand, table_len. wp_steps.
  destruct (Z.leb_spec (zlen (SocketIndexTable n)) id); [by wp_steps|].
  wp_steps. apply slot_wp; [lia|].
  destruct (open_socket _ _) as [[p|p]|] eqn:Es; [|by wp_steps..].
  wp_steps. eapply conn_of_wp; [done..|]. intros q vc _. wp_steps.
  eapply wp_mono; [apply wp_on_tcp_keeps; [done|]; apply Read_wp, Hwf|]. intros. by wp_steps.
Qed.

(** Closing a listener whose socket is there. *)
Lemma close_listener_wp q vl n :
  node_wf n → Lsts n !! q = Some vl → is_Some (SocketTable (NTCP n) !! ListenerKey vl) →
  wp B (vl' ← on_tcp (CloseListener vl); store_listener q vl') (λ _, node_wf) n.
Proof.
  intros Hwf Hq Hs. wp_steps. apply wp_on_tcp.
  eapply wp_mono; [by apply CloseListener_wp; [apply Hwf|]|]. intros vl' h' (Hok' & _).
  apply store_listener_wp; [by apply node_wf_tcp|by eexists].
Qed.

Lemma CloseTCPCommand_wp id noRead n :
  node_wf n →
  (∀ k, listener_key n (Z.to_nat id) = Some k → is_Some (SocketTable (NTCP n) !! k)) →
  wp B (CloseTCPCommand id noRead) (λ _, node_wf) n.
Proof.
  intros Hwf Hsock. unfold CloseTCPCommand, table_len. wp_steps.
  destruct (Z.leb_spec (zlen (SocketIndexTable n)) id), (Z.ltb_spec id 0); simpl; try by wp_steps.
  wp_steps. apply slot_wp; [lia|].
  destruct (open_socket _ _) as [[p|p]|] eqn:Es; [| |by wp_steps].
  - wp_steps. eapply conn_of_wp; [done..|]. intros q vc Hq. wp_steps.
    eapply wp_mono; [by apply store_conn_wp|]. intros. by wp_steps.
  - destruct (wf_listeners n Hwf _ p Es) as (q & -> & vl & Hvl).
    specialize (Hsock (ListenerKey vl)). unfold listener_key in Hsock. rewrite Es in Hsock.
    rewrite Hvl in Hsock. specialize (Hsock eq_refl).
    wp_steps. eapply wp_mono; [apply clear_slot_wp; [done|lia]|].
    intros u n1 (Hwf1 & _ & Hn1 & _). unfold listener_of. wp_steps.
    assert (HT : NTCP n1 = NTCP n ∧ Lsts n1 = Lsts n) by (by rewrite Hn1). destruct HT as [HT HL].
    eapply wp_try; [done|]. wp_steps. rewrite HL. eapply wp_try; [done|]. wp_steps.
    pose proof (close_listener_wp q vl n1) as Hcl. rewrite HT, HL in Hcl.
    specialize (Hcl Hwf1 Hvl Hsock). unfold wp, mbind, go_bind in Hcl |- *.
    destruct (on_tcp (CloseListener vl) n1) as [[[vl'| |] n2] tr2]; [|done..].
    by destruct (store_listener q vl' n2) as [[[] n3] tr3].
Qed.

Lemma guarded_slot_inv (b : bool) t id s :
  (if b then None else zlookup t id) = Some (Some s) → open_socket t (Z.to_nat id) = Some s.
Proof.
  destruct b; [done|]. unfold zlookup, open_socket. destruct (0 <=? id); [|done]. by intros ->.
Qed.

Lemma ShutDownTCPCommand_wp id kind n :
  node_wf n → wp B (ShutDownTCPCommand id kind) (λ _, node_wf) n.
Proof.
  intros Hwf. unfold ShutDownTCPCommand. wp_steps.
  destruct (if (id <? 0) || (zlen (SocketIndexTable n) <=? id) then None
            else zlookup (SocketIndexTable n) id) as [[[p|p]|]|] eqn:Es; try by wp_steps.
  apply guarded_slot_inv in Es.
  assert (Hno : ∀ k, listener_key n (Z.to_nat id) = Some k → is_Some (SocketTable (NTCP n) !! k)).
  { intros k. unfold listener_key. by rewrite Es. }
  repeat case_decide; wp_steps; try done;
    try (eapply wp_mono; [by apply CloseTCPCommand_wp|by intros; wp_steps]).
  eapply conn_of_wp; [done..|]. intros q vc Hq. wp_steps.
  apply wp_on_tcp. unfold VShutdown. rewrite Z.eqb_refl. wp_steps.
  eapply wp_mono; [apply store_conn_wp; [|by eexists]|by intros; wp_steps].
  apply node_wf_tcp; [done|]. apply Hwf.
Qed.

Lemma SetCongestionControl_wp id cc n :
  node_wf n → wp B (SetCongestionControl id cc) (λ _, node_wf) n.
Proof.
  intros Hwf. unfold SetCongestionControl. wp_steps.
  destruct (if (id <? 0) || (zlen (SocketIndexTable n) <=? id) then None
            else zlookup (SocketIndexTable n) id) as [[[p|p]|]|] eqn:Es; try by wp_steps.
  apply guarded_slot_inv in Es.
  wp_steps. eapply conn_of_wp; [done..|]. intros q vc Hq. wp_steps.
  eapply wp_mono; [apply wp_on_tcp_keeps; [done|]; apply SetCCForSocket_wp, Hwf|].
  intros. by wp_steps.
Qed.

(** A valid text of an IPv4 address, or no address at all. *)
Definition no_IPv6 (s : gostring) : Prop := ∀ ip, ParseIP s = Some ip → is_Some (To4 ip).

Lemma SendFileTCPCommand_wp file addr port cc iss n :
  node_wf n → no_IPv6 addr → wp B (SendFileTCPCommand file addr port cc iss) (λ _, node_wf) n.
Proof.
  intros Hwf Ha. unfold SendFileTCPCommand. destruct (ParseIP addr) as [[o]|] eqn:E; [|by wp_steps].
  destruct (Ha _ E) as [a Ea]. simpl in Ea. subst o. destruct file as [f|]; [|by wp_steps].
  wp_steps. eapply wp_mono; [by apply (ConnectCommand_wp a)|]. intros. by wp_steps.
Qed.

(** *** Goroutines *)

Lemma Accept_wp vl h : handler_ok h → wp B (Accept vl) (λ _, tcp_keeps h) h.
Proof.
  intros Hok. unfold Accept. wp_steps.
  destruct (SocketTable h !! _) as [l|] eqn:Ek; [|wp_steps; by apply tcp_keeps_refl].
  destruct (proj2 (proj1 Hok) _ _ Ek) as [t Ht]. wp_steps. eapply wp_on_tcb; [done|]. wp_steps.
  rewrite set_TCBs_same by done. destruct (Z.ltb_spec 0 (zlen (PendingConnections t))); wp_steps;
    (eapply wp_on_tcb; [done|]).
  - unfold Accept_pop. wp_steps. destruct (PendingConnections t) as [|c rest] eqn:Ep; [done|].
    eapply wp_try; [done|]. wp_steps. eapply wp_try.
    { apply slice_in; [|lia]. rewrite zlen_cons in *. pose proof (zlen_nonneg rest). lia. }
    wp_steps. eapply handler_ok_tcb; [done..|]. exact (proj2 Hok _ _ Ht).
  - wp_steps. rewrite set_TCBs_same by done. by apply tcp_keeps_refl.
Qed.

Lemma acceptHelper_call_wp p vl n :
  node_wf n → Lsts n !! p = Some vl → wp B (acceptHelper_call p) (λ _, node_wf) n.
Proof.
  intros Hwf Hp. unfold acceptHelper_call, listener_of. wp_steps. eapply wp_try; [done|]. wp_steps.
  eapply wp_try; [done|]. wp_steps. apply wp_on_tcp_keeps; [done|]. apply Accept_wp, Hwf.
Qed.

(** A connection that TCP returns gets its descriptor. *)
Lemma open_conn_wp vc n :
  node_wf n → wp B (p ← new_conn vc; AddToTable (SConn (Some p))) (λ _, node_wf) n.
Proof.
  intros Hwf. wp_steps. eapply wp_mono; [by apply new_conn_wp|]. intros p n' (Hwf' & Hp & _).
  apply add_conn_wp; [done|by eexists].
Qed.

Lemma acceptHelper_return_wp next n :
  node_wf n → wp B (acceptHelper_return next) (λ _, node_wf) n.
Proof.
  intros Hwf. destruct next; simpl; try by wp_steps. wp_steps.
  eapply wp_mono; [by apply new_conn_wp|]. intros p n' (Hwf' & Hp & _). wp_steps.
  eapply wp_mono; [apply add_conn_wp; [done|by eexists]|]. intros. by wp_steps.
Qed.

Lemma REPL_connected_wp res n : node_wf n → wp B (REPL_connected res) (λ _, node_wf) n.
Proof.
  intros Hwf. destruct res as [vc|err]; simpl; [|by wp_steps]. wp_steps.
  eapply wp_mono; [by apply open_conn_wp|]. intros. by wp_steps.
Qed.

Lemma ReadFileTCPCommand_wp created port n :
  node_wf n → wp B (ReadFileTCPCommand created port) (λ _, node_wf) n.
Proof.
  intros Hwf. unfold ReadFileTCPCommand, VListen. destruct (negb created); [by wp_steps|]. wp_steps.
  apply wp_on_tcp. eapply wp_mono; [by apply Listen_wp, wf_tcp|].
  intros [vl|err] h' [Hkeep Hres]; simpl in Hres.
  - apply (open_listener_wp vl n h' (λ lp i, next ← acceptHelper_call lp; mret (RFAccept lp i next)));
      [done|apply Hkeep|].
    intros p i n' Hwf' Hp. wp_steps. eapply wp_mono; [by eapply acceptHelper_call_wp|].
    intros. by wp_steps.
  - wp_steps. by apply node_wf_tcp; [|apply Hkeep].
Qed.

(** The goroutine that closes a connection, if the connection is still there. *)
Lemma close_goroutine_wp p vc noRead n :
  node_wf n → Conns n !! p = Some vc → is_Some (SocketTable (NTCP n) !! SocketTableKey vc) →
  (∀ t, socket (NTCP n) (SocketTableKey vc) = Some t → State t ≠ LISTEN) →
  wp B (close_goroutine p noRead) (λ _, node_wf) n.
Proof.
  intros Hwf Hp [l Hl] Hconn. unfold socket in Hconn. rewrite Hl in Hconn. simpl in Hconn.
  destruct (proj2 (proj1 (wf_tcp n Hwf)) _ _ Hl) as [t Ht]. specialize (Hconn t Ht).
  pose proof (proj2 (wf_tcp n Hwf) _ _ Ht Hconn) as Hbuf. unfold close_goroutine, conn_of. wp_steps. eapply wp_try; [done|]. wp_steps.
  eapply wp_try; [done|]. wp_steps.
  assert (Hclose : ∀ vc', SocketTableKey vc' = SocketTableKey vc →
    wp B (Close vc') (λ _, tcp_keeps (NTCP n)) (NTCP n)).
  { intros vc' Hk. unfold Close. wp_steps. rewrite Hk. eapply wp_try; [done|]. wp_steps.
    eapply wp_on_tcb; [done|]. unfold Close_test, Close_fin. wp_steps.
    destruct (negb _); wp_steps; (eapply handler_ok_tcb; [apply Hwf|done|]); by intros _. }
  apply wp_on_tcp. destruct noRead.
  - unfold VClose. wp_steps. eapply wp_mono; [by apply Hclose|]. intros [l' next] h' [Hk _].
    wp_steps. eapply wp_mono; [apply store_conn_wp; [by apply node_wf_tcp|by eexists]|].
    intros. by wp_steps.
  - unfold VShutdown. simpl. wp_steps. eapply wp_mono; [by apply Hclose|]. intros [l' next] h' [Hk _].
    wp_steps. eapply wp_mono; [apply store_conn_wp; [by apply node_wf_tcp|by eexists]|].
    intros. by wp_steps.
Qed.

Lemma conn_of_run p n q vc n' tr :
  conn_of p n = (Ok (q, vc), n', tr) → n' = n ∧ Conns n !! q = Some vc.
Proof.
  unfold conn_of. do 2 go_unfold. destruct p as [p|]; simpl; [|done].
  destruct (Conns n !! p) eqn:E; simpl; [|done]. by intros [= <- <- <- _].
Qed.

Lemma listener_of_run p n q vl n' tr :
  listener_of p n = (Ok (q, vl), n', tr) → n' = n ∧ p = Some q ∧ Lsts n !! q = Some vl.
Proof.
  unfold listener_of. do 2 go_unfold. destruct p as [p|]; simpl; [|done].
  destruct (Lsts n !! p) eqn:E; simpl; [|done]. by intros [= <- <- <- _].
Qed.

(** A run that returns. *)
Lemma wp_wf {A} (m : NM A) n a n' tr :
  wp B m (λ _, node_wf) n → m n = (Ok a, n', tr) → node_wf n'.
Proof. intros Hm E. exact (wp_ok B m (λ _, node_wf) n a n' tr E Hm). Qed.

(** The same for a run of it that returns. *)
Lemma close_goroutine_wf p noRead n next n' tr :
  node_wf n →
  (∀ vc t, Conns n !! p = Some vc → socket (NTCP n) (SocketTableKey vc) = Some t →
     State t ≠ LISTEN) →
  close_goroutine p noRead n = (Ok next, n', tr) → node_wf n'.
Proof.
  intros Hwf Hconn E. assert (Hs : ∃ vc, Conns n !! p = Some vc ∧
    is_Some (SocketTable (NTCP n) !! SocketTableKey vc)).
  { unfold close_goroutine, conn_of in E. do 2 go_unfold. simpl in E.
    destruct (Conns n !! p) as [vc|]; simpl in E; [|done]. exists vc. split; [done|].
    destruct (SocketTable (NTCP n) !! SocketTableKey vc) eqn:Es; [done|].
    destruct noRead; unfold on_tcp, VClose, VShutdown, Close in E; do 2 go_unfold; simpl in E;
      by rewrite Es in E. }
  destruct Hs as (vc & Hp & Hs). assert (Hwp : wp B (close_goroutine p noRead) (λ _, node_wf) n).
  { apply (close_goroutine_wp p vc); [done..|]. intros t. by apply Hconn. }
  by eapply wp_wf.
Qed.

(** A listener that is closed. *)
Lemma close_listener_wf q vl n vl' n1 tr n' tr' u :
  node_wf n → Lsts n !! q = Some vl → on_tcp (CloseListener vl) n = (Ok vl', n1, tr) →
  store_listener q vl' n1 = (Ok u, n', tr') → node_wf n'.
Proof.
  intros Hwf Hq E1 E2.
  assert (Hs : is_Some (SocketTable (NTCP n) !! ListenerKey vl)).
  { unfold on_tcp, CloseListener in E1. do 2 go_unfold. simpl in E1.
    by destruct (SocketTable (NTCP n) !! ListenerKey vl). }
  pose proof (close_listener_wp q vl n Hwf Hq Hs) as Hwp. unfold wp, mbind, go_bind in Hwp.
  rewrite E1, E2 in Hwp. by destruct u.
Qed.

(** *** The transfer of files *)

Lemma SendFile_connected_wf file cc vc n next n' tr :
  node_wf n → SendFile_connected file cc vc n = (Ok next, n', tr) → node_wf n'.
Proof.
  intros Hwf E.
  assert (Hwp : wp B (SendFile_connected file cc vc) (λ _, node_wf) n); [|by eapply wp_wf].
  unfold SendFile_connected. wp_steps. eapply wp_mono; [by apply new_conn_wp|].
  intros p n1 (Hwf1 & Hp & _). wp_steps. eapply wp_mono; [apply add_conn_wp; [done|by eexists]|].
  intros i n2 Hwf2. wp_steps. destruct cc; wp_steps; [|done].
  eapply wp_mono; [apply wp_on_tcp_keeps; [done|]; apply SetCCForSocket_wp, Hwf2|].
  intros. by wp_steps.
Qed.

Lemma SendFile_chunk_wf p id rest bw amountRead failed n next n' tr :
  node_wf n → 0 ≤ amountRead ≤ 1024 →
  (∀ vc t, Conns n !! p = Some vc → socket (NTCP n) (SocketTableKey vc) = Some t →
     State t ≠ LISTEN) →
  SendFile_chunk p id rest bw amountRead failed n = (Ok next, n', tr) → node_wf n'.
Proof.
  intros Hwf Hle Hconn. unfold SendFile_chunk. destruct (_ =? _).
  - intros E. apply go_bind_inv in E as (u & n1 & t1 & t2 & E1 & E & _). injection E1 as _ <- _.
    apply go_bind_inv in E as (cn & n2 & t3 & t4 & E1 & E & _). injection E as _ <- _.
    by eapply close_goroutine_wf.
  - destruct failed; [by intros [= _ <- _]|]. intros E.
    apply go_bind_inv in E as ([q vc] & n1 & t1 & t2 & E1 & E & _).
    apply conn_of_run in E1 as [-> _].
    apply go_bind_inv in E as (wn & n2 & t3 & t4 & E2 & E & _). injection E as _ <- _.
    assert (Hwp : wp B (on_tcp (Write vc (ztake amountRead rest))) (λ _, node_wf) n);
      [|by eapply wp_wf].
    apply wp_on_tcp_keeps; [done|]. apply Write_wp; [apply Hwf|].
    unfold ztake, zlen, MAX_BUF_SIZE. rewrite length_take. lia.
Qed.

Lemma clear_slot_wf i n u n' tr : node_wf n → clear_slot i n = (Ok u, n', tr) → node_wf n'.
Proof.
  intros Hwf E. assert (Hi : 0 ≤ i < zlen (SocketIndexTable n)).
  { unfold clear_slot in E. do 2 go_unfold.
    destruct (zlookup (SocketIndexTable n) i) as [o|] eqn:Ei; [|done].
    destruct (Z.le_gt_cases 0 i); [|by rewrite zlookup_neg in Ei].
    destruct (Z.le_gt_cases (zlen (SocketIndexTable n)) i); [by rewrite zlookup_ge in Ei|]. lia. }
  by destruct (wp_ok _ _ _ _ _ _ _ E (clear_slot_wp i n Hwf Hi)).
Qed.

Lemma ReadFile_read_wf lp p li ci total buf n next n' tr :
  node_wf n → ReadFile_read lp p li ci total buf n = (Ok next, n', tr) → node_wf n'.
Proof.
  intros Hwf E. unfold ReadFile_read in E.
  apply go_bind_inv in E as ([q vc] & n1 & t1 & t2 & E1 & E & _).
  apply conn_of_run in E1 as [-> _].
  apply go_bind_inv in E as (rn & n2 & t3 & t4 & E2 & E & _). injection E as _ <- _.
  assert (Hwp : wp B (on_tcp (Read vc 4096 false)) (λ _, node_wf) n); [|by eapply wp_wf].
  apply wp_on_tcp_keeps; [done|]. apply Read_wp, Hwf.
Qed.

Lemma ReadFile_accepted_wf lp li res n next n' tr :
  node_wf n → ReadFile_accepted lp li res n = (Ok next, n', tr) → node_wf n'.
Proof.
  intros Hwf E. destruct res as [vc|err]; cbn [ReadFile_accepted] in E.
  2: { apply go_bind_inv in E as (? & ? & ? & ? & _ & E & _).
       by apply go_bind_inv in E as (? & ? & ? & ? & _ & E & _). }
  apply go_bind_inv in E as (p & n1 & t1 & t2 & E1 & E & _).
  destruct (wp_ok _ _ _ _ _ _ _ E1 (new_conn_wp vc n Hwf)) as (Hwf1 & Hp & _).
  apply go_bind_inv in E as (ci & n2 & t3 & t4 & E2 & E & _).
  pose proof (wp_wf _ _ _ _ _ (add_conn_wp p n1 Hwf1 ltac:(by eexists)) E2) as Hwf2.
  apply go_bind_inv in E as (u & n3 & t5 & t6 & E3 & E & _). injection E3 as _ <- _.
  by eapply ReadFile_read_wf.
Qed.

Lemma ReadFile_returned_wf lp p li ci total buf num err failed n next n' tr :
  node_wf n →
  (∀ vc t, Conns n !! p = Some vc → socket (NTCP n) (SocketTableKey vc) = Some t →
     State t ≠ LISTEN) →
  ReadFile_returned lp p li ci total buf num err failed n = (Ok next, n', tr) → node_wf n'.
Proof.
  intros Hwf Hconn E. destruct err as [err|]; cbn [ReadFile_returned] in E.
  { apply go_bind_inv in E as (cn & n1 & t1 & t2 & E1 & E & _). injection E as _ <- _.
    by eapply close_goroutine_wf. }
  apply go_bind_inv in E as (b & n1 & t1 & t2 & E1 & E & _).
  assert (n1 = n) as ->. { unfold try in E1. destruct (slice buf 0 num); [by injection E1|done]. }
  apply go_bind_inv in E as (u & n2 & t3 & t4 & E2 & E & _). injection E2 as _ <- _.
  destruct failed; [by injection E as _ <- _|]. by eapply ReadFile_read_wf.
Qed.

Lemma ReadFile_closed_wf lp li ci total n next n' tr :
  node_wf n → ReadFile_closed lp li ci total n = (Ok next, n', tr) → node_wf n'.
Proof.
  intros Hwf E. unfold ReadFile_closed in E.
  apply go_bind_inv in E as ([q vl] & n1 & t1 & t2 & E1 & E & _).
  apply listener_of_run in E1 as (-> & _ & Hq).
  apply go_bind_inv in E as (vl' & n2 & t3 & t4 & E2 & E & _).
  apply go_bind_inv in E as (u & n3 & t5 & t6 & E3 & E & _).
  pose proof (close_listener_wf _ _ _ _ _ _ _ _ _ Hwf Hq E2 E3) as Hwf3.
  apply go_bind_inv in E as (u1 & n4 & t7 & t8 & E4 & E & _).
  pose proof (clear_slot_wf _ _ _ _ _ Hwf3 E4) as Hwf4.
  apply go_bind_inv in E as (u2 & n5 & t9 & t10 & E5 & E & _).
  pose proof (clear_slot_wf _ _ _ _ _ Hwf4 E5) as Hwf5.
  apply go_bind_inv in E as (u3 & n6 & t11 & t12 & E6 & E & _). injection E6 as _ <- _.
  apply go_bind_inv in E as (u4 & n7 & t13 & t14 & E7 & E & _). injection E7 as _ <- _.
  by injection E as _ <- _.
Qed.

(** *** Commands on the host *)

Lemma wp_on_host_keeps {A} (m : Host.HM A) n :
  node_wf n → wp B m (λ _ h', HandlerRegistry h' = HandlerRegistry (NHost n)) (NHost n) →
  wp B (on_host m) (λ _, node_wf) n.
Proof.
  intros Hwf Hm. apply wp_on_host. eapply wp_mono; [done|]. intros a h' E. by apply node_wf_host.
Qed.

Lemma LinkSend_wp lif p (Q : unit → Host → Prop) h : Q tt h → wp B (LinkSend lif p) Q h.
Proof. intros HQ. unfold LinkSend. destruct (Stopped lif); [done|]. by destruct (UDPAddr lif). Qed.

Lemma SendPacket_wp dest protocol data spare h :
  wp B (SendPacket dest protocol data spare) (λ _ h', h' = h) h.
Proof.
  unfold SendPacket. wp_steps.
  repeat match goal with
  | |- wp _ (match ?x with _ => _ end) _ _ => destruct x
  | |- wp _ (LinkSend _ _) _ _ => apply LinkSend_wp
  | _ => progress wp_steps
  end; done.
Qed.

Lemma SendCommand_wp line spare n :
  node_wf n → (4 <= length (Split line))%nat →
  (∀ w, Split line !! 1%nat = Some w → no_IPv6 w) →
  wp B (SendCommand line spare) (λ _, node_wf) n.
Proof.
  intros Hwf Hlen Ha. unfold SendCommand.
  pose proof (length_SplitN 4 line ltac:(lia)) as Hl. rewrite Nat.min_l in Hl by lia.
  pose proof (lookup_SplitN 4 line 1 ltac:(lia)) as H1.
  destruct (lookup_lt_is_Some_2 (SplitN 4 line) 1 ltac:(lia)) as [w Hw].
  destruct (lookup_lt_is_Some_2 (SplitN 4 line) 2 ltac:(lia)) as [pr Hpr].
  destruct (lookup_lt_is_Some_2 (SplitN 4 line) 3 ltac:(lia)) as [data Hd].
  rewrite Hw in *. specialize (Ha w (eq_sym H1)). wp_steps. eapply wp_try; [done|].
  destruct (ParseIP w) as [ip|] eqn:E; [|by wp_steps]. destruct (Ha _ E) as [a Hip].
  wp_steps. eapply wp_try; [done|]. wp_steps. eapply wp_try; [done|].
  destruct (Atoi pr) as [num ok]. destruct (_ || _); [by wp_steps|].
  wp_steps. eapply wp_try; [done|]. wp_steps.
  eapply wp_mono; [apply wp_on_host_keeps; [done|]|by intros; wp_steps].
  eapply wp_mono; [apply SendPacket_wp|]. by intros ? ? ->.
Qed.

(** Without a reply the traceroute waits for ever. *)
Lemma traceroute_loop_wp turns dest ttl e path replies h :
  B → is_Some (HandlerRegistry h !! ICMP) →
  wp B (traceroute_loop turns dest ttl e path replies) (λ _ h', h' = h) h.
Proof.
  intros HB [handler Hh]. revert ttl e path replies.
  induction turns as [|turns IH]; intros ttl e path replies; cbn [traceroute_loop]; [by wp_steps|].
  wp_steps. eapply (wp_mono _ _ (λ _ h', h' = h)).
  { unfold traceroute_probe. wp_steps.
    repeat match goal with
    | |- wp _ (match ?x with _ => _ end) _ _ => destruct x
    | |- wp _ (LinkSend _ _) _ _ => apply LinkSend_wp
    | _ => progress wp_steps
    end; done. }
  intros sent h' ->. destruct (negb sent); [by wp_steps|].
  destruct replies as [|[msg e'] replies]; [done|]. destruct (Found msg); [|apply IH].
  wp_steps. eapply wp_try; [done|]. by wp_steps.
Qed.

Lemma hop_rows_wp index path n : wp B (hop_rows index path) (λ _ n', n' = n) n.
Proof.
  revert index. induction path as [|hop path IH]; intros index; cbn [hop_rows]; [done|].
  wp_steps. apply IH.
Qed.

Lemma Traceroute_wp dest replies n :
  B → node_wf n → no_IPv6 dest → wp B (Traceroute dest replies) (λ _, node_wf) n.
Proof.
  intros HB Hwf Hd. unfold Traceroute. destruct (ParseIP dest) as [ip|] eqn:E; [|by wp_steps].
  destruct (Hd _ E) as [a Ha]. wp_steps. eapply wp_try; [done|]. wp_steps.
  destruct (LocalIFs (NHost n) !! a) as [lif|]; [destruct (Stopped lif); by wp_steps|].
  wp_steps. eapply (wp_mono _ _ (λ _, node_wf)).
  { apply wp_on_host_keeps; [done|]. unfold SendTraceroutePacket. wp_steps.
    destruct (CheckRoute _ _) as [e|]; [|by wp_steps]. destruct (Cost e =? INFINITY); [by wp_steps|].
    destruct (wf_icmp n Hwf) as [handler Hh]. wp_steps. eapply wp_try; [done|]. wp_steps.
    eapply wp_mono; [apply traceroute_loop_wp; [done|by eexists]|]. by intros ? ? ->. }
  intros [|hop path] n' Hwf'; wp_steps; [done|].
  eapply wp_mono; [apply hop_rows_wp|]. intros ? ? ->. by wp_steps.
Qed.

Lemma rows_wp n order routes :
  wp B (interface_rows order) (λ _ n', n' = n) n ∧ wp B (route_rows routes) (λ _ n', n' = n) n.
Proof.
  split.
  - induction order as [|[a lif] order IH]; cbn [interface_rows]; [done|]. by wp_steps.
  - induction routes as [|[d e] routes IH]; cbn [route_rows]; [done|]. by wp_steps.
Qed.

Lemma REPL_interface_wp down commands env n :
  node_wf n → wp B (REPL_interface down commands env) (λ _, node_wf) n.
Proof.
  intros Hwf. unfold REPL_interface, invalid. destruct (Z.ltb_spec (zlen commands) 2); [by wp_steps|].
  destruct (lookup_lt_is_Some_2 commands 1) as [arg Harg]; [unfold zlen in *; lia|].
  wp_steps. eapply wp_try; [done|]. destruct (Atoi arg) as [num ok].
  destruct (negb ok); [by wp_steps|]. wp_steps.
  eapply wp_mono; [apply wp_on_host_keeps; [done|]|by intros; wp_steps].
  unfold DownInterface, UpInterface. destruct down, (find_interface _ _) as [[k lif]|]; try by wp_steps.
  - destruct (Stopped lif); by wp_steps.
  - destruct (negb (Stopped lif)); by wp_steps.
Qed.
End node.

