(* ===== verification/NodeSafe.v ===== *)
(** * The node does not panic

    The command line ([src/cmd/node/node.go]) on a well-formed node ([NodeWf]), and the
    running node: from its configuration, command lines, goroutines, packets and timers in
    any order. *)

From S2P Require Import Prelude GoLang GoStrings Wire WireRef Ring IpWire RoutingTable Host Icmp TcpData EarlyArrivals Congestion Rto Retransmit TcpReceive TcpHandler TcpApi TcpStream TcpStates Node NodeInit NodeSockets NodeWf.


(** ** The command line *)




Section repl.
Context {N : Netstack} {I : IPv4} {P : NetIP} (B : Prop).
Implicit Types (commands : list gostring) (env : repl_env).









End repl.



(** ** The running node *)

Section running.
Context {N : Netstack} {I : IPv4} {P : NetIP} {U : NetUDP}.




(** Clearing a slot, and closing a listener whose socket is gone. *)
Lemma clear_slot_frame k n u n' tr :
  clear_slot k n = (Ok u, n', tr) →
  NTCP n' = NTCP n ∧ Lsts n' = Lsts n ∧
  ∀ i, Z.of_nat i ≠ k → open_socket (SocketIndexTable n') i = open_socket (SocketIndexTable n) i.
Proof.
  unfold clear_slot. do 2 go_unfold.
  destruct (zlookup (SocketIndexTable n) k) as [o|] eqn:Ek; [|done]. intros [= _ <- _].
  split_and!; try done. intros i Hi. simpl. unfold open_socket.
  rewrite list_lookup_insert_ne; [done|]. intros <-. apply Hi.
  destruct (Z.le_gt_cases 0 k); [lia|]. by rewrite zlookup_neg in Ek.
Qed.

Lemma close_missing_listener i q vq n :
  open_socket (SocketIndexTable n) i = Some (SListener (Some q)) → Lsts n !! q = Some vq →
  SocketTable (NTCP n) !! ListenerKey vq = None →
  run_res (CloseTCPCommand (Z.of_nat i) true) n = Panic.
Proof.
  intros Hi Hq Hs. pose proof (open_socket_bound _ _ _ Hi) as Hlt.
  unfold open_socket in Hi. destruct (SocketIndexTable n !! i) as [o|] eqn:Eo; [|done].
  simpl in Hi. subst o.
  assert (Hz : zlookup (SocketIndexTable n) (Z.of_nat i) = Some (Some (SListener (Some q)))).
  { unfold zlookup. by rewrite (proj2 (Z.leb_le _ _)), Nat2Z.id by lia. }
  unfold run_res, CloseTCPCommand, table_len, slot, clear_slot, listener_of, on_tcp, CloseListener.
  do 2 go_unfold.
  rewrite (proj2 (Z.leb_gt _ _)), (proj2 (Z.ltb_ge _ _)) by (unfold zlen; lia). simpl.
  rewrite Hz. simpl. rewrite Hz. simpl. rewrite Hq. simpl. by rewrite Hs.
Qed.

(** Configuration makes no socket. *)
Definition no_objects (n n' : Node) : Prop :=
  Conns n' = Conns n ∧ Lsts n' = Lsts n ∧ NextObj n' = NextObj n.

#[local] Instance no_objects_pre : PreOrder no_objects.
Proof. split; [done|]. intros n1 n2 n3 (?&?&?) (?&?&?). split_and!; congruence. Qed.

Lemma always_on_host {A} (m : Host.HM A) : always no_objects (on_host m).
Proof. intros n. unfold run_state, on_host. by destruct (m (NHost n)) as [[]]. Qed.


End running.

(** The end of a file transfer breaks another listener: the goroutine of [rf] closes its
    listener by the address and port, so when the port has been taken again after [cl] it
    removes the socket of the new listener, whose descriptor stays in the table; closing that
    descriptor is then a nil pointer dereference that ends the node. *)
Theorem readfile_close_breaks_listener {N : Netstack} lp q vl vq li ci total i n n' next tr :
  Lsts n !! lp = Some vl → Lsts n !! q = Some vq → q ≠ lp → ListenerKey vq = ListenerKey vl →
  open_socket (SocketIndexTable n) i = Some (SListener (Some q)) →
  Z.of_nat i ≠ li → Z.of_nat i ≠ ci →
  ReadFile_closed lp li ci total n = (Ok next, n', tr) →
  open_socket (SocketIndexTable n') i = Some (SListener (Some q)) ∧
  SocketTable (NTCP n') !! ListenerKey vq = None ∧
  run_res (CloseTCPCommand (Z.of_nat i) true) n' = Panic.
Proof.
  intros Hlp Hq Hne Hkey Hi Hli Hci E. unfold ReadFile_closed in E.
  apply go_bind_inv in E as ([q0 vl0] & n1 & t1 & t2 & E1 & E & _).
  apply listener_of_run in E1 as (-> & [= <-] & Hvl). rewrite Hlp in Hvl. injection Hvl as <-.
  apply go_bind_inv in E as (vl' & n2 & t3 & t4 & E2 & E & _).
  assert (H2 : SocketTable (NTCP n2) !! ListenerKey vl = None ∧ Lsts n2 = Lsts n ∧
    SocketIndexTable n2 = SocketIndexTable n).
  { unfold on_tcp in E2. destruct (CloseListener vl (NTCP n)) as [[r h2] tr2] eqn:Ec.
    injection E2 as -> <- _. split; [|done]. simpl. unfold CloseListener in Ec.
    apply go_bind_inv in Ec as (? & ? & ? & ? & _ & Ec & _).
    apply go_bind_inv in Ec as (? & ? & ? & ? & _ & Ec & _).
    apply go_bind_inv in Ec as (? & ? & ? & ? & _ & Ec & _).
    apply go_bind_inv in Ec as (? & ? & ? & ? & Ed & Ec & _).
    injection Ed as _ <- _. injection Ec as _ <- _. apply lookup_delete_eq. }
  destruct H2 as (HT2 & HL2 & HI2).
  apply go_bind_inv in E as (u & n3 & t5 & t6 & E3 & E & _). injection E3 as _ <- _.
  apply go_bind_inv in E as (u1 & n4 & t7 & t8 & E4 & E & _).
  apply go_bind_inv in E as (u2 & n5 & t9 & t10 & E5 & E & _).
  apply go_bind_inv in E as (u3 & n6 & t11 & t12 & E6 & E & _). injection E6 as _ <- _.
  apply go_bind_inv in E as (u4 & n7 & t13 & t14 & E7 & E & _). injection E7 as _ <- _.
  injection E as _ <- _.
  destruct (clear_slot_frame _ _ _ _ _ E4) as (HT4 & HL4 & Ho4).
  destruct (clear_slot_frame _ _ _ _ _ E5) as (HT5 & HL5 & Ho5). simpl in *.
  assert (Hopen : open_socket (SocketIndexTable n5) i = Some (SListener (Some q))).
  { rewrite Ho5, Ho4 by done. by rewrite HI2. }
  assert (Hnone : SocketTable (NTCP n5) !! ListenerKey vq = None) by (by rewrite HT5, HT4, Hkey).
  assert (Hl5 : Lsts n5 !! q = Some vq).
  { rewrite HL5, HL4, lookup_insert_ne by done. by rewrite HL2. }
  split; [done|]. split; [done|]. by eapply close_missing_listener.
Qed.


(** The node of [demo_texts]. *)
Definition demo_env : repl_env := mkEnv 100 [] [] [] [] (λ _, None).

Definition demo_start : Node :=
  run_state (@InitNodeFromLNX only_IPv4 demo_udp (Some (str "localhost 5000" :: demo_texts)) true
    (interfaces 0 demo_lines) (interfaces 0 demo_lines)) blank_node.



(** A run of the command [rf]: a connection is accepted, the listener is closed with [cl],
    its descriptor goes to another listener and its port to a third one, and the connection
    ends. *)
Definition demo_repl (line : gostring) (n : Node) : Node :=
  run_state (@REPL _ _ only_IPv4 line demo_env) n.

Definition demo_rf1 : Node := run_state (ReadFileTCPCommand true 5000) demo_start.
Definition demo_peer : VTCPConn :=
  mkVTCPConn (mkSocketData (HLocalAddr (NTCP demo_start)) 5000 1 1025) false false.
Definition demo_rf2 : Node := run_state (ReadFile_accepted 0 0 (inl demo_peer)) demo_rf1.
Definition demo_rf3 : Node := demo_repl (str "cl 0") demo_rf2.
Definition demo_rf4 : Node := demo_repl (str "a 6000") demo_rf3.
Definition demo_rf5 : Node := demo_repl (str "a 5000") demo_rf4.
Definition demo_rf6 : Node := run_state (ReadFile_closed 0 0 1 0) demo_rf5.

(** A run that returns, with its result and trace left open. *)
Definition returns {S E A} (m : GoM S E A) (s : S) : bool :=
  match run_res m s with Ok _ => true | _ => false end.

Lemma returns_run {S E A} (m : GoM S E A) s :
  returns m s = true → ∃ a tr, m s = (Ok a, run_state m s, tr).
Proof.
  unfold returns, run_res, run_state. destruct (m s) as [[[a| |] s'] tr]; try done. by exists a, tr.
Qed.



(** The third listener is descriptor 2; closing it ends the node. *)
Lemma readfile_close_breaks_listener_witness :
  SocketIndexTable demo_rf6 = [None; None; Some (SListener (Some 3%nat))] ∧
  run_res (CloseTCPCommand 2 true) demo_rf6 = Panic.
Proof.
  split; [by vm_compute|].
  destruct (returns_run (ReadFile_closed 0 0 1 0) demo_rf5) as (next & tr & E); [by vm_compute|].
  destruct (Lsts demo_rf5 !! 0%nat) as [vl|] eqn:El; [|by vm_compute in El].
  destruct (Lsts demo_rf5 !! 3%nat) as [vq|] eqn:Eq; [|by vm_compute in Eq].
  apply (readfile_close_breaks_listener 0 3 vl vq 0 1 0 2%nat demo_rf5 demo_rf6 next tr).
  - exact El.
  - exact Eq.
  - done.
  - vm_compute in El, Eq. injection El as <-. injection Eq as <-. done.
  - by vm_compute.
  - done.
  - done.
  - exact E.
Defined.

