(* ===== verification/FileTransfer.v ===== *)
(** * The transfer of a file

    The command [sf] of one node and the command [rf] of another one
    ([src/cmd/node/node_tcp_commands.go]) over the connection and the network of
    [Delivery]: the loop that reads the file in chunks and writes them to the connection,
    the loop that reads from the connection and writes to the other file, and, between
    their steps, any steps of the TCP goroutines, of the timer and of the network.  The
    transfer is followed up to the close of the connection. *)

From S2P Require Import Prelude GoLang GoStrings Wire WireRef Ring TcpData EarlyArrivals Congestion Rto Retransmit TcpReceive TcpHandler TcpApi TcpStream TcpStates Handshake TcpSend Delivery IpWire RoutingTable Host Node NodeSockets.

(** ** The loops as steps *)

Section resume.
Context {N : Netstack}.

(** [SendFileTCPCommand] goes on from where it is; [l] is the TCB of the connection and
    [amountRead] what [f.Read] reads. *)
Definition SendFile_resume (l : loc) (amountRead : Z) (at_ : sendfile_next) : NM sendfile_next :=
  match at_ with
  | SFRead p socketID rest bytesWritten =>
      SendFile_chunk p socketID rest bytesWritten amountRead false
  | SFWrite p socketID rest chunk bytesWritten (WriteMore a) =>
      next ← on_tcp (on_tcb l (Write_turn chunk a));
      mret (SFWrite p socketID rest chunk bytesWritten next)
  | SFWrite p socketID rest chunk bytesWritten (WriteWait a) =>
      '(_, vc) ← conn_of (Some p);
      next ← on_tcp (on_tcb l (Write_wake chunk a (WriteCancelled vc)));
      mret (SFWrite p socketID rest chunk bytesWritten next)
  | SFWrite p socketID rest chunk bytesWritten (WriteReturn n err) =>
      SendFile_written p socketID rest bytesWritten n err
  | _ => mret at_
  end.

(** The goroutine of [ReadFileTCPCommand] goes on; no error of [f.Write]. *)
Definition ReadFile_resume (l : loc) (at_ : readfile_next) : NM readfile_next :=
  match at_ with
  | RFRead lp p listenerIndex connIndex total buf (ReadWait a) =>
      next ← on_tcp (on_tcb l (Read_wake 4096 a));
      mret (RFRead lp p listenerIndex connIndex total buf next)
  | RFRead lp p listenerIndex connIndex total buf (ReadCopy a n) =>
      '(buf, a) ← on_tcp (on_tcb l (Read_copy buf a n));
      next ← on_tcp (on_tcb l (Read_head 4096 false a));
      mret (RFRead lp p listenerIndex connIndex total buf next)
  | RFRead lp p listenerIndex connIndex total buf (ReadReturn n err) =>
      ReadFile_returned lp p listenerIndex connIndex total buf n err false
  | _ => mret at_
  end.
End resume.

(** What is written to the file. *)
Definition file_writes (tr : list node_eff) : list byte :=
  mjoin (omap (λ e, match e with NFileWrite b => Some b | _ => None end) tr).

Lemma file_writes_app t1 t2 : file_writes (t1 ++ t2) = file_writes t1 ++ file_writes t2.
Proof.
  unfold file_writes. by rewrite omap_app, join_app.
Qed.

(** TCP writes to no file. *)
Lemma file_writes_tcp {A} (m : TcpHandler.HM A) n r n' tr :
  on_tcp m n = (r, n', tr) → file_writes tr = [].
Proof.
  unfold on_tcp. destruct (m (NTCP n)) as [[r' h'] tr']. intros [= _ _ <-].
  induction tr' as [|e tr' IH]; [done|]. by simpl.
Qed.

(** ** The system *)

Record transfer := mkTransfer {
  snode : Node;
  rnode : Node;
  sapp : sendfile_next;
  rapp : readfile_next;
  twire : list (list byte);
  tacks : list (list byte);
  tplan : Z * Z;
  (** the content of the file that is written *)
  copied : list byte
}.

Definition tcb_at (l : loc) (n : Node) : option TCB := TCBs (NTCP n) !! l.
Definition set_tcb (l : loc) (t : TCB) (n : Node) : Node :=
  set_NTCP (set_TCBs (<[l := t]> (TCBs (NTCP n))) (NTCP n)) n.

Section transfer.
Context {N : Netstack} {NL : NetstackLaws N}.
(** Addresses, ports, the TCBs of the connection at the two nodes. *)
Context (sa ra sp rp : Z) (sl rl : loc).
Hypothesis Hsp : is_u16 sp.
Hypothesis Hrp : is_u16 rp.

Inductive transfer_step (s : transfer) : transfer → Prop :=
  (** goroutines of TCP, timer, network *)
  | transfer_net snd rcv c' :
      tcb_at sl (snode s) = Some snd → tcb_at rl (rnode s) = Some rcv →
      net_step sa ra sp rp (mkSys snd rcv (twire s) (tacks s) (tplan s) []) c' →
      transfer_step s (mkTransfer (set_tcb sl (sender c') (snode s))
        (set_tcb rl (receiver c') (rnode s)) (sapp s) (rapp s) (wire c') (acks c') (plan c')
        (copied s))
  (** [sf]; a read of the file gives some of its next bytes *)
  | transfer_send amountRead at' n' tr :
      (∀ p socketID rest bytesWritten, sapp s = SFRead p socketID rest bytesWritten →
         0 < amountRead ≤ Z.min 1024 (zlen rest)) →
      SendFile_resume sl amountRead (sapp s) (snode s) = (Ok at', n', tr) →
      transfer_step s (mkTransfer n' (rnode s) at' (rapp s) (twire s) (tacks s) (tplan s)
        (copied s))
  (** [rf]; the sequence numbers do not wrap around *)
  | transfer_recv at' n' tr :
      (∀ t, tcb_at rl (rnode s) = Some t → read_room t) →
      ReadFile_resume rl (rapp s) (rnode s) = (Ok at', n', tr) →
      transfer_step s (mkTransfer (snode s) n' (sapp s) at' (twire s) (tacks s) (tplan s)
        (copied s ++ file_writes tr)).

(** ** Calls on the TCB of the connection *)

(** Steps that keep the socket table of TCP and the connections of the node. *)
Definition keeps (n n' : Node) : Prop :=
  SocketTable (NTCP n') = SocketTable (NTCP n) ∧ Conns n' = Conns n.

Lemma tcb_at_set l t n : tcb_at l (set_tcb l t n) = Some t.
Proof. unfold tcb_at, set_tcb. simpl. by rewrite lookup_insert_eq. Qed.

Lemma set_tcb_keeps l t n : keeps n (set_tcb l t n).
Proof. done. Qed.

Lemma on_tcb_inv {A} l (m : TM A) t n a n' tr :
  tcb_at l n = Some t → on_tcp (on_tcb l m) n = (Ok a, n', tr) →
  ∃ t' tr', m t = (Ok a, t', tr') ∧ n' = set_tcb l t' n ∧ file_writes tr = [].
Proof.
  unfold tcb_at, on_tcp, on_tcb. intros -> E. destruct (m t) as [[r t'] tr'] eqn:Em.
  injection E as -> <- <-. exists t', tr'. split_and!; [done..|].
  by eapply (file_writes_tcp (λ h, (Ok a, h, (l,.) <$> tr')) n).
Qed.

(** The object behind the pointer of a connection with the key [key]. *)
Definition conn_at (p : nat) (key : SocketData) (n : Node) : Prop :=
  ∃ vc, Conns n !! p = Some vc ∧ SocketTableKey vc = key.

Lemma conn_of_inv p key n r n' tr :
  conn_at p key n → conn_of (Some p) n = (Ok r, n', tr) →
  n' = n ∧ tr = [] ∧ SocketTableKey r.2 = key.
Proof.
  intros (vc & Hp & Hk) E. unfold conn_of in E. do 2 go_unfold. simpl in E. rewrite Hp in E.
  by injection E as <- <- <-.
Qed.

Lemma Write_node_inv key l vc data t n next n' tr :
  SocketTableKey vc = key → SocketTable (NTCP n) !! key = Some l → tcb_at l n = Some t →
  on_tcp (Write vc data) n = (Ok next, n', tr) →
  keeps n n' ∧
  ((∃ m err, next = WriteReturn m (Some err)) ∧ tcb_at l n' = Some t ∨
   ∃ t' tr', Write_turn data 0 t = (Ok next, t', tr') ∧ tcb_at l n' = Some t').
Proof.
  unfold tcb_at, on_tcp, Write. intros <- Hl Ht E. destruct (WriteCancelled vc).
  { injection E as <- <- _. split; [done|]. left. eauto. }
  do 2 go_unfold. simpl in E. rewrite Hl in E. unfold on_tcb in E. rewrite Ht in E. simpl in E.
  rewrite insert_id in E by done. simpl in E. destruct (TimeoutCancelled t).
  { injection E as <- <- _. split; [done|]. left. eauto. }
  simpl in E. rewrite Ht in E. destruct (Write_turn data 0 t) as [[r t'] tr'] eqn:Ew.
  injection E as -> <- _. split; [done|]. right. exists t', tr'. split; [done|]. simpl.
  by rewrite lookup_insert_eq.
Qed.

Lemma Read_node_inv key l vc amount readAll t n next n' tr :
  SocketTableKey vc = key → SocketTable (NTCP n) !! key = Some l → tcb_at l n = Some t →
  on_tcp (Read vc amount readAll) n = (Ok next, n', tr) →
  keeps n n' ∧ file_writes tr = [] ∧
  ((∃ m err, next = ReadReturn m (Some err)) ∧ tcb_at l n' = Some t ∨
   ∃ t' tr', Read_enter amount readAll t = (Ok next, t', tr') ∧ tcb_at l n' = Some t').
Proof.
  intros <- Hl Ht E. unfold Read in E. destruct (ReadCancelled vc).
  { injection E as <- <- <-. split_and!; try done. left. eauto. }
  assert (E' : on_tcp (on_tcb l (Read_enter amount readAll)) n = (Ok next, n', tr)).
  { unfold on_tcp in *. revert E. do 2 go_unfold. rewrite Hl.
    by destruct (on_tcb l _ (NTCP n)) as [[r h] t1]. }
  destruct (on_tcb_inv _ _ _ _ _ _ _ Ht E') as (t' & tr' & Er & -> & Hw).
  split_and!; try done. right. exists t', tr'. split; [done|]. apply tcb_at_set.
Qed.

(** ** Where a call to [Read] is *)

(** [pending]: what the call has put into its buffer so far. *)
Definition read_at (t : TCB) (pending buf : list byte) (next : read_next) : Prop :=
  match next with
  | ReadReturn n None => 0 ≤ n ≤ 4096 ∧ pending = ztake n buf
  | ReadReturn _ (Some _) => True
  | ReadWait a => 0 ≤ a < 4096 ∧ pending = ztake a buf
  | ReadCopy a n =>
      0 ≤ a ∧ 0 < n ≤ RCV_NXT (RCV t) - RCV_LBR (RCV t) ∧ a + n ≤ 4096 ∧ pending = ztake a buf
  end.

Lemma Read_size_at st t a buf next t' tr :
  rcv_inv st t → RCV_LBR (RCV t) ≠ RCV_NXT (RCV t) → 0 ≤ a < 4096 →
  Read_size 4096 a t = (Ok next, t', tr) → t' = t ∧ read_at t (ztake a buf) buf next.
Proof.
  intros [] Hne Ha E. unfold Read_size in E. go_unfold. simpl in E. unfold MAX_BUF_SIZE in *.
  u32_norm. injection E as <- <- _. split; [done|]. simpl. bool_hyps; split_and!; (done || lia).
Qed.

Lemma Read_head_at st t a buf next t' tr :
  rcv_inv st t → 0 ≤ a ≤ 4096 → Read_head 4096 false a t = (Ok next, t', tr) →
  t' = t ∧ read_at t (ztake a buf) buf next.
Proof.
  intros Hinv Ha E. unfold Read_head in E.
  rewrite (go_bind_ok get _ t t t []) in E by done.
  destruct (Z.ltb_spec a 4096); [|by injection E as <- <- _].
  destruct (Z.eqb_spec (RCV_LBR (RCV t)) (RCV_NXT (RCV t))) as [He|He].
  - destruct (negb false && _); [by injection E as <- <- _|].
    destruct (read_closed t); injection E as <- <- _; [done|]. split; [done|]. simpl. split; [lia|done].
  - destruct (Read_size 4096 a t) as [[r t1] tr1] eqn:Es. injection E as -> -> _.
    eapply Read_size_at; try done. lia.
Qed.

Lemma Read_wake_at st t a buf next t' tr :
  rcv_inv st t → 0 ≤ a < 4096 → Read_wake 4096 a t = (Ok next, t', tr) →
  t' = t ∧ read_at t (ztake a buf) buf next.
Proof.
  intros Hinv Ha E. unfold Read_wake in E.
  rewrite (go_bind_ok (emit ELock) _ t tt t [ELock]), (go_bind_ok get _ t t t []) in E by done.
  destruct (Z.eqb_spec (RCV_LBR (RCV t)) (RCV_NXT (RCV t))) as [He|He].
  - destruct (read_closed t); injection E as <- <- _; [done|]. split; [done|]. simpl. split; [lia|done].
  - destruct (Read_size 4096 a t) as [[r t1] tr1] eqn:Es. injection E as -> -> _.
    by eapply Read_size_at.
Qed.

Lemma Read_enter_at st t buf next t' tr :
  rcv_inv st t → Read_enter 4096 false t = (Ok next, t', tr) →
  t' = t ∧ read_at t [] buf next.
Proof.
  intros Hinv E. unfold Read_enter in E.
  rewrite (go_bind_ok (emit ELock) _ t tt t [ELock]), (go_bind_ok get _ t t t []) in E by done.
  destruct (TimeoutCancelled t); [by injection E as <- <- _|].
  destruct (_ && _); [by injection E as <- <- _|].
  destruct (Read_head 4096 false 0 t) as [[r t1] tr1] eqn:Es. injection E as -> -> _.
  by eapply (Read_head_at st t 0).
Qed.

(** ** The invariant *)

Section file.
(** The file, and the sequence number of its first byte. *)
Context (file : list byte) (back : Z → byte) (start : Z).

(** The file as the stream of the connection. *)
Definition file_stream (x : Z) : byte := default x00 (zlookup file (x - start)).

Lemma file_carries pre chunk rest a :
  file = pre ++ chunk ++ rest → 0 ≤ a ≤ zlen chunk →
  carries file_stream (start + zlen pre + a) (zdrop a chunk).
Proof.
  intros Hf Ha d Hd. rewrite zlen_zdrop in Hd by lia. pose proof (zlen_nonneg pre).
  rewrite zlookup_zdrop by lia. unfold file_stream. rewrite Hf, !zlookup_app.
  bool_hyps; try lia.
  replace (start + zlen pre + a + d - start - zlen pre) with (a + d) by lia.
  destruct (zlookup_is_Some chunk (a + d)) as [b Hb]; [lia|]. by rewrite Hb.
Qed.

Lemma stretch_file n : 0 ≤ n ≤ zlen file → stretch file_stream start n = ztake n file.
Proof.
  intros Hn. symmetry.
  assert (Hc : carries file_stream start (ztake n file)).
  { pose proof (file_carries [] (ztake n file) (zdrop n file) 0) as Hc.
    change (zlen []) with 0 in Hc. rewrite !Z.add_0_r in Hc. apply Hc.
    - symmetry. apply ztake_zdrop.
    - pose proof (zlen_nonneg (ztake n file)). lia. }
  rewrite (carries_eq _ _ _ Hc). by rewrite zlen_ztake.
Qed.

(** How far [sf] is: what is written up to [lbw] is the file up to there. *)
Definition send_at (n : Node) (lbw : Z) (at_ : sendfile_next) : Prop :=
  match at_ with
  | SFRead p _ rest _ =>
      conn_at p (skey sa ra sp rp) n ∧ ∃ pre, file = pre ++ rest ∧ lbw = start + zlen pre
  | SFWrite p _ rest chunk _ next =>
      conn_at p (skey sa ra sp rp) n ∧ 0 < zlen chunk ≤ 1024 ∧
      ∃ pre, file = pre ++ chunk ++ rest ∧
        match next with
        | WriteMore a => 0 ≤ a ≤ zlen chunk ∧ lbw = start + zlen pre + a
        | WriteWait a => 0 ≤ a < zlen chunk ∧ lbw = start + zlen pre + a
        | WriteReturn _ None => lbw = start + zlen pre + zlen chunk
        | WriteReturn _ (Some _) => True
        end
  | _ => True
  end.

Definition send_live (n : Node) (snd : TCB) (at_ : sendfile_next) : Prop :=
  tcb_at sl n = Some snd ∧ SocketTable (NTCP n) !! skey sa ra sp rp = Some sl ∧
  SND_LBW (SND snd) ≤ start + zlen file ∧ send_at n (SND_LBW (SND snd)) at_.

(** How far [rf] is; [pending] has been read but is not in the file yet. *)
Definition recv_live (n : Node) (rcv : TCB) (pending out : list byte) (at_ : readfile_next) : Prop :=
  tcb_at rl n = Some rcv ∧ SocketTable (NTCP n) !! rkey sa ra sp rp = Some rl ∧
  match at_ with
  | RFRead _ p _ _ total buf next =>
      conn_at p (rkey sa ra sp rp) n ∧ zlen buf = 4096 ∧ total = u32 (zlen out) ∧
      read_at rcv pending buf next
  | _ => False
  end.

Definition connection (s : transfer) (snd rcv : TCB) (pending : list byte) : sys :=
  mkSys snd rcv (twire s) (tacks s) (tplan s) (copied s ++ pending).

Definition live (s : transfer) : Prop :=
  ∃ snd rcv pending,
    send_live (snode s) snd (sapp s) ∧ recv_live (rnode s) rcv pending (copied s) (rapp s) ∧
    inv sa ra sp rp file_stream back start (connection s snd rcv pending).

(** [rf] has left its loop. *)
Definition left_loop (s : transfer) : Prop :=
  copied s `prefix_of` file ∧
  match rapp s with
  | RFRead _ _ _ _ _ _ _ | RFAccept _ _ _ => False
  | RFReturn | RFClose _ _ _ _ _ _ => True
  end.

Lemma send_live_lbw n snd at_ lbw' t' n' at' :
  send_live n snd at_ → keeps n n' → tcb_at sl n' = Some t' → SND_LBW (SND t') = lbw' →
  lbw' ≤ start + zlen file → send_at n' lbw' at' → send_live n' t' at'.
Proof. intros (_ & Ht & _ & _) [Hk _] Hat <- Hle Hs. unfold send_live. by rewrite Hk. Qed.

Lemma conn_at_keeps p key n n' : keeps n n' → conn_at p key n → conn_at p key n'.
Proof. intros [_ Hc] (vc & Hp & Hk). exists vc. by rewrite Hc. Qed.

(** The write of a chunk has moved on. *)
Lemma send_moves n n' snd t' p id rest chunk bw pre a next at_ :
  send_live n snd at_ → keeps n n' → tcb_at sl n' = Some t' → conn_at p (skey sa ra sp rp) n →
  0 < zlen chunk ≤ 1024 → 0 ≤ a ≤ zlen chunk → file = pre ++ chunk ++ rest →
  SND_LBW (SND snd) = start + zlen pre + a →
  write_moves (zlen chunk) a next snd t' →
  send_live n' t' (SFWrite p id rest chunk bw next).
Proof.
  intros Hlive Hk Hat Hc Hlen Ha Hf HL Hm. pose proof (zlen_nonneg rest).
  assert (zlen file = zlen pre + (zlen chunk + zlen rest)) by (by rewrite Hf, !zlen_app).
  apply (conn_at_keeps _ _ _ _ Hk) in Hc. pose proof Hlive as (_ & _ & Hle & _).
  destruct next as [m [err|]|b|b]; simpl in Hm.
  - subst t'. apply (send_live_lbw n snd at_ _ snd n' _ Hlive Hk Hat eq_refl Hle).
    split_and!; [done|lia|lia|]. by exists pre.
  - destruct Hm as (-> & -> & ->). apply (send_live_lbw n snd at_ _ snd n' _ Hlive Hk Hat eq_refl Hle).
    split_and!; [done|lia|lia|]. by exists pre.
  - destruct Hm as (-> & Hlt & ->). apply (send_live_lbw n snd at_ _ snd n' _ Hlive Hk Hat eq_refl Hle).
    split_and!; [done|lia|lia|]. exists pre. split_and!; [done|lia..].
  - destruct Hm as [Hb HL']. apply (send_live_lbw n snd at_ _ t' n' _ Hlive Hk Hat HL'); [lia|].
    split_and!; [done|lia|lia|]. exists pre. split_and!; [done|lia..].
Qed.

(** [sf] goes on. *)
Lemma send_resume_live w hi pl n snd at_ k at' n' tr :
  send_live n snd at_ → sender_ok sa ra file_stream back w hi pl snd →
  (∀ p id rest bw, at_ = SFRead p id rest bw → 0 < k ≤ Z.min 1024 (zlen rest)) →
  SendFile_resume sl k at_ n = (Ok at', n', tr) →
  ∃ snd', send_live n' snd' at' ∧ sender_ok sa ra file_stream back w hi pl snd' ∧
    SND_NXT (SND snd') = SND_NXT (SND snd) ∧ SND_UNA (SND snd') = SND_UNA (SND snd) ∧
    SND_WND (SND snd') = SND_WND (SND snd).
Proof.
  intros Hlive Hok Hk E. pose proof Hlive as (Ht & Htab & Hle & Hat).
  destruct at_ as [err|f cc next|p id rest bw|p id rest chunk bw next|p id next];
    try (injection E as <- <- _; by exists snd).
  - specialize (Hk _ _ _ _ eq_refl). destruct Hat as (Hc & pre & Hf & HL).
    cbn [SendFile_resume] in E. unfold SendFile_chunk in E.
    destruct (Z.eqb_spec k 0); [lia|].
    apply go_bind_inv in E as ([q vc] & n1 & tr1 & tr2 & E1 & E & _).
    destruct (conn_of_inv _ _ _ _ _ _ Hc E1) as (-> & -> & Hkey).
    apply go_bind_inv in E as (next & n2 & tr3 & tr4 & E2 & E & _). injection E as <- <- _.
    destruct (Write_node_inv _ _ _ _ _ _ _ _ _ Hkey Htab Ht E2) as [Hkeep Hw].
    assert (Hlen : zlen (ztake k rest) = k) by (apply zlen_ztake; lia).
    assert (Hf' : file = pre ++ ztake k rest ++ zdrop k rest) by (by rewrite ztake_zdrop).
    destruct Hw as [[(m & err & ->) Ht']|(t' & tr' & Ew & Ht')].
    + exists snd. split_and!; try done.
      eapply (send_moves n _ snd snd _ _ _ _ _ pre 0 _ _ Hlive); try done; lia.
    + destruct (sender_write sa ra file_stream back w hi pl snd (ztake k rest) 0 next t' tr' Hok)
        as (Hok' & HN & HU & HW & _ & Hm); [lia|lia| |done|].
      { replace (SND_LBW (SND snd)) with (start + zlen pre + 0) by lia.
        apply (file_carries pre _ (zdrop k rest)); [done|lia]. }
      exists t'. split_and!; try done.
      eapply (send_moves n _ snd t' _ _ _ _ _ pre 0 _ _ Hlive); try done; lia.
  - destruct Hat as (Hc & Hlen & pre & Hf & Hpos). destruct next as [m err|a|a].
    + cbn [SendFile_resume] in E. unfold SendFile_written in E.
      destruct err as [err|]; injection E as <- <- _; exists snd; split_and!; try done.
      split_and!; [done..|]. split; [done|]. exists (pre ++ chunk). split; [by rewrite <-app_assoc|].
      rewrite zlen_app. lia.
    + destruct Hpos as [Ha HL]. cbn [SendFile_resume] in E.
      apply go_bind_inv in E as ([q vc] & n1 & tr1 & tr2 & E1 & E & _).
      destruct (conn_of_inv _ _ _ _ _ _ Hc E1) as (-> & -> & Hkey).
      apply go_bind_inv in E as (next & n2 & tr3 & tr4 & E2 & E & _). injection E as <- <- _.
      destruct (on_tcb_inv _ _ _ _ _ _ _ Ht E2) as (t' & tr' & Ew & -> & _).
      destruct (sender_write_wake sa ra file_stream back w hi pl snd chunk a (WriteCancelled vc) next t' tr' Hok)
        as (Hok' & HN & HU & HW & _ & Hm); [lia|lia| |done|].
      { rewrite HL. apply (file_carries pre _ rest); [done|lia]. }
      exists t'. split_and!; try done.
      eapply (send_moves n _ snd t' _ _ _ _ _ pre a _ _ Hlive); try done;
        [apply tcb_at_set|lia].
    + destruct Hpos as [Ha HL]. cbn [SendFile_resume] in E.
      apply go_bind_inv in E as (next & n2 & tr3 & tr4 & E2 & E & _). injection E as <- <- _.
      destruct (on_tcb_inv _ _ _ _ _ _ _ Ht E2) as (t' & tr' & Ew & -> & _).
      destruct (sender_write sa ra file_stream back w hi pl snd chunk a next t' tr' Hok)
        as (Hok' & HN & HU & HW & _ & Hm); [lia|lia| |done|].
      { rewrite HL. apply (file_carries pre _ rest); [done|lia]. }
      exists t'. split_and!; try done.
      eapply (send_moves n _ snd t' _ _ _ _ _ pre a _ _ Hlive); try done; apply tcb_at_set.
Qed.

(** The buffer after a copy. *)
Lemma ztake_grow (buf p : list byte) a n :
  0 ≤ a → a + n ≤ zlen buf → zlen p = n →
  let buf' := ztake a buf ++ p ++ zdrop (a + n) buf in
  zlen buf' = zlen buf ∧ ztake a buf ++ ztake n (zdrop a buf') = ztake (a + n) buf'.
Proof.
  intros Ha Hle Hp buf'. pose proof (zlen_nonneg p).
  assert (Hl : zlen (ztake a buf) = a) by (apply zlen_ztake; lia).
  split; [unfold buf'; rewrite !zlen_app, zlen_zdrop by lia; lia|].
  unfold buf', ztake, zdrop, zlen in *. rewrite Z2Nat.inj_add by lia.
  set (x := take (Z.to_nat a) buf) in *.
  replace (Z.to_nat a) with (length x) by lia. replace (Z.to_nat n) with (length p) by lia.
  rewrite drop_app_length, take_app_length. rewrite app_assoc.
  rewrite <-length_app. by rewrite take_app_length.
Qed.

Definition closing (at_ : readfile_next) : Prop :=
  match at_ with RFReturn | RFClose _ _ _ _ _ _ => True | _ => False end.

(** A new call to [Read]. *)
Lemma ReadFile_read_live n rcv out lp p li ci buf at' n' tr :
  tcb_at rl n = Some rcv → SocketTable (NTCP n) !! rkey sa ra sp rp = Some rl →
  conn_at p (rkey sa ra sp rp) n → rcv_inv file_stream rcv → zlen buf = 4096 →
  ReadFile_read lp p li ci (u32 (zlen out)) buf n = (Ok at', n', tr) →
  recv_live n' rcv [] out at' ∧ file_writes tr = [].
Proof.
  intros Ht Htab Hc Hinv Hbuf E. unfold ReadFile_read in E.
  apply go_bind_inv in E as ([q vc] & n1 & tr1 & tr2 & E1 & E & ->).
  destruct (conn_of_inv _ _ _ _ _ _ Hc E1) as (-> & -> & Hkey).
  apply go_bind_inv in E as (next & n2 & tr3 & tr4 & E2 & E & ->). injection E as <- <- <-.
  destruct (Read_node_inv _ _ _ _ _ _ _ _ _ _ Hkey Htab Ht E2) as (Hk & Hw & Hr).
  rewrite app_nil_r. split; [|done]. unfold recv_live. rewrite (proj1 Hk).
  assert (Hres : tcb_at rl n2 = Some rcv ∧ read_at rcv [] buf next).
  { destruct Hr as [[(m & err & ->) Ht']|(t' & tr' & Er & Ht')]; [done|].
    destruct (Read_enter_at _ _ buf _ _ _ Hinv Er) as [-> ?]. done. }
  destruct Hres. split_and!; try done. by eapply conn_at_keeps.
Qed.

(** A turn of a call copies into the buffer. *)
Lemma recv_copy_live s snd rcv lp p li ci buf a k at' n' tr :
  recv_live (rnode s) rcv (ztake a buf) (copied s)
    (RFRead lp p li ci (u32 (zlen (copied s))) buf (ReadCopy a k)) → read_room rcv →
  inv sa ra sp rp file_stream back start (connection s snd rcv (ztake a buf)) →
  ReadFile_resume rl (RFRead lp p li ci (u32 (zlen (copied s))) buf (ReadCopy a k)) (rnode s)
    = (Ok at', n', tr) →
  file_writes tr = [] ∧ ∃ rcv' pending',
    recv_live n' rcv' pending' (copied s) at' ∧
    inv sa ra sp rp file_stream back start (connection s snd rcv' pending').
Proof.
  intros (Ht & Htab & Hc & Hbuf & _ & Ha & Hk & Hle & _) Hroom Hinv E. cbn [ReadFile_resume] in E.
  apply go_bind_inv in E as ([buf' a'] & n1 & tr1 & tr2 & E1 & E & ->).
  destruct (on_tcb_inv _ _ _ _ _ _ _ Ht E1) as (t' & tr' & Ew & -> & Hw1).
  apply go_bind_inv in E as (next & n2 & tr3 & tr4 & E2 & E & ->). injection E as <- <- <-.
  destruct (on_tcb_inv _ _ _ _ _ _ _ (tcb_at_set _ _ _) E2) as (t2 & tr5 & Er & -> & Hw2).
  rewrite app_nil_r, file_writes_app, Hw1, Hw2. split; [done|].
  pose proof (step_inv sa ra sp rp file_stream back start Hsp Hrp _ _ Hinv
    (step_read sa ra sp rp file_stream (connection s snd rcv (ztake a buf)) buf a k buf' a' t' tr'
       Ha Hk ltac:(lia) ltac:(lia) Hroom Ew)) as Hinv'. simpl in Hinv'.
  pose proof (ro_inv _ _ _ (i_receiver _ _ _ _ _ _ _ _ Hinv)) as Hri. simpl in Hri.
  rewrite (Read_copy_ok file_stream) in Ew by (done || lia). injection Ew as <- <- <- _.
  destruct (ztake_grow buf (stretch file_stream (RCV_LBR (RCV rcv)) k) a k) as [Hlen Hgrow];
    [lia|lia|apply zlen_stretch; lia|].
  set (buf2 := ztake a buf ++ stretch _ _ k ++ zdrop (a + k) buf) in *.
  rewrite <-app_assoc, Hgrow in Hinv'.
  pose proof (ro_inv _ _ _ (i_receiver _ _ _ _ _ _ _ _ Hinv')) as Hri'. simpl in Hri'.
  destruct (Read_head_at _ _ (a + k) buf2 _ _ _ Hri' ltac:(lia) Er) as [-> Hr].
  exists (after_read k rcv), (ztake (a + k) buf2). split; [|done].
  split_and!; try done; [apply tcb_at_set|lia].
Qed.

(** [rf] goes on. *)
Lemma recv_resume_live s snd rcv pending at' n' tr :
  recv_live (rnode s) rcv pending (copied s) (rapp s) → read_room rcv →
  inv sa ra sp rp file_stream back start (connection s snd rcv pending) →
  ReadFile_resume rl (rapp s) (rnode s) = (Ok at', n', tr) →
  (closing at' ∧ file_writes tr = []) ∨
  ∃ rcv' pending',
    recv_live n' rcv' pending' (copied s ++ file_writes tr) at' ∧
    inv sa ra sp rp file_stream back start
      (mkSys snd rcv' (twire s) (tacks s) (tplan s) ((copied s ++ file_writes tr) ++ pending')).
Proof.
  intros (Ht & Htab & Hat) Hroom Hinv E. pose proof (ro_inv _ _ _ (i_receiver _ _ _ _ _ _ _ _ Hinv)) as Hri.
  simpl in Hri. destruct (rapp s) as [|lp li next|lp p li ci total buf next|]; try done.
  destruct Hat as (Hc & Hbuf & -> & Hr). destruct next as [m [err|]|a|a k]; cbn [ReadFile_resume] in E.
  - left. unfold ReadFile_returned, close_goroutine in E.
    apply go_bind_inv in E as (next & n1 & tr1 & tr2 & E1 & E & ->). injection E as <- <- <-.
    split; [done|]. rewrite app_nil_r.
    apply go_bind_inv in E1 as ([q vc] & n2 & tr3 & tr4 & E2 & E1 & ->).
    destruct (conn_of_inv _ _ _ _ _ _ Hc E2) as (-> & -> & _).
    apply go_bind_inv in E1 as ([vc' nx] & n3 & tr5 & tr6 & E3 & E1 & ->). simpl.
    rewrite file_writes_app, (file_writes_tcp _ _ _ _ _ E3). by injection E1 as _ _ <-.
  - right. destruct Hr as [Hm ->]. unfold ReadFile_returned in E.
    rewrite slice_in in E by lia. rewrite Z.sub_0_r in E. change (zdrop 0 buf) with buf in E.
    apply go_bind_inv in E as (b & n1 & ? & tr1 & E1 & E & ->). injection E1 as <- <- <-.
    apply go_bind_inv in E as (u & n1 & ? & tr2 & E1 & E & ->). injection E1 as _ <- <-.
    assert (Htot : u32 (zlen (copied s)) ⊞ m = u32 (zlen (copied s ++ ztake m buf))).
    { rewrite zlen_app, zlen_ztake by lia. unfold u32. apply Zplus_mod_idemp_l. }
    rewrite Htot in E. destruct (ReadFile_read_live _ _ _ _ _ _ _ _ _ _ _ Ht Htab Hc Hri Hbuf E) as [Hl Hw].
    assert (Hfw : file_writes ([] ++ [NFileWrite (ztake m buf)] ++ tr2) = ztake m buf).
    { rewrite !file_writes_app, Hw. simpl. unfold file_writes. simpl. by rewrite !app_nil_r. }
    rewrite Hfw. exists rcv, []. split; [done|]. by rewrite app_nil_r.
  - right. destruct Hr as [Ha ->].
    apply go_bind_inv in E as (next & n1 & tr1 & tr2 & E1 & E & ->). injection E as <- <- <-.
    destruct (on_tcb_inv _ _ _ _ _ _ _ Ht E1) as (t' & tr' & Ew & -> & Hw).
    destruct (Read_wake_at _ _ _ buf _ _ _ Hri Ha Ew) as [-> Hr].
    rewrite app_nil_r, Hw, app_nil_r. exists rcv, (ztake a buf). split; [|done].
    split_and!; try done. apply tcb_at_set.
  - right. pose proof Hr as (_ & _ & _ & ->).
    destruct (recv_copy_live s snd rcv lp p li ci buf a k at' n' tr) as (Hw & rcv' & pd & Hl & Hi);
      [done..|].
    exists rcv', pd. by rewrite Hw, app_nil_r.
Qed.

(** Every step keeps the transfer alive, or [rf] leaves its loop with a prefix. *)
Lemma live_prefix s : live s → copied s `prefix_of` file.
Proof.
  intros (snd & rcv & pending & (_ & _ & Hle & _) & _ & Hinv).
  destruct Hinv as [Hs Hr Hu Hb _ _ Hgot]. simpl in *.
  destruct Hs as [[] _ _ _ _ _ _ _ _], Hr as [[] _ _ _ ? _], Hb as [Hb _]. simpl in *.
  rewrite stretch_file in Hgot by lia. transitivity (copied s ++ pending); [by exists pending|]. rewrite Hgot.
  exists (zdrop (RCV_LBR (RCV rcv) - start) file). symmetry. apply ztake_zdrop.
Qed.

Lemma transfer_step_live s s' :
  transfer_step s s' → live s ∨ left_loop s → live s' ∨ left_loop s'.
Proof.
  intros Hstep [Hlive|[Hp Hleft]].
  - pose proof (live_prefix s Hlive) as Hpre. destruct Hlive as (snd & rcv & pd & Hs & Hr & Hinv).
    destruct Hstep as [snd0 rcv0 c' Hs0 Hr0 Hnet|k at' n' tr Hk E|at' n' tr Hroom E].
    + left. pose proof Hs as (Hs1 & Hs2 & Hs3 & Hs4). pose proof Hr as (Hr1 & Hr2 & Hr3).
      rewrite Hs1 in Hs0. rewrite Hr1 in Hr0. injection Hs0 as <-. injection Hr0 as <-.
      destruct (net_step_got _ _ _ _ _ _ (copied s ++ pd) Hnet) as [_ Hnet']. simpl in Hnet'.
      destruct (net_step_frame _ _ _ _ _ _ _ Hsp Hrp _ _ Hinv Hnet') as (HL & HB & HN). simpl in *.
      exists (sender c'), (receiver c'), pd. split_and!.
      * split_and!; [apply tcb_at_set|done|by simpl; rewrite HL|]. simpl. by rewrite HL.
      * split_and!; [apply tcb_at_set|done|]. simpl. destruct (rapp s) as [| |lp p li ci tt0 buf next|]; try done.
        destruct Hr3 as (? & ? & ? & Hr3). split_and!; try done.
        destruct next as [m [err|]|a|a k]; try done. simpl in *. rewrite HB.
        destruct Hr3 as (? & ? & ? & ?). split_and!; (done || lia).
      * by apply (net_step_inv _ _ _ _ _ _ _ Hsp Hrp _ _ Hinv).
    + left. destruct (send_resume_live _ _ _ _ _ _ _ _ _ _ Hs (i_sender _ _ _ _ _ _ _ _ Hinv) Hk E)
        as (snd' & Hs' & Hok & HN & HU & HW).
      exists snd', rcv, pd. split_and!; [done..|].
      by apply (inv_sender _ _ _ _ _ _ _ _ _ Hinv).
    + destruct (recv_resume_live s snd rcv pd at' n' tr) as [[Hc Hw]|(rcv' & pd' & Hr' & Hinv')];
        [done|apply Hroom, Hr|done|done| |].
      * right. unfold left_loop. simpl. rewrite Hw, app_nil_r. split; [done|]. by destruct at'.
      * left. by exists snd, rcv', pd'.
  - right. destruct Hstep as [snd0 rcv0 c' Hs0 Hr0 Hnet|k at' n' tr Hk E|at' n' tr Hroom E]; try done.
    destruct (rapp s) eqn:Er; try done; injection E as <- <- <-; unfold left_loop; simpl;
      rewrite app_nil_r; done.
Qed.

Lemma transfer_steps_live s s' :
  rtc transfer_step s s' → live s ∨ left_loop s → live s' ∨ left_loop s'.
Proof. induction 1; eauto using transfer_step_live. Qed.
End file.
End transfer.

(** ** The start of the transfer *)

(** A new connection in the table of sockets. *)
Lemma new_socket_run vc n :
  ∃ id n', (p ← new_conn vc; i ← AddToTable (SConn (Some p)); mret (p, i)) n
      = (Ok (NextObj n, id), n', []) ∧
    NTCP n' = NTCP n ∧ Conns n' = <[NextObj n := vc]> (Conns n).
Proof.
  set (n1 := run_state (new_conn vc) n).
  destruct (AddToTable_run (SConn (Some (NextObj n))) n1) as (i & n' & Hadd & _ & _ & Hn').
  exists (Z.of_nat i), n'. split; [|by rewrite Hn'].
  rewrite (go_bind_ok (new_conn vc) _ n (NextObj n) n1 []) by done.
  by rewrite (go_bind_ok _ _ _ _ _ _ Hadd).
Qed.

(** The TCB of the sender: congestion control can be on. *)
Definition with_cc (cc : bool) (t : TCB) : TCB :=
  if cc then set_SSTHRESH INIT_THRESHOLD (set_CWND INIT_CWND (set_CControlEnabled true t)) else t.

Lemma with_cc_ok cc t : snd_ok t → snd_ok (with_cc cc t).
Proof.
  intros (Hb & Hq & Hc). destruct cc; [|done]. split; [exact Hb|]. split; [exact Hq|]. intros _.
  split; simpl; unfold INIT_CWND, INIT_THRESHOLD, MSS_DATA; lia.
Qed.

Lemma inv_with_cc {N : Netstack} sa ra sp rp st back start cc s :
  inv sa ra sp rp st back start s →
  inv sa ra sp rp st back start
    (mkSys (with_cc cc (sender s)) (receiver s) (wire s) (acks s) (plan s) (got s)).
Proof.
  intros Hinv. pose proof (i_sender _ _ _ _ _ _ _ _ Hinv) as Hs.
  apply (inv_sender _ _ _ _ _ _ _ _ _ Hinv); [|by destruct cc..].
  apply (sender_ok_frame sa ra st back (wire s) (wire s) (edge s) (edge s) _ (sender s));
    try (by destruct cc). apply with_cc_ok, Hs.
Qed.

Lemma SendFile_connected_run sl file (cc : bool) vc key n snd at' n' tr :
  SocketTableKey vc = key → SocketTable (NTCP n) !! key = Some sl → tcb_at sl n = Some snd →
  SendFile_connected file cc vc n = (Ok at', n', tr) →
  ∃ p id, at' = SFRead p id file 0 ∧ conn_at p key n' ∧ SocketTable (NTCP n') !! key = Some sl ∧
    tcb_at sl n' = Some (with_cc cc snd).
Proof.
  intros Hkey Htab Ht E. destruct (new_socket_run vc n) as (id & n1 & Hn1 & HT & HC).
  unfold SendFile_connected in E.
  apply go_bind_inv in E as (p & m1 & tr1 & tr2 & E1 & E & ->).
  apply go_bind_inv in E as (i & m2 & tr3 & tr4 & E2 & E & ->).
  rewrite (go_bind_ok _ _ _ _ _ _ E1), (go_bind_ok _ _ _ _ _ _ E2) in Hn1.
  injection Hn1 as -> -> -> _.
  apply go_bind_inv in E as (u & m3 & tr5 & tr6 & E3 & E & ->). injection E as <- <- _.
  exists (NextObj n), id. split; [done|].
  assert (Hc : conn_at (NextObj n) key n1) by (exists vc; by rewrite HC, lookup_insert_eq).
  destruct cc; [|injection E3 as _ <- _; split_and!; [done|by rewrite HT|]; unfold tcb_at; by rewrite HT].
  revert E3. unfold on_tcp, SetCCForSocket, on_tcb. do 2 go_unfold. rewrite HT, Hkey, Htab. simpl.
  unfold tcb_at in Ht. rewrite Ht. simpl. intros [= _ <- _]. split_and!; [done|done|].
  unfold tcb_at. simpl. by rewrite lookup_insert_eq.
Qed.

Lemma ReadFile_accepted_live file sa ra sp rp rl start vc lp li n rcv at' n' tr :
  SocketTableKey vc = rkey sa ra sp rp → SocketTable (NTCP n) !! rkey sa ra sp rp = Some rl →
  tcb_at rl n = Some rcv → rcv_inv (file_stream file start) rcv →
  ReadFile_accepted lp li (inl vc) n = (Ok at', n', tr) →
  recv_live sa ra sp rp rl n' rcv [] [] at'.
Proof.
  intros Hkey Htab Ht Hinv E. destruct (new_socket_run vc n) as (id & n1 & Hn1 & HT & HC).
  unfold ReadFile_accepted in E.
  apply go_bind_inv in E as (p & m1 & tr1 & tr2 & E1 & E & ->).
  apply go_bind_inv in E as (i & m2 & tr3 & tr4 & E2 & E & ->).
  rewrite (go_bind_ok _ _ _ _ _ _ E1), (go_bind_ok _ _ _ _ _ _ E2) in Hn1.
  injection Hn1 as -> -> -> _.
  apply go_bind_inv in E as (u & m3 & tr5 & tr6 & E3 & E & ->). injection E3 as _ <- _.
  eapply (ReadFile_read_live sa ra sp rp rl file start n1 rcv []); [..|exact E]; try done.
  - unfold tcb_at. by rewrite HT.
  - by rewrite HT.
  - exists vc. by rewrite HC, lookup_insert_eq.
Qed.

(** The two commands start in the invariant. *)
Lemma transfer_start {N : Netstack} {NL : NetstackLaws N} sa ra sp rp sl rl file cc
    iss_c iss_s iss' kl vs vr lp li sn rn at_s at_r sn' rn' tr1 tr2 :
  0 ≤ iss_c → iss_c + 1 + MAX_BUF_SIZE < 4294967296 →
  0 ≤ iss_s → iss_s + 1 + MAX_BUF_SIZE < 4294967296 →
  SocketTableKey vs = skey sa ra sp rp → SocketTable (NTCP sn) !! skey sa ra sp rp = Some sl →
  tcb_at sl sn = Some (client_TCB iss_c iss_s iss') →
  SocketTableKey vr = rkey sa ra sp rp → SocketTable (NTCP rn) !! rkey sa ra sp rp = Some rl →
  tcb_at rl rn = Some (server_TCB iss_c iss_s kl) →
  SendFile_connected file cc vs sn = (Ok at_s, sn', tr1) →
  ReadFile_accepted lp li (inl vr) rn = (Ok at_r, rn', tr2) →
  live sa ra sp rp sl rl file (λ _, x00) (iss_c + 1)
    (mkTransfer sn' rn' at_s at_r [] [] (0, 0) []).
Proof.
  intros Hc0 Hc1 Hs0 Hs1 Hks Hts Hs Hkr Htr Hr Es Er.
  pose proof (established_inv sa ra sp rp (file_stream file (iss_c + 1)) iss_c iss_s iss' kl
    Hc0 Hc1 Hs0 Hs1) as Hinv.
  destruct (SendFile_connected_run _ _ _ _ _ _ _ _ _ _ Hks Hts Hs Es)
    as (p & id & -> & Hc & Ht' & Hs').
  assert (Hu : u32 (iss_c + 1) = iss_c + 1) by (apply u32_small; unfold MAX_BUF_SIZE in *; lia).
  exists (with_cc cc (client_TCB iss_c iss_s iss')), (server_TCB iss_c iss_s kl), [].
  assert (HL : SND_LBW (SND (with_cc cc (client_TCB iss_c iss_s iss'))) = iss_c + 1)
    by (destruct cc; exact Hu).
  split_and!.
  - pose proof (zlen_nonneg file). split_and!; [done|done|rewrite HL; lia|]. rewrite HL.
    split; [done|]. exists []. split; [done|]. change (zlen []) with 0. lia.
  - eapply ReadFile_accepted_live; try done. apply (i_receiver _ _ _ _ _ _ _ _ Hinv).
  - exact (inv_with_cc _ _ _ _ _ _ _ cc _ Hinv).
Qed.

(** ** Properties *)

(** C2: A file that is sent arrives as it is: [sf] on one node and [rf] on the other, over
    the connection that the handshake leaves, with congestion control on or off.  However
    the file is read in chunks, whatever the network loses, repeats or reorders, whenever
    the timers expire and in whatever order the loops, the TCP goroutines and the network
    take their steps, what [rf] has written to its file is a prefix of the file, and the
    number of bytes it counts is its length.  The steps are taken until the connection is
    closed and while the sequence numbers do not wrap around; the zero-window probe is not
    one of them. *)
Theorem file_transfer_prefix {N : Netstack} {NL : NetstackLaws N} (sa ra sp rp : Z) (sl rl : loc)
    (file : list byte) (cc : bool) (iss_c iss_s iss' : Z) (kl : SocketData) (vs vr : VTCPConn)
    (lp : nat) (li : Z) (sn rn sn' rn' : Node) at_s at_r tr1 tr2 (s : transfer) :
  is_u16 sp → is_u16 rp →
  0 ≤ iss_c → iss_c + 1 + MAX_BUF_SIZE < 4294967296 →
  0 ≤ iss_s → iss_s + 1 + MAX_BUF_SIZE < 4294967296 →
  SocketTableKey vs = skey sa ra sp rp → SocketTable (NTCP sn) !! skey sa ra sp rp = Some sl →
  tcb_at sl sn = Some (client_TCB iss_c iss_s iss') →
  SocketTableKey vr = rkey sa ra sp rp → SocketTable (NTCP rn) !! rkey sa ra sp rp = Some rl →
  tcb_at rl rn = Some (server_TCB iss_c iss_s kl) →
  SendFile_connected file cc vs sn = (Ok at_s, sn', tr1) →
  ReadFile_accepted lp li (inl vr) rn = (Ok at_r, rn', tr2) →
  rtc (transfer_step sa ra sp rp sl rl) (mkTransfer sn' rn' at_s at_r [] [] (0, 0) []) s →
  copied s `prefix_of` file ∧
  (∀ lp p li ci total buf next, rapp s = RFRead lp p li ci total buf next →
     total = u32 (zlen (copied s))).
Proof.
  intros Hsp Hrp Hc0 Hc1 Hs0 Hs1 Hks Hts Hs Hkr Htr Hr Es Er Hsteps.
  pose proof (transfer_start _ _ _ _ _ _ _ _ _ _ _ _ _ _ _ _ _ _ _ _ _ _ _ _
    Hc0 Hc1 Hs0 Hs1 Hks Hts Hs Hkr Htr Hr Es Er) as Hlive.
  destruct (transfer_steps_live _ _ _ _ _ _ Hsp Hrp file (λ _, x00) (iss_c + 1) _ _ Hsteps
    (or_introl Hlive)) as [Hend|[Hend Hat]].
  - split; [by eapply live_prefix|]. intros * Hat.
    destruct Hend as (snd & rcv & pd & _ & (_ & _ & Hrl) & _). rewrite Hat in Hrl. apply Hrl.
  - split; [done|]. intros * E. by rewrite E in Hat.
Qed.

(** *** A run: the file "ab" is sent and received. *)

Definition ok_or {A} (d : A) (r : res A) : A := match r with Ok a => a | _ => d end.

Definition demo_key_s : SocketData := skey 1 2 1025 80.
Definition demo_key_r : SocketData := rkey 1 2 1025 80.
Definition demo_sn : Node :=
  set_NTCP (mkTCPHandler {[ demo_key_s := 0%nat ]} {[ 0%nat := client_TCB 7 900 0 ]} 1 1 1026 [])
    demo_node.
Definition demo_rn : Node :=
  set_NTCP (mkTCPHandler {[ demo_key_r := 0%nat ]}
    {[ 0%nat := server_TCB 7 900 (mkSocketData 2 80 0 0) ]} 1 2 1025 []) demo_node.
Definition demo_sf : NM sendfile_next :=
  SendFile_connected [x61; x62] false (mkVTCPConn demo_key_s false false).
Definition demo_rf : NM readfile_next :=
  ReadFile_accepted 0 0 (inl (mkVTCPConn demo_key_r false false)).

Definition demo_send (k : Z) (x : transfer) : transfer :=
  let m := SendFile_resume 0 k (sapp x) in
  mkTransfer (run_state m (snode x)) (rnode x) (ok_or (sapp x) (run_res m (snode x))) (rapp x)
    (twire x) (tacks x) (tplan x) (copied x).
Definition demo_recv (x : transfer) : transfer :=
  let m := ReadFile_resume 0 (rapp x) in
  mkTransfer (snode x) (run_state m (rnode x)) (sapp x) (ok_or (rapp x) (run_res m (rnode x)))
    (twire x) (tacks x) (tplan x) (copied x ++ file_writes (run_trace m (rnode x))).
Definition demo_sys (x : transfer) : sys :=
  mkSys (default zero_TCB (tcb_at 0 (snode x))) (default zero_TCB (tcb_at 0 (rnode x)))
    (twire x) (tacks x) (tplan x) [].
Definition demo_net (x : transfer) (c : sys) : transfer :=
  mkTransfer (set_tcb 0 (sender c) (snode x)) (set_tcb 0 (receiver c) (rnode x)) (sapp x) (rapp x)
    (wire c) (acks c) (plan c) (copied x).

Definition demo0 : transfer :=
  mkTransfer (run_state demo_sf demo_sn) (run_state demo_rf demo_rn)
    (ok_or (SFReturn None) (run_res demo_sf demo_sn)) (ok_or RFReturn (run_res demo_rf demo_rn))
    [] [] (0, 0) [].
Definition demo1 : transfer := demo_send 2 demo0.
Definition demo2 : transfer :=
  let c := demo_sys demo1 in
  demo_net demo1 (mkSys (run_state Send_loop (sender c)) (receiver c) [] [] (2, 0) []).
Definition demo3 : transfer :=
  let c := demo_sys demo2 in
  let m := Send_segment demo_key_s 2 0 0 in
  demo_net demo2 (mkSys (run_state m (sender c)) (receiver c)
    ([] ++ messages (run_trace m (sender c))) [] (2, 2) []).
Definition demo_packet : list byte := default [] (twire demo3 !! 0%nat).
Definition demo4 : transfer :=
  let c := demo_sys demo3 in
  let m := packet_in demo_key_r (deliver demo_packet) 0 in
  demo_net demo3 (mkSys (sender c) (run_state m (receiver c)) (wire c)
    ([] ++ messages (run_trace m (receiver c))) (2, 2) []).
Definition demo5 : transfer := demo_recv demo4.
Definition demo6 : transfer := demo_recv demo5.
Definition demo7 : transfer := demo_recv demo6.

Lemma demo_recv_step x :
  (∀ t, tcb_at 0 (rnode x) = Some t → read_room t) →
  run_res (ReadFile_resume 0 (rapp x)) (rnode x)
    = Ok (ok_or (rapp x) (run_res (ReadFile_resume 0 (rapp x)) (rnode x))) →
  transfer_step 1 2 1025 80 0 0 x (demo_recv x).
Proof. intros Hroom E. eapply transfer_recv; [done|]. by apply run_eq. Qed.

Definition isSome {A} (o : option A) : bool := match o with Some _ => true | None => false end.

Lemma demo_net_step x s' :
  isSome (tcb_at 0 (snode x)) = true → isSome (tcb_at 0 (rnode x)) = true →
  net_step 1 2 1025 80 (demo_sys x) s' → transfer_step 1 2 1025 80 0 0 x (demo_net x s').
Proof.
  unfold demo_sys. destruct (tcb_at 0 (snode x)) as [snd|] eqn:Hs; [|done].
  destruct (tcb_at 0 (rnode x)) as [rcv|] eqn:Hr; [|done]. intros _ _ Hn.
  exact (transfer_net 1 2 1025 80 0 0 x _ _ s' Hs Hr Hn).
Qed.

Lemma demo_transfer : rtc (transfer_step 1 2 1025 80 0 0) demo0 demo7.
Proof.
  assert (Hroom : ∀ x t, tcb_at 0 (rnode x) = Some t →
    RCV_NXT (RCV (receiver (demo_sys x))) = 10 → read_room t).
  { intros x t Ht. unfold demo_sys. rewrite Ht. simpl. unfold read_room, MAX_BUF_SIZE. lia. }
  apply (rtc_l _ _ demo1); [|apply (rtc_l _ _ demo2); [|apply (rtc_l _ _ demo3);
    [|apply (rtc_l _ _ demo4); [|apply (rtc_l _ _ demo5); [|apply (rtc_l _ _ demo6);
    [|apply rtc_once]]]]]].
  - eapply (transfer_send 1 2 1025 80 0 0 demo0 2).
    + intros p id rest bw. vm_compute. intros [= _ _ <- _]. split; done.
    + apply run_eq. by vm_compute.
  - apply (demo_net_step demo1); [by vm_compute..|].
    apply (step_plan 1 2 1025 80 (demo_sys demo1) 2) with
      (tr := run_trace Send_loop (sender (demo_sys demo1))).
    apply run_eq. by vm_compute.
  - apply (demo_net_step demo2); [by vm_compute..|].
    apply (step_segment 1 2 1025 80 (demo_sys demo2) 2 0 2 0); [by vm_compute|done|].
    apply run_eq. by vm_compute.
  - apply (demo_net_step demo3); [by vm_compute..|].
    apply (step_data 1 2 1025 80 (demo_sys demo3) demo_packet 0).
    + apply (list_elem_of_lookup_2 _ 0%nat). by vm_compute.
    + by vm_compute.
    + apply run_eq. by vm_compute.
  - apply (demo_recv_step demo4); [|by vm_compute]. intros t Ht. apply (Hroom _ t Ht). by vm_compute.
  - apply (demo_recv_step demo5); [|by vm_compute]. intros t Ht. apply (Hroom _ t Ht). by vm_compute.
  - apply (demo_recv_step demo6); [|by vm_compute]. intros t Ht. apply (Hroom _ t Ht). by vm_compute.
Qed.

Lemma file_transfer_prefix_witness :
  copied demo7 = [x61; x62] ∧ copied demo7 `prefix_of` [x61; x62].
Proof.
  split; [by vm_compute|].
  apply (file_transfer_prefix 1 2 1025 80 0 0 [x61; x62] false 7 900 0 (mkSocketData 2 80 0 0)
    (mkVTCPConn demo_key_s false false) (mkVTCPConn demo_key_r false false) 0 0 demo_sn demo_rn
    (run_state demo_sf demo_sn) (run_state demo_rf demo_rn)
    (ok_or (SFReturn None) (run_res demo_sf demo_sn)) (ok_or RFReturn (run_res demo_rf demo_rn))
    (run_trace demo_sf demo_sn) (run_trace demo_rf demo_rn) demo7).
  - unfold is_u16. lia.
  - unfold is_u16. lia.
  - lia.
  - by vm_compute.
  - lia.
  - by vm_compute.
  - reflexivity.
  - apply lookup_singleton_eq.
  - apply lookup_singleton_eq.
  - reflexivity.
  - apply lookup_singleton_eq.
  - apply lookup_singleton_eq.
  - apply run_eq. by vm_compute.
  - apply run_eq. by vm_compute.
  - exact demo_transfer.
Defined.
